(* ===== verification/_CoqProject ===== *)
-Q . S2P
Prelude.v
Errors.v
Tcb.v
Checksum.v
Ipv4.v
Ethernet.v
Arp.v
Header.v
Ring.v
SendBuffer.v
RecvBuffer.v
Float64.v
Retransmit.v
Connection.v
StateMachine.v
Session.v
Stream.v
Network.v
Recovery.v
Completion.v
Congestion.v
Task.v
Dispatch.v
Main.v
Http.v
Chaos.v
Pcap.v
PcapIo.v
Tun.v
Host.v
HostInv.v
HostRun.v
Startup.v
Checked.v
NoPanic.v
UnitTests.v
BufferTests.v
ConnectionTests.v
TaskTests.v
