(* ===== verification/Prelude.v ===== *)
(** * Magnum-TCP: verification library, root file

    Magnum-TCP (src/magnum-tcp/) is a userspace TCP/IPv4 stack in Rust. A frame read
    from the TAP device goes through Ethernet or ARP, IPv4 and the TCP parser to a
    dispatcher keyed on the four-tuple; one task per connection owns its control
    block, its two ring buffers and its retransmission queue; what the task sends is
    framed again, captured, possibly disturbed by the chaos middleware, and written
    to the device. A demonstration HTTP server sits on top. This library is a model
    of that code, definition by definition, with the theorems that say what it
    guarantees.

    ** Conventions

    Every method is a function of the object it mutates and returns the object
    afterwards. A function that can return an error or panic returns a [Res] (below):
    index and slice bounds, u32 overflow, division by zero and [unwrap] are panics of
    the model. The buffers, the checksum, the builder and the methods of a connection
    that call them are modelled twice: as total functions, which the theorems about the
    protocol are stated for, and with every such panic (Checked, NoPanic); the two are
    shown equal on every state a connection can reach. A w-bit integer is a [Z] with its wrap-around written out, a byte
    string a [list Z], an [Instant] or a [Duration] a number of nanoseconds, an f64 a
    binary64 of the Standard Library's SpecFloat. A clock reading or a timer is an
    argument of the step that makes it. Log lines are left out. Names are those of
    the source, with the type in front where two types share a method name
    ([SendBuffer_write]); a field is prefixed where two structs share it.

    ** Files, in dependency order

    - Prelude: this file. Outcomes, machine integers, byte strings, tactics, hints.
    - Errors: error.rs.
    - Tcb: tcp/tcb.rs, the states, the control block, the modular comparison of
      sequence numbers, and the numbering of a byte stream ([seq_of], [segment_of])
      that every later theorem uses. The hash of [generate_isn] is the class
      [DefaultHasher]; nothing is assumed of its values.
    - Checksum: the two loops that ipv4.rs and tcp/header.rs share. The carry loop
      has fuel 4 ([CARRY_FUEL]); [fold_carry_closed] shows it enough for a u32.
    - Ipv4, Ethernet, Arp, Header: ipv4.rs, ethernet.rs, arp.rs, tcp/header.rs.
    - Ring, SendBuffer, RecvBuffer: tcp/send_buffer.rs and tcp/recv_buffer.rs, over
      the ring loops they share. The loop of [drain_ooo] has the number of staged
      entries as fuel, because every round removes one.
    - Float64, Retransmit: f64 and [Duration] arithmetic, and tcp/retransmit.rs.
    - Connection: tcp/connection.rs, one definition per handler and per call; then
      the invariant [conn_inv] and that every event keeps it.
    - StateMachine, Session, Stream, Network, Recovery, Completion, Congestion:
      theorems about connections: the state diagram; two connections over a perfect
      wire; one connection as a pair of byte streams; two connections over a network
      that loses, reorders and repeats; what one retransmission repairs, and that the
      whole transfer can always be completed; windows and congestion control.
    - Task: tcp/task.rs, one iteration of the biased select loop. What tokio decides
      (which branches are ready) is the argument [Poll]. [flush_send_buf] has fuel
      65537, one more than the bytes the ring can hold; [flush_enough_fuel] shows
      that it is enough, so that the loop of the code ends.
    - Dispatch: tcp/mod.rs and tcp/listener.rs. The bounded channel is the class
      [Mpsc], which states what tokio documents of [try_send]; [list_mpsc] is a
      list that has it.
    - Main: of main.rs, [parse_ip], [inbound_dispatch] and [frame_outbound] of both
      platforms.
    - Http: of main.rs, [build_http_response] and the loop of [handle_connection].
    - Chaos, Pcap: chaos.rs and pcap.rs; PcapIo has the methods of pcap.rs for any
      instance of [Write], whose calls may fail.
    - Tun: tun.rs. A method is a program that asks for system calls; the operating
      system is a function from the calls made so far to the next answer.
    - Host: of main.rs, [run]: the event loop, every connection task and application
      task, and the channels between them, as one state. A [HostEvent] is one choice
      of tokio's scheduler, with the frame read and the clocks.
    - HostInv, HostRun: the invariant of that state, and the runs of the program
      from the command line on.
    - Startup: [run] up to its loop, with the system calls that open the device and
      create the capture file.
    - Checked, NoPanic: the buffers, the checksum and the builder, and the methods of
      connection.rs on top of them, with every place where they can panic. A loop that
      runs out of fuel is a panic there: [drain_ooo] has one more than the staged
      entries, the word loop one more than the bytes, the carry loop 4.
    - UnitTests, BufferTests, ConnectionTests, TaskTests: the [mod tests] of every
      file that has one, a definition per test, evaluated on the definitions above
      (those of the connection and of the task for an initial sequence number in the
      middle of the space and for the last one).

    ** What the theorems show

    - The transport (Network, Stream, Session): over any interleaving of steps and
      deliveries, each application reads a prefix of what the other wrote and no byte
      is taken for acknowledged that has not arrived; the handshake, an exchange of
      data and the orderly close, byte by byte on the wire. After any run of
      the two there is a continuation of timeouts, transmissions, deliveries and reads
      after which each side has read all that the other wrote and knows it to be
      acknowledged ([transport_completes]); left out are the runs that send a segment
      while the retransmission queue is full, which [push] forgets, or a window probe,
      whose byte is not queued: the loss of those is final.
    - Safety (NoPanic, StateMachine, Connection): no sequence of segments, calls and
      timers makes a connection fail or panic; the handlers implement a small abstract
      machine, which moves along the diagram of RFC 793 only.
    - Flow and congestion control (Congestion): both windows are respected; slow
      start, congestion avoidance, fast retransmit, timeout.
    - The program (HostRun, Startup): whatever frames arrive and however the tasks are
      scheduled, it does not panic, it writes well-formed frames of its own ports
      only, every connection in it behaves as the model of a single connection, the
      outbound queue is first in first out, the capture is complete, no application
      asks for a close before its connection task has ended, and the start leaves the
      device and the capture file open, or nothing when it fails.
    - The task (Task): an iteration is a run of connection events whose segments are
      exactly what is sent; a segment from the inbox is handled to the end; the loop
      of [flush_send_buf] ends.
    - Buffers (SendBuffer, RecvBuffer) and retransmission (Retransmit): the rings
      implement byte streams; timeout bounds, Karn's rule, backoff, cumulative
      acknowledgement.
    - Formats (Header, Ipv4, Arp, Pcap, Tun): round trips, the checksum against its
      definition, detection of damage, layouts.
    - Front ends (Dispatch, Main, Http): isolation of connections, routing, totality
      and typing on arbitrary frames, framing of responses.
    - Chaos: no loss but the configured one, no duplication.
    - The repository's own tests pass on the model.

    Some theorems state behaviour that is not what one would wish, and say so:
    [dispatch_first_syn_not_queued], [RecvBuffer_stale_entry_blocks_drain],
    [host_never_closes] (the server sends no FIN), [http_routes] (status 200 for the path / whatever the method) and
    [http_answers_once] (a method cut in two is echoed).

    ** Bounds

    A theorem about a whole stream takes at most 2^31 - 1 bytes of it, the range
    within which modular comparison is meaningful without a window check, which the
    code does not make. Instants are below 2^64 seconds.

    ** Not modelled

    The parsing of the command line (clap), the two exits of the event loop (an error
    of the readiness future or of the read ends the program), a disk that fails under
    the running program (Host takes the writer of Pcap), the stub of tun.rs for other
    systems (it does not compile), the texts of log lines and errors, and the
    scheduling of tokio beyond what a [HostEvent] says. Of the tests, those that move
    a megabyte or ten thousand frames are too long for the kernel: the headers of the
    test files name them. Planned: the closing phase over an unreliable network. *)

From Stdlib Require Export ZArith Lia.
From stdpp Require Export base option list gmap.
From stdpp Require Import numbers.

#[global] Open Scope Z_scope.

(** ** Rust outcomes

    A Rust function of type [Result<A, E>] ends in [Ok], in [Err], or stops the
    thread with a panic (an index out of range, a division by zero, a failed
    [unwrap]).  [Res] keeps the three apart. *)
Inductive Res (E A : Type) : Type :=
  | Ok (a : A)
  | Err (e : E)
  | Panic.
Arguments Ok {E A} a.
Arguments Err {E A} e.
Arguments Panic {E A}.

(** [Res E] is a monad: [x ← m; k] is the [?] operator, which also lets a panic
    through. *)
#[global] Instance Res_bind {E} : MBind (Res E) := fun A B k r =>
  match r with
  | Ok a => k a
  | Err e => Err e
  | Panic => Panic
  end.
#[global] Instance Res_ret {E} : MRet (Res E) := fun A a => Ok a.

(** The outcome of [Option::unwrap] and of an index expression. *)
Definition unwrap {E A} (o : option A) : Res E A :=
  match o with Some a => Ok a | None => Panic end.

(** ** Machine integers

    An unsigned integer of w bits is a [Z] in [0, 2^w).  The casts and the
    wrapping operations are the ones of Rust. *)
Definition U8 : Z := 256.
Definition U16 : Z := 65536.
Definition U32 : Z := 4294967296.
Definition U64 : Z := 18446744073709551616.

Definition is_u8 (x : Z) : Prop := 0 <= x < 256.
Definition is_u16 (x : Z) : Prop := 0 <= x < 65536.
Definition is_u32 (x : Z) : Prop := 0 <= x < 4294967296.

Definition as_u8 (x : Z) : Z := x mod U8.
Definition as_u16 (x : Z) : Z := x mod U16.
Definition as_u32 (x : Z) : Z := x mod U32.
Definition as_u64 (x : Z) : Z := x mod U64.

Definition wrapping_add (a b : Z) : Z := (a + b) mod U32.
Definition wrapping_sub (a b : Z) : Z := (a - b) mod U32.
Definition saturating_add_u32 (a b : Z) : Z := Z.min (a + b) (U32 - 1).
Definition saturating_add_u8 (a b : Z) : Z := Z.min (a + b) (U8 - 1).

(** The [!] operator on a u16. *)
Definition not_u16 (x : Z) : Z := U16 - 1 - x.

(** Linear arithmetic with division and modulo by constants, after unfolding
    the machine operations. *)
Ltac unfold_words :=
  unfold is_u8, is_u16, is_u32, as_u8, as_u16, as_u32, as_u64, wrapping_add,
    wrapping_sub, saturating_add_u32, saturating_add_u8, not_u16,
    U8, U16, U32, U64 in *.
Ltac word_lia := unfold_words; Z.div_mod_to_equations; lia.

(** Case analysis on the outermost [match] of the goal or of a hypothesis,
    keeping the equation. *)
Ltac case_goal :=
  match goal with
  | |- context [match ?x with _ => _ end] =>
      lazymatch x with
      | context [match _ with _ => _ end] => fail
      | _ => destruct x eqn:?
      end
  end.
Ltac case_hyp H :=
  match type of H with
  | context [match ?x with _ => _ end] =>
      lazymatch x with
      | context [match _ with _ => _ end] => fail
      | _ => destruct x eqn:?
      end
  end.

(** Boolean tests as propositions, in the whole context. *)
Ltac bool_prop :=
  repeat match goal with
  | H : (_ && _)%bool = true |- _ => apply andb_true_iff in H as [? ?]
  | H : (_ && _)%bool = false |- _ => apply andb_false_iff in H
  | H : (_ || _)%bool = true |- _ => apply orb_true_iff in H
  | H : (_ || _)%bool = false |- _ => apply orb_false_iff in H as [? ?]
  | H : negb _ = true |- _ => apply negb_true_iff in H
  | H : negb _ = false |- _ => apply negb_false_iff in H
  | H : (_ =? _) = true |- _ => apply Z.eqb_eq in H
  | H : (_ =? _) = false |- _ => apply Z.eqb_neq in H
  | H : (_ <? _) = true |- _ => apply Z.ltb_lt in H
  | H : (_ <? _) = false |- _ => apply Z.ltb_ge in H
  | H : (_ <=? _) = true |- _ => apply Z.leb_le in H
  | H : (_ <=? _) = false |- _ => apply Z.leb_gt in H
  end.

(** ** Lengths and byte strings *)
Definition len {A} (l : list A) : Z := Z.of_nat (length l).

Definition bytes_ok (l : list Z) : Prop := Forall is_u8 l.

Lemma len_nonneg {A} (l : list A) : 0 <= len l.
Proof. unfold len; lia. Qed.

Lemma len_nil {A} : len (@nil A) = 0.
Proof. reflexivity. Qed.

Lemma len_cons {A} (x : A) l : len (x :: l) = 1 + len l.
Proof. unfold len; cbn [length]; lia. Qed.

Lemma len_app {A} (l k : list A) : len (l ++ k) = len l + len k.
Proof. unfold len; rewrite length_app; lia. Qed.

Lemma len_take {A} (l : list A) n :
  0 <= n -> len (take (Z.to_nat n) l) = Z.min n (len l).
Proof. unfold len; rewrite length_take; lia. Qed.

Lemma len_drop {A} (l : list A) n :
  0 <= n -> len (drop (Z.to_nat n) l) = Z.max 0 (len l - n).
Proof. unfold len; rewrite length_drop; lia. Qed.

Lemma len_zero_nil {A} (l : list A) : len l = 0 -> l = [].
Proof. destruct l; [done | rewrite len_cons; pose proof (len_nonneg l); lia]. Qed.

(** A zero-filled [Box<[u8; N]>] or [vec![0u8; n]].  It is kept opaque so that
    no tactic unrolls a 65536-element list. *)
Definition zeroed (n : Z) : list Z := replicate (Z.to_nat n) 0.

Lemma len_zeroed n : 0 <= n -> len (zeroed n) = n.
Proof. intros; unfold len, zeroed; rewrite length_replicate; lia. Qed.

Lemma zeroed_bytes n : bytes_ok (zeroed n).
Proof. apply Forall_replicate; unfold is_u8; lia. Qed.

#[global] Opaque zeroed.

(** ** Big-endian fields ([to_be_bytes] and [from_be_bytes]) *)
Definition u16_to_be (x : Z) : list Z := [x / 256 mod 256; x mod 256].
Definition u16_from_be (b0 b1 : Z) : Z := b0 * 256 + b1.
Definition u32_to_be (x : Z) : list Z :=
  [x / 16777216 mod 256; x / 65536 mod 256; x / 256 mod 256; x mod 256].
Definition u32_from_be (b0 b1 b2 b3 : Z) : Z :=
  b0 * 16777216 + b1 * 65536 + b2 * 256 + b3.

Lemma u16_be_roundtrip x :
  is_u16 x -> u16_from_be (x / 256 mod 256) (x mod 256) = x.
Proof. unfold u16_from_be; intros; word_lia. Qed.

Lemma u32_be_roundtrip x :
  is_u32 x ->
  u32_from_be (x / 16777216 mod 256) (x / 65536 mod 256) (x / 256 mod 256) (x mod 256) = x.
Proof. unfold u32_from_be; intros; word_lia. Qed.

Lemma u16_from_be_range b0 b1 : is_u8 b0 -> is_u8 b1 -> is_u16 (u16_from_be b0 b1).
Proof. unfold u16_from_be; intros; word_lia. Qed.

Lemma u32_from_be_range b0 b1 b2 b3 :
  is_u8 b0 -> is_u8 b1 -> is_u8 b2 -> is_u8 b3 -> is_u32 (u32_from_be b0 b1 b2 b3).
Proof. unfold u32_from_be; intros; word_lia. Qed.

Lemma u8_mod x : is_u8 (x mod 256).
Proof. unfold is_u8; apply Z.mod_pos_bound; lia. Qed.

Lemma as_u16_range x : is_u16 (as_u16 x).
Proof. unfold is_u16, as_u16. apply Z.mod_pos_bound. reflexivity. Qed.

Lemma as_u32_range x : is_u32 (x mod U32).
Proof. apply Z.mod_pos_bound; unfold U32; lia. Qed.

(** [dst[off .. off + src.len()].copy_from_slice(src)]: Rust panics when the
    range leaves [dst], and so does the model. *)
Definition copy_at {E} (dst : list Z) (off : Z) (src : list Z) : Res E (list Z) :=
  if off + len src <=? len dst
  then Ok (take (Z.to_nat off) dst ++ src ++ drop (Z.to_nat (off + len src)) dst)
  else Panic.

(** [raw[i]] *)
Definition byte_at {E} (raw : list Z) (i : nat) : Res E Z := unwrap (raw !! i).

(** [raw[a..b]] *)
Definition slice {E} (raw : list Z) (a b : Z) : Res E (list Z) :=
  if ((0 <=? a) && (a <=? b) && (b <=? len raw))%bool
  then Ok (take (Z.to_nat (b - a)) (drop (Z.to_nat a) raw))
  else Panic.

(** A list of at least [n] elements, as [n] explicit elements and a rest. *)
Lemma uncons_len {A} (l : list A) n :
  1 + n <= len l -> 0 <= n -> exists x k, l = x :: k /\ n <= len k.
Proof.
  destruct l as [|x k]; [rewrite len_nil; lia | rewrite len_cons].
  intros; exists x, k; split; [done | lia].
Qed.

(** ** Hints of the development *)
Create HintDb magnum.
Create Rewrite HintDb magnum_len.
#[export] Hint Resolve len_nonneg u8_mod as_u32_range u16_from_be_range
  u32_from_be_range zeroed_bytes : magnum.
#[export] Hint Rewrite @len_nil @len_cons @len_app : magnum_len.

(** [explode raw n using H]: with [H : n <= len raw], name the first [n] bytes. *)
Tactic Notation "explode" ident(raw) integer(n) "using" ident(H) :=
  unfold len in H;
  do n (destruct raw as [|? raw]; [cbn [length] in H; lia |]);
  fold (len raw) in *.

Lemma slice_ok {E} (raw : list Z) a b :
  0 <= a <= b -> b <= len raw ->
  slice (E:=E) raw a b = Ok (take (Z.to_nat (b - a)) (drop (Z.to_nat a) raw)).
Proof.
  intros. unfold slice.
  replace (0 <=? a) with true by lia. replace (a <=? b) with true by lia.
  by replace (b <=? len raw) with true by lia.
Qed.

Lemma bytes_ok_take n l : bytes_ok l -> bytes_ok (take n l).
Proof. apply Forall_take. Qed.
Lemma bytes_ok_drop n l : bytes_ok l -> bytes_ok (drop n l).
Proof. apply Forall_drop. Qed.
Lemma bytes_ok_app l k : bytes_ok l -> bytes_ok k -> bytes_ok (l ++ k).
Proof. intros; by apply Forall_app. Qed.
Lemma bytes_ok_app_inv l k : bytes_ok (l ++ k) -> bytes_ok l /\ bytes_ok k.
Proof. apply Forall_app. Qed.
#[export] Hint Resolve bytes_ok_take bytes_ok_drop bytes_ok_app : magnum.

(** Bytes of an explicit list, element by element. *)
Ltac byte_tac :=
  first [ assumption | apply u8_mod | unfold is_u8; lia | solve [auto with magnum] ].
Ltac bytes_tac :=
  unfold bytes_ok; repeat first [apply Forall_app_2 | apply Forall_cons_2 | apply Forall_nil_2];
  try byte_tac.

Lemma bytes_nth l i : bytes_ok l -> is_u8 (nth i l 0).
Proof.
  intros Hl. destruct (nth_in_or_default i l 0) as [Hi| ->]; [|unfold is_u8; lia].
  unfold bytes_ok in Hl. rewrite List.Forall_forall in Hl. auto.
Qed.
#[export] Hint Resolve bytes_nth : magnum.

(** Concrete byte strings, by evaluation. *)
Lemma bytes_ok_compute l : forallb (fun b => (0 <=? b) && (b <? 256))%bool l = true -> bytes_ok l.
Proof.
  intros Hl. apply List.Forall_forall. intros b Hb. rewrite forallb_forall in Hl.
  specialize (Hl b Hb). unfold is_u8. lia.
Qed.

(** The outcome of a function that has no [Err] case: it returns or panics. *)
Abbreviation Fallible := (Res Empty_set).

(** [dst\[i\] = x] *)
Definition set_at {E} (dst : list Z) (i : nat) (x : Z) : Res E (list Z) :=
  if bool_decide (i < length dst)%nat then Ok (<[i := x]> dst) else Panic.

(** [==] on byte slices. *)
Definition bytes_eqb (a b : list Z) : bool := bool_decide (a = b).

(** Evaluate a [drop] of an explicit list. *)
Ltac eval_drop n :=
  match goal with
  | |- context [drop n ?l] =>
      let a := eval cbv [drop Z.to_nat Pos.to_nat Pos.iter_op Nat.add] in (drop n l) in change (drop n l) with a
  end.

Lemma zeroed_plus a b : 0 <= a -> 0 <= b -> zeroed (a + b) = zeroed a ++ zeroed b.
Proof.
  intros. with_strategy transparent [zeroed] unfold zeroed.
  by rewrite Z2Nat.inj_add, replicate_add.
Qed.

Lemma as_u32_id x : is_u32 x -> as_u32 x = x.
Proof. intros; apply Z.mod_small; assumption. Qed.

(** Remove the u32 wrap-arounds of an expression whose values are in range,
    innermost first. *)
Ltac u32_exact :=
  repeat match goal with
  | |- context [as_u32 ?x] =>
      lazymatch x with
      | context [as_u32 _] => fail
      | _ => rewrite (as_u32_id x) by (unfold is_u32; lia)
      end
  end.

(** ** [n] elements of a stream from offset [o] *)
Definition slice_at (S : list Z) (o n : Z) : list Z := take (Z.to_nat n) (drop (Z.to_nat o) S).

Lemma len_slice_at S o n : 0 <= o -> 0 <= n -> o + n <= len S -> len (slice_at S o n) = n.
Proof. intros. unfold slice_at, len in *. rewrite length_take, length_drop. lia. Qed.

Lemma slice_at_zero S o : slice_at S o 0 = [].
Proof. done. Qed.

Lemma slice_at_app S o n m :
  0 <= o -> 0 <= n -> 0 <= m ->
  slice_at S o n ++ slice_at S (o + n) m = slice_at S o (n + m).
Proof.
  intros. unfold slice_at. rewrite (Z2Nat.inj_add n m), (Z2Nat.inj_add o n) by lia.
  rewrite <- drop_drop. apply take_take_drop.
Qed.

Lemma drop_slice_at S o n k :
  0 <= o -> 0 <= k <= n -> drop (Z.to_nat k) (slice_at S o n) = slice_at S (o + k) (n - k).
Proof.
  intros. unfold slice_at. rewrite skipn_firstn_comm, drop_drop. f_equal; [lia |]. f_equal. lia.
Qed.

Lemma take_slice_at S o n k :
  k <= n -> take (Z.to_nat k) (slice_at S o n) = slice_at S o k.
Proof. intros. unfold slice_at. rewrite take_take. f_equal. lia. Qed.

Lemma slice_at_prefix S n : slice_at S 0 n = take (Z.to_nat n) S.
Proof. unfold slice_at. by rewrite drop_0. Qed.

Lemma slice_at_app_l S T o n :
  0 <= o -> 0 <= n -> o + n <= len S -> slice_at (S ++ T) o n = slice_at S o n.
Proof.
  intros. unfold slice_at. rewrite drop_app_le by (unfold len in *; lia).
  rewrite take_app_le; [done | rewrite length_drop; unfold len in *; lia].
Qed.

(** ** Fields of a buffer, by their offset *)
Definition byte_of (raw : list Z) (o : Z) : Z := nth (Z.to_nat o) raw 0.
Definition be16 (raw : list Z) (o : Z) : Z := u16_from_be (byte_of raw o) (byte_of raw (o + 1)).
Definition be32 (raw : list Z) (o : Z) : Z :=
  u32_from_be (byte_of raw o) (byte_of raw (o + 1)) (byte_of raw (o + 2)) (byte_of raw (o + 3)).

Lemma byte_of_slice raw o n i :
  0 <= o -> 0 <= i < n -> byte_of (slice_at raw o n) i = byte_of raw (o + i).
Proof.
  intros. unfold byte_of, slice_at. rewrite !nth_lookup, lookup_take_lt by lia.
  rewrite lookup_drop. by replace (Z.to_nat o + Z.to_nat i)%nat with (Z.to_nat (o + i)) by lia.
Qed.

Lemma be16_slice raw o n i :
  0 <= o -> 0 <= i -> i + 1 < n -> be16 (slice_at raw o n) i = be16 raw (o + i).
Proof. intros. unfold be16. rewrite !byte_of_slice, ?Z.add_assoc by lia. done. Qed.

Lemma be32_slice raw o n i :
  0 <= o -> 0 <= i -> i + 3 < n -> be32 (slice_at raw o n) i = be32 raw (o + i).
Proof. intros. unfold be32. rewrite !byte_of_slice, ?Z.add_assoc by lia. done. Qed.

Lemma slice_at_slice raw o n a m :
  0 <= o -> 0 <= a -> 0 <= m -> a + m <= n -> slice_at (slice_at raw o n) a m = slice_at raw (o + a) m.
Proof.
  intros. unfold slice_at. rewrite skipn_firstn_comm, take_take, drop_drop.
  f_equal; [lia |]. f_equal. lia.
Qed.

Lemma byte_at_of {E} raw i x : byte_at (E:=E) raw i = Ok x -> x = byte_of raw (Z.of_nat i).
Proof.
  unfold byte_at, byte_of. rewrite Nat2Z.id, nth_lookup. by destruct (raw !! i) as [y|]; [intros [= ->] |].
Qed.

Lemma slice_of {E} raw a b s :
  slice (E:=E) raw a b = Ok s -> s = slice_at raw a (b - a) /\ 0 <= a <= b /\ b <= len raw.
Proof. unfold slice, slice_at. case_match; [|done]. bool_prop. intros [= <-]. by split_and!. Qed.

(** Inversion of a chain of fallible steps. *)
Lemma Res_bind_Ok {E A B} (m : Res E A) (k : A -> Res E B) b :
  (x ← m; k x) = Ok b -> exists a, m = Ok a /\ k a = Ok b.
Proof. destruct m as [a| |]; [|done..]. by exists a. Qed.
