(* ===== verification/Errors.v ===== *)
(** * Errors (src/magnum-tcp/src/error.rs)

    The error type every parser of the stack returns. The payload of [Tun] is an
    operating-system error, kept abstract as its raw code;
    that of [InvalidIp] is the string's bytes. *)
From S2P Require Import Prelude.

Inductive MagnumError : Type :=
  | Tun (os_error : Z)
  | EthernetFrameTooShort (got need : Z)
  | NonIpv4EtherType (ethertype : Z)
  | Ipv4HeaderTooShort (got need : Z)
  | Ipv4IhlTooSmall (ihl : Z)
  | Ipv4ChecksumMismatch (computed got : Z)
  | Ipv4TruncatedPacket (total_len buf_len : Z)
  | Ipv4TotalLenTooSmall (total_len header_len : Z)
  | TcpHeaderTooShort (got need : Z)
  | TcpDataOffsetTooSmall (data_offset : Z)
  | TcpChecksumMismatch (computed got : Z)
  | InvalidIp (s : list Z).

(** [pub type Result<T> = std::result::Result<T, MagnumError>], with a panic as
    the third outcome. *)
Abbreviation Result := (Res MagnumError).
