(* ===== verification/Tcb.v ===== *)
(** * The transmission control block (src/magnum-tcp/src/tcp/tcb.rs)

    The eleven connection states, the send and receive sequence variables, the
    block itself with its two constructors, and the modular comparison of
    sequence numbers (RFC 793, section 3.3). *)
From S2P Require Import Prelude.

(** ** Data *)
Inductive TcbState : Type :=
  | Listen | SynSent | SynReceived | Established | FinWait1 | FinWait2
  | CloseWait | Closing | LastAck | TimeWait | Closed.

#[global] Instance TcbState_eq_dec : EqDecision TcbState.
Proof. solve_decision. Defined.

(** [==] on states (the derived [PartialEq]). *)
Definition state_eqb (a b : TcbState) : bool := bool_decide (a = b).

Record SendSequence := mkSendSequence {
  snd_una : Z; snd_nxt : Z; snd_wnd : Z; snd_iss : Z }.

Record RecvSequence := mkRecvSequence {
  rcv_nxt : Z; rcv_wnd : Z; rcv_irs : Z }.

Record Tcb := mkTcb {
  state : TcbState;
  local_ip : list Z;
  local_port : Z;
  remote_ip : list Z;
  remote_port : Z;
  tcb_snd : SendSequence;
  tcb_rcv : RecvSequence;
  cwnd : Z;
  ssthresh : Z;
  dup_ack_count : Z }.

(** ** Sequence arithmetic *)
Definition seq_lt (a b : Z) : bool :=
  negb (a =? b) && (wrapping_sub b a <? 2147483648).

Definition seq_le (a b : Z) : bool := (a =? b) || seq_lt a b.

Definition ack_acceptable (una ack nxt : Z) : bool :=
  seq_lt una ack && seq_le ack nxt.

(** ** Initial sequence number and constructors

    [std]'s [DefaultHasher] promises a deterministic u64 of what is fed to it and
    leaves the algorithm unspecified: it is the parameter [hasher_finish] of the
    interface [DefaultHasher].  The second argument of [generate_isn] is what
    [subsec_nanos()] of the system clock returned (0 before the epoch). *)
Inductive HashItem : Type :=
  | HashArray (bytes : list Z)
  | HashU16 (x : Z)
  | HashU32 (x : Z).

Class DefaultHasher := {
  hasher_finish : list HashItem -> Z;
  hasher_finish_u64 : forall l, 0 <= hasher_finish l < U64 }.

Section Constructors.
Context `{DefaultHasher}.

Definition generate_isn (lip : list Z) (lport : Z) (rip : list Z) (rport : Z)
    (subsec_nanos : Z) : Z :=
  as_u32 (hasher_finish
    [HashArray lip; HashU16 lport; HashArray rip; HashU16 rport; HashU32 subsec_nanos]).

Definition new_for_listen (lip : list Z) (lport : Z) (rip : list Z) (rport : Z)
    (subsec_nanos : Z) : Tcb :=
  let iss := generate_isn lip lport rip rport subsec_nanos in
  {| state := Listen;
     local_ip := lip; local_port := lport; remote_ip := rip; remote_port := rport;
     tcb_snd := {| snd_una := iss; snd_nxt := iss; snd_wnd := 65535; snd_iss := iss |};
     tcb_rcv := {| rcv_nxt := 0; rcv_wnd := 65535; rcv_irs := 0 |};
     cwnd := 1460; ssthresh := 65535; dup_ack_count := 0 |}.

Definition new_for_connect (lip : list Z) (lport : Z) (rip : list Z) (rport : Z)
    (subsec_nanos : Z) : Tcb :=
  let iss := generate_isn lip lport rip rport subsec_nanos in
  {| state := Closed;
     local_ip := lip; local_port := lport; remote_ip := rip; remote_port := rport;
     tcb_snd := {| snd_una := iss; snd_nxt := iss; snd_wnd := 65535; snd_iss := iss |};
     tcb_rcv := {| rcv_nxt := 0; rcv_wnd := 65535; rcv_irs := 0 |};
     cwnd := 1460; ssthresh := 65535; dup_ack_count := 0 |}.

Lemma generate_isn_range lip lport rip rport nanos :
  is_u32 (generate_isn lip lport rip rport nanos).
Proof. apply as_u32_range. Qed.
End Constructors.

(** ** Facts on sequence numbers *)
Lemma seq_lt_spec a b :
  is_u32 a -> is_u32 b ->
  seq_lt a b = true <-> 0 < wrapping_sub b a < 2147483648.
Proof.
  intros Ha Hb. unfold seq_lt. rewrite andb_true_iff, negb_true_iff, Z.eqb_neq, Z.ltb_lt.
  word_lia.
Qed.

Lemma wrapping_sub_offset base i j :
  wrapping_sub (as_u32 (base + j)) (as_u32 (base + i)) = (j - i) mod U32.
Proof.
  unfold wrapping_sub, as_u32. rewrite <- Zminus_mod. f_equal; lia.
Qed.

Lemma as_u32_eq_offset base i j :
  -4294967296 < j - i < 4294967296 ->
  as_u32 (base + i) = as_u32 (base + j) <-> i = j.
Proof. intros; word_lia. Qed.

Lemma as_u32_idem_l a b : as_u32 (as_u32 a + b) = as_u32 (a + b).
Proof. unfold as_u32; apply Zplus_mod_idemp_l. Qed.

(** The number a stream offset travels under. *)
Definition seq_of (iss off : Z) : Z := as_u32 (iss + 1 + off).

Lemma seq_of_range iss off : is_u32 (seq_of iss off).
Proof. apply as_u32_range. Qed.

Lemma seq_lt_base base i j :
  -2147483648 < j - i < 2147483648 ->
  seq_lt (as_u32 (base + i)) (as_u32 (base + j)) = (i <? j).
Proof.
  intros Hij. apply eq_true_iff_eq.
  rewrite seq_lt_spec, wrapping_sub_offset, Z.ltb_lt by apply as_u32_range.
  word_lia.
Qed.

(** Sequence numbers that label offsets [i] and [j] of one byte stream
    compare as the offsets do, whatever the initial number and however often the
    32-bit counter has wrapped, as long as the offsets are less than 2^31 apart. *)
Theorem seq_lt_offset base i j :
  -2147483648 < j - i < 2147483648 ->
  seq_lt (as_u32 (base + i)) (as_u32 (base + j)) = (i <? j).
Proof. apply seq_lt_base. Qed.

Lemma seq_le_offset base i j :
  -2147483648 < j - i < 2147483648 ->
  seq_le (as_u32 (base + i)) (as_u32 (base + j)) = (i <=? j).
Proof.
  intros Hij. unfold seq_le.
  destruct (Z.eqb_spec (as_u32 (base + i)) (as_u32 (base + j))) as [E|E].
  - apply as_u32_eq_offset in E; [cbn; lia | lia].
  - assert (i <> j) by (intros ->; done). cbn.
    apply eq_true_iff_eq. rewrite seq_lt_spec, wrapping_sub_offset, Z.leb_le by apply as_u32_range.
    word_lia.
Qed.

Lemma ack_acceptable_iff una ack nxt :
  is_u32 una -> is_u32 ack -> is_u32 nxt ->
  wrapping_sub nxt una < 2147483648 ->
  ack_acceptable una ack nxt = true <->
  0 < wrapping_sub ack una <= wrapping_sub nxt una.
Proof.
  intros Hu Ha Hn Hw. unfold ack_acceptable, seq_le.
  rewrite andb_true_iff, orb_true_iff, Z.eqb_eq, !seq_lt_spec by assumption.
  word_lia.
Qed.

Lemma seq_lt_offset_witness :
  seq_lt (as_u32 (4294967290 + 3)) (as_u32 (4294967290 + 20)) = (3 <? 20).
Proof. apply (seq_lt_offset 4294967290 3 20); lia. Defined.

Lemma ack_acceptable_bytes una ack nxt :
  is_u32 una -> is_u32 ack -> is_u32 nxt ->
  ack_acceptable una ack nxt = true -> 0 < wrapping_sub ack una < 2147483648.
Proof.
  intros Hu Ha Hn. unfold ack_acceptable. rewrite andb_true_iff, seq_lt_spec by assumption.
  tauto.
Qed.

Lemma state_eqb_true a b : state_eqb a b = true <-> a = b.
Proof. unfold state_eqb. apply bool_decide_eq_true. Qed.

(** ** Stream offsets *)
Lemma seq_of_inj iss a b :
  -4294967296 < b - a < 4294967296 -> seq_of iss a = seq_of iss b -> a = b.
Proof. intros H. unfold seq_of. by apply as_u32_eq_offset. Qed.

Lemma seq_lt_seq_of iss a b :
  -2147483648 < b - a < 2147483648 -> seq_lt (seq_of iss a) (seq_of iss b) = (a <? b).
Proof. apply seq_lt_base. Qed.

Lemma seq_of_add iss a n : wrapping_add (seq_of iss a) (as_u32 n) = seq_of iss (a + n).
Proof.
  unfold wrapping_add, seq_of, as_u32. rewrite <- Zplus_mod. f_equal. lia.
Qed.

Lemma seq_of_sub iss a b : wrapping_sub (seq_of iss b) (seq_of iss a) = (b - a) mod U32.
Proof. apply wrapping_sub_offset. Qed.

(** A segment that carries the bytes of [S] at some offset, under the number of
    that offset. *)
Definition segment_of (iss : Z) (S : list Z) (seg : Z * list Z) : Prop :=
  exists o, 0 <= o /\ o + len (snd seg) <= len S /\ fst seg = seq_of iss o /\
    snd seg = slice_at S o (len (snd seg)).

Lemma segment_of_app iss S T seg : segment_of iss S seg -> segment_of iss (S ++ T) seg.
Proof.
  intros (o & Ho & Hl & Hs & Hd). exists o. pose proof (len_nonneg T).
  pose proof (len_nonneg (snd seg)).
  split; [done |]. split; [rewrite len_app; lia |]. split; [done |].
  rewrite Hd at 1. unfold slice_at. rewrite drop_app_le by (unfold len in *; lia).
  rewrite take_app_le; [done | rewrite length_drop; unfold len in *; lia].
Qed.
