(* ===== verification/Checksum.v ===== *)
(** * One's-complement sums

    The Internet checksum occurs twice in the source, in [checksum] of ipv4.rs and
    in [tcp_checksum] of tcp/header.rs, as the same two loops: one adds the
    big-endian 16-bit words to a u32 accumulator, the other folds the carries back.
    The loops are translated here once; the theory below is what both files use. *)
From S2P Require Import Prelude.

(** [while i + 1 < data.len() { sum += word(data[i], data[i+1]); i += 2 }] and the
    odd byte after the loop.  [sum] is a u32. *)
Fixpoint sum_words (sum : Z) (data : list Z) : Z :=
  match data with
  | b0 :: b1 :: rest => sum_words (as_u32 (sum + u16_from_be b0 b1)) rest
  | [b0] => as_u32 (sum + Z.shiftl b0 8)
  | [] => sum
  end.

(** [while sum >> 16 != 0 { sum = (sum & 0xFFFF) + (sum >> 16); }]; [fuel] bounds
    the iterations. *)
Fixpoint fold_carry (fuel : nat) (sum : Z) : Z :=
  match fuel with
  | O => sum
  | S f =>
      if Z.shiftr sum 16 =? 0 then sum
      else fold_carry f (Z.land sum 65535 + Z.shiftr sum 16)
  end.

(** Two iterations are enough for a u32; the loops are run with 4. *)
Definition CARRY_FUEL : nat := 4.

(** ** The exact sum of the 16-bit words of a byte string *)
Fixpoint word_sum (data : list Z) : Z :=
  match data with
  | b0 :: b1 :: rest => u16_from_be b0 b1 + word_sum rest
  | [b0] => b0 * 256
  | [] => 0
  end.

(** Induction two bytes at a time. *)
Lemma pair_ind (P : list Z -> Prop) :
  P [] -> (forall a, P [a]) -> (forall a b l, P l -> P (a :: b :: l)) -> forall l, P l.
Proof.
  intros H0 H1 H2 l.
  enough (P l /\ forall a, P (a :: l)) by tauto.
  induction l as [|b l [IH IH']]; split; auto.
Qed.

Lemma word_sum_bounds data :
  bytes_ok data -> 0 <= word_sum data <= 65535 * ((len data + 1) / 2).
Proof.
  induction data as [|a|a b l IH] using pair_ind; intros Hb.
  - vm_compute; split; discriminate.
  - apply Forall_cons in Hb as [Ha _]. change ((len [a] + 1) / 2) with 1. cbn. word_lia.
  - apply Forall_cons in Hb as [Ha Hb]. apply Forall_cons in Hb as [Hb Hl].
    specialize (IH Hl). rewrite !len_cons. cbn [word_sum].
    pose proof (u16_from_be_range a b Ha Hb). pose proof (len_nonneg l).
    replace (1 + (1 + len l) + 1) with ((len l + 1) + 1 * 2) by lia.
    rewrite Z.div_add by lia. word_lia.
Qed.

Lemma sum_words_exact data sum :
  bytes_ok data -> 0 <= sum -> sum + word_sum data < U32 ->
  sum_words sum data = sum + word_sum data.
Proof.
  revert sum. induction data as [|a|a b l IH] using pair_ind; intros sum Hb Hs Hlt.
  - cbn in *; lia.
  - cbn in *. rewrite Z.shiftl_mul_pow2 by lia. apply Z.mod_small.
    apply Forall_cons in Hb as [Ha _]. unfold is_u8 in Ha. lia.
  - apply Forall_cons in Hb as [Ha Hb]. apply Forall_cons in Hb as [Hb Hl].
    cbn [sum_words word_sum] in *.
    pose proof (u16_from_be_range a b Ha Hb). pose proof (word_sum_bounds l Hl).
    pose proof (len_nonneg l). unfold is_u16 in *.
    assert (0 <= word_sum l) by lia.
    unfold as_u32. rewrite (Z.mod_small (sum + _)) by (unfold U32 in *; lia).
    rewrite IH by (try assumption; lia). lia.
Qed.

(** Even-length prefixes keep the word boundaries. *)
Lemma word_sum_app l k :
  Z.even (len l) = true -> word_sum (l ++ k) = word_sum l + word_sum k.
Proof.
  induction l as [|a|a b l IH] using pair_ind; intros He.
  - cbn; lia.
  - done.
  - rewrite !len_cons in He. cbn [app word_sum].
    rewrite IH; [lia |].
    replace (1 + (1 + len l)) with (len l + 2) in He by lia.
    rewrite Z.even_add in He. by destruct (Z.even (len l)).
Qed.

(** ** The fold *)
Lemma fold_step_mod sum :
  (Z.land sum 65535 + Z.shiftr sum 16) mod 65535 = sum mod 65535.
Proof.
  change 65535 with (Z.ones 16) at 1. rewrite Z.land_ones, Z.shiftr_div_pow2 by lia.
  change (2 ^ 16) with 65536. word_lia.
Qed.

Lemma fold_step_eq sum :
  Z.land sum 65535 + Z.shiftr sum 16 = sum mod 65536 + sum / 65536.
Proof.
  change 65535 with (Z.ones 16). rewrite Z.land_ones, Z.shiftr_div_pow2 by lia. done.
Qed.

Lemma shiftr16_zero sum : 0 <= sum -> Z.shiftr sum 16 = 0 <-> sum < 65536.
Proof. intros. rewrite Z.shiftr_div_pow2 by lia. change (2 ^ 16) with 65536. word_lia. Qed.

(** The loop stops: from a u32 the exit test holds after at most two rounds. *)
Lemma fold_carry_done fuel sum :
  (2 <= fuel)%nat -> 0 <= sum < U32 -> 0 <= fold_carry fuel sum < 65536.
Proof.
  unfold U32. intros Hf Hs.
  destruct fuel as [|[|f]]; [lia | lia |]. cbn [fold_carry].
  destruct (Z.eqb_spec (Z.shiftr sum 16) 0) as [E|E].
  { apply shiftr16_zero in E; lia. }
  rewrite shiftr16_zero in E by lia. rewrite fold_step_eq.
  set (s1 := sum mod 65536 + sum / 65536).
  assert (0 <= s1 <= 131070) by (unfold s1; word_lia).
  destruct (Z.eqb_spec (Z.shiftr s1 16) 0) as [E1|E1].
  { apply shiftr16_zero in E1; lia. }
  rewrite shiftr16_zero in E1 by lia. rewrite fold_step_eq.
  set (s2 := s1 mod 65536 + s1 / 65536).
  assert (0 <= s2 < 65536) by (unfold s2; word_lia).
  destruct f; cbn [fold_carry]; [done |].
  destruct (Z.eqb_spec (Z.shiftr s2 16) 0) as [E2|E2]; [done |].
  rewrite shiftr16_zero in E2; lia.
Qed.

Lemma fold_carry_mod fuel sum : fold_carry fuel sum mod 65535 = sum mod 65535.
Proof.
  revert sum; induction fuel as [|f IH]; intros sum; cbn [fold_carry]; [done |].
  destruct (Z.shiftr sum 16 =? 0); [done |]. rewrite IH. apply fold_step_mod.
Qed.

Lemma fold_carry_zero fuel sum : 0 <= sum -> fold_carry fuel sum = 0 <-> sum = 0.
Proof.
  revert sum; induction fuel as [|f IH]; intros sum Hs; cbn [fold_carry]; [done |].
  destruct (Z.eqb_spec (Z.shiftr sum 16) 0) as [E|E]; [done |].
  rewrite shiftr16_zero in E by lia. rewrite fold_step_eq, IH; word_lia.
Qed.

(** The final value, in closed form: [fold sum] is 0 for a zero sum, and otherwise
    the representative of [sum] modulo 65535 in 1..65535. *)
Lemma fold_carry_closed fuel sum :
  (2 <= fuel)%nat -> 0 <= sum < U32 ->
  fold_carry fuel sum = if sum =? 0 then 0 else 1 + (sum - 1) mod 65535.
Proof.
  intros Hf Hs.
  pose proof (fold_carry_done fuel sum Hf Hs) as Hd.
  pose proof (fold_carry_mod fuel sum) as Hm.
  pose proof (fold_carry_zero fuel sum ltac:(lia)) as Hz.
  destruct (Z.eqb_spec sum 0); [tauto |].
  assert (fold_carry fuel sum <> 0) by tauto.
  set (r := fold_carry fuel sum) in *. clearbody r. clear Hz. word_lia.
Qed.

(** [fold sum = 0xFFFF], which the complement turns into the accepting 0, means
    that the sum is a positive multiple of 65535. *)
Lemma fold_carry_all_ones fuel sum :
  (2 <= fuel)%nat -> 0 <= sum < U32 ->
  fold_carry fuel sum = 65535 <-> 0 < sum /\ sum mod 65535 = 0.
Proof.
  intros Hf Hs. rewrite fold_carry_closed by assumption.
  destruct (Z.eqb_spec sum 0); [lia |]. word_lia.
Qed.

(** Adding the complement of the folded sum makes the total fold to 0xFFFF. *)
Lemma fold_carry_complement fuel sum :
  (2 <= fuel)%nat -> 0 <= sum -> sum + 65535 < U32 ->
  fold_carry fuel (sum + (65535 - fold_carry fuel sum)) = 65535.
Proof.
  intros Hf Hs Hlt.
  pose proof (fold_carry_done fuel sum Hf ltac:(lia)).
  apply fold_carry_all_ones; [assumption | lia |].
  rewrite (fold_carry_closed fuel sum) by (assumption || lia).
  destruct (Z.eqb_spec sum 0) as [->|]; [done |]. word_lia.
Qed.
