(* ===== verification/Ipv4.v ===== *)
(** * IPv4 (src/magnum-tcp/src/ipv4.rs)

    The header parser with its six rejection tests in the order of the code, the
    header checksum, and the builder of outbound packets. *)
From S2P Require Import Prelude Errors Checksum.

Definition IPV4_MIN_HEADER_LEN : Z := 20.
Definition PROTO_ICMP : Z := 1.
Definition PROTO_TCP : Z := 6.
Definition PROTO_UDP : Z := 17.

Record Ipv4Header := mkIpv4Header {
  ip_ihl : Z;
  ip_dscp : Z;
  ip_total_len : Z;
  ip_id : Z;
  ip_flags : Z;
  ip_frag_offset : Z;
  ip_ttl : Z;
  ip_protocol : Z;
  ip_checksum : Z;
  ip_src : list Z;
  ip_dst : list Z }.

Record Ipv4Packet := mkIpv4Packet {
  ip_header : Ipv4Header;
  ip_payload : list Z }.

(** A constant index into a fixed-size array, which rustc checks. *)
Definition arr (a : list Z) (i : nat) : Z := nth i a 0.

(** [\[u8; 4\]] *)
Definition ip_ok (a : list Z) : Prop := length a = 4%nat /\ bytes_ok a.

Definition checksum (data : list Z) : Z :=
  not_u16 (as_u16 (fold_carry CARRY_FUEL (sum_words 0 data))).

Definition Ipv4Packet_parse (raw : list Z) : Result Ipv4Packet :=
  if len raw <? IPV4_MIN_HEADER_LEN
  then Err (Ipv4HeaderTooShort (len raw) IPV4_MIN_HEADER_LEN)
  else
    b0 ← byte_at raw 0;
    let ihl := Z.land b0 15 in
    if ihl <? 5 then Err (Ipv4IhlTooSmall ihl)
    else
      let header_len := ihl * 4 in
      if len raw <? header_len then Err (Ipv4HeaderTooShort (len raw) header_len)
      else
        b10 ← byte_at raw 10; b11 ← byte_at raw 11;
        let stored_checksum := u16_from_be b10 b11 in
        hdr ← slice raw 0 header_len;
        let computed := checksum hdr in
        if negb (computed =? 0) then Err (Ipv4ChecksumMismatch computed stored_checksum)
        else
          b2 ← byte_at raw 2; b3 ← byte_at raw 3;
          let total_len := u16_from_be b2 b3 in
          if total_len <? header_len then Err (Ipv4TotalLenTooSmall total_len header_len)
          else if len raw <? total_len then Err (Ipv4TruncatedPacket total_len (len raw))
          else
            b6 ← byte_at raw 6; b7 ← byte_at raw 7;
            let flags_frag := u16_from_be b6 b7 in
            src ← slice raw 12 16;
            dst ← slice raw 16 20;
            b1 ← byte_at raw 1; b4 ← byte_at raw 4; b5 ← byte_at raw 5;
            b8 ← byte_at raw 8; b9 ← byte_at raw 9;
            payload ← slice raw header_len total_len;
            Ok {| ip_header :=
                    {| ip_ihl := ihl;
                       ip_dscp := Z.land (Z.shiftr b1 2) 63;
                       ip_total_len := as_u16 total_len;
                       ip_id := u16_from_be b4 b5;
                       ip_flags := as_u8 (Z.land (Z.shiftr flags_frag 13) 7);
                       ip_frag_offset := Z.land flags_frag 8191;
                       ip_ttl := b8;
                       ip_protocol := b9;
                       ip_checksum := stored_checksum;
                       ip_src := src;
                       ip_dst := dst |};
                  ip_payload := payload |}.

Definition build_packet (src dst : list Z) (protocol : Z) (payload : list Z) : list Z :=
  let total_len := as_u16 (IPV4_MIN_HEADER_LEN + len payload) in
  let hdr :=
    [69; 0; as_u8 (Z.shiftr total_len 8); as_u8 total_len;
     0; 0; 64; 0; 64; protocol; 0; 0;
     arr src 0; arr src 1; arr src 2; arr src 3;
     arr dst 0; arr dst 1; arr dst 2; arr dst 3] in
  let csum := checksum hdr in
  let hdr := <[10%nat := as_u8 (Z.shiftr csum 8)]> hdr in
  let hdr := <[11%nat := as_u8 csum]> hdr in
  hdr ++ payload.

(** ** The checksum *)

(** With at most 131068 bytes the u32 accumulator cannot overflow. *)
Lemma checksum_exact data :
  bytes_ok data -> len data <= 131068 ->
  checksum data = 65535 - fold_carry CARRY_FUEL (word_sum data).
Proof.
  intros Hb Hl. pose proof (word_sum_bounds data Hb). pose proof (len_nonneg data).
  assert (0 <= word_sum data < U32) by word_lia.
  unfold checksum. rewrite sum_words_exact by (assumption || lia).
  rewrite Z.add_0_l. pose proof (fold_carry_done CARRY_FUEL (word_sum data)) as Hd.
  unfold CARRY_FUEL in *. specialize (Hd ltac:(lia) ltac:(assumption)).
  unfold not_u16, as_u16, U16. rewrite Z.mod_small by lia. lia.
Qed.

Lemma checksum_range data :
  bytes_ok data -> len data <= 131068 -> is_u16 (checksum data).
Proof.
  intros Hb Hl. rewrite checksum_exact by assumption.
  pose proof (word_sum_bounds data Hb). pose proof (len_nonneg data).
  pose proof (fold_carry_done CARRY_FUEL (word_sum data)) as Hd.
  unfold CARRY_FUEL in *. unfold is_u16. specialize (Hd ltac:(lia)). word_lia.
Qed.

Lemma checksum_zero_iff data :
  bytes_ok data -> len data <= 131068 ->
  checksum data = 0 <-> 0 < word_sum data /\ word_sum data mod 65535 = 0.
Proof.
  intros Hb Hl. rewrite checksum_exact by assumption.
  pose proof (word_sum_bounds data Hb). pose proof (len_nonneg data).
  rewrite <- (fold_carry_all_ones CARRY_FUEL); [lia | unfold CARRY_FUEL; lia | word_lia].
Qed.

Lemma shiftr8_u16 x : is_u16 x -> as_u8 (Z.shiftr x 8) = x / 256 mod 256.
Proof. intros. rewrite Z.shiftr_div_pow2 by lia. done. Qed.

(** Storing the checksum of [a ++ 0 0 ++ b] in the two zero bytes makes the sum of
    the whole a positive multiple of 65535. *)
Lemma word_sum_stored a b s :
  Z.even (len a) = true -> 0 <= s + word_sum a + word_sum b ->
  s + word_sum a + word_sum b + 65535 < U32 ->
  let c := 65535 - fold_carry CARRY_FUEL (s + word_sum (a ++ 0 :: 0 :: b)) in
  fold_carry CARRY_FUEL (s + word_sum (a ++ c / 256 mod 256 :: c mod 256 :: b)) = 65535.
Proof.
  intros He H0 H1 c.
  assert (Hc : is_u16 c).
  { unfold c. pose proof (fold_carry_done CARRY_FUEL (s + word_sum (a ++ 0 :: 0 :: b))) as Hd.
    rewrite word_sum_app in * by assumption. cbn [word_sum] in *.
    unfold u16_from_be, CARRY_FUEL, is_u16 in *. specialize (Hd ltac:(lia) ltac:(unfold U32 in *; lia)). lia. }
  rewrite word_sum_app by assumption. cbn [word_sum]. rewrite u16_be_roundtrip by assumption.
  unfold c. rewrite word_sum_app by assumption. cbn [word_sum].
  change (u16_from_be 0 0) with 0.
  set (S := s + (word_sum a + (0 + word_sum b))).
  replace (s + (word_sum a + (65535 - fold_carry CARRY_FUEL S + word_sum b)))
    with (S + (65535 - fold_carry CARRY_FUEL S)) by (unfold S; lia).
  apply fold_carry_complement; unfold S, CARRY_FUEL; lia.
Qed.

(** ** The parser *)

(** The parser never indexes outside its input, whatever the bytes. *)
Theorem Ipv4Packet_parse_no_panic raw : Ipv4Packet_parse raw <> Panic.
Proof.
  unfold Ipv4Packet_parse, IPV4_MIN_HEADER_LEN.
  destruct (Z.ltb_spec (len raw) 20) as [|Hlen]; [discriminate |].
  pose proof Hlen as Hl. explode raw 20 using Hl.
  set (raw0 := _ :: _) in *. cbn [byte_at unwrap lookup list_lookup mbind Res_bind raw0].
  match goal with |- context [Z.land ?b 15] => set (ihl := Z.land b 15) end.
  clearbody ihl raw0.
  destruct (Z.ltb_spec ihl 5); [discriminate |].
  destruct (Z.ltb_spec (len raw0) (ihl * 4)); [discriminate |].
  rewrite (slice_ok _ 0) by lia. cbn [mbind Res_bind].
  case_match; [discriminate |].
  match goal with |- context [u16_from_be ?a ?b <? ihl * 4] => set (tl := u16_from_be a b) end.
  clearbody tl.
  destruct (Z.ltb_spec tl (ihl * 4)); [discriminate |].
  destruct (Z.ltb_spec (len raw0) tl); [discriminate |].
  rewrite !slice_ok by lia. cbn [mbind Res_bind]. discriminate.
Qed.

(** The bytes [build_packet] lays out. *)
Lemma build_packet_shape s0 s1 s2 s3 d0 d1 d2 d3 proto payload :
  let tl := as_u16 (20 + len payload) in
  let hdr0 := [69; 0; tl / 256 mod 256; tl mod 256; 0; 0; 64; 0; 64; proto; 0; 0;
               s0; s1; s2; s3; d0; d1; d2; d3] in
  build_packet [s0; s1; s2; s3] [d0; d1; d2; d3] proto payload =
    [69; 0; tl / 256 mod 256; tl mod 256; 0; 0; 64; 0; 64; proto;
     as_u8 (Z.shiftr (checksum hdr0) 8); as_u8 (checksum hdr0);
     s0; s1; s2; s3; d0; d1; d2; d3] ++ payload.
Proof.
  intros tl hdr0. unfold build_packet, IPV4_MIN_HEADER_LEN.
  fold tl. rewrite !(shiftr8_u16 tl) by apply Z.mod_pos_bound, eq_refl. reflexivity.
Qed.

Lemma ip_ok_destruct a :
  ip_ok a -> exists a0 a1 a2 a3, a = [a0; a1; a2; a3] /\
    is_u8 a0 /\ is_u8 a1 /\ is_u8 a2 /\ is_u8 a3.
Proof.
  intros [Hl Hb]. destruct a as [|a0 [|a1 [|a2 [|a3 [|]]]]]; try done.
  unfold bytes_ok in Hb. rewrite !Forall_cons in Hb. exists a0, a1, a2, a3. tauto.
Qed.

(** A 20-byte header with the checksum of its zeroed copy in bytes 10 and 11
    verifies. *)
Lemma checksum_stored a b :
  len a = 10 -> bytes_ok a -> bytes_ok b -> len b <= 100 ->
  let c := checksum (a ++ 0 :: 0 :: b) in
  checksum (a ++ as_u8 (Z.shiftr c 8) :: as_u8 c :: b) = 0.
Proof.
  intros Ha Hba Hbb Hlb c.
  assert (Hb0 : bytes_ok (a ++ 0 :: 0 :: b)).
  { bytes_tac. }
  assert (Hl0 : len (a ++ 0 :: 0 :: b) <= 131068).
  { autorewrite with magnum_len. lia. }
  pose proof (checksum_range _ Hb0 Hl0) as Hc. fold c in Hc.
  rewrite shiftr8_u16 by assumption. unfold as_u8, U8.
  rewrite checksum_exact.
  2: { bytes_tac. }
  2: { autorewrite with magnum_len in *. lia. }
  pose proof (word_sum_bounds a Hba). pose proof (word_sum_bounds b Hbb).
  unfold c. rewrite checksum_exact by assumption.
  pose proof (word_sum_stored a b 0) as Hw. cbv zeta in Hw. rewrite !Z.add_0_l in Hw.
  rewrite Hw; [lia | by rewrite Ha | lia |]. pose proof (len_nonneg b). word_lia.
Qed.

Lemma parse_build_packet src dst proto payload :
  ip_ok src -> ip_ok dst -> is_u8 proto -> bytes_ok payload ->
  20 + len payload <= 65535 ->
  exists csum,
    Ipv4Packet_parse (build_packet src dst proto payload) =
      Ok {| ip_header :=
              {| ip_ihl := 5; ip_dscp := 0; ip_total_len := 20 + len payload;
                 ip_id := 0; ip_flags := 2; ip_frag_offset := 0; ip_ttl := 64;
                 ip_protocol := proto; ip_checksum := csum;
                 ip_src := src; ip_dst := dst |};
            ip_payload := payload |}.
Proof.
  intros (s0 & s1 & s2 & s3 & -> & ? & ? & ? & ?)%ip_ok_destruct
    (d0 & d1 & d2 & d3 & -> & ? & ? & ? & ?)%ip_ok_destruct Hp Hb Hl.
  rewrite build_packet_shape. cbv zeta.
  pose proof (len_nonneg payload).
  assert (Htl : is_u16 (20 + len payload)) by (unfold is_u16; lia).
  set (tl := 20 + len payload) in *.
  replace (as_u16 tl) with tl by (unfold as_u16, is_u16, U16 in *; rewrite Z.mod_small; lia).
  pose proof (checksum_stored [69; 0; tl / 256 mod 256; tl mod 256; 0; 0; 64; 0; 64; proto]
    [s0; s1; s2; s3; d0; d1; d2; d3] eq_refl) as Hc. cbn [app] in *. cbv zeta in Hc.
  set (c1 := as_u8 (Z.shiftr _ 8)) in *. set (c2 := as_u8 (checksum _)) in *.
  exists (u16_from_be c1 c2).
  unfold Ipv4Packet_parse, IPV4_MIN_HEADER_LEN.
  autorewrite with magnum_len. fold tl.
  replace (_ <? 20) with false by lia.
  cbn [byte_at unwrap lookup list_lookup mbind Res_bind].
  change (Z.land 69 15) with 5. cbn [Z.ltb Z.compare Pos.compare Pos.compare_cont].
  replace (_ <? 5 * 4) with false by lia.
  rewrite (slice_ok _ 0) by (autorewrite with magnum_len; lia). cbn [mbind Res_bind].
  change (take _ _) with [69; 0; tl / 256 mod 256; tl mod 256; 0; 0; 64; 0; 64; proto; c1; c2;
     s0; s1; s2; s3; d0; d1; d2; d3].
  rewrite Hc; cycle 1.
  { bytes_tac. }
  { bytes_tac. }
  { vm_compute; discriminate. }
  cbn [negb Z.eqb]. rewrite u16_be_roundtrip by assumption.
  replace (tl <? 5 * 4) with false by lia.
  replace (_ <? tl) with false by (unfold tl; lia).
  rewrite !slice_ok by (autorewrite with magnum_len; unfold tl; lia). cbn [mbind Res_bind].
  change (Z.to_nat (5 * 4)) with 20%nat. cbn [drop].
  rewrite drop_0, (take_ge payload) by (unfold tl, len; lia).
  replace (as_u16 tl) with tl by (unfold as_u16, is_u16, U16 in *; rewrite Z.mod_small; lia).
  reflexivity.
Qed.

(** C32. What the builder writes the parser reads back: every field and the exact
    payload, with a checksum that verifies. *)
Theorem Ipv4Packet_parse_build src dst proto payload :
  ip_ok src -> ip_ok dst -> is_u8 proto -> bytes_ok payload ->
  20 + len payload <= 65535 ->
  exists csum,
    Ipv4Packet_parse (build_packet src dst proto payload) =
      Ok {| ip_header :=
              {| ip_ihl := 5; ip_dscp := 0; ip_total_len := 20 + len payload;
                 ip_id := 0; ip_flags := 2; ip_frag_offset := 0; ip_ttl := 64;
                 ip_protocol := proto; ip_checksum := csum;
                 ip_src := src; ip_dst := dst |};
            ip_payload := payload |}.
Proof. apply parse_build_packet. Qed.

(** An accepted packet is well formed: the header length is between 20 and 60
    bytes and within the buffer, the header checksum verifies, and the payload is
    exactly the bytes between the header and the total length. *)
Theorem Ipv4Packet_parse_sound raw p :
  Ipv4Packet_parse raw = Ok p ->
  let hl := ip_ihl (ip_header p) * 4 in
  20 <= hl <= 60 /\
  checksum (take (Z.to_nat hl) raw) = 0 /\
  hl <= hl + len (ip_payload p) <= len raw /\
  ip_payload p = take (Z.to_nat (len (ip_payload p))) (drop (Z.to_nat hl) raw) /\
  (bytes_ok raw -> ip_total_len (ip_header p) = hl + len (ip_payload p)).
Proof.
  unfold Ipv4Packet_parse, IPV4_MIN_HEADER_LEN.
  destruct (Z.ltb_spec (len raw) 20) as [|Hlen]; [discriminate |].
  pose proof Hlen as Hl. explode raw 20 using Hl.
  set (raw0 := _ :: _) in *. cbn [byte_at unwrap lookup list_lookup mbind Res_bind raw0].
  match goal with |- context [Z.land ?b 15] =>
    assert (Hihl : 0 <= Z.land b 15 < 16)
      by (change 15 with (Z.ones 4); rewrite Z.land_ones by lia;
          apply Z.mod_pos_bound; reflexivity);
    set (ihl := Z.land b 15) in * end.
  clearbody ihl.
  destruct (Z.ltb_spec ihl 5); [discriminate |].
  destruct (Z.ltb_spec (len raw0) (ihl * 4)); [discriminate |].
  rewrite (slice_ok _ 0) by lia. cbn [mbind Res_bind].
  rewrite Z.sub_0_r. change (drop (Z.to_nat 0) raw0) with raw0.
  destruct (Z.eqb_spec (checksum (take (Z.to_nat (ihl * 4)) raw0)) 0) as [Hc|]; [|discriminate].
  cbn [negb].
  match goal with |- context [u16_from_be ?a ?b <? ihl * 4] =>
    assert (Htl : bytes_ok raw0 -> is_u16 (u16_from_be a b))
      by (unfold raw0, bytes_ok; rewrite !Forall_cons; intros; apply u16_from_be_range; tauto);
    set (tl := u16_from_be a b) in * end.
  clearbody tl.
  destruct (Z.ltb_spec tl (ihl * 4)); [discriminate |].
  destruct (Z.ltb_spec (len raw0) tl); [discriminate |].
  rewrite !slice_ok by lia. cbn [mbind Res_bind]. intros [= <-].
  clearbody raw0. cbn [ip_header ip_ihl ip_payload ip_total_len]. cbv zeta.
  rewrite len_take, len_drop, Z.min_l by lia.
  replace (ihl * 4 + (tl - ihl * 4)) with tl by lia.
  repeat split; try lia; try done.
  intros Hb. specialize (Htl Hb). unfold as_u16, is_u16, U16 in *. apply Z.mod_small; lia.
Qed.

Lemma packet_typed raw p :
  bytes_ok raw -> Ipv4Packet_parse raw = Ok p ->
  ip_ok (ip_src (ip_header p)) /\ ip_ok (ip_dst (ip_header p)) /\ bytes_ok (ip_payload p) /\
  20 + len (ip_payload p) <= 65535.
Proof.
  intros Hb. unfold Ipv4Packet_parse, IPV4_MIN_HEADER_LEN.
  destruct (Z.ltb_spec (len raw) 20) as [|Hlen]; [discriminate |].
  assert (Hs : forall a b s, slice (E:=MagnumError) raw a b = Ok s -> bytes_ok s /\ len s = b - a).
  { intros a b s. unfold slice. case_match; [|discriminate]. bool_prop. intros [= <-].
    split; [by apply bytes_ok_take, bytes_ok_drop |]. rewrite len_take, len_drop by lia. lia. }
  assert (Hat : forall i x, byte_at (E:=MagnumError) raw i = Ok x -> is_u8 x).
  { intros i x. unfold byte_at. destruct (raw !! i) as [y|] eqn:E; [|discriminate].
    intros [= <-]. by apply (proj1 (Forall_lookup _ _) Hb i). }
  assert (Hbind : forall A B (m : Result A) (k : A -> Result B) b,
    (x ← m; k x) = Ok b -> exists a, m = Ok a /\ k a = Ok b).
  { intros A B [a| |] k b; cbn; try discriminate. by exists a. }
  repeat first
    [ intros (? & ?%Hat & Hk)%Hbind; revert Hk; cbv beta zeta
    | intros (? & ?%Hs & Hk)%Hbind; revert Hk; cbv beta zeta
    | case_match; [discriminate |]; bool_prop ].
  intros [= <-]. cbn [ip_header ip_src ip_dst ip_payload]. bool_prop.
  repeat match goal with H : bytes_ok _ /\ _ |- _ => destruct H end.
  split; [split; [unfold len in *; lia | done] |]. split; [split; [unfold len in *; lia | done] |].
  split; [done |].
  match goal with H : u16_from_be ?a ?b <= _ |- _ =>
    pose proof (u16_from_be_range a b ltac:(done) ltac:(done)) end. unfold is_u16 in *. lia.
Qed.

(** Where an accepted packet keeps what the parser takes from it. *)
Lemma Ipv4Packet_parse_places raw p :
  Ipv4Packet_parse raw = Ok p ->
  let h := ip_header p in let hl := ip_ihl h * 4 in
  ip_ihl h = Z.land (byte_of raw 0) 15 /\ 20 <= hl /\ hl <= be16 raw 2 <= len raw /\
  ip_protocol h = byte_of raw 9 /\ ip_src h = slice_at raw 12 4 /\ ip_dst h = slice_at raw 16 4 /\
  ip_payload p = slice_at raw hl (be16 raw 2 - hl).
Proof.
  unfold Ipv4Packet_parse, IPV4_MIN_HEADER_LEN.
  repeat first
    [ intros (? & ?%byte_at_of & Hk)%Res_bind_Ok; revert Hk; cbv beta zeta
    | intros (? & ?%slice_of & Hk)%Res_bind_Ok; revert Hk; cbv beta zeta
    | case_match; [discriminate |]; bool_prop ].
  intros [= <-]. cbn [ip_header ip_ihl ip_protocol ip_src ip_dst ip_payload]. bool_prop.
  repeat match goal with H : _ = slice_at _ _ _ /\ _ |- _ => destruct H as [-> ?] end.
  subst. change (Z.of_nat 0) with 0 in *. unfold be16. change (Z.of_nat 2) with 2 in *. change (Z.of_nat 3) with 3 in *.
  change (2 + 1) with 3. by split_and!; try lia.
Qed.

(** ** Witnesses *)
Lemma Ipv4Packet_parse_build_witness :
  exists csum,
    Ipv4Packet_parse (build_packet [192; 168; 1; 1] [10; 0; 0; 1] 6 [222; 173]) =
      Ok {| ip_header :=
              {| ip_ihl := 5; ip_dscp := 0; ip_total_len := 22;
                 ip_id := 0; ip_flags := 2; ip_frag_offset := 0; ip_ttl := 64;
                 ip_protocol := 6; ip_checksum := csum;
                 ip_src := [192; 168; 1; 1]; ip_dst := [10; 0; 0; 1] |};
            ip_payload := [222; 173] |}.
Proof.
  apply (Ipv4Packet_parse_build [192; 168; 1; 1] [10; 0; 0; 1] 6 [222; 173]).
  - split; [reflexivity | bytes_tac].
  - split; [reflexivity | bytes_tac].
  - unfold is_u8; lia.
  - bytes_tac.
  - vm_compute; discriminate.
Defined.

Definition demo_packet : list Z := build_packet [192; 168; 1; 1] [10; 0; 0; 1] 6 [222; 173].
Definition demo_parsed : Ipv4Packet :=
  {| ip_header :=
       {| ip_ihl := 5; ip_dscp := 0; ip_total_len := 22; ip_id := 0; ip_flags := 2;
          ip_frag_offset := 0; ip_ttl := 64; ip_protocol := 6; ip_checksum := 28472;
          ip_src := [192; 168; 1; 1]; ip_dst := [10; 0; 0; 1] |};
     ip_payload := [222; 173] |}.

Lemma Ipv4Packet_parse_sound_witness :
  Ipv4Packet_parse demo_packet = Ok demo_parsed /\
  checksum (take 20 demo_packet) = 0.
Proof.
  assert (H : Ipv4Packet_parse demo_packet = Ok demo_parsed) by (vm_compute; reflexivity).
  split; [exact H |].
  exact (proj1 (proj2 (Ipv4Packet_parse_sound demo_packet demo_parsed H))).
Defined.

(** ** Printing an address *)
(** [Display] of a u8, in ASCII. *)
Definition u8_display (n : Z) : list Z :=
  (if 100 <=? n then [48 + n / 100] else []) ++
  (if 10 <=? n then [48 + n / 10 mod 10] else []) ++ [48 + n mod 10].

Definition format_ip (addr : list Z) : list Z :=
  u8_display (arr addr 0) ++ [46] ++ u8_display (arr addr 1) ++ [46] ++
  u8_display (arr addr 2) ++ [46] ++ u8_display (arr addr 3).
