(* ===== verification/Ethernet.v ===== *)
(** * Ethernet II (src/magnum-tcp/src/ethernet.rs)

    The frame builder and the parser, which accepts IPv4 frames only. *)
From S2P Require Import Prelude Errors.

Definition ETHERTYPE_IPV4 : Z := 2048.
Definition ETHERNET_HEADER_LEN : Z := 14.

Record EthernetFrame := mkEthernetFrame {
  dst_mac : list Z;
  src_mac : list Z;
  ethertype : Z;
  eth_payload : list Z }.

(** [\[u8; 6\]] *)
Definition mac_ok (a : list Z) : Prop := length a = 6%nat /\ bytes_ok a.

Definition EthernetFrame_build (dst src payload : list Z) : list Z :=
  dst ++ src ++ u16_to_be ETHERTYPE_IPV4 ++ payload.

Definition EthernetFrame_parse (raw : list Z) : Result EthernetFrame :=
  if len raw <? ETHERNET_HEADER_LEN
  then Err (EthernetFrameTooShort (len raw) ETHERNET_HEADER_LEN)
  else
    b12 ← byte_at raw 12; b13 ← byte_at raw 13;
    let ethertype := u16_from_be b12 b13 in
    if negb (ethertype =? ETHERTYPE_IPV4) then Err (NonIpv4EtherType ethertype)
    else
      dst ← slice raw 0 6;
      src ← slice raw 6 12;
      payload ← slice raw ETHERNET_HEADER_LEN (len raw);
      Ok {| dst_mac := dst; src_mac := src; ethertype := ethertype; eth_payload := payload |}.

Lemma mac_ok_destruct a :
  mac_ok a -> exists a0 a1 a2 a3 a4 a5, a = [a0; a1; a2; a3; a4; a5] /\ bytes_ok a.
Proof.
  intros [Hl Hb]. destruct a as [|a0 [|a1 [|a2 [|a3 [|a4 [|a5 [|]]]]]]]; try done. eauto 8.
Qed.

(** The parser, branch by branch. It never panics. *)
Lemma parse_frame raw :
  EthernetFrame_parse raw =
    if len raw <? 14 then Err (EthernetFrameTooShort (len raw) 14)
    else
      let et := u16_from_be (nth 12 raw 0) (nth 13 raw 0) in
      if et =? 2048
      then Ok {| dst_mac := take 6 raw; src_mac := take 6 (drop 6 raw); ethertype := et;
                 eth_payload := drop 14 raw |}
      else Err (NonIpv4EtherType et).
Proof.
  unfold EthernetFrame_parse, ETHERNET_HEADER_LEN, ETHERTYPE_IPV4.
  destruct (Z.ltb_spec (len raw) 14) as [|Hlen]; [done |].
  pose proof Hlen as Hl. explode raw 14 using Hl.
  set (raw0 := _ :: _) in *.
  cbn [byte_at unwrap lookup list_lookup mbind Res_bind raw0 nth].
  destruct (_ =? 2048); [|done]. cbn [negb].
  rewrite !slice_ok by lia. cbn [mbind Res_bind].
  do 2 f_equal. rewrite take_ge; [done |]. rewrite length_drop. unfold len. lia.
Qed.

Lemma frame_typed raw f :
  bytes_ok raw -> EthernetFrame_parse raw = Ok f ->
  mac_ok (dst_mac f) /\ mac_ok (src_mac f) /\ bytes_ok (eth_payload f) /\
  len raw = ETHERNET_HEADER_LEN + len (eth_payload f).
Proof.
  intros Hb. rewrite parse_frame. destruct (Z.ltb_spec (len raw) 14); [done |]. cbv zeta.
  destruct (_ =? 2048); [|done]. intros [= <-]. cbn [dst_mac src_mac eth_payload].
  assert (Hl : (14 <= length raw)%nat) by (unfold len in *; lia).
  split; [split; [rewrite length_take; lia | by apply bytes_ok_take] |].
  split; [split; [rewrite length_take, length_drop; lia | by apply bytes_ok_take, bytes_ok_drop] |].
  split; [by apply bytes_ok_drop |]. unfold len in *. rewrite length_drop. unfold ETHERNET_HEADER_LEN. lia.
Qed.

(** Building a frame and parsing it returns the addresses and the payload. *)
Theorem EthernetFrame_parse_build dst src payload :
  mac_ok dst -> mac_ok src ->
  EthernetFrame_parse (EthernetFrame_build dst src payload) =
    Ok {| dst_mac := dst; src_mac := src; ethertype := 2048; eth_payload := payload |}.
Proof.
  intros (? & ? & ? & ? & ? & ? & -> & _)%mac_ok_destruct
    (? & ? & ? & ? & ? & ? & -> & _)%mac_ok_destruct.
  unfold EthernetFrame_build, ETHERTYPE_IPV4. cbn [app u16_to_be].
  change (2048 / 256 mod 256) with 8. change (2048 mod 256) with 0.
  unfold EthernetFrame_parse, ETHERNET_HEADER_LEN, ETHERTYPE_IPV4.
  autorewrite with magnum_len. pose proof (len_nonneg payload).
  replace (_ <? 14) with false by lia.
  cbn [byte_at unwrap lookup list_lookup mbind Res_bind].
  change (negb _) with false. cbn iota.
  rewrite !slice_ok by (autorewrite with magnum_len; lia). cbn [mbind Res_bind].
  do 2 f_equal. change (drop (Z.to_nat 14) _) with payload.
  apply take_ge. unfold len. lia.
Qed.

Lemma EthernetFrame_parse_build_witness :
  EthernetFrame_parse (EthernetFrame_build [1; 2; 3; 4; 5; 6] [7; 8; 9; 10; 11; 12] [222; 173])
  = Ok {| dst_mac := [1; 2; 3; 4; 5; 6]; src_mac := [7; 8; 9; 10; 11; 12];
          ethertype := 2048; eth_payload := [222; 173] |}.
Proof. apply EthernetFrame_parse_build; (split; [reflexivity | bytes_tac]). Defined.
