(* ===== verification/Arp.v ===== *)
(** * ARP (src/magnum-tcp/src/arp.rs)

    The recogniser of who-has requests and the builder of replies. *)
From S2P Require Import Prelude Errors Ipv4 Ethernet.

Definition ARP_PAYLOAD_LEN : Z := 28.
Definition ARP_FRAME_LEN : Z := ETHERNET_HEADER_LEN + ARP_PAYLOAD_LEN.
Definition HTYPE_ETHERNET : list Z := [0; 1].
Definition PTYPE_IPV4 : list Z := [8; 0].
Definition HLEN_MAC : Z := 6.
Definition PLEN_IP : Z := 4.
Definition OPER_REQUEST : list Z := [0; 1].
Definition OPER_REPLY : list Z := [0; 2].
Definition ETHERTYPE_ARP : list Z := [8; 6].

Record ArpRequest := mkArpRequest {
  sender_mac : list Z;
  sender_ip : list Z;
  target_ip : list Z }.

Definition parse_arp_request (raw_frame : list Z) : Fallible (option ArpRequest) :=
  if len raw_frame <? ARP_FRAME_LEN then Ok None
  else
    arp ← slice raw_frame ETHERNET_HEADER_LEN (len raw_frame);
    htype ← slice arp 0 2;
    if negb (bytes_eqb htype HTYPE_ETHERNET) then Ok None
    else
      ptype ← slice arp 2 4;
      if negb (bytes_eqb ptype PTYPE_IPV4) then Ok None
      else
        hlen ← byte_at arp 4; plen ← byte_at arp 5;
        if (negb (hlen =? HLEN_MAC) || negb (plen =? PLEN_IP))%bool then Ok None
        else
          oper ← slice arp 6 8;
          if negb (bytes_eqb oper OPER_REQUEST) then Ok None
          else
            smac ← slice arp 8 14;
            sip ← slice arp 14 18;
            tip ← slice arp 24 28;
            Ok (Some {| sender_mac := smac; sender_ip := sip; target_ip := tip |}).

Definition build_arp_reply_frame (our_mac our_ip requester_mac requester_ip : list Z)
    : Fallible (list Z) :=
  let frame := zeroed ARP_FRAME_LEN in
  frame ← copy_at frame 0 requester_mac;
  frame ← copy_at frame 6 our_mac;
  frame ← copy_at frame 12 ETHERTYPE_ARP;
  let arp := drop (Z.to_nat ETHERNET_HEADER_LEN) frame in
  arp ← copy_at arp 0 HTYPE_ETHERNET;
  arp ← copy_at arp 2 PTYPE_IPV4;
  arp ← set_at arp 4 HLEN_MAC;
  arp ← set_at arp 5 PLEN_IP;
  arp ← copy_at arp 6 OPER_REPLY;
  arp ← copy_at arp 8 our_mac;
  arp ← copy_at arp 14 our_ip;
  arp ← copy_at arp 18 requester_mac;
  arp ← copy_at arp 24 requester_ip;
  Ok (take (Z.to_nat ETHERNET_HEADER_LEN) frame ++ arp).

(** The layout of an Ethernet/IPv4 ARP request, with whatever follows it. *)
Definition arp_request_layout (raw : list Z) (r : ArpRequest) : Prop :=
  exists eth tmac rest,
    length eth = 14%nat /\ length tmac = 6%nat /\
    length (sender_mac r) = 6%nat /\ length (sender_ip r) = 4%nat /\
    length (target_ip r) = 4%nat /\
    raw = eth ++ [0; 1; 8; 0; 6; 4; 0; 1] ++ sender_mac r ++ sender_ip r ++ tmac
          ++ target_ip r ++ rest.

Lemma arp_request_iff raw r :
  parse_arp_request raw = Ok (Some r) <-> arp_request_layout raw r.
Proof.
  split.
  - unfold parse_arp_request, ARP_FRAME_LEN, ETHERNET_HEADER_LEN, ARP_PAYLOAD_LEN.
    destruct (Z.ltb_spec (len raw) (14 + 28)) as [|Hlen]; [discriminate |].
    change (14 + 28) with 42 in Hlen. explode raw 42 using Hlen.
    rewrite (slice_ok _ 14) by (autorewrite with magnum_len; pose proof (len_nonneg raw); lia).
    cbn [mbind Res_bind]. rewrite (take_ge (drop _ _));
      [|rewrite length_drop; unfold len; lia].
    eval_drop (Z.to_nat 14). set (arp := z13 :: _).
    assert (28 <= len arp)
      by (unfold arp; autorewrite with magnum_len; pose proof (len_nonneg raw); lia).
    rewrite !(slice_ok arp) by lia. cbn [mbind Res_bind byte_at unwrap lookup list_lookup arp].
    unfold bytes_eqb, HTYPE_ETHERNET, PTYPE_IPV4, OPER_REQUEST, HLEN_MAC, PLEN_IP.
    destruct (Z.eqb_spec z17 6), (Z.eqb_spec z18 4); repeat case_bool_decide;
      cbn [negb orb]; try discriminate.
    intros [= <-]. subst arp z17 z18.
    repeat match goal with Hq : take _ _ = _ |- _ => vm_compute in Hq; simplify_eq end.
    unfold arp_request_layout.
    exists [z; z0; z1; z2; z3; z4; z5; z6; z7; z8; z9; z10; z11; z12],
      [z31; z32; z33; z34; z35; z36], raw.
    repeat split; reflexivity.
  - intros (eth & tmac & rest & He & Ht & Hs & Hsi & Hti & ->).
    destruct r as [smac sip tip]; cbn [sender_mac sender_ip target_ip] in *.
    do 15 (destruct eth as [|? eth]; try done).
    do 7 (destruct tmac as [|? tmac]; try done).
    do 7 (destruct smac as [|? smac]; try done).
    do 5 (destruct sip as [|? sip]; try done).
    do 5 (destruct tip as [|? tip]; try done).
    unfold parse_arp_request, ARP_FRAME_LEN, ETHERNET_HEADER_LEN, ARP_PAYLOAD_LEN.
    cbn [app]. autorewrite with magnum_len. pose proof (len_nonneg rest).
    replace (_ <? _) with false by lia.
    rewrite (slice_ok _ 14) by (autorewrite with magnum_len; lia).
    cbn [mbind Res_bind]. rewrite (take_ge (drop _ _))
      by (rewrite length_drop; cbn [length]; unfold len; lia).
    eval_drop (Z.to_nat 14).
    rewrite !slice_ok by (autorewrite with magnum_len; lia).
    reflexivity.
Qed.

Lemma arp_reply_layout our_mac our_ip req_mac req_ip :
  mac_ok our_mac -> ip_ok our_ip -> mac_ok req_mac -> ip_ok req_ip ->
  let frame := req_mac ++ our_mac ++ [8; 6; 0; 1; 8; 0; 6; 4; 0; 2]
               ++ our_mac ++ our_ip ++ req_mac ++ req_ip in
  build_arp_reply_frame our_mac our_ip req_mac req_ip = Ok frame /\
  len frame = 42 /\ parse_arp_request frame = Ok None.
Proof.
  intros (? & ? & ? & ? & ? & ? & -> & _)%mac_ok_destruct
    (? & ? & ? & ? & -> & _)%ip_ok_destruct
    (? & ? & ? & ? & ? & ? & -> & _)%mac_ok_destruct
    (? & ? & ? & ? & -> & _)%ip_ok_destruct.
  unfold build_arp_reply_frame.
  replace (zeroed ARP_FRAME_LEN) with (replicate 42 0) by (vm_compute; reflexivity).
  repeat split; reflexivity.
Qed.

(** The reply is the 42-byte frame the protocol prescribes, addressed to the
    requester, and a reply is never taken for a request. *)
Theorem build_arp_reply_frame_layout our_mac our_ip req_mac req_ip :
  mac_ok our_mac -> ip_ok our_ip -> mac_ok req_mac -> ip_ok req_ip ->
  let frame := req_mac ++ our_mac ++ [8; 6; 0; 1; 8; 0; 6; 4; 0; 2]
               ++ our_mac ++ our_ip ++ req_mac ++ req_ip in
  build_arp_reply_frame our_mac our_ip req_mac req_ip = Ok frame /\
  len frame = 42 /\ parse_arp_request frame = Ok None.
Proof. apply arp_reply_layout. Qed.

Definition demo_request : list Z :=
  replicate 12 255 ++ [8; 6] ++ [0; 1; 8; 0; 6; 4; 0; 1]
  ++ [170; 187; 204; 221; 238; 255] ++ [10; 0; 0; 1] ++ replicate 6 0 ++ [192; 168; 100; 2].

Lemma build_arp_reply_frame_layout_witness :
  exists frame,
    build_arp_reply_frame [10; 177; 233; 0; 0; 1] [192; 168; 100; 2]
      [170; 187; 204; 221; 238; 255] [10; 0; 0; 1] = Ok frame /\
    parse_arp_request frame = Ok None.
Proof.
  eexists.
  refine (let H := build_arp_reply_frame_layout [10; 177; 233; 0; 0; 1] [192; 168; 100; 2]
      [170; 187; 204; 221; 238; 255] [10; 0; 0; 1] _ _ _ _ in
    conj (proj1 H) (proj2 (proj2 H)));
  (split; [reflexivity | bytes_tac]).
Defined.

Example parse_demo_request :
  parse_arp_request demo_request =
    Ok (Some {| sender_mac := [170; 187; 204; 221; 238; 255];
                sender_ip := [10; 0; 0; 1]; target_ip := [192; 168; 100; 2] |}).
Proof. reflexivity. Qed.

Lemma parse_arp_request_total raw : exists r, parse_arp_request raw = Ok r.
Proof.
  unfold parse_arp_request, ARP_FRAME_LEN, ETHERNET_HEADER_LEN, ARP_PAYLOAD_LEN.
  destruct (Z.ltb_spec (len raw) (14 + 28)) as [|Hlen]; [by eexists |].
  change (14 + 28) with 42 in Hlen. explode raw 42 using Hlen.
  rewrite (slice_ok _ 14) by (autorewrite with magnum_len; pose proof (len_nonneg raw); lia).
  cbn [mbind Res_bind]. rewrite (take_ge (drop _ _))
    by (rewrite length_drop; autorewrite with magnum_len; unfold len; cbn [length]; lia).
  eval_drop (Z.to_nat 14). rewrite !slice_ok by (autorewrite with magnum_len; pose proof (len_nonneg raw); lia).
  cbn [mbind Res_bind byte_at unwrap lookup list_lookup].
  repeat (case_match; [by eexists |]); by eexists.
Qed.
