(* ===== verification/Header.v ===== *)
(** * TCP segments (src/magnum-tcp/src/tcp/header.rs)

    Flags, header, borrowed and owned segments, the pseudo-header checksum, the
    parser and the builder. *)
From S2P Require Import Prelude Errors Checksum Ipv4.

Definition TCP_MIN_HEADER_LEN : Z := 20.
Definition RECV_WINDOW : Z := 65535.

(** ** Flags *)
Record TcpFlags := mkTcpFlags {
  flag_urg : bool;
  flag_ack : bool;
  flag_psh : bool;
  flag_rst : bool;
  flag_syn : bool;
  flag_fin : bool }.

(** [TcpFlags::default()] *)
Definition TcpFlags_default : TcpFlags := mkTcpFlags false false false false false false.

Definition TcpFlags_from_byte (b : Z) : TcpFlags :=
  {| flag_urg := negb (Z.land b 32 =? 0);
     flag_ack := negb (Z.land b 16 =? 0);
     flag_psh := negb (Z.land b 8 =? 0);
     flag_rst := negb (Z.land b 4 =? 0);
     flag_syn := negb (Z.land b 2 =? 0);
     flag_fin := negb (Z.land b 1 =? 0) |}.

(** [b as u8] *)
Definition bool_as_u8 (b : bool) : Z := if b then 1 else 0.

Definition TcpFlags_to_byte (f : TcpFlags) : Z :=
  Z.lor (Z.lor (Z.lor (Z.lor (Z.lor
    (Z.shiftl (bool_as_u8 (flag_urg f)) 5)
    (Z.shiftl (bool_as_u8 (flag_ack f)) 4))
    (Z.shiftl (bool_as_u8 (flag_psh f)) 3))
    (Z.shiftl (bool_as_u8 (flag_rst f)) 2))
    (Z.shiftl (bool_as_u8 (flag_syn f)) 1))
    (bool_as_u8 (flag_fin f)).

(** ** Headers and segments *)
Record TcpHeader := mkTcpHeader {
  src_port : Z;
  dst_port : Z;
  seq_num : Z;
  ack_num : Z;
  data_offset : Z;
  flags : TcpFlags;
  window : Z;
  tcp_csum : Z;
  urgent_ptr : Z }.

Record TcpSegment := mkTcpSegment {
  header : TcpHeader;
  payload : list Z }.

(** The owned copy that crosses a task boundary; [header.clone()] and [to_vec()]
    copy, so both conversions are the identity on contents. *)
Record TcpSegmentOwned := mkTcpSegmentOwned {
  owned_header : TcpHeader;
  owned_payload : list Z }.

Definition TcpSegmentOwned_as_seg (o : TcpSegmentOwned) : TcpSegment :=
  {| header := owned_header o; payload := owned_payload o |}.

Definition TcpSegmentOwned_from (seg : TcpSegment) : TcpSegmentOwned :=
  {| owned_header := header seg; owned_payload := payload seg |}.

(** ** Checksum *)
Definition tcp_checksum (tcp_segment src_ip dst_ip : list Z) : Z :=
  let tcp_len := as_u32 (len tcp_segment) in
  let sum := 0 in
  let sum := as_u32 (sum + u16_from_be (arr src_ip 0) (arr src_ip 1)) in
  let sum := as_u32 (sum + u16_from_be (arr src_ip 2) (arr src_ip 3)) in
  let sum := as_u32 (sum + u16_from_be (arr dst_ip 0) (arr dst_ip 1)) in
  let sum := as_u32 (sum + u16_from_be (arr dst_ip 2) (arr dst_ip 3)) in
  let sum := as_u32 (sum + PROTO_TCP) in
  let sum := as_u32 (sum + tcp_len) in
  let sum := sum_words sum tcp_segment in
  let sum := fold_carry CARRY_FUEL sum in
  not_u16 (as_u16 sum).

(** ** Parser *)
Definition TcpSegment_parse (raw src_ip dst_ip : list Z) : Result TcpSegment :=
  if len raw <? TCP_MIN_HEADER_LEN
  then Err (TcpHeaderTooShort (len raw) TCP_MIN_HEADER_LEN)
  else
    b12 ← byte_at raw 12;
    let data_offset := Z.land (Z.shiftr b12 4) 15 in
    if data_offset <? 5 then Err (TcpDataOffsetTooSmall data_offset)
    else
      let header_len := data_offset * 4 in
      if len raw <? header_len then Err (TcpHeaderTooShort (len raw) header_len)
      else
        b16 ← byte_at raw 16; b17 ← byte_at raw 17;
        let stored_checksum := u16_from_be b16 b17 in
        let computed := tcp_checksum raw src_ip dst_ip in
        if negb (computed =? 0) then Err (TcpChecksumMismatch computed stored_checksum)
        else
          b0 ← byte_at raw 0; b1 ← byte_at raw 1;
          b2 ← byte_at raw 2; b3 ← byte_at raw 3;
          b4 ← byte_at raw 4; b5 ← byte_at raw 5; b6 ← byte_at raw 6; b7 ← byte_at raw 7;
          b8 ← byte_at raw 8; b9 ← byte_at raw 9; b10 ← byte_at raw 10; b11 ← byte_at raw 11;
          b13 ← byte_at raw 13;
          b14 ← byte_at raw 14; b15 ← byte_at raw 15;
          b18 ← byte_at raw 18; b19 ← byte_at raw 19;
          pl ← slice raw header_len (len raw);
          Ok {| header :=
                  {| src_port := u16_from_be b0 b1;
                     dst_port := u16_from_be b2 b3;
                     seq_num := u32_from_be b4 b5 b6 b7;
                     ack_num := u32_from_be b8 b9 b10 b11;
                     data_offset := data_offset;
                     flags := TcpFlags_from_byte b13;
                     window := u16_from_be b14 b15;
                     tcp_csum := stored_checksum;
                     urgent_ptr := u16_from_be b18 b19 |};
                payload := pl |}.

(** ** Builder *)
Record SegmentBuilder := mkSegmentBuilder {
  sb_src_ip : list Z;
  sb_dst_ip : list Z;
  sb_src_port : Z;
  sb_dst_port : Z;
  sb_seq : Z;
  sb_ack_num : Z;
  sb_flags : TcpFlags;
  sb_window : Z;
  sb_payload : list Z }.

Definition SegmentBuilder_new (src_ip dst_ip : list Z) (src_port dst_port : Z) : SegmentBuilder :=
  {| sb_src_ip := src_ip; sb_dst_ip := dst_ip;
     sb_src_port := src_port; sb_dst_port := dst_port;
     sb_seq := 0; sb_ack_num := 0; sb_flags := TcpFlags_default;
     sb_window := RECV_WINDOW; sb_payload := [] |}.

Definition SegmentBuilder_seq (seq : Z) (b : SegmentBuilder) : SegmentBuilder :=
  let '(mkSegmentBuilder si di sp dp _ a f w p) := b in mkSegmentBuilder si di sp dp seq a f w p.
Definition SegmentBuilder_ack (ack : Z) (b : SegmentBuilder) : SegmentBuilder :=
  let '(mkSegmentBuilder si di sp dp s _ f w p) := b in mkSegmentBuilder si di sp dp s ack f w p.
Definition SegmentBuilder_flags (fl : TcpFlags) (b : SegmentBuilder) : SegmentBuilder :=
  let '(mkSegmentBuilder si di sp dp s a _ w p) := b in mkSegmentBuilder si di sp dp s a fl w p.
Definition SegmentBuilder_window (win : Z) (b : SegmentBuilder) : SegmentBuilder :=
  let '(mkSegmentBuilder si di sp dp s a f _ p) := b in mkSegmentBuilder si di sp dp s a f win p.
Definition SegmentBuilder_payload (data : list Z) (b : SegmentBuilder) : SegmentBuilder :=
  let '(mkSegmentBuilder si di sp dp s a f w _) := b in mkSegmentBuilder si di sp dp s a f w data.

(** [buf[off .. off + n].copy_from_slice(src)] with a constant range inside the
    buffer and [n = src.len()]. *)
Definition blit (buf : list Z) (off : Z) (src : list Z) : list Z :=
  take (Z.to_nat off) buf ++ src ++ drop (Z.to_nat (off + len src)) buf.

Definition SegmentBuilder_build (b : SegmentBuilder) : list Z :=
  let total := TCP_MIN_HEADER_LEN + len (sb_payload b) in
  let buf := zeroed total in
  let buf := blit buf 0 (u16_to_be (sb_src_port b)) in
  let buf := blit buf 2 (u16_to_be (sb_dst_port b)) in
  let buf := blit buf 4 (u32_to_be (sb_seq b)) in
  let buf := blit buf 8 (u32_to_be (sb_ack_num b)) in
  let buf := <[12%nat := 80]> buf in
  let buf := <[13%nat := TcpFlags_to_byte (sb_flags b)]> buf in
  let buf := blit buf 14 (u16_to_be (sb_window b)) in
  let buf := blit buf TCP_MIN_HEADER_LEN (sb_payload b) in
  let csum := tcp_checksum buf (sb_src_ip b) (sb_dst_ip b) in
  blit buf 16 (u16_to_be csum).

(** ** Layout of a built segment *)

(** The 20 header bytes and the payload, with the checksum field [c]. *)
Definition segment_bytes (b : SegmentBuilder) (c : list Z) : list Z :=
  u16_to_be (sb_src_port b) ++ u16_to_be (sb_dst_port b) ++
  u32_to_be (sb_seq b) ++ u32_to_be (sb_ack_num b) ++
  [80; TcpFlags_to_byte (sb_flags b)] ++ u16_to_be (sb_window b) ++
  c ++ 0 :: 0 :: sb_payload b.

Definition build_csum (b : SegmentBuilder) : Z :=
  tcp_checksum (segment_bytes b [0; 0]) (sb_src_ip b) (sb_dst_ip b).

Lemma build_shape b :
  SegmentBuilder_build b = segment_bytes b (u16_to_be (build_csum b)).
Proof.
  destruct b as [si di sp dp s a f w p].
  unfold SegmentBuilder_build, build_csum, segment_bytes, TCP_MIN_HEADER_LEN. cbn [sb_src_ip sb_dst_ip
    sb_src_port sb_dst_port sb_seq sb_ack_num sb_flags sb_window sb_payload].
  pose proof (len_nonneg p).
  rewrite zeroed_plus by lia.
  replace (zeroed 20) with (replicate 20 0) by (vm_compute; reflexivity).
  unfold blit. cbv zeta.
  change (Z.to_nat (0 + len (u16_to_be _))) with 2%nat.
  change (Z.to_nat (2 + len (u16_to_be _))) with 4%nat.
  change (Z.to_nat (4 + len (u32_to_be _))) with 8%nat.
  change (Z.to_nat (8 + len (u32_to_be _))) with 12%nat.
  change (Z.to_nat (14 + len (u16_to_be _))) with 16%nat.
  change (Z.to_nat (16 + len (u16_to_be _))) with 18%nat.
  change (Z.to_nat 0) with 0%nat. change (Z.to_nat 2) with 2%nat.
  change (Z.to_nat 4) with 4%nat. change (Z.to_nat 8) with 8%nat.
  change (Z.to_nat 14) with 14%nat. change (Z.to_nat 16) with 16%nat.
  replace (Z.to_nat (20 + len p)) with (20 + length p)%nat by (unfold len; lia).
  change (Z.to_nat 20) with 20%nat.
  unfold u16_to_be, u32_to_be. cbn [app replicate take drop insert list_insert Nat.add].
  rewrite (drop_ge (zeroed _)) by (pose proof (len_zeroed (len p)); unfold len in *; lia).
  rewrite app_nil_r. reflexivity.
Qed.

Lemma len_build b : len (SegmentBuilder_build b) = 20 + len (sb_payload b).
Proof. rewrite build_shape. unfold segment_bytes, u16_to_be, u32_to_be. cbn [app].
  autorewrite with magnum_len. lia. Qed.

(** ** Flags *)

(** Six flags fit one byte and are read back from it. *)
Lemma TcpFlags_roundtrip f :
  TcpFlags_from_byte (TcpFlags_to_byte f) = f /\ 0 <= TcpFlags_to_byte f < 64.
Proof. destruct f as [[] [] [] [] [] []]; vm_compute; repeat split; discriminate. Qed.

Lemma flags_byte f : is_u8 (TcpFlags_to_byte f).
Proof. pose proof (TcpFlags_roundtrip f). unfold is_u8; lia. Qed.

(** ** Checksum *)
Definition pseudo_sum (seg_len : Z) (si di : list Z) : Z :=
  u16_from_be (arr si 0) (arr si 1) + u16_from_be (arr si 2) (arr si 3) +
  u16_from_be (arr di 0) (arr di 1) + u16_from_be (arr di 2) (arr di 3) + 6 + seg_len.

Lemma arr_byte a i : ip_ok a -> is_u8 (arr a i).
Proof. intros [_ Hb]. by apply bytes_nth. Qed.

Lemma pseudo_sum_bounds n si di :
  ip_ok si -> ip_ok di -> 0 <= n -> 6 <= pseudo_sum n si di <= 262146 + n.
Proof.
  intros Hs Hd Hn. unfold pseudo_sum.
  pose proof (fun i => arr_byte si i Hs) as Hsi. pose proof (fun i => arr_byte di i Hd) as Hdi.
  pose proof (u16_from_be_range _ _ (Hsi 0%nat) (Hsi 1%nat)).
  pose proof (u16_from_be_range _ _ (Hsi 2%nat) (Hsi 3%nat)).
  pose proof (u16_from_be_range _ _ (Hdi 0%nat) (Hdi 1%nat)).
  pose proof (u16_from_be_range _ _ (Hdi 2%nat) (Hdi 3%nat)).
  unfold is_u16 in *. lia.
Qed.

Lemma tcp_sum_bounds seg si di :
  ip_ok si -> ip_ok di -> bytes_ok seg -> len seg <= 65535 ->
  0 < pseudo_sum (len seg) si di + word_sum seg < 2148000000.
Proof.
  intros Hs Hd Hb Hl. pose proof (len_nonneg seg).
  pose proof (pseudo_sum_bounds (len seg) si di Hs Hd ltac:(lia)).
  pose proof (word_sum_bounds seg Hb). word_lia.
Qed.

(** The u32 accumulator holds the exact sum: no addition of [tcp_checksum]
    overflows on a segment an IPv4 packet can carry. *)
Lemma tcp_checksum_exact seg si di :
  ip_ok si -> ip_ok di -> bytes_ok seg -> len seg <= 65535 ->
  tcp_checksum seg si di =
    65535 - fold_carry CARRY_FUEL (pseudo_sum (len seg) si di + word_sum seg).
Proof.
  intros Hs Hd Hb Hl. pose proof (len_nonneg seg).
  pose proof (tcp_sum_bounds seg si di Hs Hd Hb Hl) as Hsum.
  pose proof (word_sum_bounds seg Hb) as Hw.
  unfold tcp_checksum. cbv zeta.
  pose proof (pseudo_sum_bounds (len seg) si di Hs Hd ltac:(lia)) as Hp.
  unfold pseudo_sum, PROTO_TCP in *.
  pose proof (fun i => arr_byte si i Hs) as Hsi. pose proof (fun i => arr_byte di i Hd) as Hdi.
  pose proof (u16_from_be_range _ _ (Hsi 0%nat) (Hsi 1%nat)).
  pose proof (u16_from_be_range _ _ (Hsi 2%nat) (Hsi 3%nat)).
  pose proof (u16_from_be_range _ _ (Hdi 0%nat) (Hdi 1%nat)).
  pose proof (u16_from_be_range _ _ (Hdi 2%nat) (Hdi 3%nat)).
  unfold is_u16 in *. u32_exact. rewrite Z.add_0_l.
  rewrite sum_words_exact by (assumption || unfold U32; lia).
  match goal with |- context [fold_carry _ ?x] =>
    pose proof (fold_carry_done CARRY_FUEL x ltac:(unfold CARRY_FUEL; lia) ltac:(unfold U32; lia)) end.
  unfold not_u16, as_u16, U16. rewrite Z.mod_small by lia. lia.
Qed.

Lemma tcp_checksum_range seg si di :
  ip_ok si -> ip_ok di -> bytes_ok seg -> len seg <= 65535 ->
  is_u16 (tcp_checksum seg si di).
Proof.
  intros. rewrite tcp_checksum_exact by assumption.
  pose proof (tcp_sum_bounds seg si di ltac:(done) ltac:(done) ltac:(done) ltac:(done)).
  pose proof (fold_carry_done CARRY_FUEL (pseudo_sum (len seg) si di + word_sum seg)) as Hf.
  unfold CARRY_FUEL, is_u16 in *. specialize (Hf ltac:(lia) ltac:(unfold U32; lia)). lia.
Qed.

Lemma tcp_checksum_zero_iff seg si di :
  ip_ok si -> ip_ok di -> bytes_ok seg -> len seg <= 65535 ->
  tcp_checksum seg si di = 0 <->
  (pseudo_sum (len seg) si di + word_sum seg) mod 65535 = 0.
Proof.
  intros Hs Hd Hb Hl. rewrite tcp_checksum_exact by assumption.
  pose proof (tcp_sum_bounds seg si di Hs Hd Hb Hl).
  pose proof (fold_carry_all_ones CARRY_FUEL (pseudo_sum (len seg) si di + word_sum seg)) as Hf.
  unfold CARRY_FUEL, U32 in *. specialize (Hf ltac:(lia) ltac:(lia)). lia.
Qed.

(** C31. The TCP checksum is the Internet checksum of the pseudo-header of RFC 793
    followed by the segment: the two checksum routines of the stack, which are
    written separately, agree; the pseudo-header is never laid out in memory. *)
Theorem tcp_checksum_pseudo_header seg si di :
  ip_ok si -> ip_ok di -> bytes_ok seg -> len seg <= 65535 ->
  tcp_checksum seg si di = checksum (si ++ di ++ [0; PROTO_TCP] ++ u16_to_be (len seg) ++ seg).
Proof.
  intros Hs Hd Hb Hl. pose proof (len_nonneg seg). rewrite tcp_checksum_exact by assumption.
  destruct (ip_ok_destruct si Hs) as (s0 & s1 & s2 & s3 & -> & ? & ? & ? & ?).
  destruct (ip_ok_destruct di Hd) as (d0 & d1 & d2 & d3 & -> & ? & ? & ? & ?).
  unfold PROTO_TCP, u16_to_be. cbn [app]. rewrite checksum_exact; cycle 1.
  { bytes_tac. }
  { autorewrite with magnum_len. lia. }
  do 2 f_equal. cbn [word_sum]. rewrite u16_be_roundtrip by (unfold is_u16; lia).
  unfold pseudo_sum, arr. cbn [nth]. change (u16_from_be 0 6) with 6. lia.
Qed.

Lemma tcp_checksum_pseudo_header_witness :
  tcp_checksum [0; 80; 1; 2; 3] [10; 0; 0; 1] [192; 168; 1; 2] =
  checksum [10; 0; 0; 1; 192; 168; 1; 2; 0; 6; 0; 5; 0; 80; 1; 2; 3].
Proof.
  apply (tcp_checksum_pseudo_header [0; 80; 1; 2; 3] [10; 0; 0; 1] [192; 168; 1; 2]);
    first [by vm_compute | split; [reflexivity | bytes_tac] | bytes_tac].
Defined.

(** ** Parser *)

(** The parser in closed form on a buffer of at least 20 bytes. *)
Lemma TcpSegment_parse_long raw si di :
  20 <= len raw ->
  let b i := nth i raw 0 in
  let off := Z.land (Z.shiftr (b 12%nat) 4) 15 in
  let stored := u16_from_be (b 16%nat) (b 17%nat) in
  TcpSegment_parse raw si di =
    if off <? 5 then Err (TcpDataOffsetTooSmall off)
    else if len raw <? off * 4 then Err (TcpHeaderTooShort (len raw) (off * 4))
    else if tcp_checksum raw si di =? 0
    then Ok {| header :=
                 {| src_port := u16_from_be (b 0%nat) (b 1%nat);
                    dst_port := u16_from_be (b 2%nat) (b 3%nat);
                    seq_num := u32_from_be (b 4%nat) (b 5%nat) (b 6%nat) (b 7%nat);
                    ack_num := u32_from_be (b 8%nat) (b 9%nat) (b 10%nat) (b 11%nat);
                    data_offset := off;
                    flags := TcpFlags_from_byte (b 13%nat);
                    window := u16_from_be (b 14%nat) (b 15%nat);
                    tcp_csum := stored;
                    urgent_ptr := u16_from_be (b 18%nat) (b 19%nat) |};
               payload := drop (Z.to_nat (off * 4)) raw |}
    else Err (TcpChecksumMismatch (tcp_checksum raw si di) stored).
Proof.
  intros Hlen. unfold TcpSegment_parse, TCP_MIN_HEADER_LEN.
  replace (len raw <? 20) with false by lia.
  pose proof Hlen as Hl. explode raw 20 using Hl. clear Hl.
  set (raw0 := _ :: _) in *.
  cbn [byte_at unwrap lookup list_lookup mbind Res_bind raw0 nth]. cbv zeta.
  set (off := Z.land _ 15). clearbody raw0 off.
  destruct (Z.ltb_spec off 5); [done |].
  destruct (Z.ltb_spec (len raw0) (off * 4)); [done |].
  destruct (tcp_checksum raw0 si di =? 0); [|done]. cbn [negb].
  rewrite slice_ok by lia. cbn [mbind Res_bind].
  rewrite take_ge; [done |]. rewrite length_drop. unfold len. lia.
Qed.

(** The parser returns on every byte string, without indexing outside it. *)
Theorem TcpSegment_parse_no_panic raw si di : TcpSegment_parse raw si di <> Panic.
Proof.
  destruct (Z.lt_ge_cases (len raw) 20).
  - unfold TcpSegment_parse, TCP_MIN_HEADER_LEN.
    replace (len raw <? 20) with true by lia. discriminate.
  - rewrite TcpSegment_parse_long by assumption. cbv zeta. by repeat case_match.
Qed.

Record builder_ok (b : SegmentBuilder) : Prop := {
  bo_src_ip : ip_ok (sb_src_ip b);
  bo_dst_ip : ip_ok (sb_dst_ip b);
  bo_src_port : is_u16 (sb_src_port b);
  bo_dst_port : is_u16 (sb_dst_port b);
  bo_seq : is_u32 (sb_seq b);
  bo_ack : is_u32 (sb_ack_num b);
  bo_window : is_u16 (sb_window b);
  bo_payload : bytes_ok (sb_payload b);
  bo_len : 20 + len (sb_payload b) <= 65535 }.

Lemma segment_bytes_ok b c :
  builder_ok b -> bytes_ok c -> bytes_ok (segment_bytes b c).
Proof.
  intros Hb Hc. unfold segment_bytes, u16_to_be, u32_to_be. cbn [app].
  pose proof (flags_byte (sb_flags b)). pose proof (bo_payload b Hb).
  bytes_tac.
Qed.

Lemma len_segment_bytes b c :
  len c = 2 -> len (segment_bytes b c) = 20 + len (sb_payload b).
Proof.
  intros Hc. unfold segment_bytes, u16_to_be, u32_to_be. cbn [app].
  autorewrite with magnum_len. lia.
Qed.

Lemma build_csum_range b : builder_ok b -> is_u16 (build_csum b).
Proof.
  intros Hb. destruct (Hb). unfold build_csum. apply tcp_checksum_range; try assumption.
  - apply segment_bytes_ok; [done | bytes_tac].
  - rewrite len_segment_bytes by done. lia.
Qed.

Lemma build_bytes_ok b : builder_ok b -> bytes_ok (SegmentBuilder_build b).
Proof.
  intros Hb. rewrite build_shape. apply segment_bytes_ok; [done |].
  unfold u16_to_be. bytes_tac.
Qed.

(** A built segment carries a checksum that verifies. *)
Lemma build_checksum b :
  builder_ok b -> tcp_checksum (SegmentBuilder_build b) (sb_src_ip b) (sb_dst_ip b) = 0.
Proof.
  intros Hb. destruct (Hb) as [Hs Hd _ _ _ _ _ Hp Hl]. rewrite build_shape.
  assert (Hok : forall c, bytes_ok c -> bytes_ok (segment_bytes b c))
    by (intros; by apply segment_bytes_ok).
  rewrite tcp_checksum_exact; try assumption.
  2: { apply Hok. unfold u16_to_be. bytes_tac. }
  2: { rewrite len_segment_bytes by done. lia. }
  unfold build_csum. rewrite tcp_checksum_exact; try assumption.
  2: { apply Hok. bytes_tac. }
  2: { rewrite len_segment_bytes by done. lia. }
  rewrite !len_segment_bytes by done.
  set (n := 20 + len (sb_payload b)). set (s := pseudo_sum n _ _).
  set (front := u16_to_be (sb_src_port b) ++ u16_to_be (sb_dst_port b) ++
    u32_to_be (sb_seq b) ++ u32_to_be (sb_ack_num b) ++
    [80; TcpFlags_to_byte (sb_flags b)] ++ u16_to_be (sb_window b)).
  assert (Hseg : forall c0 c1, segment_bytes b [c0; c1] = front ++ c0 :: c1 :: 0 :: 0 :: sb_payload b)
    by reflexivity.
  assert (Hfr : len front = 16) by reflexivity.
  assert (Hfb : bytes_ok (front ++ 0 :: 0 :: 0 :: 0 :: sb_payload b))
    by (rewrite <- Hseg; apply Hok; bytes_tac).
  apply bytes_ok_app_inv in Hfb as [Hfb Hfp].
  assert (Hrest : bytes_ok (0 :: 0 :: sb_payload b)) by bytes_tac.
  unfold u16_to_be. rewrite !Hseg.
  pose proof (word_sum_stored front (0 :: 0 :: sb_payload b) s) as Hw. cbv zeta in Hw.
  rewrite Hw; [lia | by rewrite Hfr | |];
    pose proof (pseudo_sum_bounds n _ _ Hs Hd ltac:(unfold n; pose proof (len_nonneg (sb_payload b)); lia));
    pose proof (word_sum_bounds _ Hfb); pose proof (word_sum_bounds _ Hrest);
    rewrite ?len_cons, ?Hfr in *; subst s n; pose proof (len_nonneg (sb_payload b)).
  - lia.
  - word_lia.
Qed.

(** What the peer reads of the segment that [b] builds. *)
Definition wire_segment (b : SegmentBuilder) : TcpSegment :=
  {| header :=
       {| src_port := sb_src_port b; dst_port := sb_dst_port b;
          seq_num := sb_seq b; ack_num := sb_ack_num b;
          data_offset := 5; flags := sb_flags b; window := sb_window b;
          tcp_csum := build_csum b; urgent_ptr := 0 |};
     payload := sb_payload b |}.

Lemma parse_build b :
  builder_ok b ->
  TcpSegment_parse (SegmentBuilder_build b) (sb_src_ip b) (sb_dst_ip b) = Ok (wire_segment b).
Proof.
  intros Hb. destruct (Hb). pose proof (len_nonneg (sb_payload b)).
  rewrite TcpSegment_parse_long by (rewrite len_build; lia). cbv zeta.
  rewrite build_checksum, len_build by assumption.
  rewrite build_shape. unfold segment_bytes, u16_to_be, u32_to_be. cbn [app nth].
  change (Z.land (Z.shiftr 80 4) 15) with 5. change (5 <? 5) with false.
  replace (_ <? 5 * 4) with false by lia. cbn [Z.eqb].
  rewrite !u16_be_roundtrip, !u32_be_roundtrip by auto using build_csum_range.
  rewrite (proj1 (TcpFlags_roundtrip _)).
  reflexivity.
Qed.

(** A segment determines what it was built from, but for the addresses. *)
Lemma build_injective b b' :
  builder_ok b -> builder_ok b' -> SegmentBuilder_build b = SegmentBuilder_build b' ->
  sb_src_port b = sb_src_port b' /\ sb_dst_port b = sb_dst_port b' /\ sb_seq b = sb_seq b' /\
  sb_ack_num b = sb_ack_num b' /\ sb_flags b = sb_flags b' /\ sb_window b = sb_window b' /\
  sb_payload b = sb_payload b'.
Proof.
  intros [] []. rewrite !build_shape. unfold segment_bytes, u16_to_be, u32_to_be. cbn [app].
  intros [=]. split_and!; try done.
  - rewrite <- (u16_be_roundtrip (sb_src_port b)), <- (u16_be_roundtrip (sb_src_port b')) by done. congruence.
  - rewrite <- (u16_be_roundtrip (sb_dst_port b)), <- (u16_be_roundtrip (sb_dst_port b')) by done. congruence.
  - rewrite <- (u32_be_roundtrip (sb_seq b)), <- (u32_be_roundtrip (sb_seq b')) by done. congruence.
  - rewrite <- (u32_be_roundtrip (sb_ack_num b)), <- (u32_be_roundtrip (sb_ack_num b')) by done. congruence.
  - rewrite <- (proj1 (TcpFlags_roundtrip (sb_flags b))), <- (proj1 (TcpFlags_roundtrip (sb_flags b'))). congruence.
  - rewrite <- (u16_be_roundtrip (sb_window b)), <- (u16_be_roundtrip (sb_window b')) by done. congruence.
Qed.

(** C29. Round trip: parsing what [SegmentBuilder::build] wrote gives back ports,
    sequence and acknowledgement numbers, flags, window and payload. *)
Theorem TcpSegment_parse_build b :
  builder_ok b ->
  TcpSegment_parse (SegmentBuilder_build b) (sb_src_ip b) (sb_dst_ip b) =
    Ok {| header :=
            {| src_port := sb_src_port b; dst_port := sb_dst_port b;
               seq_num := sb_seq b; ack_num := sb_ack_num b;
               data_offset := 5; flags := sb_flags b; window := sb_window b;
               tcp_csum := build_csum b; urgent_ptr := 0 |};
          payload := sb_payload b |}.
Proof. apply parse_build. Qed.

Definition demo_builder : SegmentBuilder :=
  SegmentBuilder_payload [104; 105]
    (SegmentBuilder_flags (mkTcpFlags false true true false false false)
      (SegmentBuilder_ack 1001 (SegmentBuilder_seq 9999
        (SegmentBuilder_new [192; 168; 100; 2] [10; 0; 0; 1] 80 54321)))).

Lemma demo_builder_ok : builder_ok demo_builder.
Proof.
  split; cbn; unfold is_u16, is_u32, RECV_WINDOW; try lia;
    try (split; [reflexivity | bytes_tac]); try bytes_tac; vm_compute; discriminate.
Qed.

Lemma TcpSegment_parse_build_witness :
  TcpSegment_parse (SegmentBuilder_build demo_builder) [192; 168; 100; 2] [10; 0; 0; 1] =
    Ok {| header :=
            {| src_port := 80; dst_port := 54321; seq_num := 9999; ack_num := 1001;
               data_offset := 5; flags := mkTcpFlags false true true false false false;
               window := 65535; tcp_csum := build_csum demo_builder; urgent_ptr := 0 |};
          payload := [104; 105] |}.
Proof. exact (TcpSegment_parse_build demo_builder demo_builder_ok). Defined.

Lemma TcpSegment_parse_ok raw si di seg :
  TcpSegment_parse raw si di = Ok seg ->
  20 <= len raw /\ tcp_checksum raw si di = 0.
Proof.
  destruct (Z.lt_ge_cases (len raw) 20).
  - unfold TcpSegment_parse, TCP_MIN_HEADER_LEN.
    replace (len raw <? 20) with true by lia. discriminate.
  - rewrite TcpSegment_parse_long by assumption. cbv zeta.
    repeat case_match; try discriminate. bool_prop. auto.
Qed.

(** The fields of a header are in the range of their Rust type. *)
Record header_ok (h : TcpHeader) : Prop := {
  ho_sport : is_u16 (src_port h);
  ho_dport : is_u16 (dst_port h);
  ho_seq : is_u32 (seq_num h);
  ho_ack : is_u32 (ack_num h);
  ho_offset : 5 <= data_offset h <= 15;
  ho_window : is_u16 (window h);
  ho_csum : is_u16 (tcp_csum h);
  ho_urgent : is_u16 (urgent_ptr h) }.

Lemma segment_typed raw si di seg :
  bytes_ok raw -> TcpSegment_parse raw si di = Ok seg ->
  header_ok (header seg) /\ bytes_ok (payload seg) /\
  len raw = data_offset (header seg) * 4 + len (payload seg).
Proof.
  intros Hb Hp. destruct (TcpSegment_parse_ok raw si di seg Hp) as [Hl _].
  rewrite TcpSegment_parse_long in Hp by done. cbv zeta in Hp.
  destruct (Z.ltb_spec (Z.land (Z.shiftr (nth 12 raw 0) 4) 15) 5); [done |].
  destruct (Z.ltb_spec (len raw) (Z.land (Z.shiftr (nth 12 raw 0) 4) 15 * 4)); [done |].
  assert (Z.land (Z.shiftr (nth 12 raw 0) 4) 15 < 16)
    by (change 15 with (Z.ones 4); rewrite Z.land_ones by lia; by apply Z.mod_pos_bound).
  destruct (_ =? 0); [|done]. injection Hp as <-. cbn [header payload data_offset].
  split; [|split; [by apply bytes_ok_drop |]].
  - split; cbn; try lia; auto with magnum.
  - rewrite len_drop by lia. lia.
Qed.

(** Where an accepted segment keeps what the parser takes from it. *)
Lemma TcpSegment_parse_places raw si di seg :
  TcpSegment_parse raw si di = Ok seg ->
  let h := header seg in let hl := data_offset h * 4 in
  data_offset h = Z.land (Z.shiftr (byte_of raw 12) 4) 15 /\ 20 <= hl <= len raw /\
  src_port h = be16 raw 0 /\ dst_port h = be16 raw 2 /\ seq_num h = be32 raw 4 /\ ack_num h = be32 raw 8 /\
  flags h = TcpFlags_from_byte (byte_of raw 13) /\ window h = be16 raw 14 /\ urgent_ptr h = be16 raw 18 /\
  payload seg = slice_at raw hl (len raw - hl).
Proof.
  intros Hp. destruct (TcpSegment_parse_ok raw si di seg Hp) as [Hl _].
  rewrite TcpSegment_parse_long in Hp by done. cbv zeta in Hp.
  repeat (case_match; [discriminate |]). case_match; [|discriminate]. bool_prop. injection Hp as <-.
  cbv zeta. cbn [header payload data_offset src_port dst_port seq_num ack_num flags window urgent_ptr].
  unfold be16, be32, byte_of. split_and!; try done; try lia.
  unfold slice_at. rewrite take_ge; [done |]. rewrite length_drop. unfold len. lia.
Qed.

(** C30. A segment damaged in one 16-bit word never parses: whichever aligned word
    is replaced, and by whatever value that is not the same number modulo 65535
    (the two encodings 0x0000 and 0xFFFF of zero are the only blind spot). *)
Theorem TcpSegment_parse_detects_word_error a x0 x1 y0 y1 b si di seg :
  ip_ok si -> ip_ok di ->
  bytes_ok (a ++ x0 :: x1 :: b) -> is_u8 y0 -> is_u8 y1 ->
  len (a ++ x0 :: x1 :: b) <= 65535 -> Z.even (len a) = true ->
  (u16_from_be x0 x1 - u16_from_be y0 y1) mod 65535 <> 0 ->
  TcpSegment_parse (a ++ x0 :: x1 :: b) si di = Ok seg ->
  exists e, TcpSegment_parse (a ++ y0 :: y1 :: b) si di = Err e.
Proof.
  intros Hs Hd Hx Hy0 Hy1 Hl He Hne Hok.
  apply TcpSegment_parse_ok in Hok as [Hlen Hc].
  assert (Hy : bytes_ok (a ++ y0 :: y1 :: b)).
  { apply bytes_ok_app_inv in Hx as [Ha Hx]. unfold bytes_ok in *.
    rewrite !Forall_cons in Hx. rewrite Forall_app, !Forall_cons. tauto. }
  assert (Hll : len (a ++ y0 :: y1 :: b) = len (a ++ x0 :: x1 :: b))
    by (rewrite !len_app, !len_cons; lia).
  rewrite TcpSegment_parse_long by lia. cbv zeta.
  case_match; [eauto |]. case_match; [eauto |].
  destruct (Z.eqb_spec (tcp_checksum (a ++ y0 :: y1 :: b) si di) 0) as [Hc'|]; [|eauto].
  exfalso. apply tcp_checksum_zero_iff in Hc, Hc'; try assumption; [|lia].
  rewrite Hll in Hc'. rewrite !word_sum_app in Hc, Hc' by assumption. cbn [word_sum] in *.
  apply Hne. rewrite Zmod_eq_full in Hc, Hc' by lia. apply Z.mod_divide; [lia |].
  match type of Hc with _ - ?q * _ = _ => match type of Hc' with _ - ?q' * _ = _ =>
    exists (q - q') end end. lia.
Qed.

Lemma TcpSegment_parse_detects_word_error_witness :
  exists e, TcpSegment_parse (<[20%nat := 105]> (SegmentBuilder_build demo_builder))
    [192; 168; 100; 2] [10; 0; 0; 1] = Err e.
Proof.
  pose (raw := SegmentBuilder_build demo_builder).
  refine (TcpSegment_parse_detects_word_error (take 20 raw) 104 105 105 105 []
    [192; 168; 100; 2] [10; 0; 0; 1] _ _ _ _ _ _ _ _ _ (parse_build demo_builder demo_builder_ok));
    try (split; [reflexivity | bytes_tac]); try (unfold is_u8; lia).
  - vm_compute. repeat (apply Forall_cons_2; [split; [discriminate | reflexivity] |]). apply Forall_nil_2.
  - vm_compute. discriminate.
  - reflexivity.
  - vm_compute. discriminate.
Defined.
