(* ===== verification/Ring.v ===== *)
(** * Ring buffers

    [SendBuffer] and [RecvBuffer] both keep their bytes in a boxed array of 65536
    bytes used as a ring. The two loops they share are translated here for a ring
    of [N] bytes; the theory says what they do to the window of the ring that
    starts at a head index. *)
From S2P Require Import Prelude.

Section Ring.
Context (N : Z).

(** [for (i, &b) in data.iter().enumerate() { self.buf\[(tail + i) % N\] = b; }],
    with [pos] the running [tail + i]. *)
Fixpoint ring_write (buf : list Z) (pos : Z) (data : list Z) : list Z :=
  match data with
  | [] => buf
  | b :: rest => ring_write (<[Z.to_nat (pos mod N) := b]> buf) (pos + 1) rest
  end.

(** [self.buf\[(start + i) % N\]] *)
Definition ring_get (buf : list Z) (pos : Z) : Z := nth (Z.to_nat (pos mod N)) buf 0.

(** [for i in 0..n { seg.push(self.buf\[(start + i) % N\]); }] *)
Definition ring_read (buf : list Z) (start n : Z) : list Z :=
  map (fun i => ring_get buf (start + i)) (seqZ 0 n).

Context (N_pos : 0 < N).

Lemma ring_write_length buf pos data : length (ring_write buf pos data) = length buf.
Proof.
  revert buf pos. induction data as [|b data IH]; intros; cbn; [done |].
  by rewrite IH, length_insert.
Qed.

Lemma ring_write_bytes buf pos data :
  bytes_ok buf -> bytes_ok data -> bytes_ok (ring_write buf pos data).
Proof.
  intros Hb Hd. revert buf pos Hb. induction Hd as [|b data Hx Hd IH]; intros; [done |].
  cbn [ring_write]. by apply IH, Forall_insert.
Qed.

Lemma ring_read_bytes buf start n : bytes_ok buf -> bytes_ok (ring_read buf start n).
Proof. intros Hb. apply Forall_map, Forall_true. intros i. by apply bytes_nth. Qed.

Lemma ring_get_insert buf pos b q :
  len buf = N ->
  ring_get (<[Z.to_nat (pos mod N) := b]> buf) q =
    if decide (pos mod N = q mod N) then b else ring_get buf q.
Proof.
  intros Hl. unfold ring_get, len in *. rewrite !nth_lookup.
  pose proof (Z.mod_pos_bound pos N N_pos). pose proof (Z.mod_pos_bound q N N_pos).
  case_decide as E.
  - rewrite E, list_lookup_insert_eq by lia. done.
  - rewrite list_lookup_insert_ne by lia. done.
Qed.

Lemma mod_shift_neq pos i j :
  0 <= i < N -> 0 <= j < N -> i <> j -> (pos + i) mod N <> (pos + j) mod N.
Proof.
  intros Hi Hj Hij E.
  assert ((i - j) mod N = 0) as Hz.
  { replace (i - j) with ((pos + i) - (pos + j)) by lia.
    rewrite Zminus_mod, E, Z.sub_diag. apply Z.mod_0_l; lia. }
  apply Z.mod_divide in Hz as [q Hq]; [|lia].
  assert (q = 0 \/ q <= -1 \/ 1 <= q) as [->|[|]] by lia; nia.
Qed.

(** What the write loop leaves at offset [i] from its start. *)
Lemma ring_get_write data : forall buf pos i,
  len buf = N -> len data <= N -> 0 <= i < N ->
  ring_get (ring_write buf pos data) (pos + i) =
    match data !! Z.to_nat i with Some b => b | None => ring_get buf (pos + i) end.
Proof.
  induction data as [|b data IH]; intros buf pos i Hl Hd Hi; cbn [ring_write]; [done |].
  rewrite len_cons in Hd. pose proof (len_nonneg data).
  set (buf1 := <[Z.to_nat (pos mod N) := b]> buf).
  assert (Hl1 : len buf1 = N) by (unfold buf1, len in *; by rewrite length_insert).
  destruct (Z.eq_dec i 0) as [->|Hi0].
  - change ((b :: data) !! Z.to_nat 0) with (Some b).
    replace (ring_get _ (pos + 0)) with (ring_get (ring_write buf1 (pos + 1) data) ((pos + 1) + (N - 1))).
    2: { unfold ring_get. do 2 f_equal. replace (pos + 1 + (N - 1)) with (pos + 0 + 1 * N) by lia.
         apply Z.mod_add; lia. }
    rewrite IH by lia. rewrite lookup_ge_None_2 by (unfold len in *; lia).
    unfold buf1. rewrite ring_get_insert by done.
    rewrite decide_True; [done |].
    replace (pos + 1 + (N - 1)) with (pos + 1 * N) by lia. symmetry. apply Z.mod_add; lia.
  - replace (pos + i) with ((pos + 1) + (i - 1)) by lia. rewrite IH by lia.
    replace (Z.to_nat i) with (S (Z.to_nat (i - 1))) by lia.
    change ((b :: data) !! S (Z.to_nat (i - 1))) with (data !! Z.to_nat (i - 1)).
    destruct (data !! Z.to_nat (i - 1)); [done |].
    unfold buf1. rewrite ring_get_insert by done.
    rewrite decide_False; [done |].
    replace (pos + 1 + (i - 1)) with (pos + i) by lia.
    rewrite <- (Z.add_0_r pos) at 1. apply mod_shift_neq; lia.
Qed.

Lemma ring_get_mod buf a b : ring_get buf (a mod N + b) = ring_get buf (a + b).
Proof. unfold ring_get. by rewrite Zplus_mod_idemp_l. Qed.

Lemma ring_read_lookup buf start n i :
  ring_read buf start n !! i =
    if decide (Z.of_nat i < n) then Some (ring_get buf (start + Z.of_nat i)) else None.
Proof.
  unfold ring_read. rewrite list_lookup_fmap.
  case_decide.
  - by rewrite lookup_seqZ_lt by lia.
  - by rewrite lookup_seqZ_ge by lia.
Qed.

Lemma len_ring_read buf start n : 0 <= n -> len (ring_read buf start n) = n.
Proof. intros. unfold ring_read, len. rewrite length_map, length_seqZ. lia. Qed.

Lemma ring_read_mod buf start n : ring_read buf (start mod N) n = ring_read buf start n.
Proof. unfold ring_read. apply map_ext. intros. apply ring_get_mod. Qed.

(** Appending behind a window of [l] bytes that starts at [head]. *)
Lemma ring_write_append buf head l data :
  len buf = N -> 0 <= l -> l + len data <= N ->
  ring_read (ring_write buf ((head + l) mod N) data) head (l + len data) =
    ring_read buf head l ++ data.
Proof.
  intros Hl Hl0 Hfit. pose proof (len_nonneg data).
  apply list_eq. intros i. rewrite ring_read_lookup.
  destruct (decide (Z.of_nat i < l + len data)) as [Hi|Hi].
  - set (p := (head + l) mod N).
    assert (Hget : forall k, (head + Z.of_nat i) mod N = (p + k) mod N -> 0 <= k < N ->
      ring_get (ring_write buf p data) (head + Z.of_nat i) =
      match data !! Z.to_nat k with Some b => b | None => ring_get buf (head + Z.of_nat i) end).
    { intros k Hk Hkr. pose proof (ring_get_write data buf p k Hl ltac:(lia) Hkr) as Hw.
      unfold ring_get in *. rewrite Hk. exact Hw. }
    destruct (decide (Z.of_nat i < l)) as [Hil|Hil].
    + rewrite lookup_app_l, ring_read_lookup, decide_True
        by (lia || (pose proof (len_ring_read buf head l); unfold len in *; lia)).
      rewrite (Hget (Z.of_nat i - l + N)).
      * rewrite lookup_ge_None_2; [done | unfold len in *; lia].
      * unfold p. rewrite Zplus_mod_idemp_l.
        replace (head + l + (Z.of_nat i - l + N)) with (head + Z.of_nat i + 1 * N) by lia.
        by rewrite Z.mod_add by lia.
      * lia.
    + pose proof (len_ring_read buf head l Hl0) as Hrl.
      rewrite lookup_app_r by (unfold len in *; lia).
      rewrite (Hget (Z.of_nat i - l)).
      * destruct (lookup_lt_is_Some_2 data (Z.to_nat (Z.of_nat i - l))) as [x Hx];
          [unfold len in *; lia |].
        rewrite Hx. rewrite <- Hx. f_equal. unfold len in *. lia.
      * unfold p. rewrite Zplus_mod_idemp_l. f_equal. lia.
      * lia.
  - symmetry. apply lookup_ge_None. rewrite length_app.
    pose proof (len_ring_read buf head l). unfold len in *. lia.
Qed.

(** Moving the head forward drops the front of the window. *)
Lemma ring_read_drop buf head n k :
  0 <= k <= n ->
  ring_read buf ((head + k) mod N) (n - k) = drop (Z.to_nat k) (ring_read buf head n).
Proof.
  intros Hk. rewrite ring_read_mod. apply list_eq. intros i.
  rewrite lookup_drop, !ring_read_lookup.
  destruct (decide (Z.of_nat i < n - k)), (decide (Z.of_nat (Z.to_nat k + i) < n)); try lia; [|done].
  do 2 f_equal. lia.
Qed.

Lemma ring_read_take buf head n k :
  k <= n -> ring_read buf head k = take (Z.to_nat k) (ring_read buf head n).
Proof.
  intros Hk. apply list_eq. intros i.
  destruct (decide (i < Z.to_nat k)%nat).
  - rewrite lookup_take_lt, !ring_read_lookup by done. by rewrite !decide_True by lia.
  - rewrite lookup_take_ge by lia. rewrite ring_read_lookup, decide_False by lia. done.
Qed.
End Ring.
