(* ===== verification/SendBuffer.v ===== *)
(** * The send buffer (src/magnum-tcp/src/tcp/send_buffer.rs)

    A 64 KiB ring with the sequence variables UNA and NXT, its operations, the
    abstract byte stream it implements and the refinement between the two. *)
From S2P Require Import Prelude Tcb Ring.

Definition SEND_BUF_SIZE : Z := 65536.

Record SendBuffer := mkSendBuffer {
  s_buf : list Z;
  s_head : Z;
  s_len : Z;
  s_una : Z;
  s_nxt : Z }.

Definition SendBuffer_new (iss : Z) : SendBuffer :=
  {| s_buf := zeroed SEND_BUF_SIZE; s_head := 0; s_len := 0;
     s_una := wrapping_add iss 1; s_nxt := wrapping_add iss 1 |}.

Definition SendBuffer_write (sb : SendBuffer) (data : list Z) : SendBuffer * Z :=
  let space := SEND_BUF_SIZE - s_len sb in
  let n := Z.min (len data) space in
  let tail := (s_head sb + s_len sb) mod SEND_BUF_SIZE in
  ({| s_buf := ring_write SEND_BUF_SIZE (s_buf sb) tail (take (Z.to_nat n) data);
      s_head := s_head sb;
      s_len := s_len sb + n;
      s_una := s_una sb;
      s_nxt := s_nxt sb |}, n).

Definition SendBuffer_next_segment (sb : SendBuffer) (max_len : Z) : option (Z * list Z) :=
  let inflight := wrapping_sub (s_nxt sb) (s_una sb) in
  if s_len sb <=? inflight then None
  else
    let available := s_len sb - inflight in
    let n := Z.min available max_len in
    if n =? 0 then None
    else
      let start := (s_head sb + inflight) mod SEND_BUF_SIZE in
      Some (s_nxt sb, ring_read SEND_BUF_SIZE (s_buf sb) start n).

Definition SendBuffer_advance_nxt (sb : SendBuffer) (n : Z) : SendBuffer :=
  {| s_buf := s_buf sb; s_head := s_head sb; s_len := s_len sb; s_una := s_una sb;
     s_nxt := wrapping_add (s_nxt sb) (as_u32 n) |}.

Definition SendBuffer_acknowledge (sb : SendBuffer) (ack : Z) : SendBuffer :=
  let newly_acked := wrapping_sub ack (s_una sb) in
  if ((newly_acked =? 0) || (s_len sb <? newly_acked))%bool then sb
  else
    {| s_buf := s_buf sb;
       s_head := (s_head sb + newly_acked) mod SEND_BUF_SIZE;
       s_len := s_len sb - newly_acked;
       s_una := ack;
       s_nxt := s_nxt sb |}.

Definition SendBuffer_buffered (sb : SendBuffer) : Z := s_len sb.
Definition SendBuffer_is_empty (sb : SendBuffer) : bool := s_len sb =? 0.

(** ** Well-formedness: what the types and the code maintain *)
Record send_wf (sb : SendBuffer) : Prop := {
  sw_buf : len (s_buf sb) = SEND_BUF_SIZE;
  sw_head : 0 <= s_head sb < SEND_BUF_SIZE;
  sw_len : 0 <= s_len sb <= SEND_BUF_SIZE;
  sw_una : is_u32 (s_una sb);
  sw_nxt : is_u32 (s_nxt sb) }.

(** The bytes held, oldest first. *)
Definition s_contents (sb : SendBuffer) : list Z :=
  ring_read SEND_BUF_SIZE (s_buf sb) (s_head sb) (s_len sb).

Definition s_inflight (sb : SendBuffer) : Z := wrapping_sub (s_nxt sb) (s_una sb).

Ltac ring_size := unfold SEND_BUF_SIZE in *.

Lemma send_wf_new iss : send_wf (SendBuffer_new iss).
Proof.
  split; cbn; try apply as_u32_range; ring_size; try lia. by apply len_zeroed.
Qed.

Lemma send_wf_write sb data : send_wf sb -> send_wf (fst (SendBuffer_write sb data)).
Proof.
  intros []. pose proof (len_nonneg data). split; cbn; try done; ring_size; [|lia].
  unfold len in *. by rewrite ring_write_length.
Qed.

Lemma send_wf_advance sb n : send_wf sb -> send_wf (SendBuffer_advance_nxt sb n).
Proof. intros []. split; cbn; try done. apply as_u32_range. Qed.

Lemma send_wf_acknowledge sb ack :
  send_wf sb -> is_u32 ack -> send_wf (SendBuffer_acknowledge sb ack).
Proof.
  intros Hwf Hack. unfold SendBuffer_acknowledge. case_match; [done |].
  bool_prop. destruct Hwf. pose proof (as_u32_range (ack - s_una sb)).
  unfold wrapping_sub in *. split; cbn; try done; ring_size.
  - apply Z.mod_pos_bound; lia.
  - unfold is_u32 in *; lia.
Qed.

Lemma len_s_contents sb : send_wf sb -> len (s_contents sb) = s_len sb.
Proof. intros []. unfold s_contents. apply len_ring_read. lia. Qed.

(** ** What each operation does to the contents *)
Lemma s_contents_write sb data :
  send_wf sb ->
  let n := Z.min (len data) (SEND_BUF_SIZE - s_len sb) in
  s_contents (fst (SendBuffer_write sb data)) = s_contents sb ++ take (Z.to_nat n) data /\
  snd (SendBuffer_write sb data) = n /\
  s_len (fst (SendBuffer_write sb data)) = s_len sb + n.
Proof.
  intros [] n. pose proof (len_nonneg data).
  assert (Hn : len (take (Z.to_nat n) data) = n)
    by (rewrite len_take; unfold n; ring_size; lia).
  split; [|done]. unfold s_contents, SendBuffer_write.
  cbn [fst s_buf s_head s_len]. fold n.
  rewrite <- Hn at 2. apply ring_write_append; rewrite ?Hn; unfold n in *; ring_size; lia.
Qed.

Lemma s_contents_acknowledge sb ack :
  send_wf sb -> 0 < wrapping_sub ack (s_una sb) <= s_len sb ->
  s_contents (SendBuffer_acknowledge sb ack) =
    drop (Z.to_nat (wrapping_sub ack (s_una sb))) (s_contents sb).
Proof.
  intros [] Hk. unfold SendBuffer_acknowledge.
  destruct (Z.eqb_spec (wrapping_sub ack (s_una sb)) 0); [lia |].
  destruct (Z.ltb_spec (s_len sb) (wrapping_sub ack (s_una sb))); [lia |].
  cbn [orb]. unfold s_contents. cbn [s_buf s_head s_len].
  apply ring_read_drop; ring_size; lia.
Qed.

Lemma next_segment_contents sb max_len :
  send_wf sb -> 0 <= max_len ->
  SendBuffer_next_segment sb max_len =
    let n := Z.min (s_len sb - s_inflight sb) max_len in
    if (0 <? n) then Some (s_nxt sb, take (Z.to_nat n) (drop (Z.to_nat (s_inflight sb)) (s_contents sb)))
    else None.
Proof.
  intros [] Hm. unfold SendBuffer_next_segment. fold (s_inflight sb). cbv zeta.
  assert (0 <= s_inflight sb) by (apply as_u32_range).
  destruct (Z.leb_spec (s_len sb) (s_inflight sb)).
  { replace (0 <? _) with false by lia. done. }
  destruct (Z.eqb_spec (Z.min (s_len sb - s_inflight sb) max_len) 0).
  { replace (0 <? _) with false by lia. done. }
  replace (0 <? _) with true by lia. do 2 f_equal.
  unfold s_contents. rewrite <- ring_read_drop by (ring_size; lia).
  rewrite <- ring_read_take by lia. done.
Qed.

(** The bytes handed out are the first unsent ones. *)
Lemma next_segment_payload sb max_len seq pl :
  send_wf sb -> 0 <= max_len -> SendBuffer_next_segment sb max_len = Some (seq, pl) ->
  pl = take (Z.to_nat (len pl)) (drop (Z.to_nat (s_inflight sb)) (s_contents sb)).
Proof.
  intros Hw Hm. rewrite next_segment_contents by done. cbv zeta. destruct (_ <? _) eqn:Ep; [|done].
  intros [= _ <-]. set (n := Z.min _ _) in *. pose proof (len_s_contents sb Hw) as Hl.
  assert (0 <= s_inflight sb) by apply as_u32_range.
  assert (En : len (take (Z.to_nat n) (drop (Z.to_nat (s_inflight sb)) (s_contents sb))) = n).
  { unfold len in *. rewrite length_take, length_drop. lia. }
  by rewrite En.
Qed.

(** ** The byte stream a send buffer implements

    [written]: every byte [write] has accepted since the connection began;
    [acked] and [sent]: how many of them are acknowledged and transmitted. *)
Record ByteStream := mkByteStream {
  written : list Z;
  acked : Z;
  sent : Z }.

Inductive SendOp : Type :=
  | OpWrite (data : list Z)
  | OpSend (max_len : Z)   (* next_segment, then advance_nxt by its length *)
  | OpAck (ack : Z).

Definition send_step (sb : SendBuffer) (op : SendOp) : SendBuffer * list (Z * list Z) :=
  match op with
  | OpWrite data => (fst (SendBuffer_write sb data), [])
  | OpSend max_len =>
      match SendBuffer_next_segment sb max_len with
      | Some (seq, d) => (SendBuffer_advance_nxt sb (len d), [(seq, d)])
      | None => (sb, [])
      end
  | OpAck ack => (SendBuffer_acknowledge sb ack, [])
  end.

Definition stream_step (iss : Z) (A : ByteStream) (op : SendOp)
    : ByteStream * list (Z * list Z) :=
  match op with
  | OpWrite data =>
      let room := SEND_BUF_SIZE - (len (written A) - acked A) in
      (mkByteStream (written A ++ take (Z.to_nat (Z.min (len data) room)) data)
         (acked A) (sent A), [])
  | OpSend max_len =>
      let d := take (Z.to_nat max_len) (drop (Z.to_nat (sent A)) (written A)) in
      if len d =? 0 then (A, [])
      else (mkByteStream (written A) (acked A) (sent A + len d), [(seq_of iss (sent A), d)])
  | OpAck ack =>
      (mkByteStream (written A) (acked A + wrapping_sub ack (seq_of iss (acked A))) (sent A), [])
  end.

(** What the callers guarantee: an acknowledgement number between UNA and NXT. *)
Definition op_ok (sb : SendBuffer) (op : SendOp) : Prop :=
  match op with
  | OpWrite _ => True
  | OpSend max_len => 0 <= max_len
  | OpAck ack => is_u32 ack /\ wrapping_sub ack (s_una sb) <= s_inflight sb
  end.

Record send_rel (iss : Z) (sb : SendBuffer) (A : ByteStream) : Prop := {
  sr_wf : send_wf sb;
  sr_order : 0 <= acked A <= sent A /\ sent A <= len (written A);
  sr_contents : s_contents sb = drop (Z.to_nat (acked A)) (written A);
  sr_una : s_una sb = seq_of iss (acked A);
  sr_nxt : s_nxt sb = seq_of iss (sent A) }.

Lemma send_rel_new iss : send_rel iss (SendBuffer_new iss) (mkByteStream [] 0 0).
Proof.
  split; cbn; try apply send_wf_new; try (unfold wrapping_add, seq_of, as_u32; f_equal; lia).
  - pose proof (len_nonneg (@nil Z)). lia.
Qed.

Section Refinement.
Context (iss : Z) (sb : SendBuffer) (A : ByteStream) (HR : send_rel iss sb A).

Lemma send_rel_len : s_len sb = len (written A) - acked A.
Proof.
  destruct HR. rewrite <- len_s_contents, sr_contents0, len_drop by (assumption || lia). lia.
Qed.

Lemma send_rel_inflight : s_inflight sb = sent A - acked A.
Proof.
  pose proof send_rel_len. destruct HR as [[] ? _ Hu Hn].
  unfold s_inflight. rewrite Hu, Hn. unfold seq_of. rewrite wrapping_sub_offset.
  apply Z.mod_small. unfold U32, SEND_BUF_SIZE in *. lia.
Qed.

Lemma send_rel_write data :
  send_rel iss (fst (SendBuffer_write sb data)) (fst (stream_step iss A (OpWrite data))).
Proof.
  pose proof send_rel_len as Hlen. destruct HR as [Hwf ? Hc ? ?].
  destruct (s_contents_write sb data Hwf) as (Hc' & _ & _).
  split; [by apply send_wf_write | | |done|done]; cbn [fst stream_step written acked sent].
  - rewrite len_app. pose proof (len_nonneg (take (Z.to_nat
      (Z.min (len data) (SEND_BUF_SIZE - (len (written A) - acked A)))) data)). lia.
  - rewrite Hc', Hc, Hlen, drop_app_le; [done | unfold len in *; lia].
Qed.

Lemma send_rel_send max_len :
  0 <= max_len ->
  send_rel iss (fst (send_step sb (OpSend max_len))) (fst (stream_step iss A (OpSend max_len))) /\
  snd (send_step sb (OpSend max_len)) = snd (stream_step iss A (OpSend max_len)).
Proof.
  intros Hm. pose proof send_rel_len as Hlen. pose proof send_rel_inflight as Hinf.
  destruct HR as [Hwf Ho Hc Hu Hn].
  cbn [send_step stream_step]. rewrite next_segment_contents by assumption. cbv zeta.
  rewrite Hlen, Hinf, Hc, drop_drop.
  replace (len (written A) - acked A - (sent A - acked A)) with (len (written A) - sent A) by lia.
  replace (Z.to_nat (acked A) + Z.to_nat (sent A - acked A))%nat with (Z.to_nat (sent A)) by lia.
  set (d := drop (Z.to_nat (sent A)) (written A)).
  assert (Hd : len d = len (written A) - sent A) by (unfold d; rewrite len_drop; lia).
  rewrite len_take, Hd by lia. rewrite (Z.min_comm max_len).
  set (n := Z.min (len (written A) - sent A) max_len).
  replace (take (Z.to_nat max_len) d) with (take (Z.to_nat n) d).
  2: { unfold n. destruct (Z.min_spec (len (written A) - sent A) max_len) as [[? ->]|[? ->]]; [|done].
       rewrite !take_ge; [done | unfold len in *; lia | unfold len in *; lia]. }
  destruct (Z.ltb_spec 0 n); destruct (Z.eqb_spec n 0); try lia; cbn [fst snd]; [|split; done].
  rewrite Hn. split; [|done].
  split; [by apply send_wf_advance | | done | done |]; cbn [written acked sent s_nxt SendBuffer_advance_nxt].
  - lia.
  - rewrite len_take by lia. rewrite Z.min_l by lia. rewrite Hn.
    unfold wrapping_add, seq_of, as_u32. rewrite <- Zplus_mod. f_equal. lia.
Qed.

Lemma send_rel_ack ack :
  op_ok sb (OpAck ack) ->
  send_rel iss (SendBuffer_acknowledge sb ack) (fst (stream_step iss A (OpAck ack))).
Proof.
  intros [Hack Hle]. pose proof send_rel_len as Hlen. pose proof send_rel_inflight as Hinf.
  destruct HR as [Hwf Ho Hc Hu Hn]. cbn [stream_step fst].
  rewrite <- Hu. set (k := wrapping_sub ack (s_una sb)) in *.
  assert (Hk : 0 <= k) by apply as_u32_range.
  destruct (Z.eq_dec k 0) as [Hk0|Hk0].
  { rewrite Hk0, Z.add_0_r. unfold SendBuffer_acknowledge. fold k. rewrite Hk0. cbn [Z.eqb orb].
    split; done. }
  split; cbn [written acked sent].
  - by apply send_wf_acknowledge.
  - lia.
  - rewrite s_contents_acknowledge by (try done; fold k; lia). fold k.
    rewrite Hc, drop_drop. f_equal. lia.
  - unfold SendBuffer_acknowledge. fold k.
    replace (k =? 0) with false by lia. replace (s_len sb <? k) with false by lia. cbn [orb s_una].
    unfold k. rewrite Hu. unfold seq_of, wrapping_sub, as_u32, is_u32, U32 in *. word_lia.
  - unfold SendBuffer_acknowledge. case_match; done.
Qed.
End Refinement.

(** Running a sequence of operations. *)
Fixpoint send_run (sb : SendBuffer) (ops : list SendOp) : SendBuffer * list (Z * list Z) :=
  match ops with
  | [] => (sb, [])
  | op :: rest =>
      let '(sb1, out) := send_step sb op in
      let '(sb2, outs) := send_run sb1 rest in (sb2, out ++ outs)
  end.

Fixpoint stream_run (iss : Z) (A : ByteStream) (ops : list SendOp)
    : ByteStream * list (Z * list Z) :=
  match ops with
  | [] => (A, [])
  | op :: rest =>
      let '(A1, out) := stream_step iss A op in
      let '(A2, outs) := stream_run iss A1 rest in (A2, out ++ outs)
  end.

Fixpoint ops_ok (sb : SendBuffer) (ops : list SendOp) : Prop :=
  match ops with
  | [] => True
  | op :: rest => op_ok sb op /\ ops_ok (fst (send_step sb op)) rest
  end.

Lemma send_rel_step iss sb A op :
  send_rel iss sb A -> op_ok sb op ->
  send_rel iss (fst (send_step sb op)) (fst (stream_step iss A op)) /\
  snd (send_step sb op) = snd (stream_step iss A op).
Proof.
  intros HR Hop. destruct op.
  - split; [by apply send_rel_write | done].
  - by apply send_rel_send.
  - split; [by apply send_rel_ack | done].
Qed.

Lemma send_rel_run iss ops : forall sb A,
  send_rel iss sb A -> ops_ok sb ops ->
  send_rel iss (fst (send_run sb ops)) (fst (stream_run iss A ops)) /\
  snd (send_run sb ops) = snd (stream_run iss A ops).
Proof.
  induction ops as [|op ops IH]; intros sb A HR Hok; [done |].
  destruct Hok as [Hop Hok]. destruct (send_rel_step iss sb A op HR Hop) as [HR1 Hout].
  cbn [send_run stream_run].
  destruct (send_step sb op) as [sb1 out], (stream_step iss A op) as [A1 out'].
  cbn [fst snd] in *. subst out'. specialize (IH sb1 A1 HR1 Hok).
  destruct (send_run sb1 ops), (stream_run iss A1 ops). cbn [fst snd] in *.
  destruct IH as [? ->]. done.
Qed.

(** C24. The ring is the byte stream: from creation, every sequence of writes,
    transmissions and acknowledgements in the window gives the segments and the
    state of the abstract stream; in particular the contents of the ring are the
    written bytes not yet acknowledged, UNA and NXT number the acknowledged and the
    transmitted prefix, and the ring never holds more than its 65536 bytes. *)
Theorem SendBuffer_refines_stream iss ops :
  ops_ok (SendBuffer_new iss) ops ->
  let '(sb, outs) := send_run (SendBuffer_new iss) ops in
  let '(A, outs') := stream_run iss (mkByteStream [] 0 0) ops in
  outs = outs' /\
  s_contents sb = drop (Z.to_nat (acked A)) (written A) /\
  s_una sb = seq_of iss (acked A) /\ s_nxt sb = seq_of iss (sent A) /\
  0 <= acked A <= sent A /\ sent A <= len (written A) <= acked A + SEND_BUF_SIZE.
Proof.
  intros Hok.
  destruct (send_rel_run iss ops _ _ (send_rel_new iss) Hok) as [HR Hout].
  destruct (send_run _ _) as [sb outs], (stream_run _ _ _) as [A outs']. cbn [fst snd] in *.
  pose proof (send_rel_len _ _ _ HR). destruct HR as [[] ? ? ? ?]. repeat split; try done; lia.
Qed.

(** ** The segments of a run *)

(** The transmitted prefix. *)
Definition sent_bytes (A : ByteStream) : list Z := take (Z.to_nat (sent A)) (written A).

Lemma sent_bytes_prefix A : written A = sent_bytes A ++ drop (Z.to_nat (sent A)) (written A).
Proof. unfold sent_bytes. by rewrite take_drop. Qed.

Lemma len_sent_bytes A : 0 <= sent A <= len (written A) -> len (sent_bytes A) = sent A.
Proof. intros H. unfold sent_bytes. rewrite len_take by lia. lia. Qed.

(** It only grows. *)
Lemma sent_bytes_grows A A' T :
  0 <= sent A <= len (written A) -> sent A <= sent A' -> written A' = written A ++ T ->
  exists U, sent_bytes A' = sent_bytes A ++ U.
Proof.
  intros Ha Hs E. unfold sent_bytes. rewrite E.
  exists (take (Z.to_nat (sent A') - Z.to_nat (sent A)) (drop (Z.to_nat (sent A)) (written A ++ T))).
  rewrite <- (take_app_le (written A) T (Z.to_nat (sent A))) by (unfold len in *; lia).
  rewrite take_take_drop. f_equal. lia.
Qed.

Lemma stream_step_facts iss A op :
  0 <= sent A <= len (written A) ->
  let '(A', outs) := stream_step iss A op in
  0 <= sent A' <= len (written A') /\ sent A <= sent A' /\
  (exists T, written A' = written A ++ T) /\
  concat (map snd outs) =
    take (Z.to_nat (sent A' - sent A)) (drop (Z.to_nat (sent A)) (written A')) /\
  Forall (segment_of iss (sent_bytes A')) outs.
Proof.
  intros Hs. destruct op as [data|m|ack]; cbn [stream_step].
  - cbn [sent written map concat]. rewrite Z.sub_diag, len_app.
    match goal with |- context [len (take ?n data)] => pose proof (len_nonneg (take n data)) end.
    split; [lia |]. split; [lia |]. split; [eauto | done].
  - set (d := take (Z.to_nat m) (drop (Z.to_nat (sent A)) (written A))).
    pose proof (len_nonneg d).
    assert (Hd : len d <= len (written A) - sent A).
    { unfold d, len in *. rewrite length_take, length_drop. lia. }
    assert (Hdd : d = take (Z.to_nat (len d)) (drop (Z.to_nat (sent A)) (written A))).
    { unfold d, len. rewrite Nat2Z.id, length_take, length_drop.
      destruct (Nat.min_spec (Z.to_nat m) (length (written A) - Z.to_nat (sent A))) as [[? ->]|[? ->]];
        [done |]. rewrite !take_ge; [done | rewrite length_drop; lia | rewrite length_drop; lia]. }
    destruct (Z.eqb_spec (len d) 0) as [E|E]; cbn [sent written map concat snd].
    + rewrite Z.sub_diag. split; [lia |]. split; [lia |].
      split; [exists []; by rewrite app_nil_r | done].
    + replace (sent A + len d - sent A) with (len d) by lia.
      split; [lia |]. split; [lia |].
      split; [exists []; by rewrite app_nil_r |].
      rewrite app_nil_r. split; [done |].
      constructor; [|constructor]. exists (sent A). cbn [fst snd].
      rewrite len_sent_bytes by (cbn [sent written]; lia). cbn [sent].
      split; [lia |]. split; [lia |]. split; [done |]. unfold sent_bytes, slice_at. cbn [sent written].
      rewrite Hdd at 1. rewrite skipn_firstn_comm, take_take. f_equal. lia.
  - cbn [sent written map concat]. rewrite Z.sub_diag.
    split; [lia |]. split; [lia |]. split; [exists []; by rewrite app_nil_r | done].
Qed.

Lemma stream_run_facts iss ops : forall A,
  0 <= sent A <= len (written A) ->
  let '(A', outs) := stream_run iss A ops in
  sent A <= sent A' <= len (written A') /\
  (exists T, written A' = written A ++ T) /\
  concat (map snd outs) =
    take (Z.to_nat (sent A' - sent A)) (drop (Z.to_nat (sent A)) (written A')) /\
  Forall (segment_of iss (written A')) outs.
Proof.
  induction ops as [|op ops IH]; intros A Hs; cbn [stream_run].
  { rewrite Z.sub_diag. split; [lia |]. split; [exists []; by rewrite app_nil_r | done]. }
  pose proof (stream_step_facts iss A op Hs) as H1.
  destruct (stream_step iss A op) as [A1 out].
  destruct H1 as (Hs1 & Hle1 & [T1 HT1] & Hc1 & Hf1). specialize (IH A1 Hs1).
  destruct (stream_run iss A1 ops) as [A2 outs].
  destruct IH as (Hs2 & [T2 HT2] & Hc2 & Hf2).
  split; [lia |]. split; [exists (T1 ++ T2); by rewrite HT2, HT1, app_assoc |].
  split.
  - rewrite map_app, concat_app, Hc1, Hc2. rewrite HT2.
    replace (Z.to_nat (sent A2 - sent A))
      with (Z.to_nat (sent A1 - sent A) + Z.to_nat (sent A2 - sent A1))%nat by lia.
    rewrite <- take_take_drop, drop_drop. f_equal.
    + rewrite drop_app_le by (unfold len in *; lia).
      rewrite take_app_le; [done | rewrite length_drop; unfold len in *; lia].
    + do 2 f_equal. lia.
  - apply Forall_app. split; [|done]. eapply Forall_impl; [exact Hf1 |]. intros seg Hseg.
    rewrite HT2, (sent_bytes_prefix A1), <- app_assoc. by apply segment_of_app.
Qed.

(** Nothing is skipped, repeated or mislabelled on the way out: the payloads
    of the segments of a run, in order, are exactly the transmitted prefix of the
    written bytes, and each travels under the number of its offset. *)
Theorem SendBuffer_segments_cover iss ops :
  ops_ok (SendBuffer_new iss) ops ->
  let outs := snd (send_run (SendBuffer_new iss) ops) in
  let A := fst (stream_run iss (mkByteStream [] 0 0) ops) in
  concat (map snd outs) = take (Z.to_nat (sent A)) (written A) /\
  Forall (segment_of iss (written A)) outs.
Proof.
  intros Hok. destruct (send_rel_run iss ops _ _ (send_rel_new iss) Hok) as [_ ->].
  pose proof (stream_run_facts iss ops (mkByteStream [] 0 0)) as H.
  destruct (stream_run _ _ _) as [A outs]. cbn [fst snd].
  destruct H as (_ & _ & Hc & Hf); [cbn; pose proof (len_nonneg (@nil Z)); lia |]. split; [|done].
  rewrite Hc. cbn [sent]. rewrite drop_0. do 2 f_equal. lia.
Qed.

(** ** Witnesses: five bytes out in two segments, the first acknowledged, across a
    wrap of the 32-bit counter. *)
Definition demo_ops : list SendOp :=
  [OpWrite [104; 101; 108; 108; 111]; OpSend 3; OpSend 1460; OpAck 1].

Lemma demo_ops_ok : ops_ok (SendBuffer_new 4294967293) demo_ops.
Proof. vm_compute. repeat split; discriminate. Qed.

Lemma SendBuffer_refines_stream_witness :
  ops_ok (SendBuffer_new 4294967293) demo_ops /\
  exists sb outs, send_run (SendBuffer_new 4294967293) demo_ops = (sb, outs) /\
    s_contents sb = [108; 111] /\ s_una sb = 1 /\ s_nxt sb = 3.
Proof.
  split; [exact demo_ops_ok |].
  pose proof (SendBuffer_refines_stream 4294967293 demo_ops demo_ops_ok) as H.
  destruct (send_run _ _) as [sb outs]. exists sb, outs. split; [reflexivity |].
  destruct H as (_ & Hc & Hu & Hn & _).
  rewrite Hc, Hu, Hn. vm_compute. auto.
Defined.

Lemma SendBuffer_segments_cover_witness :
  concat (map snd (snd (send_run (SendBuffer_new 4294967293) demo_ops))) =
    [104; 101; 108; 108; 111].
Proof. exact (proj1 (SendBuffer_segments_cover 4294967293 demo_ops demo_ops_ok)). Defined.
