(* ===== verification/RecvBuffer.v ===== *)
(** * The receive buffer (src/magnum-tcp/src/tcp/recv_buffer.rs)

    The in-order ring, the out-of-order staging map, [insert] with its trimming,
    [commit], [drain_ooo] and [read]; then what they guarantee about the peer's
    byte stream. *)
From S2P Require Import Prelude Tcb Ring.

Definition RECV_BUF_SIZE : Z := 65536.

Record RecvBuffer := mkRecvBuffer {
  r_buf : list Z;
  r_head : Z;
  r_len : Z;
  r_nxt : Z;
  r_ooo : gmap Z (list Z) }.

Definition RecvBuffer_new (irs : Z) : RecvBuffer :=
  {| r_buf := zeroed RECV_BUF_SIZE; r_head := 0; r_len := 0;
     r_nxt := wrapping_add irs 1; r_ooo := ∅ |}.

Definition RecvBuffer_commit (rb : RecvBuffer) (data : list Z) : RecvBuffer :=
  let space := RECV_BUF_SIZE - r_len rb in
  let n := Z.min (len data) space in
  let tail := (r_head rb + r_len rb) mod RECV_BUF_SIZE in
  {| r_buf := ring_write RECV_BUF_SIZE (r_buf rb) tail (take (Z.to_nat n) data);
     r_head := r_head rb;
     r_len := r_len rb + n;
     r_nxt := wrapping_add (r_nxt rb) (as_u32 n);
     r_ooo := r_ooo rb |}.

(** [self.ooo.keys().next()]: the smallest key of the [BTreeMap], as a number. *)
Definition btree_first (m : gmap Z (list Z)) : option Z :=
  map_fold (fun k _ acc =>
    match acc with None => Some k | Some k' => Some (Z.min k k') end) None m.

Definition with_ooo (rb : RecvBuffer) (m : gmap Z (list Z)) : RecvBuffer :=
  {| r_buf := r_buf rb; r_head := r_head rb; r_len := r_len rb; r_nxt := r_nxt rb; r_ooo := m |}.

(** The [while let] loop; every round removes an entry, so the number of staged
    entries bounds the rounds. *)
Fixpoint drain_loop (fuel : nat) (rb : RecvBuffer) : RecvBuffer :=
  match fuel with
  | O => rb
  | S f =>
      match btree_first (r_ooo rb) with
      | None => rb
      | Some key =>
          if negb (key =? r_nxt rb) then rb
          else
            match r_ooo rb !! key with
            | None => rb
            | Some data => drain_loop f (RecvBuffer_commit (with_ooo rb (delete key (r_ooo rb))) data)
            end
      end
  end.

Definition RecvBuffer_drain_ooo (rb : RecvBuffer) : RecvBuffer :=
  drain_loop (size (r_ooo rb)) rb.

Definition RecvBuffer_insert (rb : RecvBuffer) (seq : Z) (data : list Z) : RecvBuffer :=
  if len data =? 0 then rb
  else
    let past := wrapping_sub (r_nxt rb) seq in
    if (seq_lt seq (r_nxt rb) && (len data <=? past))%bool then rb
    else
      let trim := if seq_lt seq (r_nxt rb) then past else 0 in
      let effective_seq := wrapping_add seq (as_u32 trim) in
      let effective_data := drop (Z.to_nat trim) data in
      if effective_seq =? r_nxt rb
      then RecvBuffer_drain_ooo (RecvBuffer_commit rb effective_data)
      else
        match r_ooo rb !! effective_seq with
        | Some _ => rb
        | None => with_ooo rb (<[effective_seq := effective_data]> (r_ooo rb))
        end.

(** [read] fills the front of the caller's slice and returns the count. *)
Definition RecvBuffer_read (rb : RecvBuffer) (buf : list Z) : RecvBuffer * list Z * Z :=
  let n := Z.min (len buf) (r_len rb) in
  ({| r_buf := r_buf rb;
      r_head := (r_head rb + n) mod RECV_BUF_SIZE;
      r_len := r_len rb - n;
      r_nxt := r_nxt rb;
      r_ooo := r_ooo rb |},
   ring_read RECV_BUF_SIZE (r_buf rb) (r_head rb) n ++ drop (Z.to_nat n) buf,
   n).

Definition RecvBuffer_next_expected (rb : RecvBuffer) : Z := r_nxt rb.
Definition RecvBuffer_window (rb : RecvBuffer) : Z :=
  as_u16 (Z.min (RECV_BUF_SIZE - r_len rb) 65535).
Definition RecvBuffer_available (rb : RecvBuffer) : Z := r_len rb.
Definition RecvBuffer_is_empty (rb : RecvBuffer) : bool := r_len rb =? 0.

(** ** The smallest key *)
Lemma foldr_min_spec (l : list (Z * list Z)) :
  match foldr (uncurry (fun k (_ : list Z) acc =>
    match acc with None => Some k | Some k' => Some (Z.min k k') end)) None l with
  | None => l = []
  | Some k => k ∈ l.*1 /\ forall k', k' ∈ l.*1 -> k <= k'
  end.
Proof.
  induction l as [|[k v] l IH]; cbn [foldr uncurry]; [done |].
  destruct (foldr _ _ _) as [k0|].
  - destruct IH as [Hk0 Hmin]. rewrite fmap_cons. split.
    + rewrite elem_of_cons. destruct (Z.min_spec k k0) as [[_ ->]|[_ ->]]; auto.
    + intros k'. rewrite elem_of_cons. intros [->|Hk']; [cbn; lia |].
      specialize (Hmin k' Hk'). lia.
  - subst l. cbn. split; [set_solver |]. intros k' Hk'. set_unfold in Hk'.
    destruct Hk' as [->|[]]. lia.
Qed.

Lemma btree_first_Some m k :
  btree_first m = Some k -> is_Some (m !! k) /\ forall k', is_Some (m !! k') -> k <= k'.
Proof.
  unfold btree_first. rewrite map_fold_foldr. intros E.
  pose proof (foldr_min_spec (map_to_list m)) as H. rewrite E in H.
  assert (Hin : forall k', k' ∈ (map_to_list m).*1 <-> is_Some (m !! k')).
  { intros k'. rewrite list_elem_of_fmap. split.
    - intros ([k1 v] & -> & Hv). exists v. by apply elem_of_map_to_list.
    - intros [v Hv]. exists (k', v). split; [done |]. by apply elem_of_map_to_list. }
  split; [by apply Hin, H |]. intros k' Hk'. by apply H, Hin.
Qed.

(** ** Well-formedness *)
Record recv_wf (rb : RecvBuffer) : Prop := {
  rw_buf : len (r_buf rb) = RECV_BUF_SIZE;
  rw_head : 0 <= r_head rb < RECV_BUF_SIZE;
  rw_len : 0 <= r_len rb <= RECV_BUF_SIZE;
  rw_nxt : is_u32 (r_nxt rb);
  rw_ooo : map_Forall (fun k d => is_u32 k /\ 0 < len d) (r_ooo rb) }.

Definition r_contents (rb : RecvBuffer) : list Z :=
  ring_read RECV_BUF_SIZE (r_buf rb) (r_head rb) (r_len rb).

Lemma recv_wf_new irs : recv_wf (RecvBuffer_new irs).
Proof.
  split; cbn; unfold RECV_BUF_SIZE; try apply as_u32_range; try lia.
  - by apply len_zeroed.
  - apply map_Forall_empty.
Qed.

Lemma recv_wf_with_ooo rb m :
  recv_wf rb -> map_Forall (fun k d => is_u32 k /\ 0 < len d) m -> recv_wf (with_ooo rb m).
Proof. intros [] ?. by split. Qed.

Lemma recv_wf_commit rb data : recv_wf rb -> recv_wf (RecvBuffer_commit rb data).
Proof.
  intros []. pose proof (len_nonneg data). unfold RECV_BUF_SIZE in *.
  split; cbn; unfold RECV_BUF_SIZE; try done; try lia.
  - unfold len in *. by rewrite ring_write_length.
  - apply as_u32_range.
Qed.

Lemma recv_wf_drain_loop fuel : forall rb, recv_wf rb -> recv_wf (drain_loop fuel rb).
Proof.
  induction fuel as [|f IH]; intros rb Hwf; cbn [drain_loop]; [done |].
  case_match; [|done]. case_match; [done |]. case_match; [|done].
  apply IH, recv_wf_commit, recv_wf_with_ooo; [done |].
  apply map_Forall_delete, Hwf.
Qed.

Lemma recv_wf_insert rb seq data :
  recv_wf rb -> is_u32 seq -> recv_wf (RecvBuffer_insert rb seq data).
Proof.
  intros Hwf Hs. unfold RecvBuffer_insert.
  destruct (Z.eqb_spec (len data) 0); [done |].
  pose proof (len_nonneg data). destruct (seq_lt seq (r_nxt rb)) eqn:Hlt; cbn [andb];
    [destruct (Z.leb_spec (len data) (wrapping_sub (r_nxt rb) seq)); [done |]|];
    (case_match; [by apply recv_wf_drain_loop, recv_wf_commit |]);
    (case_match; [done |]); apply recv_wf_with_ooo; try done;
    (apply map_Forall_insert_2; [|exact (rw_ooo _ Hwf)]); (split; [apply as_u32_range |]).
  - assert (0 <= wrapping_sub (r_nxt rb) seq) by apply as_u32_range. rewrite len_drop by lia. lia.
  - change (Z.to_nat 0) with 0%nat. rewrite drop_0. lia.
Qed.

Lemma recv_wf_read rb buf : recv_wf rb -> recv_wf (fst (fst (RecvBuffer_read rb buf))).
Proof.
  intros []. pose proof (len_nonneg buf). unfold RECV_BUF_SIZE in *.
  split; cbn; unfold RECV_BUF_SIZE; try done; try lia. apply Z.mod_pos_bound; lia.
Qed.

(** *** It holds bytes *)
Record recv_bytes (rb : RecvBuffer) : Prop := {
  rb_buf : bytes_ok (r_buf rb);
  rb_ooo : map_Forall (fun _ d => bytes_ok d) (r_ooo rb) }.

Lemma recv_bytes_new irs : recv_bytes (RecvBuffer_new irs).
Proof. split; [apply zeroed_bytes | apply map_Forall_empty]. Qed.

Lemma recv_bytes_commit rb d : recv_bytes rb -> bytes_ok d -> recv_bytes (RecvBuffer_commit rb d).
Proof. intros [Hb Ho] Hd. split; [|exact Ho]. by apply ring_write_bytes; [|apply bytes_ok_take]. Qed.

Lemma recv_bytes_drain_loop fuel : forall rb, recv_bytes rb -> recv_bytes (drain_loop fuel rb).
Proof.
  induction fuel as [|f IH]; intros rb Hrb; cbn [drain_loop]; [done |].
  case_match; [|done]. case_match; [done |]. destruct (r_ooo rb !! _) as [d|] eqn:Hd; [|done].
  destruct Hrb as [Hb Ho]. apply IH, recv_bytes_commit; [|by apply (Ho _ _ Hd)].
  split; [done | by apply map_Forall_delete].
Qed.

Lemma recv_bytes_insert rb seq d :
  recv_bytes rb -> bytes_ok d -> recv_bytes (RecvBuffer_insert rb seq d).
Proof.
  intros Hrb Hd. pose proof (fun n => bytes_ok_drop n d Hd) as Hdrop. unfold RecvBuffer_insert.
  repeat case_match; try done; try (by apply recv_bytes_drain_loop, recv_bytes_commit);
    (destruct Hrb as [Hb Ho]; split; [done | by apply map_Forall_insert_2]).
Qed.

Lemma recv_bytes_read rb buf : recv_bytes rb -> recv_bytes (fst (fst (RecvBuffer_read rb buf))).
Proof. by intros []. Qed.

Lemma r_contents_bytes rb : recv_bytes rb -> bytes_ok (r_contents rb).
Proof. intros [Hb _]. by apply ring_read_bytes. Qed.

Lemma len_r_contents rb : recv_wf rb -> len (r_contents rb) = r_len rb.
Proof. intros []. apply len_ring_read. lia. Qed.

(** ** Contents *)
Lemma r_contents_commit rb data :
  recv_wf rb ->
  let n := Z.min (len data) (RECV_BUF_SIZE - r_len rb) in
  r_contents (RecvBuffer_commit rb data) = r_contents rb ++ take (Z.to_nat n) data.
Proof.
  intros [] n. pose proof (len_nonneg data). unfold RECV_BUF_SIZE in *.
  assert (Hn : len (take (Z.to_nat n) data) = n) by (rewrite len_take; unfold n; lia).
  unfold r_contents, RecvBuffer_commit. cbn [r_buf r_head r_len].
  change RECV_BUF_SIZE with 65536. fold n.
  replace (r_len rb + n) with (r_len rb + len (take (Z.to_nat n) data)) by lia. apply ring_write_append; rewrite ?Hn; unfold n, RECV_BUF_SIZE; lia.
Qed.

Lemma r_contents_read rb buf :
  recv_wf rb ->
  let '(rb', out, n) := RecvBuffer_read rb buf in
  n = Z.min (len buf) (r_len rb) /\
  out = take (Z.to_nat n) (r_contents rb) ++ drop (Z.to_nat n) buf /\
  r_contents rb' = drop (Z.to_nat n) (r_contents rb).
Proof.
  intros []. pose proof (len_nonneg buf). cbn [RecvBuffer_read].
  split; [done |]. split.
  - f_equal. unfold r_contents. apply ring_read_take. lia.
  - unfold r_contents. cbn [r_buf r_head r_len]. apply ring_read_drop; unfold RECV_BUF_SIZE; lia.
Qed.

(** ** The peer's byte stream

    [S] is what the peer sends after its SYN numbered [irs]. The buffer has taken
    the first [nx] bytes of [S] in order, of which the application has read [rd];
    every staged entry is a piece of [S] under the number of its offset. *)
Record recv_rel (irs : Z) (S : list Z) (rb : RecvBuffer) (rd nx : Z) : Prop := {
  rr_wf : recv_wf rb;
  rr_order : 0 <= rd <= nx /\ nx <= len S;
  rr_contents : r_contents rb = slice_at S rd (nx - rd);
  rr_nxt : r_nxt rb = seq_of irs nx;
  rr_ooo : map_Forall (fun k d => segment_of irs S (k, d)) (r_ooo rb) }.

Lemma recv_rel_new irs S : recv_rel irs S (RecvBuffer_new irs) 0 0.
Proof.
  split; try apply recv_wf_new.
  - pose proof (len_nonneg S). lia.
  - reflexivity.
  - cbn. unfold wrapping_add, seq_of, as_u32. f_equal. lia.
  - apply map_Forall_empty.
Qed.

(** The stream may grow. *)
Lemma recv_rel_app irs S T rb rd nx : recv_rel irs S rb rd nx -> recv_rel irs (S ++ T) rb rd nx.
Proof.
  intros [Hwf Ho Hc Hn Hooo]. pose proof (len_nonneg T). split; try assumption.
  - rewrite len_app. lia.
  - rewrite Hc. symmetry. apply slice_at_app_l; lia.
  - eapply map_Forall_impl; [exact Hooo |]. intros k d. apply segment_of_app.
Qed.

Section Stream.
Context (irs : Z) (S : list Z) (HS : len S < 4294967296).

Lemma recv_rel_len rb rd nx : recv_rel irs S rb rd nx -> r_len rb = nx - rd.
Proof.
  intros [Hwf ? Hc _ _]. rewrite <- len_r_contents, Hc by done. apply len_slice_at; lia.
Qed.

Lemma recv_rel_commit rb rd nx d :
  recv_rel irs S rb rd nx -> d = slice_at S nx (len d) -> nx + len d <= len S ->
  recv_rel irs S (RecvBuffer_commit rb d) rd
    (nx + Z.min (len d) (RECV_BUF_SIZE - r_len rb)).
Proof.
  intros HR Hd Hfit. pose proof (len_nonneg d). pose proof (recv_rel_len _ _ _ HR) as Hl.
  destruct HR as [Hwf Ho Hc Hn Hooo].
  pose proof (rw_len _ Hwf). set (n := Z.min (len d) (RECV_BUF_SIZE - r_len rb)).
  assert (0 <= n <= len d) by (unfold n; lia).
  split; [by apply recv_wf_commit | lia | | | exact Hooo].
  - rewrite r_contents_commit, Hc by done. fold n.
    rewrite Hd, take_slice_at by lia.
    replace nx with (rd + (nx - rd)) at 2 by lia.
    rewrite slice_at_app by lia. f_equal. lia.
  - cbn [RecvBuffer_commit r_nxt]. fold n. rewrite Hn. apply seq_of_add.
Qed.

Lemma recv_rel_delete rb rd nx k :
  recv_rel irs S rb rd nx -> recv_rel irs S (with_ooo rb (delete k (r_ooo rb))) rd nx.
Proof.
  intros [Hwf ? ? ? ?]. split; try done.
  - apply recv_wf_with_ooo; [done |]. apply map_Forall_delete, Hwf.
  - by apply map_Forall_delete.
Qed.

Lemma recv_rel_drain fuel : forall rb rd nx,
  recv_rel irs S rb rd nx ->
  exists nx', nx <= nx' /\ recv_rel irs S (drain_loop fuel rb) rd nx'.
Proof.
  induction fuel as [|f IH]; intros rb rd nx HR; cbn [drain_loop]; [exists nx; split; [lia | done] |].
  destruct (btree_first (r_ooo rb)) as [key|]; [|exists nx; split; [lia | done]].
  destruct (Z.eqb_spec key (r_nxt rb)) as [->|]; cbn [negb]; [|exists nx; split; [lia | done]].
  destruct (r_ooo rb !! r_nxt rb) as [d|] eqn:Hk; [|exists nx; split; [lia | done]].
  pose proof (rr_ooo _ _ _ _ _ HR _ _ Hk) as (o & Ho & Hfit & Hs & Hd). cbn [fst snd] in *.
  pose proof (rr_order _ _ _ _ _ HR). pose proof (len_nonneg d).
  assert (o = nx) as ->.
  { apply (seq_of_inj irs); [lia |]. rewrite <- Hs. apply HR. }
  pose proof (recv_rel_commit _ rd nx d (recv_rel_delete _ _ _ (r_nxt rb) HR) Hd Hfit) as HR1.
  destruct (IH _ _ _ HR1) as (nx' & Hle & HR2). exists nx'. split; [|exact HR2].
  pose proof (rw_len _ (rr_wf _ _ _ _ _ HR)). cbn [with_ooo r_len] in Hle. lia.
Qed.

(** A piece of the stream less than 2^31 bytes away from what is expected; one that
    leaves no gap, when there is room for it, is taken whole. *)
Lemma recv_rel_insert rb rd nx o d :
  recv_rel irs S rb rd nx ->
  0 <= o -> o + len d <= len S -> d = slice_at S o (len d) ->
  -2147483648 < nx - o < 2147483648 ->
  exists nx', nx <= nx' /\ recv_rel irs S (RecvBuffer_insert rb (seq_of irs o) d) rd nx' /\
    (o <= nx -> len d <= RECV_BUF_SIZE - r_len rb -> o + len d <= nx').
Proof.
  intros HR Ho Hfit Hd Hnear. pose proof (len_nonneg d).
  pose proof (rr_order _ _ _ _ _ HR) as Hord. pose proof (rr_nxt _ _ _ _ _ HR) as Hn.
  assert (Hstay : (o <= nx -> o + len d <= nx) -> exists nx', nx <= nx' /\ recv_rel irs S rb rd nx' /\
    (o <= nx -> len d <= RECV_BUF_SIZE - r_len rb -> o + len d <= nx')).
  { intros Hin. exists nx. split_and!; [lia | done | auto]. }
  unfold RecvBuffer_insert.
  destruct (Z.eqb_spec (len d) 0); [apply Hstay; lia |]. rewrite Hn, seq_lt_seq_of by lia.
  rewrite seq_of_sub. set (past := (nx - o) mod U32). set (trim := if o <? nx then past else 0).
  destruct ((o <? nx) && (len d <=? past))%bool eqn:Hold.
  { apply Hstay. bool_prop. assert (past = nx - o) by (unfold past, U32; apply Z.mod_small; lia). lia. }
  assert (Htrim : trim = Z.max 0 (nx - o) /\ trim < len d).
  { unfold trim. destruct (Z.ltb_spec o nx); cbn [andb] in Hold; [|lia].
    assert (past = nx - o) by (unfold past, U32; apply Z.mod_small; lia).
    bool_prop. lia. }
  destruct Htrim as [Htrim Htl].
  rewrite seq_of_add.
  set (e := drop (Z.to_nat trim) d).
  assert (He : e = slice_at S (o + trim) (len e) /\ len e = len d - trim).
  { unfold e. rewrite len_drop by lia. rewrite Z.max_r by lia. split; [|done].
    rewrite Hd at 1. apply drop_slice_at; lia. }
  destruct He as [He Hle].
  destruct (Z.eqb_spec (seq_of irs (o + trim)) (seq_of irs nx)) as [E|E].
  - apply seq_of_inj in E; [|lia]. rewrite E in He.
    pose proof (recv_rel_commit _ _ _ _ HR He ltac:(lia)) as HR1.
    destruct (recv_rel_drain (size (r_ooo (RecvBuffer_commit rb e))) _ _ _ HR1) as (nx' & ? & HR2).
    exists nx'. pose proof (rw_len _ (rr_wf _ _ _ _ _ HR)). split; [lia |]. split; [exact HR2 | lia].
  - assert (Hgap : nx < o).
    { destruct (Z.ltb_spec nx o); [done |]. destruct E. f_equal. lia. }
    destruct (r_ooo rb !! seq_of irs (o + trim)); [apply Hstay; lia |].
    exists nx. split; [lia |]. split; [|lia]. destruct HR as [Hwf ? ? ? ?]. split; try done.
    + apply recv_wf_with_ooo; [done |].
      apply map_Forall_insert_2; [|exact (rw_ooo _ Hwf)]. split; [apply seq_of_range | lia].
    + apply map_Forall_insert_2; [|done]. exists (o + trim). cbn [fst snd].
      repeat split; try lia. done.
Qed.

Lemma recv_rel_read rb rd nx buf :
  recv_rel irs S rb rd nx ->
  let '(rb', out, n) := RecvBuffer_read rb buf in
  recv_rel irs S rb' (rd + n) nx /\ 0 <= n /\
  out = slice_at S rd n ++ drop (Z.to_nat n) buf.
Proof.
  intros HR. pose proof (recv_rel_len _ _ _ HR) as Hl. pose proof (len_nonneg buf).
  pose proof (r_contents_read rb buf (rr_wf _ _ _ _ _ HR)) as Hr.
  pose proof (recv_wf_read rb buf (rr_wf _ _ _ _ _ HR)) as Hwf'.
  destruct (RecvBuffer_read rb buf) as [[rb' out] n] eqn:E.
  destruct Hr as (Hn & Ho & Hc). cbn [fst] in Hwf'.
  destruct HR as [Hwf Hord Hcc Hnx Hooo]. pose proof (rw_len _ Hwf).
  rewrite Hcc in *. rewrite take_slice_at in Ho by lia.
  split; [|split; [lia | done]].
  split; [done | lia | | |]; unfold RecvBuffer_read in E; injection E as <- _ _; try done.
  - rewrite Hc, drop_slice_at by lia. f_equal. lia.
Qed.
End Stream.

(** ** Runs *)
Inductive RecvOp : Type :=
  | RvSegment (seg : Z * list Z)
  | RvRead (buf : list Z).

Definition recv_step (rb : RecvBuffer) (op : RecvOp) : RecvBuffer * list Z :=
  match op with
  | RvSegment (seq, d) => (RecvBuffer_insert rb seq d, [])
  | RvRead buf =>
      let '(rb', out, n) := RecvBuffer_read rb buf in (rb', take (Z.to_nat n) out)
  end.

Fixpoint recv_run (rb : RecvBuffer) (ops : list RecvOp) : RecvBuffer * list Z :=
  match ops with
  | [] => (rb, [])
  | op :: rest =>
      let '(rb1, out) := recv_step rb op in
      let '(rb2, outs) := recv_run rb1 rest in (rb2, out ++ outs)
  end.

Definition recv_op_ok (irs : Z) (S : list Z) (op : RecvOp) : Prop :=
  match op with RvSegment seg => segment_of irs S seg | RvRead _ => True end.

Lemma recv_rel_step irs S op rb rd nx :
  len S < 2147483648 -> recv_rel irs S rb rd nx -> recv_op_ok irs S op ->
  let '(rb', out) := recv_step rb op in
  exists rd' nx', rd <= rd' /\ nx <= nx' /\ recv_rel irs S rb' rd' nx' /\
    out = slice_at S rd (rd' - rd).
Proof.
  intros HS HR Hop. pose proof (rr_order _ _ _ _ _ HR). destruct op as [[seq d]|buf]; cbn [recv_step].
  - destruct Hop as (o & Ho & Hfit & Hs & Hd). cbn [fst snd] in *. subst seq.
    pose proof (len_nonneg d).
    destruct (recv_rel_insert irs S ltac:(lia) rb rd nx o d HR Ho Hfit Hd ltac:(lia)) as (nx' & ? & HR' & _).
    exists rd, nx'. rewrite Z.sub_diag. split_and!; done || lia.
  - pose proof (recv_rel_read irs S rb rd nx buf HR) as Hr.
    destruct (RecvBuffer_read rb buf) as [[rb' out] n]. destruct Hr as (HR' & Hn & ->).
    exists (rd + n), nx. replace (rd + n - rd) with n by lia.
    split; [lia |]. split; [lia |]. split; [done |].
    pose proof (rr_order _ _ _ _ _ HR'). pose proof (len_slice_at S rd n ltac:(lia) Hn ltac:(lia)) as Hl.
    rewrite take_app_le by (unfold len in Hl; lia). apply take_ge. unfold len in Hl; lia.
Qed.

Lemma recv_rel_run irs S ops : forall rb rd nx,
  len S < 2147483648 -> recv_rel irs S rb rd nx -> Forall (recv_op_ok irs S) ops ->
  let '(rb', out) := recv_run rb ops in
  exists rd' nx', rd <= rd' /\ nx <= nx' /\ recv_rel irs S rb' rd' nx' /\
    out = slice_at S rd (rd' - rd).
Proof.
  induction ops as [|op ops IH]; intros rb rd nx HS HR Hok; cbn [recv_run].
  { exists rd, nx. rewrite Z.sub_diag. split_and!; done || lia. }
  apply Forall_cons in Hok as [Hop Hok].
  pose proof (recv_rel_step irs S op rb rd nx HS HR Hop) as H1.
  destruct (recv_step rb op) as [rb1 out]. destruct H1 as (rd1 & nx1 & ? & ? & HR1 & ->).
  specialize (IH rb1 rd1 nx1 HS HR1 Hok). destruct (recv_run rb1 ops) as [rb2 outs].
  destruct IH as (rd2 & nx2 & ? & ? & HR2 & ->).
  exists rd2, nx2. split_and!; try done; try lia.
  pose proof (rr_order _ _ _ _ _ HR).
  replace rd1 with (rd + (rd1 - rd)) at 2 by lia.
  rewrite slice_at_app by lia. f_equal. lia.
Qed.

(** C25. Reliable delivery: whatever pieces of the peer's stream arrive, in any
    order, overlapping, repeated or missing, and however the reads interleave,
    what the application has read is a prefix of the stream, the unread contents
    are the bytes that follow it, and NXT numbers the first byte not yet taken. *)
Theorem RecvBuffer_delivers_prefix irs S ops :
  len S < 2147483648 -> Forall (recv_op_ok irs S) ops ->
  let '(rb, out) := recv_run (RecvBuffer_new irs) ops in
  exists rd nx, 0 <= rd <= nx /\ nx <= len S /\
    out = take (Z.to_nat rd) S /\ r_contents rb = slice_at S rd (nx - rd) /\
    r_nxt rb = seq_of irs nx.
Proof.
  intros HS Hok. pose proof (recv_rel_run irs S ops _ 0 0 HS (recv_rel_new irs S) Hok) as H.
  destruct (recv_run _ _) as [rb out]. destruct H as (rd & nx & ? & ? & HR & ->).
  rewrite Z.sub_0_r, slice_at_prefix. destruct HR.
  exists rd, nx. split_and!; done || lia.
Qed.

(** ** Progress *)
Lemma drain_empty rb : r_ooo rb = ∅ -> RecvBuffer_drain_ooo rb = rb.
Proof. intros E. unfold RecvBuffer_drain_ooo. by rewrite E, map_size_empty. Qed.

Lemma insert_at_nxt rb d :
  recv_wf rb -> 0 < len d ->
  RecvBuffer_insert rb (r_nxt rb) d = RecvBuffer_drain_ooo (RecvBuffer_commit rb d).
Proof.
  intros Hwf Hd. unfold RecvBuffer_insert.
  replace (len d =? 0) with false by lia.
  replace (seq_lt (r_nxt rb) (r_nxt rb)) with false by (unfold seq_lt; by rewrite Z.eqb_refl).
  cbn [andb]. change (as_u32 0) with 0. unfold wrapping_add. rewrite Z.add_0_r.
  rewrite (Z.mod_small (r_nxt rb)) by (destruct Hwf; unfold is_u32, U32 in *; lia).
  rewrite Z.eqb_refl. done.
Qed.

Lemma insert_ahead rb n d :
  recv_wf rb -> r_ooo rb = ∅ -> 0 < len d -> 0 < n <= 65536 ->
  let k := wrapping_add (r_nxt rb) n in
  RecvBuffer_insert rb k d = with_ooo rb {[k := d]} /\
  recv_wf (with_ooo rb {[k := d]}).
Proof.
  intros Hwf Hooo Hd Hn k. pose proof (rw_nxt _ Hwf) as Hnx.
  assert (Hku : is_u32 k) by apply as_u32_range.
  split; [|apply recv_wf_with_ooo; [done | by apply map_Forall_singleton]].
  assert (Hlt : seq_lt k (r_nxt rb) = false).
  { apply not_true_iff_false. rewrite seq_lt_spec by done. unfold k. word_lia. }
  unfold RecvBuffer_insert. replace (len d =? 0) with false by lia.
  rewrite Hlt. cbn [andb]. change (as_u32 0) with 0.
  replace (wrapping_add k 0) with k
    by (unfold wrapping_add; rewrite Z.add_0_r, Z.mod_small; done).
  replace (k =? r_nxt rb) with false by (unfold k; word_lia). by rewrite Hooo, lookup_empty.
Qed.

Lemma drain_singleton rb d :
  r_ooo rb = {[r_nxt rb := d]} ->
  RecvBuffer_drain_ooo rb = RecvBuffer_commit (with_ooo rb ∅) d.
Proof.
  intros E. unfold RecvBuffer_drain_ooo. rewrite E, map_size_singleton. cbn [drain_loop].
  rewrite E. replace (btree_first _) with (Some (r_nxt rb))
    by (unfold btree_first; by rewrite map_fold_singleton).
  rewrite Z.eqb_refl. cbn [negb]. by rewrite lookup_singleton_eq, delete_singleton_eq.
Qed.

(** A commit with room for everything. *)
Lemma commit_all rb d :
  recv_wf rb -> r_len rb + len d <= RECV_BUF_SIZE ->
  r_contents (RecvBuffer_commit rb d) = r_contents rb ++ d /\
  r_nxt (RecvBuffer_commit rb d) = wrapping_add (r_nxt rb) (len d) /\
  r_len (RecvBuffer_commit rb d) = r_len rb + len d.
Proof.
  intros Hwf Hfit. pose proof (rw_len _ Hwf). pose proof (len_nonneg d).
  rewrite r_contents_commit by done. cbv zeta.
  unfold RecvBuffer_commit. cbn [r_nxt r_len]. unfold RECV_BUF_SIZE in *.
  rewrite Z.min_l by lia. rewrite as_u32_id by (unfold is_u32; lia).
  rewrite take_ge by (unfold len; lia). done.
Qed.

(** A gap is filled: data that arrives ahead of the missing piece is staged
    without being delivered, and the missing piece then makes both readable, in
    order, with nothing left staged. *)
Theorem RecvBuffer_fills_gap rb d0 d1 :
  recv_wf rb -> r_ooo rb = ∅ -> 0 < len d0 -> 0 < len d1 ->
  r_len rb + len d0 + len d1 <= RECV_BUF_SIZE ->
  let rb1 := RecvBuffer_insert rb (wrapping_add (r_nxt rb) (len d0)) d1 in
  let rb2 := RecvBuffer_insert rb1 (r_nxt rb) d0 in
  r_contents rb1 = r_contents rb /\ r_nxt rb1 = r_nxt rb /\
  r_contents rb2 = r_contents rb ++ d0 ++ d1 /\
  r_nxt rb2 = wrapping_add (r_nxt rb) (len d0 + len d1) /\ r_ooo rb2 = ∅.
Proof.
  intros Hwf Hooo Hd0 Hd1 Hfit. pose proof (rw_len _ Hwf) as Hlen.
  unfold RECV_BUF_SIZE in Hfit, Hlen.
  destruct (insert_ahead rb (len d0) d1 Hwf Hooo Hd1 ltac:(lia)) as [E1 Hwf1].
  set (k := wrapping_add (r_nxt rb) (len d0)) in *. cbv zeta. rewrite E1.
  set (rb1 := with_ooo rb {[k := d1]}) in *.
  split; [done |]. split; [done |].
  rewrite (insert_at_nxt rb1 d0 Hwf1 Hd0 : RecvBuffer_insert rb1 (r_nxt rb) d0 = _).
  destruct (commit_all rb1 d0 Hwf1) as (Hc & Hn & Hl); [unfold rb1, RECV_BUF_SIZE; cbn; lia |].
  pose proof (recv_wf_commit _ d0 Hwf1) as Hwfc. set (c := RecvBuffer_commit rb1 d0) in *.
  rewrite (drain_singleton c d1) by (rewrite Hn; done).
  destruct (commit_all (with_ooo c ∅) d1) as (Hc2 & Hn2 & _).
  { apply recv_wf_with_ooo; [done | apply map_Forall_empty]. }
  { cbn [with_ooo r_len]. rewrite Hl. unfold rb1, RECV_BUF_SIZE. cbn. lia. }
  rewrite Hc2, Hn2. split; [|split; [|done]].
  - change (r_contents (with_ooo c ∅)) with (r_contents c). rewrite Hc. by rewrite <- app_assoc.
  - cbn [with_ooo r_nxt]. rewrite Hn. unfold wrapping_add. rewrite Zplus_mod_idemp_l.
    f_equal. cbn. lia.
Qed.

(** C26. What the staging area does not do: it looks at its numerically smallest
    key only, so one entry below NXT, which an overlapping retransmission leaves
    behind, keeps every later entry staged, also the one that is next in order. *)
Theorem RecvBuffer_stale_entry_blocks_drain rb k :
  is_Some (r_ooo rb !! k) -> k < r_nxt rb -> RecvBuffer_drain_ooo rb = rb.
Proof.
  intros Hk Hlt. unfold RecvBuffer_drain_ooo. destruct (size (r_ooo rb)) as [|f]; [done |].
  cbn [drain_loop]. destruct (btree_first (r_ooo rb)) as [key|] eqn:E; [|done].
  apply btree_first_Some in E as [_ Hmin]. specialize (Hmin k Hk).
  by replace (key =? r_nxt rb) with false by lia.
Qed.

(** ** Witnesses *)
Definition demo_stream : list Z := [104; 101; 108; 108; 111; 119; 111; 114; 108; 100].

(** The second half first, then the first half, then an overlapping repeat. *)
Definition demo_recv_ops : list RecvOp :=
  [RvSegment (5, [119; 111; 114; 108; 100]); RvSegment (0, [104; 101; 108; 108; 111]);
   RvRead [0; 0; 0]; RvSegment (3, [108; 111; 119]); RvRead (zeroed 20)].

Lemma demo_recv_ops_ok : Forall (recv_op_ok 4294967295 demo_stream) demo_recv_ops.
Proof.
  repeat (apply Forall_cons_2; [try exact I |]); [exists 5 | exists 0 | exists 3 | apply Forall_nil_2];
    vm_compute; repeat split; discriminate.
Qed.

Lemma RecvBuffer_delivers_prefix_witness :
  exists rb out rd, recv_run (RecvBuffer_new 4294967295) demo_recv_ops = (rb, out) /\
    out = take (Z.to_nat rd) demo_stream.
Proof.
  pose proof (RecvBuffer_delivers_prefix 4294967295 demo_stream demo_recv_ops
    ltac:(vm_compute; reflexivity) demo_recv_ops_ok) as H.
  destruct (recv_run _ _) as [rb out]. destruct H as (rd & nx & _ & _ & H & _).
  exists rb, out, rd. split; [reflexivity | exact H].
Defined.

Example demo_recv_out : snd (recv_run (RecvBuffer_new 4294967295) demo_recv_ops) = demo_stream.
Proof. vm_compute. reflexivity. Qed.

Lemma RecvBuffer_fills_gap_witness :
  r_contents (RecvBuffer_insert (RecvBuffer_insert (RecvBuffer_new 0) 6 [119; 111]) 1
    [104; 101; 108; 108; 111]) = [] ++ [104; 101; 108; 108; 111] ++ [119; 111].
Proof.
  refine (proj1 (proj2 (proj2 (RecvBuffer_fills_gap (RecvBuffer_new 0)
    [104; 101; 108; 108; 111] [119; 111] (recv_wf_new 0) eq_refl _ _ _)))); vm_compute; done.
Defined.

(** "world" staged at 6, then 1..7 retransmitted as one piece, then "!" staged at
    11, then the missing 8..10: all eleven bytes have arrived and the entry at 11
    is next in order, but the entry at 6 is still first in the map. *)
Definition stalled : RecvBuffer :=
  RecvBuffer_insert (RecvBuffer_insert (RecvBuffer_insert (RecvBuffer_insert (RecvBuffer_new 0)
    6 [119; 111; 114; 108; 100]) 1 [104; 101; 108; 108; 111; 119; 111]) 11 [33]) 8 [114; 108; 100].

Lemma RecvBuffer_stale_entry_blocks_drain_witness :
  r_nxt stalled = 11 /\ r_ooo stalled !! 11 = Some [33] /\ RecvBuffer_drain_ooo stalled = stalled.
Proof.
  split; [vm_compute; reflexivity |]. split; [vm_compute; reflexivity |].
  apply (RecvBuffer_stale_entry_blocks_drain stalled 6); vm_compute; [eauto | reflexivity].
Defined.
