(* ===== verification/Float64.v ===== *)
(** * f64 and Duration

    retransmit.rs computes its timeout in f64 seconds. The arithmetic is the
    IEEE-754 binary64 arithmetic of the Standard Library's [SpecFloat], round to
    nearest even; a [Duration] is its number of nanoseconds. The facts below say
    that the operations the estimator uses neither produce a NaN nor a negative
    number, and what survives [clamp] and [from_secs_f64]. *)
From S2P Require Import Prelude.
From Stdlib Require Import SpecFloat.

Abbreviation f64 := spec_float.

(** [z as f64] *)
Definition f64_of_u64 (z : Z) : f64 := binary_normalize 53 1024 z 0 false.
Definition f64_add (x y : f64) : f64 := SFadd 53 1024 x y.
Definition f64_sub (x y : f64) : f64 := SFsub 53 1024 x y.
Definition f64_mul (x y : f64) : f64 := SFmul 53 1024 x y.
Definition f64_div (x y : f64) : f64 := SFdiv 53 1024 x y.
Definition f64_abs (x : f64) : f64 := SFabs x.
Definition f64_lt (x y : f64) : bool := SFltb x y.

(** [f64::clamp]: a NaN stays a NaN. *)
Definition f64_clamp (x lo hi : f64) : f64 :=
  let x := if f64_lt x lo then lo else x in
  if f64_lt hi x then hi else x.

(** ** Duration *)
Definition NANOS_PER_SEC : Z := 1000000000.

Definition from_millis (ms : Z) : Z := ms * 1000000.
Definition from_secs (s : Z) : Z := s * NANOS_PER_SEC.

Definition as_secs_f64 (d : Z) : f64 :=
  f64_add (f64_of_u64 (d / NANOS_PER_SEC))
          (f64_div (f64_of_u64 (d mod NANOS_PER_SEC)) (f64_of_u64 NANOS_PER_SEC)).

(** Division rounded to nearest, ties to even. *)
Definition div_half_even (n d : Z) : Z :=
  let q := n / d in
  let r := n mod d in
  match Z.compare (2 * r) d with
  | Lt => q
  | Gt => q + 1
  | Eq => if Z.even q then q else q + 1
  end.

(** [Duration::from_secs_f64], which panics on a NaN, a negative number and a
    number of seconds beyond u64. *)
Definition from_secs_f64 (x : f64) : option Z :=
  match x with
  | S754_zero _ => Some 0
  | S754_finite false m e =>
      let ns :=
        if 0 <=? e then Zpos m * 2 ^ e * NANOS_PER_SEC
        else div_half_even (Zpos m * NANOS_PER_SEC) (2 ^ (- e)) in
      if ns <? U64 * NANOS_PER_SEC then Some ns else None
  | _ => None
  end.

(** [Instant::duration_since] saturates to zero. *)
Definition duration_since (now earlier : Z) : Z := Z.max 0 (now - earlier).

(** ** Shifting right *)
Lemma digits2_pos_log2 p : Zpos (digits2_pos p) = Z.log2 (Zpos p) + 1.
Proof.
  induction p as [p IH|p IH|]; cbn [digits2_pos]; [| |done]; rewrite Pos2Z.inj_succ, IH.
  - change (Zpos p~1) with (2 * Zpos p + 1). rewrite Z.log2_succ_double by lia. lia.
  - change (Zpos p~0) with (2 * Zpos p). rewrite Z.log2_double by lia. lia.
Qed.

Lemma shr_1_m r : 0 <= shr_m r -> shr_m (shr_1 r) = Z.shiftr (shr_m r) 1.
Proof. destruct r as [[|[p|p|]|p] b s]; cbn; try done; lia. Qed.

Lemma iter_pos_shr p : forall r,
  0 <= shr_m r -> shr_m (iter_pos shr_1 p r) = Z.shiftr (shr_m r) (Zpos p).
Proof.
  induction p as [p IH|p IH|]; intros r Hr; cbn [iter_pos]; [| |by apply shr_1_m].
  - pose proof (shr_1_m r Hr) as E1.
    assert (H1 : 0 <= shr_m (shr_1 r)) by (rewrite E1; by apply Z.shiftr_nonneg).
    pose proof (IH _ H1) as E2.
    rewrite IH by (rewrite E2; by apply Z.shiftr_nonneg).
    rewrite E2, E1, !Z.shiftr_shiftr by lia. f_equal. lia.
  - pose proof (IH _ Hr) as E2.
    rewrite IH by (rewrite E2; by apply Z.shiftr_nonneg).
    rewrite E2, !Z.shiftr_shiftr by lia. f_equal. lia.
Qed.

Lemma shr_spec r e n :
  0 <= shr_m r ->
  shr_m (fst (shr r e n)) = Z.shiftr (shr_m r) (Z.max 0 n) /\
  snd (shr r e n) = e + Z.max 0 n.
Proof.
  intros Hr. destruct n as [|p|p]; cbn [shr fst snd].
  - rewrite Z.shiftr_0_r. split; [done | lia].
  - rewrite iter_pos_shr by done. split; [f_equal; lia | lia].
  - change (Z.max 0 (Zneg p)) with 0. rewrite Z.shiftr_0_r. split; [done | lia].
Qed.

Lemma shr_record_of_loc_m m l : shr_m (shr_record_of_loc m l) = m.
Proof. by destruct l as [|[]]. Qed.

Lemma Zdigits2_log2 m : 0 < m -> Zdigits2 m = Z.log2 m + 1.
Proof. destruct m; try lia. intros _. apply digits2_pos_log2. Qed.

Lemma round_nearest_even_cases m l :
  round_nearest_even m l = m \/ round_nearest_even m l = m + 1.
Proof. unfold round_nearest_even. destruct l as [|[]]; auto. destruct (Z.even m); auto. Qed.

(** ** Rounding *)
Definition fexp64 (e : Z) : Z := Z.max (e - 53) (-1074).

Lemma fexp_eq e : fexp 53 1024 e = fexp64 e.
Proof. reflexivity. Qed.

(** A result that is neither NaN nor of the other sign, in canonical form. *)
Definition sane (s : bool) (x : f64) : Prop :=
  match x with
  | S754_zero s' | S754_infinity s' => s' = s
  | S754_finite s' m e => s' = s /\ fexp64 (Z.log2 (Zpos m) + 1 + e) = e
  | S754_nan => False
  end.

(** [|x| < 2^K], and [x] is finite. *)
Definition below (K : Z) (x : f64) : Prop :=
  match x with
  | S754_zero _ => True
  | S754_finite _ m e => Z.log2 (Zpos m) + 1 + e <= K
  | _ => False
  end.

(** [|x| >= 2^L]. *)
Definition at_least (L : Z) (x : f64) : Prop :=
  match x with
  | S754_infinity _ => True
  | S754_finite _ m e => L <= Z.log2 (Zpos m) + e
  | _ => False
  end.

Lemma log2_shiftr m n : 0 < m -> 0 <= n -> Z.log2 (Z.shiftr m n) = Z.max 0 (Z.log2 m - n).
Proof. intros. by apply Z.log2_shiftr. Qed.

(** The first shift brings the mantissa to the exponent the format gives. *)
Lemma round_first_shift m e :
  0 < m -> e <= fexp64 (Z.log2 m + 1 + e) ->
  let e1 := fexp64 (Z.log2 m + 1 + e) in
  let m1 := Z.shiftr m (e1 - e) in
  0 <= m1 < 2 ^ 53 /\ (-1074 < e1 -> 2 ^ 52 <= m1) /\ e1 <= Z.max (Z.log2 m + 1 + e - 53) (-1074).
Proof.
  intros Hm He e1 m1. pose proof (Z.log2_nonneg m).
  assert (Hm1 : 0 <= m1) by (apply Z.shiftr_nonneg; lia).
  split; [split; [done |] | split; [|done]].
  - destruct (Z.eq_dec m1 0) as [->|]; [lia |]. apply Z.log2_lt_pow2; [lia |].
    unfold m1. rewrite log2_shiftr by lia. unfold e1, fexp64 in *. lia.
  - intros Hn. assert (He1 : e1 = Z.log2 m + 1 + e - 53) by (unfold e1, fexp64 in *; lia).
    unfold m1. rewrite Z.shiftr_div_pow2 by lia.
    apply Z.div_le_lower_bound; [lia |]. rewrite <- Z.pow_add_r by lia.
    replace (e1 - e + 52) with (Z.log2 m) by lia. apply Z.log2_spec; lia.
Qed.

(** The second shift only absorbs a carry of the rounding. *)
Lemma round_second_shift m2 e1 :
  0 < m2 <= 2 ^ 53 -> -1074 <= e1 -> (-1074 < e1 -> 2 ^ 52 <= m2) ->
  let n := Z.max 0 (fexp64 (Z.log2 m2 + 1 + e1) - e1) in
  0 < Z.shiftr m2 n /\
  fexp64 (Z.log2 (Z.shiftr m2 n) + 1 + (e1 + n)) = e1 + n /\
  Z.log2 (Z.shiftr m2 n) + 1 + (e1 + n) <= e1 + 54 /\ n <= 1 /\
  (-1074 < e1 -> 52 + e1 <= Z.log2 (Z.shiftr m2 n) + (e1 + n)).
Proof.
  intros Hm He Hn n. destruct (Z.eq_dec m2 (2 ^ 53)) as [->|Hne].
  - assert (n = 1) as Hn1 by (unfold n; rewrite Z.log2_pow2 by lia; unfold fexp64; lia).
    rewrite Hn1. change (Z.shiftr (2 ^ 53) 1) with (2 ^ 52). rewrite Z.log2_pow2 by lia.
    unfold fexp64. lia.
  - assert (Hlog : Z.log2 m2 <= 52).
    { assert (Z.log2 m2 < 53); [|lia]. apply Z.log2_lt_pow2; lia. }
    pose proof (Z.log2_nonneg m2).
    assert (Hlog52 : -1074 < e1 -> Z.log2 m2 = 52).
    { intros H1. assert (52 <= Z.log2 m2); [|lia]. apply Z.log2_le_pow2; [lia | auto]. }
    assert (n = 0) as Hn0 by (unfold n, fexp64; lia).
    rewrite Hn0, Z.shiftr_0_r, Z.add_0_r. unfold fexp64. lia.
Qed.

(** Rounding a positive number keeps its sign and gives a canonical result, finite
    when the number is far from the overflow threshold. *)
Lemma binary_round_aux_sane s m e l :
  0 < m -> e <= fexp64 (Z.log2 m + 1 + e) ->
  sane s (binary_round_aux 53 1024 s m e l) /\
  (Z.log2 m + 1 + e <= 900 ->
   below (Z.max (Z.log2 m + 2 + e) 0) (binary_round_aux 53 1024 s m e l)) /\
  (-1021 <= Z.log2 m + e ->
   at_least (Z.log2 m + e) (binary_round_aux 53 1024 s m e l)).
Proof.
  intros Hm He. pose proof (Z.log2_nonneg m).
  destruct (round_first_shift m e Hm He) as (Hm1 & Hn1 & He1).
  set (e1 := fexp64 (Z.log2 m + 1 + e)) in *. set (m1 := Z.shiftr m (e1 - e)) in *.
  unfold binary_round_aux, shr_fexp. rewrite fexp_eq, Zdigits2_log2 by done. fold e1.
  pose proof (shr_spec (shr_record_of_loc m l) e (e1 - e)) as Hs1.
  rewrite shr_record_of_loc_m in Hs1. specialize (Hs1 ltac:(lia)).
  rewrite Z.max_r in Hs1 by lia. fold m1 in Hs1.
  destruct (shr _ e (e1 - e)) as [r1 x1]. cbn [fst snd] in Hs1. destruct Hs1 as [Hr1 ->].
  rewrite Hr1. set (m2 := round_nearest_even m1 _).
  assert (Hm2 : m1 <= m2 <= m1 + 1)
    by (destruct (round_nearest_even_cases m1 (loc_of_shr_record r1)) as [E|E];
        unfold m2; rewrite E; lia).
  replace (e + (e1 - e)) with e1 by lia.
  pose proof (shr_spec (shr_record_of_loc m2 loc_Exact) e1
    (fexp 53 1024 (Zdigits2 m2 + e1) - e1)) as Hs2.
  rewrite shr_record_of_loc_m in Hs2. specialize (Hs2 ltac:(lia)).
  destruct (shr _ e1 _) as [r2 e2]. cbn [fst snd] in Hs2. destruct Hs2 as [Hr2 ->].
  destruct (Z.eq_dec m2 0) as [E0|E0].
  { rewrite Hr2, E0, Z.shiftr_0_l. cbn. split; [done |]. split; [done |].
    intros. assert (-1074 < e1) by (unfold e1, fexp64; lia). lia. }
  rewrite fexp_eq, Zdigits2_log2 in Hr2 by lia. rewrite fexp_eq, Zdigits2_log2 by lia.
  assert (-1074 <= e1) by (unfold e1, fexp64; lia).
  destruct (round_second_shift m2 e1) as (Hp & Hcan & Hle & Hn & Hlow); [lia | lia | lia |].
  rewrite Hr2. set (n := Z.max 0 _) in *. destruct (Z.shiftr m2 n) as [|p|p]; try lia.
  destruct (Z.leb_spec (e1 + n) (1024 - 53)) as [Hfin|Hinf].
  - split; [by split |]. split; intros HK; cbn [below at_least]; [lia |].
    assert (e1 = Z.log2 m + 1 + e - 53) by (unfold e1, fexp64; lia). lia.
  - split; [done |]. split; intros HK; [lia | done].
Qed.

Lemma pos_iter_xO m d : Zpos (Pos.iter xO m d) = Zpos m * 2 ^ Zpos d.
Proof.
  induction d as [|d IH] using Pos.peano_ind; [cbn; lia |].
  rewrite Pos.iter_succ, Pos2Z.inj_succ, Z.pow_succ_r by lia.
  change (Zpos (Pos.iter xO m d)~0) with (2 * Zpos (Pos.iter xO m d)). lia.
Qed.

Lemma shl_align_spec m e e' :
  let '(m', x) := shl_align m e e' in
  x = Z.min e e' /\ Zpos m' = Zpos m * 2 ^ (e - x) /\ Z.log2 (Zpos m') + x = Z.log2 (Zpos m) + e.
Proof.
  unfold shl_align. destruct (e' - e) as [|d|d] eqn:Ed.
  - replace (e - e) with 0 by lia. repeat split; lia.
  - replace (e - e) with 0 by lia. repeat split; lia.
  - rewrite pos_iter_xO. replace (e - e') with (Zpos d) by lia.
    rewrite Z.log2_mul_pow2 by lia. repeat split; lia.
Qed.

Lemma binary_round_sane s m e :
  let K := Z.log2 (Zpos m) + 1 + e in
  sane s (binary_round 53 1024 s m e) /\
  (K <= 900 -> below (Z.max (K + 1) 0) (binary_round 53 1024 s m e)) /\
  (-1020 <= K -> at_least (K - 1) (binary_round 53 1024 s m e)).
Proof.
  intros K. unfold binary_round. rewrite fexp_eq, digits2_pos_log2. fold K.
  pose proof (shl_align_spec m e (fexp64 K)) as Hs.
  destruct (shl_align m e (fexp64 K)) as [m' x]. destruct Hs as (-> & _ & Hl).
  assert (HK : Z.log2 (Zpos m') + 1 + Z.min e (fexp64 K) = K) by (unfold K in *; lia).
  destruct (binary_round_aux_sane s (Zpos m') (Z.min e (fexp64 K)) loc_Exact) as (H1 & H2 & H3);
    [lia | rewrite HK; lia |].
  split; [exact H1 |]. split; intros Hk.
  - specialize (H2 ltac:(lia)).
    replace (Z.max (K + 1) 0) with (Z.max (Z.log2 (Zpos m') + 2 + Z.min e (fexp64 K)) 0) by lia.
    exact H2.
  - specialize (H3 ltac:(lia)).
    replace (K - 1) with (Z.log2 (Zpos m') + Z.min e (fexp64 K)) by lia. exact H3.
Qed.

(** ** The operations *)
Lemma below_mono K L x : K <= L -> below K x -> below L x.
Proof. destruct x; cbn; try done. lia. Qed.

Lemma at_least_mono K L x : K <= L -> at_least L x -> at_least K x.
Proof. destruct x; cbn [at_least]; try done. lia. Qed.

Lemma sane_normalize_pos m e :
  let K := Z.log2 (Zpos m) + 1 + e in
  sane false (binary_normalize 53 1024 (Zpos m) e false) /\
  (K <= 900 -> below (Z.max (K + 1) 0) (binary_normalize 53 1024 (Zpos m) e false)) /\
  (-1020 <= K -> at_least (K - 1) (binary_normalize 53 1024 (Zpos m) e false)).
Proof. apply binary_round_sane. Qed.

Lemma sane_abs s x : sane s x -> sane false (f64_abs x).
Proof. destruct x; cbn; try done. intros [_ ?]. done. Qed.

Lemma f64_of_u64_sane z :
  0 <= z < U64 ->
  sane false (f64_of_u64 z) /\ below 66 (f64_of_u64 z) /\
  (0 < z -> at_least 0 (f64_of_u64 z)).
Proof.
  intros Hz. unfold f64_of_u64. destruct z as [|m|m]; [repeat split; lia | | lia].
  destruct (sane_normalize_pos m 0) as (H1 & H2 & H3).
  pose proof (Z.log2_nonneg (Zpos m)).
  assert (Z.log2 (Zpos m) < 64) by (apply Z.log2_lt_pow2; unfold U64 in *; lia).
  split; [done |]. split; [eapply below_mono; [|apply H2]; lia |].
  intros _. specialize (H3 ltac:(lia)).
  destruct (binary_normalize _ _ _ _ _); cbn in *; try done. lia.
Qed.

Lemma f64_add_sane x y :
  sane false x -> sane false y -> sane false (f64_add x y).
Proof.
  unfold f64_add. destruct x as [sx|sx| |sx mx ex], y as [sy|sy| |sy my ey]; cbn [sane SFadd]; try done;
    try (intros -> ->; done); try (intros -> [-> ?]; done); try (intros [-> ?] ->; done).
  intros [-> _] [-> _]. cbn [cond_Zopp].
  rewrite <- Pos2Z.inj_add. apply sane_normalize_pos.
Qed.

Lemma f64_add_below K x y :
  sane false x -> sane false y -> below K x -> below K y -> 0 <= K <= 890 ->
  below (K + 2) (f64_add x y).
Proof.
  unfold f64_add. destruct x as [sx|sx| |sx mx ex], y as [sy|sy| |sy my ey];
    cbn [sane below SFadd]; try done.
  - intros -> -> _ _ _. done.
  - lia.
  - lia.
  - intros [-> _] [-> _] Hx Hy HK. cbn [cond_Zopp].
    pose proof (shl_align_spec mx ex (Z.min ex ey)) as Hsx.
    pose proof (shl_align_spec my ey (Z.min ex ey)) as Hsy.
    destruct (shl_align mx ex _) as [a xa], (shl_align my ey _) as [b xb]. cbn [fst].
    destruct Hsx as (-> & _ & Hla), Hsy as (-> & _ & Hlb).
    rewrite <- Pos2Z.inj_add. destruct (sane_normalize_pos (a + b) (Z.min ex ey)) as (_ & H2 & _).
    assert (Hab : Z.log2 (Zpos (a + b)) <= Z.max (Z.log2 (Zpos a)) (Z.log2 (Zpos b)) + 1).
    { assert (Z.log2 (Zpos (a + b)) < Z.max (Z.log2 (Zpos a)) (Z.log2 (Zpos b)) + 2); [|lia].
      pose proof (Z.log2_nonneg (Zpos a)). pose proof (Z.log2_nonneg (Zpos b)).
      set (M := Z.max _ _). apply Z.log2_lt_pow2; [lia |].
      assert (forall p, Z.log2 (Zpos p) <= M -> Zpos p < 2 ^ (M + 1)) as Hp.
      { intros p Hp. apply Z.log2_lt_pow2; lia. }
      pose proof (Hp a ltac:(lia)). pose proof (Hp b ltac:(lia)).
      replace (M + 2) with (Z.succ (M + 1)) by lia. rewrite Z.pow_succ_r by lia. lia. }
    eapply below_mono; [|apply H2]; lia.
Qed.

Lemma f64_add_at_least L x y :
  sane false x -> sane false y -> -1000 <= L -> at_least L x \/ at_least L y ->
  at_least L (f64_add x y).
Proof.
  unfold f64_add. destruct x as [sx|sx| |sx mx ex], y as [sy|sy| |sy my ey];
    cbn [sane at_least SFadd]; try done; try (intros; destruct_and?; subst; tauto).
  intros [-> _] [-> _] HL Hxy. cbn [cond_Zopp].
  pose proof (shl_align_spec mx ex (Z.min ex ey)) as Hsx.
  pose proof (shl_align_spec my ey (Z.min ex ey)) as Hsy.
  destruct (shl_align mx ex _) as [a xa], (shl_align my ey _) as [b xb]. cbn [fst].
  destruct Hsx as (-> & _ & Hla), Hsy as (-> & _ & Hlb).
  rewrite <- Pos2Z.inj_add. destruct (sane_normalize_pos (a + b) (Z.min ex ey)) as (_ & _ & H3).
  assert (Z.log2 (Zpos a) <= Z.log2 (Zpos (a + b))) by (apply Z.log2_le_mono; lia).
  assert (Z.log2 (Zpos b) <= Z.log2 (Zpos (a + b))) by (apply Z.log2_le_mono; lia).
  eapply at_least_mono; [|apply H3]; destruct Hxy; lia.
Qed.

(** Multiplying by a positive normal constant below 2^53. *)
Lemma f64_mul_const_sane mc ec y :
  Z.log2 (Zpos mc) = 52 -> ec <= 0 -> sane false y ->
  sane false (f64_mul (S754_finite false mc ec) y).
Proof.
  intros Hc He. unfold f64_mul. destruct y as [sy|sy| |sy my ey]; cbn [sane SFmul]; try done.
  intros [-> Hcan]. cbn [xorb].
  assert (Hl : 52 + Z.log2 (Zpos my) <= Z.log2 (Zpos (mc * my))).
  { rewrite Pos2Z.inj_mul. rewrite <- Hc. apply Z.log2_mul_below; lia. }
  apply binary_round_aux_sane; [lia |]. unfold fexp64 in *. lia.
Qed.

Lemma f64_abs_sub_sane K x y :
  sane false x -> sane false y -> below K y -> sane false (f64_abs (f64_sub x y)).
Proof.
  unfold f64_sub. destruct x as [sx|sx| |sx mx ex], y as [sy|sy| |sy my ey];
    cbn [sane below SFsub]; try done;
    try (intros; destruct_and?; subst; by cbn).
  intros [-> _] [-> _] _. cbn [cond_Zopp].
  destruct (Z.sub _ _) as [|m|m]; [done | |]; eapply sane_abs, binary_round_sane.
Qed.

Lemma quotient_log2 m d lx s q r :
  2 ^ lx <= m < 2 ^ Z.succ lx -> 2 ^ 52 <= d < 2 ^ Z.succ 52 -> 0 <= lx -> 0 <= s ->
  105 <= lx + s -> m * 2 ^ s = d * q + r -> 0 <= r < d ->
  0 < q /\ 52 <= Z.log2 q /\ Z.log2 q < lx + s - 51 /\ lx + s - 53 <= Z.log2 q.
Proof.
  intros Hm Hd Hlx Hs Hls Hqr Hr.
  assert (Hlo : 2 ^ (lx + s) <= m * 2 ^ s) by (rewrite Z.pow_add_r by lia; nia).
  assert (Hhi : m * 2 ^ s < 2 ^ (Z.succ lx + s)) by (rewrite Z.pow_add_r by lia; nia).
  assert (H105 : 2 ^ 105 <= 2 ^ (lx + s)) by (apply Z.pow_le_mono_r; lia).
  change (2 ^ 105) with (2 ^ 53 * 2 ^ 52) in H105. change (Z.succ 52) with 53 in Hd.
  assert (Hq : 2 ^ 52 <= q) by nia.
  split; [lia |]. split; [apply Z.log2_le_pow2; lia |]. split.
  - apply Z.log2_lt_pow2; [lia |].
    replace (Z.succ lx + s) with (52 + (lx + s - 51)) in Hhi by lia.
    rewrite Z.pow_add_r in Hhi by lia. nia.
  - apply Z.log2_le_pow2; [lia |].
    replace (lx + s) with (53 + (lx + s - 53)) in Hlo by lia.
    rewrite Z.pow_add_r in Hlo by lia.
    assert (2 ^ 53 * 2 ^ (lx + s - 53) < 2 ^ 53 * (q + 1)) by nia. lia.
Qed.

(** Dividing by a normal constant: the quotient has enough digits to be rounded. *)
Lemma f64_div_const_sane md ed K x :
  Z.log2 (Zpos md) = 52 -> sane false x -> below K x -> at_least (-900) x \/ x = S754_zero false ->
  -52 <= ed <= 0 -> 0 <= K <= 800 ->
  sane false (f64_div x (S754_finite false md ed)) /\
  below (K + 3) (f64_div x (S754_finite false md ed)) /\
  (forall L, -900 <= L -> at_least L x -> at_least (L - 53) (f64_div x (S754_finite false md ed))).
Proof.
  intros Hd Hs Hb Hl He HK. unfold f64_div.
  destruct x as [sx|sx| |sx mx ex]; cbn [sane below SFdiv] in *; try done.
  - by subst.
  - destruct Hs as [-> Hcan]. cbn [xorb at_least]. destruct Hl as [Hl|]; [|done]. cbn [at_least] in Hl.
    unfold SFdiv_core_binary. rewrite fexp_eq, !Zdigits2_log2 by lia. rewrite Hd.
    set (lx := Z.log2 (Zpos mx)) in *.
    pose proof (Z.log2_nonneg (Zpos mx)) as Hlx. fold lx in Hlx.
    set (e' := Z.min _ _).
    assert (He' : e' <= lx + ex - ed - 105 /\ e' <= ex - ed) by (unfold e', fexp64; lia).
    set (s := ex - ed - e').
    assert (Hm : (match s with 0 => Zpos mx | Zpos _ => Z.shiftl (Zpos mx) s | Zneg _ => 0 end)
                 = Zpos mx * 2 ^ s).
    { unfold s. destruct (ex - ed - e') as [|p|p] eqn:E; [lia | | lia].
      by rewrite Z.shiftl_mul_pow2 by lia. }
    rewrite Hm. pose proof (Z_div_mod (Zpos mx * 2 ^ s) (Zpos md) ltac:(lia)) as Hqr.
    destruct (Z.div_eucl _ _) as [q r]. destruct Hqr as [Hqr Hr].
    pose proof (Z.log2_spec (Zpos mx) ltac:(lia)) as Hmx. fold lx in Hmx.
    pose proof (Z.log2_spec (Zpos md) ltac:(lia)) as Hmd. rewrite Hd in Hmd.
    assert (Hs : 105 <= lx + s) by (unfold s; lia).
    assert (Hs0 : 0 <= s) by (unfold s; lia).
    destruct (quotient_log2 (Zpos mx) (Zpos md) lx s q r) as (Hq & Hq1 & Hq2 & Hq3); try done.
    destruct (binary_round_aux_sane false q e' (new_location (Zpos md) r)) as (H1 & H2 & H3);
      [lia | unfold fexp64; lia |].
    split; [done |]. split.
    + eapply below_mono; [|apply H2]; unfold s in *; lia.
    + intros L HL Hx. eapply at_least_mono; [|apply H3]; unfold s in *; lia.
Qed.

Lemma as_secs_f64_sane d :
  0 <= d < U64 * NANOS_PER_SEC ->
  sane false (as_secs_f64 d) /\ below 75 (as_secs_f64 d) /\
  (at_least (-53) (as_secs_f64 d) \/ as_secs_f64 d = S754_zero false).
Proof.
  intros Hd. unfold as_secs_f64.
  assert (H1 : 0 <= d / NANOS_PER_SEC < U64).
  { split; [apply Z.div_pos; unfold NANOS_PER_SEC; lia |].
    apply Z.div_lt_upper_bound; unfold NANOS_PER_SEC in *; lia. }
  assert (H2 : 0 <= d mod NANOS_PER_SEC < U64).
  { pose proof (Z.mod_pos_bound d NANOS_PER_SEC eq_refl). unfold NANOS_PER_SEC, U64 in *. lia. }
  destruct (f64_of_u64_sane _ H1) as (S1 & B1 & L1), (f64_of_u64_sane _ H2) as (S2 & B2 & L2).
  change (f64_of_u64 NANOS_PER_SEC) with (S754_finite false 8388608000000000 (-23)).
  assert (H900 : at_least (-900) (f64_of_u64 (d mod NANOS_PER_SEC)) \/
                 f64_of_u64 (d mod NANOS_PER_SEC) = S754_zero false).
  { destruct (Z.eq_dec (d mod NANOS_PER_SEC) 0) as [->|]; [by right |]. left.
    eapply at_least_mono; [|apply L2]; lia. }
  destruct (f64_div_const_sane 8388608000000000 (-23) 70 (f64_of_u64 (d mod NANOS_PER_SEC)))
    as (S3 & B3 & L3); try done; try lia; [by eapply below_mono; [|exact B2]; lia |].
  split; [by apply f64_add_sane |]. split.
  - apply (f64_add_below 73); try done. eapply below_mono; [|exact B1]; lia.
  - destruct (Z.eq_dec (d / NANOS_PER_SEC) 0) as [->|];
      [destruct (Z.eq_dec (d mod NANOS_PER_SEC) 0) as [->|]; [by right |] |]; left;
      apply f64_add_at_least; try done.
    + right. apply (L3 0); [lia | apply L2; lia].
    + left. eapply at_least_mono; [|apply L1]; lia.
Qed.

Lemma div_half_even_bounds lo hi n d :
  0 < d -> lo * d <= n <= hi * d -> lo <= div_half_even n d <= hi.
Proof.
  intros Hd Hn. unfold div_half_even.
  pose proof (Z.div_mod n d ltac:(lia)). pose proof (Z.mod_pos_bound n d Hd).
  assert (lo <= n / d) by (apply Z.div_le_lower_bound; nia).
  assert (n / d <= hi) by (apply Z.div_le_upper_bound; nia).
  assert (n mod d <> 0 -> n / d + 1 <= hi) by (intros; nia).
  destruct (Z.compare_spec (2 * (n mod d)) d); [|lia|];
    try (destruct (Z.even (n / d)); [lia |]); lia.
Qed.

(** ** What the clamp leaves *)
Definition SECS_200MS : f64 := as_secs_f64 (from_millis 200).
Definition SECS_60 : f64 := as_secs_f64 (from_secs 60).

Lemma SECS_200MS_eq : SECS_200MS = S754_finite false 7205759403792794 (-55).
Proof. reflexivity. Qed.

Lemma SECS_60_eq : SECS_60 = S754_finite false 8444249301319680 (-47).
Proof. reflexivity. Qed.

Lemma f64_lt_false_pos m1 e1 m2 e2 :
  f64_lt (S754_finite false m1 e1) (S754_finite false m2 e2) = false ->
  e2 < e1 \/ e1 = e2 /\ Zpos m2 <= Zpos m1.
Proof.
  unfold f64_lt, SFltb, SFcompare.
  destruct (Z.compare_spec e1 e2) as [->| |]; try lia; try done.
  change (Pos.compare_cont Eq m1 m2) with (Pos.compare m1 m2).
  destruct (Pos.compare_spec m1 m2) as [->| |]; try done; lia.
Qed.

Lemma canonical_mantissa m e :
  fexp64 (Z.log2 (Zpos m) + 1 + e) = e -> -1074 < e -> 2 ^ 52 <= Zpos m < 2 ^ 53.
Proof.
  intros Hc He. assert (Hl : Z.log2 (Zpos m) = 52) by (unfold fexp64 in *; lia).
  pose proof (Z.log2_spec (Zpos m) ltac:(lia)) as H. rewrite Hl in H.
  change (Z.succ 52) with 53 in H. lia.
Qed.

(** A number that the clamp lets through is a whole number of nanoseconds between
    200 ms and 60 s after [from_secs_f64]. *)
Lemma from_secs_in_range m e :
  fexp64 (Z.log2 (Zpos m) + 1 + e) = e ->
  f64_lt (S754_finite false m e) SECS_200MS = false ->
  f64_lt SECS_60 (S754_finite false m e) = false ->
  exists ns, from_secs_f64 (S754_finite false m e) = Some ns /\
    from_millis 200 <= ns <= from_secs 60.
Proof.
  intros Hc Hlo Hhi. rewrite SECS_200MS_eq in Hlo. rewrite SECS_60_eq in Hhi.
  apply f64_lt_false_pos in Hlo, Hhi.
  pose proof (canonical_mantissa m e Hc ltac:(lia)) as Hm.
  assert (He : e = -55 \/ e = -54 \/ e = -53 \/ e = -52 \/ e = -51 \/ e = -50 \/ e = -49 \/
               e = -48 \/ e = -47) by lia.
  unfold from_secs_f64, from_millis, from_secs, NANOS_PER_SEC, U64 in *.
  assert (H : 200 * 1000000 <= div_half_even (Zpos m * 1000000000) (2 ^ (- e)) <= 60 * 1000000000).
  { apply div_half_even_bounds; [apply Z.pow_pos_nonneg; lia |].
    destruct He as [->|[->|[->|[->|[->|[->|[->|[->| ->]]]]]]]]; lia. }
  destruct (Z.leb_spec 0 e); [lia |].
  destruct (Z.ltb_spec (div_half_even (Zpos m * 1000000000) (2 ^ (- e)))
    (18446744073709551616 * 1000000000)); [|lia].
  eexists. split; [done | exact H].
Qed.

Lemma clamp_from_secs x :
  sane false x ->
  exists ns, from_secs_f64 (f64_clamp x SECS_200MS SECS_60) = Some ns /\
    from_millis 200 <= ns <= from_secs 60.
Proof.
  intros Hx. unfold f64_clamp.
  destruct (f64_lt x SECS_200MS) eqn:E1.
  { eexists. split; [vm_compute; reflexivity |]. vm_compute. split; discriminate. }
  destruct (f64_lt SECS_60 x) eqn:E2.
  { eexists. split; [vm_compute; reflexivity |]. vm_compute. split; discriminate. }
  destruct x as [s|s| |s m e]; cbn in Hx; try done; try (by subst).
  destruct Hx as [-> Hc]. by apply from_secs_in_range.
Qed.

(** ** Exact results *)
Lemma round_aux_canonical s m e :
  fexp64 (Z.log2 (Zpos m) + 1 + e) = e -> e <= 971 ->
  binary_round_aux 53 1024 s (Zpos m) e loc_Exact = S754_finite s m e.
Proof.
  intros Hc He. unfold binary_round_aux, shr_fexp. rewrite fexp_eq, Zdigits2_log2, Hc by lia.
  rewrite Z.sub_diag. cbn [shr shr_record_of_loc shr_m loc_of_shr_record round_nearest_even].
  rewrite fexp_eq, Zdigits2_log2, Hc by lia. rewrite Z.sub_diag. cbn [shr shr_m].
  by destruct (Z.leb_spec e (1024 - 53)); [|lia].
Qed.

(** One excess bit, which is zero. *)
Lemma round_aux_even s m e :
  fexp64 (Z.log2 (Zpos m) + 1 + e) = e -> e <= 971 ->
  binary_round_aux 53 1024 s (Zpos m~0) (e - 1) loc_Exact = S754_finite s m e.
Proof.
  intros Hc He. unfold binary_round_aux, shr_fexp. rewrite fexp_eq, Zdigits2_log2 by lia.
  change (Zpos m~0) with (2 * Zpos m). rewrite Z.log2_double by lia.
  replace (Z.succ (Z.log2 (Zpos m)) + 1 + (e - 1)) with (Z.log2 (Zpos m) + 1 + e) by lia.
  rewrite Hc. replace (e - (e - 1)) with 1 by lia. change (2 * Zpos m) with (Zpos m~0).
  cbn [shr iter_pos shr_1 shr_record_of_loc shr_m shr_r shr_s loc_of_shr_record round_nearest_even orb].
  replace (e - 1 + 1) with e by lia.
  rewrite fexp_eq, Zdigits2_log2, Hc by lia. rewrite Z.sub_diag. cbn [shr shr_m].
  by destruct (Z.leb_spec e (1024 - 53)); [|lia].
Qed.

(** The canonical form of an integer below 2^53. *)
Lemma f64_of_u64_exact p :
  Zpos p < 2 ^ 53 ->
  exists m, f64_of_u64 (Zpos p) = S754_finite false m (Z.log2 (Zpos p) - 52) /\
    Zpos m = Zpos p * 2 ^ (52 - Z.log2 (Zpos p)) /\ Z.log2 (Zpos m) = 52 /\
    Z.log2 (Zpos p) <= 52.
Proof.
  intros Hp. pose proof (Z.log2_nonneg (Zpos p)).
  assert (Hl : Z.log2 (Zpos p) < 53) by (apply Z.log2_lt_pow2; lia).
  unfold f64_of_u64. cbn [binary_normalize]. unfold binary_round.
  rewrite fexp_eq, digits2_pos_log2.
  replace (fexp64 (Z.log2 (Zpos p) + 1 + 0)) with (Z.log2 (Zpos p) - 52) by (unfold fexp64; lia).
  pose proof (shl_align_spec p 0 (Z.log2 (Zpos p) - 52)) as Hs.
  destruct (shl_align p 0 _) as [m x]. destruct Hs as (-> & Hm & Hlm).
  rewrite Z.min_r in * by lia.
  assert (Z.log2 (Zpos m) = 52) by lia.
  exists m. split; [|split; [|lia]].
  - apply round_aux_canonical; unfold fexp64; lia.
  - rewrite Hm. f_equal. f_equal. lia.
Qed.

(** [n / 2^53] is exact, and in [0, 1). *)
Lemma f64_unit_interval n :
  0 <= n < 2 ^ 53 ->
  let x := f64_div (f64_of_u64 n) (f64_of_u64 (2 ^ 53)) in
  f64_lt x (f64_of_u64 0) = false /\ f64_lt x (f64_of_u64 1) = true.
Proof.
  intros Hn. change (f64_of_u64 (2 ^ 53)) with (S754_finite false 4503599627370496 1).
  change (f64_of_u64 1) with (S754_finite false 4503599627370496 (-52)).
  change (f64_of_u64 0) with (S754_zero false).
  destruct n as [|p|p]; [done | | lia].
  destruct (f64_of_u64_exact p) as (m & -> & Hm & Hlm & Hl); [lia |].
  set (ex := Z.log2 (Zpos p) - 52). assert (Hex : -52 <= ex <= 0).
  { pose proof (Z.log2_nonneg (Zpos p)). lia. }
  assert (Hd : f64_div (S754_finite false m ex) (S754_finite false 4503599627370496 1) =
               S754_finite false m (ex - 53)).
  { unfold f64_div, SFdiv, SFdiv_core_binary. rewrite fexp_eq, !Zdigits2_log2, Hlm by lia.
    change (Z.log2 4503599627370496) with 52.
    replace (Z.min _ _) with (ex - 54) by (unfold fexp64; lia).
    replace (ex - 1 - (ex - 54)) with 53 by lia. cbn [xorb].
    rewrite Z.shiftl_mul_pow2 by lia.
    assert (Hq : Z.div_eucl (Zpos m * 2 ^ 53) 4503599627370496 = (Zpos m~0, 0)).
    { pose proof (Z_div_mod (Zpos m * 2 ^ 53) 4503599627370496 ltac:(lia)) as H.
      destruct (Z.div_eucl _ _) as [q r]. f_equal; lia. }
    rewrite Hq. change (new_location 4503599627370496 0) with loc_Exact.
    replace (ex - 54) with (ex - 53 - 1) by lia. apply round_aux_even; unfold fexp64; lia. }
  rewrite Hd. split; [done |]. unfold f64_lt, SFltb, SFcompare.
  by destruct (Z.compare_spec (ex - 53) (-52)); [lia | | lia].
Qed.
