(* ===== verification/Retransmit.v ===== *)
(** * The retransmission queue (src/magnum-tcp/src/tcp/retransmit.rs)

    The queue of unacknowledged segments and the retransmission timeout (RFC
    6298). An [Instant] and a [Duration] are numbers of nanoseconds; a call of
    [Instant::now] is an argument of the operation that makes it. *)
From S2P Require Import Prelude Tcb Float64.
From Stdlib Require Import SpecFloat.

Definition MSS : Z := 1460.
Definition RETRANSMIT_QUEUE_MAX : Z := 128.

Definition INITIAL_RTO : Z := from_millis 1000.
Definition MIN_RTO : Z := from_millis 200.
Definition MAX_RTO : Z := from_secs 60.

(** The literals 0.125, 0.25, 1.0, 2.0, 4.0 and 0.0. *)
Definition ALPHA : f64 := f64_div (f64_of_u64 1) (f64_of_u64 8).
Definition BETA : f64 := f64_div (f64_of_u64 1) (f64_of_u64 4).
Definition f64_1 : f64 := f64_of_u64 1.
Definition f64_2 : f64 := f64_of_u64 2.
Definition f64_4 : f64 := f64_of_u64 4.
Definition f64_0 : f64 := f64_of_u64 0.

Record RetransmitEntry := mkRetransmitEntry {
  e_seq : Z;
  e_data : list Z;
  e_sent_at : Z;
  e_retransmitted : bool }.

Record RetransmitQueue := mkRetransmitQueue {
  entries : list RetransmitEntry;
  rto : Z;
  srtt : option f64;
  rttvar : f64 }.

Definition RetransmitQueue_new : RetransmitQueue :=
  {| entries := []; rto := INITIAL_RTO; srtt := None; rttvar := f64_0 |}.

Definition RetransmitQueue_push (rq : RetransmitQueue) (seq : Z) (data : list Z) (now : Z)
  : RetransmitQueue :=
  if len (entries rq) <? RETRANSMIT_QUEUE_MAX
  then {| entries := entries rq ++
            [{| e_seq := seq; e_data := data; e_sent_at := now; e_retransmitted := false |}];
          rto := rto rq; srtt := srtt rq; rttvar := rttvar rq |}
  else rq.

Definition fully_acked (end_seq ack : Z) : bool := seq_le end_seq ack.

Definition update_rto {E} (rq : RetransmitQueue) (rtt : Z) : Res E RetransmitQueue :=
  let r := as_secs_f64 rtt in
  let '(srtt', rttvar') :=
    match srtt rq with
    | None => (r, f64_div r f64_2)
    | Some s =>
        let diff := f64_abs (f64_sub s r) in
        (f64_add (f64_mul (f64_sub f64_1 ALPHA) s) (f64_mul ALPHA r),
         f64_add (f64_mul (f64_sub f64_1 BETA) (rttvar rq)) (f64_mul BETA diff))
    end in
  let rto_secs :=
    f64_clamp (f64_add srtt' (f64_mul f64_4 rttvar')) (as_secs_f64 MIN_RTO) (as_secs_f64 MAX_RTO) in
  rto' ← unwrap (from_secs_f64 rto_secs);
  mret {| entries := entries rq; rto := rto'; srtt := Some srtt'; rttvar := rttvar' |}.

(** [for rtt in rtt_samples { self.update_rto(rtt) }] *)
Fixpoint update_all {E} (rq : RetransmitQueue) (samples : list Z) : Res E RetransmitQueue :=
  match samples with
  | [] => mret rq
  | rtt :: rest => rq' ← update_rto rq rtt; update_all rq' rest
  end.

Definition entry_end (e : RetransmitEntry) : Z :=
  wrapping_add (e_seq e) (as_u32 (len (e_data e))).

(** The closure of [retain]: the entries kept and the samples collected. *)
Fixpoint retain_unacked (l : list RetransmitEntry) (ack now : Z)
  : list RetransmitEntry * list Z :=
  match l with
  | [] => ([], [])
  | e :: l' =>
      let '(kept, samples) := retain_unacked l' ack now in
      if fully_acked (entry_end e) ack
      then (kept, if negb (e_retransmitted e)
                  then duration_since now (e_sent_at e) :: samples else samples)
      else (e :: kept, samples)
  end.

Definition acknowledge_and_sample_rtt {E} (rq : RetransmitQueue) (ack now : Z)
  : Res E RetransmitQueue :=
  let '(kept, samples) := retain_unacked (entries rq) ack now in
  update_all {| entries := kept; rto := rto rq; srtt := srtt rq; rttvar := rttvar rq |} samples.

(** The loop of [expired_segments]: the entries after it and what it collects. *)
Fixpoint expire (l : list RetransmitEntry) (now rto : Z)
  : list RetransmitEntry * list (Z * list Z) :=
  match l with
  | [] => ([], [])
  | e :: l' =>
      let '(rest, out) := expire l' now rto in
      if rto <=? duration_since now (e_sent_at e)
      then ({| e_seq := e_seq e; e_data := e_data e; e_sent_at := now; e_retransmitted := true |}
              :: rest, (e_seq e, e_data e) :: out)
      else (e :: rest, out)
  end.

Definition DURATION_MAX : Z := U64 * NANOS_PER_SEC.

(** [self.rto * 2] panics when it overflows a [Duration]. *)
Definition duration_double {E} (d : Z) : Res E Z :=
  if 2 * d <? DURATION_MAX then Ok (2 * d) else Panic.

Definition expired_segments {E} (rq : RetransmitQueue) (now : Z)
  : Res E (RetransmitQueue * list (Z * list Z)) :=
  let '(es, expired) := expire (entries rq) now (rto rq) in
  rto' ← match expired with
         | [] => mret (rto rq)
         | _ => d ← duration_double (rto rq); mret (Z.min d MAX_RTO)
         end;
  mret ({| entries := es; rto := rto'; srtt := srtt rq; rttvar := rttvar rq |}, expired).

Definition first_unacked (rq : RetransmitQueue) : option (Z * list Z) :=
  match entries rq with e :: _ => Some (e_seq e, e_data e) | [] => None end.

Definition RetransmitQueue_is_empty (rq : RetransmitQueue) : bool :=
  match entries rq with [] => true | _ => false end.

Definition RetransmitQueue_len (rq : RetransmitQueue) : Z := len (entries rq).

(** ** Invariant *)
Definition instant_ok (t : Z) : Prop := 0 <= t < DURATION_MAX.

Record entry_ok (e : RetransmitEntry) : Prop := {
  eo_seq : is_u32 (e_seq e);
  eo_data : bytes_ok (e_data e);
  eo_len : len (e_data e) <= MSS;
  eo_sent : instant_ok (e_sent_at e) }.

Record rtq_wf (rq : RetransmitQueue) : Prop := {
  rqw_len : len (entries rq) <= RETRANSMIT_QUEUE_MAX;
  rqw_entries : Forall entry_ok (entries rq);
  rqw_rto : MIN_RTO <= rto rq <= MAX_RTO;
  rqw_srtt : match srtt rq with None => True | Some s => sane false s end;
  rqw_rttvar : sane false (rttvar rq) }.

Lemma rtq_wf_new : rtq_wf RetransmitQueue_new.
Proof. by split. Qed.

Lemma rtq_wf_push rq seq data now :
  rtq_wf rq -> is_u32 seq -> bytes_ok data -> len data <= MSS -> instant_ok now ->
  rtq_wf (RetransmitQueue_push rq seq data now).
Proof.
  intros [Hl He Hr Hs Hv] Hq Hd Hm Hn. unfold RetransmitQueue_push.
  destruct (Z.ltb_spec (len (entries rq)) RETRANSMIT_QUEUE_MAX); [|by split].
  split; cbn [entries rto srtt rttvar]; try done.
  - rewrite len_app. change (len [_]) with 1. lia.
  - apply Forall_app. split; [done |]. apply Forall_singleton. by split.
Qed.

Lemma ALPHA_compl : f64_sub f64_1 ALPHA = S754_finite false 7881299347898368 (-53).
Proof. reflexivity. Qed.
Lemma BETA_compl : f64_sub f64_1 BETA = S754_finite false 6755399441055744 (-53).
Proof. reflexivity. Qed.
Lemma ALPHA_eq : ALPHA = S754_finite false 4503599627370496 (-55).
Proof. reflexivity. Qed.
Lemma BETA_eq : BETA = S754_finite false 4503599627370496 (-54).
Proof. reflexivity. Qed.
Lemma f64_4_eq : f64_4 = S754_finite false 4503599627370496 (-50).
Proof. reflexivity. Qed.
Lemma f64_2_eq : f64_2 = S754_finite false 4503599627370496 (-51).
Proof. reflexivity. Qed.

Lemma f64_mul_sane c y :
  (exists mc ec, c = S754_finite false mc ec /\ Z.log2 (Zpos mc) = 52 /\ ec <= 0) ->
  sane false y -> sane false (f64_mul c y).
Proof. intros (mc & ec & -> & Hl & He) Hy. by apply f64_mul_const_sane. Qed.

#[local] Opaque f64_add f64_sub f64_mul f64_div f64_abs.

(** A product with one of the four constants. *)
Ltac f64_const :=
  rewrite ?ALPHA_compl, ?BETA_compl, ?ALPHA_eq, ?BETA_eq, ?f64_4_eq;
  eexists _, _; split; [reflexivity | split; [reflexivity | lia]].

Lemma f64_half_sane r :
  sane false r -> below 75 r -> at_least (-53) r \/ r = S754_zero false ->
  sane false (f64_div r f64_2).
Proof.
  intros Hs Hb Hl. rewrite f64_2_eq. apply (f64_div_const_sane _ _ 75); try done.
  destruct Hl as [Hl|]; [left | by right]. eapply at_least_mono; [|exact Hl]; lia.
Qed.

(** The smoothed round-trip time and its variation stay numbers, and the timeout
    stays in its bounds: no sample makes the estimator panic. *)
Lemma update_rto_ok {E} rq rtt :
  rtq_wf rq -> 0 <= rtt < DURATION_MAX ->
  exists rq', update_rto (E:=E) rq rtt = Ok rq' /\ rtq_wf rq' /\ entries rq' = entries rq.
Proof.
  intros [Hl He Hr Hs Hv] Ht. unfold update_rto.
  destruct (as_secs_f64_sane rtt) as (Hr1 & Hr2 & Hr3); [exact Ht |].
  set (r := as_secs_f64 rtt) in *.
  destruct (match srtt rq with None => _ | Some _ => _ end) as [s' v'] eqn:Esv.
  assert (Hsv : sane false s' /\ sane false v').
  { destruct (srtt rq) as [s|]; injection Esv as <- <-.
    - assert (sane false (f64_abs (f64_sub s r))) by (by eapply f64_abs_sub_sane).
      split; apply f64_add_sane; apply f64_mul_sane; try done; f64_const.
    - split; [done |]. by apply f64_half_sane. }
  destruct Hsv as [Hs' Hv'].
  destruct (clamp_from_secs (f64_add s' (f64_mul f64_4 v'))) as (ns & Ens & Hns).
  { apply f64_add_sane; [done |]. apply f64_mul_sane; [f64_const | done]. }
  change (as_secs_f64 MIN_RTO) with SECS_200MS. change (as_secs_f64 MAX_RTO) with SECS_60.
  rewrite Ens. cbn. eexists. split; [done |]. split; [|done]. by split.
Qed.

Lemma update_all_ok {E} samples : forall rq,
  rtq_wf rq -> Forall (fun rtt => 0 <= rtt < DURATION_MAX) samples ->
  exists rq', update_all (E:=E) rq samples = Ok rq' /\ rtq_wf rq' /\ entries rq' = entries rq.
Proof.
  induction samples as [|rtt rest IH]; intros rq Hw Hs; cbn [update_all]; [by exists rq |].
  apply Forall_cons in Hs as [Ht Hs].
  destruct (update_rto_ok (E:=E) rq rtt Hw Ht) as (rq1 & -> & Hw1 & He1). cbn.
  destruct (IH rq1 Hw1 Hs) as (rq2 & -> & Hw2 & He2). exists rq2. by rewrite He2.
Qed.

(** ** Acknowledgement *)
Lemma List_filter_nil {A} (f : A -> bool) l :
  List.filter f l = [] <-> forall x, In x l -> f x = false.
Proof.
  induction l as [|a l IH]; cbn; [by split; [intros _ x [] |] |].
  destruct (f a) eqn:Ea; split; intros H.
  - done.
  - rewrite (H a) in Ea; [done | by left].
  - intros x [->|Hx]; [done | by apply IH].
  - apply IH. auto.
Qed.

Definition unacked (ack : Z) (e : RetransmitEntry) : bool := negb (fully_acked (entry_end e) ack).

(** The round-trip times of the entries the acknowledgement covers, those sent
    twice excepted. *)
Definition rtt_samples (l : list RetransmitEntry) (ack now : Z) : list Z :=
  map (fun e => duration_since now (e_sent_at e))
    (List.filter (fun e => negb (unacked ack e) && negb (e_retransmitted e)) l).

Lemma retain_unacked_spec l ack now :
  retain_unacked l ack now = (List.filter (unacked ack) l, rtt_samples l ack now).
Proof.
  induction l as [|e l IH]; [done |]. cbn [retain_unacked]. rewrite IH.
  unfold rtt_samples, unacked. cbn [List.filter map].
  destruct (fully_acked (entry_end e) ack); [|done]. cbn [negb andb].
  by destruct (e_retransmitted e).
Qed.

Lemma duration_since_ok now t : instant_ok now -> instant_ok t -> 0 <= duration_since now t < DURATION_MAX.
Proof. unfold instant_ok, duration_since. lia. Qed.

Lemma rtt_samples_ok l ack now :
  Forall entry_ok l -> instant_ok now ->
  Forall (fun rtt => 0 <= rtt < DURATION_MAX) (rtt_samples l ack now).
Proof.
  intros Hl Hn. unfold rtt_samples. apply Forall_map, List.Forall_forall.
  intros e [He _]%List.filter_In. apply List.Forall_forall with (x := e) in Hl; [|done].
  by apply duration_since_ok, Hl.
Qed.

Lemma len_filter {A} (f : A -> bool) l : len (List.filter f l) <= len l.
Proof. unfold len. pose proof (List.filter_length_le f l). lia. Qed.

Lemma Forall_filter_list {A} (P : A -> Prop) f l : Forall P l -> Forall P (List.filter f l).
Proof.
  rewrite !List.Forall_forall. intros H x [Hx _]%List.filter_In. by apply H.
Qed.

Lemma acknowledge_ok {E} rq ack now :
  rtq_wf rq -> instant_ok now ->
  exists rq', acknowledge_and_sample_rtt (E:=E) rq ack now = Ok rq' /\ rtq_wf rq' /\
    entries rq' = List.filter (unacked ack) (entries rq).
Proof.
  intros Hw Hn. unfold acknowledge_and_sample_rtt. rewrite retain_unacked_spec.
  destruct Hw as [Hl He Hr Hs Hv]. apply update_all_ok; [|by apply rtt_samples_ok].
  split; cbn; try done; [|by apply Forall_filter_list].
  pose proof (len_filter (unacked ack) (entries rq)). lia.
Qed.

(** ** Expiry *)
Definition due (now rto : Z) (e : RetransmitEntry) : bool :=
  rto <=? duration_since now (e_sent_at e).

Definition restamp (now : Z) (e : RetransmitEntry) : RetransmitEntry :=
  {| e_seq := e_seq e; e_data := e_data e; e_sent_at := now; e_retransmitted := true |}.

Lemma expire_spec l now rto :
  expire l now rto =
    (map (fun e => if due now rto e then restamp now e else e) l,
     map (fun e => (e_seq e, e_data e)) (List.filter (due now rto) l)).
Proof.
  induction l as [|e l IH]; [done |]. cbn [expire map List.filter]. rewrite IH.
  unfold due at 5 7. by destruct (rto <=? _).
Qed.

Lemma expired_ok {E} rq now :
  rtq_wf rq -> instant_ok now ->
  let es := map (fun e => if due now (rto rq) e then restamp now e else e) (entries rq) in
  let out := map (fun e => (e_seq e, e_data e)) (List.filter (due now (rto rq)) (entries rq)) in
  exists rq', expired_segments (E:=E) rq now = Ok (rq', out) /\ rtq_wf rq' /\ entries rq' = es /\
    rto rq' = (match out with [] => rto rq | _ => Z.min (2 * rto rq) MAX_RTO end) /\
    srtt rq' = srtt rq /\ rttvar rq' = rttvar rq.
Proof.
  intros [Hl He Hr Hs Hv] Hn es out. unfold expired_segments. rewrite expire_spec. fold es out.
  unfold duration_double.
  assert ((2 * rto rq <? DURATION_MAX) = true) as ->.
  { apply Z.ltb_lt. unfold MAX_RTO, from_secs, DURATION_MAX, NANOS_PER_SEC, U64 in *. lia. }
  assert (Hes : Forall entry_ok es).
  { apply Forall_map, (Forall_impl _ _ _ He). intros e [? ? ? ?].
    cbv beta. destruct (due now (rto rq) e); by split. }
  assert (Hle : len es <= RETRANSMIT_QUEUE_MAX) by (unfold es, len; rewrite length_map; exact Hl).
  unfold MIN_RTO, MAX_RTO, from_millis, from_secs, NANOS_PER_SEC in *.
  destruct out; cbn; (eexists; split; [reflexivity |]); cbn; (split; [|done]);
    split; cbn; try done; unfold MIN_RTO, MAX_RTO, from_millis, from_secs, NANOS_PER_SEC; lia.
Qed.

(** ** Histories *)
Inductive RtqOp : Type :=
  | RtqPush (seq : Z) (data : list Z) (now : Z)
  | RtqAck (ack now : Z)
  | RtqExpire (now : Z).

Definition rtq_step {E} (rq : RetransmitQueue) (op : RtqOp) : Res E RetransmitQueue :=
  match op with
  | RtqPush seq data now => mret (RetransmitQueue_push rq seq data now)
  | RtqAck ack now => acknowledge_and_sample_rtt rq ack now
  | RtqExpire now => '(rq', _) ← expired_segments rq now; mret rq'
  end.

Fixpoint rtq_run {E} (rq : RetransmitQueue) (ops : list RtqOp) : Res E RetransmitQueue :=
  match ops with
  | [] => mret rq
  | op :: rest => rq' ← rtq_step rq op; rtq_run rq' rest
  end.

(** Segments as the connection pushes them, and clock readings an [Instant] can have. *)
Definition rtq_op_ok (op : RtqOp) : Prop :=
  match op with
  | RtqPush seq data now => is_u32 seq /\ bytes_ok data /\ len data <= MSS /\ instant_ok now
  | RtqAck _ now | RtqExpire now => instant_ok now
  end.

Lemma rtq_step_ok {E} rq op :
  rtq_wf rq -> rtq_op_ok op -> exists rq', rtq_step (E:=E) rq op = Ok rq' /\ rtq_wf rq'.
Proof.
  intros Hw Ho. destruct op as [seq data now|ack now|now]; cbn [rtq_step rtq_op_ok] in *.
  - destruct Ho as (? & ? & ? & ?). eexists. split; [done |]. by apply rtq_wf_push.
  - destruct (acknowledge_ok (E:=E) rq ack now Hw Ho) as (rq' & -> & Hw' & _). by exists rq'.
  - destruct (expired_ok (E:=E) rq now Hw Ho) as (rq' & -> & Hw' & _). by exists rq'.
Qed.

(** C27. Whatever is pushed, acknowledged and timed out, and whatever round-trip
    times the clock makes of it (RTTVAR and SRTT are f64), the estimator never
    panics, the timeout stays between MIN_RTO and MAX_RTO and the queue never
    holds more than RETRANSMIT_QUEUE_MAX segments. *)
Theorem RetransmitQueue_rto_bounded ops :
  Forall rtq_op_ok ops ->
  exists rq, rtq_run (E:=Empty_set) RetransmitQueue_new ops = Ok rq /\
    MIN_RTO <= rto rq <= MAX_RTO /\ RetransmitQueue_len rq <= RETRANSMIT_QUEUE_MAX.
Proof.
  intros Ho. enough (H : forall rq, rtq_wf rq -> exists rq',
    rtq_run (E:=Empty_set) rq ops = Ok rq' /\ rtq_wf rq').
  { destruct (H _ rtq_wf_new) as (rq & E & [Hl _ Hr _ _]). by exists rq. }
  induction Ho as [|op ops Hop _ IH]; intros rq Hw; cbn [rtq_run]; [by exists rq |].
  destruct (rtq_step_ok (E:=Empty_set) rq op Hw Hop) as (rq1 & -> & Hw1). cbn. by apply IH.
Qed.

Definition rtq_trace : list RtqOp :=
  [RtqPush 1000 [1; 2; 3] 0; RtqPush 1003 [4] 5; RtqAck 1003 300000000; RtqExpire 2000000000;
   RtqAck 1004 3000000000].

Lemma RetransmitQueue_rto_bounded_witness :
  exists rq, rtq_run (E:=Empty_set) RetransmitQueue_new rtq_trace = Ok rq /\
    MIN_RTO <= rto rq <= MAX_RTO /\ RetransmitQueue_len rq <= RETRANSMIT_QUEUE_MAX.
Proof.
  apply (RetransmitQueue_rto_bounded rtq_trace). unfold rtq_trace.
  repeat constructor; vm_compute; congruence.
Defined.

(** The values of that history: 0.9 s after one sample of 0.3 s, doubled by the
    expiry, and not sampled again from the segment sent twice. *)
Example rtq_trace_rto :
  (rq ← rtq_run (E:=Empty_set) RetransmitQueue_new rtq_trace; mret (rto rq, entries rq))
  = Ok (1800000000, []).
Proof. vm_compute. reflexivity. Qed.

(** C28. Karn's rule (RFC 6298, section 4): when every segment that an
    acknowledgement covers was sent more than once, the acknowledgement removes
    them and leaves the timeout and the estimator as they were. *)
Theorem RetransmitQueue_karn (rq : RetransmitQueue) ack now :
  (forall e, In e (entries rq) -> fully_acked (entry_end e) ack = true -> e_retransmitted e = true) ->
  acknowledge_and_sample_rtt (E:=Empty_set) rq ack now =
    Ok {| entries := List.filter (unacked ack) (entries rq);
          rto := rto rq; srtt := srtt rq; rttvar := rttvar rq |}.
Proof.
  intros H. unfold acknowledge_and_sample_rtt. rewrite retain_unacked_spec.
  assert (rtt_samples (entries rq) ack now = []) as ->; [|done].
  unfold rtt_samples. rewrite (proj2 (List_filter_nil _ _)); [done |]. intros e He. unfold unacked.
  destruct (fully_acked (entry_end e) ack) eqn:Ea; [|done]. by rewrite (H e He Ea).
Qed.

Lemma RetransmitQueue_karn_witness :
  acknowledge_and_sample_rtt (E:=Empty_set)
    {| entries := [mkRetransmitEntry 10 [7; 8] 4 true; mkRetransmitEntry 12 [9] 5 false];
       rto := 2000000000; srtt := None; rttvar := f64_0 |} 12 999 =
    Ok {| entries := [mkRetransmitEntry 12 [9] 5 false];
          rto := 2000000000; srtt := None; rttvar := f64_0 |}.
Proof.
  apply (RetransmitQueue_karn
    {| entries := [mkRetransmitEntry 10 [7; 8] 4 true; mkRetransmitEntry 12 [9] 5 false];
       rto := 2000000000; srtt := None; rttvar := f64_0 |}).
  intros e [<-|[<-|[]]]; [reflexivity | vm_compute; discriminate].
Defined.

(** The segment's place in the byte stream that started after [iss]. *)
Definition placed (iss : Z) (p : RetransmitEntry * Z) : Prop :=
  e_seq (fst p) = seq_of iss (snd p).

Lemma entry_end_placed iss e off : placed iss (e, off) -> entry_end e = seq_of iss (off + len (e_data e)).
Proof. unfold placed, entry_end. cbn. intros ->. apply seq_of_add. Qed.

Lemma unacked_placed iss e off a :
  placed iss (e, off) -> -2147483648 < a - (off + len (e_data e)) < 2147483648 ->
  unacked (seq_of iss a) e = (a <? off + len (e_data e)).
Proof.
  intros Hp Ha. unfold unacked, fully_acked. rewrite (entry_end_placed _ _ _ Hp).
  unfold seq_of. rewrite seq_le_offset by lia. rewrite Z.leb_antisym. by rewrite negb_involutive.
Qed.

(** Cumulative acknowledgement: when the queue holds segments at known places
    of a byte stream and the acknowledgement number is that of byte [a], all
    within half the sequence space, exactly the segments that end at or before
    byte [a] leave the queue, in order, whatever the wrap-around of the 32-bit
    numbers; those that remain are the segments not wholly acknowledged. *)
Theorem RetransmitQueue_removes_covered iss a now rq (offs : list Z) :
  rtq_wf rq -> instant_ok now -> length offs = length (entries rq) ->
  Forall (fun p => placed iss p /\
            -2147483648 < a - (snd p + len (e_data (fst p))) < 2147483648) (zip (entries rq) offs) ->
  exists rq', acknowledge_and_sample_rtt (E:=Empty_set) rq (seq_of iss a) now = Ok rq' /\
    entries rq' =
      map fst (List.filter (fun p => a <? snd p + len (e_data (fst p))) (zip (entries rq) offs)).
Proof.
  intros Hw Hn Hl Hp.
  destruct (acknowledge_ok (E:=Empty_set) rq (seq_of iss a) now Hw Hn) as (rq' & E & _ & He).
  exists rq'. split; [done |]. rewrite He. clear -Hl Hp. revert offs Hl Hp.
  induction (entries rq) as [|e es IH]; intros [|o offs] Hl Hp; try done.
  cbn [zip zip_with] in Hp. apply Forall_cons in Hp as [[Hp1 Ha] Hp].
  cbn [zip zip_with List.filter fst snd] in *. rewrite (unacked_placed _ _ _ _ Hp1 Ha).
  rewrite (IH offs) by (cbn in Hl; congruence || done). by destruct (a <? _).
Qed.

(** Two segments of a stream whose numbers wrap around: bytes 0-2 and 3-4 after
    the initial number 2^32 - 3. *)
Definition wrap_queue : RetransmitQueue :=
  {| entries := [mkRetransmitEntry 4294967294 [1; 2; 3] 0 false; mkRetransmitEntry 1 [4; 5] 0 false];
     rto := INITIAL_RTO; srtt := None; rttvar := f64_0 |}.

Lemma wrap_queue_wf : rtq_wf wrap_queue.
Proof.
  split; [by vm_compute | | by vm_compute | done | done].
  repeat constructor; vm_compute; congruence.
Qed.

Lemma RetransmitQueue_removes_covered_witness :
  exists rq', acknowledge_and_sample_rtt (E:=Empty_set) wrap_queue (seq_of 4294967293 4) 7 = Ok rq' /\
    entries rq' =
      map fst (List.filter (fun p => 4 <? snd p + len (e_data (fst p))) (zip (entries wrap_queue) [0; 3])).
Proof.
  apply (RetransmitQueue_removes_covered 4294967293 4 7 wrap_queue [0; 3]).
  - exact wrap_queue_wf.
  - vm_compute. split; congruence.
  - reflexivity.
  - repeat constructor; vm_compute; congruence.
Defined.

(** A timeout: the segments returned are exactly those that have waited for
    the timeout, oldest first, unchanged; each is marked as sent twice and is not
    due again before the new timeout has run from [now]; a timeout doubles, up to
    MAX_RTO, if and only if something was returned, and no other segment of the
    queue is touched. *)
Theorem RetransmitQueue_expiry_backoff rq now :
  rtq_wf rq -> instant_ok now ->
  exists rq' out, expired_segments (E:=Empty_set) rq now = Ok (rq', out) /\
    out = map (fun e => (e_seq e, e_data e)) (List.filter (due now (rto rq)) (entries rq)) /\
    rto rq' = (if bool_decide (out = []) then rto rq else Z.min (2 * rto rq) MAX_RTO) /\
    Forall2 (fun e e' =>
      e_seq e' = e_seq e /\ e_data e' = e_data e /\
      if due now (rto rq) e
      then e_retransmitted e' = true /\
           (forall t, now <= t < now + rto rq' -> due t (rto rq') e' = false)
      else e' = e) (entries rq) (entries rq').
Proof.
  intros Hw Hn.
  destruct (expired_ok (E:=Empty_set) rq now Hw Hn) as (rq' & E & Hw' & He & Hr & _).
  eexists _, _. split; [exact E |]. split; [done |]. split.
  { rewrite Hr. by destruct (map _ (List.filter _ _)). }
  rewrite He. apply Forall2_fmap_r, Forall_Forall2_diag, Forall_true. intros e. cbn.
  destruct (due now (rto rq) e) eqn:Ed; [|done]. repeat split; try done.
  intros t Ht. unfold due, duration_since. cbn. apply Z.leb_gt. lia.
Qed.

Lemma RetransmitQueue_expiry_backoff_witness :
  exists rq' out, expired_segments (E:=Empty_set) wrap_queue 1000000000 = Ok (rq', out) /\
    out = map (fun e => (e_seq e, e_data e))
      (List.filter (due 1000000000 (rto wrap_queue)) (entries wrap_queue)) /\
    rto rq' = (if bool_decide (out = []) then rto wrap_queue
               else Z.min (2 * rto wrap_queue) MAX_RTO) /\
    Forall2 (fun e e' =>
      e_seq e' = e_seq e /\ e_data e' = e_data e /\
      if due 1000000000 (rto wrap_queue) e
      then e_retransmitted e' = true /\
           (forall t, 1000000000 <= t < 1000000000 + rto rq' -> due t (rto rq') e' = false)
      else e' = e) (entries wrap_queue) (entries rq').
Proof.
  apply (RetransmitQueue_expiry_backoff wrap_queue 1000000000).
  - exact wrap_queue_wf.
  - vm_compute. split; congruence.
Defined.
