(* ===== verification/Connection.v ===== *)
(** * The connection (src/magnum-tcp/src/tcp/connection.rs)

    One TCP connection: the control block, the two buffers and the retransmission
    queue, the handler of every state, the sender's side (data, retransmissions,
    FIN, SYN, window probe) and the 2MSL timer. Every method is a function of the
    connection; a call of [Instant::now] is an argument (record [Clock] for the
    handlers, which read the clock at two places). *)
From S2P Require Import Prelude Errors Tcb Ipv4 Header SendBuffer RecvBuffer Float64 Retransmit.

Definition TWO_MSL : Z := from_secs 60.

Record Connection := mkConnection {
  tcb : Tcb;
  send_buf : SendBuffer;
  recv_buf : option RecvBuffer;
  retransmit_queue : RetransmitQueue;
  time_wait_start : option Z }.

(** What [Instant::now] returns in [acknowledge_and_sample_rtt] and at the entry
    into TIME_WAIT. *)
Record Clock := mkClock { clock_ack : Z; clock_tw : Z }.

Definition Connection_new (t : Tcb) : Connection :=
  {| tcb := t; send_buf := SendBuffer_new (snd_iss (tcb_snd t)); recv_buf := None;
     retransmit_queue := RetransmitQueue_new; time_wait_start := None |}.

(** ** Assignments to fields *)
Definition with_tcb (f : Tcb -> Tcb) (c : Connection) : Connection :=
  {| tcb := f (tcb c); send_buf := send_buf c; recv_buf := recv_buf c;
     retransmit_queue := retransmit_queue c; time_wait_start := time_wait_start c |}.
Definition set_send_buf (sb : SendBuffer) (c : Connection) : Connection :=
  {| tcb := tcb c; send_buf := sb; recv_buf := recv_buf c;
     retransmit_queue := retransmit_queue c; time_wait_start := time_wait_start c |}.
Definition set_recv_buf (rb : option RecvBuffer) (c : Connection) : Connection :=
  {| tcb := tcb c; send_buf := send_buf c; recv_buf := rb;
     retransmit_queue := retransmit_queue c; time_wait_start := time_wait_start c |}.
Definition set_retransmit_queue (rq : RetransmitQueue) (c : Connection) : Connection :=
  {| tcb := tcb c; send_buf := send_buf c; recv_buf := recv_buf c;
     retransmit_queue := rq; time_wait_start := time_wait_start c |}.
Definition set_time_wait_start (t : option Z) (c : Connection) : Connection :=
  {| tcb := tcb c; send_buf := send_buf c; recv_buf := recv_buf c;
     retransmit_queue := retransmit_queue c; time_wait_start := t |}.

Definition tcb_with_snd (f : SendSequence -> SendSequence) (t : Tcb) : Tcb :=
  {| state := state t; local_ip := local_ip t; local_port := local_port t;
     remote_ip := remote_ip t; remote_port := remote_port t; tcb_snd := f (tcb_snd t);
     tcb_rcv := tcb_rcv t; cwnd := cwnd t; ssthresh := ssthresh t;
     dup_ack_count := dup_ack_count t |}.
Definition tcb_with_rcv (f : RecvSequence -> RecvSequence) (t : Tcb) : Tcb :=
  {| state := state t; local_ip := local_ip t; local_port := local_port t;
     remote_ip := remote_ip t; remote_port := remote_port t; tcb_snd := tcb_snd t;
     tcb_rcv := f (tcb_rcv t); cwnd := cwnd t; ssthresh := ssthresh t;
     dup_ack_count := dup_ack_count t |}.

Definition set_state (st : TcbState) : Connection -> Connection := with_tcb (fun t =>
  {| state := st; local_ip := local_ip t; local_port := local_port t;
     remote_ip := remote_ip t; remote_port := remote_port t; tcb_snd := tcb_snd t;
     tcb_rcv := tcb_rcv t; cwnd := cwnd t; ssthresh := ssthresh t;
     dup_ack_count := dup_ack_count t |}).
Definition set_cwnd (w : Z) : Connection -> Connection := with_tcb (fun t =>
  {| state := state t; local_ip := local_ip t; local_port := local_port t;
     remote_ip := remote_ip t; remote_port := remote_port t; tcb_snd := tcb_snd t;
     tcb_rcv := tcb_rcv t; cwnd := w; ssthresh := ssthresh t;
     dup_ack_count := dup_ack_count t |}).
Definition set_ssthresh (w : Z) : Connection -> Connection := with_tcb (fun t =>
  {| state := state t; local_ip := local_ip t; local_port := local_port t;
     remote_ip := remote_ip t; remote_port := remote_port t; tcb_snd := tcb_snd t;
     tcb_rcv := tcb_rcv t; cwnd := cwnd t; ssthresh := w;
     dup_ack_count := dup_ack_count t |}).
Definition set_dup_ack_count (n : Z) : Connection -> Connection := with_tcb (fun t =>
  {| state := state t; local_ip := local_ip t; local_port := local_port t;
     remote_ip := remote_ip t; remote_port := remote_port t; tcb_snd := tcb_snd t;
     tcb_rcv := tcb_rcv t; cwnd := cwnd t; ssthresh := ssthresh t;
     dup_ack_count := n |}).

Definition set_snd_una (x : Z) : Connection -> Connection := with_tcb (tcb_with_snd (fun s =>
  {| snd_una := x; snd_nxt := snd_nxt s; snd_wnd := snd_wnd s; snd_iss := snd_iss s |})).
Definition set_snd_nxt (x : Z) : Connection -> Connection := with_tcb (tcb_with_snd (fun s =>
  {| snd_una := snd_una s; snd_nxt := x; snd_wnd := snd_wnd s; snd_iss := snd_iss s |})).
Definition set_snd_wnd (x : Z) : Connection -> Connection := with_tcb (tcb_with_snd (fun s =>
  {| snd_una := snd_una s; snd_nxt := snd_nxt s; snd_wnd := x; snd_iss := snd_iss s |})).
Definition set_rcv_nxt (x : Z) : Connection -> Connection := with_tcb (tcb_with_rcv (fun r =>
  {| rcv_nxt := x; rcv_wnd := rcv_wnd r; rcv_irs := rcv_irs r |})).
Definition set_rcv_wnd (x : Z) : Connection -> Connection := with_tcb (tcb_with_rcv (fun r =>
  {| rcv_nxt := rcv_nxt r; rcv_wnd := x; rcv_irs := rcv_irs r |})).
Definition set_rcv_irs (x : Z) : Connection -> Connection := with_tcb (tcb_with_rcv (fun r =>
  {| rcv_nxt := rcv_nxt r; rcv_wnd := rcv_wnd r; rcv_irs := x |})).

(** [self.tcb.snd.una] and the like. *)
Abbreviation una c := (snd_una (tcb_snd (tcb c))).
Abbreviation nxt c := (snd_nxt (tcb_snd (tcb c))).
Abbreviation wnd c := (snd_wnd (tcb_snd (tcb c))).
Abbreviation iss c := (snd_iss (tcb_snd (tcb c))).
Abbreviation rnxt c := (rcv_nxt (tcb_rcv (tcb c))).
Abbreviation irs c := (rcv_irs (tcb_rcv (tcb c))).
Abbreviation st c := (state (tcb c)).
Abbreviation cw c := (cwnd (tcb c)).
Abbreviation dups c := (dup_ack_count (tcb c)).
Abbreviation sst c := (ssthresh (tcb c)).

(** u32 addition and division that panic. *)
Definition u32_add {E} (a b : Z) : Res E Z := if a + b <? U32 then Ok (a + b) else Panic.
Definition u32_div {E} (a b : Z) : Res E Z := if b =? 0 then Panic else Ok (a / b).

(** ** Segments sent *)
Definition current_window (c : Connection) : Z :=
  match recv_buf c with Some rb => RecvBuffer_window rb | None => 65535 end.

Definition F_ACK : TcpFlags := mkTcpFlags false true false false false false.
Definition F_PSH_ACK : TcpFlags := mkTcpFlags false true true false false false.
Definition F_RST : TcpFlags := mkTcpFlags false false false true false false.
Definition F_SYN : TcpFlags := mkTcpFlags false false false false true false.
Definition F_SYN_ACK : TcpFlags := mkTcpFlags false true false false true false.
Definition F_FIN_ACK : TcpFlags := mkTcpFlags false true false false false true.

(** [SegmentBuilder::new(self.tcb.local_ip, ..)], with which every segment starts. *)
Definition builder (c : Connection) : SegmentBuilder :=
  SegmentBuilder_new (local_ip (tcb c)) (remote_ip (tcb c)) (local_port (tcb c))
    (remote_port (tcb c)).

Definition data_builder (c : Connection) (fl : TcpFlags) (seq : Z) (pl : list Z) : SegmentBuilder :=
  SegmentBuilder_payload pl (SegmentBuilder_window (current_window c)
    (SegmentBuilder_flags fl (SegmentBuilder_ack (rnxt c) (SegmentBuilder_seq seq (builder c))))).
Definition ctl_builder (c : Connection) (fl : TcpFlags) (seq : Z) : SegmentBuilder :=
  SegmentBuilder_window (current_window c)
    (SegmentBuilder_flags fl (SegmentBuilder_ack (rnxt c) (SegmentBuilder_seq seq (builder c)))).

Definition build_syn (c : Connection) : list Z :=
  SegmentBuilder_build (SegmentBuilder_flags F_SYN (SegmentBuilder_seq (iss c) (builder c))).
Definition build_syn_ack (c : Connection) : list Z :=
  SegmentBuilder_build (ctl_builder c F_SYN_ACK (iss c)).
Definition build_ack (c : Connection) : list Z :=
  SegmentBuilder_build (ctl_builder c F_ACK (nxt c)).
Definition build_fin_ack (c : Connection) : list Z :=
  SegmentBuilder_build (ctl_builder c F_FIN_ACK (nxt c)).
Definition build_rst (c : Connection) (seq : Z) : list Z :=
  SegmentBuilder_build (SegmentBuilder_flags F_RST (SegmentBuilder_seq seq (builder c))).

Definition fast_retransmit_segment (c : Connection) : option (list Z) :=
  match first_unacked (retransmit_queue c) with
  | None => None
  | Some (seq, pl) => Some (SegmentBuilder_build (data_builder c F_PSH_ACK seq pl))
  end.

(** ** Handlers, one per state

    The outcome of [process_segment]: the connection afterwards and the response. *)
Abbreviation Outcome := (Result (Connection * option (list Z))).

Definition handle_listen (c : Connection) (seg : TcpSegment) : Outcome :=
  let h := header seg in
  if flag_rst (flags h) then Ok (c, None)
  else if flag_ack (flags h) then Ok (c, Some (build_rst c (ack_num h)))
  else if negb (flag_syn (flags h)) then Ok (c, None)
  else
    let c := set_recv_buf (Some (RecvBuffer_new (seq_num h))) c in
    let c := set_rcv_irs (seq_num h) c in
    let c := set_rcv_nxt (wrapping_add (seq_num h) 1) c in
    let c := set_rcv_wnd (window h) c in
    let c := set_snd_nxt (wrapping_add (iss c) 1) c in
    let c := set_state SynReceived c in
    Ok (c, Some (build_syn_ack c)).

Definition handle_syn_sent (c : Connection) (seg : TcpSegment) : Outcome :=
  let h := header seg in
  if flag_rst (flags h) then Ok (set_state Closed c, None)
  else if (flag_syn (flags h) && flag_ack (flags h))%bool then
    if negb (ack_acceptable (una c) (ack_num h) (nxt c))
    then Ok (c, Some (build_rst c (ack_num h)))
    else
      let c := set_snd_una (ack_num h) c in
      let c := set_snd_wnd (window h) c in
      let c := set_rcv_irs (seq_num h) c in
      let c := set_rcv_nxt (wrapping_add (seq_num h) 1) c in
      let c := set_recv_buf (Some (RecvBuffer_new (seq_num h))) c in
      let c := set_state Established c in
      Ok (c, Some (build_ack c))
  else if flag_syn (flags h) then
    let c := set_rcv_irs (seq_num h) c in
    let c := set_rcv_nxt (wrapping_add (seq_num h) 1) c in
    let c := set_recv_buf (Some (RecvBuffer_new (seq_num h))) c in
    let c := set_snd_wnd (window h) c in
    let c := set_state SynReceived c in
    Ok (c, Some (build_syn_ack c))
  else Ok (c, None).

Definition handle_syn_received (c : Connection) (seg : TcpSegment) : Outcome :=
  let h := header seg in
  if flag_rst (flags h) then Ok (set_state Listen c, None)
  else if (flag_syn (flags h) && negb (flag_ack (flags h)) && (seq_num h =? irs c))%bool
  then Ok (c, Some (build_syn_ack c))
  else if negb (flag_ack (flags h)) then Ok (c, None)
  else if negb (ack_acceptable (una c) (ack_num h) (nxt c))
  then Ok (c, Some (build_rst c (ack_num h)))
  else
    let c := set_snd_una (ack_num h) c in
    let c := set_send_buf (SendBuffer_acknowledge (send_buf c) (ack_num h)) c in
    let c := set_snd_wnd (window h) c in
    let c := set_state Established c in
    Ok (c, None).

(** RFC 5681, section 3.1, on [bytes_acked] newly acknowledged bytes. *)
Definition grow_cwnd (c : Connection) (bytes_acked : Z) : Result Connection :=
  if cw c <? sst c
  then Ok (set_cwnd (saturating_add_u32 (cw c) (Z.min bytes_acked MSS)) c)
  else q ← u32_div (MSS * MSS) (cw c); Ok (set_cwnd (saturating_add_u32 (cw c) q) c).

(** The third duplicate acknowledgement. *)
Definition enter_fast_recovery (c : Connection) : Result Connection :=
  let c := set_ssthresh (Z.max (cw c / 2) (2 * MSS)) c in
  w ← u32_add (sst c) (3 * MSS);
  Ok (set_cwnd w c).

(** The [if seg.header.flags.ack] block of [handle_established]; the response is
    there when the block returns early. *)
Definition established_ack (c : Connection) (clk : Clock) (seg : TcpSegment) : Outcome :=
  let h := header seg in
  let new_ack := ack_num h in
  if ack_acceptable (una c) new_ack (nxt c) then
    let bytes_acked := wrapping_sub new_ack (una c) in
    c ← grow_cwnd c bytes_acked;
    let c := set_snd_una new_ack c in
    let c := set_send_buf (SendBuffer_acknowledge (send_buf c) new_ack) c in
    rq ← acknowledge_and_sample_rtt (retransmit_queue c) new_ack (clock_ack clk);
    let c := set_retransmit_queue rq c in
    let c := set_snd_wnd (window h) c in
    let c := set_dup_ack_count 0 c in
    Ok (c, None)
  else if ((new_ack =? una c) && negb (una c =? nxt c))%bool then
    let c := set_dup_ack_count (saturating_add_u8 (dups c) 1) c in
    if dups c =? 3 then
      c ← enter_fast_recovery c;
      Ok (c, fast_retransmit_segment c)
    else if 3 <? dups c then Ok (set_cwnd (saturating_add_u32 (cw c) MSS) c, None)
    else Ok (c, None)
  else Ok (c, None).

(** [rb.insert(..); self.tcb.rcv.nxt = rb.next_expected()] *)
Definition receive_payload (c : Connection) (seg : TcpSegment) : Connection :=
  match recv_buf c with
  | None => c
  | Some rb =>
      let rb := RecvBuffer_insert rb (seq_num (header seg)) (payload seg) in
      let c := set_recv_buf (Some rb) c in
      set_rcv_nxt (RecvBuffer_next_expected rb) c
  end.

(** [seg.header.seq.wrapping_add(seg.payload.len() as u32).wrapping_add(1)] *)
Definition after_fin (seg : TcpSegment) : Z :=
  wrapping_add (wrapping_add (seq_num (header seg)) (as_u32 (len (payload seg)))) 1.

(** The rest of [handle_established]: payload and FIN. *)
Definition established_data (c : Connection) (seg : TcpSegment) : Outcome :=
  let h := header seg in
  let has_payload := negb (len (payload seg) =? 0) in
  let c := if has_payload then receive_payload c seg else c in
  if (has_payload && negb (flag_fin (flags h)))%bool then Ok (c, Some (build_ack c))
  else if flag_fin (flags h) then
    let c := set_rcv_nxt (after_fin seg) c in
    let c := set_state CloseWait c in
    Ok (c, Some (build_ack c))
  else Ok (c, None).

Definition handle_established (c : Connection) (clk : Clock) (seg : TcpSegment) : Outcome :=
  if flag_rst (flags (header seg)) then Ok (set_state Closed c, None)
  else
    '(c, early) ← (if flag_ack (flags (header seg)) then established_ack c clk seg
                   else Ok (c, None));
    match early with
    | Some r => Ok (c, Some r)
    | None => established_data c seg
    end.

Definition handle_close_wait (c : Connection) (seg : TcpSegment) : Outcome :=
  if flag_rst (flags (header seg)) then Ok (set_state Closed c, None) else Ok (c, None).

Definition handle_fin_wait_1 (c : Connection) (clk : Clock) (seg : TcpSegment) : Outcome :=
  let h := header seg in
  let on_fin (c : Connection) : Outcome :=
    if flag_fin (flags h) then
      let c := set_rcv_nxt (after_fin seg) c in
      let c := set_state Closing c in
      Ok (c, Some (build_ack c))
    else Ok (c, None) in
  if flag_rst (flags h) then Ok (set_state Closed c, None)
  else if (flag_ack (flags h) && ack_acceptable (una c) (ack_num h) (nxt c))%bool then
    let fin_acked := seq_le (nxt c) (ack_num h) in
    let c := set_snd_una (ack_num h) c in
    let c := set_send_buf (SendBuffer_acknowledge (send_buf c) (ack_num h)) c in
    rq ← acknowledge_and_sample_rtt (retransmit_queue c) (ack_num h) (clock_ack clk);
    let c := set_retransmit_queue rq c in
    let c := set_snd_wnd (window h) c in
    if (fin_acked && flag_fin (flags h))%bool then
      let c := set_rcv_nxt (after_fin seg) c in
      let c := set_state TimeWait c in
      let c := set_time_wait_start (Some (clock_tw clk)) c in
      Ok (c, Some (build_ack c))
    else if fin_acked then Ok (set_state FinWait2 c, None)
    else on_fin c
  else on_fin c.

Definition handle_fin_wait_2 (c : Connection) (clk : Clock) (seg : TcpSegment) : Outcome :=
  if flag_rst (flags (header seg)) then Ok (set_state Closed c, None)
  else if flag_fin (flags (header seg)) then
    let c := set_rcv_nxt (after_fin seg) c in
    let c := set_state TimeWait c in
    let c := set_time_wait_start (Some (clock_tw clk)) c in
    Ok (c, Some (build_ack c))
  else Ok (c, None).

Definition handle_closing (c : Connection) (clk : Clock) (seg : TcpSegment) : Outcome :=
  let h := header seg in
  if flag_rst (flags h) then Ok (set_state Closed c, None)
  else if (flag_ack (flags h) && ack_acceptable (una c) (ack_num h) (nxt c))%bool then
    let c := set_snd_una (ack_num h) c in
    let c := set_state TimeWait c in
    let c := set_time_wait_start (Some (clock_tw clk)) c in
    Ok (c, None)
  else Ok (c, None).

Definition handle_last_ack (c : Connection) (seg : TcpSegment) : Outcome :=
  let h := header seg in
  if flag_rst (flags h) then Ok (set_state Closed c, None)
  else if (flag_ack (flags h) && ack_acceptable (una c) (ack_num h) (nxt c))%bool then
    let c := set_snd_una (ack_num h) c in
    Ok (set_state Closed c, None)
  else Ok (c, None).

Definition handle_time_wait (c : Connection) (seg : TcpSegment) : Outcome :=
  if flag_fin (flags (header seg)) then Ok (c, Some (build_ack c)) else Ok (c, None).

Definition process_segment (c : Connection) (clk : Clock) (seg : TcpSegment) : Outcome :=
  match st c with
  | Listen => handle_listen c seg
  | SynReceived => handle_syn_received c seg
  | Established => handle_established c clk seg
  | CloseWait => handle_close_wait c seg
  | FinWait1 => handle_fin_wait_1 c clk seg
  | FinWait2 => handle_fin_wait_2 c clk seg
  | Closing => handle_closing c clk seg
  | LastAck => handle_last_ack c seg
  | TimeWait => handle_time_wait c seg
  | SynSent => handle_syn_sent c seg
  | Closed => Ok (c, None)
  end.

(** ** The application's and the timers' side *)
Definition write_data (c : Connection) (data : list Z) : Connection * Z :=
  let '(sb, n) := SendBuffer_write (send_buf c) data in (set_send_buf sb c, n).

Definition next_segment_to_send (c : Connection) (max_payload now : Z)
  : Connection * option (list Z) :=
  let snd_wnd := as_u32 (wnd c) in
  let effective_window := Z.min (cw c) snd_wnd in
  let inflight := wrapping_sub (nxt c) (una c) in
  if effective_window <=? inflight then (c, None)
  else
    let window_avail := effective_window - inflight in
    let max_len := Z.min max_payload window_avail in
    match SendBuffer_next_segment (send_buf c) max_len with
    | None => (c, None)
    | Some (seq, pl) =>
        let n := len pl in
        let c := set_send_buf (SendBuffer_advance_nxt (send_buf c) n) c in
        let c := set_retransmit_queue
                   (RetransmitQueue_push (retransmit_queue c) seq pl now) c in
        let c := set_snd_nxt (s_nxt (send_buf c)) c in
        (c, Some (SegmentBuilder_build (data_builder c F_PSH_ACK seq pl)))
    end.

(** The caller's buffer is returned with what [read] put into it. *)
Definition read_received (c : Connection) (buf : list Z) : Connection * list Z * Z :=
  match recv_buf c with
  | None => (c, buf, 0)
  | Some rb =>
      let '(rb', buf', n) := RecvBuffer_read rb buf in (set_recv_buf (Some rb') c, buf', n)
  end.

Definition received_available (c : Connection) : Z :=
  match recv_buf c with Some rb => RecvBuffer_available rb | None => 0 end.

Definition take_retransmits (c : Connection) (now : Z) : Result (Connection * list (list Z)) :=
  '(rq, expired) ← expired_segments (retransmit_queue c) now;
  let c := set_retransmit_queue rq c in
  let c :=
    match expired with
    | [] => c
    | _ =>
        let c := set_ssthresh (Z.max (cw c / 2) (2 * MSS)) c in
        set_cwnd MSS c
    end in
  Ok (c, map (fun '(seq, pl) => SegmentBuilder_build (data_builder c F_PSH_ACK seq pl)) expired).

Definition initiate_close (c : Connection) : Connection * option (list Z) :=
  match st c with
  | Established =>
      let fin := build_fin_ack c in
      let c := set_snd_nxt (wrapping_add (nxt c) 1) c in
      (set_state FinWait1 c, Some fin)
  | CloseWait =>
      let fin := build_fin_ack c in
      let c := set_snd_nxt (wrapping_add (nxt c) 1) c in
      (set_state LastAck c, Some fin)
  | _ => (c, None)
  end.

Definition tick_time_wait (c : Connection) (now : Z) : Connection * bool :=
  if negb (state_eqb (st c) TimeWait) then (c, false)
  else
    match time_wait_start c with
    | Some start =>
        if TWO_MSL <=? duration_since now start then (set_state Closed c, true) else (c, false)
    | None => (c, false)
    end.

Definition connect (c : Connection) : Connection * option (list Z) :=
  if negb (state_eqb (st c) Closed) then (c, None)
  else
    let syn := build_syn c in
    let c := set_snd_nxt (wrapping_add (iss c) 1) c in
    (set_state SynSent c, Some syn).

Definition zero_window_probe (c : Connection) : Connection * option (list Z) :=
  if (negb (state_eqb (st c) Established) || negb (wnd c =? 0))%bool then (c, None)
  else
    match SendBuffer_next_segment (send_buf c) 1 with
    | None => (c, None)
    | Some (seq, pl) =>
        let c := set_send_buf (SendBuffer_advance_nxt (send_buf c) 1) c in
        let c := set_snd_nxt (s_nxt (send_buf c)) c in
        (c, Some (SegmentBuilder_build (data_builder c F_ACK seq pl)))
    end.

(** ** Events

    Everything that can happen to a connection, and what it puts on the wire. *)
Inductive Event : Type :=
  | EvSegment (clk : Clock) (seg : TcpSegment)
  | EvWrite (data : list Z)
  | EvSend (max_payload now : Z)
  | EvRead (buf : list Z)
  | EvRetransmit (now : Z)
  | EvClose
  | EvTick (now : Z)
  | EvConnect
  | EvProbe.

Definition opt_list {A} (o : option A) : list A :=
  match o with Some a => [a] | None => [] end.

Definition conn_step (c : Connection) (ev : Event) : Result (Connection * list (list Z)) :=
  match ev with
  | EvSegment clk seg => '(c, r) ← process_segment c clk seg; Ok (c, opt_list r)
  | EvWrite data => Ok (fst (write_data c data), [])
  | EvSend max_payload now =>
      let '(c, r) := next_segment_to_send c max_payload now in Ok (c, opt_list r)
  | EvRead buf => Ok (fst (fst (read_received c buf)), [])
  | EvRetransmit now => take_retransmits c now
  | EvClose => let '(c, r) := initiate_close c in Ok (c, opt_list r)
  | EvTick now => Ok (fst (tick_time_wait c now), [])
  | EvConnect => let '(c, r) := connect c in Ok (c, opt_list r)
  | EvProbe => let '(c, r) := zero_window_probe c in Ok (c, opt_list r)
  end.

Fixpoint conn_run (c : Connection) (evs : list Event) : Result (Connection * list (list Z)) :=
  match evs with
  | [] => Ok (c, [])
  | ev :: rest =>
      '(c1, out) ← conn_step c ev;
      '(c2, outs) ← conn_run c1 rest;
      Ok (c2, out ++ outs)
  end.

(** ** Invariant *)
Record conn_inv (c : Connection) : Prop := {
  ci_lip : ip_ok (local_ip (tcb c));
  ci_rip : ip_ok (remote_ip (tcb c));
  ci_lport : is_u16 (local_port (tcb c));
  ci_rport : is_u16 (remote_port (tcb c));
  ci_una : is_u32 (una c);
  ci_nxt : is_u32 (nxt c);
  ci_iss : is_u32 (iss c);
  ci_wnd : is_u16 (wnd c);
  ci_rnxt : is_u32 (rnxt c);
  ci_cwnd : MSS <= cw c < U32;
  ci_ssthresh : 2 * MSS <= sst c < U32;
  ci_dups : is_u8 (dups c);
  ci_send : send_wf (send_buf c);
  ci_bytes : bytes_ok (s_contents (send_buf c));
  ci_recv : match recv_buf c with Some rb => recv_wf rb | None => True end;
  ci_rbytes : match recv_buf c with Some rb => recv_bytes rb | None => True end;
  ci_rtq : rtq_wf (retransmit_queue c);
  ci_tw : st c = TimeWait -> is_Some (time_wait_start c);
  ci_sync : match st c with
            | Listen | SynSent | Closed => True
            | _ => is_Some (recv_buf c)
            end }.

Definition seg_ok (seg : TcpSegment) : Prop :=
  is_u32 (seq_num (header seg)) /\ is_u32 (ack_num (header seg)) /\ is_u16 (window (header seg)) /\
  bytes_ok (payload seg).

(** A concrete segment or clock. *)
Ltac seg_ok_tac := repeat split; first [by vm_compute | cbn; bytes_tac].

Definition clock_ok (clk : Clock) : Prop := instant_ok (clock_ack clk) /\ instant_ok (clock_tw clk).

(** A connection of the constructors of tcb.rs. *)
Record fresh_tcb (t : Tcb) : Prop := {
  ft_lip : ip_ok (local_ip t);
  ft_rip : ip_ok (remote_ip t);
  ft_lport : is_u16 (local_port t);
  ft_rport : is_u16 (remote_port t);
  ft_iss : is_u32 (snd_iss (tcb_snd t));
  ft_snd : tcb_snd t = mkSendSequence (snd_iss (tcb_snd t)) (snd_iss (tcb_snd t)) 65535 (snd_iss (tcb_snd t));
  ft_rcv : tcb_rcv t = mkRecvSequence 0 65535 0;
  ft_cwnd : cwnd t = 1460;
  ft_ssthresh : ssthresh t = 65535;
  ft_dups : dup_ack_count t = 0 }.

Lemma fresh_for_listen `{DefaultHasher} lip lport rip rport nanos :
  ip_ok lip -> ip_ok rip -> is_u16 lport -> is_u16 rport ->
  fresh_tcb (new_for_listen lip lport rip rport nanos).
Proof. intros. split; try done. apply generate_isn_range. Qed.

Lemma fresh_for_connect `{DefaultHasher} lip lport rip rport nanos :
  ip_ok lip -> ip_ok rip -> is_u16 lport -> is_u16 rport ->
  fresh_tcb (new_for_connect lip lport rip rport nanos).
Proof. intros. split; try done. apply generate_isn_range. Qed.

Lemma conn_inv_new t :
  fresh_tcb t -> state t = Listen \/ state t = Closed -> conn_inv (Connection_new t).
Proof.
  intros [] Hst. destruct t as [s lp pp rp qq [un nx wn is_] rv cw sst du]. cbn in *.
  simplify_eq. pose proof rtq_wf_new. assert (Hs : s <> TimeWait) by (by destruct Hst as [-> | ->]).
  split; cbn; try done; try (unfold is_u16, is_u32, is_u8, U32, MSS in *; lia).
  - apply send_wf_new.
  - apply Forall_nil_2.
  - by destruct Hst as [-> | ->].
Qed.

(** *** The assignments preserve it *)
Section Setters.
Context (c : Connection) (HI : conn_inv c).

Ltac field := intros; destruct HI; split; cbn; assumption || trivial.

Lemma inv_set_snd_una x : is_u32 x -> conn_inv (set_snd_una x c).
Proof using HI. field. Qed.
Lemma inv_set_snd_nxt x : is_u32 x -> conn_inv (set_snd_nxt x c).
Proof using HI. field. Qed.
Lemma inv_set_snd_wnd x : is_u16 x -> conn_inv (set_snd_wnd x c).
Proof using HI. field. Qed.
Lemma inv_set_rcv_nxt x : is_u32 x -> conn_inv (set_rcv_nxt x c).
Proof using HI. field. Qed.
Lemma inv_set_rcv_wnd x : conn_inv (set_rcv_wnd x c).
Proof using HI. field. Qed.
Lemma inv_set_rcv_irs x : conn_inv (set_rcv_irs x c).
Proof using HI. field. Qed.
Lemma inv_set_cwnd x : MSS <= x < U32 -> conn_inv (set_cwnd x c).
Proof using HI. field. Qed.
Lemma inv_set_ssthresh x : 2 * MSS <= x < U32 -> conn_inv (set_ssthresh x c).
Proof using HI. field. Qed.
Lemma inv_set_dup_ack_count x : is_u8 x -> conn_inv (set_dup_ack_count x c).
Proof using HI. field. Qed.
Lemma inv_set_retransmit_queue rq : rtq_wf rq -> conn_inv (set_retransmit_queue rq c).
Proof using HI. field. Qed.
Lemma inv_set_send_buf sb :
  send_wf sb -> bytes_ok (s_contents sb) -> conn_inv (set_send_buf sb c).
Proof using HI. field. Qed.
Lemma inv_set_recv_buf rb : recv_wf rb -> recv_bytes rb -> conn_inv (set_recv_buf (Some rb) c).
Proof using HI.
  intros Hrb Hby. destruct HI. split; cbn; try done. by destruct (st c).
Qed.
Lemma inv_set_state s :
  s <> TimeWait ->
  match s with Listen | SynSent | Closed => True | _ => is_Some (recv_buf c) end ->
  conn_inv (set_state s c).
Proof using HI. field; try done. Qed.
Lemma inv_time_wait t :
  is_Some (recv_buf c) -> conn_inv (set_time_wait_start (Some t) (set_state TimeWait c)).
Proof using HI. field; done. Qed.
Lemma inv_acknowledge ack :
  is_u32 ack -> conn_inv (set_send_buf (SendBuffer_acknowledge (send_buf c) ack) c).
Proof using HI.
  intros Ha. pose proof (ci_send _ HI) as Hs. pose proof (ci_bytes _ HI) as Hb.
  apply inv_set_send_buf; [by apply send_wf_acknowledge |].
  destruct (decide (0 < wrapping_sub ack (s_una (send_buf c)) <= s_len (send_buf c))) as [Hk|Hk].
  - rewrite s_contents_acknowledge by done. by apply bytes_ok_drop.
  - unfold SendBuffer_acknowledge. case_match eqn:E; [done |]. bool_prop.
    pose proof (as_u32_range (ack - s_una (send_buf c))). unfold wrapping_sub, is_u32 in *. lia.
Qed.
End Setters.

(** *** What goes on the wire *)
Definition same_ends (c c' : Connection) : Prop :=
  local_ip (tcb c') = local_ip (tcb c) /\ remote_ip (tcb c') = remote_ip (tcb c) /\
  local_port (tcb c') = local_port (tcb c) /\ remote_port (tcb c') = remote_port (tcb c).

Record emits (c : Connection) (raw : list Z) : Prop := {
  em_builder : exists b, builder_ok b /\ raw = SegmentBuilder_build b /\
    sb_src_ip b = local_ip (tcb c) /\ sb_dst_ip b = remote_ip (tcb c) /\
    sb_src_port b = local_port (tcb c) /\ sb_dst_port b = remote_port (tcb c);
  em_len : len raw <= TCP_MIN_HEADER_LEN + MSS }.

Lemma same_ends_trans c c1 c2 : same_ends c c1 -> same_ends c1 c2 -> same_ends c c2.
Proof. intros (? & ? & ? & ?) (? & ? & ? & ?). split_and!; congruence. Qed.

Lemma emits_same_ends c c1 raw : same_ends c c1 -> emits c1 raw -> emits c raw.
Proof.
  intros (E1 & E2 & E3 & E4) [(b & Hb & -> & ? & ? & ? & ?) Hl].
  split; [|exact Hl]. exists b. split_and!; congruence.
Qed.

Lemma current_window_range c : conn_inv c -> is_u16 (current_window c).
Proof.
  intros HI. pose proof (ci_recv _ HI) as Hr. unfold current_window.
  destruct (recv_buf c) as [rb|]; [|by vm_compute]. unfold RecvBuffer_window. apply as_u16_range.
Qed.

Lemma emits_data c fl seq pl :
  conn_inv c -> is_u32 seq -> bytes_ok pl -> len pl <= MSS ->
  emits c (SegmentBuilder_build (data_builder c fl seq pl)).
Proof.
  intros HI Hs Hb Hl. split; [eexists; split; [|by split] | rewrite len_build; cbn; unfold TCP_MIN_HEADER_LEN; lia].
  pose proof (current_window_range c HI). destruct HI. unfold MSS in *. split; cbn; try done. lia.
Qed.

Lemma emits_ctl c fl seq :
  conn_inv c -> is_u32 seq -> emits c (SegmentBuilder_build (ctl_builder c fl seq)).
Proof.
  intros HI Hs. split; [eexists; split; [|by split] | rewrite len_build; by vm_compute].
  pose proof (current_window_range c HI). destruct HI. split; cbn; try done. by apply Forall_nil_2.
Qed.

Lemma emits_rst c seq : conn_inv c -> is_u32 seq -> emits c (build_rst c seq).
Proof.
  intros HI Hs. split; [eexists; split; [|by split] | unfold build_rst; rewrite len_build; by vm_compute].
  destruct HI. split; cbn; try done. by apply Forall_nil_2.
Qed.

Lemma emits_syn c : conn_inv c -> emits c (build_syn c).
Proof.
  intros HI. split; [eexists; split; [|by split] | unfold build_syn; rewrite len_build; by vm_compute].
  destruct HI. split; cbn; try done. by apply Forall_nil_2.
Qed.

(** *** Every handler returns, keeps the invariant and the endpoints, and answers
    with a well-formed segment of this connection *)
Definition outcome_ok (c : Connection) (o : Outcome) : Prop :=
  match o with
  | Ok (c', r) => conn_inv c' /\ same_ends c c' /\ Forall (emits c) (opt_list r)
  | _ => False
  end.

Lemma outcome_silent c c' : conn_inv c' -> same_ends c c' -> outcome_ok c (Ok (c', None)).
Proof. intros. split; [done |]. split; [done | apply Forall_nil_2]. Qed.

Lemma outcome_reply c c' raw :
  conn_inv c' -> same_ends c c' -> emits c' raw -> outcome_ok c (Ok (c', Some raw)).
Proof.
  intros HI Hs He. split; [done |]. split; [done |]. apply Forall_singleton.
  by apply (emits_same_ends c c').
Qed.

Lemma outcome_trans c c1 o : same_ends c c1 -> outcome_ok c1 o -> outcome_ok c o.
Proof.
  intros Hs. destruct o as [[c' r]| |]; cbn; try done. intros (HI & Hs' & Hr).
  split; [done |]. split; [by apply (same_ends_trans c c1) |].
  eapply Forall_impl; [exact Hr |]. intros raw. by apply emits_same_ends.
Qed.

#[export] Hint Resolve as_u32_range recv_wf_new recv_bytes_new : magnum.

(** The invariant of a chain of assignments, back to that of the connection it
    starts from. *)
Ltac conn_inv_tac :=
  repeat match goal with
    | H : ?P |- ?P => exact H
    | |- conn_inv (set_time_wait_start _ (set_state TimeWait _)) => apply inv_time_wait
    | |- conn_inv (set_state _ _) => apply inv_set_state; [| discriminate |]
    | |- conn_inv (set_snd_una _ _) => apply inv_set_snd_una
    | |- conn_inv (set_snd_nxt _ _) => apply inv_set_snd_nxt
    | |- conn_inv (set_snd_wnd _ _) => apply inv_set_snd_wnd
    | |- conn_inv (set_rcv_nxt _ _) => apply inv_set_rcv_nxt
    | |- conn_inv (set_rcv_wnd _ _) => apply inv_set_rcv_wnd
    | |- conn_inv (set_rcv_irs _ _) => apply inv_set_rcv_irs
    | |- conn_inv (set_recv_buf _ _) => apply inv_set_recv_buf
    | |- conn_inv (set_cwnd _ _) => apply inv_set_cwnd
    | |- conn_inv (set_ssthresh _ _) => apply inv_set_ssthresh
    | |- conn_inv (set_dup_ack_count _ _) => apply inv_set_dup_ack_count
    | |- conn_inv (set_retransmit_queue _ _) => apply inv_set_retransmit_queue
    | |- conn_inv (set_send_buf (SendBuffer_acknowledge (send_buf ?c) _) ?c) =>
        apply inv_acknowledge
    | |- is_u32 (wrapping_add _ _) => apply as_u32_range
    | |- is_u32 (after_fin _) => apply as_u32_range
    | |- recv_wf (RecvBuffer_new _) => apply recv_wf_new
    | |- recv_bytes (RecvBuffer_new _) => apply recv_bytes_new
    | |- is_Some (recv_buf _) => cbn; first [assumption | eexists; reflexivity]
    | |- True => exact I
    end.

Ltac same_ends_tac := repeat split.

Ltac reply_tac :=
  match goal with
  | |- outcome_ok _ (Ok (_, None)) => apply outcome_silent; [conn_inv_tac | same_ends_tac]
  | |- outcome_ok _ (Ok (_, Some (build_rst _ _))) =>
      apply outcome_reply; [conn_inv_tac | same_ends_tac | apply emits_rst; [conn_inv_tac | done]]
  | |- outcome_ok _ (Ok (_, Some _)) =>
      apply outcome_reply; [conn_inv_tac | same_ends_tac | apply emits_ctl; [conn_inv_tac | cbn; try done]]
  end.

(** The cases a handler distinguishes: the flags it reads. *)
Ltac flag_cases seg :=
  destruct (flag_rst (flags (header seg))) eqn:Hrst, (flag_ack (flags (header seg))) eqn:Hack,
    (flag_syn (flags (header seg))) eqn:Hsyn, (flag_fin (flags (header seg))) eqn:Hfin;
  cbn [andb negb].

Section Handlers.
Context (c : Connection) (HI : conn_inv c) (clk : Clock) (Hclk : clock_ok clk)
        (seg : TcpSegment) (Hseg : seg_ok seg).

Ltac start := destruct Hseg as (? & ? & ? & _); pose proof (ci_iss _ HI); pose proof (ci_nxt _ HI).

Lemma handle_listen_ok : outcome_ok c (handle_listen c seg).
Proof using HI Hseg. start. unfold handle_listen. flag_cases seg; reply_tac. Qed.

Lemma handle_syn_sent_ok : outcome_ok c (handle_syn_sent c seg).
Proof using HI Hseg.
  start. unfold handle_syn_sent.
  flag_cases seg; try destruct (ack_acceptable _ _ _); cbn [negb]; reply_tac.
Qed.

Lemma handle_syn_received_ok : st c = SynReceived -> outcome_ok c (handle_syn_received c seg).
Proof using HI Hseg.
  intros Hst. start. pose proof (ci_sync _ HI) as Hs. rewrite Hst in Hs. unfold handle_syn_received.
  flag_cases seg; try destruct (seq_num (header seg) =? irs c);
    try destruct (ack_acceptable _ _ _); cbn [negb andb]; reply_tac.
Qed.

Lemma handle_close_wait_ok : outcome_ok c (handle_close_wait c seg).
Proof using HI. unfold handle_close_wait. flag_cases seg; reply_tac. Qed.

Lemma handle_time_wait_ok : outcome_ok c (handle_time_wait c seg).
Proof using HI. pose proof (ci_nxt _ HI). unfold handle_time_wait. flag_cases seg; reply_tac. Qed.

Lemma handle_last_ack_ok : outcome_ok c (handle_last_ack c seg).
Proof using HI Hseg.
  start. unfold handle_last_ack.
  flag_cases seg; try destruct (ack_acceptable _ _ _); cbn [negb]; reply_tac.
Qed.

Lemma handle_closing_ok : st c = Closing -> outcome_ok c (handle_closing c clk seg).
Proof using HI Hseg.
  intros Hst. start. pose proof (ci_sync _ HI) as Hs. rewrite Hst in Hs. unfold handle_closing.
  flag_cases seg; try destruct (ack_acceptable _ _ _); cbn [negb]; reply_tac.
Qed.

Lemma handle_fin_wait_2_ok : st c = FinWait2 -> outcome_ok c (handle_fin_wait_2 c clk seg).
Proof using HI Hseg.
  intros Hst. start. pose proof (ci_sync _ HI) as Hs. rewrite Hst in Hs. unfold handle_fin_wait_2.
  flag_cases seg; reply_tac.
Qed.

(** *** ESTABLISHED and FIN_WAIT_1 *)
Lemma grow_cwnd_ok n :
  0 <= n -> exists w, grow_cwnd c n = Ok (set_cwnd w c) /\ cw c <= w <= cw c + MSS /\ w < U32.
Proof using HI.
  intros Hn. pose proof (ci_cwnd _ HI) as Hc. unfold grow_cwnd, u32_div, saturating_add_u32.
  unfold MSS, U32 in *. destruct (Z.ltb_spec (cw c) (sst c)); [eexists; split; [done | lia] |].
  destruct (Z.eqb_spec (cw c) 0); [lia |]. cbn. eexists. split; [done |].
  assert (0 <= 1460 * 1460 / cw c <= 1460).
  { split; [apply Z.div_pos; lia |]. apply Z.div_le_upper_bound; lia. }
  change (1460 * 1460) with 2131600 in *. lia.
Qed.

Lemma enter_fast_recovery_ok :
  let t := Z.max (cw c / 2) (2 * MSS) in
  enter_fast_recovery c = Ok (set_cwnd (t + 3 * MSS) (set_ssthresh t c)) /\
  2 * MSS <= t /\ t + 3 * MSS < U32.
Proof using HI.
  intros t. pose proof (ci_cwnd _ HI) as Hc. unfold enter_fast_recovery, u32_add. cbn. fold t.
  assert (2 * MSS <= t /\ t + 3 * MSS < U32).
  { unfold t, MSS, U32 in *. assert (cw c / 2 <= 2147483648) by (apply Z.div_le_upper_bound; lia). lia. }
  destruct (Z.ltb_spec (t + 3 * MSS) U32); [|lia]. done.
Qed.

Lemma emits_fast_retransmit raw : fast_retransmit_segment c = Some raw -> emits c raw.
Proof using HI.
  pose proof (rqw_entries _ (ci_rtq _ HI)) as He.
  unfold fast_retransmit_segment, first_unacked.
  destruct (entries (retransmit_queue c)) as [|e l]; [done |]. intros [= <-].
  apply Forall_cons in He as [[? ? ? ?] _]. by apply emits_data.
Qed.
End Handlers.

Lemma inv_after_ack c ack rq w :
  conn_inv c -> is_u32 ack -> is_u16 w -> rtq_wf rq ->
  conn_inv (set_snd_wnd w (set_retransmit_queue rq
    (set_send_buf (SendBuffer_acknowledge (send_buf c) ack) (set_snd_una ack c)))).
Proof.
  intros HI Ha Hw Hrq. apply inv_set_snd_wnd; [|done]. apply inv_set_retransmit_queue; [|done].
  apply (inv_acknowledge (set_snd_una ack c)); [|done]. by apply inv_set_snd_una.
Qed.

Section SyncHandlers.
Context (c : Connection) (HI : conn_inv c) (clk : Clock) (Hclk : clock_ok clk)
        (seg : TcpSegment) (Hseg : seg_ok seg) (Hrb : is_Some (recv_buf c)).

(** An acceptable acknowledgement in ESTABLISHED. *)
Lemma established_ack_new :
  ack_acceptable (una c) (ack_num (header seg)) (nxt c) = true ->
  exists w rq,
    established_ack c clk seg =
      Ok (set_dup_ack_count 0 (set_snd_wnd (window (header seg)) (set_retransmit_queue rq
            (set_send_buf (SendBuffer_acknowledge (send_buf c) (ack_num (header seg)))
              (set_snd_una (ack_num (header seg)) (set_cwnd w c))))), None) /\
    grow_cwnd c (wrapping_sub (ack_num (header seg)) (una c)) = Ok (set_cwnd w c) /\
    cw c <= w <= cw c + MSS /\ w < U32 /\
    acknowledge_and_sample_rtt (E:=MagnumError) (retransmit_queue c) (ack_num (header seg))
      (clock_ack clk) = Ok rq /\ rtq_wf rq.
Proof using HI Hclk.
  intros Ha. unfold established_ack. rewrite Ha.
  pose proof (as_u32_range (ack_num (header seg) - una c)) as Hn.
  destruct (grow_cwnd_ok c HI (wrapping_sub (ack_num (header seg)) (una c)))
    as (w & Ew & Hw1 & Hw2); [unfold wrapping_sub, is_u32 in *; lia |].
  destruct (acknowledge_ok (E:=MagnumError) (retransmit_queue c) (ack_num (header seg))
    (clock_ack clk) (ci_rtq _ HI) (proj1 Hclk)) as (rq & Erq & Hrq & _).
  exists w, rq. rewrite Ew. cbn. rewrite Erq. done.
Qed.

(** The outcome of the acknowledgement block: an [outcome_ok] that stays in its
    state. *)
Definition ack_outcome_ok (o : Outcome) : Prop :=
  match o with
  | Ok (c1, r) => conn_inv c1 /\ same_ends c c1 /\ Forall (emits c) (opt_list r) /\
                  st c1 = st c /\ is_Some (recv_buf c1)
  | _ => False
  end.

Lemma ack_outcome_silent c1 :
  conn_inv c1 -> same_ends c c1 -> st c1 = st c -> recv_buf c1 = recv_buf c ->
  ack_outcome_ok (Ok (c1, None)).
Proof using Hrb.
  intros HI1 He Hst Hr. split; [done |]. split; [done |]. split; [apply Forall_nil_2 |].
  by rewrite Hr.
Qed.

Lemma dup_inv : conn_inv (set_dup_ack_count (saturating_add_u8 (dups c) 1) c).
Proof using HI.
  pose proof (ci_dups _ HI). apply inv_set_dup_ack_count; [done |].
  unfold is_u8, saturating_add_u8, U8 in *. lia.
Qed.

Lemma established_ack_ok : ack_outcome_ok (established_ack c clk seg).
Proof using HI Hclk Hseg Hrb.
  destruct Hseg as (Hs & Ha & Hw & _). pose proof (ci_cwnd _ HI).
  destruct (ack_acceptable (una c) (ack_num (header seg)) (nxt c)) eqn:Hacc.
  - destruct (established_ack_new Hacc) as (w & rq & -> & _ & Hw1 & Hw2 & _ & Hrq).
    apply ack_outcome_silent; [| same_ends_tac | reflexivity | reflexivity].
    apply inv_set_dup_ack_count; [|by vm_compute].
    apply (inv_after_ack (set_cwnd w c)); try assumption. apply inv_set_cwnd; [done | lia].
  - pose proof dup_inv as HI1. unfold established_ack. rewrite Hacc.
    destruct (_ && _)%bool;
      [|by apply ack_outcome_silent; [| same_ends_tac | reflexivity | reflexivity]].
    set (c1 := set_dup_ack_count _ c) in *.
    destruct (dups c1 =? 3).
    + destruct (enter_fast_recovery_ok c1 HI1) as (E & Ht & Htt). rewrite E. cbn [mbind Res_bind].
      set (c2 := set_cwnd _ _).
      assert (HI2 : conn_inv c2).
      { apply inv_set_cwnd; [apply inv_set_ssthresh; [done |] |]; unfold MSS, U32 in *; lia. }
      split; [exact HI2 |]. split; [same_ends_tac |]. split; [|split; [reflexivity | exact Hrb]].
      destruct (fast_retransmit_segment c2) as [raw|] eqn:Er; [|apply Forall_nil_2].
      apply Forall_singleton. apply (emits_fast_retransmit c2 HI2) in Er.
      destruct Er as [Er Hl]. split; [exact Er | exact Hl].
    + destruct (3 <? dups c1); (apply ack_outcome_silent; [| same_ends_tac | reflexivity | reflexivity]);
        [|exact HI1].
      apply inv_set_cwnd; [exact HI1 |]. unfold saturating_add_u32, MSS, U32 in *. cbn. lia.
Qed.

Lemma inv_receive_payload : conn_inv (receive_payload c seg).
Proof using HI Hseg Hrb.
  destruct Hseg as (Hs & _ & _ & Hd). pose proof (ci_recv _ HI) as Hr. pose proof (ci_rbytes _ HI) as Hb.
  unfold receive_payload. destruct (recv_buf c) as [rb|]; [|done].
  assert (recv_wf (RecvBuffer_insert rb (seq_num (header seg)) (payload seg)))
    by by apply recv_wf_insert.
  apply inv_set_rcv_nxt; [|by apply rw_nxt]. by apply inv_set_recv_buf; [| |apply recv_bytes_insert].
Qed.

Lemma receive_payload_frame :
  same_ends c (receive_payload c seg) /\ is_Some (recv_buf (receive_payload c seg)).
Proof using Hrb. unfold receive_payload. by destruct (recv_buf c). Qed.

Lemma established_data_ok : outcome_ok c (established_data c seg).
Proof using HI Hseg Hrb.
  unfold established_data.
  set (c1 := if negb (len (payload seg) =? 0) then receive_payload c seg else c).
  assert (H : conn_inv c1 /\ same_ends c c1 /\ is_Some (recv_buf c1)).
  { unfold c1. destruct (negb _); [|done].
    split; [apply inv_receive_payload | apply receive_payload_frame]. }
  destruct H as (HI1 & He & Hr1). apply (outcome_trans c c1); [done |].
  pose proof (ci_nxt _ HI1). clearbody c1.
  destruct (_ && _)%bool; [reply_tac |]. destruct (flag_fin _); reply_tac.
Qed.
End SyncHandlers.

Lemma handle_established_ok c clk seg :
  conn_inv c -> clock_ok clk -> seg_ok seg -> st c = Established ->
  outcome_ok c (handle_established c clk seg).
Proof.
  intros HI Hclk Hseg Hst. pose proof (ci_sync _ HI) as Hrb. rewrite Hst in Hrb.
  unfold handle_established. destruct (flag_rst _); [reply_tac |].
  destruct (flag_ack _); cbn [mbind Res_bind]; [|by apply established_data_ok].
  pose proof (established_ack_ok c HI clk Hclk seg Hseg Hrb) as H.
  destruct (established_ack c clk seg) as [[c1 [r|]]| |]; try done; cbn [mbind Res_bind];
    destruct H as (HI1 & He & Hr & _ & Hrb1); [split; [exact HI1 | split; assumption] |].
  apply (outcome_trans c c1); [done |]. by apply established_data_ok.
Qed.

Lemma handle_fin_wait_1_ok c clk seg :
  conn_inv c -> clock_ok clk -> seg_ok seg -> st c = FinWait1 ->
  outcome_ok c (handle_fin_wait_1 c clk seg).
Proof.
  intros HI Hclk Hseg Hst. pose proof (ci_sync _ HI) as Hrb. rewrite Hst in Hrb.
  destruct Hseg as (Hs & Ha & Hw & _). pose proof (ci_nxt _ HI).
  unfold handle_fin_wait_1. destruct (flag_rst _); [reply_tac |].
  destruct (_ && _)%bool; [|destruct (flag_fin _); reply_tac].
  cbn [retransmit_queue set_send_buf set_snd_una with_tcb].
  destruct (acknowledge_ok (E:=MagnumError) (retransmit_queue c) (ack_num (header seg))
    (clock_ack clk) (ci_rtq _ HI) (proj1 Hclk)) as (rq & -> & Hrq & _). cbn [mbind Res_bind].
  pose proof (inv_after_ack c _ rq _ HI Ha Hw Hrq) as HI1.
  match type of HI1 with conn_inv ?x => set (c1 := x) in * end.
  change (outcome_ok c
    (if (seq_le (nxt c) (ack_num (header seg)) && flag_fin (flags (header seg)))%bool
     then let c := set_rcv_nxt (after_fin seg) c1 in
          let c := set_time_wait_start (Some (clock_tw clk)) (set_state TimeWait c) in
          Ok (c, Some (build_ack c))
     else if seq_le (nxt c) (ack_num (header seg)) then Ok (set_state FinWait2 c1, None)
     else if flag_fin (flags (header seg)) then
       let c := set_state Closing (set_rcv_nxt (after_fin seg) c1) in Ok (c, Some (build_ack c))
     else Ok (c1, None))).
  assert (Hr1 : is_Some (recv_buf c1)) by done. assert (Hn1 : is_u32 (nxt c1)) by done.
  apply (outcome_trans c c1); [done |]. clearbody c1.
  destruct (seq_le _ _), (flag_fin _); cbn [andb]; reply_tac.
Qed.

Lemma process_segment_ok c clk seg :
  conn_inv c -> clock_ok clk -> seg_ok seg -> outcome_ok c (process_segment c clk seg).
Proof.
  intros HI Hclk Hseg. unfold process_segment. destruct (st c) eqn:Hst.
  - by apply handle_listen_ok.
  - by apply handle_syn_sent_ok.
  - by apply handle_syn_received_ok.
  - by apply handle_established_ok.
  - by apply handle_fin_wait_1_ok.
  - by apply handle_fin_wait_2_ok.
  - by apply handle_close_wait_ok.
  - by apply handle_closing_ok.
  - by apply handle_last_ack_ok.
  - by apply handle_time_wait_ok.
  - by apply outcome_silent.
Qed.

(** *** The application's and the timers' side *)
Lemma next_segment_bound sb max_len seq pl :
  send_wf sb -> 0 <= max_len -> SendBuffer_next_segment sb max_len = Some (seq, pl) ->
  bytes_ok (s_contents sb) ->
  seq = s_nxt sb /\ bytes_ok pl /\ 0 < len pl <= max_len /\ s_inflight sb + len pl <= s_len sb.
Proof.
  intros Hw Hm E Hb. rewrite next_segment_contents in E by done. cbv zeta in E.
  destruct (Z.ltb_spec 0 (Z.min (s_len sb - s_inflight sb) max_len)) as [H|]; [|done].
  injection E as <- <-. split; [done |]. split; [by apply bytes_ok_take, bytes_ok_drop |].
  pose proof (len_s_contents sb Hw). pose proof (as_u32_range (s_nxt sb - s_una sb)).
  unfold s_inflight, wrapping_sub, is_u32 in *. rewrite len_take, len_drop by lia. lia.
Qed.

Lemma inv_advance c n :
  conn_inv c -> conn_inv (set_send_buf (SendBuffer_advance_nxt (send_buf c) n) c).
Proof.
  intros HI. apply inv_set_send_buf; [done | apply send_wf_advance, (ci_send _ HI) | exact (ci_bytes _ HI)].
Qed.

Lemma write_data_ok c data :
  conn_inv c -> bytes_ok data ->
  conn_inv (fst (write_data c data)) /\ same_ends c (fst (write_data c data)).
Proof.
  intros HI Hd. pose proof (s_contents_write (send_buf c) data (ci_send _ HI)) as (Hc & _ & _).
  pose proof (send_wf_write (send_buf c) data (ci_send _ HI)) as Hw.
  unfold write_data. destruct (SendBuffer_write _ _) as [sb n]. cbn [fst] in *.
  split; [|same_ends_tac]. apply inv_set_send_buf; [done | done |]. rewrite Hc.
  apply bytes_ok_app; [apply HI | by apply bytes_ok_take].
Qed.

(** A segment leaves only inside both windows: [n] bytes, numbered from the send
    buffer's next byte. *)
Lemma next_segment_to_send_spec c max_payload now :
  conn_inv c -> 0 <= max_payload ->
  (next_segment_to_send c max_payload now = (c, None)) \/
  exists pl c',
    next_segment_to_send c max_payload now =
      (c', Some (SegmentBuilder_build (data_builder c' F_PSH_ACK (s_nxt (send_buf c)) pl))) /\
    c' = set_snd_nxt (wrapping_add (s_nxt (send_buf c)) (as_u32 (len pl)))
          (set_retransmit_queue
            (RetransmitQueue_push (retransmit_queue c) (s_nxt (send_buf c)) pl now)
            (set_send_buf (SendBuffer_advance_nxt (send_buf c) (len pl)) c)) /\
    bytes_ok pl /\ 0 < len pl <= max_payload /\
    wrapping_sub (nxt c) (una c) + len pl <= Z.min (cw c) (wnd c) /\
    SendBuffer_next_segment (send_buf c)
      (Z.min max_payload (Z.min (cw c) (wnd c) - wrapping_sub (nxt c) (una c))) =
      Some (s_nxt (send_buf c), pl).
Proof.
  intros HI Hm. unfold next_segment_to_send. pose proof (ci_wnd _ HI) as Hwnd.
  rewrite as_u32_id by (unfold is_u16, is_u32, U32 in *; lia).
  set (infl := wrapping_sub (nxt c) (una c)). set (win := Z.min (cw c) (wnd c)).
  destruct (Z.leb_spec win infl); [by left |].
  destruct (SendBuffer_next_segment (send_buf c) (Z.min max_payload (win - infl)))
    as [[seq pl]|] eqn:E; [|by left].
  right. exists pl. eexists. pose proof E as E0.
  apply next_segment_bound in E0 as (-> & Hb & Hl & _);
    [| exact (ci_send _ HI) | lia | exact (ci_bytes _ HI)].
  split; [reflexivity |]. split; [reflexivity |]. split; [done |]. split; [lia |].
  split; [lia | done].
Qed.

Lemma inv_sent c pl now :
  conn_inv c -> bytes_ok pl -> len pl <= MSS -> instant_ok now ->
  conn_inv (set_snd_nxt (wrapping_add (s_nxt (send_buf c)) (as_u32 (len pl)))
    (set_retransmit_queue
      (RetransmitQueue_push (retransmit_queue c) (s_nxt (send_buf c)) pl now)
      (set_send_buf (SendBuffer_advance_nxt (send_buf c) (len pl)) c))).
Proof.
  intros HI Hb Hl Hn. apply inv_set_snd_nxt; [|apply as_u32_range].
  apply inv_set_retransmit_queue; [by apply inv_advance |].
  apply rtq_wf_push; [exact (ci_rtq _ HI) | exact (sw_nxt _ (ci_send _ HI)) | assumption ..].
Qed.

Lemma next_segment_to_send_ok c max_payload now :
  conn_inv c -> 0 <= max_payload <= MSS -> instant_ok now ->
  let '(c', r) := next_segment_to_send c max_payload now in outcome_ok c (Ok (c', r)).
Proof.
  intros HI Hm Hn.
  destruct (next_segment_to_send_spec c max_payload now HI ltac:(lia))
    as [-> | (pl & c' & -> & -> & Hb & Hl & _)].
  - apply outcome_silent; [done | same_ends_tac].
  - pose proof (inv_sent c pl now HI Hb ltac:(lia) Hn) as HI'.
    apply outcome_reply; [exact HI' | same_ends_tac |].
    apply emits_data; [exact HI' | exact (sw_nxt _ (ci_send _ HI)) | assumption | lia].
Qed.

Lemma zero_window_probe_ok c :
  conn_inv c -> let '(c', r) := zero_window_probe c in outcome_ok c (Ok (c', r)).
Proof.
  intros HI. unfold zero_window_probe.
  destruct (_ || _)%bool; [by apply outcome_silent; [|same_ends_tac] |].
  destruct (SendBuffer_next_segment (send_buf c) 1) as [[seq pl]|] eqn:E;
    [|by apply outcome_silent; [|same_ends_tac]].
  apply next_segment_bound in E as (-> & Hb & Hl & _);
    [| exact (ci_send _ HI) | lia | exact (ci_bytes _ HI)].
  set (c1 := set_snd_nxt _ _).
  assert (HI1 : conn_inv c1).
  { apply inv_set_snd_nxt; [by apply inv_advance | apply as_u32_range]. }
  apply outcome_reply; [exact HI1 | same_ends_tac |].
  apply emits_data; [exact HI1 | exact (sw_nxt _ (ci_send _ HI)) | assumption | unfold MSS; lia].
Qed.

Lemma initiate_close_ok c :
  conn_inv c -> let '(c', r) := initiate_close c in outcome_ok c (Ok (c', r)).
Proof.
  intros HI. pose proof (ci_sync _ HI) as Hs. unfold initiate_close.
  assert (Hf : emits c (build_fin_ack c)) by (apply emits_ctl; [exact HI | exact (ci_nxt _ HI)]).
  destruct (st c) eqn:Hst;
    try (apply outcome_silent; [exact HI | same_ends_tac]);
    (split; [conn_inv_tac | split; [same_ends_tac | by apply Forall_singleton]]).
Qed.

Lemma connect_ok c :
  conn_inv c -> let '(c', r) := connect c in outcome_ok c (Ok (c', r)).
Proof.
  intros HI. unfold connect. destruct (negb _); [by apply outcome_silent; [|same_ends_tac] |].
  split; [conn_inv_tac | split; [same_ends_tac |]]. apply Forall_singleton. by apply emits_syn.
Qed.

Lemma tick_time_wait_ok c now :
  conn_inv c -> conn_inv (fst (tick_time_wait c now)) /\ same_ends c (fst (tick_time_wait c now)).
Proof.
  intros HI. unfold tick_time_wait. repeat case_match; cbn [fst];
    (split; [conn_inv_tac | same_ends_tac]).
Qed.

Lemma read_received_ok c buf :
  conn_inv c ->
  conn_inv (fst (fst (read_received c buf))) /\ same_ends c (fst (fst (read_received c buf))).
Proof.
  intros HI. pose proof (ci_recv _ HI) as Hr. pose proof (ci_rbytes _ HI) as Hb. unfold read_received.
  destruct (recv_buf c) as [rb|]; [|done]. pose proof (recv_wf_read rb buf Hr) as Hw.
  pose proof (recv_bytes_read rb buf Hb) as Hw2.
  destruct (RecvBuffer_read rb buf) as [[rb' buf'] n]. cbn [fst] in *.
  split; [by apply inv_set_recv_buf | same_ends_tac].
Qed.

(** [take_retransmits], spelled out: the window collapses if and only if something
    expired. *)
Lemma take_retransmits_spec c now :
  conn_inv c -> instant_ok now ->
  let out := map (fun e => (e_seq e, e_data e))
    (List.filter (due now (rto (retransmit_queue c))) (entries (retransmit_queue c))) in
  exists rq c', take_retransmits c now =
      Ok (c', map (fun '(seq, pl) => SegmentBuilder_build (data_builder c' F_PSH_ACK seq pl)) out) /\
    rtq_wf rq /\
    entries rq = map (fun e => if due now (rto (retransmit_queue c)) e then restamp now e else e)
                   (entries (retransmit_queue c)) /\
    c' = match out with
         | [] => set_retransmit_queue rq c
         | _ => set_cwnd MSS (set_ssthresh (Z.max (cw c / 2) (2 * MSS)) (set_retransmit_queue rq c))
         end.
Proof.
  intros HI Hn out.
  destruct (expired_ok (E:=MagnumError) (retransmit_queue c) now (ci_rtq _ HI) Hn)
    as (rq & E & Hw & He & _).
  exists rq. unfold take_retransmits. rewrite E. cbn [mbind Res_bind]. fold out.
  eexists. split; [reflexivity |]. split; [done |]. split; [done |]. by destruct out.
Qed.

Lemma take_retransmits_ok c now :
  conn_inv c -> instant_ok now ->
  match take_retransmits c now with
  | Ok (c', out) => conn_inv c' /\ same_ends c c' /\ Forall (emits c) out
  | _ => False
  end.
Proof.
  intros HI Hn. destruct (take_retransmits_spec c now HI Hn) as (rq & c' & -> & Hw & _ & Hc').
  pose proof (ci_cwnd _ HI) as Hcw. pose proof (rqw_entries _ (ci_rtq _ HI)) as He.
  set (out := map _ (List.filter _ _)) in *.
  assert (HI' : conn_inv c' /\ same_ends c c').
  { rewrite Hc'. destruct out; (split; [|same_ends_tac]).
    - by apply inv_set_retransmit_queue.
    - apply inv_set_cwnd; [|unfold MSS, U32; lia].
      apply inv_set_ssthresh; [by apply inv_set_retransmit_queue |].
      unfold MSS, U32 in *. assert (cw c / 2 <= 2147483648) by (apply Z.div_le_upper_bound; lia). lia. }
  destruct HI' as [HI' Hs]. split; [done |]. split; [done |].
  apply Forall_map. unfold out. apply Forall_map, Forall_filter_list.
  eapply Forall_impl; [exact He |]. intros e [Hq Hd Hl _]. cbn.
  apply (emits_same_ends c c'); [done |]. by apply emits_data.
Qed.

(** ** Runs *)
Definition event_ok (ev : Event) : Prop :=
  match ev with
  | EvSegment clk seg => clock_ok clk /\ seg_ok seg
  | EvWrite data => bytes_ok data
  | EvSend max_payload now => 0 <= max_payload <= MSS /\ instant_ok now
  | EvRetransmit now => instant_ok now
  | EvRead _ | EvClose | EvTick _ | EvConnect | EvProbe => True
  end.

Definition step_ok (c : Connection) (o : Result (Connection * list (list Z))) : Prop :=
  match o with
  | Ok (c', out) => conn_inv c' /\ same_ends c c' /\ Forall (emits c) out
  | _ => False
  end.

Lemma step_ok_outcome c c' r : outcome_ok c (Ok (c', r)) -> step_ok c (Ok (c', opt_list r)).
Proof. done. Qed.

Lemma conn_step_ok c ev : conn_inv c -> event_ok ev -> step_ok c (conn_step c ev).
Proof.
  intros HI Hev. destruct ev as [clk seg|data|mp now|buf|now| |now| |]; cbn [conn_step event_ok] in *.
  - destruct Hev as [Hclk Hseg]. pose proof (process_segment_ok c clk seg HI Hclk Hseg) as H.
    by destruct (process_segment c clk seg) as [[c' r]| |].
  - destruct (write_data_ok c data HI Hev). split; [done |]. split; [done | apply Forall_nil_2].
  - destruct Hev as [Hm Hn]. pose proof (next_segment_to_send_ok c mp now HI Hm Hn) as H.
    by destruct (next_segment_to_send c mp now).
  - destruct (read_received_ok c buf HI). split; [done |]. split; [done | apply Forall_nil_2].
  - by apply take_retransmits_ok.
  - pose proof (initiate_close_ok c HI) as H. by destruct (initiate_close c).
  - destruct (tick_time_wait_ok c now HI). split; [done |]. split; [done | apply Forall_nil_2].
  - pose proof (connect_ok c HI) as H. by destruct (connect c).
  - pose proof (zero_window_probe_ok c HI) as H. by destruct (zero_window_probe c).
Qed.

Lemma conn_run_ok evs : forall c,
  conn_inv c -> Forall event_ok evs -> step_ok c (conn_run c evs).
Proof.
  induction evs as [|ev evs IH]; intros c HI Hev; cbn [conn_run].
  { split; [done |]. split; [done | apply Forall_nil_2]. }
  apply Forall_cons in Hev as [Hev Hevs].
  pose proof (conn_step_ok c ev HI Hev) as H1.
  destruct (conn_step c ev) as [[c1 out]| |]; try done. destruct H1 as (HI1 & Hs1 & Ho1).
  cbn [mbind Res_bind]. pose proof (IH c1 HI1 Hevs) as H2.
  destruct (conn_run c1 evs) as [[c2 outs]| |]; try done. destruct H2 as (HI2 & Hs2 & Ho2).
  split; [done |]. split.
  - destruct Hs1 as (? & ? & ? & ?), Hs2 as (? & ? & ? & ?). split_and!; congruence.
  - apply Forall_app. split; [done |]. eapply Forall_impl; [exact Ho2 |].
    intros raw. by apply emits_same_ends.
Qed.
