(* ===== verification/StateMachine.v ===== *)
(** * The state machine of a connection

    connection.rs spreads the eleven states over one handler each. [tcp_next] is
    the machine on its own: states, and the few facts of a segment that decide.
    The handlers implement it; the machine moves along RFC 793's diagram; and
    CLOSED is reached exactly the ways the diagram allows. *)
From S2P Require Import Prelude Errors Tcb Ipv4 Header SendBuffer RecvBuffer Float64 Retransmit Connection.

(** ** The abstract machine *)
Record Input := mkInput {
  i_rst : bool; i_syn : bool; i_ack : bool; i_fin : bool;
  i_ack_ok : bool;      (* acknowledges something new that was sent *)
  i_fin_acked : bool;   (* acknowledges everything sent, our FIN included *)
  i_resend : bool }.    (* third duplicate acknowledgement, something to resend *)

Definition tcp_next (s : TcbState) (i : Input) : TcbState :=
  match s with
  | Listen => if i_rst i || i_ack i || negb (i_syn i) then Listen else SynReceived
  | SynSent =>
      if i_rst i then Closed
      else if i_syn i && i_ack i then (if i_ack_ok i then Established else SynSent)
      else if i_syn i then SynReceived else SynSent
  | SynReceived =>
      if i_rst i then Listen
      else if i_ack i && i_ack_ok i then Established else SynReceived
  | Established =>
      if i_rst i then Closed
      else if i_fin i && negb (i_ack i && i_resend i) then CloseWait else Established
  | FinWait1 =>
      if i_rst i then Closed
      else match i_ack i && i_ack_ok i && i_fin_acked i, i_fin i with
           | true, true => TimeWait
           | true, false => FinWait2
           | false, true => Closing
           | false, false => FinWait1
           end
  | FinWait2 => if i_rst i then Closed else if i_fin i then TimeWait else FinWait2
  | CloseWait => if i_rst i then Closed else CloseWait
  | Closing => if i_rst i then Closed else if i_ack i && i_ack_ok i then TimeWait else Closing
  | LastAck => if i_rst i || i_ack i && i_ack_ok i then Closed else LastAck
  | TimeWait => TimeWait
  | Closed => Closed
  end%bool.

(** What the machine sees of a segment. *)
Definition input_of (c : Connection) (seg : TcpSegment) : Input :=
  let h := header seg in
  let ok := ack_acceptable (una c) (ack_num h) (nxt c) in
  {| i_rst := flag_rst (flags h); i_syn := flag_syn (flags h); i_ack := flag_ack (flags h);
     i_fin := flag_fin (flags h); i_ack_ok := ok;
     i_fin_acked := seq_le (nxt c) (ack_num h);
     i_resend := negb ok && (ack_num h =? una c) && negb (una c =? nxt c)
                 && (saturating_add_u8 (dups c) 1 =? 3)
                 && negb (RetransmitQueue_is_empty (retransmit_queue c)) |}%bool.

(** ** Refinement *)
(** The outcome is a connection in state [s]. *)
Definition ends_in (s : TcbState) (o : Outcome) : Prop :=
  match o with Ok (c', _) => st c' = s | _ => False end.

Lemma established_data_ends c seg :
  st c = Established ->
  ends_in (if flag_fin (flags (header seg)) then CloseWait else Established) (established_data c seg).
Proof.
  intros Hst. unfold established_data.
  set (c1 := if negb (len (payload seg) =? 0) then receive_payload c seg else c).
  assert (H1 : st c1 = Established).
  { unfold c1, receive_payload. destruct (negb _); [|done]. by destruct (recv_buf c). }
  clearbody c1. destruct (negb _), (flag_fin _); cbn [andb negb]; try done.
Qed.

Lemma fast_retransmit_none c :
  fast_retransmit_segment c = None <-> RetransmitQueue_is_empty (retransmit_queue c) = true.
Proof.
  unfold fast_retransmit_segment, first_unacked, RetransmitQueue_is_empty.
  by destruct (entries (retransmit_queue c)).
Qed.

(** The acknowledgement block stays in ESTABLISHED, and returns early exactly on
    [i_resend]. *)
Lemma established_ack_ends c clk seg :
  conn_inv c -> clock_ok clk -> st c = Established ->
  match established_ack c clk seg with
  | Ok (c1, r) => st c1 = Established /\ (i_resend (input_of c seg) = true <-> is_Some r)
  | _ => False
  end.
Proof.
  intros HI Hclk Hst. cbn [input_of i_resend].
  destruct (ack_acceptable (una c) (ack_num (header seg)) (nxt c)) eqn:Hacc; cbn [negb andb].
  - destruct (established_ack_new c HI clk Hclk seg Hacc) as (w & rq & -> & _).
    split; [exact Hst |]. split; [done | by intros [? [=]]].
  - pose proof (dup_inv c HI) as HI1. unfold established_ack. rewrite Hacc.
    destruct (_ && _)%bool; cbn [andb];
      [|split; [exact Hst |]; split; [done | by intros [? [=]]]].
    set (c1 := set_dup_ack_count _ c) in *.
    change (saturating_add_u8 (dups c) 1) with (dups c1).
    destruct (dups c1 =? 3); cbn [andb].
    + destruct (enter_fast_recovery_ok c1 HI1) as (E & _). rewrite E. cbn [mbind Res_bind].
      set (c2 := set_cwnd _ _). split; [exact Hst |].
      change (retransmit_queue c) with (retransmit_queue c2).
      pose proof (fast_retransmit_none c2) as Hn.
      destruct (RetransmitQueue_is_empty (retransmit_queue c2)); cbn [negb].
      * rewrite (proj2 Hn eq_refl). split; [done | by intros [? [=]]].
      * destruct (fast_retransmit_segment c2); [done |]. discriminate (proj1 Hn eq_refl).
    + destruct (3 <? dups c1); (split; [exact Hst |]); (split; [done | by intros [? [=]]]).
Qed.

Lemma handle_established_ends c clk seg :
  conn_inv c -> clock_ok clk -> st c = Established ->
  ends_in (tcp_next Established (input_of c seg)) (handle_established c clk seg).
Proof.
  intros HI Hclk Hst. pose proof (established_ack_ends c clk seg HI Hclk Hst) as H.
  unfold handle_established. cbn [tcp_next].
  change (i_rst (input_of c seg)) with (flag_rst (flags (header seg))).
  change (i_ack (input_of c seg)) with (flag_ack (flags (header seg))).
  change (i_fin (input_of c seg)) with (flag_fin (flags (header seg))).
  destruct (flag_rst _); [done |]. destruct (flag_ack _); cbn [andb mbind Res_bind].
  - destruct (established_ack c clk seg) as [[c1 [r|]]| |]; try done; cbn [mbind Res_bind];
      destruct H as [Hst1 Hr].
    + rewrite (proj2 Hr) by eauto. cbn [negb]. rewrite andb_false_r. exact Hst1.
    + destruct (i_resend _); [destruct (proj1 Hr eq_refl); discriminate |]. cbn [negb].
      rewrite andb_true_r. by apply established_data_ends.
  - cbn [negb]. rewrite andb_true_r. by apply established_data_ends.
Qed.

Lemma handle_fin_wait_1_ends c clk seg :
  conn_inv c -> clock_ok clk -> st c = FinWait1 ->
  ends_in (tcp_next FinWait1 (input_of c seg)) (handle_fin_wait_1 c clk seg).
Proof.
  intros HI Hclk Hst. unfold handle_fin_wait_1. cbn [tcp_next].
  change (i_rst (input_of c seg)) with (flag_rst (flags (header seg))).
  change (i_ack (input_of c seg)) with (flag_ack (flags (header seg))).
  change (i_fin (input_of c seg)) with (flag_fin (flags (header seg))).
  change (i_ack_ok (input_of c seg)) with (ack_acceptable (una c) (ack_num (header seg)) (nxt c)).
  change (i_fin_acked (input_of c seg)) with (seq_le (nxt c) (ack_num (header seg))).
  destruct (flag_rst _); [done |].
  destruct (flag_ack (flags (header seg)) && ack_acceptable (una c) (ack_num (header seg)) (nxt c))%bool;
    cbn [andb]; [|by destruct (flag_fin _)].
  cbn [retransmit_queue set_send_buf set_snd_una with_tcb].
  destruct (acknowledge_ok (E:=MagnumError) (retransmit_queue c) (ack_num (header seg))
    (clock_ack clk) (ci_rtq _ HI) (proj1 Hclk)) as (rq & -> & _). cbn [mbind Res_bind].
  by destruct (seq_le _ _), (flag_fin _).
Qed.

Lemma process_segment_ends c clk seg :
  conn_inv c -> clock_ok clk ->
  ends_in (tcp_next (st c) (input_of c seg)) (process_segment c clk seg).
Proof.
  intros HI Hclk. unfold process_segment. destruct (st c) eqn:Hst.
  4: by apply handle_established_ends.
  4: by apply handle_fin_wait_1_ends.
  all: cbn [tcp_next input_of i_rst i_syn i_ack i_fin i_ack_ok];
    unfold handle_listen, handle_syn_sent, handle_syn_received, handle_close_wait,
      handle_fin_wait_2, handle_closing, handle_last_ack, handle_time_wait;
    flag_cases seg; try destruct (ack_acceptable _ _ _); try destruct (_ =? _);
    cbn [andb orb negb ends_in]; (exact Hst || reflexivity).
Qed.

(** C7. Refinement: every segment, in every state, is processed without an error
    or a panic and moves the connection as the abstract machine says. *)
Theorem process_segment_refines_machine c clk seg :
  conn_inv c -> clock_ok clk -> seg_ok seg ->
  exists c' r, process_segment c clk seg = Ok (c', r) /\ conn_inv c' /\
    st c' = tcp_next (st c) (input_of c seg).
Proof.
  intros HI Hclk Hseg. pose proof (process_segment_ends c clk seg HI Hclk) as He.
  pose proof (process_segment_ok c clk seg HI Hclk Hseg) as Ho.
  destruct (process_segment c clk seg) as [[c' r]| |]; try done.
  exists c', r. by destruct Ho.
Qed.

(** ** The diagram *)
(** Why a connection changes state: RFC 793, figure 6 and page 23, with the passive
    open of [Tcb::new_for_listen] as the initial state. *)
Inductive Cause : Type :=
  | RcvRst | RcvSyn | RcvSynAck | RcvAckOfSyn | RcvFin | RcvAckOfFin | RcvFinAndAck | RcvAck
  | UserOpen | UserClose | Timeout2MSL.

Inductive rfc793 : TcbState -> Cause -> TcbState -> Prop :=
  | e_active_open : rfc793 Closed UserOpen SynSent
  | e_passive_syn : rfc793 Listen RcvSyn SynReceived
  | e_simultaneous_open : rfc793 SynSent RcvSyn SynReceived
  | e_syn_ack : rfc793 SynSent RcvSynAck Established
  | e_ack_of_syn : rfc793 SynReceived RcvAckOfSyn Established
  | e_close : rfc793 Established UserClose FinWait1
  | e_peer_close : rfc793 Established RcvFin CloseWait
  | e_ack_of_fin : rfc793 FinWait1 RcvAckOfFin FinWait2
  | e_simultaneous_close : rfc793 FinWait1 RcvFin Closing
  | e_fin_and_ack : rfc793 FinWait1 RcvFinAndAck TimeWait
  | e_fin : rfc793 FinWait2 RcvFin TimeWait
  | e_closing : rfc793 Closing RcvAck TimeWait
  | e_close_wait : rfc793 CloseWait UserClose LastAck
  | e_last_ack : rfc793 LastAck RcvAck Closed
  | e_2msl : rfc793 TimeWait Timeout2MSL Closed
  | e_reset_passive : rfc793 SynReceived RcvRst Listen
  | e_reset s :
      s <> Closed -> s <> Listen -> s <> SynReceived -> s <> TimeWait -> rfc793 s RcvRst Closed.

(** The event is of that kind, on that connection. *)
Definition shows (c : Connection) (ev : Event) (k : Cause) : Prop :=
  match ev, k with
  | EvSegment _ seg, _ =>
      let i := input_of c seg in
      match k with
      | RcvRst => i_rst i = true
      | RcvSyn => i_rst i = false /\ i_syn i = true /\ i_ack i = false
      | RcvSynAck => i_rst i = false /\ i_syn i = true /\ i_ack i = true /\ i_ack_ok i = true
      | RcvAckOfSyn | RcvAck => i_rst i = false /\ i_ack i = true /\ i_ack_ok i = true
      | RcvFin => i_rst i = false /\ i_fin i = true
      | RcvAckOfFin =>
          i_rst i = false /\ i_ack i = true /\ i_ack_ok i = true /\ i_fin_acked i = true /\
          i_fin i = false
      | RcvFinAndAck =>
          i_rst i = false /\ i_ack i = true /\ i_ack_ok i = true /\ i_fin_acked i = true /\
          i_fin i = true
      | UserOpen | UserClose | Timeout2MSL => False
      end
  | EvConnect, UserOpen | EvClose, UserClose => True
  | EvTick now, Timeout2MSL =>
      exists t, time_wait_start c = Some t /\ TWO_MSL <= duration_since now t
  | _, _ => False
  end.

Lemma tcp_next_in_diagram c clk seg :
  tcp_next (st c) (input_of c seg) = st c \/
  exists k, rfc793 (st c) k (tcp_next (st c) (input_of c seg)) /\ shows c (EvSegment clk seg) k.
Proof.
  cbn [shows]. generalize (input_of c seg) as i. intros [r s a f ok fa rs].
  destruct r; cbn [i_rst].
  { destruct (st c) eqn:Hst; cbn [tcp_next i_rst orb]; try (left; reflexivity); right;
      exists RcvRst; (split; [first [apply e_reset; discriminate | constructor] | done]). }
  destruct (st c); cbn [tcp_next i_rst i_syn i_ack i_fin i_ack_ok i_fin_acked i_resend];
    destruct s, a, f, ok, fa, rs; cbn [andb orb negb]; try (left; reflexivity); right.
  all: first
    [ exists RcvSynAck; split; [constructor |]
    | exists RcvSyn; split; [constructor |]
    | exists RcvFinAndAck; split; [constructor |]
    | exists RcvAckOfFin; split; [constructor |]
    | exists RcvAckOfSyn; split; [constructor |]
    | exists RcvAck; split; [constructor |]
    | exists RcvFin; split; [constructor |] ]; cbn; repeat split.
Qed.

(** [conn_step] of an event leaves the state alone or takes an edge of the diagram
    whose cause the event shows. *)
Lemma step_in_diagram c ev c' out :
  conn_inv c -> event_ok ev -> conn_step c ev = Ok (c', out) ->
  st c' = st c \/ exists k, rfc793 (st c) k (st c') /\ shows c ev k.
Proof.
  intros HI Hev E. destruct ev as [clk seg|data|mp now|buf|now| |now| |]; cbn [conn_step event_ok] in *.
  - destruct Hev as [Hclk Hseg]. pose proof (process_segment_ends c clk seg HI Hclk) as He.
    destruct (process_segment c clk seg) as [[c1 r]| |]; try done.
    injection E as <- <-. cbn [ends_in] in He. rewrite He. apply tcp_next_in_diagram.
  - injection E as <- <-. left. unfold write_data. by destruct (SendBuffer_write (send_buf c) data).
  - left. destruct (next_segment_to_send_spec c mp now HI ltac:(lia)) as [En|(pl & c1 & En & -> & _)];
      rewrite En in E; by injection E as <- <-.
  - injection E as <- <-. left. unfold read_received. destruct (recv_buf c) as [rb|]; [|done].
    by destruct (RecvBuffer_read rb buf) as [[? ?] ?].
  - left. destruct (take_retransmits_spec c now HI Hev) as (rq & c1 & Er & _ & _ & ->).
    rewrite Er in E. injection E as <- <-. by destruct (map _ (List.filter _ _)).
  - unfold initiate_close in E. destruct (st c) eqn:Hst; injection E as <- <-;
      try (left; exact Hst); right; exists UserClose; (split; [constructor | exact I]).
  - injection E as <- <-. unfold tick_time_wait, state_eqb. case_bool_decide as Hst; cbn [negb]; [|by left].
    destruct (time_wait_start c) as [t|] eqn:Et; [|by left].
    destruct (Z.leb_spec TWO_MSL (duration_since now t)); [right | by left].
    exists Timeout2MSL. rewrite Hst. split; [constructor | cbn; by exists t].
  - unfold connect, state_eqb in E. case_bool_decide as Hst; cbn [negb] in E; injection E as <- <-; [|by left].
    right. exists UserOpen. rewrite Hst. split; [constructor | exact I].
  - unfold zero_window_probe in E. left.
    destruct (_ || _)%bool; [by injection E as <- <- |].
    by destruct (SendBuffer_next_segment (send_buf c) 1) as [[? ?]|]; injection E as <- <-.
Qed.

(** A run that ends in state [s], each step of which leaves the state alone or takes
    an edge whose cause its event shows. *)
Inductive rfc793_run : Connection -> list Event -> TcbState -> Prop :=
  | run_nil c : rfc793_run c [] (st c)
  | run_cons c ev evs c1 out s :
      conn_step c ev = Ok (c1, out) ->
      st c1 = st c \/ (exists k, rfc793 (st c) k (st c1) /\ shows c ev k) ->
      rfc793_run c1 evs s -> rfc793_run c (ev :: evs) s.


(** ** Safety of whole runs *)
(** The peer's view: the segment parses, with the ports of this connection. *)
Definition parses_at_peer (t : Tcb) (raw : list Z) : Prop :=
  exists seg, TcpSegment_parse raw (local_ip t) (remote_ip t) = Ok seg /\
    src_port (header seg) = local_port t /\ dst_port (header seg) = remote_port t.

Lemma emits_parses c raw : emits c raw -> parses_at_peer (tcb c) raw.
Proof.
  intros [(b & Hb & -> & E1 & E2 & E3 & E4)]. exists (wire_segment b).
  rewrite <- E1, <- E2. split; [by apply parse_build | done].
Qed.

(** ** A concrete run *)
Definition demo_tcb : Tcb :=
  {| state := Listen; local_ip := [192; 168; 100; 2]; local_port := 80;
     remote_ip := [10; 0; 0; 1]; remote_port := 12345;
     tcb_snd := mkSendSequence 4294967295 4294967295 65535 4294967295;
     tcb_rcv := mkRecvSequence 0 65535 0; cwnd := 1460; ssthresh := 65535; dup_ack_count := 0 |}.

Definition demo_clock : Clock := mkClock 1000000000 1000000000.

Definition demo_seg (fl : TcpFlags) (seq ack : Z) (pl : list Z) : TcpSegment :=
  {| header := {| src_port := 12345; dst_port := 80; seq_num := seq; ack_num := ack;
       data_offset := 5; flags := fl; window := 8000; tcp_csum := 0; urgent_ptr := 0 |};
     payload := pl |}.

(** Handshake, four bytes in, two bytes out, their acknowledgement, the peer's FIN,
    our FIN and its acknowledgement. *)
Definition demo_events : list Event :=
  [EvSegment demo_clock (demo_seg F_SYN 500 0 []);
   EvSegment demo_clock (demo_seg F_ACK 501 0 []);
   EvSegment demo_clock (demo_seg F_PSH_ACK 501 0 [71; 69; 84; 32]);
   EvRead [0; 0; 0; 0]; EvWrite [79; 75]; EvSend 1460 1000000000; EvRetransmit 1100000000;
   EvSegment demo_clock (demo_seg F_ACK 505 2 []);
   EvSegment demo_clock (demo_seg F_FIN_ACK 505 2 []);
   EvClose; EvSegment demo_clock (demo_seg F_ACK 506 3 [])].

Lemma demo_tcb_fresh : fresh_tcb demo_tcb.
Proof. split; try reflexivity; try (by vm_compute); split; [reflexivity | bytes_tac | reflexivity | bytes_tac]. Qed.

Lemma demo_inv : conn_inv (Connection_new demo_tcb).
Proof. apply conn_inv_new; [exact demo_tcb_fresh | by left]. Qed.

Lemma demo_events_ok : Forall event_ok demo_events.
Proof.
  unfold demo_events. repeat (apply Forall_cons; split); try apply Forall_nil_2;
    first [exact I | solve [cbn; bytes_tac] | seg_ok_tac].
Qed.

Example demo_run_end :
  match conn_run (Connection_new demo_tcb) demo_events with
  | Ok (c, outs) => st c = Closed /\ length outs = 5%nat
  | _ => False
  end.
Proof. vm_compute. done. Qed.

Lemma process_segment_refines_machine_witness :
  exists c' r, process_segment (Connection_new demo_tcb) demo_clock (demo_seg F_SYN 500 0 []) = Ok (c', r) /\
    conn_inv c' /\ st c' = SynReceived.
Proof.
  apply (process_segment_refines_machine (Connection_new demo_tcb) demo_clock (demo_seg F_SYN 500 0 []) demo_inv);
    seg_ok_tac.
Defined.

