(* ===== verification/Session.v ===== *)
(** * Two connections talking to each other

    A client and a server connection joined by a lossless wire: what one builds
    the other parses and processes. The theorems follow a whole session: the
    three-way handshake, a data exchange with its acknowledgement, and the orderly
    close down to CLOSED on both sides. *)
From S2P Require Import Prelude Errors Tcb Ipv4 Header Ring SendBuffer RecvBuffer Float64 Retransmit Connection.

(** Parsing with the pseudo-header of this connection, then processing. *)
Definition deliver (c : Connection) (clk : Clock) (raw : list Z) : Outcome :=
  seg ← TcpSegment_parse raw (remote_ip (tcb c)) (local_ip (tcb c));
  process_segment c clk seg.

Record mirrored (a b : Tcb) : Prop := {
  mi_ip1 : local_ip a = remote_ip b;
  mi_ip2 : local_ip b = remote_ip a;
  mi_port1 : local_port a = remote_port b;
  mi_port2 : local_port b = remote_port a }.

Lemma mirrored_sym a b : mirrored a b -> mirrored b a.
Proof. intros []. by split. Qed.

Lemma mirrored_ends a a' b b' :
  same_ends a a' -> same_ends b b' -> mirrored (tcb a) (tcb b) -> mirrored (tcb a') (tcb b').
Proof. intros (? & ? & ? & ?) (? & ? & ? & ?) []. split; congruence. Qed.

Lemma wrapping_sub_diag x : wrapping_sub x x = 0.
Proof. unfold wrapping_sub. by rewrite Z.sub_diag. Qed.

(** ** The wire *)
Lemma deliver_builder a b clk bd :
  mirrored (tcb a) (tcb b) -> builder_ok bd ->
  sb_src_ip bd = local_ip (tcb a) -> sb_dst_ip bd = remote_ip (tcb a) ->
  deliver b clk (SegmentBuilder_build bd) = process_segment b clk (wire_segment bd).
Proof.
  intros [] Hb E1 E2. unfold deliver.
  replace (remote_ip (tcb b)) with (sb_src_ip bd) by congruence.
  replace (local_ip (tcb b)) with (sb_dst_ip bd) by congruence.
  by rewrite parse_build.
Qed.

Lemma ctl_builder_ok c fl seq : conn_inv c -> is_u32 seq -> builder_ok (ctl_builder c fl seq).
Proof.
  intros HI Hs. pose proof (current_window_range c HI). destruct HI.
  split; cbn; try done. by apply Forall_nil_2.
Qed.

Lemma data_builder_ok c fl seq pl :
  conn_inv c -> is_u32 seq -> bytes_ok pl -> len pl <= MSS -> builder_ok (data_builder c fl seq pl).
Proof.
  intros HI Hs Hb Hl. pose proof (current_window_range c HI). destruct HI. unfold MSS in *.
  split; cbn; try done. lia.
Qed.

Lemma syn_builder_ok c :
  conn_inv c -> builder_ok (SegmentBuilder_flags F_SYN (SegmentBuilder_seq (iss c) (builder c))).
Proof. intros []. split; cbn; try done. by apply Forall_nil_2. Qed.

Lemma deliver_ctl a b clk fl seq :
  mirrored (tcb a) (tcb b) -> conn_inv a -> is_u32 seq ->
  deliver b clk (SegmentBuilder_build (ctl_builder a fl seq)) =
    process_segment b clk (wire_segment (ctl_builder a fl seq)).
Proof.
  intros Hm HI Hs. apply (deliver_builder a); [done | by apply ctl_builder_ok | reflexivity..].
Qed.

Lemma deliver_data a b clk fl seq pl :
  mirrored (tcb a) (tcb b) -> conn_inv a -> is_u32 seq -> bytes_ok pl -> len pl <= MSS ->
  deliver b clk (SegmentBuilder_build (data_builder a fl seq pl)) =
    process_segment b clk (wire_segment (data_builder a fl seq pl)).
Proof.
  intros Hm HI Hs Hb Hl.
  apply (deliver_builder a); [done | by apply data_builder_ok | reflexivity..].
Qed.

(** ** Sequence numbers one apart *)
Lemma ack_one x : is_u32 x -> ack_acceptable x (wrapping_add x 1) (wrapping_add x 1) = true.
Proof.
  intros Hx. unfold ack_acceptable, seq_le. rewrite Z.eqb_refl. cbn [orb]. rewrite andb_true_r.
  apply seq_lt_spec; [done | apply as_u32_range |]. word_lia.
Qed.

Lemma ack_same x y : ack_acceptable x x y = false.
Proof. unfold ack_acceptable, seq_lt. by rewrite Z.eqb_refl. Qed.

Lemma wrapping_add_0 x : is_u32 x -> wrapping_add x 0 = x.
Proof. intros. word_lia. Qed.

(** ** An idle session *)
(** Everything [c] sent has been received by [s] and acknowledged. *)
Record idle_flow (c s : Connection) : Prop := {
  if_una : una c = nxt c;
  if_sb_una : s_una (send_buf c) = nxt c;
  if_sb_nxt : s_nxt (send_buf c) = nxt c;
  if_sb_len : s_len (send_buf c) = 0;
  if_rtq : entries (retransmit_queue c) = [];
  if_rnxt : rnxt s = nxt c;
  if_rb : exists rb, recv_buf s = Some rb /\ r_nxt rb = nxt c /\ r_len rb = 0 /\ r_ooo rb = ∅ }.

Record session (c s : Connection) : Prop := {
  se_client : conn_inv c;
  se_server : conn_inv s;
  se_c_est : st c = Established;
  se_s_est : st s = Established;
  se_mirror : mirrored (tcb c) (tcb s);
  se_up : idle_flow c s;
  se_down : idle_flow s c }.

(** ** The handshake *)
Lemma syn_received_ack c seg ack w :
  flags (header seg) = F_ACK -> ack_acceptable (una c) ack (nxt c) = true ->
  ack_num (header seg) = ack -> window (header seg) = w ->
  handle_syn_received c seg =
    Ok (set_state Established (set_snd_wnd w
          (set_send_buf (SendBuffer_acknowledge (send_buf c) ack) (set_snd_una ack c))), None).
Proof. intros Hf Ha <- <-. unfold handle_syn_received. rewrite Hf, Ha. reflexivity. Qed.

Section Handshake.
Context (c s : Tcb) (clk : Clock).
Context (Hc : fresh_tcb c) (Hs : fresh_tcb s) (Hcs : state c = Closed) (Hss : state s = Listen)
        (Hm : mirrored c s).

Let c0 := Connection_new c.
Let s0 := Connection_new s.
Let x := snd_iss (tcb_snd c).
Let y := snd_iss (tcb_snd s).

Definition client_syn_sent : Connection := set_state SynSent (set_snd_nxt (wrapping_add x 1) c0).
Definition server_syn_received : Connection :=
  set_state SynReceived (set_snd_nxt (wrapping_add y 1) (set_rcv_wnd 65535
    (set_rcv_nxt (wrapping_add x 1) (set_rcv_irs x (set_recv_buf (Some (RecvBuffer_new x)) s0))))).
Definition client_established : Connection :=
  set_state Established (set_recv_buf (Some (RecvBuffer_new y)) (set_rcv_nxt (wrapping_add y 1)
    (set_rcv_irs y (set_snd_wnd 65535 (set_snd_una (wrapping_add x 1) client_syn_sent))))).
Definition server_established : Connection :=
  set_state Established (set_snd_wnd 65535
    (set_send_buf (SendBuffer_acknowledge (send_buf server_syn_received) (wrapping_add y 1))
      (set_snd_una (wrapping_add y 1) server_syn_received))).

Lemma hs_iss : is_u32 x /\ is_u32 y.
Proof using Hc Hs. split; [exact (ft_iss _ Hc) | exact (ft_iss _ Hs)]. Qed.

Lemma hs_mirror a b : same_ends c0 a -> same_ends s0 b -> mirrored (tcb a) (tcb b).
Proof using Hm. intros Ha Hb. by apply (mirrored_ends c0 a s0 b). Qed.

Lemma hs_client_inv : conn_inv c0.
Proof using Hc Hcs. apply conn_inv_new; [done | by right]. Qed.
Lemma hs_server_inv : conn_inv s0.
Proof using Hs Hss. apply conn_inv_new; [done | by left]. Qed.

Lemma hs_client_syn_inv : conn_inv client_syn_sent.
Proof using Hc Hcs. pose proof hs_client_inv. unfold client_syn_sent. conn_inv_tac. Qed.
Lemma hs_server_syn_inv : conn_inv server_syn_received.
Proof using Hs Hss. pose proof hs_server_inv. unfold server_syn_received. conn_inv_tac. Qed.

Lemma hs_connect : connect c0 = (client_syn_sent, Some (build_syn c0)).
Proof using Hcs. unfold connect. cbn. by rewrite Hcs. Qed.

Lemma hs_syn : deliver s0 clk (build_syn c0) =
  Ok (server_syn_received, Some (build_syn_ack server_syn_received)).
Proof using Hc Hcs Hss Hm.
  unfold build_syn. rewrite (deliver_builder c0 s0 clk _ Hm (syn_builder_ok _ hs_client_inv)) by done.
  unfold process_segment. cbn [c0 s0 tcb Connection_new]. by rewrite Hss.
Qed.

Lemma hs_syn_ack : deliver client_syn_sent clk (build_syn_ack server_syn_received) =
  Ok (client_established, Some (build_ack client_established)).
Proof using Hc Hs Hcs Hss Hm.
  destruct hs_iss as [Hx Hy]. unfold build_syn_ack.
  rewrite (deliver_ctl server_syn_received) by
    (first [exact hs_server_syn_inv | exact Hy | apply mirrored_sym, hs_mirror; same_ends_tac]).
  unfold process_segment. cbn [st state tcb client_syn_sent set_state with_tcb].
  unfold handle_syn_sent.
  change (ack_num (header (wire_segment (ctl_builder server_syn_received F_SYN_ACK (iss server_syn_received)))))
    with (wrapping_add x 1).
  assert (una client_syn_sent = x) as Eu by (cbn; by rewrite (ft_snd _ Hc)).
  change (nxt client_syn_sent) with (wrapping_add x 1). rewrite Eu, ack_one by done. reflexivity.
Qed.

Lemma hs_client_est_inv : conn_inv client_established.
Proof using Hc Hcs.
  pose proof hs_client_syn_inv. unfold client_established. conn_inv_tac. by vm_compute.
Qed.

Lemma hs_send_buf : send_buf server_established = send_buf s0.
Proof using.
  change (send_buf server_established)
    with (SendBuffer_acknowledge (send_buf s0) (s_una (send_buf s0))).
  unfold SendBuffer_acknowledge. by rewrite wrapping_sub_diag.
Qed.

Lemma hs_server_est_inv : conn_inv server_established.
Proof using Hs Hss.
  pose proof hs_server_syn_inv. unfold server_established.
  apply inv_set_state; [| discriminate | by eexists]. apply inv_set_snd_wnd; [|by vm_compute].
  apply (inv_acknowledge (set_snd_una (wrapping_add y 1) server_syn_received));
    [|apply as_u32_range]. conn_inv_tac.
Qed.

Lemma hs_session : session client_established server_established.
Proof using Hc Hs Hcs Hss Hm.
  split; [exact hs_client_est_inv | exact hs_server_est_inv | reflexivity | reflexivity
         | apply hs_mirror; same_ends_tac | |];
    (split; [reflexivity | | | | reflexivity | reflexivity
            | eexists; split; [reflexivity | repeat split]]);
    try reflexivity; by rewrite hs_send_buf.
Qed.

Lemma hs_ack : deliver server_syn_received clk (build_ack client_established) =
  Ok (server_established, None).
Proof using Hc Hs Hcs Hss Hm.
  destruct hs_iss as [Hx Hy]. unfold build_ack. pose proof hs_client_est_inv as Hi.
  rewrite (deliver_ctl client_established) by
    (first [exact Hi | exact (as_u32_range _) | apply hs_mirror; same_ends_tac]).
  unfold process_segment. cbn [st state tcb server_syn_received set_state with_tcb].
  apply syn_received_ack; [reflexivity | | reflexivity | reflexivity].
  assert (una server_syn_received = y) as -> by (cbn; by rewrite (ft_snd _ Hs)).
  by apply ack_one.
Qed.
End Handshake.

(** C9. The three-way handshake: a client that connects and a server that listens,
    on mirrored endpoints and with any two initial sequence numbers (wrap-around
    included), exchange SYN, SYN-ACK and ACK as bytes on the wire and are then both
    ESTABLISHED, each expecting exactly the other's next number, with nothing in
    flight. *)
Theorem three_way_handshake c s clk :
  fresh_tcb c -> fresh_tcb s -> state c = Closed -> state s = Listen -> mirrored c s ->
  exists c1 syn s1 syn_ack c2 ack s2,
    connect (Connection_new c) = (c1, Some syn) /\
    deliver (Connection_new s) clk syn = Ok (s1, Some syn_ack) /\
    deliver c1 clk syn_ack = Ok (c2, Some ack) /\
    deliver s1 clk ack = Ok (s2, None) /\
    session c2 s2 /\ wnd c2 = 65535 /\ wnd s2 = 65535.
Proof.
  intros Hc Hs Hcs Hss Hm. do 7 eexists.
  split; [by apply hs_connect |]. split; [by apply (hs_syn c s) |].
  split; [by apply (hs_syn_ack c s) |]. split; [by apply (hs_ack c s) |].
  split; [by apply (hs_session c s) | done].
Qed.

(** ** The orderly close *)
Lemma established_fin c clk seg :
  flags (header seg) = F_FIN_ACK -> payload seg = [] -> ack_num (header seg) = una c ->
  una c = nxt c ->
  handle_established c clk seg =
    let c' := set_state CloseWait (set_rcv_nxt (after_fin seg) c) in Ok (c', Some (build_ack c')).
Proof.
  intros Hf Hp Ha Hu. unfold handle_established, established_ack, established_data.
  rewrite Hf, Hp, Ha, ack_same, Hu, !Z.eqb_refl. reflexivity.
Qed.

Lemma fin_wait_1_ack c clk seg :
  conn_inv c -> clock_ok clk -> seg_ok seg -> st c = FinWait1 ->
  flags (header seg) = F_ACK -> ack_num (header seg) = nxt c ->
  ack_acceptable (una c) (nxt c) (nxt c) = true ->
  exists c', process_segment c clk seg = Ok (c', None) /\ conn_inv c' /\ same_ends c c' /\
    st c' = FinWait2 /\ nxt c' = nxt c /\ rnxt c' = rnxt c /\ recv_buf c' = recv_buf c.
Proof.
  intros HI Hclk Hseg Hst Hf Ha Hacc.
  pose proof (process_segment_ok c clk seg HI Hclk Hseg) as Hok. revert Hok.
  unfold process_segment. rewrite Hst. unfold handle_fin_wait_1. rewrite Hf, Ha, Hacc.
  cbn [flag_rst flag_ack flag_fin F_ACK andb retransmit_queue set_send_buf set_snd_una with_tcb].
  unfold seq_le. rewrite Z.eqb_refl. cbn [orb andb].
  destruct (acknowledge_ok (E:=MagnumError) (retransmit_queue c) (nxt c) (clock_ack clk)
    (ci_rtq _ HI) (proj1 Hclk)) as (rq & -> & _). cbn [mbind Res_bind].
  intros (HI' & He & _). eexists. split; [reflexivity |]. by repeat (split; [assumption || reflexivity |]).
Qed.

Lemma seg_ok_ctl c fl seq :
  conn_inv c -> is_u32 seq -> seg_ok (wire_segment (ctl_builder c fl seq)).
Proof.
  intros HI Hs. split; [done |]. split; [exact (ci_rnxt _ HI) |].
  split; [exact (current_window_range _ HI) | apply Forall_nil_2].
Qed.

Lemma after_fin_ctl c fl seq :
  is_u32 seq -> after_fin (wire_segment (ctl_builder c fl seq)) = wrapping_add seq 1.
Proof.
  intros Hs. unfold after_fin. cbn [wire_segment header payload seq_num sb_seq sb_payload ctl_builder
    SegmentBuilder_window SegmentBuilder_flags SegmentBuilder_ack SegmentBuilder_seq builder
    SegmentBuilder_new].
  change (as_u32 (len [])) with 0. by rewrite wrapping_add_0.
Qed.

Section Close.
Context (c s : Connection) (clk : Clock) (HS : session c s) (Hclk : clock_ok clk).

Definition client_fin_wait_1 : Connection := set_state FinWait1 (set_snd_nxt (wrapping_add (nxt c) 1) c).
Definition server_close_wait : Connection :=
  set_state CloseWait (set_rcv_nxt (wrapping_add (nxt c) 1) s).
Definition server_last_ack : Connection :=
  set_state LastAck (set_snd_nxt (wrapping_add (nxt s) 1) server_close_wait).

Lemma cl_c_inv : conn_inv client_fin_wait_1.
Proof using HS.
  pose proof (se_client _ _ HS). unfold client_fin_wait_1. apply inv_set_state; [conn_inv_tac | done |].
  destruct (if_rb _ _ (se_down _ _ HS)) as (rb & Hrb & _). cbn. rewrite Hrb. by eexists.
Qed.
Lemma cl_s_inv : conn_inv server_close_wait.
Proof using HS.
  pose proof (se_server _ _ HS). unfold server_close_wait. apply inv_set_state; [conn_inv_tac | done |].
  destruct (if_rb _ _ (se_up _ _ HS)) as (rb & Hrb & _). cbn. rewrite Hrb. by eexists.
Qed.
Lemma cl_s_inv2 : conn_inv server_last_ack.
Proof using HS.
  pose proof cl_s_inv. unfold server_last_ack. apply inv_set_state; [conn_inv_tac | done |].
  destruct (if_rb _ _ (se_up _ _ HS)) as (rb & Hrb & _). cbn. rewrite Hrb. by eexists.
Qed.

Lemma cl_close : initiate_close c = (client_fin_wait_1, Some (build_fin_ack c)).
Proof using HS. unfold initiate_close. by rewrite (se_c_est _ _ HS). Qed.

Lemma cl_fin : deliver s clk (build_fin_ack c) =
  Ok (server_close_wait, Some (build_ack server_close_wait)).
Proof using HS.
  pose proof (ci_nxt _ (se_client _ _ HS)) as Hn. unfold build_fin_ack.
  rewrite deliver_ctl by (apply HS || exact Hn).
  unfold process_segment. rewrite (se_s_est _ _ HS).
  rewrite established_fin; [| reflexivity | reflexivity | |exact (if_una _ _ (se_down _ _ HS))].
  - by rewrite after_fin_ctl.
  - transitivity (rnxt c); [reflexivity |].
    by rewrite (if_rnxt _ _ (se_down _ _ HS)), (if_una _ _ (se_down _ _ HS)).
Qed.

Lemma cl_ack : exists c2,
  deliver client_fin_wait_1 clk (build_ack server_close_wait) = Ok (c2, None) /\
  conn_inv c2 /\ same_ends c c2 /\ st c2 = FinWait2 /\ nxt c2 = wrapping_add (nxt c) 1 /\
  rnxt c2 = nxt s /\ recv_buf c2 = recv_buf c.
Proof using HS Hclk.
  pose proof (ci_nxt _ (se_client _ _ HS)) as Hn. pose proof (ci_nxt _ (se_server _ _ HS)) as Hn'.
  assert (Hm : mirrored (tcb server_close_wait) (tcb client_fin_wait_1)).
  { apply (mirrored_ends s _ c _); [same_ends_tac | same_ends_tac |]. by apply mirrored_sym, HS. }
  unfold build_ack. rewrite deliver_ctl by (exact Hm || exact cl_s_inv || exact Hn').
  destruct (fin_wait_1_ack client_fin_wait_1 clk
    (wire_segment (ctl_builder server_close_wait F_ACK (nxt server_close_wait))))
    as (c2 & E & HI2 & He & Hst & En & Er & Eb); try reflexivity; try exact Hclk.
  - exact cl_c_inv.
  - apply seg_ok_ctl; [exact cl_s_inv | exact Hn'].
  - change (ack_acceptable (una c) (wrapping_add (nxt c) 1) (wrapping_add (nxt c) 1) = true).
    rewrite (if_una _ _ (se_up _ _ HS)). by apply ack_one.
  - exists c2. split; [exact E |]. split; [exact HI2 |]. split; [exact He |]. split; [exact Hst |].
    split; [exact En |]. split; [rewrite Er; exact (if_rnxt _ _ (se_down _ _ HS)) | exact Eb].
Qed.

Lemma cl_close2 : initiate_close server_close_wait =
  (server_last_ack, Some (build_fin_ack server_close_wait)).
Proof using. reflexivity. Qed.

Context (c2 : Connection) (H2 : conn_inv c2) (E2 : same_ends c c2) (S2 : st c2 = FinWait2)
        (N2 : nxt c2 = wrapping_add (nxt c) 1) (B2 : is_Some (recv_buf c2)).

Definition client_time_wait : Connection :=
  set_time_wait_start (Some (clock_tw clk)) (set_state TimeWait
    (set_rcv_nxt (wrapping_add (nxt s) 1) c2)).

Lemma cl_c3_inv : conn_inv client_time_wait.
Proof using H2 B2. unfold client_time_wait. conn_inv_tac. Qed.

Lemma cl_fin2 : deliver c2 clk (build_fin_ack server_close_wait) =
  Ok (client_time_wait, Some (build_ack client_time_wait)).
Proof using HS H2 E2 S2 B2.
  pose proof (ci_nxt _ (se_server _ _ HS)) as Hn'.
  assert (Hm : mirrored (tcb server_close_wait) (tcb c2)).
  { apply (mirrored_ends s _ c _); [same_ends_tac | done |]. by apply mirrored_sym, HS. }
  unfold build_fin_ack. rewrite deliver_ctl by (exact Hm || (apply cl_s_inv) || exact Hn').
  unfold process_segment. rewrite S2. unfold handle_fin_wait_2.
  rewrite after_fin_ctl by exact Hn'. reflexivity.
Qed.

Lemma cl_ack2 : deliver server_last_ack clk (build_ack client_time_wait) =
  Ok (set_state Closed (set_snd_una (wrapping_add (nxt s) 1) server_last_ack), None).
Proof using HS H2 E2 N2 B2.
  pose proof (ci_nxt _ (se_server _ _ HS)) as Hn'.
  assert (Hm : mirrored (tcb client_time_wait) (tcb server_last_ack)).
  { apply (mirrored_ends c _ s _); [exact E2 | same_ends_tac |]. by apply HS. }
  unfold build_ack. rewrite deliver_ctl by (exact Hm || exact cl_c3_inv || exact (ci_nxt _ H2)).
  unfold process_segment. cbn [st state tcb server_last_ack set_state with_tcb]. unfold handle_last_ack.
  change (ack_num (header (wire_segment (ctl_builder client_time_wait F_ACK (nxt client_time_wait)))))
    with (wrapping_add (nxt s) 1).
  change (una server_last_ack) with (una s). change (nxt server_last_ack) with (wrapping_add (nxt s) 1).
  rewrite (if_una _ _ (se_down _ _ HS)), ack_one by done. reflexivity.
Qed.

Lemma cl_tick now :
  tick_time_wait client_time_wait now =
    if TWO_MSL <=? duration_since now (clock_tw clk)
    then (set_state Closed client_time_wait, true) else (client_time_wait, false).
Proof using. reflexivity. Qed.
End Close.

(** C17. The orderly close: from an idle session, the client's FIN, the server's
    acknowledgement, the server's FIN and the client's acknowledgement, all as
    bytes on the wire, take the client through FIN_WAIT_1, FIN_WAIT_2 and
    TIME_WAIT and the server through CLOSE_WAIT and LAST_ACK to CLOSED; the client
    is CLOSED at the first tick at least 2MSL (60 s) after it entered TIME_WAIT,
    and not before. *)
Theorem orderly_close c s clk :
  session c s -> clock_ok clk ->
  exists c1 fin s1 ack c2 s2 fin2 c3 ack2 s3,
    initiate_close c = (c1, Some fin) /\ st c1 = FinWait1 /\
    deliver s clk fin = Ok (s1, Some ack) /\ st s1 = CloseWait /\
    deliver c1 clk ack = Ok (c2, None) /\ st c2 = FinWait2 /\
    initiate_close s1 = (s2, Some fin2) /\ st s2 = LastAck /\
    deliver c2 clk fin2 = Ok (c3, Some ack2) /\ st c3 = TimeWait /\
    deliver s2 clk ack2 = Ok (s3, None) /\ st s3 = Closed /\
    forall now, tick_time_wait c3 now =
      if TWO_MSL <=? duration_since now (clock_tw clk)
      then (set_state Closed c3, true) else (c3, false).
Proof.
  intros HS Hclk. destruct (cl_ack c s clk HS Hclk) as (c2 & Ea & HI2 & He2 & Hs2 & Hn2 & _ & Hb2).
  assert (B2 : is_Some (recv_buf c2)).
  { rewrite Hb2. destruct (if_rb _ _ (se_down _ _ HS)) as (rb & -> & _). by eexists. }
  exists (client_fin_wait_1 c), (build_fin_ack c), (server_close_wait c s),
    (build_ack (server_close_wait c s)), c2, (server_last_ack c s),
    (build_fin_ack (server_close_wait c s)), (client_time_wait s clk c2),
    (build_ack (client_time_wait s clk c2)), (set_state Closed
      (set_snd_una (wrapping_add (nxt s) 1) (server_last_ack c s))).
  split; [exact (cl_close c s HS) |]. split; [reflexivity |].
  split; [exact (cl_fin c s clk HS) |]. split; [reflexivity |].
  split; [exact Ea |]. split; [exact Hs2 |].
  split; [reflexivity |]. split; [reflexivity |].
  split; [by apply (cl_fin2 c s) |]. split; [reflexivity |].
  split; [by apply (cl_ack2 c s clk HS c2) |]. split; [reflexivity |]. intros now. apply cl_tick.
Qed.

(** ** A data exchange *)
Lemma ack_n x n : is_u32 x -> 0 < n < 2147483648 ->
  ack_acceptable x (wrapping_add x n) (wrapping_add x n) = true.
Proof.
  intros Hx Hn. unfold ack_acceptable, seq_le. rewrite Z.eqb_refl. cbn [orb]. rewrite andb_true_r.
  apply seq_lt_spec; [done | apply as_u32_range |]. word_lia.
Qed.

Section Exchange.
Context (c s : Connection) (clk : Clock) (now : Z) (data : list Z).
Context (HS : session c s) (Hclk : clock_ok clk) (Hnow : instant_ok now) (Hd : bytes_ok data)
        (Hl : 0 < len data <= MSS) (Hw : len data <= wnd c).

Definition client_wrote : Connection := set_send_buf (fst (SendBuffer_write (send_buf c) data)) c.
Definition client_sent : Connection :=
  set_snd_nxt (wrapping_add (s_nxt (send_buf client_wrote)) (as_u32 (len data)))
    (set_retransmit_queue (RetransmitQueue_push (retransmit_queue client_wrote)
        (s_nxt (send_buf client_wrote)) data now)
      (set_send_buf (SendBuffer_advance_nxt (send_buf client_wrote) (len data)) client_wrote)).

Lemma ex_len : as_u32 (len data) = len data.
Proof using Hl. apply as_u32_id. unfold MSS, is_u32, U32 in *. lia. Qed.

Lemma ex_write : write_data c data = (client_wrote, len data) /\ conn_inv client_wrote /\
  s_contents (send_buf client_wrote) = data /\ s_len (send_buf client_wrote) = len data.
Proof using HS Hd Hl.
  pose proof (se_client _ _ HS) as HI. pose proof (ci_send _ HI) as Hs.
  pose proof (if_sb_len _ _ (se_up _ _ HS)) as H0.
  destruct (s_contents_write (send_buf c) data Hs) as (Hc & Hn & Hlen).
  pose proof (len_s_contents _ Hs) as Hl0. rewrite H0 in *.
  assert (E0 : s_contents (send_buf c) = []).
  { destruct (s_contents (send_buf c)); [done |]. rewrite len_cons in Hl0.
    pose proof (len_nonneg l). lia. }
  destruct (write_data_ok c data HI Hd) as [HI1 _].
  unfold write_data in *. unfold client_wrote.
  destruct (SendBuffer_write (send_buf c) data) as [sb n]. cbn [fst snd] in *.
  unfold MSS, SEND_BUF_SIZE in *. rewrite Z.min_l in * by lia.
  split; [by rewrite Hn |]. split; [exact HI1 |]. cbn [send_buf set_send_buf].
  rewrite Hc, E0. unfold len. rewrite Nat2Z.id, firstn_all. split; [done |].
  rewrite Hlen. unfold len. lia.
Qed.

Lemma ex_wrote_frame : s_una (send_buf client_wrote) = nxt c /\ s_nxt (send_buf client_wrote) = nxt c.
Proof using HS.
  split; [exact (if_sb_una _ _ (se_up _ _ HS)) | exact (if_sb_nxt _ _ (se_up _ _ HS))].
Qed.

Lemma ex_send : next_segment_to_send client_wrote MSS now =
  (client_sent, Some (SegmentBuilder_build (data_builder client_sent F_PSH_ACK (nxt c) data))).
Proof using HS Hd Hl Hw.
  destruct ex_write as (_ & HI1 & Hc & Hsl). destruct ex_wrote_frame as [Hu Hn].
  pose proof (ci_cwnd _ HI1) as Hcw. pose proof (ci_wnd _ HI1) as Hwn.
  unfold next_segment_to_send.
  change (wnd client_wrote) with (wnd c) in *. change (nxt client_wrote) with (nxt c).
  change (una client_wrote) with (una c). change (cw client_wrote) with (cw c) in *.
  rewrite (if_una _ _ (se_up _ _ HS)), wrapping_sub_diag, as_u32_id
    by (unfold is_u16, is_u32, U32 in *; lia).
  destruct (Z.leb_spec (Z.min (cw c) (wnd c)) 0); [lia |].
  rewrite next_segment_contents by (apply HI1 || (unfold MSS in *; lia)).
  unfold s_inflight. rewrite Hu, Hn, wrapping_sub_diag, Hsl, Hc. cbv zeta.
  rewrite !Z.sub_0_r, (Z.min_l (len data)) by lia.
  destruct (Z.ltb_spec 0 (len data)); [|lia].
  change (drop (Z.to_nat 0) data) with data.
  replace (take (Z.to_nat (len data)) data) with data
    by (unfold len; by rewrite Nat2Z.id, firstn_all).
  rewrite <- Hn. reflexivity.
Qed.

Lemma ex_sent_inv : conn_inv client_sent.
Proof using HS Hd Hl Hnow.
  destruct ex_write as (_ & HI1 & _). unfold client_sent. apply inv_sent; try assumption. lia.
Qed.

(** The server's side: the payload goes through [insert] at the expected number. *)
Definition data_seg : TcpSegment := wire_segment (data_builder client_sent F_PSH_ACK (nxt c) data).

Lemma ex_deliver : exists rb,
  let s1 := set_rcv_nxt (wrapping_add (nxt c) (len data)) (set_recv_buf (Some rb) s) in
  deliver s clk (SegmentBuilder_build (data_builder client_sent F_PSH_ACK (nxt c) data)) =
    Ok (s1, Some (build_ack s1)) /\
  r_contents rb = data /\ r_len rb = len data /\ r_ooo rb = ∅ /\
  r_nxt rb = wrapping_add (nxt c) (len data) /\ recv_wf rb /\ recv_bytes rb.
Proof using HS Hd Hl Hnow.
  pose proof (ci_nxt _ (se_client _ _ HS)) as Hn. pose proof (se_server _ _ HS) as HIs.
  destruct (if_rb _ _ (se_up _ _ HS)) as (rb0 & Erb & En & El & Eo).
  pose proof (ci_recv _ HIs) as Hwf. pose proof (ci_rbytes _ HIs) as Hby. rewrite Erb in Hwf, Hby.
  destruct (commit_all rb0 data Hwf) as (Ec & Ex & Ey);
    [unfold MSS, RECV_BUF_SIZE in *; lia |].
  rewrite En in Ex. rewrite El in Ey.
  assert (E0 : r_contents rb0 = []).
  { pose proof (len_r_contents _ Hwf) as Hz. rewrite El in Hz.
    destruct (r_contents rb0); [done |]. rewrite len_cons in Hz. pose proof (len_nonneg l). lia. }
  rewrite E0 in Ec. exists (RecvBuffer_commit rb0 data). cbv zeta.
  split; [|split_and!; [exact Ec | lia | exact Eo | exact Ex | by apply recv_wf_commit | by apply recv_bytes_commit]].
  assert (Hm : mirrored (tcb client_sent) (tcb s)).
  { apply (mirrored_ends c _ s _); [same_ends_tac | same_ends_tac | apply HS]. }
  rewrite deliver_data by (exact Hm || exact ex_sent_inv || exact Hn || exact Hd || lia).
  unfold process_segment. rewrite (se_s_est _ _ HS).
  unfold handle_established, established_ack, established_data. fold data_seg.
  change (flags (header data_seg)) with F_PSH_ACK. change (payload data_seg) with data.
  change (seq_num (header data_seg)) with (nxt c).
  assert (Ea : ack_num (header data_seg) = una s).
  { transitivity (rnxt c); [reflexivity |].
    by rewrite (if_rnxt _ _ (se_down _ _ HS)), (if_una _ _ (se_down _ _ HS)). }
  rewrite Ea, ack_same, (if_una _ _ (se_down _ _ HS)), !Z.eqb_refl.
  cbn [flag_rst flag_ack flag_fin F_PSH_ACK negb andb mbind Res_bind].
  replace (len data =? 0) with false by lia. cbn [negb andb].
  unfold receive_payload. rewrite Erb.
  change (seq_num (header data_seg)) with (nxt c). change (payload data_seg) with data.
  rewrite <- En, insert_at_nxt, drain_empty by (exact Hwf || lia || exact Eo).
  unfold RecvBuffer_next_expected. rewrite Ex, En. reflexivity.
Qed.

(** The client's side of the acknowledgement. *)
Lemma ex_sent_send_buf :
  let sb := SendBuffer_acknowledge (send_buf client_sent) (wrapping_add (nxt c) (len data)) in
  s_len sb = 0 /\ s_una sb = wrapping_add (nxt c) (len data) /\
  s_nxt sb = wrapping_add (nxt c) (len data).
Proof using HS Hd Hl.
  destruct ex_write as (_ & _ & _ & Hsl). destruct ex_wrote_frame as [Hu Hn].
  pose proof (ci_nxt _ (se_client _ _ HS)) as Hx.
  unfold SendBuffer_acknowledge. cbn [send_buf client_sent set_snd_nxt set_retransmit_queue
    set_send_buf with_tcb SendBuffer_advance_nxt s_una s_len s_nxt].
  rewrite Hu, Hsl, Hn, ex_len.
  assert (Hk : wrapping_sub (wrapping_add (nxt c) (len data)) (nxt c) = len data)
    by (unfold MSS in *; word_lia).
  rewrite Hk. replace (len data =? 0) with false by lia.
  replace (len data <? len data) with false by lia. cbn. lia.
Qed.

Lemma ex_sent_rtq e :
  In e (entries (retransmit_queue client_sent)) ->
  unacked (wrapping_add (nxt c) (len data)) e = false.
Proof using HS Hl.
  destruct ex_wrote_frame as [Hu Hn].
  cbn [retransmit_queue client_sent set_snd_nxt set_retransmit_queue set_send_buf with_tcb].
  unfold RetransmitQueue_push. change (retransmit_queue client_wrote) with (retransmit_queue c).
  rewrite (if_rtq _ _ (se_up _ _ HS)), Hn. intros [<-|[]].
  unfold unacked, fully_acked, entry_end, seq_le. cbn [e_seq e_data]. by rewrite ex_len, Z.eqb_refl.
Qed.

Context (rb : RecvBuffer).
Definition server_got : Connection :=
  set_rcv_nxt (wrapping_add (nxt c) (len data)) (set_recv_buf (Some rb) s).

Lemma ex_ack :
  conn_inv server_got ->
  exists c3, deliver client_sent clk (build_ack server_got) = Ok (c3, None) /\
    conn_inv c3 /\ same_ends c c3 /\ st c3 = Established /\
    nxt c3 = wrapping_add (nxt c) (len data) /\ una c3 = wrapping_add (nxt c) (len data) /\
    rnxt c3 = rnxt c /\ recv_buf c3 = recv_buf c /\
    send_buf c3 = SendBuffer_acknowledge (send_buf client_sent) (wrapping_add (nxt c) (len data)) /\
    entries (retransmit_queue c3) = [].
Proof using HS Hd Hl Hnow Hclk.
  intros HIs. pose proof (ci_nxt _ (se_client _ _ HS)) as Hx.
  destruct ex_wrote_frame as [Hu Hn]. pose proof ex_sent_inv as HIc.
  assert (Hn1 : nxt client_sent = wrapping_add (nxt c) (len data)).
  { cbn [client_sent set_snd_nxt with_tcb tcb tcb_snd tcb_with_snd snd_nxt]. by rewrite ex_len, Hn. }
  assert (Hm : mirrored (tcb server_got) (tcb client_sent)).
  { apply (mirrored_ends s _ c _); [same_ends_tac | same_ends_tac |]. by apply mirrored_sym, HS. }
  unfold build_ack. rewrite deliver_ctl by (exact Hm || exact HIs || exact (ci_nxt _ HIs)).
  set (seg := wire_segment _).
  pose proof (process_segment_ok client_sent clk seg HIc Hclk (seg_ok_ctl _ _ _ HIs (ci_nxt _ HIs)))
    as Hok. revert Hok.
  unfold process_segment. change (st client_sent) with (st c). rewrite (se_c_est _ _ HS).
  unfold handle_established. change (flags (header seg)) with F_ACK.
  cbn [flag_rst flag_ack F_ACK].
  assert (Hacc : ack_acceptable (una client_sent) (ack_num (header seg)) (nxt client_sent) = true).
  { rewrite Hn1. change (una client_sent) with (una c). rewrite (if_una _ _ (se_up _ _ HS)).
    apply ack_n; [done | unfold MSS in *; lia]. }
  destruct (established_ack_new client_sent HIc clk Hclk seg Hacc)
    as (w & rq & -> & _ & _ & _ & Erq & _).
  destruct (acknowledge_ok (E:=MagnumError) (retransmit_queue client_sent) (ack_num (header seg))
    (clock_ack clk) (ci_rtq _ HIc) (proj1 Hclk)) as (rq' & Erq' & _ & Hes).
  rewrite Erq in Erq'. injection Erq' as <-.
  cbn [mbind Res_bind]. unfold established_data. change (flags (header seg)) with F_ACK.
  change (len (payload seg) =? 0) with true. cbn [negb andb flag_fin F_ACK].
  intros (HI3 & He3 & _). eexists. split; [reflexivity |]. split; [exact HI3 |].
  split; [exact He3 |]. split; [exact (se_c_est _ _ HS) |]. split; [exact Hn1 |].
  repeat (split; [reflexivity |]). cbn [retransmit_queue set_dup_ack_count set_snd_wnd with_tcb
    set_retransmit_queue]. rewrite Hes.
  apply List_filter_nil. exact ex_sent_rtq.
Qed.
End Exchange.

(** C10. A data exchange: from an idle session, up to one segment of data that the
    client's application writes (at most MSS bytes, within the peer's window) is
    sent as one segment, put in order by the server, acknowledged, and delivered
    byte for byte to the server's application; afterwards the session is idle
    again, with nothing left to retransmit. *)
Theorem data_exchange c s clk now data :
  session c s -> clock_ok clk -> instant_ok now ->
  bytes_ok data -> 0 < len data <= MSS -> len data <= wnd c ->
  exists c1 c2 raw s1 ack c3 s2,
    write_data c data = (c1, len data) /\
    next_segment_to_send c1 MSS now = (c2, Some raw) /\
    deliver s clk raw = Ok (s1, Some ack) /\
    deliver c2 clk ack = Ok (c3, None) /\
    received_available s1 = len data /\
    read_received s1 (zeroed (len data)) = (s2, data, len data) /\
    session c3 s2.
Proof.
  intros HS Hclk Hnow Hd Hl Hw. pose proof (se_server _ _ HS) as HIs.
  destruct (ex_deliver c s clk now data HS Hnow Hd Hl) as (rb & Ed & Ec & El & Eo & En & Hwf & Hby).
  assert (HI1 : conn_inv (server_got c s data rb)).
  { unfold server_got. conn_inv_tac. }
  destruct (ex_ack c s clk now data HS Hclk Hnow Hd Hl rb HI1)
    as (c3 & Ea & HI3 & He3 & Hst3 & Hn3 & Hu3 & Hr3 & Hb3 & Hsb3 & Hq3).
  destruct (ex_sent_send_buf c s now data HS Hd Hl) as (Hs1 & Hs2 & Hs3). rewrite <- Hsb3 in *.
  pose proof (r_contents_read rb (zeroed (len data)) Hwf) as Hrd.
  destruct (read_received_ok (server_got c s data rb) (zeroed (len data)) HI1) as [HI2 _].
  assert (Hz : len (zeroed (len data)) = len data) by (apply len_zeroed; lia).
  assert (Hlr : forall rb' out n, RecvBuffer_read rb (zeroed (len data)) = (rb', out, n) ->
    r_len rb' = r_len rb - n /\ r_nxt rb' = r_nxt rb /\ r_ooo rb' = r_ooo rb)
    by (intros ? ? ? [= <- _ <-]; done).
  cbn [read_received server_got recv_buf set_rcv_nxt with_tcb set_recv_buf] in HI2.
  destruct (RecvBuffer_read rb (zeroed (len data))) as [[rb' out] n] eqn:Er.
  destruct Hrd as (Hn & Hout & _). destruct (Hlr _ _ _ eq_refl) as (L1 & L2 & L3).
  rewrite Hz, El, Z.min_id in Hn. subst n. cbn [fst] in HI2.
  exists (client_wrote c data), (client_sent c now data). do 5 eexists.
  split; [by apply (ex_write c s) |]. split; [by apply (ex_send c s) |].
  split; [exact Ed |]. split; [exact Ea |]. split; [exact El |].
  split.
  { cbn [read_received recv_buf set_rcv_nxt with_tcb set_recv_buf]. rewrite Er. f_equal. f_equal.
    rewrite Hout, Ec, drop_ge
      by (apply Nat2Z.inj_le; change (len (zeroed (len data)) <= Z.of_nat (Z.to_nat (len data))); lia).
    rewrite app_nil_r. unfold len. by rewrite Nat2Z.id, firstn_all. }
  split; [exact HI3 | exact HI2 | exact Hst3 | exact (se_s_est _ _ HS) | | |].
  - apply (mirrored_ends c _ s _); [exact He3 | same_ends_tac | apply HS].
  - split; [congruence | congruence | congruence | exact Hs1 | exact Hq3 | by rewrite Hn3 |].
    exists rb'. rewrite Hn3, L2, L3. split; [reflexivity |]. split_and!; [exact En | lia | exact Eo].
  - destruct (se_down _ _ HS) as [F1 F2 F3 F4 F5 F6 (rb0 & F7 & F8)].
    split; [exact F1 | exact F2 | exact F3 | exact F4 | exact F5 | |].
    + rewrite Hr3. exact F6.
    + exists rb0. rewrite Hb3. by split.
Qed.

(** ** A concrete session *)
Definition demo_client : Tcb :=
  {| state := Closed; local_ip := [10; 0; 0; 1]; local_port := 12345;
     remote_ip := [192; 168; 100; 2]; remote_port := 80;
     tcb_snd := mkSendSequence 500 500 65535 500;
     tcb_rcv := mkRecvSequence 0 65535 0; cwnd := 1460; ssthresh := 65535; dup_ack_count := 0 |}.
Definition demo_server : Tcb :=
  {| state := Listen; local_ip := [192; 168; 100; 2]; local_port := 80;
     remote_ip := [10; 0; 0; 1]; remote_port := 12345;
     tcb_snd := mkSendSequence 4294967295 4294967295 65535 4294967295;
     tcb_rcv := mkRecvSequence 0 65535 0; cwnd := 1460; ssthresh := 65535; dup_ack_count := 0 |}.

Lemma demo_client_fresh : fresh_tcb demo_client.
Proof. split; try reflexivity; try (by vm_compute); split; [reflexivity | bytes_tac | reflexivity | bytes_tac]. Qed.
Lemma demo_server_fresh : fresh_tcb demo_server.
Proof. split; try reflexivity; try (by vm_compute); split; [reflexivity | bytes_tac | reflexivity | bytes_tac]. Qed.
Lemma demo_mirrored : mirrored demo_client demo_server.
Proof. by split. Qed.

Definition demo_c : Connection := client_established demo_client demo_server.
Definition demo_s : Connection := server_established demo_client demo_server.
Definition session_clock : Clock := mkClock 1000000000 2000000000.

Lemma demo_session : session demo_c demo_s.
Proof. by apply hs_session; [exact demo_client_fresh | exact demo_server_fresh | | | exact demo_mirrored]. Qed.

Lemma session_clock_ok : clock_ok session_clock.
Proof. vm_compute. repeat split; discriminate. Qed.

Lemma three_way_handshake_witness :
  exists c1 syn s1 syn_ack c2 ack s2,
    connect (Connection_new demo_client) = (c1, Some syn) /\
    deliver (Connection_new demo_server) session_clock syn = Ok (s1, Some syn_ack) /\
    deliver c1 session_clock syn_ack = Ok (c2, Some ack) /\
    deliver s1 session_clock ack = Ok (s2, None) /\
    session c2 s2 /\ wnd c2 = 65535 /\ wnd s2 = 65535.
Proof.
  exact (three_way_handshake demo_client demo_server session_clock demo_client_fresh
    demo_server_fresh eq_refl eq_refl demo_mirrored).
Defined.

Lemma orderly_close_witness :
  exists c1 fin s1 ack c2 s2 fin2 c3 ack2 s3,
    initiate_close demo_c = (c1, Some fin) /\ st c1 = FinWait1 /\
    deliver demo_s session_clock fin = Ok (s1, Some ack) /\ st s1 = CloseWait /\
    deliver c1 session_clock ack = Ok (c2, None) /\ st c2 = FinWait2 /\
    initiate_close s1 = (s2, Some fin2) /\ st s2 = LastAck /\
    deliver c2 session_clock fin2 = Ok (c3, Some ack2) /\ st c3 = TimeWait /\
    deliver s2 session_clock ack2 = Ok (s3, None) /\ st s3 = Closed /\
    forall now, tick_time_wait c3 now =
      if TWO_MSL <=? duration_since now 2000000000
      then (set_state Closed c3, true) else (c3, false).
Proof. exact (orderly_close demo_c demo_s session_clock demo_session session_clock_ok). Defined.

Lemma data_exchange_witness :
  exists c1 c2 raw s1 ack c3 s2,
    write_data demo_c [72; 105] = (c1, 2) /\
    next_segment_to_send c1 MSS 5 = (c2, Some raw) /\
    deliver demo_s session_clock raw = Ok (s1, Some ack) /\
    deliver c2 session_clock ack = Ok (c3, None) /\
    received_available s1 = 2 /\
    read_received s1 (zeroed 2) = (s2, [72; 105], 2) /\
    session c3 s2.
Proof.
  refine (data_exchange demo_c demo_s session_clock 5 [72; 105] demo_session session_clock_ok _ _ _ _).
  - vm_compute. split; congruence.
  - bytes_tac.
  - vm_compute. split; congruence.
  - vm_compute. congruence.
Defined.
