(* ===== verification/Stream.v ===== *)
(** * A connection as a pair of byte streams

    While a connection is ESTABLISHED and neither side closes, whatever order its
    segments, writes, reads, timeouts and probes come in, it implements two byte
    streams: what it puts on the wire, first transmissions and retransmissions
    alike, are segments of the bytes its application wrote, and what its
    application reads are the peer's bytes, in order and from the beginning. *)
From S2P Require Import Prelude Errors Tcb Ipv4 Header Ring SendBuffer RecvBuffer Float64 Retransmit Connection Session.

Section Streams.
(** Our and the peer's initial sequence numbers, and the peer's byte stream. *)
Context (iss0 irs0 : Z) (S : list Z) (HS : len S < 2147483648).

(** The abstract state: our stream [A], the number [rd] of the peer's bytes that
    the application has read and the number [nx] of those that are in order. *)
Record conn_rel (c : Connection) (A : ByteStream) (rd nx : Z) : Prop := {
  cr_inv : conn_inv c;
  cr_state : st c = Established;
  cr_send : send_rel iss0 (send_buf c) A;
  cr_una : una c = s_una (send_buf c);
  cr_nxt : nxt c = s_nxt (send_buf c);
  cr_recv : exists rb, recv_buf c = Some rb /\ recv_rel irs0 S rb rd nx /\ rnxt c = r_nxt rb;
  cr_queue : Forall (fun e => segment_of iss0 (sent_bytes A) (e_seq e, e_data e))
               (entries (retransmit_queue c)) }.

(** The data phase: the peer neither resets nor closes, and its payloads are bytes
    of its stream under their numbers, in any order, repeated or overlapping. *)
Definition data_event (ev : Event) : Prop :=
  event_ok ev /\
  match ev with
  | EvSegment _ seg =>
      flag_rst (flags (header seg)) = false /\ flag_fin (flags (header seg)) = false /\
      (payload seg = [] \/ segment_of irs0 S (seq_num (header seg), payload seg))
  | EvClose | EvConnect => False
  | _ => True
  end.

(** A segment on the wire: well formed, an acknowledgement (neither SYN, FIN nor
    RST), empty or bytes of our stream, and acknowledging at most [n] bytes of the
    peer's. *)
Definition stream_segment (W : list Z) (n : Z) (raw : list Z) : Prop :=
  exists b, builder_ok b /\ raw = SegmentBuilder_build b /\
    (sb_flags b = F_ACK \/ sb_flags b = F_PSH_ACK) /\
    (exists o, 0 <= o <= n /\ sb_ack_num b = seq_of irs0 o) /\
    (sb_payload b = [] \/ segment_of iss0 W (sb_seq b, sb_payload b)).

Lemma stream_segment_app W T n n' raw :
  n <= n' -> stream_segment W n raw -> stream_segment (W ++ T) n' raw.
Proof using.
  intros Hn (b & Hb & E & Hf & (o & Ho & Ha) & H). exists b.
  split; [done |]. split; [done |]. split; [done |]. split; [exists o; split; [lia | done] |].
  destruct H as [H|H]; [by left | right; by apply segment_of_app].
Qed.

(** What the application gets from an event. *)
Definition app_out (c : Connection) (ev : Event) : list Z :=
  match ev with
  | EvRead buf => let '(_, buf', n) := read_received c buf in take (Z.to_nat n) buf'
  | _ => []
  end.

(** What the connection takes from the application: [write_data] accepts a prefix. *)
Definition app_in (c : Connection) (ev : Event) : list Z :=
  match ev with
  | EvWrite data => take (Z.to_nat (snd (write_data c data))) data
  | _ => []
  end.

(** The simulation: from [(A, rd, nx)] to [(A', rd', nx')], taking [gave] from the
    application and handing it [got]. *)
Definition simulates (c : Connection) (A : ByteStream) (rd nx : Z)
    (o : Result (Connection * list (list Z))) (gave got : list Z) : Prop :=
  match o with
  | Ok (c', outs) => exists A' rd' nx',
      conn_rel c' A' rd' nx' /\ written A' = written A ++ gave /\
      (rd <= rd' /\ nx <= nx' /\ sent A <= sent A') /\
      Forall (stream_segment (sent_bytes A') nx') outs /\ got = slice_at S rd (rd' - rd)
  | _ => False
  end.

Lemma rnxt_acks c A rd nx :
  conn_rel c A rd nx -> exists o, 0 <= o <= nx /\ rnxt c = seq_of irs0 o.
Proof using.
  intros HR. destruct (cr_recv _ _ _ _ HR) as (rb & _ & Hrr & ->).
  pose proof (rr_order _ _ _ _ _ Hrr). exists nx. split; [lia | apply (rr_nxt _ _ _ _ _ Hrr)].
Qed.

Lemma ack_stream_segment c A rd nx W :
  conn_rel c A rd nx -> stream_segment W nx (build_ack c).
Proof using.
  intros HR. pose proof (cr_inv _ _ _ _ HR) as HI.
  exists (ctl_builder c F_ACK (nxt c)). split; [by apply ctl_builder_ok, ci_nxt |]. split; [reflexivity |].
  split; [by left |]. split; [exact (rnxt_acks _ _ _ _ HR) | by left].
Qed.

Section Step.
Context (c : Connection) (A : ByteStream) (rd nx : Z) (HR : conn_rel c A rd nx).

Lemma cr_order : 0 <= acked A <= sent A /\ sent A <= len (written A) /\
  len (written A) - acked A <= SEND_BUF_SIZE.
Proof using HR.
  pose proof (cr_send _ _ _ _ HR) as Hs. destruct (sr_order _ _ _ Hs) as [Ho Hl].
  pose proof (len_s_contents _ (sr_wf _ _ _ Hs)) as Hc. rewrite (sr_contents _ _ _ Hs) in Hc.
  rewrite len_drop in Hc by lia. pose proof (sw_len _ (sr_wf _ _ _ Hs)). lia.
Qed.

(** Nothing sent, nothing read. *)
Lemma sim_silent c' :
  conn_rel c' A rd nx -> simulates c A rd nx (Ok (c', [])) [] [].
Proof using.
  intros H. exists A, rd, nx. rewrite app_nil_r, Z.sub_diag.
  split; [done |]. split; [done |]. split; [lia |]. split; [apply Forall_nil_2 | done].
Qed.

Lemma inflight_bytes : wrapping_sub (nxt c) (una c) = sent A - acked A.
Proof using HR.
  pose proof cr_order as Ho. unfold SEND_BUF_SIZE in Ho.
  rewrite (cr_una _ _ _ _ HR), (cr_nxt _ _ _ _ HR), (sr_una _ _ _ (cr_send _ _ _ _ HR)),
    (sr_nxt _ _ _ (cr_send _ _ _ _ HR)), seq_of_sub.
  apply Z.mod_small. unfold U32. lia.
Qed.

(** The bytes an operation adds to the stream. *)
Definition op_written (sb : SendBuffer) (op : SendOp) : list Z :=
  match op with
  | OpWrite data => take (Z.to_nat (snd (SendBuffer_write sb data))) data
  | _ => []
  end.

(** The send buffer does a step of its refinement. *)
Lemma sim_send_op op :
  op_ok (send_buf c) op ->
  let A' := fst (stream_step iss0 A op) in
  send_rel iss0 (fst (send_step (send_buf c) op)) A' /\
  written A' = written A ++ op_written (send_buf c) op /\
  sent A <= sent A' /\ (exists U, sent_bytes A' = sent_bytes A ++ U) /\
  Forall (segment_of iss0 (sent_bytes A')) (snd (send_step (send_buf c) op)).
Proof using HR.
  intros Hop A'. pose proof cr_order as Ho.
  destruct (send_rel_step iss0 (send_buf c) A op (cr_send _ _ _ _ HR) Hop) as [H1 H2].
  pose proof (stream_step_facts iss0 A op ltac:(lia)) as H.
  split; [exact H1 |]. split.
  - unfold A'. destruct op as [data|m|ack]; cbn [stream_step op_written].
    + pose proof (len_s_contents _ (sr_wf _ _ _ (cr_send _ _ _ _ HR))) as Hc.
      rewrite (sr_contents _ _ _ (cr_send _ _ _ _ HR)), len_drop in Hc by lia.
      cbn [fst written SendBuffer_write snd]. do 4 f_equal. lia.
    + rewrite app_nil_r. by destruct (_ =? 0).
    + by rewrite app_nil_r.
  - unfold A'. rewrite H2. destruct (stream_step iss0 A op) as [A1 outs]. cbn [fst snd] in *.
    destruct H as (_ & Hs & [T HT] & _ & HF). split; [exact Hs |]. split; [|exact HF].
    apply (sent_bytes_grows A A1 T); (done || lia).
Qed.

Lemma sim_write data :
  bytes_ok data ->
  simulates c A rd nx (Ok (fst (write_data c data), [])) (app_in c (EvWrite data)) [].
Proof using HR.
  intros Hd. destruct (write_data_ok c data (cr_inv _ _ _ _ HR) Hd) as [HI' _].
  destruct (sim_send_op (OpWrite data) I) as (Hs & HT & Hsent & [U HU] & _).
  exists (fst (stream_step iss0 A (OpWrite data))), rd, nx. rewrite Z.sub_diag.
  split; [|split; [|split; [split_and!; (lia || exact Hsent) | split; [apply Forall_nil_2 | done]]]].
  2: { rewrite HT. unfold app_in, op_written, write_data. by destruct (SendBuffer_write _ _). }
  assert (Hw : fst (write_data c data) = set_send_buf (fst (SendBuffer_write (send_buf c) data)) c)
    by (unfold write_data; by destruct (SendBuffer_write _ _)).
  rewrite Hw in *. destruct HR.
  split; try assumption.
  eapply Forall_impl; [exact cr_queue0 |]. intros e He. rewrite HU. by apply segment_of_app.
Qed.

Lemma queue_push W seq pl now :
  Forall (fun e => segment_of iss0 W (e_seq e, e_data e)) (entries (retransmit_queue c)) ->
  segment_of iss0 W (seq, pl) ->
  Forall (fun e => segment_of iss0 W (e_seq e, e_data e))
    (entries (RetransmitQueue_push (retransmit_queue c) seq pl now)).
Proof using.
  intros Hq Hp. unfold RetransmitQueue_push. destruct (_ <? _); [|exact Hq]. cbn [entries].
  apply Forall_app. split; [exact Hq | by apply Forall_singleton].
Qed.

(** The send buffer hands out [pl]; the connection afterwards is [c'] with the
    queue [q]. *)
Lemma sim_transmit m pl (fl : TcpFlags) (c' : Connection) :
  0 <= m -> fl = F_ACK \/ fl = F_PSH_ACK ->
  SendBuffer_next_segment (send_buf c) m = Some (s_nxt (send_buf c), pl) ->
  conn_inv c' -> st c' = Established -> una c' = una c -> recv_buf c' = recv_buf c ->
  rnxt c' = rnxt c -> send_buf c' = SendBuffer_advance_nxt (send_buf c) (len pl) ->
  nxt c' = s_nxt (send_buf c') -> bytes_ok pl -> len pl <= MSS ->
  (forall W, segment_of iss0 W (s_nxt (send_buf c), pl) ->
    Forall (fun e => segment_of iss0 W (e_seq e, e_data e)) (entries (retransmit_queue c)) ->
    Forall (fun e => segment_of iss0 W (e_seq e, e_data e)) (entries (retransmit_queue c'))) ->
  simulates c A rd nx
    (Ok (c', [SegmentBuilder_build (data_builder c' fl (s_nxt (send_buf c)) pl)])) [] [].
Proof using HR.
  intros Hm Hfl E HI' Hst Hu Hrb Hr Hsb Hn Hb Hl Hq.
  destruct (sim_send_op (OpSend m) Hm) as (Hs & HT & Hsent & [U HU] & HF).
  cbn [send_step] in Hs, HF. rewrite E in Hs, HF. cbn [fst snd] in Hs, HF.
  apply Forall_cons in HF as [HF _].
  exists (fst (stream_step iss0 A (OpSend m))), rd, nx. rewrite Z.sub_diag.
  split; [|split; [exact HT | split; [split_and!; (lia || exact Hsent) | split; [| done]]]].
  - destruct HR. split; [exact HI' | exact Hst | by rewrite Hsb | by rewrite Hu, Hsb
      | exact Hn | by rewrite Hrb, Hr |].
    apply Hq; [exact HF |]. eapply Forall_impl; [exact cr_queue0 |].
    intros e He. rewrite HU. by apply segment_of_app.
  - apply Forall_singleton. eexists. split; [|split; [reflexivity |]].
    + apply data_builder_ok; [exact HI' | | exact Hb | exact Hl].
      apply (sw_nxt _ (sr_wf _ _ _ (cr_send _ _ _ _ HR))).
    + split; [exact Hfl |]. split; [|right; exact HF]. 
      change (exists o, 0 <= o <= nx /\ rnxt c' = seq_of irs0 o). rewrite Hr. exact (rnxt_acks _ _ _ _ HR).
Qed.

Lemma sim_send mp now :
  0 <= mp <= MSS -> instant_ok now ->
  simulates c A rd nx (conn_step c (EvSend mp now)) [] [].
Proof using HR.
  intros Hm Hn. pose proof (cr_inv _ _ _ _ HR) as HI. cbn [conn_step].
  pose proof (next_segment_to_send_ok c mp now HI Hm Hn) as Hok. revert Hok.
  destruct (next_segment_to_send_spec c mp now HI ltac:(lia))
    as [-> | (pl & c' & -> & Ec & Hb & Hl & Hw & E)]; [intros _; by apply sim_silent |].
  intros (HI' & _ & _).
  assert (0 <= wrapping_sub (nxt c) (una c)) by (rewrite inflight_bytes; pose proof cr_order; lia).
  cbn [opt_list]. eapply (sim_transmit (Z.min mp (Z.min (cw c) (wnd c) - wrapping_sub (nxt c) (una c))));
    try eassumption; subst c'; try reflexivity; try lia; try (by right).
  - exact (cr_state _ _ _ _ HR).
  - intros W Hp Hq. by apply queue_push.
Qed.

Lemma sim_probe : simulates c A rd nx (conn_step c EvProbe) [] [].
Proof using HR.
  pose proof (cr_inv _ _ _ _ HR) as HI. cbn [conn_step].
  pose proof (zero_window_probe_ok c HI) as Hok. revert Hok. unfold zero_window_probe.
  destruct (_ || _)%bool; [intros _; by apply sim_silent |].
  destruct (SendBuffer_next_segment (send_buf c) 1) as [[seq pl]|] eqn:E;
    [|intros _; by apply sim_silent].
  pose proof E as E0. apply next_segment_bound in E0 as (-> & Hb & Hl & _);
    [| exact (ci_send _ HI) | lia | exact (ci_bytes _ HI)].
  assert (Hl1 : len pl = 1) by lia.
  intros (HI' & _ & _). cbn [opt_list].
  eapply (sim_transmit 1); try eassumption; try lia; try reflexivity; try (by left).
  - exact (cr_state _ _ _ _ HR).
  - by rewrite Hl1.
  - unfold MSS. lia.
  - intros W _ Hq. exact Hq.
Qed.

Lemma sim_retransmit now :
  instant_ok now -> simulates c A rd nx (conn_step c (EvRetransmit now)) [] [].
Proof using HR.
  intros Hn. pose proof (cr_inv _ _ _ _ HR) as HI. cbn [conn_step].
  pose proof (take_retransmits_ok c now HI Hn) as Hok. revert Hok.
  destruct (take_retransmits_spec c now HI Hn) as (rq & c' & -> & Hw & He & Hc').
  set (out := map _ (List.filter _ _)) in *. intros (HI' & Hs & _).
  pose proof (cr_queue _ _ _ _ HR) as Hq. pose proof (rqw_entries _ (ci_rtq _ HI)) as Hqe.
  assert (Hf : send_buf c' = send_buf c /\ st c' = st c /\ una c' = una c /\ nxt c' = nxt c /\
    recv_buf c' = recv_buf c /\ rnxt c' = rnxt c /\ retransmit_queue c' = rq)
    by (rewrite Hc'; by destruct out).
  destruct Hf as (F1 & F2 & F3 & F4 & F5 & F6 & F7).
  exists A, rd, nx. rewrite app_nil_r, Z.sub_diag.
  split; [|split; [done | split; [lia | split; [| done]]]].
  - destruct HR. split; [exact HI' | congruence | by rewrite F1 | by rewrite F3, F1
      | by rewrite F4, F1 | by rewrite F5, F6 |].
    rewrite F7, He. apply Forall_map. eapply Forall_impl; [exact Hq |].
    intros e H. cbv beta. by destruct (due _ _ e).
  - apply Forall_map. unfold out. apply Forall_map, Forall_filter_list, Forall_forall.
    rewrite Forall_forall in Hq, Hqe. intros e Hin. specialize (Hq e Hin).
    destruct (Hqe e Hin) as [? ? ? _].
    eexists. split; [by apply data_builder_ok |]. split; [reflexivity |]. split; [by right |].
    split; [|by right]. change (exists o, 0 <= o <= nx /\ rnxt c' = seq_of irs0 o).
    rewrite F6. exact (rnxt_acks _ _ _ _ HR).
Qed.

Lemma sim_read buf :
  simulates c A rd nx (conn_step c (EvRead buf)) [] (app_out c (EvRead buf)).
Proof using HR HS.
  pose proof (cr_inv _ _ _ _ HR) as HI. cbn [conn_step app_out].
  destruct (read_received_ok c buf HI) as [HI' _].
  destruct (cr_recv _ _ _ _ HR) as (rb & Erb & Hrr & Ern).
  pose proof (recv_rel_step irs0 S (RvRead buf) rb rd nx HS Hrr I) as H. cbn [recv_step] in H.
  unfold read_received in *. rewrite Erb in *.
  pose proof (eq_refl (r_nxt (fst (fst (RecvBuffer_read rb buf))))) as En.
  change (r_nxt (fst (fst (RecvBuffer_read rb buf)))) with (r_nxt rb) in En at 2.
  destruct (RecvBuffer_read rb buf) as [[rb' buf'] n]. cbn [fst] in *.
  destruct H as (rd' & nx' & Hrd & Hnx & HR' & Happ).
  exists A, rd', nx'. rewrite app_nil_r.
  split; [|split; [done | split; [lia | split; [apply Forall_nil_2 | exact Happ]]]].
  destruct HR. split; try assumption. exists rb'. split; [done |]. split; [done |].
  change (rnxt c = r_nxt rb'). congruence.
Qed.

Lemma sim_tick now : simulates c A rd nx (conn_step c (EvTick now)) [] [].
Proof using HR.
  cbn [conn_step]. unfold tick_time_wait. rewrite (cr_state _ _ _ _ HR). by apply sim_silent.
Qed.

(** *** Segments from the peer *)
Lemma ack_in_flight ack :
  is_u32 ack -> ack_acceptable (una c) ack (nxt c) = true ->
  0 < wrapping_sub ack (s_una (send_buf c)) <= s_len (send_buf c) /\
  op_ok (send_buf c) (OpAck ack).
Proof using HR.
  intros Ha Hacc. pose proof (cr_inv _ _ _ _ HR) as HI. pose proof cr_order as Ho.
  pose proof inflight_bytes as Hi. unfold SEND_BUF_SIZE in Ho.
  apply ack_acceptable_iff in Hacc; try assumption; try apply HI; [|lia].
  pose proof (cr_send _ _ _ _ HR) as Hs.
  pose proof (len_s_contents _ (sr_wf _ _ _ Hs)) as Hc.
  rewrite (sr_contents _ _ _ Hs), len_drop in Hc by lia.
  cbn [op_ok]. unfold s_inflight.
  rewrite <- (cr_una _ _ _ _ HR), <- (cr_nxt _ _ _ _ HR). split; [lia | split; [done | lia]].
Qed.

(** Changing the congestion variables changes nothing of the streams. *)
Lemma rel_frame c1 :
  conn_inv c1 -> send_buf c1 = send_buf c -> st c1 = st c -> una c1 = una c -> nxt c1 = nxt c ->
  recv_buf c1 = recv_buf c -> rnxt c1 = rnxt c -> retransmit_queue c1 = retransmit_queue c ->
  conn_rel c1 A rd nx.
Proof using HR.
  intros HI F1 F2 F3 F4 F5 F6 F7. destruct HR.
  split; [exact HI | congruence | by rewrite F1 | by rewrite F3, F1 | by rewrite F4, F1
    | by rewrite F5, F6 | by rewrite F7].
Qed.

Lemma head_stream_segment c1 raw :
  conn_inv c1 -> retransmit_queue c1 = retransmit_queue c -> rnxt c1 = rnxt c ->
  fast_retransmit_segment c1 = Some raw -> stream_segment (sent_bytes A) nx raw.
Proof using HR.
  intros HI1 F7 F6. unfold fast_retransmit_segment, first_unacked. rewrite F7.
  pose proof (cr_queue _ _ _ _ HR) as Hq.
  pose proof (rqw_entries _ (ci_rtq _ (cr_inv _ _ _ _ HR))) as Hqe.
  destruct (entries (retransmit_queue c)) as [|e l]; [done |]. intros [= <-].
  apply Forall_cons in Hq as [Hq _]. apply Forall_cons in Hqe as [[? ? ? _] _].
  eexists. split; [by apply data_builder_ok |]. split; [reflexivity |]. split; [by right |].
  split; [|by right]. change (exists o, 0 <= o <= nx /\ rnxt c1 = seq_of irs0 o).
  rewrite F6. exact (rnxt_acks _ _ _ _ HR).
Qed.

Definition rel_ack_outcome (o : Outcome) : Prop :=
  match o with
  | Ok (c1, r) => exists A1, conn_rel c1 A1 rd nx /\ written A1 = written A /\ sent A1 = sent A /\
                    Forall (stream_segment (sent_bytes A) nx) (opt_list r)
  | _ => False
  end.

Lemma rel_ack_new clk seg :
  clock_ok clk -> seg_ok seg ->
  ack_acceptable (una c) (ack_num (header seg)) (nxt c) = true ->
  rel_ack_outcome (established_ack c clk seg).
Proof using HR.
  intros Hclk Hseg Hacc. pose proof (cr_inv _ _ _ _ HR) as HI. pose proof Hseg as (_ & Ha & _).
  destruct (cr_recv _ _ _ _ HR) as (rb & Erb & _).
  pose proof (established_ack_ok c HI clk Hclk seg Hseg ltac:(rewrite Erb; by eexists)) as Hok.
  destruct (established_ack_new c HI clk Hclk seg Hacc) as (w & rq & E & _ & _ & _ & Erq & _).
  destruct (acknowledge_ok (E:=MagnumError) (retransmit_queue c) (ack_num (header seg))
    (clock_ack clk) (ci_rtq _ HI) (proj1 Hclk)) as (rq' & Erq' & _ & Hes).
  rewrite Erq in Erq'. injection Erq' as <-.
  rewrite E in *. destruct Hok as (HI1 & _).
  destruct (ack_in_flight _ Ha Hacc) as [Hk Hop].
  destruct (sim_send_op (OpAck (ack_num (header seg))) Hop) as (Hs & _ & _).
  exists (fst (stream_step iss0 A (OpAck (ack_num (header seg))))).
  split; [|split; [reflexivity | split; [reflexivity | apply Forall_nil_2]]]. destruct HR.
  split; [exact HI1 | exact cr_state0 | exact Hs | | | exact cr_recv0 |].
  - change (ack_num (header seg) = s_una (SendBuffer_acknowledge (send_buf c) (ack_num (header seg)))).
    unfold SendBuffer_acknowledge.
    destruct (Z.eqb_spec (wrapping_sub (ack_num (header seg)) (s_una (send_buf c))) 0); [lia |].
    destruct (Z.ltb_spec (s_len (send_buf c)) (wrapping_sub (ack_num (header seg)) (s_una (send_buf c))));
      [lia | done].
  - change (nxt c = s_nxt (SendBuffer_acknowledge (send_buf c) (ack_num (header seg)))).
    rewrite cr_nxt0. unfold SendBuffer_acknowledge. by destruct (_ || _)%bool.
  - change (Forall (fun e => segment_of iss0 (sent_bytes A) (e_seq e, e_data e)) (entries rq)).
    rewrite Hes. by apply Forall_filter_list.
Qed.

Lemma rel_ack clk seg :
  clock_ok clk -> seg_ok seg -> rel_ack_outcome (established_ack c clk seg).
Proof using HR.
  intros Hclk Hseg. pose proof (cr_inv _ _ _ _ HR) as HI.
  destruct (ack_acceptable (una c) (ack_num (header seg)) (nxt c)) eqn:Hacc;
    [by apply rel_ack_new |].
  destruct (cr_recv _ _ _ _ HR) as (rb & Erb & _).
  pose proof (established_ack_ok c HI clk Hclk seg Hseg ltac:(rewrite Erb; by eexists)) as Hok.
  revert Hok. unfold established_ack. rewrite Hacc.
  assert (Hquiet : forall c1, conn_inv c1 -> send_buf c1 = send_buf c -> st c1 = st c ->
    una c1 = una c -> nxt c1 = nxt c -> recv_buf c1 = recv_buf c -> rnxt c1 = rnxt c ->
    retransmit_queue c1 = retransmit_queue c -> rel_ack_outcome (Ok (c1, None))).
  { intros c1 **. exists A. split; [by apply rel_frame |]. split_and!; [done | done | apply Forall_nil_2]. }
  destruct (_ && _)%bool; [|intros (HI1 & _); by apply Hquiet].
  pose proof (dup_inv c HI) as HId. set (c1 := set_dup_ack_count _ c) in *.
  destruct (dups c1 =? 3); [|destruct (3 <? dups c1); intros (HI1 & _); by apply Hquiet].
  destruct (enter_fast_recovery_ok c1 HId) as (E & _). rewrite E. cbn [mbind Res_bind].
  set (c2 := set_cwnd _ _). intros (HI1 & _). exists A. split; [by apply rel_frame |].
  split; [done |]. split; [done |]. destruct (fast_retransmit_segment c2) as [raw|] eqn:Er; [|apply Forall_nil_2].
  apply Forall_singleton. by apply (head_stream_segment c2).
Qed.

Lemma rel_receive seg :
  seg_ok seg -> segment_of irs0 S (seq_num (header seg), payload seg) ->
  exists nx', nx <= nx' /\ conn_rel (receive_payload c seg) A rd nx'.
Proof using HR HS.
  intros Hseg Hp. pose proof (cr_inv _ _ _ _ HR) as HI.
  destruct (cr_recv _ _ _ _ HR) as (rb & Erb & Hrr & Ern).
  pose proof (inv_receive_payload c HI seg Hseg ltac:(rewrite Erb; by eexists)) as HI'.
  pose proof (recv_rel_step irs0 S (RvSegment (seq_num (header seg), payload seg)) rb rd nx HS Hrr Hp)
    as (rd' & nx' & Hrd & Hnx & HR' & Happ). cbn [recv_step] in *.
  assert (rd' = rd) as ->.
  { pose proof (rr_order _ _ _ _ _ HR').
    assert (len (@nil Z) = rd' - rd) as El; [|change (len (@nil Z)) with 0 in El; lia].
    rewrite Happ. pose proof (rr_order _ _ _ _ _ Hrr). apply len_slice_at; lia. }
  exists nx'. split; [done |]. unfold receive_payload in *. rewrite Erb in *.
  destruct HR. split; try assumption.
  eexists. split; [reflexivity |]. split; [exact HR' | done].
Qed.

Lemma rel_data seg :
  seg_ok seg -> flag_fin (flags (header seg)) = false ->
  (payload seg = [] \/ segment_of irs0 S (seq_num (header seg), payload seg)) ->
  match established_data c seg with
  | Ok (c1, r) => exists nx', nx <= nx' /\ conn_rel c1 A rd nx' /\
                    Forall (stream_segment (sent_bytes A) nx') (opt_list r)
  | _ => False
  end.
Proof using HR HS.
  intros Hseg Hfin Hp. unfold established_data. rewrite Hfin. cbn [negb].
  destruct (Z.eqb_spec (len (payload seg)) 0) as [E0|E0]; cbn [negb andb].
  { exists nx. split; [lia |]. split; [done | apply Forall_nil_2]. }
  destruct Hp as [Hp|Hp]; [by rewrite Hp in E0 |].
  destruct (rel_receive seg Hseg Hp) as (nx' & Hnx & HR').
  exists nx'. split; [done |]. split; [done |]. apply Forall_singleton.
  exact (ack_stream_segment _ _ _ _ _ HR').
Qed.
End Step.

Lemma sim_segment c A rd nx clk seg :
  conn_rel c A rd nx -> data_event (EvSegment clk seg) ->
  simulates c A rd nx (conn_step c (EvSegment clk seg)) [] [].
Proof using HS.
  intros HR [[Hclk Hseg] (Hrst & Hfin & Hp)]. cbn [conn_step].
  assert (H : forall A1 (o : Outcome), written A1 = written A -> sent A1 = sent A ->
    match o with
    | Ok (c1, r) => exists nx', nx <= nx' /\ conn_rel c1 A1 rd nx' /\
                      Forall (stream_segment (sent_bytes A1) nx') (opt_list r)
    | _ => False
    end -> simulates c A rd nx ('(c, r) ← o; Ok (c, opt_list r)) [] []).
  { intros A1 [[c1 r]| |] HW Hsent; try done. intros (nx' & Hnx & H1 & H2). cbn [mbind Res_bind].
    exists A1, rd, nx'. rewrite app_nil_r, Z.sub_diag.
    split; [done |]. split; [done |]. split; [lia |]. by split. }
  unfold process_segment. rewrite (cr_state _ _ _ _ HR). unfold handle_established. rewrite Hrst.
  destruct (flag_ack _); cbn [mbind Res_bind].
  - pose proof (rel_ack c A rd nx HR clk seg Hclk Hseg) as Ha.
    destruct (established_ack c clk seg) as [[c1 [r|]]| |]; try done; cbn [mbind Res_bind];
      destruct Ha as (A1 & HR1 & HW & Hsent & Hr).
    + apply (H A1 (Ok (c1, Some r))); [done | done |]. exists nx. split; [lia |].
      unfold sent_bytes in *. by rewrite HW, Hsent.
    + apply (H A1 (established_data c1 seg)); [done | done |]. by apply rel_data.
  - apply (H A (established_data c seg)); [done | done |]. by apply rel_data.
Qed.

Lemma sim_step c A rd nx ev :
  conn_rel c A rd nx -> data_event ev ->
  simulates c A rd nx (conn_step c ev) (app_in c ev) (app_out c ev).
Proof using HS.
  intros HR Hev. pose proof Hev as [Hok Hd].
  destruct ev as [clk seg|data|mp now|buf|now| |now| |]; try done; cbn [event_ok] in Hok.
  - exact (sim_segment c A rd nx clk seg HR Hev).
  - exact (sim_write c A rd nx HR data Hok).
  - exact (sim_send c A rd nx HR mp now (proj1 Hok) (proj2 Hok)).
  - exact (sim_read c A rd nx HR buf).
  - exact (sim_retransmit c A rd nx HR now Hok).
  - exact (sim_tick c A rd nx HR now).
  - exact (sim_probe c A rd nx HR).
Qed.
End Streams.

(** The peer's stream may grow: what was received of it stays so. *)
Lemma conn_rel_app iss0 irs0 S T c A rd nx :
  conn_rel iss0 irs0 S c A rd nx -> conn_rel iss0 irs0 (S ++ T) c A rd nx.
Proof.
  intros []. split; try assumption. destruct cr_recv0 as (rb & E & Hr & En).
  exists rb. split; [done |]. split; [by apply recv_rel_app | done].
Qed.

(** ** Runs of the data phase *)
(** The connection afterwards, what went on the wire, what the application gave and
    what it got. *)
Fixpoint data_run (c : Connection) (evs : list Event)
  : Result (Connection * list (list Z) * list Z * list Z) :=
  match evs with
  | [] => Ok (c, [], [], [])
  | ev :: rest =>
      '(c1, out) ← conn_step c ev;
      '(c2, outs, gave, got) ← data_run c1 rest;
      Ok (c2, out ++ outs, app_in c ev ++ gave, app_out c ev ++ got)
  end.

Lemma data_run_sim iss0 irs0 S evs : forall c A rd nx,
  len S < 2147483648 -> conn_rel iss0 irs0 S c A rd nx -> Forall (data_event irs0 S) evs ->
  exists c' outs gave got A' rd' nx',
    data_run c evs = Ok (c', outs, gave, got) /\ conn_rel iss0 irs0 S c' A' rd' nx' /\
    written A' = written A ++ gave /\ (rd <= rd' /\ nx <= nx' /\ sent A <= sent A') /\
    Forall (stream_segment iss0 irs0 (written A') nx') outs /\ got = slice_at S rd (rd' - rd).
Proof.
  induction evs as [|ev evs IH]; intros c A rd nx HS HR Hev; cbn [data_run].
  { exists c, [], [], [], A, rd, nx. rewrite app_nil_r, Z.sub_diag.
    split; [done |]. split; [done |]. split; [done |]. split; [lia |].
    split; [apply Forall_nil_2 | done]. }
  apply Forall_cons in Hev as [Hev Hevs].
  pose proof (sim_step iss0 irs0 S HS c A rd nx ev HR Hev) as H.
  destruct (conn_step c ev) as [[c1 out]| |]; try done.
  destruct H as (A1 & rd1 & nx1 & HR1 & HW1 & (Hrd1 & Hnx1 & Hs1) & Ho1 & Happ1).
  destruct (IH c1 A1 rd1 nx1 HS HR1 Hevs)
    as (c2 & outs & gave & got & A2 & rd2 & nx2 & E2 & HR2 & HW2 & (Hrd2 & Hnx2 & Hs2) & Ho2 & Happ2).
  cbn [mbind Res_bind]. rewrite E2. cbn [mbind Res_bind].
  exists c2, (out ++ outs), (app_in c ev ++ gave), (app_out c ev ++ got), A2, rd2, nx2.
  split; [done |]. split; [done |]. split; [by rewrite HW2, HW1, app_assoc |].
  split; [lia |]. split.
  - apply Forall_app. split; [|done]. eapply Forall_impl; [exact Ho1 |].
    intros raw Hraw. rewrite HW2, (sent_bytes_prefix A1), <- app_assoc.
    by apply (stream_segment_app _ _ _ _ nx1).
  - rewrite Happ1, Happ2. destruct (cr_recv _ _ _ _ _ _ _ HR) as (rb & _ & Hrr & _).
    pose proof (rr_order _ _ _ _ _ Hrr).
    replace (rd2 - rd) with ((rd1 - rd) + (rd2 - rd1)) by lia.
    rewrite <- slice_at_app by lia. by replace (rd + (rd1 - rd)) with rd1 by lia.
Qed.

(** C6. Reliable streams. Take an ESTABLISHED connection with nothing yet
    transferred, and any interleaving of peer segments (reordered, repeated,
    overlapping, with any acknowledgement numbers), application writes and reads,
    transmissions, timeouts and window probes. Nothing fails; every segment put on
    the wire, first transmissions and retransmissions alike, is well formed,
    carries, under its own sequence number, bytes that the application gave, in
    the order it gave them, and acknowledges only bytes that have arrived in order;
    and what the application got is a prefix of those. *)
Theorem Connection_reliable_streams iss0 irs0 S c evs :
  len S < 2147483648 -> conn_rel iss0 irs0 S c (mkByteStream [] 0 0) 0 0 ->
  Forall (data_event irs0 S) evs ->
  exists c' outs gave got n k, data_run c evs = Ok (c', outs, gave, got) /\
    st c' = Established /\ 0 <= k <= n /\ n <= len S /\
    Forall (stream_segment iss0 irs0 gave n) outs /\ got = take (Z.to_nat k) S.
Proof.
  intros HS HR Hev.
  destruct (data_run_sim iss0 irs0 S evs c _ 0 0 HS HR Hev)
    as (c' & outs & gave & got & A' & rd' & nx' & E & HR' & HW & Hrd & Ho & Hg).
  exists c', outs, gave, got, nx', rd'. split; [done |]. split; [apply HR' |].
  destruct (cr_recv _ _ _ _ _ _ _ HR') as (rb & _ & Hrr & _).
  pose proof (rr_order _ _ _ _ _ Hrr). split; [lia |]. split; [lia |].
  split; [by rewrite HW in Ho |]. by rewrite Hg, Z.sub_0_r, slice_at_prefix.
Qed.

(** An idle session straight from the handshake is such a connection. *)
Lemma conn_rel_fresh iss0 irs0 S c :
  conn_inv c -> st c = Established -> send_buf c = SendBuffer_new iss0 ->
  recv_buf c = Some (RecvBuffer_new irs0) ->
  una c = wrapping_add iss0 1 -> nxt c = wrapping_add iss0 1 -> rnxt c = wrapping_add irs0 1 ->
  entries (retransmit_queue c) = [] ->
  conn_rel iss0 irs0 S c (mkByteStream [] 0 0) 0 0.
Proof.
  intros HI Hst Hsb Hrb Hu Hn Hr Hq.
  split; [done | done | rewrite Hsb; apply send_rel_new | by rewrite Hsb | by rewrite Hsb | |].
  - exists (RecvBuffer_new irs0). split; [done |]. split; [apply recv_rel_new | done].
  - rewrite Hq. apply Forall_nil_2.
Qed.

Lemma demo_conn_rel S : conn_rel 4294967295 500 S demo_s (mkByteStream [] 0 0) 0 0.
Proof.
  apply conn_rel_fresh; try reflexivity.
  - exact (se_server _ _ demo_session).
Qed.

Definition demo_data_seg (seq ack : Z) (pl : list Z) : TcpSegment :=
  {| header := {| src_port := 12345; dst_port := 80; seq_num := seq; ack_num := ack;
       data_offset := 5; flags := F_PSH_ACK; window := 8000; tcp_csum := 0; urgent_ptr := 0 |};
     payload := pl |}.

(** The peer's second half arrives first; our reply is lost, times out and is
    retransmitted. *)
Definition demo_data_events : list Event :=
  [EvSegment session_clock (demo_data_seg 506 0 [119; 111; 114; 108; 100]);
   EvSegment session_clock (demo_data_seg 501 0 [104; 101; 108; 108; 111]);
   EvRead (zeroed 64); EvWrite [111; 107]; EvSend 1460 1000000000; EvRetransmit 3000000000;
   EvSegment session_clock (demo_data_seg 511 2 [])].

Lemma demo_data_seg_ok seq ack pl :
  is_u32 seq -> is_u32 ack -> bytes_ok pl -> pl = [] \/ segment_of 500 demo_stream (seq, pl) ->
  data_event 500 demo_stream (EvSegment session_clock (demo_data_seg seq ack pl)).
Proof.
  intros Hs Ha Hb Hp. split; [|by split]. split; [exact session_clock_ok |].
  split; [exact Hs |]. split; [exact Ha |]. split; [by vm_compute | exact Hb].
Qed.

Lemma demo_data_events_ok : Forall (data_event 500 demo_stream) demo_data_events.
Proof.
  unfold demo_data_events. repeat (apply Forall_cons; split); [..| apply Forall_nil_2].
  - apply demo_data_seg_ok; [by vm_compute | by vm_compute | bytes_tac | right].
    exists 5. vm_compute. repeat split; discriminate.
  - apply demo_data_seg_ok; [by vm_compute | by vm_compute | bytes_tac | right].
    exists 0. vm_compute. repeat split; discriminate.
  - split; exact I.
  - split; [|exact I]. cbn. bytes_tac.
  - split; [|exact I]. vm_compute. repeat split; discriminate.
  - split; [|exact I]. by vm_compute.
  - apply demo_data_seg_ok; [by vm_compute | by vm_compute | bytes_tac | by left].
Qed.

Lemma Connection_reliable_streams_witness :
  exists c' outs gave got n k, data_run demo_s demo_data_events = Ok (c', outs, gave, got) /\
    st c' = Established /\ 0 <= k <= n /\ n <= len demo_stream /\
    Forall (stream_segment 4294967295 500 gave n) outs /\ got = take (Z.to_nat k) demo_stream.
Proof.
  apply (Connection_reliable_streams 4294967295 500 demo_stream demo_s demo_data_events);
    [reflexivity | exact (demo_conn_rel demo_stream) | exact demo_data_events_ok].
Defined.

Example demo_data_run_values :
  match data_run demo_s demo_data_events with
  | Ok (c', outs, gave, got) =>
      got = demo_stream /\ gave = [111; 107] /\ length outs = 4%nat /\
      RetransmitQueue_is_empty (retransmit_queue c') = true
  | _ => False
  end.
Proof. vm_compute. done. Qed.
