(* ===== verification/Network.v ===== *)
(** * Two connections over an unreliable network

    Both ends of a session, each doing what its task and its application do, and a
    network between them that may lose, delay, reorder and repeat segments: every
    segment ever put on the wire may reach the other end any number of times, at
    any moment, or never. (A damaged segment that the parser refuses is a lost one.)
    The theorem is the contract of a transport: what either application reads is
    what the other one wrote, and nothing is taken for acknowledged that the other
    end does not have. *)
From S2P Require Import Prelude Errors Tcb Ipv4 Header Ring SendBuffer RecvBuffer Float64 Retransmit Connection Session Stream.

(** ** The system *)
Record Peer := mkPeer {
  p_conn : Connection;
  p_sent : list (list Z);   (* every segment it has put on the wire *)
  p_gave : list Z;          (* what its application wrote and [write] took *)
  p_got : list Z }.         (* what its application has read *)

Definition peer_do (p : Peer) (ev : Event) : Result Peer :=
  '(c, outs) ← conn_step (p_conn p) ev;
  Ok {| p_conn := c; p_sent := p_sent p ++ outs;
        p_gave := p_gave p ++ app_in (p_conn p) ev; p_got := p_got p ++ app_out (p_conn p) ev |}.

(** A segment that does not parse is dropped (main.rs, [inbound_dispatch]). *)
Definition peer_receive (p : Peer) (clk : Clock) (raw : list Z) : Result Peer :=
  match TcpSegment_parse raw (remote_ip (tcb (p_conn p))) (local_ip (tcb (p_conn p))) with
  | Ok seg => peer_do p (EvSegment clk seg)
  | Err _ => Ok p
  | Panic => Panic
  end.

(** A move of one end: a step of its own, or the arrival of the [i]-th segment that
    the other end [q] has sent. *)
Inductive Move : Type :=
  | Do (ev : Event)
  | Arrive (clk : Clock) (i : nat).

Definition peer_move (p q : Peer) (m : Move) : Result Peer :=
  match m with
  | Do ev => peer_do p ev
  | Arrive clk i => match p_sent q !! i with Some raw => peer_receive p clk raw | None => Ok p end
  end.

(** The moves of the two ends in the order they happen; [true] is the first end's. *)
Fixpoint world_run (p q : Peer) (ms : list (bool * Move)) : Result (Peer * Peer) :=
  match ms with
  | [] => Ok (p, q)
  | (true, m) :: rest => p' ← peer_move p q m; world_run p' q rest
  | (false, m) :: rest => q' ← peer_move q p m; world_run p q' rest
  end.

Definition start (c : Connection) : Peer := mkPeer c [] [] [].

(** The application writes, reads and does not close; timers fire at will. *)
Definition move_ok (m : Move) : Prop :=
  match m with
  | Do (EvSegment _ _) | Do EvClose | Do EvConnect => False
  | Do ev => event_ok ev
  | Arrive clk _ => clock_ok clk
  end.

(** The bytes offered to [write] by all the moves. *)
Definition offered (m : bool * Move) : Z :=
  match snd m with Do (EvWrite data) => len data | _ => 0 end.
Definition volume (ms : list (bool * Move)) : Z := foldr (fun m n => offered m + n) 0 ms.

(** ** Acknowledgements *)
(** A segment of the peer takes UNA to the number that it acknowledges, when that is
    acceptable, and the entries it covers out of the queue, or leaves both alone. *)
Definition ack_effect (c : Connection) (seg : TcpSegment) (c' : Connection) : Prop :=
  let ack := ack_num (header seg) in
  nxt c' = nxt c /\
  ((una c' = una c /\ entries (retransmit_queue c') = entries (retransmit_queue c)) \/
   (ack_acceptable (una c) ack (nxt c) = true /\ una c' = ack /\
    entries (retransmit_queue c') = List.filter (unacked ack) (entries (retransmit_queue c)))).

Lemma established_data_ack c c1 c' seg r :
  flag_fin (flags (header seg)) = false -> ack_effect c seg c1 ->
  established_data c1 seg = Ok (c', r) -> ack_effect c seg c'.
Proof.
  intros Hfin H. unfold established_data. rewrite Hfin. cbn [negb]. rewrite andb_true_r.
  assert (Hp : ack_effect c seg (receive_payload c1 seg))
    by (unfold receive_payload; by destruct (recv_buf c1)).
  by destruct (negb _); intros [= <- <-].
Qed.

Lemma established_segment_ack c clk seg c' r :
  conn_inv c -> clock_ok clk -> st c = Established -> flag_rst (flags (header seg)) = false ->
  flag_fin (flags (header seg)) = false ->
  process_segment c clk seg = Ok (c', r) -> ack_effect c seg c'.
Proof.
  intros HI Hclk Hst Hrst Hfin. unfold process_segment. rewrite Hst. unfold handle_established.
  rewrite Hrst.
  assert (Hsame : ack_effect c seg c) by (split; [done | by left]).
  pose proof (fun c1 H => established_data_ack c c1 c' seg r Hfin H) as Hdata.
  destruct (flag_ack _); cbn [mbind Res_bind]; [|by apply Hdata].
  destruct (ack_acceptable (una c) (ack_num (header seg)) (nxt c)) eqn:Hacc.
  - destruct (established_ack_new c HI clk Hclk seg Hacc) as (w & rq & -> & _ & _ & _ & Erq & _).
    destruct (acknowledge_ok (E:=MagnumError) (retransmit_queue c) (ack_num (header seg))
      (clock_ack clk) (ci_rtq _ HI) (proj1 Hclk)) as (rq' & Erq' & _ & Hes).
    rewrite Erq in Erq'. injection Erq' as <-.
    cbn [mbind Res_bind]. apply Hdata. split; [done |]. right. by split_and!.
  - unfold established_ack. rewrite Hacc. destruct (_ && _)%bool; [|by apply Hdata].
    destruct (dups _ =? 3); cbn [mbind Res_bind].
    + unfold enter_fast_recovery, u32_add. destruct (_ <? U32); cbn [mbind Res_bind]; [|done].
      destruct (fast_retransmit_segment _); [by intros [= <- <-] | by apply Hdata].
    + by destruct (3 <? dups _); cbn [mbind Res_bind]; apply Hdata.
Qed.

Lemma data_step_una irs S c ev c' outs :
  conn_inv c -> st c = Established -> data_event irs S ev -> conn_step c ev = Ok (c', outs) ->
  una c' = una c \/ exists clk seg, ev = EvSegment clk seg /\ una c' = ack_num (header seg).
Proof.
  intros HI Hst [Hok Hd] E. destruct ev as [clk seg|data|mp now|buf|now| |now| |]; try done;
    cbn [conn_step event_ok] in *.
  - destruct (process_segment c clk seg) as [[c1 r]| |] eqn:Ep; try done. injection E as <- <-.
    destruct (established_segment_ack c clk seg c1 r HI (proj1 Hok) Hst (proj1 Hd)
      (proj1 (proj2 Hd)) Ep) as [_ [[Hu _]|(_ & Hu & _)]]; [by left | right; by eexists _, _].
  - injection E as <- <-. by left.
  - left. destruct (next_segment_to_send_spec c mp now HI ltac:(lia)) as [En|(pl & c1 & En & -> & _)];
      rewrite En in E; by injection E as <- <-.
  - injection E as <- <-. left. unfold read_received. destruct (recv_buf c) as [rb|]; [|done].
    by destruct (RecvBuffer_read rb buf) as [[? ?] ?].
  - left. destruct (take_retransmits_spec c now HI Hok) as (rq & c1 & Er & _ & _ & ->).
    rewrite Er in E. injection E as <- <-. by destruct (map _ (List.filter _ _)).
  - injection E as <- <-. left. unfold tick_time_wait. by rewrite Hst.
  - unfold zero_window_probe in E. left.
    destruct (_ || _)%bool; [by injection E as <- <- |].
    by destruct (SendBuffer_next_segment (send_buf c) 1) as [[? ?]|]; injection E as <- <-.
Qed.

(** ** The invariant *)
(** One end against the other: [p] numbers its bytes from [iss] and [q] from [irs];
    of the first [sB] bytes of [q], those that [q] has put on the wire, [p] has the
    first [nx] in order and its application has read [rd] of them. *)
Record end_ok (iss irs : Z) (p q : Peer) (A : ByteStream) (sB rd nx : Z) : Prop := {
  eo_rel : conn_rel iss irs (take (Z.to_nat sB) (p_gave q)) (p_conn p) A rd nx;
  eo_peer : 0 <= sB <= len (p_gave q);
  eo_gave : written A = p_gave p;
  eo_got : p_got p = slice_at (p_gave q) 0 rd;
  eo_wire : Forall (fun raw => stream_segment iss irs (sent_bytes A) nx raw /\ emits (p_conn p) raw)
              (p_sent p) }.

Record world_ok (x y : Z) (p q : Peer) : Prop := mkWorldOk {
  wo_mirror : mirrored (tcb (p_conn p)) (tcb (p_conn q));
  wo_ends : exists A rd nx B rd' nx',
    end_ok x y p q A (sent B) rd nx /\ end_ok y x q p B (sent A) rd' nx' /\
    acked A <= nx' /\ acked B <= nx }.

Lemma world_ok_sym x y p q : world_ok x y p q -> world_ok y x q p.
Proof.
  intros [Hm (A & rd & nx & B & rd' & nx' & H1 & H2 & H3 & H4)].
  split; [by apply mirrored_sym |]. by exists B, rd', nx', A, rd, nx.
Qed.

Lemma same_ends_sym c c' : same_ends c c' -> same_ends c' c.
Proof. by intros (? & ? & ? & ?). Qed.

Lemma end_order iss irs p q A sB rd nx :
  end_ok iss irs p q A sB rd nx ->
  0 <= rd <= nx /\ nx <= sB <= len (p_gave q) /\ 0 <= acked A <= sent A /\ sent A <= len (p_gave p).
Proof.
  intros [HR HsB Hw _ _]. destruct (cr_recv _ _ _ _ _ _ _ HR) as (rb & _ & Hrr & _).
  pose proof (rr_order _ _ _ _ _ Hrr) as Ho. rewrite len_take in Ho by lia.
  pose proof (cr_order _ _ _ _ _ _ _ HR). rewrite Hw in *. lia.
Qed.

(** What the other end writes and transmits does not disturb an end. *)
Lemma end_ok_other iss irs p q q' A sB sB' rd nx T :
  end_ok iss irs p q A sB rd nx -> p_gave q' = p_gave q ++ T -> sB <= sB' <= len (p_gave q') ->
  end_ok iss irs p q' A sB' rd nx.
Proof.
  intros HE E HsB. pose proof (end_order _ _ _ _ _ _ _ _ HE). destruct HE as [HR Hs0 Hw Hg Hs].
  destruct (sent_bytes_grows (mkByteStream (p_gave q) 0 sB) (mkByteStream (p_gave q') 0 sB') T)
    as [U HU]; [cbn; lia | cbn; lia | done |].
  unfold sent_bytes in HU. cbn [sent written] in HU.
  split; [rewrite HU; by apply conn_rel_app | lia | done | | done].
  rewrite E, slice_at_app_l by lia. done.
Qed.

(** ** A step of one end *)
Definition acks_received (iss : Z) (n : Z) (ev : Event) : Prop :=
  match ev with
  | EvSegment _ seg => exists o, 0 <= o <= n /\ ack_num (header seg) = seq_of iss o
  | _ => True
  end.

Lemma una_acked iss irs S c A rd nx :
  conn_rel iss irs S c A rd nx -> una c = seq_of iss (acked A).
Proof. intros HR. rewrite (cr_una _ _ _ _ _ _ _ HR). apply (cr_send _ _ _ _ _ _ _ HR). Qed.

Lemma peer_do_ok iss irs p q A sB rd nx n ev :
  end_ok iss irs p q A sB rd nx -> data_event irs (take (Z.to_nat sB) (p_gave q)) ev ->
  acks_received iss n ev ->
  acked A <= n < 2147483648 -> len (p_gave q) < 2147483648 ->
  len (p_gave p) + len (app_in (p_conn p) ev) < 2147483648 ->
  exists p' A' rd' nx', peer_do p ev = Ok p' /\ end_ok iss irs p' q A' sB rd' nx' /\
    p_gave p' = p_gave p ++ app_in (p_conn p) ev /\ nx <= nx' /\ sent A <= sent A' /\
    acked A' <= n /\ same_ends (p_conn p) (p_conn p').
Proof.
  intros HE Hev Hack Hn Hq Hp. pose proof HE as [HR HsB Hw Hg Hs].
  pose proof (cr_inv _ _ _ _ _ _ _ HR) as HI. pose proof (cr_state _ _ _ _ _ _ _ HR) as Hst.
  pose proof (end_order _ _ _ _ _ _ _ _ HE) as Ho.
  assert (HS : len (take (Z.to_nat sB) (p_gave q)) < 2147483648) by (rewrite len_take by lia; lia).
  pose proof (sim_step iss irs _ HS (p_conn p) A rd nx ev HR Hev) as Hsim.
  pose proof (conn_step_ok (p_conn p) ev HI (proj1 Hev)) as Hok.
  unfold peer_do. destruct (conn_step (p_conn p) ev) as [[c' outs]| |] eqn:E; try done.
  destruct Hsim as (A' & rd' & nx' & HR' & HW & (Hrd & Hnx & Hsent) & Hout & Happ).
  destruct Hok as (_ & Hsame & Hem). cbn [mbind Res_bind].
  destruct (cr_order _ _ _ _ _ _ _ HR) as (? & ? & _).
  destruct (sent_bytes_grows A A' _ ltac:(lia) Hsent HW) as [U HU].
  assert (HE' : end_ok iss irs
    {| p_conn := c'; p_sent := p_sent p ++ outs; p_gave := p_gave p ++ app_in (p_conn p) ev;
       p_got := p_got p ++ app_out (p_conn p) ev |} q A' sB rd' nx').
  { split; cbn [p_conn p_sent p_gave p_got]; [exact HR' | done | by rewrite HW, Hw | |].
    - destruct (cr_recv _ _ _ _ _ _ _ HR') as (rb & _ & Hrr & _).
      pose proof (rr_order _ _ _ _ _ Hrr) as Hrd'. rewrite len_take in Hrd' by lia.
      rewrite Hg, Happ. replace rd' with (rd + (rd' - rd)) at 2 by lia.
      rewrite <- (slice_at_app _ 0) by lia. f_equal.
      rewrite <- (take_drop (Z.to_nat sB) (p_gave q)) at 2.
      rewrite slice_at_app_l; [done | lia | lia | rewrite len_take by lia; lia].
    - apply Forall_app. split.
      + eapply Forall_impl; [exact Hs |]. intros raw [H1 H2].
        split; [rewrite HU; by apply (stream_segment_app iss irs _ _ nx) |].
        eapply emits_same_ends; [by apply same_ends_sym | exact H2].
      + apply Forall_forall. rewrite Forall_forall in Hout, Hem.
        intros raw Hin. split; [by apply Hout |].
        eapply emits_same_ends; [by apply same_ends_sym | by apply Hem]. }
  eexists _, A', rd', nx'. split; [reflexivity |]. split; [exact HE' |]. split; [done |].
  split; [done |]. split; [done |]. split; [|done].
  pose proof (end_order _ _ _ _ _ _ _ _ HE') as Ho'. cbn [p_gave] in Ho'. rewrite len_app in Ho'.
  destruct (data_step_una irs _ _ ev c' outs HI Hst Hev E) as [Hu|(clk & seg & -> & Hu)];
    rewrite (una_acked _ _ _ _ _ _ _ HR') in Hu.
  - rewrite (una_acked _ _ _ _ _ _ _ HR) in Hu. apply seq_of_inj in Hu; lia.
  - destruct Hack as (o & Hoo & Ha). rewrite Ha in Hu. apply seq_of_inj in Hu; lia.
Qed.

(** ** A segment that arrives *)
(** What the other end reads of a segment on the wire. *)
Lemma wire_delivery irs iss p q W n raw :
  mirrored (tcb (p_conn q)) (tcb (p_conn p)) ->
  stream_segment irs iss W n raw -> emits (p_conn q) raw ->
  exists seg, TcpSegment_parse raw (remote_ip (tcb (p_conn p))) (local_ip (tcb (p_conn p))) = Ok seg /\
    seg_ok seg /\ flag_rst (flags (header seg)) = false /\ flag_fin (flags (header seg)) = false /\
    (payload seg = [] \/ segment_of irs W (seq_num (header seg), payload seg)) /\
    exists o, 0 <= o <= n /\ ack_num (header seg) = seq_of iss o.
Proof.
  intros [] (b & Hb & -> & Hf & (o & Ho & Ha) & Hp) [(b' & Hb' & E & E1 & E2 & _)].
  destruct (build_injective _ _ Hb Hb' E) as (_ & _ & Es & Eack & Ef & _ & Ep).
  exists (wire_segment b'). split.
  { rewrite E. replace (remote_ip (tcb (p_conn p))) with (sb_src_ip b') by congruence.
    replace (local_ip (tcb (p_conn p))) with (sb_dst_ip b') by congruence. by apply parse_build. }
  cbn [wire_segment header flags payload seq_num ack_num]. rewrite <- Ef, <- Ep, <- Es, <- Eack.
  split; [destruct Hb'; split; [done | by split] |].
  split; [by destruct Hf as [-> | ->] |]. split; [by destruct Hf as [-> | ->] |].
  split; [done | by exists o].
Qed.

(** ** Runs *)
Lemma len_app_in c m : len (match m with Do ev => app_in c ev | _ => [] end) <= offered (true, m).
Proof.
  destruct m as [[]|]; cbn [app_in offered snd]; try (unfold len; cbn; lia).
  unfold len. rewrite length_take. lia.
Qed.

Lemma world_ok_do x y p q ev B rd' nx' A rd nx :
  mirrored (tcb (p_conn p)) (tcb (p_conn q)) ->
  end_ok x y p q A (sent B) rd nx -> end_ok y x q p B (sent A) rd' nx' ->
  acked A <= nx' -> acked B <= nx ->
  data_event y (sent_bytes B) ev -> acks_received x nx' ev ->
  len (p_gave q) < 2147483648 -> len (p_gave p) + len (app_in (p_conn p) ev) < 2147483648 ->
  exists p', peer_do p ev = Ok p' /\ world_ok x y p' q /\
    p_gave p' = p_gave p ++ app_in (p_conn p) ev.
Proof.
  intros Hm HA HB HAB HBA Hev Hack Hq Hp. pose proof (end_order _ _ _ _ _ _ _ _ HB).
  pose proof (len_nonneg (app_in (p_conn p) ev)).
  unfold sent_bytes in Hev. rewrite (eo_gave _ _ _ _ _ _ _ _ HB) in Hev.
  destruct (peer_do_ok x y p q A (sent B) rd nx nx' ev HA Hev Hack ltac:(lia) Hq Hp)
    as (p' & A' & rd1 & nx1 & E & HA' & HG & Hnx & Hsent & HA1 & Hs).
  pose proof (end_order _ _ _ _ _ _ _ _ HA').
  exists p'. split; [done |]. split; [|done]. split.
  - by apply (mirrored_ends (p_conn p) _ (p_conn q) (p_conn q)).
  - exists A', rd1, nx1, B, rd', nx'. split; [done |].
    split; [|lia]. apply (end_ok_other _ _ _ p _ _ _ _ _ _ _ HB HG). lia.
Qed.

Lemma peer_move_ok x y p q m :
  world_ok x y p q -> move_ok m -> len (p_gave q) < 2147483648 ->
  len (p_gave p) + offered (true, m) < 2147483648 ->
  exists p', peer_move p q m = Ok p' /\ world_ok x y p' q /\
    len (p_gave p') <= len (p_gave p) + offered (true, m).
Proof.
  intros HW Hmok Hq Hp. pose proof HW as [Hm (A & rd & nx & B & rd' & nx' & HA & HB & HAB & HBA)].
  pose proof (len_app_in (p_conn p) m) as Hl. destruct m as [ev|clk i]; cbn [peer_move].
  - destruct (world_ok_do x y p q ev B rd' nx' A rd nx) as (p' & E & HW' & HG); try done.
    + destruct ev; try done; by split.
    + by destruct ev.
    + lia.
    + exists p'. split; [done |]. split; [done |]. rewrite HG, len_app. lia.
  - destruct (p_sent q !! i) as [raw|] eqn:Ei; [|exists p; split; [done |]; split; [done | cbn; lia]].
    pose proof (proj1 (Forall_lookup _ _) (eo_wire _ _ _ _ _ _ _ _ HB) i raw Ei) as [Hss Hem].
    destruct (wire_delivery y x p q _ _ raw (mirrored_sym _ _ Hm) Hss Hem)
      as (seg & Eseg & Hsok & Hr & Hf & Hpl & Hack).
    unfold peer_receive. rewrite Eseg.
    destruct (world_ok_do x y p q (EvSegment clk seg) B rd' nx' A rd nx) as (p' & E & HW' & HG);
      try done.
    exists p'. split; [done |]. split; [done |]. rewrite HG, app_nil_r. cbn. lia.
Qed.

Lemma offered_nonneg b m : 0 <= offered (b, m).
Proof. destruct m as [[]|]; cbn; try lia. apply len_nonneg. Qed.

Lemma volume_nonneg ms : 0 <= volume ms.
Proof. induction ms as [|[b m] ms IH]; [done |]. cbn. pose proof (offered_nonneg b m). unfold volume in IH. lia. Qed.

Lemma world_run_ok ms : forall x y p q,
  world_ok x y p q -> Forall (fun bm => move_ok (snd bm)) ms ->
  len (p_gave p) + volume ms < 2147483648 -> len (p_gave q) + volume ms < 2147483648 ->
  exists p' q', world_run p q ms = Ok (p', q') /\ world_ok x y p' q'.
Proof.
  induction ms as [|[b m] ms IH]; intros x y p q HW Hms Hp Hq; [by exists p, q |].
  apply Forall_cons in Hms as [Hm Hms]. cbn [snd] in Hm.
  pose proof (offered_nonneg b m) as Ho. pose proof (volume_nonneg ms) as Hv.
  change (volume ((b, m) :: ms)) with (offered (b, m) + volume ms) in *.
  change (offered (b, m)) with (offered (true, m)) in *.
  cbn [world_run]. destruct b.
  - destruct (peer_move_ok x y p q m HW Hm ltac:(lia) ltac:(lia)) as (p' & -> & HW' & Hl).
    cbn [mbind Res_bind]. apply (IH x y); (done || lia).
  - destruct (peer_move_ok y x q p m (world_ok_sym _ _ _ _ HW) Hm ltac:(lia) ltac:(lia))
      as (q' & -> & HW' & Hl).
    cbn [mbind Res_bind]. apply (IH x y); try done; try lia. by apply world_ok_sym.
Qed.

(** ** The start: both ends after the handshake *)
Lemma handshake_world c s :
  fresh_tcb c -> fresh_tcb s -> state c = Closed -> state s = Listen -> mirrored c s ->
  world_ok (snd_iss (tcb_snd c)) (snd_iss (tcb_snd s))
    (start (client_established c s)) (start (server_established c s)).
Proof.
  intros Hc Hs Hcs Hss Hm. pose proof (hs_session c s Hc Hs Hcs Hss Hm) as HS.
  destruct HS as [HIc HIs Ec Es Hmir _ _]. split; [exact Hmir |].
  exists (mkByteStream [] 0 0), 0, 0, (mkByteStream [] 0 0), 0, 0.
  split; [|split; [|done]]; (split; [| done | done | done | apply Forall_nil_2]); apply conn_rel_fresh;
    try done. exact (hs_send_buf c s).
Qed.

(** ** The contract *)
(** The bytes that [q] has in order: read by its application or waiting for it. *)
Definition arrived (q : Peer) : list Z :=
  p_got q ++ match recv_buf (p_conn q) with Some rb => r_contents rb | None => [] end.

(** The bytes of [p] that it takes for acknowledged: written and no longer buffered. *)
Definition acknowledged (p : Peer) : list Z :=
  take (Z.to_nat (len (p_gave p) - s_len (send_buf (p_conn p)))) (p_gave p).

Lemma take_prefix {A} (l : list A) n m : (n <= m)%nat -> take n l `prefix_of` take m l.
Proof. intros H. replace n with (n `min` m)%nat by lia. rewrite <- take_take. apply prefix_take. Qed.

Lemma end_ok_arrived iss irs p q A sB rd nx :
  end_ok iss irs p q A sB rd nx -> arrived p = take (Z.to_nat nx) (p_gave q).
Proof.
  intros HE. pose proof (end_order _ _ _ _ _ _ _ _ HE). destruct HE as [HR _ _ Hg _].
  destruct (cr_recv _ _ _ _ _ _ _ HR) as (rb & Erb & Hrr & _).
  unfold arrived. rewrite Erb, Hg, (rr_contents _ _ _ _ _ Hrr).
  replace (slice_at (take (Z.to_nat sB) (p_gave q)) rd (nx - rd))
    with (slice_at (p_gave q) (0 + rd) (nx - rd)).
  - rewrite slice_at_app by lia. rewrite slice_at_prefix. do 2 f_equal. lia.
  - rewrite <- (take_drop (Z.to_nat sB) (p_gave q)) at 1.
    rewrite slice_at_app_l; [done | lia | lia | rewrite len_take by lia; lia].
Qed.

Lemma end_ok_acknowledged iss irs p q A sB rd nx :
  end_ok iss irs p q A sB rd nx -> acknowledged p = take (Z.to_nat (acked A)) (p_gave p).
Proof.
  intros HE. pose proof (end_order _ _ _ _ _ _ _ _ HE). destruct HE as [HR _ Hw _ _].
  pose proof (cr_send _ _ _ _ _ _ _ HR) as Hs.
  pose proof (len_s_contents _ (sr_wf _ _ _ Hs)) as Hc.
  rewrite (sr_contents _ _ _ Hs), Hw, len_drop in Hc by lia.
  unfold acknowledged. do 2 f_equal. lia.
Qed.

Lemma world_ok_flow x y p q :
  world_ok x y p q ->
  acknowledged p `prefix_of` arrived q /\ arrived q `prefix_of` p_gave p /\
  p_got q `prefix_of` arrived q /\ st (p_conn p) = Established.
Proof.
  intros [_ (A & rd & nx & B & rd' & nx' & HA & HB & HAB & HBA)].
  pose proof (end_order _ _ _ _ _ _ _ _ HA). pose proof (end_order _ _ _ _ _ _ _ _ HB).
  rewrite (end_ok_acknowledged _ _ _ _ _ _ _ _ HA), (end_ok_arrived _ _ _ _ _ _ _ _ HB).
  split; [apply take_prefix; lia |]. split; [apply prefix_take |].
  split; [|exact (cr_state _ _ _ _ _ _ _ (eo_rel _ _ _ _ _ _ _ _ HA))].
  rewrite <- (end_ok_arrived _ _ _ _ _ _ _ _ HB). unfold arrived. by eexists.
Qed.

(** C1. The contract of the transport, over a network that loses, delays, reorders
    and repeats segments. A client that connects and a server that listens go
    through the handshake; from then on, however the steps of both ends (writes,
    transmissions, retransmissions, window probes, reads, ticks) and the arrivals
    of segments interleave, no operation fails, what each application reads is a
    prefix of what the other one wrote, and whatever an end takes for acknowledged
    and drops from its send buffer, the other end has in order. *)
Theorem network_delivers c s clk ms :
  fresh_tcb c -> fresh_tcb s -> state c = Closed -> state s = Listen -> mirrored c s ->
  Forall (fun bm => move_ok (snd bm)) ms -> volume ms < 2147483648 ->
  exists c1 syn s1 syn_ack c2 ack s2,
    connect (Connection_new c) = (c1, Some syn) /\
    deliver (Connection_new s) clk syn = Ok (s1, Some syn_ack) /\
    deliver c1 clk syn_ack = Ok (c2, Some ack) /\
    deliver s1 clk ack = Ok (s2, None) /\
    exists p q, world_run (start c2) (start s2) ms = Ok (p, q) /\
      (acknowledged p `prefix_of` arrived q /\ arrived q `prefix_of` p_gave p /\
       p_got q `prefix_of` arrived q /\ st (p_conn p) = Established) /\
      (acknowledged q `prefix_of` arrived p /\ arrived p `prefix_of` p_gave q /\
       p_got p `prefix_of` arrived p /\ st (p_conn q) = Established).
Proof.
  intros Hc Hs Hcs Hss Hm Hms Hv. do 7 eexists.
  split; [by apply hs_connect |]. split; [by apply (hs_syn c s) |].
  split; [by apply (hs_syn_ack c s) |]. split; [by apply (hs_ack c s) |].
  destruct (world_run_ok ms _ _ _ _ (handshake_world c s Hc Hs Hcs Hss Hm) Hms Hv Hv)
    as (p & q & E & HW).
  exists p, q. split; [exact E |].
  split; [by eapply world_ok_flow | by eapply world_ok_flow, world_ok_sym].
Qed.

(** ** A concrete run: "hello" in two segments of which the first is lost and the
    second arrives twice; the retransmission completes it; the answer is "ok". *)
Definition demo_moves : list (bool * Move) :=
  [(true, Do (EvWrite [104; 101; 108; 108; 111]));
   (true, Do (EvSend 3 1000000000)); (true, Do (EvSend MSS 1000000000));
   (false, Arrive session_clock 1); (false, Arrive session_clock 1);
   (true, Arrive session_clock 0); (true, Do (EvRetransmit 3000000000));
   (false, Arrive session_clock 2); (false, Do (EvRead (zeroed 64)));
   (false, Do (EvWrite [111; 107])); (false, Do (EvSend MSS 1000000000));
   (true, Arrive session_clock 2); (true, Arrive session_clock 3);
   (true, Do (EvRead (zeroed 64))); (true, Do EvProbe); (false, Do (EvTick 5000000000))].

Lemma demo_moves_ok : Forall (fun bm => move_ok (snd bm)) demo_moves.
Proof.
  unfold demo_moves. repeat (apply Forall_cons; split); try apply Forall_nil_2; cbn [snd move_ok];
    first [exact I | exact session_clock_ok | solve [cbn; bytes_tac]
          | vm_compute; repeat split; discriminate].
Qed.

Example demo_world_run :
  match world_run (start demo_c) (start demo_s) demo_moves with
  | Ok (p, q) => p_got q = p_gave p /\ p_got p = p_gave q /\ acknowledged p = p_gave p /\
                 length (p_sent p) = 5%nat
  | _ => False
  end.
Proof. vm_compute. done. Qed.

Lemma network_delivers_witness :
  volume demo_moves = 7 /\
  exists c1 syn s1 syn_ack c2 ack s2,
    connect (Connection_new demo_client) = (c1, Some syn) /\
    deliver (Connection_new demo_server) session_clock syn = Ok (s1, Some syn_ack) /\
    deliver c1 session_clock syn_ack = Ok (c2, Some ack) /\
    deliver s1 session_clock ack = Ok (s2, None) /\
    exists p q, world_run (start c2) (start s2) demo_moves = Ok (p, q) /\
      (acknowledged p `prefix_of` arrived q /\ arrived q `prefix_of` p_gave p /\
       p_got q `prefix_of` arrived q /\ st (p_conn p) = Established) /\
      (acknowledged q `prefix_of` arrived p /\ arrived p `prefix_of` p_gave q /\
       p_got p `prefix_of` arrived p /\ st (p_conn q) = Established).
Proof.
  split; [reflexivity |].
  apply (network_delivers demo_client demo_server session_clock demo_moves demo_client_fresh
    demo_server_fresh eq_refl eq_refl demo_mirrored demo_moves_ok).
  reflexivity.
Defined.
