(* ===== verification/Recovery.v ===== *)
(** * The transport completes

    The theorems of Network.v say that nothing wrong is ever delivered. This file says
    that the right bytes can always be: from every state that two connections reach
    over the lossy network, one timeout and finitely many arrivals, transmissions and
    probes bring everything that one application wrote to the other one, and its
    acknowledgement back. Two steps of the code are excluded for the sending end: a
    segment sent while the retransmission queue is full and a window probe are not
    queued, so that their loss is final. *)
From S2P Require Import Prelude Errors Tcb Ipv4 Header Ring SendBuffer RecvBuffer Float64 Retransmit Connection Session Stream Network.

(** ** The queue holds everything in flight *)
(** The entries are consecutive pieces of the stream, from offset [o] to [n]. *)
Fixpoint chain (iss o n : Z) (l : list RetransmitEntry) : Prop :=
  match l with
  | [] => o = n
  | e :: l => e_seq e = seq_of iss o /\ 0 < len (e_data e) /\ chain iss (o + len (e_data e)) n l
  end.

Lemma chain_le iss n l : forall o, chain iss o n l -> o <= n.
Proof.
  induction l as [|e l IH]; intros o; cbn [chain]; [lia |]. intros (_ & H & Hc). apply IH in Hc. lia.
Qed.

Lemma chain_app iss n m l l' : forall o,
  chain iss o n l -> chain iss n m l' -> chain iss o m (l ++ l').
Proof.
  induction l as [|e l IH]; intros o; cbn [chain app]; [by intros -> |].
  intros (? & ? & Hc) H'. split_and!; try done. by apply IH.
Qed.

(** Only the numbers and the bytes count, not the times. *)
Definition piece (e : RetransmitEntry) : Z * list Z := (e_seq e, e_data e).

Lemma chain_pieces iss n l : forall l' o,
  map piece l' = map piece l -> chain iss o n l -> chain iss o n l'.
Proof.
  induction l as [|e l IH]; intros [|e' l'] o; cbn [map chain]; try done.
  intros [= E1 E2 E] (? & ? & Hc). rewrite E1, E2. split_and!; try done. by apply IH.
Qed.

Lemma unacked_chain iss o a e :
  e_seq e = seq_of iss o -> -2147483648 < a - (o + len (e_data e)) < 2147483648 ->
  unacked (seq_of iss a) e = negb (o + len (e_data e) <=? a).
Proof.
  intros E H. unfold unacked, fully_acked, entry_end, seq_le. f_equal.
  rewrite E, seq_of_add, seq_lt_seq_of by lia.
  destruct (Z.eqb_spec (seq_of iss (o + len (e_data e))) (seq_of iss a)) as [Es|Es].
  - apply seq_of_inj in Es; [|lia]. cbn [orb]. lia.
  - assert (o + len (e_data e) <> a) by congruence. cbn [orb]. lia.
Qed.

Lemma chain_keep iss n a l : forall o,
  chain iss o n l -> a <= o -> n - a < 2147483648 -> List.filter (unacked (seq_of iss a)) l = l.
Proof.
  induction l as [|e l IH]; intros o; cbn [chain List.filter]; [done |].
  intros (Es & Hl & Hc) Ha Hn. pose proof (chain_le _ _ _ _ Hc).
  rewrite (unacked_chain iss o) by (done || lia). replace (_ <=? a) with false by lia. cbn [negb].
  f_equal. apply (IH (o + len (e_data e))); (done || lia).
Qed.

(** An acknowledgement takes entries off the front. *)
Lemma chain_ack iss n a l : forall o,
  chain iss o n l -> o <= a <= n -> n - o < 2147483648 ->
  exists o', o <= o' <= a /\ chain iss o' n (List.filter (unacked (seq_of iss a)) l).
Proof.
  induction l as [|e l IH]; intros o; cbn [chain List.filter]; [intros ->; exists n; split; [lia | done] |].
  intros (Es & Hl & Hc) Ha Hn. pose proof (chain_le _ _ _ _ Hc).
  rewrite (unacked_chain iss o) by (done || lia).
  destruct (Z.leb_spec (o + len (e_data e)) a); cbn [negb].
  - destruct (IH _ Hc) as (o' & Ho & H'); [lia | lia |]. exists o'. split; [lia | done].
  - exists o. split; [lia |]. cbn [chain]. split_and!; try done.
    by rewrite (chain_keep iss n a l _ Hc) by lia.
Qed.

(** Everything in flight is in the queue, and was sent at [T] or before. *)
Record kept (T iss : Z) (c : Connection) (A : ByteStream) : Prop := {
  kp_chain : exists o, 0 <= o <= acked A /\ chain iss o (sent A) (entries (retransmit_queue c));
  kp_times : Forall (fun e => e_sent_at e <= T) (entries (retransmit_queue c)) }.

(** The two steps that send without queueing do not happen. *)
Definition roomy (c : Connection) (ev : Event) : bool :=
  match ev with
  | EvSend _ _ => len (entries (retransmit_queue c)) <? RETRANSMIT_QUEUE_MAX
  | EvProbe => negb (wnd c =? 0)
  | _ => true
  end.

Definition before (T : Z) (ev : Event) : Prop :=
  match ev with EvSend _ now | EvRetransmit now => now <= T | _ => True end.

Section Kept.
Context (T iss irs : Z) (S : list Z) (c c' : Connection) (A A' : ByteStream) (rd nx rd' nx' : Z).
Context (HR : conn_rel iss irs S c A rd nx) (HR' : conn_rel iss irs S c' A' rd' nx')
        (Hl : len (written A) < 2147483648) (Hl' : len (written A') < 2147483648).

Lemma offset_nxt n : nxt c' = seq_of iss n -> 0 <= n < 2147483648 -> sent A' = n.
Proof using HR' Hl'.
  intros E Hn. pose proof (cr_order _ _ _ _ _ _ _ HR') as Ho.
  rewrite (cr_nxt _ _ _ _ _ _ _ HR'), (sr_nxt _ _ _ (cr_send _ _ _ _ _ _ _ HR')) in E.
  apply seq_of_inj in E; lia.
Qed.

Lemma offset_una n : una c' = seq_of iss n -> 0 <= n < 2147483648 -> acked A' = n.
Proof using HR' Hl'.
  intros E Hn. pose proof (cr_order _ _ _ _ _ _ _ HR') as Ho.
  rewrite (cr_una _ _ _ _ _ _ _ HR'), (sr_una _ _ _ (cr_send _ _ _ _ _ _ _ HR')) in E.
  apply seq_of_inj in E; lia.
Qed.

Lemma nxt_sent : nxt c = seq_of iss (sent A).
Proof using HR. rewrite (cr_nxt _ _ _ _ _ _ _ HR). apply HR. Qed.

Lemma kept_same :
  una c' = una c -> nxt c' = nxt c ->
  map piece (entries (retransmit_queue c')) = map piece (entries (retransmit_queue c)) ->
  Forall (fun e => e_sent_at e <= T) (entries (retransmit_queue c')) ->
  kept T iss c A -> kept T iss c' A'.
Proof using HR HR' Hl Hl'.
  intros Eu En Ep Ht [(o & Ho & Hc) _]. pose proof (cr_order _ _ _ _ _ _ _ HR).
  rewrite (una_acked _ _ _ _ _ _ _ HR) in Eu. rewrite nxt_sent in En.
  split; [|exact Ht]. exists o. rewrite (offset_una _ Eu), (offset_nxt _ En) by lia.
  split; [lia |]. by apply (chain_pieces iss _ (entries (retransmit_queue c))).
Qed.

Lemma kept_ack ack :
  is_u32 ack -> ack_acceptable (una c) ack (nxt c) = true -> una c' = ack -> nxt c' = nxt c ->
  entries (retransmit_queue c') = List.filter (unacked ack) (entries (retransmit_queue c)) ->
  kept T iss c A -> kept T iss c' A'.
Proof using HR HR' Hl Hl'.
  intros Ha Hacc Eu En Ee [(o & Ho & Hc) Ht]. pose proof (cr_order _ _ _ _ _ _ _ HR) as Hord.
  pose proof (cr_order _ _ _ _ _ _ _ HR') as Hord'. rewrite nxt_sent in En.
  destruct (ack_in_flight iss irs S c A rd nx HR ack Ha Hacc) as [Hk _].
  rewrite <- Eu, (una_acked _ _ _ _ _ _ _ HR'), <- (cr_una _ _ _ _ _ _ _ HR),
    (una_acked _ _ _ _ _ _ _ HR), seq_of_sub in Hk.
  pose proof (sw_len _ (sr_wf _ _ _ (cr_send _ _ _ _ _ _ _ HR))).
  assert (acked A <= acked A') by (unfold U32, SEND_BUF_SIZE in *; Z.div_mod_to_equations; lia).
  pose proof (offset_nxt _ En ltac:(lia)) as Es. rewrite <- Eu, (una_acked _ _ _ _ _ _ _ HR') in Ee.
  split; rewrite Ee; [|by apply Forall_filter_list].
  destruct (chain_ack iss (sent A) (acked A') _ o Hc) as (o' & Ho' & Hc'); [lia | lia |].
  exists o'. rewrite Es. split; [lia | done].
Qed.
End Kept.

Lemma kept_step T iss irs S c c' A A' rd nx rd' nx' ev outs :
  conn_rel iss irs S c A rd nx -> conn_rel iss irs S c' A' rd' nx' ->
  len (written A) < 2147483648 -> len (written A') < 2147483648 ->
  data_event irs S ev -> conn_step c ev = Ok (c', outs) -> roomy c ev = true -> before T ev ->
  kept T iss c A -> kept T iss c' A'.
Proof.
  intros HR HR' Hl Hl' [Hok Hd] E Hr Hb HK. pose proof (cr_inv _ _ _ _ _ _ _ HR) as HI.
  pose proof (kp_times _ _ _ _ HK) as Ht.
  destruct ev as [clk seg|data|mp now|buf|now| |now| |]; try done; cbn [conn_step event_ok roomy before] in *.
  - destruct (process_segment c clk seg) as [[c1 r]| |] eqn:Ep; try done. injection E as <- <-.
    destruct (established_segment_ack c clk seg c1 r HI (proj1 Hok) (cr_state _ _ _ _ _ _ _ HR) (proj1 Hd)
      (proj1 (proj2 Hd)) Ep) as [En [[Eu Ee]|(Hacc & Eu & Ee)]].
    + apply (kept_same _ _ _ _ _ _ _ _ _ _ _ _ HR HR' Hl Hl'); try done; by rewrite Ee.
    + eapply (kept_ack _ _ _ _ _ _ _ _ _ _ _ _ HR HR' Hl Hl' (ack_num (header seg))); try done. apply Hok.
  - injection E as <- <-. apply (kept_same _ _ _ _ _ _ _ _ _ _ _ _ HR HR' Hl Hl'); (done || unfold write_data; by destruct (SendBuffer_write _ _)).
  - destruct (next_segment_to_send_spec c mp now HI ltac:(lia)) as [En|(pl & c1 & En & E1 & Hb1 & Hpl & _)];
      rewrite En in E; injection E as <- <-; [by apply (kept_same _ _ _ _ _ _ _ _ _ _ _ _ HR HR' Hl Hl') |].
    pose proof (cr_order _ _ _ _ _ _ _ HR) as Ho. destruct HK as [(o & Hoo & Hc) _].
    pose proof (cr_order _ _ _ _ _ _ _ HR') as Ho'.
    assert (Es : s_nxt (send_buf c) = seq_of iss (sent A)) by apply (cr_send _ _ _ _ _ _ _ HR).
    assert (En' : nxt c1 = seq_of iss (sent A + len pl)) by (rewrite E1; cbn; rewrite Es; apply seq_of_add).
    assert (Eu' : una c1 = seq_of iss (acked A)) by (rewrite E1; exact (una_acked _ _ _ _ _ _ _ HR)).
    assert (Ee : entries (retransmit_queue c1) = entries (retransmit_queue c) ++
      [{| e_seq := s_nxt (send_buf c); e_data := pl; e_sent_at := now; e_retransmitted := false |}]).
    { rewrite E1. cbn. unfold RetransmitQueue_push. by rewrite Hr. }
    assert (len pl <= MSS) by lia. unfold MSS in *.
    assert (Ea : acked A' = acked A) by (eapply offset_una; try done; lia). 
    assert (Esent : sent A' = sent A + len pl).
    { rewrite (nxt_sent iss irs S c1 A' rd' nx' HR') in En'. apply seq_of_inj in En'; lia. }
    split; rewrite Ee.
    + exists o. rewrite Ea, Esent. split; [lia |]. apply (chain_app _ (sent A)); [exact Hc |].
      cbn [chain e_seq e_data]. by split_and!; [|lia|].
    + apply Forall_app. split; [done |]. by apply Forall_singleton.
  - injection E as <- <-. unfold read_received in *. destruct (recv_buf c) as [rb|]; [|by apply (kept_same _ _ _ _ _ _ _ _ _ _ _ _ HR HR' Hl Hl')].
    destruct (RecvBuffer_read rb buf) as [[rb' buf'] n]. by apply (kept_same _ _ _ _ _ _ _ _ _ _ _ _ HR HR' Hl Hl').
  - destruct (take_retransmits_spec c now HI Hok) as (rq & c1 & Er & _ & Ee & Ec).
    rewrite Er in E. injection E as <- _.
    assert (Hrq : retransmit_queue c1 = rq /\ una c1 = una c /\ nxt c1 = nxt c)
      by (rewrite Ec; by destruct (map _ (List.filter _ _))).
    destruct Hrq as (Hrq & Hu & Hn). apply (kept_same _ _ _ _ _ _ _ _ _ _ _ _ HR HR' Hl Hl'); try done; rewrite Hrq, Ee.
    + rewrite map_map. apply map_ext. intros e. by destruct (due _ _ e).
    + apply Forall_map. eapply Forall_impl; [exact Ht |]. intros e He. cbv beta. by destruct (due _ _ e).
  - injection E as <- <-. unfold tick_time_wait in *. rewrite (cr_state _ _ _ _ _ _ _ HR) in *. by apply (kept_same _ _ _ _ _ _ _ _ _ _ _ _ HR HR' Hl Hl').
  - unfold zero_window_probe in E. rewrite Hr, orb_true_r in E. injection E as <- <-. by apply (kept_same _ _ _ _ _ _ _ _ _ _ _ _ HR HR' Hl Hl').
Qed.

(** ** One segment at the receiving end *)
(** The acknowledgement block leaves the receiving side alone; it answers at once, and
    so drops the payload, only on the third duplicate. *)
Lemma established_ack_receive c clk seg :
  conn_inv c -> clock_ok clk -> exists c1 r, established_ack c clk seg = Ok (c1, r) /\
    recv_buf c1 = recv_buf c /\ rnxt c1 = rnxt c /\
    (r = None \/ dups c = 2 /\ dups c1 = 3).
Proof.
  intros HI Hclk. destruct (ack_acceptable (una c) (ack_num (header seg)) (nxt c)) eqn:Hacc.
  - destruct (established_ack_new c HI clk Hclk seg Hacc) as (w & rq & -> & _).
    eexists _, _. split; [reflexivity |]. split_and!; try done. by left.
  - unfold established_ack. rewrite Hacc. destruct (_ && _)%bool.
    2: { eexists _, _. split; [reflexivity |]. split_and!; try done. by left. }
    pose proof (dup_inv c HI) as HId. set (c1 := set_dup_ack_count _ c) in *.
    assert (Hd : dups c1 = Z.min (dups c + 1) (U8 - 1)) by done.
    destruct (Z.eqb_spec (dups c1) 3) as [E3|_].
    + destruct (enter_fast_recovery_ok c1 HId) as (E & _). rewrite E. cbn [mbind Res_bind].
      set (c2 := set_cwnd _ _).
      exists c2, (fast_retransmit_segment c2). split; [done |]. split; [done |]. split; [done |].
      right. split; [unfold U8 in Hd; lia | exact E3].
    + destruct (3 <? dups c1); eexists _, _; (split; [reflexivity |]); split_and!; try done; by left.
Qed.

Section Arrival.
Context (iss irs : Z) (S : list Z) (HS : len S < 2147483648).
Context (c : Connection) (A : ByteStream) (rd nx : Z) (HR : conn_rel iss irs S c A rd nx).

(** A piece that leaves no gap, into a ring with room for it: it is taken and
    acknowledged, unless it is a third duplicate acknowledgement. *)
Lemma data_arrives clk seg o rb :
  clock_ok clk -> flags (header seg) = F_ACK \/ flags (header seg) = F_PSH_ACK ->
  seq_num (header seg) = seq_of irs o -> 0 <= o <= nx -> o + len (payload seg) <= len S ->
  payload seg = slice_at S o (len (payload seg)) -> 0 < len (payload seg) ->
  recv_buf c = Some rb -> len (payload seg) <= RECV_BUF_SIZE - r_len rb ->
  exists c' r, process_segment c clk seg = Ok (c', r) /\
    ((dups c = 2 /\ dups c' = 3 /\ rnxt c' = rnxt c) \/
     (r = Some (build_ack c') /\
      exists nx', nx <= nx' /\ o + len (payload seg) <= nx' /\ nx' <= len S /\ rnxt c' = seq_of irs nx')).
Proof using HR HS.
  intros Hclk Hfl Hseq Ho Hfit Hd Hpos Erb Hroom. pose proof (cr_inv _ _ _ _ _ _ _ HR) as HI.
  destruct (established_ack_receive c clk seg HI Hclk) as (c1 & r1 & Ea & Eb & En & Hr).
  unfold process_segment. rewrite (cr_state _ _ _ _ _ _ _ HR). unfold handle_established.
  assert (Hf : flag_rst (flags (header seg)) = false /\ flag_ack (flags (header seg)) = true /\
    flag_fin (flags (header seg)) = false) by (destruct Hfl as [-> | ->]; done).
  destruct Hf as (-> & -> & Hfin). rewrite Ea. cbn [mbind Res_bind].
  assert (Hdata : exists nx', established_data c1 seg =
      Ok (receive_payload c1 seg, Some (build_ack (receive_payload c1 seg))) /\
    nx <= nx' /\ o + len (payload seg) <= nx' /\ nx' <= len S /\
    rnxt (receive_payload c1 seg) = seq_of irs nx').
  { destruct (cr_recv _ _ _ _ _ _ _ HR) as (rb0 & Erb0 & Hrr & _).
    rewrite Erb in Erb0. injection Erb0 as <-. pose proof (rr_order _ _ _ _ _ Hrr).
    destruct (recv_rel_insert irs S ltac:(lia) rb rd nx o (payload seg) Hrr) as (nx' & Hle & Hrr' & Hcov);
      [lia | lia | exact Hd | lia |].
    exists nx'. unfold established_data, receive_payload. rewrite Hfin, Eb, Erb.
    replace (len (payload seg) =? 0) with false by lia. cbn [negb andb].
    split; [done |]. split; [done |]. split; [apply Hcov; lia |]. rewrite Hseq.
    split; [apply (rr_order _ _ _ _ _ Hrr') | apply (rr_nxt _ _ _ _ _ Hrr')]. }
  destruct Hr as [-> | [H2 H3]].
  - destruct Hdata as (nx' & -> & ? & ? & ? & ?). eexists _, _. split; [done |]. right.
    split; [done |]. by exists nx'.
  - destruct r1 as [raw|].
    + eexists _, _. split; [done |]. by left.
    + destruct Hdata as (nx' & -> & ? & ? & ? & ?). eexists _, _. split; [done |]. right.
      split; [done |]. by exists nx'.
Qed.

(** Reading it all makes room. *)
Lemma read_all : exists c' rb', conn_step c (EvRead (zeroed RECV_BUF_SIZE)) = Ok (c', []) /\
  recv_buf c' = Some rb' /\ r_len rb' = 0 /\ rnxt c' = rnxt c /\ dups c' = dups c /\
  una c' = una c /\ nxt c' = nxt c.
Proof using HR.
  destruct (cr_recv _ _ _ _ _ _ _ HR) as (rb & Erb & Hrr & _).
  pose proof (rw_len _ (rr_wf _ _ _ _ _ Hrr)).
  pose proof (r_contents_read rb (zeroed RECV_BUF_SIZE) (rr_wf _ _ _ _ _ Hrr)) as Hr.
  cbn [conn_step]. unfold read_received. rewrite Erb.
  destruct (RecvBuffer_read rb (zeroed RECV_BUF_SIZE)) as [[rb' buf'] n] eqn:E.
  eexists _, rb'. split; [reflexivity |]. split_and!; try done.
  unfold RecvBuffer_read in E. injection E as <- _ _. cbn [r_len].
  rewrite (len_zeroed RECV_BUF_SIZE) by (unfold RECV_BUF_SIZE; lia). lia.
Qed.
End Arrival.

(** ** The sending end *)
Section Sender.
Context (iss irs : Z) (S : list Z) (c : Connection) (A : ByteStream) (rd nx : Z)
        (HR : conn_rel iss irs S c A rd nx).

(** An acknowledgement of everything sent. *)
Lemma ack_learned clk seg :
  clock_ok clk -> seg_ok seg -> flags (header seg) = F_ACK -> payload seg = [] ->
  ack_num (header seg) = nxt c ->
  exists c', process_segment c clk seg = Ok (c', None) /\ una c' = nxt c /\ nxt c' = nxt c.
Proof using HR.
  intros Hclk Hseg Hfl Hp Hack. pose proof (cr_inv _ _ _ _ _ _ _ HR) as HI.
  unfold process_segment. rewrite (cr_state _ _ _ _ _ _ _ HR). unfold handle_established.
  rewrite Hfl. cbn [flag_rst flag_ack F_ACK].
  assert (Hdata : forall c1, established_data c1 seg = Ok (c1, None))
    by (intros c1; unfold established_data; by rewrite Hfl, Hp).
  destruct (decide (una c = nxt c)) as [E|E].
  - unfold established_ack. rewrite Hack, <- E, ack_same, !Z.eqb_refl. cbn [negb andb mbind Res_bind].
    rewrite Hdata. by exists c.
  - assert (Hacc : ack_acceptable (una c) (ack_num (header seg)) (nxt c) = true).
    { pose proof (cr_order _ _ _ _ _ _ _ HR) as Ho. unfold SEND_BUF_SIZE in Ho.
      pose proof (inflight_bytes _ _ _ _ _ _ _ HR) as Hi.
      assert (acked A <> sent A).
      { intros Es. destruct E. rewrite (una_acked _ _ _ _ _ _ _ HR), (nxt_sent _ _ _ _ _ _ _ HR). congruence. }
      rewrite Hack. apply ack_acceptable_iff; try apply HI; lia. }
    destruct (established_ack_new c HI clk Hclk seg Hacc) as (w & rq & -> & _).
    cbn [mbind Res_bind]. rewrite Hdata. eexists. split; [reflexivity |]. split; [exact Hack | done].
Qed.

(** A timeout after which every entry is due. *)
Lemma all_due T now :
  Forall (fun e => e_sent_at e <= T) (entries (retransmit_queue c)) -> T + MAX_RTO <= now ->
  List.filter (due now (rto (retransmit_queue c))) (entries (retransmit_queue c)) =
    entries (retransmit_queue c).
Proof using HR.
  intros Ht Hn. pose proof (rqw_rto _ (ci_rtq _ (cr_inv _ _ _ _ _ _ _ HR))) as Hr.
  induction Ht as [|e l He Ht IH]; [done |]. cbn [List.filter].
  unfold due at 1, duration_since. replace (_ <=? _) with true by lia. by rewrite IH.
Qed.

Lemma retransmits_all T now :
  instant_ok now -> Forall (fun e => e_sent_at e <= T) (entries (retransmit_queue c)) ->
  T + MAX_RTO <= now ->
  exists c', conn_step c (EvRetransmit now) =
      Ok (c', map (fun e => SegmentBuilder_build (data_builder c' F_PSH_ACK (e_seq e) (e_data e)))
                (entries (retransmit_queue c))) /\
    una c' = una c /\ nxt c' = nxt c.
Proof using HR.
  intros Hi Ht Hn. pose proof (cr_inv _ _ _ _ _ _ _ HR) as HI. cbn [conn_step].
  destruct (take_retransmits_spec c now HI Hi) as (rq & c' & -> & _ & _ & Ec).
  rewrite (all_due T now Ht Hn) in *. exists c'. rewrite map_map. split; [done |].
  rewrite Ec. by destruct (map _ _).
Qed.

(** What it sends when everything sent is acknowledged and something is not sent: a
    segment if the window of the peer is open and a probe otherwise. *)
Definition next_transmission (now : Z) : Event :=
  if wnd c =? 0 then EvProbe else EvSend MSS now.

Lemma transmits now :
  instant_ok now -> una c = nxt c -> sent A < len (written A) ->
  exists c' fl pl, conn_step c (next_transmission now) =
      Ok (c', [SegmentBuilder_build (data_builder c' fl (s_nxt (send_buf c)) pl)]) /\
    bytes_ok pl /\ 0 < len pl <= MSS /\ una c' = una c /\
    nxt c' = seq_of iss (sent A + len pl) /\ s_nxt (send_buf c) = seq_of iss (sent A).
Proof using HR.
  intros Hi Hq Hs. pose proof (cr_inv _ _ _ _ _ _ _ HR) as HI.
  pose proof (cr_send _ _ _ _ _ _ _ HR) as Hsr.
  assert (Es : s_nxt (send_buf c) = seq_of iss (sent A)) by apply Hsr.
  assert (Hunsent : 0 < s_len (send_buf c) - s_inflight (send_buf c))
    by (rewrite (send_rel_len _ _ _ Hsr), (send_rel_inflight _ _ _ Hsr); lia).
  assert (Hnext : forall m, 0 < m -> SendBuffer_next_segment (send_buf c) m <> None).
  { intros m Hm. rewrite next_segment_contents by (apply Hsr || lia). cbv zeta.
    by replace (0 <? _) with true by lia. }
  unfold next_transmission. destruct (Z.eqb_spec (wnd c) 0) as [Ew|Ew]; cbn [conn_step].
  - unfold zero_window_probe. rewrite (cr_state _ _ _ _ _ _ _ HR), Ew. cbn [Z.eqb negb orb].
    destruct (SendBuffer_next_segment (send_buf c) 1) as [[seq pl]|] eqn:E; [|by apply Hnext in E].
    apply next_segment_bound in E as (-> & Hb & Hl & _); [| apply Hsr | lia | exact (ci_bytes _ HI)].
    eexists _, F_ACK, pl. split; [reflexivity |]. split; [done |]. split; [unfold MSS; lia |].
    split; [done |]. split; [|done]. cbn. rewrite Es. replace (len pl) with 1 by lia. apply (seq_of_add _ _ 1).
  - destruct (next_segment_to_send_spec c MSS now HI ltac:(by vm_compute))
      as [En|(pl & c' & En & Ec & Hb & Hl & _)].
    + exfalso. revert En. unfold next_segment_to_send. rewrite Hq, wrapping_sub_diag.
      pose proof (ci_wnd _ HI) as Hw. pose proof (ci_cwnd _ HI) as Hc. unfold is_u16, U16, MSS in *.
      rewrite as_u32_id by (unfold is_u32, U32; lia).
      replace (Z.min (cw c) (wnd c) <=? 0) with false by lia.
      destruct (SendBuffer_next_segment _ _) as [[seq pl]|] eqn:E; [done | by apply Hnext in E; [|lia]].
    + rewrite En. exists c', F_PSH_ACK, pl. split; [done |]. split; [done |]. split; [lia |].
      rewrite Ec. split; [done |]. split; [|done]. cbn. rewrite Es. apply seq_of_add.
Qed.
End Sender.
