(* ===== verification/Completion.v ===== *)
(** * Everything written arrives: two connections

    From the lemmas of Recovery.v about one end to the two ends and the network
    between them: schedules under which the system moves on, and the theorem that
    from every reachable state one of them completes the transfer. *)
From S2P Require Import Prelude Errors Tcb Ipv4 Header Ring SendBuffer RecvBuffer Float64 Retransmit Connection Session Stream Network Recovery.

(** ** Numbers of a state *)
(** How many bytes [q] has in order, [p] takes for acknowledged, and [p] has put on
    the wire. *)
Definition delivered (q : Peer) : Z := len (arrived q).
Definition confirmed (p : Peer) : Z := len (acknowledged p).
Definition transmitted (p : Peer) : Z :=
  confirmed p + wrapping_sub (nxt (p_conn p)) (una (p_conn p)).

(** The stream of an end, as SendBuffer.v sees it. *)
Definition stream_of (p : Peer) : ByteStream :=
  mkByteStream (p_gave p) (confirmed p) (transmitted p).

Definition bounded (p q : Peer) : Prop :=
  len (p_gave p) < 2147483648 /\ len (p_gave q) < 2147483648.

(** [p] against [q] in a world: the existentials of [world_ok] are these numbers. *)
Record side_ok (x y : Z) (p q : Peer) (rd : Z) : Prop := {
  so_end : end_ok x y p q (stream_of p) (transmitted q) rd (delivered p);
  so_order : 0 <= confirmed p <= delivered q /\ delivered q <= transmitted p <= len (p_gave p) }.

Lemma world_sides x y p q :
  world_ok x y p q -> exists rd rd', side_ok x y p q rd /\ side_ok y x q p rd'.
Proof.
  intros [_ (A & rd & nx & B & rd' & nx' & HA & HB & HAB & HBA)].
  pose proof (end_order _ _ _ _ _ _ _ _ HA). pose proof (end_order _ _ _ _ _ _ _ _ HB).
  assert (Hc : confirmed p = acked A /\ confirmed q = acked B).
  { unfold confirmed. rewrite (end_ok_acknowledged _ _ _ _ _ _ _ _ HA),
      (end_ok_acknowledged _ _ _ _ _ _ _ _ HB), !len_take by lia. lia. }
  assert (Hd : delivered q = nx' /\ delivered p = nx).
  { unfold delivered. rewrite (end_ok_arrived _ _ _ _ _ _ _ _ HA),
      (end_ok_arrived _ _ _ _ _ _ _ _ HB), !len_take by lia. lia. }
  assert (Ht : transmitted p = sent A /\ transmitted q = sent B).
  { unfold transmitted. rewrite (inflight_bytes _ _ _ _ _ _ _ (eo_rel _ _ _ _ _ _ _ _ HA)),
      (inflight_bytes _ _ _ _ _ _ _ (eo_rel _ _ _ _ _ _ _ _ HB)). lia. }
  destruct Hc as [Hc1 Hc2], Hd as [Hd1 Hd2], Ht as [Ht1 Ht2].
  assert (HsA : stream_of p = A).
  { unfold stream_of. rewrite Hc1, Ht1, <- (eo_gave _ _ _ _ _ _ _ _ HA). by destruct A. }
  assert (HsB : stream_of q = B).
  { unfold stream_of. rewrite Hc2, Ht2, <- (eo_gave _ _ _ _ _ _ _ _ HB). by destruct B. }
  exists rd, rd'. split; split; rewrite ?HsA, ?HsB, ?Hd1, ?Hd2, ?Ht1, ?Ht2, ?Hc1, ?Hc2; (done || lia).
Qed.

Lemma side_rel x y p q rd :
  side_ok x y p q rd ->
  conn_rel x y (take (Z.to_nat (transmitted q)) (p_gave q)) (p_conn p) (stream_of p) rd (delivered p).
Proof. intros H. apply (so_end _ _ _ _ _ H). Qed.

Lemma side_numbers x y p q rd :
  side_ok x y p q rd ->
  una (p_conn p) = seq_of x (confirmed p) /\ nxt (p_conn p) = seq_of x (transmitted p) /\
  rnxt (p_conn p) = seq_of y (delivered p).
Proof.
  intros H. pose proof (side_rel _ _ _ _ _ H) as HR.
  split; [exact (una_acked _ _ _ _ _ _ _ HR) |]. split; [exact (nxt_sent _ _ _ _ _ _ _ HR) |].
  destruct (cr_recv _ _ _ _ _ _ _ HR) as (rb & _ & Hrr & ->). apply Hrr.
Qed.

(** ** Schedules *)
Definition clock_at (t : Z) : Clock := mkClock t t.

(** At the time [t], the sending end times out, transmits, probes and takes segments,
    and the receiving end reads and takes segments; nobody writes. *)
Definition sender_move (t : Z) (m : Move) : Prop :=
  match m with
  | Do (EvRetransmit now) => now = t
  | Do (EvSend mp now) => mp = MSS /\ now = t
  | Do EvProbe => True
  | Arrive clk _ => clk = clock_at t
  | _ => False
  end.

Definition receiver_move (t : Z) (m : Move) : Prop :=
  match m with
  | Do (EvRead _) => True
  | Arrive clk _ => clk = clock_at t
  | _ => False
  end.

Definition scheduled (t : Z) (bm : bool * Move) : Prop :=
  match bm with (true, m) => sender_move t m | (false, m) => receiver_move t m end.

(** Some schedule leads to a state with [Q]. *)
Definition leads (t : Z) (p q : Peer) (Q : Peer -> Peer -> Prop) : Prop :=
  exists ms p' q', Forall (scheduled t) ms /\ world_run p q ms = Ok (p', q') /\ Q p' q'.

Lemma world_run_app ms ms' : forall p q,
  world_run p q (ms ++ ms') = '(p, q) ← world_run p q ms; world_run p q ms'.
Proof.
  induction ms as [|[[] m] ms IH]; intros p q; cbn [app world_run]; [done | |].
  - by destruct (peer_move p q m) as [p'| |]; cbn [mbind Res_bind].
  - by destruct (peer_move q p m) as [q'| |]; cbn [mbind Res_bind].
Qed.

Lemma leads_done t p q (Q : Peer -> Peer -> Prop) : Q p q -> leads t p q Q.
Proof. intros H. by exists [], p, q. Qed.

Lemma leads_trans t p q (Q R : Peer -> Peer -> Prop) :
  leads t p q Q -> (forall p' q', Q p' q' -> leads t p' q' R) -> leads t p q R.
Proof.
  intros (ms & p1 & q1 & Hms & E1 & H1) H. destruct (H p1 q1 H1) as (ms' & p2 & q2 & Hms' & E2 & H2).
  exists (ms ++ ms'), p2, q2. split; [by apply Forall_app |]. split; [|done].
  by rewrite world_run_app, E1.
Qed.

Lemma leads_sender t p q m p' (Q : Peer -> Peer -> Prop) :
  sender_move t m -> peer_move p q m = Ok p' -> leads t p' q Q -> leads t p q Q.
Proof.
  intros Hm E H. apply (leads_trans t p q (fun a b => a = p' /\ b = q)); [|by intros ? ? [-> ->]].
  exists [(true, m)], p', q. split; [by apply Forall_singleton |]. split; [|done].
  cbn [world_run]. by rewrite E.
Qed.

Lemma leads_receiver t p q m q' (Q : Peer -> Peer -> Prop) :
  receiver_move t m -> peer_move q p m = Ok q' -> leads t p q' Q -> leads t p q Q.
Proof.
  intros Hm E H. apply (leads_trans t p q (fun a b => a = p /\ b = q')); [|by intros ? ? [-> ->]].
  exists [(false, m)], p, q'. split; [by apply Forall_singleton |]. split; [|done].
  cbn [world_run]. by rewrite E.
Qed.

(** ** One scheduled move *)
Lemma peer_do_gave p ev p' :
  peer_do p ev = Ok p' -> p_gave p' = p_gave p ++ app_in (p_conn p) ev /\ p_sent p `prefix_of` p_sent p'.
Proof.
  unfold peer_do. destruct (conn_step (p_conn p) ev) as [[c outs]| |]; try done.
  intros [= <-]. split; [done |]. by eexists.
Qed.

Lemma scheduled_move x y p q m t :
  world_ok x y p q -> bounded p q -> instant_ok t -> sender_move t m \/ receiver_move t m ->
  exists p', peer_move p q m = Ok p' /\ world_ok x y p' q /\ p_gave p' = p_gave p /\
    p_sent p `prefix_of` p_sent p'.
Proof.
  intros HW [Hp Hq] Ht Hm.
  assert (Hok : move_ok m /\ offered (true, m) = 0).
  { destruct m as [[]|]; destruct Hm as [Hm|Hm]; cbn [sender_move receiver_move move_ok event_ok offered snd] in *;
      try done; destruct_and?; subst; split; try done; split; (done || by vm_compute). }
  destruct Hok as [Hok Ho]. assert (Hlen : len (p_gave p) + offered (true, m) < 2147483648) by (rewrite Ho; lia).
  destruct (peer_move_ok x y p q m HW Hok Hq Hlen) as (p' & E & HW' & _).
  exists p'. split; [done |]. split; [done |].
  assert (Hin : forall ev, peer_do p ev = Ok p' -> match ev with EvWrite _ => False | _ => True end ->
    p_gave p' = p_gave p /\ p_sent p `prefix_of` p_sent p').
  { intros ev Ed Hev. destruct (peer_do_gave p ev p' Ed) as [-> Hs]. split; [|done].
    destruct ev; try done; apply app_nil_r. }
  destruct m as [ev|clk i]; cbn [peer_move] in E.
  - apply (Hin ev E). destruct ev; try done. by destruct Hm.
  - destruct (p_sent q !! i) as [raw|]; [|by injection E as <-]. unfold peer_receive in E.
    destruct (TcpSegment_parse _ _ _); [by apply (Hin _ E) | by injection E as <- | done].
Qed.

(** *** The receiving end *)
(** A data segment of [n] bytes from offset [o] on. *)
Definition data_raw (x : Z) (raw : list Z) (o n : Z) : Prop :=
  exists b, builder_ok b /\ raw = SegmentBuilder_build b /\ sb_seq b = seq_of x o /\
    len (sb_payload b) = n /\ 0 < n.

(** What is read of such a segment at the other end. *)
Lemma data_raw_parse x y p q rd i raw o n :
  side_ok x y p q rd -> mirrored (tcb (p_conn p)) (tcb (p_conn q)) -> bounded p q ->
  p_sent p !! i = Some raw -> data_raw x raw o n -> 0 <= o < 2147483648 ->
  exists seg,
    TcpSegment_parse raw (remote_ip (tcb (p_conn q))) (local_ip (tcb (p_conn q))) = Ok seg /\
    (flags (header seg) = F_ACK \/ flags (header seg) = F_PSH_ACK) /\
    seq_num (header seg) = seq_of x o /\ len (payload seg) = n /\ n <= MSS /\
    o + n <= transmitted p /\
    payload seg = slice_at (take (Z.to_nat (transmitted p)) (p_gave p)) o n.
Proof.
  intros HS [] [Hbp Hbq] Hi (b & Hb & Er & Eseq & Elen & Hpos) Ho.
  pose proof (so_order _ _ _ _ _ HS) as Hord.
  pose proof (proj1 (Forall_lookup _ _) (eo_wire _ _ _ _ _ _ _ _ (so_end _ _ _ _ _ HS)) i raw Hi)
    as [(b1 & Hb1 & E1 & Hf & _ & Hp) [(b2 & Hb2 & E2 & Es & Ed & _) Hlen]].
  rewrite E1 in Er. destruct (build_injective _ _ Hb1 Hb Er) as (_ & _ & Es1 & _ & _ & _ & Ep1).
  pose proof E2 as E2'. rewrite E1 in E2'.
  destruct (build_injective _ _ Hb1 Hb2 E2') as (_ & _ & Es2 & _ & Ef2 & _ & Ep2).
  exists (wire_segment b2). cbn [wire_segment header flags seq_num payload].
  split.
  { rewrite E2. replace (remote_ip (tcb (p_conn q))) with (sb_src_ip b2) by congruence.
    replace (local_ip (tcb (p_conn q))) with (sb_dst_ip b2) by congruence. by apply parse_build. }
  rewrite <- Ef2, <- Es2, Es1, <- Ep2, Ep1, Eseq. split; [done |]. split; [done |]. split; [done |].
  destruct Hp as [Hp|(o' & Ho' & Hfit & Eo & Hsl)]; [rewrite Ep1 in Hp; rewrite Hp in Elen; change (len (@nil Z)) with 0 in Elen; lia |].
  cbn [fst snd] in *. rewrite Ep1, Elen in *.
  unfold sent_bytes in Hfit, Hsl. cbn [stream_of sent written] in Hfit, Hsl. rewrite len_take in Hfit by lia.
  assert (o' = o) as ->.
  { rewrite Es1, Eseq in Eo. symmetry in Eo. apply seq_of_inj in Eo; lia. }
  split.
  { rewrite E1, len_build, Ep1, Elen in Hlen by done. unfold TCP_MIN_HEADER_LEN in Hlen. lia. }
  split; [lia | exact Hsl].
Qed.

(** What [q] has in order, from its RCV.NXT. *)
Lemma delivered_is x y p q rd n :
  side_ok y x q p rd -> bounded p q -> rnxt (p_conn q) = seq_of x n -> 0 <= n < 2147483648 ->
  delivered q = n.
Proof.
  intros HS [Hp Hq] E Hn. destruct (side_numbers _ _ _ _ _ HS) as (_ & _ & Er).
  pose proof (end_order _ _ _ _ _ _ _ _ (so_end _ _ _ _ _ HS)).
  rewrite Er in E. apply seq_of_inj in E; lia.
Qed.

Lemma bounded_gave p q p' q' :
  p_gave p' = p_gave p -> p_gave q' = p_gave q -> bounded p q -> bounded p' q'.
Proof. unfold bounded. by intros -> ->. Qed.

(** The application of [q] reads, which changes nothing else, and its ring is empty. *)
Lemma reads x y p q :
  world_ok x y p q -> bounded p q ->
  exists q' rb, peer_move q p (Do (EvRead (zeroed RECV_BUF_SIZE))) = Ok q' /\ world_ok x y p q' /\
    p_gave q' = p_gave q /\ p_sent q' = p_sent q /\ delivered q' = delivered q /\
    dups (p_conn q') = dups (p_conn q) /\ rnxt (p_conn q') = rnxt (p_conn q) /\
    recv_buf (p_conn q') = Some rb /\ r_len rb = 0.
Proof.
  intros HW Hb. destruct (world_sides _ _ _ _ HW) as (rd & rd' & HA & HB).
  destruct (scheduled_move y x q p (Do (EvRead (zeroed RECV_BUF_SIZE))) 0 (world_ok_sym _ _ _ _ HW))
    as (q' & E & HW' & Hg & _); [by destruct Hb | by vm_compute | by right |].
  apply world_ok_sym in HW'.
  destruct (read_all _ _ _ _ _ _ _ (side_rel _ _ _ _ _ HB)) as (c' & rb & Ec & Erb & Hl & Hr & Hd & _).
  exists q', rb. split; [exact E |]. split; [exact HW' |]. split; [exact Hg |].
  cbn [peer_move] in E. unfold peer_do in E. rewrite Ec in E. injection E as <-.
  cbn [p_sent p_conn mbind Res_bind]. split; [apply app_nil_r |]. split_and!; try done.
  destruct (world_sides _ _ _ _ HW') as (rd1 & rd1' & HA1 & HB1).
  pose proof (so_order _ _ _ _ _ HA) as Ho. destruct Hb.
  apply (delivered_is x y p _ rd1' _ HB1); [by eapply bounded_gave | | lia].
  cbn [p_conn]. rewrite Hr. apply (side_numbers _ _ _ _ _ HB).
Qed.

(** A data segment without a gap before it arrives, the ring being empty. *)
Lemma arrives_once x y p q t i raw o n rb :
  world_ok x y p q -> bounded p q -> instant_ok t -> p_sent p !! i = Some raw ->
  data_raw x raw o n -> 0 <= o <= delivered q -> recv_buf (p_conn q) = Some rb -> r_len rb = 0 ->
  exists q', peer_move q p (Arrive (clock_at t) i) = Ok q' /\ world_ok x y p q' /\
    p_gave q' = p_gave q /\ delivered q <= delivered q' /\
    ((dups (p_conn q) = 2 /\ dups (p_conn q') = 3) \/
     (o + n <= delivered q' /\ last (p_sent q') = Some (build_ack (p_conn q')))).
Proof.
  intros HW Hb Ht Hi Hraw Ho Erb Hrb. destruct (world_sides _ _ _ _ HW) as (rd & rd' & HA & HB).
  pose proof (so_order _ _ _ _ _ HA) as Hord.
  destruct (scheduled_move y x q p (Arrive (clock_at t) i) t (world_ok_sym _ _ _ _ HW))
    as (q' & E & HW' & Hg & _); [by destruct Hb | done | by left |].
  apply world_ok_sym in HW'. destruct (world_sides _ _ _ _ HW') as (rd1 & rd1' & HA1 & HB1).
  assert (Hb' : bounded p q') by by eapply bounded_gave.
  exists q'. split; [exact E |]. split; [exact HW' |]. split; [exact Hg |].
  destruct (data_raw_parse x y p q rd i raw o n HA (wo_mirror _ _ _ _ HW) Hb Hi Hraw)
    as (seg & Ep & Hfl & Hseq & Hn & Hmss & Hfit & Hsl); [destruct Hb; lia |].
  assert (Hlen : len (take (Z.to_nat (transmitted p)) (p_gave p)) = transmitted p) by (rewrite len_take; lia).
  destruct Hb as [Hbp Hbq]. destruct Hraw as (b & _ & _ & _ & _ & Hpos).
  destruct (data_arrives y x _ ltac:(rewrite Hlen; lia) _ _ _ _ (side_rel _ _ _ _ _ HB) (clock_at t) seg o rb)
    as (c' & r & Ec & Hres); try done; try lia; try (rewrite Hn; (done || lia)).
  { rewrite Hn, Hrb. unfold MSS, RECV_BUF_SIZE in *. lia. }
  cbn [peer_move] in E. rewrite Hi in E. unfold peer_receive in E. rewrite Ep in E.
  unfold peer_do in E. cbn [conn_step] in E. rewrite Ec in E. cbn [mbind Res_bind] in E.
  injection E as <-. cbn [p_conn p_sent] in *.
  destruct Hres as [(H2 & H3 & Hr)|(-> & nx' & Hle & Hcov & Hmax & Hr)].
  - split; [|by left]. rewrite (delivered_is x y p _ rd1' (delivered q) HB1 Hb'); [lia | | lia].
    cbn [p_conn]. rewrite Hr. apply (side_numbers _ _ _ _ _ HB).
  - rewrite (delivered_is x y p _ rd1' nx' HB1 Hb'); [| exact Hr | lia].
    split; [lia |]. right. split; [lia |]. cbn [opt_list]. by rewrite last_snoc.
Qed.

(** So that two arrivals are enough to have it taken and acknowledged. *)
Lemma takes x y p q t i raw o n :
  world_ok x y p q -> bounded p q -> instant_ok t -> p_sent p !! i = Some raw ->
  data_raw x raw o n -> 0 <= o <= delivered q ->
  leads t p q (fun p' q' => p' = p /\ world_ok x y p q' /\ p_gave q' = p_gave q /\
    delivered q <= delivered q' /\ o + n <= delivered q' /\
    last (p_sent q') = Some (build_ack (p_conn q'))).
Proof.
  intros HW Hb Ht Hi Hraw Ho.
  destruct (reads x y p q HW Hb) as (q1 & rb1 & E1 & HW1 & Hg1 & _ & Hd1 & Hdup1 & _ & Erb1 & Hl1).
  apply (leads_receiver t p q (Do (EvRead (zeroed RECV_BUF_SIZE))) q1 _ I E1). rewrite <- Hd1 in Ho.
  assert (Hb1 : bounded p q1) by by eapply bounded_gave.
  destruct (arrives_once x y p q1 t i raw o n rb1 HW1 Hb1 Ht Hi Hraw Ho Erb1 Hl1)
    as (q2 & E2 & HW2 & Hg2 & Hd2 & H2).
  apply (leads_receiver t p q1 (Arrive (clock_at t) i) q2 _ eq_refl E2).
  destruct H2 as [[_ Hdup2]|[Hcov Hlast]].
  2: { apply leads_done. split_and!; (done || lia || congruence). }
  assert (Hb2 : bounded p q2) by by eapply bounded_gave.
  destruct (reads x y p q2 HW2 Hb2) as (q3 & rb3 & E3 & HW3 & Hg3 & _ & Hd3 & Hdup3 & _ & Erb3 & Hl3).
  apply (leads_receiver t p q2 (Do (EvRead (zeroed RECV_BUF_SIZE))) q3 _ I E3).
  assert (Hb3 : bounded p q3) by by eapply bounded_gave.
  destruct (arrives_once x y p q3 t i raw o n rb3 HW3 Hb3 Ht Hi Hraw ltac:(lia) Erb3 Hl3)
    as (q4 & E4 & HW4 & Hg4 & Hd4 & H4).
  apply (leads_receiver t p q3 (Arrive (clock_at t) i) q4 _ eq_refl E4).
  destruct H4 as [[Hdup4 _]|[Hcov Hlast]]; [lia |].
  apply leads_done. split_and!; (done || lia || congruence).
Qed.

(** *** The sending end *)
Definition quiet (p : Peer) : Prop := una (p_conn p) = nxt (p_conn p).

(** What [p] has sent and what it takes for acknowledged, from NXT and UNA. *)
Lemma transmitted_is x y p q rd n :
  side_ok x y p q rd -> bounded p q -> nxt (p_conn p) = seq_of x n -> 0 <= n < 4294967296 ->
  transmitted p = n.
Proof.
  intros HS [Hp Hq] E Hn. destruct (side_numbers _ _ _ _ _ HS) as (_ & En & _).
  pose proof (so_order _ _ _ _ _ HS). rewrite En in E. apply seq_of_inj in E; lia.
Qed.

Lemma quiet_confirmed x y p q rd :
  side_ok x y p q rd -> bounded p q -> quiet p <-> confirmed p = transmitted p.
Proof.
  intros HS [Hp Hq]. destruct (side_numbers _ _ _ _ _ HS) as (Eu & En & _).
  pose proof (so_order _ _ _ _ _ HS). unfold quiet. rewrite Eu, En.
  split; [|by intros ->]. intros E. apply seq_of_inj in E; lia.
Qed.

(** Everything sent has arrived and its acknowledgement comes back. *)
Lemma learns x y p q t :
  world_ok x y p q -> bounded p q -> instant_ok t -> delivered q = transmitted p ->
  last (p_sent q) = Some (build_ack (p_conn q)) ->
  leads t p q (fun p' q' => q' = q /\ world_ok x y p' q /\ p_gave p' = p_gave p /\
    quiet p' /\ transmitted p' = transmitted p).
Proof.
  intros HW Hb Ht Hd Hlast. destruct (world_sides _ _ _ _ HW) as (rd & rd' & HA & HB).
  pose proof (so_order _ _ _ _ _ HA) as Hord.
  rewrite last_lookup in Hlast. set (i := pred (length (p_sent q))) in *.
  destruct (scheduled_move x y p q (Arrive (clock_at t) i) t HW Hb Ht) as (p' & E & HW' & Hg & _); [by left |].
  apply (leads_sender t p q (Arrive (clock_at t) i) p' _ eq_refl E). apply leads_done.
  destruct (world_sides _ _ _ _ HW') as (rd1 & rd1' & HA1 & _).
  assert (Hb' : bounded p' q) by by eapply bounded_gave.
  pose proof (cr_inv _ _ _ _ _ _ _ (side_rel _ _ _ _ _ HB)) as HIq.
  pose proof (ctl_builder_ok (p_conn q) F_ACK _ HIq (ci_nxt _ HIq)) as Hbd.
  set (bd := ctl_builder (p_conn q) F_ACK (nxt (p_conn q))) in *.
  cbn [peer_move] in E. rewrite Hlast in E. unfold peer_receive in E.
  destruct (wo_mirror _ _ _ _ HW).
  replace (remote_ip (tcb (p_conn p))) with (sb_src_ip bd) in E by (cbn; congruence).
  replace (local_ip (tcb (p_conn p))) with (sb_dst_ip bd) in E by (cbn; congruence).
  change (build_ack (p_conn q)) with (SegmentBuilder_build bd) in E. rewrite parse_build in E by done.
  destruct (ack_learned _ _ _ _ _ _ _ (side_rel _ _ _ _ _ HA) (clock_at t) (wire_segment bd))
    as (c' & Ec & Eu & En); try done.
  { destruct Hbd. by split_and!. }
  { cbn. destruct (side_numbers _ _ _ _ _ HB) as (_ & _ & ->).
    destruct (side_numbers _ _ _ _ _ HA) as (_ & -> & _). by rewrite Hd. }
  unfold peer_do in E. cbn [conn_step] in E. rewrite Ec in E. cbn [mbind Res_bind] in E.
  injection E as <-. split; [done |]. split; [done |]. split; [done |].
  split; [unfold quiet; cbn [p_conn]; congruence |].
  destruct Hb. apply (transmitted_is x y _ q rd1 _ HA1 Hb'); [|lia].
  cbn [p_conn]. rewrite En. apply (side_numbers _ _ _ _ _ HA).
Qed.

(** A segment that completes what has been sent. *)
Lemma completes x y p q t i raw o n :
  world_ok x y p q -> bounded p q -> instant_ok t -> p_sent p !! i = Some raw ->
  data_raw x raw o n -> 0 <= o <= delivered q -> o + n = transmitted p ->
  leads t p q (fun p' q' => world_ok x y p' q' /\ p_gave p' = p_gave p /\ p_gave q' = p_gave q /\
    quiet p' /\ transmitted p' = transmitted p).
Proof.
  intros HW Hb Ht Hi Hraw Ho Hn.
  apply (leads_trans _ _ _ _ _ (takes x y p q t i raw o n HW Hb Ht Hi Hraw Ho)).
  intros p1 q1 (-> & HW1 & Hg & Hd & Hcov & Hlast).
  destruct (world_sides _ _ _ _ HW1) as (rd & rd' & HA & HB). pose proof (so_order _ _ _ _ _ HA).
  apply (leads_trans _ _ _ _ _ (learns x y p q1 t HW1 (bounded_gave _ _ _ _ eq_refl Hg Hb) Ht ltac:(lia) Hlast)).
  intros p2 q2 (-> & HW2 & Hg2 & Hq2 & Ht2). apply leads_done. by split_and!.
Qed.

(** One transmission, from a quiet state. *)
Lemma pushes x y p q t :
  world_ok x y p q -> bounded p q -> instant_ok t -> quiet p -> transmitted p < len (p_gave p) ->
  leads t p q (fun p' q' => world_ok x y p' q' /\ p_gave p' = p_gave p /\ p_gave q' = p_gave q /\
    quiet p' /\ transmitted p < transmitted p').
Proof.
  intros HW Hb Ht Hq Hlt. destruct (world_sides _ _ _ _ HW) as (rd & rd' & HA & HB).
  pose proof (so_order _ _ _ _ _ HA) as Hord.
  pose proof (proj1 (quiet_confirmed _ _ _ _ _ HA Hb) Hq) as Hc.
  pose proof (cr_inv _ _ _ _ _ _ _ (side_rel _ _ _ _ _ HA)) as HI.
  destruct (transmits _ _ _ _ _ _ _ (side_rel _ _ _ _ _ HA) t Ht Hq Hlt)
    as (c' & fl & pl & Ec & Hpb & Hpl & Eu & En & Es).
  assert (Hm : sender_move t (Do (next_transmission (p_conn p) t)))
    by (unfold next_transmission; by destruct (wnd (p_conn p) =? 0)).
  destruct (scheduled_move x y p q _ t HW Hb Ht (or_introl Hm)) as (p1 & E & HW1 & Hg & _).
  apply (leads_sender t p q _ p1 _ Hm E). assert (Hb1 : bounded p1 q) by by eapply bounded_gave.
  destruct (world_sides _ _ _ _ HW1) as (rd1 & rd1' & HA1 & HB1).
  cbn [peer_move] in E. unfold peer_do in E. rewrite Ec in E. cbn [mbind Res_bind] in E. injection E as <-.
  set (raw := SegmentBuilder_build _) in *.
  pose proof (cr_inv _ _ _ _ _ _ _ (side_rel _ _ _ _ _ HA1)) as HI1. cbn [p_conn] in HI1.
  destruct Hb. cbn [stream_of sent] in En, Es. unfold MSS in Hpl.
  pose proof (transmitted_is x y _ q rd1 _ HA1 Hb1 En ltac:(lia)) as Htr.
  assert (Hraw : data_raw x raw (transmitted p) (len pl)).
  { eexists. split; [apply (data_builder_ok c' fl (s_nxt (send_buf (p_conn p))) pl HI1)|].
    - rewrite Es. apply seq_of_range.
    - done.
    - unfold MSS. lia.
    - split; [reflexivity |]. split; [exact Es |]. split; [done | lia]. }
  assert (Hlk : (p_sent p ++ [raw]) !! length (p_sent p) = Some raw)
    by by rewrite lookup_app_r, Nat.sub_diag by lia.
  apply (leads_trans _ _ _ _ _ (completes x y _ q t (length (p_sent p)) raw (transmitted p) (len pl)
    HW1 Hb1 Ht Hlk Hraw ltac:(lia) ltac:(lia))).
  intros p2 q2 (? & Hg2 & ? & ? & Htr2). apply leads_done.
  rewrite Hg in Hg2. rewrite Htr in Htr2. split_and!; (done || lia).
Qed.

(** All of it, from a quiet state. *)
Lemma pushes_all x y t n : forall p q,
  world_ok x y p q -> bounded p q -> instant_ok t -> quiet p ->
  len (p_gave p) - transmitted p <= Z.of_nat n ->
  leads t p q (fun p' q' => world_ok x y p' q' /\ p_gave p' = p_gave p /\ p_gave q' = p_gave q /\
    quiet p' /\ transmitted p' = len (p_gave p)).
Proof.
  induction n as [|n IH]; intros p q HW Hb Ht Hq Hn;
    destruct (world_sides _ _ _ _ HW) as (rd & rd' & HA & HB); pose proof (so_order _ _ _ _ _ HA) as Ho.
  - apply leads_done. split_and!; (done || lia).
  - destruct (Z.ltb_spec (transmitted p) (len (p_gave p))); [|apply leads_done; split_and!; (done || lia)].
    apply (leads_trans _ _ _ _ _ (pushes x y p q t HW Hb Ht Hq ltac:(lia))).
    intros p1 q1 (HW1 & Hg1 & Hg2 & Hq1 & Hlt).
    apply (leads_trans _ _ _ _ _ (IH p1 q1 HW1 (bounded_gave _ _ _ _ Hg1 Hg2 Hb) Ht Hq1
      ltac:(rewrite Hg1; lia))).
    intros p2 q2 (HW2 & Hg3 & Hg4 & Hq2 & Hall). apply leads_done. split_and!; (done || congruence).
Qed.

(** *** After a timeout *)
(** The retransmissions of a chain of entries, from position [k] of the wire on, are
    taken one after the other. *)
Lemma takes_chain x y p t c n l : forall o k q,
  chain x o n l -> l <> [] -> world_ok x y p q -> bounded p q -> instant_ok t -> conn_inv c ->
  Forall entry_ok l ->
  (forall j e, l !! j = Some e ->
    p_sent p !! (k + j)%nat = Some (SegmentBuilder_build (data_builder c F_PSH_ACK (e_seq e) (e_data e)))) ->
  0 <= o <= delivered q ->
  leads t p q (fun p' q' => p' = p /\ world_ok x y p q' /\ p_gave q' = p_gave q /\
    n <= delivered q' /\ last (p_sent q') = Some (build_ack (p_conn q'))).
Proof.
  induction l as [|e l IH]; intros o k q Hc Hne HW Hb Ht HI He Hw Ho; [done |].
  destruct Hc as (Es & Hl & Hc). apply Forall_cons in He as [[Hs1 Hd1 Hl1 _] He].
  pose proof (Hw 0%nat e eq_refl) as Hw0. rewrite Nat.add_0_r in Hw0.
  assert (Hraw : data_raw x (SegmentBuilder_build (data_builder c F_PSH_ACK (e_seq e) (e_data e))) o
    (len (e_data e))).
  { eexists. split; [by apply (data_builder_ok c F_PSH_ACK (e_seq e) (e_data e))|].
    split; [reflexivity |]. split; [exact Es |]. by split. }
  apply (leads_trans _ _ _ _ _ (takes x y p q t k _ o _ HW Hb Ht Hw0 Hraw Ho)).
  intros p1 q1 (-> & HW1 & Hg1 & Hd & Hcov & Hlast).
  destruct l as [|e' l].
  - cbn [chain] in Hc. apply leads_done. split_and!; (done || lia).
  - assert (Hb1 : bounded p q1) by by eapply bounded_gave.
    apply (leads_trans _ _ _ _ _ (IH _ (S k) q1 Hc ltac:(done) HW1 Hb1 Ht HI He
      ltac:(intros j e1 Hj; rewrite <- (Hw (S j) e1 Hj); f_equal; lia) ltac:(lia))).
    intros p2 q2 (-> & HW2 & Hg2 & Hn & Hlast2). apply leads_done. split_and!; (done || congruence).
Qed.

Lemma settles x y p q T t :
  world_ok x y p q -> bounded p q -> instant_ok t -> T + MAX_RTO <= t ->
  kept T x (p_conn p) (stream_of p) ->
  leads t p q (fun p' q' => world_ok x y p' q' /\ p_gave p' = p_gave p /\ p_gave q' = p_gave q /\
    quiet p').
Proof.
  intros HW Hb Ht HT [(o & Ho & Hc) Htimes]. cbn [stream_of acked sent] in *.
  destruct (world_sides _ _ _ _ HW) as (rd & rd' & HA & HB). pose proof (so_order _ _ _ _ _ HA) as Hord.
  destruct (decide (una (p_conn p) = nxt (p_conn p))) as [Hq|Hq]; [by apply leads_done |].
  assert (Hlt : confirmed p <> transmitted p)
    by (intros E; by apply Hq, (proj2 (quiet_confirmed _ _ _ _ _ HA Hb))).
  set (l := entries (retransmit_queue (p_conn p))) in *.
  assert (Hne : l <> []) by (intros E; rewrite E in Hc; cbn [chain] in Hc; lia).
  destruct (retransmits_all _ _ _ _ _ _ _ (side_rel _ _ _ _ _ HA) T t Ht Htimes HT)
    as (c' & Ec & Eu & En). fold l in Ec.
  destruct (scheduled_move x y p q (Do (EvRetransmit t)) t HW Hb Ht (or_introl eq_refl))
    as (p1 & E & HW1 & Hg & _).
  apply (leads_sender t p q (Do (EvRetransmit t)) p1 _ eq_refl E).
  assert (Hb1 : bounded p1 q) by by eapply bounded_gave.
  destruct (world_sides _ _ _ _ HW1) as (rd1 & rd1' & HA1 & HB1).
  cbn [peer_move] in E. unfold peer_do in E. rewrite Ec in E. cbn [mbind Res_bind] in E. injection E as <-.
  pose proof (cr_inv _ _ _ _ _ _ _ (side_rel _ _ _ _ _ HA1)) as HI1. cbn [p_conn] in HI1.
  destruct Hb as [Hbp Hbq].
  assert (Htr : nxt c' = seq_of x (transmitted p)) by (rewrite En; apply (side_numbers _ _ _ _ _ HA)).
  pose proof (transmitted_is x y _ q rd1 _ HA1 Hb1 Htr ltac:(lia)) as Htr1.
  apply (leads_trans _ _ _ _ _ (takes_chain x y _ t c' _ l o (length (p_sent p)) q Hc Hne HW1 Hb1 Ht HI1
    (rqw_entries _ (ci_rtq _ (cr_inv _ _ _ _ _ _ _ (side_rel _ _ _ _ _ HA))))
    ltac:(intros j e Hj; cbn [p_sent];
          rewrite lookup_app_r, Nat.add_comm, Nat.add_sub by lia; by rewrite list_lookup_fmap, Hj)
    ltac:(lia))).
  intros p2 q2 (-> & HW2 & Hg2 & Hcov & Hlast).
  pose proof (bounded_gave _ _ _ q2 eq_refl Hg2 Hb1) as Hb2.
  destruct (world_sides _ _ _ _ HW2) as (rd2 & rd2' & HA2 & HB2). pose proof (so_order _ _ _ _ _ HA2) as Hord2.
  apply (leads_trans _ _ _ _ _ (learns x y _ q2 t HW2 Hb2 Ht ltac:(rewrite Htr1 in *; lia) Hlast)).
  intros p3 q3 (-> & HW3 & Hg3 & Hq3 & _). apply leads_done. rewrite Hg in Hg3. by split_and!.
Qed.

(** *** The whole transfer *)
(** What one direction comes to. *)
Definition finished (p q : Peer) : Prop :=
  quiet p /\ transmitted p = len (p_gave p) /\ p_got q = p_gave p.

Lemma finishes x y p q T t :
  world_ok x y p q -> bounded p q -> instant_ok t -> T + MAX_RTO <= t ->
  kept T x (p_conn p) (stream_of p) ->
  leads t p q (fun p' q' => world_ok x y p' q' /\ p_gave p' = p_gave p /\ p_gave q' = p_gave q /\
    finished p' q').
Proof.
  intros HW Hb Ht HT HK.
  apply (leads_trans _ _ _ _ _ (settles x y p q T t HW Hb Ht HT HK)).
  intros p1 q1 (HW1 & Hg1 & Hg1' & Hq1). pose proof (bounded_gave _ _ _ _ Hg1 Hg1' Hb) as Hb1.
  assert (Hn : len (p_gave p1) - transmitted p1 <= Z.of_nat (Z.to_nat (len (p_gave p1)))).
  { destruct (world_sides _ _ _ _ HW1) as (rd & rd' & HA & _). pose proof (so_order _ _ _ _ _ HA).
    pose proof (len_nonneg (p_gave p1)). lia. }
  apply (leads_trans _ _ _ _ _ (pushes_all x y t _ p1 q1 HW1 Hb1 Ht Hq1 Hn)).
  intros p2 q2 (HW2 & Hg2 & Hg2' & Hq2 & Htr2). pose proof (bounded_gave _ _ _ _ Hg2 Hg2' Hb1) as Hb2.
  destruct (reads x y p2 q2 HW2 Hb2) as (q3 & rb & E & HW3 & Hg3 & _ & Hd3 & _ & _ & Erb & Hl).
  apply (leads_receiver t p2 q2 (Do (EvRead (zeroed RECV_BUF_SIZE))) q3 _ I E). apply leads_done.
  split; [exact HW3 |]. split; [congruence |]. split; [congruence |]. split; [exact Hq2 |].
  split; [congruence |].
  destruct (world_sides _ _ _ _ HW3) as (rd & rd' & HA & HB). pose proof (so_order _ _ _ _ _ HA).
  assert (Hc : confirmed p2 = transmitted p2).
  { destruct Hb2. apply (quiet_confirmed _ _ _ _ _ HA); [by split; rewrite ?Hg3 | done]. }
  pose proof (end_ok_arrived _ _ _ _ _ _ _ _ (so_end _ _ _ _ _ HB)) as Ha.
  unfold arrived in Ha. rewrite Erb in Ha.
  assert (Hr : r_contents rb = []).
  { destruct (cr_recv _ _ _ _ _ _ _ (side_rel _ _ _ _ _ HB)) as (rb' & Erb' & Hrr & _).
    rewrite Erb in Erb'. injection Erb' as <-.
    pose proof (len_r_contents rb (rr_wf _ _ _ _ _ Hrr)) as Hlr. rewrite Hl in Hlr.
    by destruct (r_contents rb). }
  rewrite Hr, app_nil_r in Ha. rewrite Ha. apply take_ge.
  assert (len (p_gave p2) <= delivered q3) by (rewrite Hg2; lia). unfold len in *. lia.
Qed.

(** ** What a move keeps *)
Definition roomy_move (p : Peer) (m : Move) : bool :=
  match m with Do ev => roomy (p_conn p) ev | Arrive _ _ => true end.

Definition move_before (T : Z) (m : Move) : Prop :=
  match m with Do ev => before T ev | Arrive _ _ => True end.

(** A move is an event of the connection, or nothing. *)
Lemma move_event x y p q m p' :
  world_ok x y p q -> move_ok m -> peer_move p q m = Ok p' ->
  p' = p \/ exists ev, peer_do p ev = Ok p' /\
    data_event y (take (Z.to_nat (transmitted q)) (p_gave q)) ev /\
    match m with Do ev' => ev = ev' | Arrive _ _ => exists clk seg, ev = EvSegment clk seg end.
Proof.
  intros HW Hm E. destruct (world_sides _ _ _ _ HW) as (rd & rd' & HA & HB).
  destruct m as [ev|clk i]; cbn [peer_move move_ok] in *.
  - right. exists ev. split; [exact E |]. split; [|done]. by destruct ev.
  - destruct (p_sent q !! i) as [raw|] eqn:Ei; [|left; by injection E].
    pose proof (proj1 (Forall_lookup _ _) (eo_wire _ _ _ _ _ _ _ _ (so_end _ _ _ _ _ HB)) i raw Ei)
      as [Hss Hem].
    destruct (wire_delivery y x p q _ _ raw (mirrored_sym _ _ (wo_mirror _ _ _ _ HW)) Hss Hem)
      as (seg & Eseg & Hsok & Hr & Hf & Hpl & _).
    unfold peer_receive in E. rewrite Eseg in E. right. exists (EvSegment clk seg).
    split; [exact E |]. split; [by split_and! | by eexists _, _].
Qed.

Lemma move_kept T x y p q m p' :
  world_ok x y p q -> world_ok x y p' q -> bounded p q -> bounded p' q -> move_ok m ->
  peer_move p q m = Ok p' -> roomy_move p m = true -> move_before T m ->
  kept T x (p_conn p) (stream_of p) -> kept T x (p_conn p') (stream_of p').
Proof.
  intros HW HW' [Hb _] [Hb' _] Hm E Hr Hbef HK.
  destruct (move_event _ _ _ _ _ _ HW Hm E) as [->|(ev & Ed & Hev & Hmev)]; [done |].
  destruct (world_sides _ _ _ _ HW) as (rd & rd' & HA & _).
  destruct (world_sides _ _ _ _ HW') as (rd1 & rd1' & HA1 & _).
  unfold peer_do in Ed. destruct (conn_step (p_conn p) ev) as [[c' outs]| |] eqn:Ec; try done.
  apply (kept_step T x y _ (p_conn p) (p_conn p') (stream_of p) (stream_of p') rd (delivered p) rd1
    (delivered p') ev outs (side_rel _ _ _ _ _ HA) (side_rel _ _ _ _ _ HA1) Hb Hb' Hev); [|..|exact HK].
  - cbn [mbind Res_bind] in Ed. by injection Ed as <-.
  - destruct m; [by subst ev |]. by destruct Hmev as (? & ? & ->).
  - destruct m; [by subst ev |]. by destruct Hmev as (? & ? & ->).
Qed.

(** A receiving end sends nothing new, and stays quiet. *)
Lemma receiver_quiet x y p q m t q' :
  world_ok x y p q -> bounded p q -> instant_ok t -> receiver_move t m ->
  peer_move q p m = Ok q' -> quiet q -> quiet q' /\ nxt (p_conn q') = nxt (p_conn q).
Proof.
  intros HW Hb Ht Hm E Hq. destruct (world_sides _ _ _ _ HW) as (rd & rd' & _ & HB).
  pose proof (side_rel _ _ _ _ _ HB) as HR. pose proof (cr_inv _ _ _ _ _ _ _ HR) as HI.
  assert (Hok : move_ok m) by (destruct m as [[]|]; try done; cbn in *; by subst).
  destruct (move_event _ _ _ _ _ _ (world_ok_sym _ _ _ _ HW) Hok E) as [->|(ev & Ed & [Hok' Hev] & Hmev)]; [done |].
  unfold peer_do in Ed. destruct (conn_step (p_conn q) ev) as [[c' outs]| |] eqn:Ec; try done.
  cbn [mbind Res_bind] in Ed. injection Ed as <-. unfold quiet in *. cbn [p_conn].
  destruct m as [ev'|clk i].
  - subst ev. destruct ev'; try done. cbn [conn_step] in Ec. injection Ec as <- _.
    unfold read_received. destruct (recv_buf (p_conn q)) as [rb|]; [|done].
    by destruct (RecvBuffer_read rb buf) as [[? ?] ?].
  - destruct Hmev as (clk' & seg & ->). cbn [conn_step event_ok] in *.
    destruct (process_segment (p_conn q) clk' seg) as [[c1 r]| |] eqn:Ep; try done. injection Ec as <- _.
    destruct (established_segment_ack _ _ _ _ _ HI (proj1 Hok') (cr_state _ _ _ _ _ _ _ HR) (proj1 Hev)
      (proj1 (proj2 Hev)) Ep) as [En [[Eu _]|(Hacc & _ & _)]]; [by split; [congruence |] |].
    rewrite Hq in Hacc. apply ack_acceptable_iff in Hacc; try apply HI; try apply Hok';
      rewrite wrapping_sub_diag in *; lia.
Qed.

Lemma peer_move_got p q m p' : peer_move p q m = Ok p' -> p_got p `prefix_of` p_got p'.
Proof.
  assert (Hdo : forall ev, peer_do p ev = Ok p' -> p_got p `prefix_of` p_got p').
  { intros ev. unfold peer_do. destruct (conn_step (p_conn p) ev) as [[c outs]| |]; try done.
    intros [= <-]. by eexists. }
  destruct m as [ev|clk i]; cbn [peer_move]; [apply Hdo |].
  destruct (p_sent q !! i) as [raw|]; [|by intros [= ->]]. unfold peer_receive.
  destruct (TcpSegment_parse _ _ _); [apply Hdo | by intros [= ->] | done].
Qed.

(** ** Runs *)
Lemma scheduled_run x y t ms : forall p q p' q',
  world_ok x y p q -> bounded p q -> instant_ok t -> Forall (scheduled t) ms ->
  world_run p q ms = Ok (p', q') ->
  p_got q `prefix_of` p_got q' /\ p_got p `prefix_of` p_got p' /\
  (forall T, kept T y (p_conn q) (stream_of q) -> kept T y (p_conn q') (stream_of q')) /\
  (quiet q -> quiet q' /\ nxt (p_conn q') = nxt (p_conn q)).
Proof.
  induction ms as [|[[] m] ms IH]; intros p q p' q' HW Hb Ht Hms E; [by injection E as <- <- | |];
    apply Forall_cons in Hms as [Hm Hms]; cbn [scheduled] in Hm; cbn [world_run] in E.
  - destruct (scheduled_move x y p q m t HW Hb Ht (or_introl Hm)) as (p1 & E1 & HW1 & Hg1 & _).
    rewrite E1 in E. cbn [mbind Res_bind] in E.
    destruct (IH p1 q p' q' HW1 (bounded_gave _ _ _ _ Hg1 eq_refl Hb) Ht Hms E) as (H1 & H2 & H3 & H4).
    split_and!; try done. etrans; [by eapply peer_move_got | done].
  - destruct (scheduled_move y x q p m t (world_ok_sym _ _ _ _ HW)) as (q1 & E1 & HW1 & Hg1 & _);
      [by destruct Hb | done | by right |].
    rewrite E1 in E. cbn [mbind Res_bind] in E. pose proof (world_ok_sym _ _ _ _ HW1) as HW1'.
    pose proof (bounded_gave p q p q1 eq_refl Hg1 Hb) as Hb1.
    destruct (IH p q1 p' q' HW1' Hb1 Ht Hms E) as (H1 & H2 & H3 & H4).
    split_and!; [etrans; [by eapply peer_move_got | done] | done | |].
    + intros T HK. apply H3. destruct Hb, Hb1.
      apply (move_kept T y x q p m q1 (world_ok_sym _ _ _ _ HW) HW1); try done;
        destruct m as [[]|]; try done; cbn in Hm; by subst.
    + intros Hq. destruct (receiver_quiet x y p q m t q1 HW Hb Ht Hm E1 Hq) as [Hq1 Hn1].
      destruct (H4 Hq1) as [Hq2 Hn2]. split; [done | congruence].
Qed.

(** Neither end sends what it does not queue. *)
Fixpoint steady (p q : Peer) (ms : list (bool * Move)) : bool :=
  match ms with
  | [] => true
  | (true, m) :: rest =>
      roomy_move p m && match peer_move p q m with Ok p' => steady p' q rest | _ => false end
  | (false, m) :: rest =>
      roomy_move q m && match peer_move q p m with Ok q' => steady p q' rest | _ => false end
  end.

Lemma steady_run T x y ms : forall p q,
  world_ok x y p q -> Forall (fun bm => move_ok (snd bm) /\ move_before T (snd bm)) ms ->
  len (p_gave p) + volume ms < 2147483648 -> len (p_gave q) + volume ms < 2147483648 ->
  kept T x (p_conn p) (stream_of p) -> kept T y (p_conn q) (stream_of q) ->
  steady p q ms = true ->
  exists p' q', world_run p q ms = Ok (p', q') /\ world_ok x y p' q' /\ bounded p' q' /\
    kept T x (p_conn p') (stream_of p') /\ kept T y (p_conn q') (stream_of q').
Proof.
  induction ms as [|[b m] ms IH]; intros p q HW Hms Hp Hq Kp Kq Hs.
  { exists p, q. split_and!; try done; cbn in *; unfold bounded; lia. }
  apply Forall_cons in Hms as [[Hm Hbef] Hms]. cbn [snd] in Hm, Hbef.
  pose proof (offered_nonneg b m) as Ho. pose proof (volume_nonneg ms) as Hv.
  change (volume ((b, m) :: ms)) with (offered (b, m) + volume ms) in *.
  change (offered (b, m)) with (offered (true, m)) in *.
  cbn [world_run steady] in *. destruct b; apply andb_true_iff in Hs as [Hr Hs].
  - destruct (peer_move_ok x y p q m HW Hm ltac:(lia) ltac:(lia)) as (p1 & E & HW1 & Hl).
    rewrite E in *. cbn [mbind Res_bind]. apply (IH p1 q HW1 Hms); (done || lia ||
      apply (move_kept T x y p q m p1 HW HW1); (done || split; lia)).
  - destruct (peer_move_ok y x q p m (world_ok_sym _ _ _ _ HW) Hm ltac:(lia) ltac:(lia))
      as (q1 & E & HW1 & Hl).
    rewrite E in *. cbn [mbind Res_bind]. apply (IH p q1 (world_ok_sym _ _ _ _ HW1) Hms); (done || lia ||
      apply (move_kept T y x q p m q1 (world_ok_sym _ _ _ _ HW) HW1); (done || split; lia)).
Qed.

(** The same moves, the ends in the other order. *)
Definition flip (bm : bool * Move) : bool * Move := (negb (fst bm), snd bm).

Lemma world_run_flip ms : forall p q p' q',
  world_run q p ms = Ok (q', p') -> world_run p q (map flip ms) = Ok (p', q').
Proof.
  induction ms as [|[[] m] ms IH]; intros p q p' q'; cbn [world_run map flip fst snd negb];
    [by intros [= -> ->] | |].
  - destruct (peer_move q p m); cbn [mbind Res_bind]; [apply IH | done | done].
  - destruct (peer_move p q m); cbn [mbind Res_bind]; [apply IH | done | done].
Qed.

(** Time passes, nobody writes. *)
Definition idle_move (t : Z) (bm : bool * Move) : Prop :=
  sender_move t (snd bm) \/ receiver_move t (snd bm).

Lemma scheduled_idle t ms : Forall (scheduled t) ms -> Forall (idle_move t) ms.
Proof. intros H. eapply Forall_impl; [exact H |]. intros [[] m]; [by left | by right]. Qed.

Lemma flip_idle t ms : Forall (idle_move t) ms -> Forall (idle_move t) (map flip ms).
Proof. intros H. apply Forall_map. eapply Forall_impl; [exact H |]. by intros [b m]. Qed.

Lemma finished_acknowledged x y p q :
  world_ok x y p q -> bounded p q -> finished p q -> acknowledged p = p_gave p.
Proof.
  intros HW Hb (Hq & Ht & _). destruct (world_sides _ _ _ _ HW) as (rd & rd' & HA & _).
  rewrite (end_ok_acknowledged _ _ _ _ _ _ _ _ (so_end _ _ _ _ _ HA)). cbn [stream_of acked].
  rewrite (proj1 (quiet_confirmed _ _ _ _ _ HA Hb) Hq), Ht. apply take_ge. unfold len. lia.
Qed.

Lemma both_finish T t x y p q :
  world_ok x y p q -> bounded p q -> instant_ok t -> T + MAX_RTO <= t ->
  kept T x (p_conn p) (stream_of p) -> kept T y (p_conn q) (stream_of q) ->
  exists ms p' q', Forall (idle_move t) ms /\ world_run p q ms = Ok (p', q') /\
    world_ok x y p' q' /\ p_gave p' = p_gave p /\ p_gave q' = p_gave q /\
    finished p' q' /\ finished q' p'.
Proof.
  intros HW Hb Ht HT Kp Kq.
  destruct (finishes x y p q T t HW Hb Ht HT Kp) as (ms1 & p1 & q1 & Hms1 & E1 & HW1 & Hg1 & Hg1' & Hf1).
  destruct (scheduled_run x y t ms1 p q p1 q1 HW Hb Ht Hms1 E1) as (_ & _ & HK & _).
  pose proof (bounded_gave _ _ _ _ Hg1 Hg1' Hb) as Hb1.
  assert (Hb1' : bounded q1 p1) by by destruct Hb1.
  destruct (finishes y x q1 p1 T t (world_ok_sym _ _ _ _ HW1) Hb1' Ht HT (HK T Kq))
    as (ms2 & q2 & p2 & Hms2 & E2 & HW2 & Hg2' & Hg2 & Hf2).
  destruct (scheduled_run y x t ms2 q1 p1 q2 p2 (world_ok_sym _ _ _ _ HW1) Hb1' Ht Hms2 E2)
    as (_ & Hgot & _ & Hquiet).
  apply world_ok_sym in HW2. destruct Hf1 as (Hq1 & Ht1 & Hgot1). destruct (Hquiet Hq1) as [Hq2 Hn2].
  pose proof (bounded_gave _ _ _ _ Hg2 Hg2' Hb1) as Hb2.
  exists (ms1 ++ map flip ms2), p2, q2. split.
  { apply Forall_app. split; [by apply scheduled_idle | by apply flip_idle, scheduled_idle]. }
  split; [rewrite world_run_app, E1; cbn [mbind Res_bind]; by apply world_run_flip |].
  split; [done |]. split; [congruence |]. split; [congruence |]. split; [|done].
  split; [done |]. split.
  - destruct (world_sides _ _ _ _ HW1) as (rd & rd' & HA & _).
    destruct (world_sides _ _ _ _ HW2) as (rd2 & rd2' & HA2 & _). pose proof (so_order _ _ _ _ _ HA).
    destruct Hb1. rewrite Hg2, <- Ht1. apply (transmitted_is x y p2 q2 rd2 _ HA2 Hb2); [|lia].
    rewrite Hn2. apply (side_numbers _ _ _ _ _ HA).
  - destruct (world_ok_flow _ _ _ _ HW2) as (_ & Ha & Hga & _).
    apply (anti_symm prefix); [by etrans |]. by rewrite Hg2, <- Hgot1.
Qed.

Lemma kept_start T x c :
  una c = nxt c -> entries (retransmit_queue c) = [] ->
  s_len (send_buf c) = 0 -> kept T x c (stream_of (start c)).
Proof.
  intros Hu He Hl. split; [| by rewrite He].
  rewrite He. exists 0. unfold stream_of, transmitted. cbn [acked sent start p_conn p_gave].
  rewrite Hu, wrapping_sub_diag. unfold confirmed, acknowledged. cbn [start p_conn p_gave]. rewrite Hl.
  split; [by vm_compute | by vm_compute].
Qed.

(** C2. The transport always can complete. Take a client and a server after the
    handshake and any run of the two over a network that loses, reorders and repeats
    segments, in which no segment is sent while the retransmission queue is full and
    no window probe fires (their loss would be final), and let the clock move on by
    the largest timeout. Then, without another write, some sequence of timeouts,
    transmissions, probes, reads and arrivals leads to a state in which each
    application has read everything that the other one ever wrote and everything is
    acknowledged: no loss, no staged segment, closed window, duplicate
    acknowledgement or backed-off timer leaves the two ends stuck. *)
Theorem transport_completes c s ms T t :
  fresh_tcb c -> fresh_tcb s -> state c = Closed -> state s = Listen -> mirrored c s ->
  Forall (fun bm => move_ok (snd bm) /\ move_before T (snd bm)) ms -> volume ms < 2147483648 ->
  steady (start (client_established c s)) (start (server_established c s)) ms = true ->
  instant_ok t -> T + MAX_RTO <= t ->
  exists p q, world_run (start (client_established c s)) (start (server_established c s)) ms = Ok (p, q) /\
    exists ms' p' q', Forall (idle_move t) ms' /\ world_run p q ms' = Ok (p', q') /\
      p_gave p' = p_gave p /\ p_gave q' = p_gave q /\
      (p_got q' = p_gave p /\ acknowledged p' = p_gave p) /\
      (p_got p' = p_gave q /\ acknowledged q' = p_gave q).
Proof.
  intros Hc Hs Hcs Hss Hm Hms Hv Hst Ht HT.
  pose proof (hs_session c s Hc Hs Hcs Hss Hm) as HS.
  pose proof (handshake_world c s Hc Hs Hcs Hss Hm) as HW.
  destruct (steady_run T _ _ ms _ _ HW Hms Hv Hv) as (p & q & E & HW1 & Hb & Kp & Kq); [| |exact Hst |].
  - destruct (se_up _ _ HS). by apply kept_start.
  - destruct (se_down _ _ HS). by apply kept_start.
  - exists p, q. split; [exact E |].
    destruct (both_finish T t _ _ p q HW1 Hb Ht HT Kp Kq)
      as (ms' & p' & q' & Hms' & E' & HW2 & Hg1 & Hg2 & Hf1 & Hf2).
    pose proof (bounded_gave _ _ _ _ Hg1 Hg2 Hb) as Hb2.
    assert (Hb2' : bounded q' p') by by destruct Hb2.
    exists ms', p', q'. split; [done |]. split; [done |]. split; [done |]. split; [done |].
    rewrite (finished_acknowledged _ _ _ _ HW2 Hb2 Hf1),
      (finished_acknowledged _ _ _ _ (world_ok_sym _ _ _ _ HW2) Hb2' Hf2).
    destruct Hf1 as (_ & _ & ->), Hf2 as (_ & _ & ->). by rewrite Hg1, Hg2.
Qed.

(** "hello" goes out in two segments, "ok" in one: the network loses the first and
    the third and repeats the second, which is staged. *)
Definition lossy_moves : list (bool * Move) :=
  [(true, Do (EvWrite [104; 101; 108; 108; 111]));
   (true, Do (EvSend 3 1000000000)); (true, Do (EvSend MSS 1000000000));
   (false, Arrive session_clock 1); (false, Arrive session_clock 1);
   (false, Do (EvWrite [111; 107])); (false, Do (EvSend MSS 1000000000))].

Lemma lossy_moves_ok : Forall (fun bm => move_ok (snd bm) /\ move_before 1000000000 (snd bm)) lossy_moves.
Proof.
  unfold lossy_moves. repeat (apply Forall_cons; split); try apply Forall_nil_2; cbn [snd move_ok move_before before];
    (split; [first [exact session_clock_ok | solve [cbn; bytes_tac] | vm_compute; repeat split; discriminate]
            | (exact I || lia)]).
Qed.

(** Nothing has been read before; everything is after. *)
Lemma transport_completes_witness :
  (match world_run (start demo_c) (start demo_s) lossy_moves with
   | Ok (p, q) => (p_gave p, p_got q, p_gave q, p_got p) = ([104; 101; 108; 108; 111], [], [111; 107], [])
   | _ => False
   end) /\
  exists p q, world_run (start demo_c) (start demo_s) lossy_moves = Ok (p, q) /\
    exists ms' p' q', Forall (idle_move 61000000000) ms' /\ world_run p q ms' = Ok (p', q') /\
      p_gave p' = p_gave p /\ p_gave q' = p_gave q /\
      (p_got q' = p_gave p /\ acknowledged p' = p_gave p) /\
      (p_got p' = p_gave q /\ acknowledged q' = p_gave q).
Proof.
  split; [by vm_compute |].
  apply (transport_completes demo_client demo_server lossy_moves 1000000000 61000000000
    demo_client_fresh demo_server_fresh eq_refl eq_refl demo_mirrored lossy_moves_ok);
    [by vm_compute | by vm_compute | by vm_compute | by vm_compute].
Defined.
