(* ===== verification/Congestion.v ===== *)
(** * Flow and congestion control

    What bounds the sender (connection.rs, [next_segment_to_send],
    [handle_established], [take_retransmits]; RFC 5681): both windows, slow start
    and congestion avoidance, fast retransmit and fast recovery, and the collapse
    of the window on a timeout. *)
From S2P Require Import Prelude Errors Tcb Ipv4 Header SendBuffer RecvBuffer Float64 Retransmit Connection Session.

(** The sequence numbers sent and not yet acknowledged, and what RFC 5681 sets
    SSTHRESH to after a loss. *)
Definition in_flight (c : Connection) : Z := wrapping_sub (nxt c) (una c).
Definition loss_ssthresh (c : Connection) : Z := Z.max (cw c / 2) (2 * MSS).

(** C18. Neither window is ever exceeded: a segment that [next_segment_to_send]
    hands out parses at the peer as a PSH-ACK segment that carries the next unsent
    bytes of the send buffer, at least one and at most [max_payload], under their
    number, and what was in flight plus that payload is at most the congestion window
    and at most the peer's window. The segment is queued for retransmission with the
    time of its transmission, unless 128 are queued already, and NXT moves past it;
    nothing else of the connection changes: no other field of the control block, no
    byte of either buffer, no other entry, timer or estimate of the queue. *)
Theorem next_segment_respects_windows c max_payload now c' raw :
  conn_inv c -> 0 <= max_payload <= MSS -> instant_ok now ->
  next_segment_to_send c max_payload now = (c', Some raw) ->
  exists seg, TcpSegment_parse raw (local_ip (tcb c)) (remote_ip (tcb c)) = Ok seg /\
    let n := len (payload seg) in
    flags (header seg) = F_PSH_ACK /\ seq_num (header seg) = s_nxt (send_buf c) /\
    ack_num (header seg) = rnxt c /\
    0 < n <= max_payload /\ in_flight c + n <= Z.min (cw c) (wnd c) /\
    payload seg = take (Z.to_nat n) (drop (Z.to_nat (s_inflight (send_buf c))) (s_contents (send_buf c))) /\
    tcb c' = tcb (set_snd_nxt (wrapping_add (s_nxt (send_buf c)) n) c) /\
    send_buf c' = SendBuffer_advance_nxt (send_buf c) n /\
    s_contents (send_buf c') = s_contents (send_buf c) /\
    entries (retransmit_queue c') = entries (retransmit_queue c) ++
      (if len (entries (retransmit_queue c)) <? 128
       then [mkRetransmitEntry (s_nxt (send_buf c)) (payload seg) now false] else []) /\
    rto (retransmit_queue c') = rto (retransmit_queue c) /\
    srtt (retransmit_queue c') = srtt (retransmit_queue c) /\
    rttvar (retransmit_queue c') = rttvar (retransmit_queue c) /\
    recv_buf c' = recv_buf c /\ time_wait_start c' = time_wait_start c.
Proof.
  intros HI Hm Hn E.
  destruct (next_segment_to_send_spec c max_payload now HI ltac:(lia))
    as [E0 | (pl & c1 & E0 & Ec & Hb & Hl & Hw & Hnx)]; rewrite E0 in E; [discriminate |].
  injection E as <- <-. pose proof (inv_sent c pl now HI Hb ltac:(lia) Hn) as HI1.
  rewrite <- Ec in HI1. pose proof (sw_nxt _ (ci_send _ HI)) as Hsn.
  exists (wire_segment (data_builder c1 F_PSH_ACK (s_nxt (send_buf c)) pl)).
  split.
  { replace (local_ip (tcb c)) with (sb_src_ip (data_builder c1 F_PSH_ACK (s_nxt (send_buf c)) pl))
      by (by rewrite Ec).
    replace (remote_ip (tcb c)) with (sb_dst_ip (data_builder c1 F_PSH_ACK (s_nxt (send_buf c)) pl))
      by (by rewrite Ec).
    apply parse_build, data_builder_ok; (done || lia). }
  cbv zeta. change (payload (wire_segment _)) with pl.
  split; [done |]. split; [done |]. split; [by rewrite Ec |]. split; [exact Hl |]. split; [exact Hw |].
  split; [apply next_segment_payload in Hnx; [exact Hnx | apply (ci_send _ HI) | lia] |].
  assert (Hu : as_u32 (len pl) = len pl)
    by (apply as_u32_id; unfold MSS, is_u32, U32 in *; lia).
  rewrite Ec. split; [by rewrite Hu |]. do 2 (split; [reflexivity |]).
  cbn [set_snd_nxt set_retransmit_queue with_tcb retransmit_queue]. unfold RetransmitQueue_push.
  change RETRANSMIT_QUEUE_MAX with 128. destruct (_ <? 128); by rewrite ?app_nil_r.
Qed.

(** ** Acknowledgements *)
(** A segment that only acknowledges. *)
Definition pure_ack (ack : Z) (seg : TcpSegment) : Prop :=
  flags (header seg) = F_ACK /\ payload seg = [] /\ ack_num (header seg) = ack.

Lemma pure_ack_process c clk seg ack :
  st c = Established -> pure_ack ack seg ->
  process_segment c clk seg =
    ('(c1, early) ← established_ack c clk seg; Ok (c1, early)).
Proof.
  intros Hst (Hf & Hp & Ha). unfold process_segment. rewrite Hst. unfold handle_established.
  rewrite Hf. cbn [flag_rst flag_ack F_ACK].
  destruct (established_ack c clk seg) as [[c1 [r|]]| |]; cbn [mbind Res_bind]; try done.
  unfold established_data. rewrite Hf, Hp. reflexivity.
Qed.

(** The congestion window after new data is acknowledged (RFC 5681, section 3.1). *)
Definition opened_window (cw0 ssthresh0 acked : Z) : Z :=
  Z.min (if cw0 <? ssthresh0 then cw0 + Z.min acked MSS else cw0 + MSS * MSS / cw0) (U32 - 1).

Lemma grow_cwnd_opened c n w :
  conn_inv c -> grow_cwnd c n = Ok (set_cwnd w c) -> w = opened_window (cw c) (sst c) n.
Proof.
  intros HI. pose proof (ci_cwnd _ HI) as Hc.
  unfold grow_cwnd, opened_window, u32_div, saturating_add_u32.
  destruct (cw c <? sst c).
  - by intros [= <-].
  - destruct (Z.eqb_spec (cw c) 0); [unfold MSS in *; lia |]. cbn [mbind Res_bind].
    by intros [= <-].
Qed.

(** The payload and the FIN of a segment do not touch the sender's side. *)
Lemma established_data_sender c seg :
  exists c' r, established_data c seg = Ok (c', r) /\
    tcb_snd (tcb c') = tcb_snd (tcb c) /\ send_buf c' = send_buf c /\
    retransmit_queue c' = retransmit_queue c /\ dups c' = dups c /\ sst c' = sst c /\ cw c' = cw c /\
    (payload seg = [] -> flag_fin (flags (header seg)) = false ->
     r = None /\ recv_buf c' = recv_buf c /\ st c' = st c /\ rnxt c' = rnxt c).
Proof.
  unfold established_data, receive_payload. destruct (payload seg) as [|b l] eqn:Ep.
  - change (len []) with 0. cbn [Z.eqb negb andb].
    destruct (flag_fin (flags (header seg))); eexists _, _; (split; [reflexivity |]); by split_and!.
  - rewrite len_cons. pose proof (len_nonneg l). replace (1 + len l =? 0) with false by lia. cbn [negb andb].
    destruct (recv_buf c) as [rb|], (flag_fin (flags (header seg)));
      eexists _, _; (split; [reflexivity |]); by split_and!.
Qed.

(** What an acknowledgement of [ack] leaves in the send buffer: it drops the bytes it
    covers, unless it covers more than the buffer has (the FIN). *)
Definition acknowledged_bytes (sb sb' : SendBuffer) (ack : Z) : Prop :=
  let k := wrapping_sub ack (s_una sb) in
  if k <=? len (s_contents sb)
  then s_contents sb' = drop (Z.to_nat k) (s_contents sb) /\ s_una sb' = ack /\ s_nxt sb' = s_nxt sb
  else sb' = sb.

Lemma SendBuffer_acknowledged_bytes sb ack :
  send_wf sb -> is_u32 ack -> acknowledged_bytes sb (SendBuffer_acknowledge sb ack) ack.
Proof.
  intros Hw Ha. unfold acknowledged_bytes. cbv zeta. rewrite len_s_contents by done.
  pose proof (as_u32_range (ack - s_una sb)) as Hk. fold (wrapping_sub ack (s_una sb)) in Hk.
  pose proof (sw_una _ Hw). destruct (Z.leb_spec (wrapping_sub ack (s_una sb)) (s_len sb)) as [Hle|Hgt].
  - destruct (Z.eq_dec (wrapping_sub ack (s_una sb)) 0) as [E0|Hne].
    + assert (ack = s_una sb) as -> by word_lia. unfold SendBuffer_acknowledge. rewrite E0. cbn [Z.eqb orb].
      by split_and!.
    + split; [apply s_contents_acknowledge; [done | unfold is_u32 in *; lia] |].
      unfold SendBuffer_acknowledge. replace (wrapping_sub ack (s_una sb) =? 0) with false by lia.
      by replace (s_len sb <? wrapping_sub ack (s_una sb)) with false by lia.
  - unfold SendBuffer_acknowledge. replace (s_len sb <? wrapping_sub ack (s_una sb)) with true by lia.
    by rewrite orb_true_r.
Qed.

(** C20. New data acknowledged in ESTABLISHED, by any segment without RST, whatever
    it carries: SND.UNA and the peer's window are taken from the segment, exactly the
    covered bytes leave the send buffer and the covered segments the retransmission
    queue, the duplicate count restarts, and the congestion window opens by at most
    one MSS: by the bytes acknowledged in slow start, by MSS*MSS/cwnd in congestion
    avoidance. A segment that carries nothing else is not answered and changes nothing
    on the receiving side. *)
Theorem new_ack_opens_window c clk seg :
  conn_inv c -> clock_ok clk -> seg_ok seg -> st c = Established ->
  flag_rst (flags (header seg)) = false -> flag_ack (flags (header seg)) = true ->
  ack_acceptable (una c) (ack_num (header seg)) (nxt c) = true ->
  exists c' r, process_segment c clk seg = Ok (c', r) /\
    una c' = ack_num (header seg) /\ nxt c' = nxt c /\ wnd c' = window (header seg) /\
    acknowledged_bytes (send_buf c) (send_buf c') (ack_num (header seg)) /\
    entries (retransmit_queue c') =
      List.filter (unacked (ack_num (header seg))) (entries (retransmit_queue c)) /\
    dups c' = 0 /\ sst c' = sst c /\
    cw c' = opened_window (cw c) (sst c) (wrapping_sub (ack_num (header seg)) (una c)) /\
    cw c <= cw c' <= cw c + MSS /\
    (payload seg = [] -> flag_fin (flags (header seg)) = false ->
     r = None /\ recv_buf c' = recv_buf c /\ st c' = st c /\ rnxt c' = rnxt c).
Proof.
  intros HI Hclk Hseg Hst Hrst Hack Hacc. destruct Hseg as (_ & Ha & _).
  destruct (established_ack_new c HI clk Hclk seg Hacc) as (w & rq & E & Eg & Hw & _ & Erq & _).
  destruct (acknowledge_ok (E:=MagnumError) (retransmit_queue c) (ack_num (header seg))
    (clock_ack clk) (ci_rtq _ HI) (proj1 Hclk)) as (rq' & Erq' & _ & Hes).
  rewrite Erq in Erq'. injection Erq' as <-.
  unfold process_segment. rewrite Hst. unfold handle_established. rewrite Hrst, Hack, E. cbn [mbind Res_bind].
  destruct (established_data_sender (set_dup_ack_count 0 (set_snd_wnd (window (header seg))
    (set_retransmit_queue rq (set_send_buf (SendBuffer_acknowledge (send_buf c) (ack_num (header seg)))
      (set_snd_una (ack_num (header seg)) (set_cwnd w c)))))) seg) as (c' & r & -> & Hs & Hb & Hq & Hd & Ht & Hc & Hr).
  exists c', r. rewrite Hs, Hb, Hq, Hd, Ht, Hc. split; [done |]. do 3 (split; [reflexivity |]).
  split; [by apply SendBuffer_acknowledged_bytes; [apply (ci_send _ HI) |] |].
  split; [exact Hes |]. do 2 (split; [reflexivity |]).
  split; [exact (grow_cwnd_opened c _ w HI Eg) |]. split; [exact Hw |].
  intros H1 H2. destruct (Hr H1 H2) as (-> & -> & -> & ->). by split_and!.
Qed.

(** ** Fast retransmit and fast recovery *)
Section DupAcks.
Context (clk : Clock) (seg : TcpSegment).

(** [n] copies of the segment, one after the other. *)
Fixpoint feed (n : nat) (c : Connection) : Result (Connection * list (list Z)) :=
  match n with
  | O => Ok (c, [])
  | S n =>
      '(c1, r) ← process_segment c clk seg;
      '(c2, outs) ← feed n c1;
      Ok (c2, opt_list r ++ outs)
  end.

(** A connection with data in flight of which [seg] is a duplicate acknowledgement. *)
Record duplicated (c : Connection) : Prop := {
  du_state : st c = Established;
  du_ack : pure_ack (una c) seg;
  du_flight : una c <> nxt c }.

Lemma dup_not_new c : duplicated c -> ack_acceptable (una c) (ack_num (header seg)) (nxt c) = false.
Proof using. intros [_ (_ & _ & ->) _]. apply ack_same. Qed.

Definition bump (c : Connection) : Connection :=
  set_dup_ack_count (saturating_add_u8 (dups c) 1) c.

Lemma dup_process c :
  duplicated c ->
  process_segment c clk seg =
    if dups (bump c) =? 3 then
      c2 ← enter_fast_recovery (bump c); Ok (c2, fast_retransmit_segment c2)
    else if 3 <? dups (bump c)
    then Ok (set_cwnd (saturating_add_u32 (cw c) MSS) (bump c), None)
    else Ok (bump c, None).
Proof using.
  intros Hd. pose proof (dup_not_new c Hd) as Hn. destruct Hd as [Hst Hp Hf].
  rewrite (pure_ack_process c clk seg _ Hst Hp). unfold established_ack. rewrite Hn.
  destruct Hp as (_ & _ & ->). rewrite Z.eqb_refl.
  replace (una c =? nxt c) with false by lia. cbn [negb andb].
  fold (bump c).
  destruct (dups (bump c) =? 3); [|by destruct (3 <? dups (bump c))].
  by destruct (enter_fast_recovery (bump c)).
Qed.

Lemma duplicated_frame c c1 :
  st c1 = st c -> una c1 = una c -> nxt c1 = nxt c -> duplicated c -> duplicated c1.
Proof using. intros E1 E2 E3 []. split; rewrite ?E1, ?E2, ?E3; done. Qed.

(** In fast recovery every further duplicate inflates the window by one MSS. *)
Lemma feed_recovery n : forall c,
  duplicated c -> 3 <= dups c <= 255 -> cw c < U32 ->
  exists c', feed n c = Ok (c', []) /\ duplicated c' /\ 3 <= dups c' <= 255 /\
    cw c' = Z.min (cw c + Z.of_nat n * MSS) (U32 - 1) /\ sst c' = sst c /\ una c' = una c /\
    nxt c' = nxt c /\ send_buf c' = send_buf c /\ recv_buf c' = recv_buf c /\
    retransmit_queue c' = retransmit_queue c.
Proof using.
  induction n as [|n IH]; intros c Hd Hdup Hcw; cbn [feed].
  { exists c. split_and!; try (done || lia). }
  rewrite (dup_process c Hd). cbn [bump set_dup_ack_count with_tcb tcb dup_ack_count].
  assert (Hs : 3 < saturating_add_u8 (dups c) 1 <= 255 \/ saturating_add_u8 (dups c) 1 = 255)
    by (unfold saturating_add_u8, U8; lia).
  replace (saturating_add_u8 (dups c) 1 =? 3) with false by lia.
  replace (3 <? saturating_add_u8 (dups c) 1) with true by lia.
  set (c1 := set_cwnd _ _). cbn [mbind Res_bind].
  assert (Hc1 : cw c1 = Z.min (cw c + MSS) (U32 - 1)) by reflexivity.
  assert (Hd1 : dups c1 = saturating_add_u8 (dups c) 1) by reflexivity.
  destruct (IH c1) as (c' & E & Hd' & H3 & Hw & F); [| | |].
  - by apply (duplicated_frame c).
  - lia.
  - unfold U32 in *. lia.
  - rewrite E. cbn [mbind Res_bind opt_list app]. exists c'. split; [done |]. split; [done |].
    split; [done |]. split; [unfold MSS in *; lia | exact F].
Qed.
End DupAcks.

(** What goes out on a fast retransmission: the first unacknowledged segment of the
    queue, with its own number and bytes; nothing if the queue holds none (a FIN alone
    is in flight). *)
Definition first_resent (c : Connection) (outs : list (list Z)) : Prop :=
  match entries (retransmit_queue c) with
  | [] => outs = []
  | e :: _ => exists raw seg, outs = [raw] /\
      TcpSegment_parse raw (local_ip (tcb c)) (remote_ip (tcb c)) = Ok seg /\
      flags (header seg) = F_PSH_ACK /\ seq_num (header seg) = e_seq e /\ payload seg = e_data e /\
      ack_num (header seg) = rnxt c
  end.

Lemma fast_retransmit_resends c : conn_inv c -> first_resent c (opt_list (fast_retransmit_segment c)).
Proof.
  intros HI. unfold first_resent, fast_retransmit_segment, first_unacked.
  pose proof (rqw_entries _ (ci_rtq _ HI)) as He.
  destruct (entries (retransmit_queue c)) as [|e l]; [done |].
  apply Forall_cons in He as [[Hs Hd Hl _] _]. eexists _, _. split; [reflexivity |].
  split; [by apply (parse_build (data_builder c F_PSH_ACK (e_seq e) (e_data e))), data_builder_ok |].
  by split_and!.
Qed.


(** A tick of the timer at which no segment is due changes nothing at all. *)
Lemma take_retransmits_idle c now :
  conn_inv c -> instant_ok now ->
  List.filter (due now (rto (retransmit_queue c))) (entries (retransmit_queue c)) = [] ->
  take_retransmits c now = Ok (c, []).
Proof.
  intros HI Hn Hd. destruct (expired_ok (E:=MagnumError) (retransmit_queue c) now (ci_rtq _ HI) Hn)
    as (rq & E & _ & He & Hr & Hs & Hv).
  unfold take_retransmits. rewrite E, Hd. cbn [mbind Res_bind map]. do 2 f_equal. rewrite Hd in Hr.
  cbn [map] in Hr. assert (rq = retransmit_queue c) as ->; [|by destruct c].
  assert (Hes : entries rq = entries (retransmit_queue c)).
  { rewrite He. revert Hd. clear. generalize (rto (retransmit_queue c)). intros r.
    induction (entries (retransmit_queue c)) as [|e l IH]; [done |].
    cbn [List.filter map]. destruct (due now r e); [done |]. intros Hd. by rewrite IH. }
  clear He E. destruct rq, (retransmit_queue c). cbn in *. congruence.
Qed.

(** C21. A retransmission timeout (RFC 5681, section 3.1, and RFC 6298, section 5):
    when segments have waited for the timeout, SSTHRESH becomes half the window (at
    least 2 MSS), the window one MSS, and exactly those segments go out again, oldest
    first, each parsing at the peer with its own number and bytes; they are marked as
    sent twice at this instant, no other entry changes, and the timeout doubles, up to
    60 seconds. When none has, nothing of the connection changes and nothing is sent.
    Never do the sequence numbers, the buffers or the estimates change. *)
Theorem timeout_collapses_window c now :
  conn_inv c -> instant_ok now ->
  let rq := retransmit_queue c in
  let due_now := List.filter (due now (rto rq)) (entries rq) in
  exists c' outs, take_retransmits c now = Ok (c', outs) /\
    (due_now = [] -> outs = [] /\ c' = c) /\
    (due_now <> [] -> cw c' = MSS /\ sst c' = loss_ssthresh c /\
       rto (retransmit_queue c') = Z.min (2 * rto rq) (from_secs 60)) /\
    entries (retransmit_queue c') =
      map (fun e => if due now (rto rq) e then mkRetransmitEntry (e_seq e) (e_data e) now true else e)
        (entries rq) /\
    Forall2 (fun e raw => exists seg,
        TcpSegment_parse raw (local_ip (tcb c)) (remote_ip (tcb c)) = Ok seg /\
        flags (header seg) = F_PSH_ACK /\ seq_num (header seg) = e_seq e /\ payload seg = e_data e /\
        ack_num (header seg) = rnxt c) due_now outs /\
    srtt (retransmit_queue c') = srtt rq /\ rttvar (retransmit_queue c') = rttvar rq /\
    tcb_snd (tcb c') = tcb_snd (tcb c) /\ tcb_rcv (tcb c') = tcb_rcv (tcb c) /\
    send_buf c' = send_buf c /\ recv_buf c' = recv_buf c /\ st c' = st c /\ dups c' = dups c.
Proof.
  intros HI Hn rq due_now.
  destruct (expired_ok (E:=MagnumError) rq now (ci_rtq _ HI) Hn) as (rq' & E & _ & He & Hr & Hs & Hv).
  fold due_now in E, Hr. pose proof (take_retransmits_ok c now HI Hn) as Hok.
  assert (Hidle : due_now = [] -> take_retransmits c now = Ok (c, [])) by by apply take_retransmits_idle.
  unfold take_retransmits in *. fold rq in Hok, Hidle |- *. rewrite E in *. cbn [mbind Res_bind] in *.
  match goal with |- exists c' outs, Ok (?a, ?b) = _ /\ _ => set (c1 := a) in *; set (outs := b) in * end.
  destruct Hok as (HI' & Hse & _). exists c1, outs. split; [done |].
  split; [intros Hd; specialize (Hidle Hd); fold c1 outs in Hidle; injection Hidle as H1 H2; by split |].
  assert (Hf : retransmit_queue c1 = rq' /\ tcb_snd (tcb c1) = tcb_snd (tcb c) /\
    tcb_rcv (tcb c1) = tcb_rcv (tcb c) /\ send_buf c1 = send_buf c /\ recv_buf c1 = recv_buf c /\
    st c1 = st c /\ dups c1 = dups c) by (unfold c1; by destruct (map _ due_now)).
  destruct Hf as (-> & F1 & F2 & F3 & F4 & F5 & F6). split.
  { intros Hd. unfold c1. destruct due_now; [done |]. by rewrite Hr. }
  split; [exact He |]. split; [|by split_and!].
  unfold outs. rewrite map_map. apply Forall2_fmap_r, Forall_Forall2_diag.
  assert (Hq : Forall entry_ok due_now) by apply Forall_filter_list, (rqw_entries _ (ci_rtq _ HI)).
  eapply Forall_impl; [exact Hq |]. intros e [Hsq Hd Hl _]. cbn beta iota.
  exists (wire_segment (data_builder c1 F_PSH_ACK (e_seq e) (e_data e))).
  destruct Hse as (<- & <- & _). split; [|split_and!; try done; by rewrite <- F2].
  apply (parse_build (data_builder c1 F_PSH_ACK (e_seq e) (e_data e))). by apply data_builder_ok.
Qed.

(** ** A concrete sender: two bytes in flight after the handshake *)
Definition demo_wrote : Connection := client_wrote demo_c [72; 105].
Definition demo_flight : Connection := client_sent demo_c 5 [72; 105].

Lemma demo_flight_inv : conn_inv demo_flight.
Proof.
  apply (ex_sent_inv demo_c demo_s 5 [72; 105] demo_session); vm_compute; try (split; congruence).
  repeat constructor; congruence.
Qed.

Lemma demo_wrote_inv : conn_inv demo_wrote.
Proof.
  apply (ex_write demo_c demo_s [72; 105] demo_session); vm_compute; try (split; congruence).
  repeat constructor; congruence.
Qed.

Definition demo_ack (ack : Z) : TcpSegment :=
  {| header := {| src_port := 80; dst_port := 12345; seq_num := 0; ack_num := ack;
       data_offset := 5; flags := F_ACK; window := 3000; tcp_csum := 0; urgent_ptr := 0 |};
     payload := [] |}.

Lemma demo_send : next_segment_to_send demo_wrote 1460 5 =
  (demo_flight, Some (SegmentBuilder_build (data_builder demo_flight F_PSH_ACK 501 [72; 105]))).
Proof.
  apply (ex_send demo_c demo_s 5 [72; 105] demo_session); vm_compute; try (split; congruence);
    try congruence. repeat constructor; congruence.
Qed.

Lemma next_segment_respects_windows_witness :
  exists seg, TcpSegment_parse
      (SegmentBuilder_build (data_builder demo_flight F_PSH_ACK 501 [72; 105]))
      [10; 0; 0; 1] [192; 168; 100; 2] = Ok seg /\
    0 < len (payload seg) <= 1460 /\ 0 + len (payload seg) <= 1460.
Proof.
  destruct (next_segment_respects_windows demo_wrote 1460 5 _ _ demo_wrote_inv
    ltac:(vm_compute; split; congruence) ltac:(vm_compute; split; congruence) demo_send)
    as (seg & Hs & _ & _ & _ & Hl & Hw & _).
  exists seg. split; [exact Hs |]. split; [exact Hl | exact Hw].
Defined.

Lemma new_ack_opens_window_witness :
  exists c' r, process_segment demo_flight session_clock (demo_ack 503) = Ok (c', r) /\
    una c' = 503 /\ cw c' = 1462.
Proof.
  destruct (new_ack_opens_window demo_flight session_clock (demo_ack 503) demo_flight_inv
    session_clock_ok) as (c' & r & E & Hu & _ & _ & _ & _ & _ & _ & Hw & _);
    [seg_ok_tac | reflexivity.. |].
  exists c', r. split; [exact E |]. split; [exact Hu |]. rewrite Hw. reflexivity.
Defined.

Lemma demo_duplicated : duplicated (demo_ack 501) demo_flight.
Proof. split; [reflexivity | by split_and! | vm_compute; discriminate]. Qed.


Lemma timeout_collapses_window_witness :
  exists c' raw, take_retransmits demo_flight 2000000000 = Ok (c', [raw]) /\ cw c' = 1460.
Proof.
  destruct (timeout_collapses_window demo_flight 2000000000 demo_flight_inv)
    as (c' & outs & E & _ & Hw & _ & Ho & _); [vm_compute; split; congruence |].
  destruct Hw as [Hw _]; [vm_compute; discriminate |].
  assert (Hl : length outs = 1%nat) by (apply Forall2_length in Ho; rewrite <- Ho; reflexivity).
  destruct outs as [|raw [|? ?]]; try discriminate. exists c', raw. by split.
Defined.
