(* ===== verification/Task.v ===== *)
(** * The connection task (src/magnum-tcp/src/tcp/task.rs)

    One iteration of [run_connection_task]: the biased [select!] over the inbox,
    the two timers, the application's writes and its close request, the handling
    of the branch that fires, and the exit tests at the bottom of the loop.

    tokio is not modelled: what its channels and intervals report to one [select!]
    is the record [Poll], chosen by the environment, and the instants the code
    reads are the record [Times]. The messages sent are returned in order; a send
    to a closed channel is ignored by the code ([let _ =]). *)
From S2P Require Import Prelude Errors Tcb Ipv4 Header Ring SendBuffer RecvBuffer Float64 Retransmit Connection Session.

Record InboundMsg := mkInboundMsg { in_seg : TcpSegmentOwned }.

Record OutboundMsg := mkOutboundMsg {
  om_src_ip : list Z;
  om_dst_ip : list Z;
  om_tcp_bytes : list Z;
  om_ether_src : list Z;
  om_ether_dst : list Z }.

(** [OutboundMsg { src_ip: conn.tcb.local_ip, .. }] *)
Definition outbound (c : Connection) (ether_src ether_dst tcp_bytes : list Z) : OutboundMsg :=
  {| om_src_ip := local_ip (tcb c); om_dst_ip := remote_ip (tcb c); om_tcp_bytes := tcp_bytes;
     om_ether_src := ether_src; om_ether_dst := ether_dst |}.

(** ** The two helpers *)
(** The [while let] loop of [flush_send_buf]; [now k] is the clock at the k-th
    push. [None] means that the fuel ran out. *)
Fixpoint flush_send_buf (fuel : nat) (c : Connection) (now : nat -> Z) (es ed : list Z)
  : option (Connection * list OutboundMsg) :=
  match fuel with
  | O => None
  | S f =>
      match next_segment_to_send c MSS (now O) with
      | (c, None) => Some (c, [])
      | (c, Some tcp_bytes) =>
          match flush_send_buf f c (fun k => now (S k)) es ed with
          | Some (c', msgs) => Some (c', outbound c es ed tcp_bytes :: msgs)
          | None => None
          end
      end
  end.

(** The send buffer holds at most 65536 bytes and every round sends one at least. *)
Definition FLUSH_FUEL : nat := Z.to_nat (SEND_BUF_SIZE + 1).

(** What goes to the application, if anything. *)
Definition forward_received_data (c : Connection) : Connection * list (list Z) :=
  let available := received_available c in
  if 0 <? available then
    let '(c, buf, n) := read_received c (zeroed available) in
    if 0 <? n then (c, [take (Z.to_nat n) buf]) else (c, [])
  else (c, []).

(** ** One iteration *)
(** What the channels and intervals report: [None] is pending; an inner [None] is a
    closed channel. *)
Record Poll := mkPoll {
  p_inbound : option (option InboundMsg);
  p_retransmit_tick : bool;
  p_zwp_tick : bool;
  p_app_send : option (option (list Z));
  p_close : bool }.

Record Times := mkTimes {
  t_clock : Clock;
  t_push : nat -> Z;
  t_retransmit : Z;
  t_tick : Z }.

Record TaskState := mkTaskState { conn : Connection; close_initiated : bool }.

(** The branch that a biased [select!] runs: the first ready one whose pattern
    matches and whose guard holds; [None] when it keeps waiting. *)
Inductive Branch : Type :=
  | BrInbound (msg : option InboundMsg)
  | BrRetransmit
  | BrZeroWindow
  | BrAppSend (data : list Z)
  | BrClose.

Definition select_biased (p : Poll) (closing : bool) : option Branch :=
  match p_inbound p with
  | Some m => Some (BrInbound m)
  | None =>
      if p_retransmit_tick p then Some BrRetransmit
      else if p_zwp_tick p then Some BrZeroWindow
      else
        match p_app_send p with
        | Some (Some data) => Some (BrAppSend data)
        | _ => if (p_close p && negb closing)%bool then Some BrClose else None
        end
  end.

(** The outcome of an iteration. *)
Inductive Flow : Type := Continue | Break.

Record TaskOut := mkTaskOut {
  task_state : TaskState;
  sent_msgs : list OutboundMsg;
  app_msgs : list (list Z);
  task_flow : Flow }.

Section Iteration.
Context (es ed : list Z) (tm : Times).

Definition opt_outbound (c : Connection) (o : option (list Z)) : list OutboundMsg :=
  match o with Some raw => [outbound c es ed raw] | None => [] end.

(** [if conn.tick_time_wait(..) { break } if conn.tcb.state == Closed { break }] *)
Definition loop_bottom (c : Connection) (closing : bool) (msgs : list OutboundMsg)
    (app : list (list Z)) : TaskOut :=
  let '(c, expired) := tick_time_wait c (t_tick tm) in
  mkTaskOut (mkTaskState c closing) msgs app
    (if expired then Break else if state_eqb (st c) Closed then Break else Continue).

Definition flush (c : Connection) : Result (Connection * list OutboundMsg) :=
  unwrap (flush_send_buf FLUSH_FUEL c (t_push tm) es ed).

Definition on_inbound (c : Connection) (closing : bool) (msg : InboundMsg) : Result TaskOut :=
  let seg := TcpSegmentOwned_as_seg (in_seg msg) in
  '(c, out) ← match process_segment c (t_clock tm) seg with
             | Ok (c, Some tcp_bytes) => Ok (c, [outbound c es ed tcp_bytes])
             | Ok (c, None) => Ok (c, [])
             | Err _ => Ok (c, [])
             | Panic => Panic
             end;
  let '(c, app) := forward_received_data c in
  '(c, flushed) ← flush c;
  Ok (loop_bottom c closing (out ++ flushed) app).

Definition task_step (s : TaskState) (p : Poll) : Result TaskOut :=
  let c := conn s in
  match select_biased p (close_initiated s) with
  | None => Ok (mkTaskOut s [] [] Continue)
  | Some (BrInbound None) => Ok (mkTaskOut s [] [] Break)
  | Some (BrInbound (Some msg)) => on_inbound c (close_initiated s) msg
  | Some BrRetransmit =>
      '(c, raws) ← take_retransmits c (t_retransmit tm);
      Ok (loop_bottom c (close_initiated s) (map (outbound c es ed) raws) [])
  | Some BrZeroWindow =>
      let '(c, r) := zero_window_probe c in
      Ok (loop_bottom c (close_initiated s) (opt_outbound c r) [])
  | Some (BrAppSend data) =>
      let '(c, _) := write_data c data in
      '(c, flushed) ← flush c;
      Ok (loop_bottom c (close_initiated s) flushed [])
  | Some BrClose =>
      let '(c, r) := initiate_close c in
      Ok (loop_bottom c true (opt_outbound c r) [])
  end.
End Iteration.

(** ** [flush_send_buf] terminates *)
(** Bytes buffered and not yet sent. *)
Definition unsent (c : Connection) : Z := s_len (send_buf c) - s_inflight (send_buf c).

Lemma next_segment_progress c now c' raw :
  conn_inv c -> instant_ok now -> next_segment_to_send c MSS now = (c', Some raw) ->
  conn_inv c' /\ same_ends c c' /\ 0 <= unsent c' < unsent c.
Proof.
  intros HI Hn E. pose proof (next_segment_to_send_ok c MSS now HI ltac:(unfold MSS; lia) Hn) as Hok.
  rewrite E in Hok. destruct Hok as (HI' & Hs & _). split; [done |]. split; [done |].
  destruct (next_segment_to_send_spec c MSS now HI ltac:(unfold MSS; lia))
    as [E0 | (pl & c1 & E0 & -> & Hb & Hl & Hw & Hns)]; rewrite E0 in E; [discriminate |].
  injection E as <- _. pose proof (ci_send _ HI) as Hsw.
  assert (Hin : s_inflight (send_buf c) + len pl <= s_len (send_buf c)).
  { pose proof (as_u32_range (nxt c - una c)) as Hr. unfold is_u32 in Hr.
    eapply next_segment_bound; [exact Hsw | | exact Hns | exact (ci_bytes _ HI)].
    unfold wrapping_sub in *. unfold MSS in *. lia. }
  unfold unsent. cbn [send_buf set_snd_nxt set_retransmit_queue set_send_buf with_tcb
    SendBuffer_advance_nxt s_len].
  assert (Hf : s_inflight (SendBuffer_advance_nxt (send_buf c) (len pl)) = s_inflight (send_buf c) + len pl).
  { pose proof (sw_len _ Hsw). pose proof (sw_una _ Hsw). pose proof (sw_nxt _ Hsw).
    revert Hin. unfold s_inflight. cbn [SendBuffer_advance_nxt s_nxt s_una].
    unfold MSS, SEND_BUF_SIZE in *. word_lia. }
  rewrite Hf. lia.
Qed.

(** The events of a flush that sends [n] segments. *)
Definition flush_events (now : nat -> Z) (n : nat) : list Event :=
  map (fun k => EvSend MSS (now k)) (seq 0 (S n)).

Lemma flush_events_S now n :
  flush_events now (S n) = EvSend MSS (now O) :: flush_events (fun k => now (S k)) n.
Proof. unfold flush_events. cbn [seq map]. by rewrite <- seq_shift, map_map. Qed.

Section Flush.
Context (es ed : list Z).

Lemma flush_terminates fuel : forall c now,
  conn_inv c -> (forall k, instant_ok (now k)) -> Z.max 0 (unsent c) < Z.of_nat fuel ->
  exists c' msgs n, flush_send_buf fuel c now es ed = Some (c', msgs) /\
    conn_run c (flush_events now n) = Ok (c', map om_tcp_bytes msgs) /\
    Forall (fun m => exists raw, m = outbound c es ed raw) msgs /\
    (exists t, next_segment_to_send c' MSS t = (c', None)) /\ recv_buf c' = recv_buf c.
Proof using.
  induction fuel as [|f IH]; intros c now HI Hn Hf; [lia |]. cbn [flush_send_buf].
  destruct (next_segment_to_send c MSS (now O)) as [c1 [raw|]] eqn:E.
  - destruct (next_segment_progress c (now O) c1 raw HI (Hn O) E) as (HI1 & Hs & Hu).
    destruct (IH c1 (fun k => now (S k)) HI1 (fun k => Hn (S k)) ltac:(lia))
      as (c' & msgs & n & -> & Er & Hm & Hd & Hrb).
    exists c', (outbound c1 es ed raw :: msgs), (S n). split; [done |].
    assert (Hout : forall r, outbound c1 es ed r = outbound c es ed r)
      by (intros r; unfold outbound; by destruct Hs as (-> & -> & _)).
    assert (Hrb1 : recv_buf c1 = recv_buf c).
    { destruct (next_segment_to_send_spec c MSS (now O) HI ltac:(unfold MSS; lia))
        as [E0 | (pl & c2 & E0 & -> & _)]; rewrite E0 in E; [discriminate |].
      by injection E as <- _. }
    split; [|split; [|split; [exact Hd | by rewrite Hrb]]].
    + rewrite flush_events_S. cbn [conn_run conn_step]. rewrite E. cbn [mbind Res_bind opt_list].
      rewrite Er. reflexivity.
    + apply Forall_cons. split; [by exists raw; rewrite Hout |].
      eapply Forall_impl; [exact Hm |]. intros m [r ->]. exists r. apply Hout.
  - assert (c1 = c) as ->.
    { destruct (next_segment_to_send_spec c MSS (now O) HI ltac:(unfold MSS; lia))
        as [E0 | (pl & c2 & E0 & _)]; rewrite E0 in E; [by injection E as -> | discriminate]. }
    exists c, [], O. split; [done |]. split; [|split; [apply Forall_nil_2 | split; [by exists (now O) | done]]].
    unfold flush_events. cbn [seq map conn_run conn_step]. rewrite E. reflexivity.
Qed.

Lemma flush_enough_fuel c : conn_inv c -> Z.max 0 (unsent c) < Z.of_nat FLUSH_FUEL.
Proof using.
  intros HI. pose proof (sw_len _ (ci_send _ HI)). pose proof (as_u32_range (s_nxt (send_buf c) - s_una (send_buf c))).
  unfold FLUSH_FUEL, unsent, s_inflight, wrapping_sub, is_u32, SEND_BUF_SIZE in *.
  rewrite Z2Nat.id by lia. lia.
Qed.
End Flush.

(** More fuel than enough changes nothing, and every segment carries a byte at least. *)
Lemma flush_more_fuel es ed fuel : forall c now r k,
  flush_send_buf fuel c now es ed = Some r -> flush_send_buf (fuel + k) c now es ed = Some r.
Proof.
  induction fuel as [|f IH]; intros c now r k; cbn [flush_send_buf Nat.add]; [done |].
  destruct (next_segment_to_send c MSS (now O)) as [c1 [raw|]]; [|done].
  destruct (flush_send_buf f c1 _ es ed) as [[c' msgs]|] eqn:E; [|done].
  by rewrite (IH _ _ _ k E).
Qed.

Lemma flush_sends_bytes es ed fuel : forall c now c' msgs,
  conn_inv c -> (forall k, instant_ok (now k)) -> flush_send_buf fuel c now es ed = Some (c', msgs) ->
  len msgs <= Z.max 0 (unsent c) /\ conn_inv c'.
Proof.
  induction fuel as [|f IH]; intros c now c' msgs HI Hn; cbn [flush_send_buf]; [done |].
  destruct (next_segment_to_send c MSS (now O)) as [c1 [raw|]] eqn:E.
  - destruct (next_segment_progress c (now O) c1 raw HI (Hn O) E) as (HI1 & _ & Hu).
    destruct (flush_send_buf f c1 _ es ed) as [[c2 ms]|] eqn:Ef; [|done]. intros [= <- <-].
    destruct (IH _ _ _ _ HI1 (fun k => Hn (S k)) Ef) as [Hl HI2]. rewrite len_cons. split; [lia | done].
  - intros [= <- <-]. pose proof (next_segment_to_send_ok c MSS (now O) HI ltac:(unfold MSS; lia) (Hn O)) as Hok.
    rewrite E in Hok. split; [change (len []) with 0; lia | apply Hok].
Qed.

(** With nothing to send the loop ends at once. *)
Lemma flush_nothing es ed tm c :
  next_segment_to_send c MSS (t_push tm O) = (c, None) -> flush es ed tm c = Ok (c, []).
Proof.
  intros E. unfold flush. destruct FLUSH_FUEL as [|f] eqn:Ef; [|cbn [flush_send_buf]; by rewrite E].
  apply (f_equal Z.of_nat) in Ef. unfold FLUSH_FUEL, SEND_BUF_SIZE in Ef. by rewrite Z2Nat.id in Ef.
Qed.

(** C23. The loop of [flush_send_buf] ends: whatever the connection and the clocks, it
    stops after at most as many rounds as there are unsent bytes (65536 at most), with
    nothing left that both windows allow to send; the result is the same for every
    bound on the rounds from [FLUSH_FUEL] on. *)
Theorem flush_send_buf_terminates c now es ed :
  conn_inv c -> (forall k, instant_ok (now k)) ->
  exists c' msgs, (forall fuel, (FLUSH_FUEL <= fuel)%nat -> flush_send_buf fuel c now es ed = Some (c', msgs)) /\
    len msgs <= Z.max 0 (unsent c) <= SEND_BUF_SIZE /\ conn_inv c' /\
    exists t, next_segment_to_send c' MSS t = (c', None).
Proof.
  intros HI Hn. pose proof (flush_enough_fuel c HI) as Hf.
  destruct (flush_terminates es ed FLUSH_FUEL c now HI Hn Hf) as (c' & msgs & n & E & _ & _ & Hd & _).
  destruct (flush_sends_bytes es ed _ _ _ _ _ HI Hn E) as [Hl HI'].
  exists c', msgs. split; [|split_and!; try done].
  - intros fuel Hfuel. replace fuel with (FLUSH_FUEL + (fuel - FLUSH_FUEL))%nat by lia.
    by apply flush_more_fuel.
  - unfold FLUSH_FUEL, SEND_BUF_SIZE in *. rewrite Z2Nat.id in Hf; lia.
Qed.

(** ** [forward_received_data] *)
Lemma forward_spec c :
  conn_inv c ->
  let app := match recv_buf c with Some rb => r_contents rb | None => [] end in
  exists c', forward_received_data c = (c', match app with [] => [] | _ => [app] end) /\
    conn_run c (match app with [] => [] | _ => [EvRead (zeroed (len app))] end) = Ok (c', []) /\
    received_available c' = 0.
Proof.
  intros HI. cbv zeta. pose proof (ci_recv _ HI) as Hr.
  unfold forward_received_data, received_available, read_received.
  cbn [conn_run conn_step]. unfold read_received.
  destruct (recv_buf c) as [rb|] eqn:Erb; [|exists c; by rewrite Erb].
  pose proof (len_r_contents rb Hr) as Hl. unfold RecvBuffer_available.
  pose proof (r_contents_read rb (zeroed (r_len rb)) Hr) as Hrd.
  assert (Hlr : forall rb' out n, RecvBuffer_read rb (zeroed (r_len rb)) = (rb', out, n) ->
    r_len rb' = r_len rb - n) by (intros ? ? ? [= <- _ <-]; done).
  destruct (r_contents rb) as [|b l] eqn:Ec.
  - change (len []) with 0 in Hl. rewrite <- Hl. cbn [Z.ltb Z.compare]. exists c.
    split; [done |]. split; [done |]. rewrite Erb. lia.
  - set (app := b :: l) in *. assert (0 < len app) by (unfold app; rewrite len_cons; pose proof (len_nonneg l); lia).
    assert (Hz : len (zeroed (r_len rb)) = r_len rb) by (apply len_zeroed; lia).
    cbn [conn_run conn_step]. unfold read_received. rewrite Erb, Hl.
    replace (0 <? r_len rb) with true by lia.
    destruct (RecvBuffer_read rb (zeroed (r_len rb))) as [[rb' out] n].
    destruct Hrd as (Hn & Hout & _). pose proof (Hlr _ _ _ eq_refl) as Hl'.
    rewrite Hz, Z.min_id in Hn. subst n. replace (0 <? r_len rb) with true by lia.
    eexists. split; [|split; [reflexivity |]].
    + do 2 f_equal. rewrite Hout.
      assert (Hlen : length app = Z.to_nat (r_len rb)) by (unfold len in Hl; lia).
      rewrite (take_ge app) by lia. rewrite take_app_le by lia. by apply take_ge; lia.
    + cbn [fst recv_buf set_recv_buf]. lia.
Qed.

(** ** Iterations are runs of the connection *)
Lemma conn_run_app e1 e2 c c1 o1 c2 o2 :
  conn_run c e1 = Ok (c1, o1) -> conn_run c1 e2 = Ok (c2, o2) ->
  conn_run c (e1 ++ e2) = Ok (c2, o1 ++ o2).
Proof.
  revert c o1. induction e1 as [|ev e1 IH]; intros c o1 E1 E2; cbn [conn_run app] in *.
  - by injection E1 as <- <-.
  - destruct (conn_step c ev) as [[c' out]| |]; try done. cbn [mbind Res_bind] in *.
    destruct (conn_run c' e1) as [[c'' outs]| |] eqn:E; try done. cbn [mbind Res_bind] in *.
    injection E1 as <- <-. rewrite (IH c' outs E E2). cbn [mbind Res_bind]. by rewrite app_assoc.
Qed.

(** The environment of an iteration: clock readings an [Instant] can have, a parsed
    segment in the inbox, bytes from the application. *)
Record times_ok (tm : Times) : Prop := {
  to_clock : clock_ok (t_clock tm);
  to_push : forall k, instant_ok (t_push tm k);
  to_retransmit : instant_ok (t_retransmit tm) }.

Definition poll_ok (p : Poll) : Prop :=
  (forall msg, p_inbound p = Some (Some msg) -> seg_ok (TcpSegmentOwned_as_seg (in_seg msg))) /\
  (forall data, p_app_send p = Some (Some data) -> bytes_ok data).

Lemma flush_events_ok now n : (forall k, instant_ok (now k)) -> Forall event_ok (flush_events now n).
Proof.
  intros Hn. unfold flush_events. apply Forall_map, Forall_forall. intros k _.
  split; [unfold MSS; lia | apply Hn].
Qed.

Lemma concat_nonempty (l : list Z) : concat (match l with [] => [] | _ => [l] end) = l.
Proof. destruct l; [done |]. cbn [concat]. by rewrite app_nil_r. Qed.

(** The segments that a list of events processes, and the one a poll delivers. *)
Definition event_segments (evs : list Event) : list TcpSegment :=
  omap (fun ev => match ev with EvSegment _ seg => Some seg | _ => None end) evs.

Definition inbound_segments (p : Poll) : list TcpSegment :=
  match p_inbound p with Some (Some msg) => [TcpSegmentOwned_as_seg (in_seg msg)] | _ => [] end.

(** The application's events are the ones it asked for; a task never opens. *)
Definition asked (p : Poll) (ev : Event) : Prop :=
  match ev with
  | EvConnect => False
  | EvClose => p_close p = true
  | EvWrite data => p_app_send p = Some (Some data)
  | _ => True
  end.

Lemma event_segments_app e1 e2 : event_segments (e1 ++ e2) = event_segments e1 ++ event_segments e2.
Proof. apply omap_app. Qed.

Lemma event_segments_flush now n : event_segments (flush_events now n) = [].
Proof. unfold flush_events. generalize (seq 0 (S n)). intros l. by induction l. Qed.

Lemma asked_flush p now n : Forall (asked p) (flush_events now n).
Proof. unfold flush_events. by apply Forall_map, Forall_true. Qed.

Section Steps.
Context (es ed : list Z) (tm : Times) (Htm : times_ok tm) (p : Poll).

(** What an iteration that touches the connection amounts to: a run of events that
    processes the segments [segs] and sends what the task sends. *)
Definition implements (c : Connection) (segs : list TcpSegment) (o : TaskOut) : Prop :=
  exists evs, Forall event_ok evs /\ Forall (asked p) evs /\ event_segments evs = segs /\
    conn_run c evs = Ok (conn (task_state o), map om_tcp_bytes (sent_msgs o)) /\
    Forall (fun m => exists raw, m = outbound c es ed raw) (sent_msgs o) /\
    (task_flow o = Break <-> st (conn (task_state o)) = Closed).

Lemma implements_bottom c c1 closing evs msgs app :
  Forall event_ok evs -> Forall (asked p) evs -> conn_run c evs = Ok (c1, map om_tcp_bytes msgs) ->
  Forall (fun m => exists raw, m = outbound c es ed raw) msgs ->
  implements c (event_segments evs) (loop_bottom tm c1 closing msgs app).
Proof using.
  intros Hev Hask Er Hm. exists (evs ++ [EvTick (t_tick tm)]).
  split; [apply Forall_app; split; [done | by apply Forall_singleton] |].
  split; [apply Forall_app; split; [done | by apply Forall_singleton] |].
  split; [by rewrite event_segments_app, app_nil_r |].
  assert (Et : conn_run c1 [EvTick (t_tick tm)] = Ok (fst (tick_time_wait c1 (t_tick tm)), [])) by done.
  pose proof (conn_run_app _ _ _ _ _ _ _ Er Et) as E. rewrite app_nil_r in E.
  unfold loop_bottom, tick_time_wait in *.
  destruct (state_eqb (st c1) TimeWait) eqn:Hs; cbn [negb] in *.
  - apply state_eqb_true in Hs. destruct (time_wait_start c1) as [t0|].
    + destruct (TWO_MSL <=? _); cbn [fst conn task_state sent_msgs task_flow] in *;
        (split; [exact E |]); (split; [exact Hm |]); [done |]. by rewrite Hs.
    + cbn [fst conn task_state sent_msgs task_flow] in *.
      split; [exact E |]. split; [exact Hm |]. by rewrite Hs.
  - cbn [fst conn task_state sent_msgs task_flow] in *.
    split; [exact E |]. split; [exact Hm |].
    destruct (state_eqb (st c1) Closed) eqn:Hc; [by apply state_eqb_true in Hc |].
    split; [done |]. intros Hcl. by apply state_eqb_true in Hcl; rewrite Hcl in Hc.
Qed.

Lemma outbound_ends c c1 : same_ends c c1 -> forall raw, outbound c1 es ed raw = outbound c es ed raw.
Proof using. intros (E1 & E2 & _) raw. unfold outbound. by rewrite E1, E2. Qed.

Lemma outbound_forall c c1 msgs :
  same_ends c c1 -> Forall (fun m => exists raw, m = outbound c1 es ed raw) msgs ->
  Forall (fun m => exists raw, m = outbound c es ed raw) msgs.
Proof using.
  intros Hs Hm. eapply Forall_impl; [exact Hm |]. intros m [raw ->].
  exists raw. by apply outbound_ends.
Qed.

Lemma opt_outbound_spec c r :
  map om_tcp_bytes (opt_outbound es ed c r) = opt_list r /\
  Forall (fun m => exists raw, m = outbound c es ed raw) (opt_outbound es ed c r).
Proof using.
  destruct r as [raw|]; (split; [reflexivity |]); [|apply Forall_nil_2].
  apply Forall_singleton. by exists raw.
Qed.

(** A connection, then a flush. *)
Lemma flush_run c evs c1 out app closing :
  conn_inv c -> Forall event_ok evs -> Forall (asked p) evs ->
  conn_run c evs = Ok (c1, map om_tcp_bytes out) ->
  Forall (fun m => exists raw, m = outbound c es ed raw) out ->
  exists c2 flushed, flush es ed tm c1 = Ok (c2, flushed) /\
    implements c (event_segments evs) (loop_bottom tm c2 closing (out ++ flushed) app) /\
    (exists t, next_segment_to_send c2 MSS t = (c2, None)) /\ recv_buf c2 = recv_buf c1.
Proof using Htm.
  intros HI Hev Hask Er Hm. pose proof (conn_run_ok evs c HI Hev) as Hok. rewrite Er in Hok.
  destruct Hok as (HI1 & Hs & _).
  destruct (flush_terminates es ed FLUSH_FUEL c1 (t_push tm) HI1 (to_push _ Htm)
    (flush_enough_fuel c1 HI1)) as (c2 & flushed & n & Ef & Er2 & Hm2 & Hd & Hrb).
  exists c2, flushed. unfold flush. rewrite Ef. split; [done |]. split; [|done].
  replace (event_segments evs) with (event_segments (evs ++ flush_events (t_push tm) n))
    by (by rewrite event_segments_app, event_segments_flush, app_nil_r).
  apply (implements_bottom c c2 closing (evs ++ flush_events (t_push tm) n)).
  - apply Forall_app. split; [done | apply flush_events_ok, (to_push _ Htm)].
  - apply Forall_app. split; [done | apply asked_flush].
  - rewrite map_app. by apply (conn_run_app _ _ _ c1).
  - apply Forall_app. split; [done | by apply (outbound_forall c c1)].
Qed.

Lemma on_inbound_spec s msg :
  conn_inv (conn s) -> seg_ok (TcpSegmentOwned_as_seg (in_seg msg)) ->
  exists c1 r o, process_segment (conn s) (t_clock tm) (TcpSegmentOwned_as_seg (in_seg msg)) = Ok (c1, r) /\
    on_inbound es ed tm (conn s) (close_initiated s) msg = Ok o /\
    implements (conn s) [TcpSegmentOwned_as_seg (in_seg msg)] o /\
    concat (app_msgs o) = (match recv_buf c1 with Some rb => r_contents rb | None => [] end) /\
    received_available (conn (task_state o)) = 0 /\
    exists c2 t, next_segment_to_send c2 MSS t = (c2, None) /\
      conn (task_state o) = fst (tick_time_wait c2 (t_tick tm)).
Proof using Htm.
  intros HI Hseg. set (seg := TcpSegmentOwned_as_seg (in_seg msg)) in *.
  pose proof (process_segment_ok (conn s) (t_clock tm) seg HI (to_clock _ Htm) Hseg) as Hok.
  unfold on_inbound. fold seg.
  destruct (process_segment (conn s) (t_clock tm) seg) as [[c1 r]| |] eqn:Ep; try done.
  destruct Hok as (HI1 & Hs & _).
  set (out := opt_outbound es ed c1 r).
  assert (Eo : match r with Some b => Ok (c1, [outbound c1 es ed b]) | None => Ok (c1, []) end
               = Ok (E:=MagnumError) (c1, out)) by by destruct r.
  destruct (opt_outbound_spec c1 r) as [Hraw Hmsg]. fold out in Hraw, Hmsg.
  destruct (forward_spec c1 HI1) as (c2 & Ef & Er & Hav). cbv zeta in Ef, Er.
  set (app := match recv_buf c1 with Some rb => r_contents rb | None => [] end) in *.
  set (evs := EvSegment (t_clock tm) seg :: match app with [] => [] | _ => [EvRead (zeroed (len app))] end).
  assert (Hev : Forall event_ok evs).
  { apply Forall_cons. split; [split; [exact (to_clock _ Htm) | exact Hseg] |].
    destruct app; [apply Forall_nil_2 | by apply Forall_singleton]. }
  assert (Hask : Forall (asked p) evs).
  { apply Forall_cons. split; [done |]. destruct app; [apply Forall_nil_2 | by apply Forall_singleton]. }
  assert (Hsegs : event_segments evs = [seg]) by (unfold evs; by destruct app).
  assert (Erun : conn_run (conn s) evs = Ok (c2, map om_tcp_bytes out)).
  { unfold evs. cbn [conn_run conn_step]. rewrite Ep. cbn [mbind Res_bind]. rewrite Er.
    cbn [mbind Res_bind]. by rewrite app_nil_r, Hraw. }
  destruct (flush_run (conn s) evs c2 out
    (match app with [] => [] | _ => [app] end) (close_initiated s) HI Hev Hask Erun
    ltac:(by apply (outbound_forall _ c1))) as (c3 & flushed & Efl & Himp & (t & Hd) & Hrb).
  rewrite Hsegs in Himp. exists c1, r. eexists. split; [done |].
  split.
  { transitivity (Ok (E:=MagnumError) (loop_bottom tm c3 (close_initiated s) (out ++ flushed)
      (match app with [] => [] | _ => [app] end))); [|reflexivity].
    replace (match r with Some b => Ok (c1, [outbound c1 es ed b]) | None => Ok (c1, []) end)
      with (Ok (E:=MagnumError) (c1, out)).
    cbn [mbind Res_bind]. rewrite Ef, Efl. reflexivity. }
  split; [exact Himp |].
  unfold loop_bottom. destruct (tick_time_wait c3 (t_tick tm)) as [c4 ex] eqn:Et.
  cbn [app_msgs task_state conn]. split; [exact (concat_nonempty app) |].
  split; [|exists c3, t; by rewrite Et].
  assert (recv_buf c4 = recv_buf c3) as Hrb4.
  { unfold tick_time_wait in Et. repeat case_match; by injection Et as <- <-. }
  unfold received_available in *. by rewrite Hrb4, Hrb.
Qed.
End Steps.

(** The outcome [r] of an iteration is a run of the connection's events that
    processes the polled segment and nothing else, does what the application asked
    for and nothing else, and whose segments are the messages sent; the loop ends on
    a closed inbox or in CLOSED. *)
Definition refines (es ed : list Z) (s : TaskState) (p : Poll) (r : Result TaskOut) : Prop :=
  exists o evs, r = Ok o /\ Forall event_ok evs /\ Forall (asked p) evs /\
    event_segments evs = inbound_segments p /\
    conn_run (conn s) evs = Ok (conn (task_state o), map om_tcp_bytes (sent_msgs o)) /\
    Forall (fun m => exists raw, m = outbound (conn s) es ed raw) (sent_msgs o) /\
    (task_flow o = Break <-> p_inbound p = Some None \/ st (conn (task_state o)) = Closed).

Section Branches.
Context (es ed : list Z) (tm : Times) (Htm : times_ok tm) (s : TaskState) (p : Poll).
Context (HI : conn_inv (conn s)) (Hst : st (conn s) <> Closed).

Lemma refines_implements segs o :
  implements es ed p (conn s) segs o -> inbound_segments p = segs -> p_inbound p <> Some None ->
  refines es ed s p (Ok o).
Proof using.
  intros (evs & H1 & H2 & H3 & H4 & H5 & H6) Hs Hp. exists o, evs.
  split; [done |]. split; [done |]. split; [done |]. split; [congruence |].
  split; [done |]. split; [done |]. tauto.
Qed.

Lemma refines_idle fl :
  inbound_segments p = [] -> (fl = Break <-> p_inbound p = Some None) ->
  refines es ed s p (Ok (mkTaskOut s [] [] fl)).
Proof using Hst.
  intros Hs Hfl. eexists _, []. split; [reflexivity |]. split; [apply Forall_nil_2 |].
  split; [apply Forall_nil_2 |]. split; [done |].
  split; [done |]. split; [apply Forall_nil_2 |]. cbn [task_flow task_state]. tauto.
Qed.

(** A branch that is one event of the connection. *)
Lemma refines_event ev c1 raws msgs closing app :
  p_inbound p = None -> event_ok ev -> asked p ev -> event_segments [ev] = [] ->
  conn_step (conn s) ev = Ok (c1, raws) ->
  map om_tcp_bytes msgs = raws ->
  (Forall (fun m => exists raw, m = outbound c1 es ed raw) msgs) ->
  refines es ed s p (Ok (loop_bottom tm c1 closing msgs app)).
Proof using HI.
  intros Hp Hev Hask Hseg E Hr Hm.
  apply (refines_implements (event_segments [ev])); [| unfold inbound_segments; by rewrite Hp, Hseg | by rewrite Hp].
  pose proof (conn_step_ok (conn s) ev HI Hev) as Hok. rewrite E in Hok. destruct Hok as (_ & Hs & _).
  apply (implements_bottom es ed tm p _ _ _ [ev]); [by apply Forall_singleton | by apply Forall_singleton | |].
  - cbn [conn_run]. rewrite E. cbn [mbind Res_bind]. by rewrite app_nil_r, Hr.
  - by apply (outbound_forall es ed _ c1).
Qed.

Lemma branch_retransmit :
  p_inbound p = None ->
  refines es ed s p ('(c, raws) ← take_retransmits (conn s) (t_retransmit tm);
    Ok (loop_bottom tm c (close_initiated s) (map (outbound c es ed) raws) [])).
Proof using HI Htm.
  intros Hp. pose proof (take_retransmits_ok (conn s) _ HI (to_retransmit _ Htm)) as Hok.
  destruct (take_retransmits (conn s) (t_retransmit tm)) as [[c1 raws]| |] eqn:E; try done.
  cbn [mbind Res_bind].
  apply (refines_event (EvRetransmit (t_retransmit tm)) c1 raws);
    [done | apply Htm | done | done | exact E | |].
  - by rewrite map_map, map_id.
  - apply Forall_map, Forall_true. intros raw. by exists raw.
Qed.

Lemma branch_probe :
  p_inbound p = None ->
  refines es ed s p (let '(c, r) := zero_window_probe (conn s) in
    Ok (loop_bottom tm c (close_initiated s) (opt_outbound es ed c r) [])).
Proof using HI.
  intros Hp. destruct (zero_window_probe (conn s)) as [c1 r] eqn:E.
  destruct (opt_outbound_spec es ed c1 r) as [Hr Hm].
  apply (refines_event EvProbe c1 (opt_list r)); try done. cbn [conn_step]. by rewrite E.
Qed.

Lemma branch_close :
  p_inbound p = None -> p_close p = true ->
  refines es ed s p (let '(c, r) := initiate_close (conn s) in
    Ok (loop_bottom tm c true (opt_outbound es ed c r) [])).
Proof using HI.
  intros Hp Hcl. destruct (initiate_close (conn s)) as [c1 r] eqn:E.
  destruct (opt_outbound_spec es ed c1 r) as [Hr Hm].
  apply (refines_event EvClose c1 (opt_list r)); try done. cbn [conn_step]. by rewrite E.
Qed.

Lemma branch_app_send data :
  p_inbound p = None -> p_app_send p = Some (Some data) -> bytes_ok data ->
  refines es ed s p (let '(c, _) := write_data (conn s) data in
    '(c, flushed) ← flush es ed tm c;
    Ok (loop_bottom tm c (close_initiated s) flushed [])).
Proof using HI Htm.
  intros Hp Ha Hd.
  assert (Ew : conn_run (conn s) [EvWrite data] = Ok (fst (write_data (conn s) data), [])) by done.
  destruct (flush_run es ed tm Htm p (conn s) [EvWrite data] _ [] [] (close_initiated s) HI
    ltac:(by apply Forall_singleton) ltac:(by apply Forall_singleton) Ew ltac:(apply Forall_nil_2)) as (c2 & flushed & Efl & Ho & _).
  destruct (write_data (conn s) data) as [c1 n]. cbn [fst] in Efl. rewrite Efl.
  cbn [mbind Res_bind].
  apply (refines_implements []); [exact Ho | unfold inbound_segments; by rewrite Hp | by rewrite Hp].
Qed.
End Branches.

(** What the application is given is bytes, and only the application closes. *)
Lemma bytes_concat (ls : list (list Z)) : bytes_ok (concat ls) -> Forall bytes_ok ls.
Proof.
  induction ls as [|l ls IH]; [constructor |]. cbn [concat]. intros [H1 H2]%bytes_ok_app_inv.
  constructor; auto.
Qed.

Lemma task_step_app es ed tm s p o :
  times_ok tm -> poll_ok p -> conn_inv (conn s) -> task_step es ed tm s p = Ok o ->
  Forall bytes_ok (app_msgs o) /\
  (p_close p = false -> close_initiated (task_state o) = close_initiated s).
Proof.
  intros Htm [Hin _] HI. unfold task_step, select_biased.
  assert (Hloop : forall c cl msgs, Forall bytes_ok (app_msgs (loop_bottom tm c cl msgs [])) /\
    close_initiated (task_state (loop_bottom tm c cl msgs [])) = cl).
  { intros c cl msgs. unfold loop_bottom. destruct (tick_time_wait c (t_tick tm)). by split; [constructor |]. }
  destruct (p_inbound p) as [[msg|]|] eqn:Ep.
  - destruct (on_inbound_spec es ed tm Htm p s msg HI (Hin msg eq_refl))
      as (c1 & r & o1 & E1 & Eo & _ & Happ & _).
    intros Eo'. rewrite Eo in Eo'. injection Eo' as <-. split.
    + apply bytes_concat. rewrite Happ.
      pose proof (process_segment_ok (conn s) (t_clock tm) _ HI (to_clock _ Htm) (Hin msg eq_refl)) as Hok.
      rewrite E1 in Hok. destruct Hok as [HI1 _]. pose proof (ci_rbytes _ HI1).
      destruct (recv_buf c1); [by apply r_contents_bytes | constructor].
    + intros _. revert Eo. unfold on_inbound. destruct (match process_segment _ _ _ with Ok _ => _ | _ => _ end)
        as [[c2 out]| |]; cbn [mbind Res_bind]; try discriminate.
      destruct (forward_received_data c2) as [c3 app].
      destruct (flush es ed tm c3) as [[c4 fl]| |]; cbn [mbind Res_bind]; try discriminate.
      intros [= <-]. unfold loop_bottom. by destruct (tick_time_wait c4 (t_tick tm)).
  - intros [= <-]. by split; [constructor |].
  - destruct (p_retransmit_tick p).
    { destruct (take_retransmits _ _) as [[c raws]| |]; cbn [mbind Res_bind]; try discriminate.
      intros [= <-]. by split; [|intros _]; apply Hloop. }
    destruct (p_zwp_tick p).
    { destruct (zero_window_probe _) as [c r]. intros [= <-]. by split; [|intros _]; apply Hloop. }
    destruct (p_app_send p) as [[data|]|];
      [destruct (write_data _ _) as [c n]; destruct (flush es ed tm c) as [[c' fl]| |];
         cbn [mbind Res_bind]; try discriminate; intros [= <-]; by split; [|intros _]; apply Hloop | |];
      (destruct (p_close p); cbn [andb];
        [destruct (negb (close_initiated s)); [destruct (initiate_close _) as [c r] |];
           intros [= <-]; (split; [first [apply Hloop | constructor] | discriminate])
        | intros [= <-]; by split; [constructor |]]).
Qed.

(** Every branch of the [select!]. *)
Lemma task_step_run es ed tm s p :
  times_ok tm -> poll_ok p -> conn_inv (conn s) -> st (conn s) <> Closed ->
  refines es ed s p (task_step es ed tm s p).
Proof.
  intros Htm [Hin Hdata] HI Hst. unfold task_step, select_biased.
  destruct (p_inbound p) as [[msg|]|] eqn:Ep.
  { destruct (on_inbound_spec es ed tm Htm p s msg HI (Hin msg eq_refl))
      as (c1 & r & o & _ & -> & Ho & _).
    eapply refines_implements; [exact Ho | unfold inbound_segments; by rewrite Ep | by rewrite Ep]. }
  { apply refines_idle; [done | unfold inbound_segments; by rewrite Ep | by rewrite Ep]. }
  assert (Hidle : inbound_segments p = []) by (unfold inbound_segments; by rewrite Ep).
  destruct (p_retransmit_tick p); [by apply branch_retransmit |].
  destruct (p_zwp_tick p); [by apply branch_probe |].
  destruct (p_app_send p) as [[data|]|] eqn:Ea; [by apply branch_app_send; [..| apply Hdata] | |];
    (destruct (p_close p && negb (close_initiated s))%bool eqn:Ecl; bool_prop;
      [by apply branch_close | by apply refines_idle; [| | rewrite Ep]]).
Qed.

(** C22. One iteration of the task, whatever branch of the biased [select!] fires,
    never fails, its flush terminates, and what it does to the connection is a run
    of the connection's events that processes the segment it took from the inbox
    and no other, writes and closes only as the application asked, and whose
    segments are, in order and with the connection's addresses, exactly the
    messages it sends. The loop ends exactly
    when the inbox is closed or the connection is CLOSED. *)
Theorem task_step_refines_connection es ed tm s p :
  times_ok tm -> poll_ok p -> conn_inv (conn s) -> st (conn s) <> Closed ->
  refines es ed s p (task_step es ed tm s p).
Proof. exact (task_step_run es ed tm s p). Qed.

(** A segment from the inbox is handled to the end before the next one: the
    task hands all the bytes that are in order to the application, byte for byte,
    leaves none in the receive buffer, and sends all the data that both windows
    allow (the next call of [next_segment_to_send] would return nothing). The
    inbox comes first: no timer or application branch fires while it is ready. *)
Theorem inbound_segment_drained es ed tm s p msg :
  times_ok tm -> conn_inv (conn s) -> p_inbound p = Some (Some msg) ->
  seg_ok (TcpSegmentOwned_as_seg (in_seg msg)) ->
  exists c1 r o, process_segment (conn s) (t_clock tm) (TcpSegmentOwned_as_seg (in_seg msg)) = Ok (c1, r) /\
    task_step es ed tm s p = Ok o /\
    concat (app_msgs o) = (match recv_buf c1 with Some rb => r_contents rb | None => [] end) /\
    received_available (conn (task_state o)) = 0 /\
    exists c2 t, next_segment_to_send c2 MSS t = (c2, None) /\
      conn (task_state o) = fst (tick_time_wait c2 (t_tick tm)).
Proof.
  intros Htm HI Hp Hseg. unfold task_step, select_biased. rewrite Hp.
  destruct (on_inbound_spec es ed tm Htm p s msg HI Hseg) as (c1 & r & o & E & Eo & _ & H).
  by exists c1, r, o.
Qed.

(** ** A concrete iteration *)
Definition demo_times : Times :=
  mkTimes (mkClock 1000000000 1000000000) (fun k => 1000000000 + Z.of_nat k mod 1000) 1000000000 1000000000.

Lemma demo_times_ok : times_ok demo_times.
Proof.
  split; [by vm_compute | | by vm_compute]. intros k. unfold instant_ok, demo_times, DURATION_MAX.
  cbn [t_push]. pose proof (Z.mod_pos_bound (Z.of_nat k) 1000 eq_refl).
  unfold U64, NANOS_PER_SEC. lia.
Qed.

Definition demo_msg : InboundMsg :=
  mkInboundMsg (TcpSegmentOwned_from (wire_segment (data_builder demo_c F_PSH_ACK 501 [104; 105]))).

(** The inbox, both timers and the application are all ready. *)
Definition demo_poll : Poll := mkPoll (Some (Some demo_msg)) true true (Some (Some [1; 2])) true.
Definition demo_task : TaskState := mkTaskState demo_s false.

Lemma demo_msg_ok : seg_ok (TcpSegmentOwned_as_seg (in_seg demo_msg)).
Proof. seg_ok_tac. Qed.

Lemma demo_poll_ok : poll_ok demo_poll.
Proof.
  split.
  - intros msg [= <-]. exact demo_msg_ok.
  - intros data [= <-]. bytes_tac.
Qed.

Lemma flush_send_buf_terminates_witness :
  exists c' msgs, (forall fuel, (FLUSH_FUEL <= fuel)%nat ->
      flush_send_buf fuel (fst (write_data demo_s [104; 105])) (t_push demo_times) [] [] = Some (c', msgs)) /\
    len msgs <= 2.
Proof.
  destruct (flush_send_buf_terminates (fst (write_data demo_s [104; 105])) (t_push demo_times) [] [])
    as (c' & msgs & E & Hl & _).
  - apply (write_data_ok demo_s [104; 105] (se_server _ _ demo_session)). bytes_tac.
  - exact (to_push _ demo_times_ok).
  - exists c', msgs. split; [exact E |].
    assert (Hu : unsent (fst (write_data demo_s [104; 105])) = 2) by (vm_compute; reflexivity).
    rewrite Hu in Hl. lia.
Defined.

Lemma task_step_refines_connection_witness :
  refines [1; 2; 3; 4; 5; 6] [6; 5; 4; 3; 2; 1] demo_task demo_poll
    (task_step [1; 2; 3; 4; 5; 6] [6; 5; 4; 3; 2; 1] demo_times demo_task demo_poll).
Proof.
  apply (task_step_refines_connection _ _ demo_times demo_task demo_poll demo_times_ok demo_poll_ok
    (se_server _ _ demo_session)). vm_compute. discriminate.
Defined.

Lemma inbound_segment_drained_witness :
  exists o, task_step [1; 2; 3; 4; 5; 6] [6; 5; 4; 3; 2; 1] demo_times demo_task demo_poll = Ok o /\
    concat (app_msgs o) = [104; 105] /\ received_available (conn (task_state o)) = 0.
Proof.
  destruct (inbound_segment_drained [1; 2; 3; 4; 5; 6] [6; 5; 4; 3; 2; 1] demo_times demo_task demo_poll
    demo_msg demo_times_ok (se_server _ _ demo_session) eq_refl demo_msg_ok)
    as (c1 & r & o & E & Eo & Ha & Hr & _).
  exists o. split; [exact Eo |]. split; [|exact Hr]. rewrite Ha.
  assert (Hc : match process_segment demo_s (t_clock demo_times) (TcpSegmentOwned_as_seg (in_seg demo_msg)) with
               | Ok (c, _) => match recv_buf c with Some rb => r_contents rb | None => [] end
               | _ => []
               end = [104; 105]) by (vm_compute; reflexivity).
  cbn [conn demo_task] in E. rewrite E in Hc. exact Hc.
Defined.
