(* ===== verification/Dispatch.v ===== *)
(** * Routing segments to connections (src/magnum-tcp/src/tcp/mod.rs, listener.rs)

    Two front ends over the same four-tuple keys. [Stack] owns its connections and
    processes a segment synchronously. [AsyncDispatch] owns the sending half of a
    bounded tokio channel per connection, whose task was spawned with the receiving
    half.

    tokio's bounded channel is the interface [Mpsc]: the state of one channel, what
    [try_send] does to it and what its documentation promises. A channel of the map
    is the state that the dispatcher and the task share. *)
From S2P Require Import Prelude Errors Tcb Ipv4 Header SendBuffer RecvBuffer Float64 Retransmit Connection Task.

(** ** Keys *)
Record FourTuple := mkFourTuple {
  ft_remote_ip : list Z;
  ft_remote_port : Z;
  ft_local_ip : list Z;
  ft_local_port : Z }.

#[global] Instance FourTuple_eq_dec : EqDecision FourTuple.
Proof. solve_decision. Defined.

#[global] Program Instance FourTuple_countable : Countable FourTuple :=
  inj_countable'
    (fun k => (ft_remote_ip k, ft_remote_port k, ft_local_ip k, ft_local_port k))
    (fun '(a, b, c, d) => mkFourTuple a b c d) _.
Next Obligation. by intros []. Qed.

Definition key_of (remote_ip local_ip : list Z) (seg : TcpSegment) : FourTuple :=
  {| ft_remote_ip := remote_ip; ft_remote_port := src_port (header seg);
     ft_local_ip := local_ip; ft_local_port := dst_port (header seg) |}.

(** [seg.header.flags.syn && !seg.header.flags.ack && self.listeners.contains_key(..)] *)
Definition opens {V} (listeners : gmap Z V) (seg : TcpSegment) : bool :=
  flag_syn (flags (header seg)) && negb (flag_ack (flags (header seg))) &&
  bool_decide (is_Some (listeners !! dst_port (header seg))).

(** ** Stack *)
Record Listener := mkListener { l_port : Z }.
Definition Listener_new (port : Z) : Listener := mkListener port.

Record OutboundPacket := mkOutboundPacket {
  op_src_ip : list Z;
  op_dst_ip : list Z;
  op_tcp_bytes : list Z }.

Record Stack := mkStack {
  listeners : gmap Z Listener;
  connections : gmap FourTuple Connection }.

Definition Stack_new : Stack := {| listeners := ∅; connections := ∅ |}.

Definition Stack_listen (s : Stack) (port : Z) : Stack :=
  {| listeners := <[port := Listener_new port]> (listeners s); connections := connections s |}.

Section Front.
Context `{DefaultHasher}.

(** [process_segment] on the connection of the key, which exists; an error is logged
    and dropped. *)
Definition process_on (s : Stack) (key : FourTuple) (c : Connection) (clk : Clock)
    (seg : TcpSegment) : Result (Stack * option OutboundPacket) :=
  let put c := {| listeners := listeners s; connections := <[key := c]> (connections s) |} in
  match process_segment c clk seg with
  | Ok (c, Some tcp_bytes) =>
      Ok (put c, Some {| op_src_ip := ft_local_ip key; op_dst_ip := ft_remote_ip key;
                         op_tcp_bytes := tcp_bytes |})
  | Ok (c, None) => Ok (put c, None)
  | Err _ => Ok (s, None)
  | Panic => Panic
  end.

Definition Stack_process (s : Stack) (remote_ip local_ip : list Z) (seg : TcpSegment)
    (nanos : Z) (clk : Clock) : Result (Stack * option OutboundPacket) :=
  let key := key_of remote_ip local_ip seg in
  match connections s !! key with
  | Some c => process_on s key c clk seg
  | None =>
      if opens (listeners s) seg then
        let tcb := new_for_listen local_ip (dst_port (header seg)) remote_ip
                     (src_port (header seg)) nanos in
        let c := Connection_new tcb in
        let s := {| listeners := listeners s; connections := <[key := c]> (connections s) |} in
        process_on s key c clk seg
      else Ok (s, None)
  end.
End Front.

(** ** Channels *)
Class Mpsc (M : Type) := {
  Chan : Type;
  mpsc_channel : Z -> Chan;                 (* of a capacity *)
  try_send : Chan -> M -> Chan * bool;      (* true: Ok(()) *)
  queued : Chan -> list M;
  capacity : Chan -> Z;
  receiver_alive : Chan -> bool;
  try_recv : Chan -> option (M * Chan);     (* the next message, if there is one *)
  drop_receiver : Chan -> Chan;
  channel_fresh : forall n, queued (mpsc_channel n) = [] /\ capacity (mpsc_channel n) = n /\
    receiver_alive (mpsc_channel n) = true;
  try_send_accepts : forall ch m, receiver_alive ch = true -> len (queued ch) < capacity ch ->
    snd (try_send ch m) = true /\ queued (fst (try_send ch m)) = queued ch ++ [m];
  try_send_refuses : forall ch m, receiver_alive ch = false \/ capacity ch <= len (queued ch) ->
    snd (try_send ch m) = false /\ queued (fst (try_send ch m)) = queued ch;
  try_send_keeps : forall ch m, capacity (fst (try_send ch m)) = capacity ch /\
    receiver_alive (fst (try_send ch m)) = receiver_alive ch;
  try_recv_spec : forall ch,
    match queued ch with
    | [] => try_recv ch = None
    | m :: q => exists ch', try_recv ch = Some (m, ch') /\ queued ch' = q /\
        capacity ch' = capacity ch /\ receiver_alive ch' = receiver_alive ch
    end;
  drop_receiver_spec : forall ch,
    receiver_alive (drop_receiver ch) = false /\ queued (drop_receiver ch) = [] }.

(** ** AsyncDispatch *)
Record NewConnectionHandle := mkNewConnectionHandle { h_key : FourTuple }.

(** What [tokio::spawn(run_connection_task(conn, inbound_rx, .., ether_src, ether_dst, ..))]
    starts. *)
Record Spawned := mkSpawned {
  sp_conn : Connection;
  sp_ether_src : list Z;
  sp_ether_dst : list Z }.

Section Async.
Context `{DefaultHasher} `{Mpsc InboundMsg}.

Record AsyncDispatch := mkAsyncDispatch {
  a_listeners : gmap Z unit;
  channels : gmap FourTuple Chan }.

Definition AsyncDispatch_new : AsyncDispatch := mkAsyncDispatch ∅ ∅.

Definition AsyncDispatch_listen (d : AsyncDispatch) (port : Z) : AsyncDispatch :=
  mkAsyncDispatch (<[port := tt]> (a_listeners d)) (channels d).

Definition INBOUND_CAPACITY : Z := 64.

Definition dispatch (d : AsyncDispatch) (remote_ip local_ip ether_src ether_dst : list Z)
    (seg : TcpSegment) (nanos : Z)
    : AsyncDispatch * option NewConnectionHandle * option Spawned :=
  let key := key_of remote_ip local_ip seg in
  match channels d !! key with
  | None =>
      if opens (a_listeners d) seg then
        let tcb := new_for_listen local_ip (dst_port (header seg)) remote_ip
                     (src_port (header seg)) nanos in
        let conn := Connection_new tcb in
        let inbound := mpsc_channel INBOUND_CAPACITY in
        (mkAsyncDispatch (a_listeners d) (<[key := inbound]> (channels d)),
         Some (mkNewConnectionHandle key), Some (mkSpawned conn ether_src ether_dst))
      else (d, None, None)
  | Some tx =>
      let msg := mkInboundMsg (TcpSegmentOwned_from seg) in
      let '(tx, ok) := try_send tx msg in
      if negb ok
      then (mkAsyncDispatch (a_listeners d) (delete key (channels d)), None, None)
      else (mkAsyncDispatch (a_listeners d) (<[key := tx]> (channels d)), None, None)
  end.
End Async.

(** ** Stack: every connection keeps its invariant and its endpoints *)
Record conn_at (k : FourTuple) (c : Connection) : Prop := {
  ca_inv : conn_inv c;
  ca_lip : local_ip (tcb c) = ft_local_ip k;
  ca_lport : local_port (tcb c) = ft_local_port k;
  ca_rip : remote_ip (tcb c) = ft_remote_ip k;
  ca_rport : remote_port (tcb c) = ft_remote_port k }.

Definition stack_inv (s : Stack) : Prop := map_Forall conn_at (connections s).

(** A parsed segment and the addresses of its packet. *)
Record arrival_ok (remote_ip local_ip : list Z) (seg : TcpSegment) : Prop := {
  ao_rip : ip_ok remote_ip;
  ao_lip : ip_ok local_ip;
  ao_sport : is_u16 (src_port (header seg));
  ao_dport : is_u16 (dst_port (header seg));
  ao_seg : seg_ok seg }.

(** A packet that [remote_ip] accepts as the answer of [local_ip] to [seg]. *)
Definition answers (remote_ip local_ip : list Z) (seg : TcpSegment) (pkt : OutboundPacket) : Prop :=
  op_src_ip pkt = local_ip /\ op_dst_ip pkt = remote_ip /\
  exists reply, TcpSegment_parse (op_tcp_bytes pkt) local_ip remote_ip = Ok reply /\
    src_port (header reply) = dst_port (header seg) /\ dst_port (header reply) = src_port (header seg).

Section StackFacts.
Context `{DefaultHasher} (clk : Clock) (Hclk : clock_ok clk).

Lemma emits_answers rip lip seg c raw :
  conn_at (key_of rip lip seg) c -> emits c raw ->
  answers rip lip seg {| op_src_ip := lip; op_dst_ip := rip; op_tcp_bytes := raw |}.
Proof using.
  intros [_ E1 E2 E3 E4] [(b & Hb & -> & F1 & F2 & F3 & F4)]. split; [done |]. split; [done |].
  exists (wire_segment b). cbn [op_tcp_bytes key_of ft_local_ip ft_local_port ft_remote_ip ft_remote_port] in *.
  split; [|split; cbn; congruence].
  replace lip with (sb_src_ip b) by congruence. replace rip with (sb_dst_ip b) by congruence.
  by apply parse_build.
Qed.

(** What [process_on] guarantees. *)
Definition processed (s : Stack) (rip lip : list Z) (seg : TcpSegment)
    (o : Result (Stack * option OutboundPacket)) : Prop :=
  exists s' r, o = Ok (s', r) /\ stack_inv s' /\ listeners s' = listeners s /\
    (forall k, k <> key_of rip lip seg -> connections s' !! k = connections s !! k) /\
    (forall pkt, r = Some pkt -> answers rip lip seg pkt).

Lemma process_on_ok s rip lip seg c :
  stack_inv s -> seg_ok seg -> conn_at (key_of rip lip seg) c ->
  processed s rip lip seg (process_on s (key_of rip lip seg) c clk seg).
Proof using Hclk.
  intros Hs Hseg Hc. set (key := key_of rip lip seg) in *. unfold process_on.
  pose proof (process_segment_ok c clk seg (ca_inv _ _ Hc) Hclk Hseg) as Hok.
  destruct (process_segment c clk seg) as [[c' r]| |]; try done.
  destruct Hok as (HI' & (E1 & E2 & E3 & E4) & Hr).
  assert (Hc' : conn_at key c') by (destruct Hc; split; [exact HI' | congruence ..]).
  set (s' := {| listeners := listeners s; connections := <[key := c']> (connections s) |}).
  assert (Hs' : stack_inv s') by (apply map_Forall_insert_2; assumption).
  assert (Hk : forall k, k <> key -> connections s' !! k = connections s !! k)
    by (intros k Hne; by apply lookup_insert_ne).
  destruct r as [raw|]; (eexists s', _; split; [reflexivity |]);
    (split; [exact Hs' |]); (split; [done |]); (split; [exact Hk |]); [|done].
  intros pkt [= <-]. apply (Forall_inv (P := emits c)) in Hr.
  exact (emits_answers rip lip seg c raw Hc Hr).
Qed.

Lemma new_conn_at rip lip seg nanos :
  arrival_ok rip lip seg ->
  conn_at (key_of rip lip seg)
    (Connection_new (new_for_listen lip (dst_port (header seg)) rip (src_port (header seg)) nanos)).
Proof using.
  intros []. split; try done. apply conn_inv_new; [by apply fresh_for_listen | by left].
Qed.
End StackFacts.

(** C33. The synchronous stack never fails, keeps every connection's invariant, and
    touches no connection but the one of the segment's four-tuple; whatever it
    answers goes from the segment's destination to its source, address and port
    swapped, with a correct checksum. *)
Theorem Stack_process_isolated `{DefaultHasher} s rip lip seg nanos clk :
  stack_inv s -> arrival_ok rip lip seg -> clock_ok clk ->
  processed s rip lip seg (Stack_process s rip lip seg nanos clk).
Proof.
  intros Hs Ha Hclk. unfold Stack_process.
  destruct (connections s !! key_of rip lip seg) as [c|] eqn:Ec.
  { apply process_on_ok; [done | done | apply Ha | by apply (Hs _ _ Ec)]. }
  destruct (opens (listeners s) seg).
  - set (c := Connection_new _). pose proof (new_conn_at rip lip seg nanos Ha) as Hc. fold c in Hc.
    set (s1 := {| listeners := listeners s; connections := _ |}).
    assert (Hs1 : stack_inv s1) by (apply map_Forall_insert_2; assumption).
    destruct (process_on_ok clk Hclk s1 rip lip seg c Hs1 (ao_seg _ _ _ Ha) Hc)
      as (s' & r & E & Hs' & Hl & Hk & Hr).
    exists s', r. split; [exact E |]. split; [done |]. split; [done |]. split; [|done].
    intros k Hne. rewrite (Hk k Hne). by apply lookup_insert_ne.
  - exists s, None. by split_and!.
Qed.

(** Connections are opened by SYNs to listening ports only: for an unknown
    four-tuple, anything else is dropped and changes nothing, and such a SYN makes
    a connection in SYN_RECEIVED whose answer is a SYN-ACK of the SYN's number. *)
Theorem Stack_process_opens `{DefaultHasher} s rip lip seg nanos clk :
  stack_inv s -> arrival_ok rip lip seg -> clock_ok clk ->
  connections s !! key_of rip lip seg = None ->
  if opens (listeners s) seg && negb (flag_rst (flags (header seg)))
  then exists s' pkt c reply, Stack_process s rip lip seg nanos clk = Ok (s', Some pkt) /\
         connections s' = <[key_of rip lip seg := c]> (connections s) /\
         st c = SynReceived /\ rnxt c = wrapping_add (seq_num (header seg)) 1 /\
         TcpSegment_parse (op_tcp_bytes pkt) lip rip = Ok reply /\
         flags (header reply) = F_SYN_ACK /\
         ack_num (header reply) = wrapping_add (seq_num (header seg)) 1
  else exists s', Stack_process s rip lip seg nanos clk = Ok (s', None) /\
         (opens (listeners s) seg = false -> s' = s).
Proof.
  intros Hs Ha Hclk Ec. unfold Stack_process. rewrite Ec.
  destruct (opens (listeners s) seg) eqn:Eo; cbn [andb]; [|by exists s].
  set (c := Connection_new _). pose proof (new_conn_at rip lip seg nanos Ha) as Hc. fold c in Hc.
  unfold process_on. unfold process_segment. change (st c) with Listen. unfold handle_listen.
  unfold opens in Eo. destruct (flag_syn _), (flag_ack _); cbn [andb negb] in Eo; try discriminate.
  destruct (flag_rst _); cbn [negb].
  { eexists. split; [reflexivity | discriminate]. }
  set (c' := set_state SynReceived _). do 2 eexists. exists c'.
  exists (wire_segment (ctl_builder c' F_SYN_ACK (iss c'))). split; [reflexivity |].
  assert (HI' : conn_inv c').
  { pose proof (ca_inv _ _ Hc). destruct (ao_seg _ _ _ Ha) as (? & ? & ?). unfold c'. conn_inv_tac. }
  split; [cbn [connections]; by rewrite insert_insert_eq |]. split; [done |]. split; [done |].
  split; [|done]. apply (parse_build (ctl_builder c' F_SYN_ACK (iss c'))).
  pose proof (current_window_range c' HI'). pose proof (ci_iss _ HI') as Hi. destruct HI'. split; try done.
Qed.

(** ** AsyncDispatch *)
Section AsyncFacts.
Context `{DefaultHasher} `{Mpsc InboundMsg}.

Definition known (d : AsyncDispatch) (rip lip : list Z) (seg : TcpSegment) : option Chan :=
  channels d !! key_of rip lip seg.

(** The copy of the segment that crosses to the task. *)
Definition inbound_of (seg : TcpSegment) : InboundMsg := mkInboundMsg (TcpSegmentOwned_from seg).

Lemma dispatch_frame d rip lip es ed seg nanos k :
  k <> key_of rip lip seg ->
  channels (fst (fst (dispatch d rip lip es ed seg nanos))) !! k = channels d !! k.
Proof using.
  intros Hk. unfold dispatch. destruct (channels d !! key_of rip lip seg) as [tx|].
  - destruct (try_send tx _) as [tx' []]; cbn; [by apply lookup_insert_ne | by apply lookup_delete_ne].
  - destruct (opens _ _); [by apply lookup_insert_ne | done].
Qed.

(** [dispatch], branch by branch. *)
Lemma dispatch_spec d rip lip es ed seg nanos :
  let '(d', handle, spawned) := dispatch d rip lip es ed seg nanos in
  a_listeners d' = a_listeners d /\
  (forall k, k <> key_of rip lip seg -> channels d' !! k = channels d !! k) /\
  match known d rip lip seg with
  | Some tx =>
      handle = None /\ spawned = None /\
      if (receiver_alive tx && (len (queued tx) <? capacity tx))%bool
      then exists tx', known d' rip lip seg = Some tx' /\
             queued tx' = queued tx ++ [inbound_of seg] /\
             TcpSegmentOwned_as_seg (in_seg (inbound_of seg)) = seg
      else known d' rip lip seg = None
  | None =>
      if opens (a_listeners d) seg
      then exists c tx, spawned = Some (mkSpawned c es ed) /\
             handle = Some (mkNewConnectionHandle (key_of rip lip seg)) /\
             known d' rip lip seg = Some tx /\ st c = Listen /\ recv_buf c = None /\
             local_ip (tcb c) = lip /\ local_port (tcb c) = dst_port (header seg) /\
             remote_ip (tcb c) = rip /\ remote_port (tcb c) = src_port (header seg)
      else d' = d /\ handle = None /\ spawned = None
  end.
Proof using.
  pose proof (dispatch_frame d rip lip es ed seg nanos) as Hf. revert Hf.
  unfold dispatch, known. destruct (channels d !! key_of rip lip seg) as [tx|] eqn:Ek.
  - fold (inbound_of seg).
    pose proof (try_send_accepts tx (inbound_of seg)) as Hy.
    pose proof (try_send_refuses tx (inbound_of seg)) as Hn.
    destruct (try_send tx (inbound_of seg)) as [tx' ok]. cbn [fst snd] in Hy, Hn.
    destruct (receiver_alive tx) eqn:Ea; cbn [andb];
      [destruct (Z.ltb_spec (len (queued tx)) (capacity tx))|].
    + destruct Hy as [-> Hq]; [done | done |]. cbn [negb fst]. intros Hf.
      split; [done |]. split; [exact Hf |]. split; [done |]. split; [done |].
      exists tx'. cbn [channels]. rewrite lookup_insert_eq. split; [done |]. split; [done |].
      by destruct seg.
    + destruct Hn as [-> _]; [right; lia |]. cbn [negb fst]. intros Hf.
      split; [done |]. split; [exact Hf |]. split; [done |]. split; [done |].
      cbn [channels]. apply lookup_delete_eq.
    + destruct Hn as [-> _]; [by left |]. cbn [negb fst]. intros Hf.
      split; [done |]. split; [exact Hf |]. split; [done |]. split; [done |].
      cbn [channels]. apply lookup_delete_eq.
  - destruct (opens (a_listeners d) seg); cbn [fst]; intros Hf; [|by split_and!].
    split; [done |]. split; [exact Hf |]. do 2 eexists. split; [reflexivity |].
    split; [reflexivity |]. split; [cbn [channels]; apply lookup_insert_eq |]. by split_and!.
Qed.

(** C34. Routing: a segment only ever touches the channel of its own four-tuple.
    For a known connection, if the task lives and its inbox has room, the segment
    is appended to that inbox, after everything already there, as the same header
    and payload; if not, the connection is evicted. For an unknown one, a SYN to a
    listening port starts exactly one task, with a fresh connection in LISTEN
    between the segment's endpoints; anything else changes nothing. *)
Theorem dispatch_routes d rip lip es ed seg nanos :
  let '(d', handle, spawned) := dispatch d rip lip es ed seg nanos in
  a_listeners d' = a_listeners d /\
  (forall k, k <> key_of rip lip seg -> channels d' !! k = channels d !! k) /\
  match known d rip lip seg with
  | Some tx =>
      handle = None /\ spawned = None /\
      if (receiver_alive tx && (len (queued tx) <? capacity tx))%bool
      then exists tx', known d' rip lip seg = Some tx' /\
             queued tx' = queued tx ++ [inbound_of seg] /\
             TcpSegmentOwned_as_seg (in_seg (inbound_of seg)) = seg
      else known d' rip lip seg = None
  | None =>
      if opens (a_listeners d) seg
      then exists c tx, spawned = Some (mkSpawned c es ed) /\
             handle = Some (mkNewConnectionHandle (key_of rip lip seg)) /\
             known d' rip lip seg = Some tx /\ st c = Listen /\ recv_buf c = None /\
             local_ip (tcb c) = lip /\ local_port (tcb c) = dst_port (header seg) /\
             remote_ip (tcb c) = rip /\ remote_port (tcb c) = src_port (header seg)
      else d' = d /\ handle = None /\ spawned = None
  end.
Proof using. exact (dispatch_spec d rip lip es ed seg nanos). Qed.

(** The bytes of a SYN-ACK of the SYN [seg]. *)
Definition answers_syn (rip lip : list Z) (seg : TcpSegment) (raw : list Z) : Prop :=
  exists reply, TcpSegment_parse raw lip rip = Ok reply /\ flags (header reply) = F_SYN_ACK /\
    ack_num (header reply) = wrapping_add (seq_num (header seg)) 1.

(** What [dispatch] starts a task with. *)
Definition listening (rip lip : list Z) (seg : TcpSegment) (nanos : Z) : Connection :=
  Connection_new (new_for_listen lip (dst_port (header seg)) rip (src_port (header seg)) nanos).

(** With an empty inbox the new task does nothing, whichever timers tick. *)
Lemma listening_waits rip lip seg nanos es ed tm retransmit zwp :
  let s := mkTaskState (listening rip lip seg nanos) false in
  task_step es ed tm s (mkPoll None retransmit zwp None false) = Ok (mkTaskOut s [] [] Continue).
Proof using. destruct retransmit, zwp; reflexivity. Qed.

(** The SYN, taken from the inbox, is answered. *)
Lemma listening_answers rip lip seg nanos es ed tm retransmit zwp :
  arrival_ok rip lip seg -> flag_syn (flags (header seg)) = true ->
  flag_ack (flags (header seg)) = false -> flag_rst (flags (header seg)) = false ->
  exists o msg, task_step es ed tm (mkTaskState (listening rip lip seg nanos) false)
      (mkPoll (Some (Some (inbound_of seg))) retransmit zwp None false) = Ok o /\
    st (conn (task_state o)) = SynReceived /\ sent_msgs o = [msg] /\ answers_syn rip lip seg (om_tcp_bytes msg).
Proof using.
  intros Ha Es Ea Hrst. pose proof (new_conn_at rip lip seg nanos Ha) as Hc.
  unfold task_step, select_biased. cbn [p_inbound conn close_initiated]. unfold on_inbound, process_segment.
  change (st (listening rip lip seg nanos)) with Listen. unfold handle_listen.
  replace (TcpSegmentOwned_as_seg (in_seg (inbound_of seg))) with seg by by destruct seg.
  rewrite Hrst, Ea, Es. cbn [negb]. set (c' := set_state SynReceived _).
  assert (HI' : conn_inv c').
  { pose proof (ca_inv _ _ Hc). destruct (ao_seg _ _ _ Ha) as (? & ? & ?). unfold c', listening. conn_inv_tac. }
  cbn [mbind Res_bind]. change (forward_received_data c') with (c', @nil (list Z)).
  assert (Hnone : forall m, SendBuffer_next_segment (send_buf c') m = None).
  { intros m. unfold SendBuffer_next_segment. change (s_len (send_buf c')) with 0.
    replace (0 <=? _) with true; [done |]. symmetry. apply Z.leb_le, as_u32_range. }
  assert (Ef : flush es ed tm c' = Ok (c', [])).
  { apply flush_nothing. unfold next_segment_to_send. rewrite Hnone. by destruct (_ <=? _). }
  cbv beta iota zeta. rewrite Ef. cbn [mbind Res_bind app].
  eexists _, _. split; [reflexivity |]. split; [reflexivity |]. split; [reflexivity |].
  exists (wire_segment (ctl_builder c' F_SYN_ACK (iss c'))).
  split; [|by split]. apply (parse_build (ctl_builder c' F_SYN_ACK (iss c'))).
  pose proof (current_window_range c' HI'). pose proof (ci_iss _ HI'). destruct HI'. split; try done.
Qed.

(** C35. The SYN that makes [dispatch] start a task is not put into the new task's
    inbox: the inbox starts empty and the connection in LISTEN, and however its timers
    tick the task sends nothing and stays there. The peer's retransmission of the SYN
    is the first message of the inbox, and when the task takes that one it answers with
    a SYN-ACK and is in SYN_RECEIVED. [Stack::process], which [dispatch] replaces,
    answers the first SYN with a SYN-ACK. *)
Theorem dispatch_first_syn_not_queued d s rip lip es ed seg nanos nanos' clk :
  arrival_ok rip lip seg -> flag_rst (flags (header seg)) = false ->
  known d rip lip seg = None -> opens (a_listeners d) seg = true ->
  stack_inv s -> clock_ok clk -> connections s !! key_of rip lip seg = None ->
  opens (listeners s) seg = true ->
  (exists d1 h sp tx d2 tx2,
    dispatch d rip lip es ed seg nanos = (d1, h, Some sp) /\ st (sp_conn sp) = Listen /\
    known d1 rip lip seg = Some tx /\ queued tx = [] /\
    (forall tm retransmit zwp, let t := mkTaskState (sp_conn sp) false in
       task_step es ed tm t (mkPoll None retransmit zwp None false) = Ok (mkTaskOut t [] [] Continue)) /\
    dispatch d1 rip lip es ed seg nanos' = (d2, None, None) /\
    known d2 rip lip seg = Some tx2 /\ queued tx2 = [inbound_of seg] /\
    (forall tm retransmit zwp, exists o msg,
       task_step es ed tm (mkTaskState (sp_conn sp) false)
         (mkPoll (Some (Some (inbound_of seg))) retransmit zwp None false) = Ok o /\
       st (conn (task_state o)) = SynReceived /\ sent_msgs o = [msg] /\
       answers_syn rip lip seg (om_tcp_bytes msg))) /\
  (exists s' pkt, Stack_process s rip lip seg nanos clk = Ok (s', Some pkt) /\
     answers_syn rip lip seg (op_tcp_bytes pkt)).
Proof using.
  intros Ha Hrst Hk Ho Hs Hclk Ec Hos. split.
  - unfold known in *. unfold dispatch at 1. rewrite Hk, Ho. fold (listening rip lip seg nanos).
    destruct (channel_fresh (M := InboundMsg) INBOUND_CAPACITY) as (Hq & Hcap & Hal).
    destruct (try_send_accepts (mpsc_channel INBOUND_CAPACITY) (inbound_of seg) Hal) as [Hok Hq'].
    { rewrite Hq, Hcap. by vm_compute. }
    do 6 eexists. split; [reflexivity |]. split; [done |].
    split; [cbn [channels]; apply lookup_insert_eq |]. split; [exact Hq |].
    split; [exact (listening_waits rip lip seg nanos es ed) |].
    unfold dispatch. cbn [channels a_listeners]. rewrite lookup_insert_eq.
    fold (inbound_of seg). rewrite (surjective_pairing (try_send _ (inbound_of seg))), Hok.
    cbn [negb]. split; [reflexivity |]. cbn [channels]. rewrite lookup_insert_eq.
    split; [reflexivity |]. split; [by rewrite Hq', Hq |].
    intros tm retransmit zwp. unfold opens in Ho.
    apply listening_answers; [done | destruct (flag_syn _); done | | done].
    by destruct (flag_syn _), (flag_ack _).
  - pose proof (Stack_process_opens s rip lip seg nanos clk Hs Ha Hclk Ec) as Hp. rewrite Hos, Hrst in Hp.
    destruct Hp as (s' & pkt & c & reply & E & _ & _ & _ & Hr). exists s', pkt. split; [exact E |]. by exists reply.
Qed.
End AsyncFacts.

(** ** Concrete interfaces *)
(** A channel as its capacity, its queue and whether its receiver lives. *)
Definition list_try_send {M} (ch : Z * list M * bool) (m : M) : Z * list M * bool * bool :=
  let '(cap, q, alive) := ch in
  if (alive && (len q <? cap))%bool then (cap, q ++ [m], alive, true) else (cap, q, alive, false).

#[global] Instance list_mpsc (M : Type) : Mpsc M.
Proof.
  refine {| Chan := Z * list M * bool;
            mpsc_channel n := (n, [], true);
            try_send := list_try_send;
            queued ch := snd (fst ch);
            capacity ch := fst (fst ch);
            receiver_alive ch := snd ch;
            try_recv ch := let '(cap, q, alive) := ch in
              match q with [] => None | m :: q => Some (m, (cap, q, alive)) end;
            drop_receiver ch := (fst (fst ch), [], false) |}.
  - done.
  - intros [[cap q] []] m; cbn; [|done]. intros _ Hl. by replace (len q <? cap) with true by lia.
  - intros [[cap q] []] m; cbn; [|done]. intros [Hd|Hl]; [done |].
    by replace (len q <? cap) with false by lia.
  - intros [[cap q] alive] m. cbn. by destruct (_ && _)%bool.
  - intros [[cap [|m q]] alive]; [done |]. by eexists.
  - done.
Defined.

(** A hasher that returns the number of items it was fed. *)
#[global] Program Instance count_hasher : DefaultHasher := {| hasher_finish l := len l mod U64 |}.
Next Obligation. intros l. apply Z.mod_pos_bound. reflexivity. Qed.

Definition demo_syn : TcpSegment :=
  {| header := {| src_port := 12345; dst_port := 80; seq_num := 500; ack_num := 0;
       data_offset := 5; flags := F_SYN; window := 8000; tcp_csum := 0; urgent_ptr := 0 |};
     payload := [] |}.
Definition demo_clk : Clock := mkClock 1000000000 1000000000.
Definition demo_stack : Stack := Stack_listen Stack_new 80.

Lemma demo_stack_inv : stack_inv demo_stack.
Proof. apply map_Forall_empty. Qed.

Lemma demo_arrival : arrival_ok [10; 0; 0; 1] [192; 168; 100; 2] demo_syn.
Proof.
  split; try (split; [reflexivity | bytes_tac]); seg_ok_tac.
Qed.

Lemma demo_clk_ok : clock_ok demo_clk.
Proof. vm_compute. repeat split; discriminate. Qed.

Lemma Stack_process_isolated_witness :
  processed demo_stack [10; 0; 0; 1] [192; 168; 100; 2] demo_syn
    (Stack_process demo_stack [10; 0; 0; 1] [192; 168; 100; 2] demo_syn 7 demo_clk).
Proof. exact (Stack_process_isolated _ _ _ _ 7 _ demo_stack_inv demo_arrival demo_clk_ok). Defined.

Lemma Stack_process_opens_witness :
  exists s' pkt c reply,
    Stack_process demo_stack [10; 0; 0; 1] [192; 168; 100; 2] demo_syn 7 demo_clk = Ok (s', Some pkt) /\
    connections s' = <[key_of [10; 0; 0; 1] [192; 168; 100; 2] demo_syn := c]> ∅ /\
    st c = SynReceived /\ rnxt c = 501 /\
    TcpSegment_parse (op_tcp_bytes pkt) [192; 168; 100; 2] [10; 0; 0; 1] = Ok reply /\
    flags (header reply) = F_SYN_ACK /\ ack_num (header reply) = 501.
Proof.
  exact (Stack_process_opens demo_stack [10; 0; 0; 1] [192; 168; 100; 2] demo_syn 7 demo_clk
    demo_stack_inv demo_arrival demo_clk_ok eq_refl).
Defined.

Lemma dispatch_first_syn_not_queued_witness :
  (exists d1 h sp tx, dispatch (AsyncDispatch_listen AsyncDispatch_new 80) [10; 0; 0; 1] [192; 168; 100; 2]
      [1] [2] demo_syn 7 = (d1, h, Some sp) /\ st (sp_conn sp) = Listen /\
    known d1 [10; 0; 0; 1] [192; 168; 100; 2] demo_syn = Some tx /\ queued tx = []) /\
  exists s' pkt, Stack_process demo_stack [10; 0; 0; 1] [192; 168; 100; 2] demo_syn 7 demo_clk = Ok (s', Some pkt).
Proof.
  destruct (dispatch_first_syn_not_queued (AsyncDispatch_listen AsyncDispatch_new 80) demo_stack
    [10; 0; 0; 1] [192; 168; 100; 2] [1] [2] demo_syn 7 8 demo_clk demo_arrival eq_refl eq_refl eq_refl
    demo_stack_inv demo_clk_ok eq_refl eq_refl)
    as [(d1 & h & sp & tx & _ & _ & E & Hst & Hk & Hq & _) (s' & pkt & Ep & _)].
  split; [by exists d1, h, sp, tx | by exists s', pkt].
Defined.

Lemma dispatch_routes_witness :
  let '(d', handle, spawned) :=
    dispatch (AsyncDispatch_listen AsyncDispatch_new 80) [10; 0; 0; 1] [192; 168; 100; 2]
      [1] [2] demo_syn 7 in
  exists c, spawned = Some (mkSpawned c [1] [2]) /\ st c = Listen.
Proof.
  pose proof (dispatch_routes (AsyncDispatch_listen AsyncDispatch_new 80)
    [10; 0; 0; 1] [192; 168; 100; 2] [1] [2] demo_syn 7) as Hd.
  destruct (dispatch _ _ _ _ _ _ _) as [[d' h] sp]. destruct Hd as (_ & _ & c & tx & E & _ & _ & Hs & _).
  exists c. by split.
Defined.
