(* ===== verification/Main.v ===== *)
(** * The program (src/magnum-tcp/src/main.rs)

    The bind address, the way of an inbound frame down to a connection (Linux:
    Ethernet frames and ARP; macOS: bare IPv4 packets) and the framing of what the
    connection tasks send. A string is the list of its bytes. *)
From S2P Require Import Prelude Errors Tcb Ipv4 Ethernet Arp Header SendBuffer RecvBuffer Float64 Retransmit Connection Task Dispatch.

(** ** The bind address *)
(** [s.split('.')] *)
Fixpoint split_dots (s : list Z) : list (list Z) :=
  match s with
  | [] => [[]]
  | b :: s' =>
      if b =? 46 then [] :: split_dots s'
      else match split_dots s' with
           | p :: ps => (b :: p) :: ps
           | [] => [[b]]
           end
  end.

(** The digits of [u8::from_str], with the overflow check at every digit. *)
Fixpoint parse_digits (acc : Z) (s : list Z) : option Z :=
  match s with
  | [] => Some acc
  | b :: s' =>
      if ((48 <=? b) && (b <=? 57))%bool then
        let v := acc * 10 + (b - 48) in
        if v <? U8 then parse_digits v s' else None
      else None
  end.

(** [str::parse::<u8>]: one leading plus sign is allowed, an empty number is not. *)
Definition parse_u8 (s : list Z) : option Z :=
  match s with
  | [] => None
  | b :: s' =>
      let digits := if b =? 43 then s' else s in
      match digits with [] => None | _ => parse_digits 0 digits end
  end.

(** The loop of [parse_ip], over the parts that remain. *)
Fixpoint parse_parts (s : list Z) (parts : list (list Z)) : Result (list Z) :=
  match parts with
  | [] => Ok []
  | p :: ps =>
      match parse_u8 p with
      | None => Err (InvalidIp s)
      | Some v => out ← parse_parts s ps; Ok (v :: out)
      end
  end.

Definition parse_ip (s : list Z) : Result (list Z) :=
  let parts := split_dots s in
  if negb (Nat.eqb (length parts) 4) then Err (InvalidIp s) else parse_parts s parts.

(** ** Inbound *)
Section Inbound.
Context `{DefaultHasher} `{Mpsc InboundMsg}.

(** The dispatcher afterwards, the frame to write back, and the connection task and
    the application task that were started. *)
Record Inbound := mkInbound {
  in_dispatch : AsyncDispatch;
  in_reply : option (list Z);
  in_spawned : option Spawned;
  in_handle : option NewConnectionHandle }.

Definition dropped (d : AsyncDispatch) : Inbound := mkInbound d None None None.

(** From the IPv4 packet on; the two platforms differ in the addresses they pass. *)
Definition dispatch_packet (d : AsyncDispatch) (raw ether_src ether_dst : list Z) (nanos : Z)
    : Fallible Inbound :=
  match Ipv4Packet_parse raw with
  | Panic => Panic
  | Err _ => Ok (dropped d)
  | Ok packet =>
      let h := ip_header packet in
      if ip_protocol h =? PROTO_ICMP then Ok (dropped d)
      else if ip_protocol h =? PROTO_TCP then
        match TcpSegment_parse (ip_payload packet) (ip_src h) (ip_dst h) with
        | Panic => Panic
        | Err _ => Ok (dropped d)
        | Ok seg =>
            let '(d', handle, spawned) :=
              dispatch d (ip_src h) (ip_dst h) ether_src ether_dst seg nanos in
            Ok (mkInbound d' None spawned handle)
        end
      else Ok (dropped d)
  end.

(** [cfg(target_os = "linux")] *)
Definition inbound_dispatch_linux (raw : list Z) (d : AsyncDispatch) (our_ip our_mac : list Z)
    (nanos : Z) : Fallible Inbound :=
  match EthernetFrame_parse raw with
  | Panic => Panic
  | Err (NonIpv4EtherType et) =>
      if et =? 2054 then
        req ← parse_arp_request raw;
        match req with
        | None => Ok (dropped d)
        | Some req =>
            if bytes_eqb (target_ip req) our_ip then
              reply ← build_arp_reply_frame our_mac our_ip (sender_mac req) (sender_ip req);
              Ok (mkInbound d (Some reply) None None)
            else Ok (dropped d)
        end
      else Ok (dropped d)
  | Err _ => Ok (dropped d)
  | Ok frame => dispatch_packet d (eth_payload frame) (dst_mac frame) (src_mac frame) nanos
  end.

(** [cfg(target_os = "macos")] *)
Definition inbound_dispatch_macos (raw : list Z) (d : AsyncDispatch) (nanos : Z)
    : Fallible Inbound :=
  dispatch_packet d raw (zeroed 6) (zeroed 6) nanos.
End Inbound.

(** ** Outbound *)
Definition frame_outbound_linux (msg : OutboundMsg) : list Z :=
  let ip := build_packet (om_src_ip msg) (om_dst_ip msg) PROTO_TCP (om_tcp_bytes msg) in
  EthernetFrame_build (om_ether_dst msg) (om_ether_src msg) ip.

Definition frame_outbound_macos (msg : OutboundMsg) : list Z :=
  build_packet (om_src_ip msg) (om_dst_ip msg) PROTO_TCP (om_tcp_bytes msg).

(** ** Facts: the bind address *)
Lemma split_dots_nodot s : ~ In 46 s -> split_dots s = [s].
Proof.
  induction s as [|b s IH]; intros Hn; cbn [split_dots]; [done |].
  destruct (Z.eqb_spec b 46) as [->|]; [by destruct Hn; left |].
  rewrite IH; [done | intros Hi; apply Hn; by right].
Qed.

Lemma split_dots_app s t : ~ In 46 s -> split_dots (s ++ 46 :: t) = s :: split_dots t.
Proof.
  induction s as [|b s IH]; intros Hn; cbn [split_dots app]; [done |].
  destruct (Z.eqb_spec b 46) as [->|]; [by destruct Hn; left |].
  rewrite IH; [done | intros Hi; apply Hn; by right].
Qed.

(** What the printer of a byte writes, the reader reads, without a dot. *)
Definition u8_display_ok (n : Z) : bool :=
  match parse_u8 (u8_display n) with Some v => v =? n | None => false end &&
  forallb (fun b => negb (b =? 46)) (u8_display n).

Lemma u8_display_all : forallb u8_display_ok (map Z.of_nat (seq 0 256)) = true.
Proof. vm_compute. reflexivity. Qed.

Lemma u8_display_spec n : is_u8 n -> parse_u8 (u8_display n) = Some n /\ ~ In 46 (u8_display n).
Proof.
  intros Hn. pose proof u8_display_all as Ha. rewrite forallb_forall in Ha.
  specialize (Ha n). unfold u8_display_ok in Ha. rewrite andb_true_iff in Ha.
  destruct Ha as [H1 H2].
  { apply in_map_iff. exists (Z.to_nat n). unfold is_u8 in Hn. rewrite in_seq. split; lia. }
  destruct (parse_u8 (u8_display n)) as [v|]; [|done]. split; [f_equal; lia |].
  intros Hi. rewrite forallb_forall in H2. by specialize (H2 46 Hi).
Qed.

(** The printed form of an address reads back as the address: [parse_ip] of
    what [format_ip] prints succeeds with the same four bytes. *)
Theorem parse_ip_format_ip a : ip_ok a -> parse_ip (format_ip a) = Ok a.
Proof.
  intros (a0 & a1 & a2 & a3 & -> & H0 & H1 & H2 & H3)%ip_ok_destruct.
  destruct (u8_display_spec a0 H0) as [P0 N0], (u8_display_spec a1 H1) as [P1 N1],
    (u8_display_spec a2 H2) as [P2 N2], (u8_display_spec a3 H3) as [P3 N3].
  unfold parse_ip, format_ip.
  change (arr [a0; a1; a2; a3] 0) with a0. change (arr [a0; a1; a2; a3] 1) with a1.
  change (arr [a0; a1; a2; a3] 2) with a2. change (arr [a0; a1; a2; a3] 3) with a3.
  cbn [app]. rewrite !split_dots_app, split_dots_nodot by assumption.
  cbn [length Nat.eqb negb parse_parts]. by rewrite P0, P1, P2, P3.
Qed.

Lemma parse_ip_format_ip_witness : parse_ip [49; 48; 46; 48; 46; 50; 53; 53; 46; 55] = Ok [10; 0; 255; 7].
Proof. apply (parse_ip_format_ip [10; 0; 255; 7]). split; [reflexivity | bytes_tac]. Defined.

(** An address that parses has four bytes. *)
Lemma parse_digits_u8 s : forall acc v, is_u8 acc -> parse_digits acc s = Some v -> is_u8 v.
Proof.
  induction s as [|b s IH]; intros acc v Ha; cbn [parse_digits]; [by intros [= <-] |].
  destruct (Z.leb_spec 48 b), (Z.leb_spec b 57); cbn [andb]; try done.
  destruct (Z.ltb_spec (acc * 10 + (b - 48)) U8); [|done]. apply IH. unfold is_u8, U8 in *. lia.
Qed.

Lemma parse_u8_range s v : parse_u8 s = Some v -> is_u8 v.
Proof.
  unfold parse_u8. destruct s as [|b s]; [done |].
  destruct (if b =? 43 then s else b :: s); [done |]. apply parse_digits_u8. by vm_compute.
Qed.

Lemma parse_parts_ok s parts : forall a,
  parse_parts s parts = Ok a -> length a = length parts /\ bytes_ok a.
Proof.
  induction parts as [|p ps IH]; intros a; cbn [parse_parts]; [by intros [= <-]; split; [|constructor] |].
  destruct (parse_u8 p) as [v|] eqn:Ev; [|done]. apply parse_u8_range in Ev.
  destruct (parse_parts s ps) as [out| |]; cbn [mbind Res_bind]; try done. intros [= <-].
  destruct (IH out eq_refl) as [Hl Hb]. split; [cbn; by rewrite Hl | by constructor].
Qed.

Lemma parse_ip_ok s a : parse_ip s = Ok a -> ip_ok a.
Proof.
  unfold parse_ip. destruct (Nat.eqb_spec (length (split_dots s)) 4) as [E|]; [|done]. cbn [negb].
  intros [Hl Hb]%parse_parts_ok. by split; [rewrite Hl, E |].
Qed.

(** ** What a frame carries *)
(** The addresses and the segment of an IPv4 packet whose layers all parse. *)
Definition packet_segment (raw : list Z) : option (list Z * list Z * TcpSegment) :=
  match Ipv4Packet_parse raw with
  | Ok packet =>
      let h := ip_header packet in
      if ip_protocol h =? PROTO_TCP then
        match TcpSegment_parse (ip_payload packet) (ip_src h) (ip_dst h) with
        | Ok seg => Some (ip_src h, ip_dst h, seg)
        | _ => None
        end
      else None
  | _ => None
  end.

Lemma packet_segment_typed raw src dst seg :
  bytes_ok raw -> packet_segment raw = Some (src, dst, seg) ->
  ip_ok src /\ ip_ok dst /\ header_ok (header seg) /\ bytes_ok (payload seg) /\
  20 + data_offset (header seg) * 4 + len (payload seg) <= 65535.
Proof.
  intros Hb. unfold packet_segment.
  destruct (Ipv4Packet_parse raw) as [p| |] eqn:Ep; [|done ..].
  destruct (packet_typed raw p Hb Ep) as (Hs & Hd & Hp & Hl). destruct (_ =? _); [|done].
  destruct (TcpSegment_parse _ _ _) as [sg| |] eqn:Es; [|done ..]. intros [= <- <- <-].
  destruct (segment_typed _ _ _ _ Hp Es) as (Hh & Hpl & Hlen). split_and!; try done. lia.
Qed.

(** What the framing of a connection's segment carries. *)
Lemma packet_segment_build c raw :
  emits c raw -> ip_ok (local_ip (tcb c)) -> ip_ok (remote_ip (tcb c)) ->
  exists seg, packet_segment (build_packet (local_ip (tcb c)) (remote_ip (tcb c)) PROTO_TCP raw)
      = Some (local_ip (tcb c), remote_ip (tcb c), seg) /\
    src_port (header seg) = local_port (tcb c) /\ dst_port (header seg) = remote_port (tcb c) /\
    TcpSegment_parse raw (local_ip (tcb c)) (remote_ip (tcb c)) = Ok seg.
Proof.
  intros [(b & Hb & -> & E1 & E2 & E3 & E4) Hl] Hi1 Hi2. exists (wire_segment b).
  pose proof (parse_build b Hb) as Hp. rewrite E1, E2 in Hp.
  destruct (parse_build_packet (local_ip (tcb c)) (remote_ip (tcb c)) PROTO_TCP
    (SegmentBuilder_build b) Hi1 Hi2) as (csum & Epk);
    [by vm_compute | by apply build_bytes_ok | unfold TCP_MIN_HEADER_LEN, MSS in Hl; lia |].
  unfold packet_segment. rewrite Epk. cbn [ip_header ip_protocol ip_payload ip_src ip_dst].
  rewrite Z.eqb_refl, Hp. by split_and!.
Qed.

(** ** Facts: inbound *)
Lemma bytes_eqb_true a b : bytes_eqb a b = true -> a = b.
Proof. unfold bytes_eqb. by intros H%bool_decide_eq_true. Qed.

Lemma arp_layout_fields raw r :
  bytes_ok raw -> arp_request_layout raw r -> mac_ok (sender_mac r) /\ ip_ok (sender_ip r).
Proof.
  intros Hb (eth & tmac & rest & _ & _ & Hm & Hi & _ & ->).
  apply bytes_ok_app_inv in Hb as [_ Hb]. apply bytes_ok_app_inv in Hb as [_ Hb].
  apply bytes_ok_app_inv in Hb as [Hb1 Hb]. apply bytes_ok_app_inv in Hb as [Hb2 _].
  split; by split.
Qed.

Section InboundFacts.
Context `{DefaultHasher} `{Mpsc InboundMsg}.

(** [dispatch_packet] passes on exactly what [packet_segment] finds. *)
Lemma dispatch_packet_segment d raw es ed nanos :
  dispatch_packet d raw es ed nanos =
    Ok match packet_segment raw with
       | Some (src, dst, seg) =>
           let '(d', handle, spawned) := dispatch d src dst es ed seg nanos in
           mkInbound d' None spawned handle
       | None => dropped d
       end.
Proof using.
  unfold dispatch_packet, packet_segment. pose proof (Ipv4Packet_parse_no_panic raw) as Hp.
  destruct (Ipv4Packet_parse raw) as [packet| |]; try done.
  destruct (Z.eqb_spec (ip_protocol (ip_header packet)) PROTO_ICMP) as [->|]; [done |].
  destruct (_ =? PROTO_TCP); [|done].
  pose proof (TcpSegment_parse_no_panic (ip_payload packet) (ip_src (ip_header packet))
    (ip_dst (ip_header packet))) as Ht.
  destruct (TcpSegment_parse _ _ _); try done. by destruct (dispatch d _ _ _ _ _ _) as [[? ?] ?].
Qed.

(** [reply] answers the frame [raw], an ARP request for our address. *)
Definition arp_answer (our_ip our_mac raw reply : list Z) : Prop :=
  EthernetFrame_parse raw = Err (NonIpv4EtherType 2054) /\
  exists req, arp_request_layout raw req /\ target_ip req = our_ip /\
    reply = sender_mac req ++ our_mac ++ [8; 6; 0; 1; 8; 0; 6; 4; 0; 2]
            ++ our_mac ++ our_ip ++ sender_mac req ++ sender_ip req.

(** The dispatcher's part: it is given what the frame carries, or nothing happens. *)
Definition dispatched (d : AsyncDispatch) (raw : list Z) (nanos : Z) (r : Inbound) : Prop :=
  match EthernetFrame_parse raw with
  | Ok frame =>
      match packet_segment (eth_payload frame) with
      | Some (src, dst, seg) =>
          dispatch d src dst (dst_mac frame) (src_mac frame) seg nanos =
            (in_dispatch r, in_handle r, in_spawned r)
      | None => in_dispatch r = d /\ in_handle r = None /\ in_spawned r = None
      end
  | _ => in_dispatch r = d /\ in_handle r = None /\ in_spawned r = None
  end.

Lemma arp_answer_unique our_ip our_mac raw req reply :
  parse_arp_request raw = Ok (Some req) -> arp_answer our_ip our_mac raw reply ->
  target_ip req = our_ip /\
  reply = sender_mac req ++ our_mac ++ [8; 6; 0; 1; 8; 0; 6; 4; 0; 2]
          ++ our_mac ++ our_ip ++ sender_mac req ++ sender_ip req.
Proof using.
  intros Ea (_ & req' & Hl & Ht & ->). apply arp_request_iff in Hl. rewrite Ea in Hl. by injection Hl as <-.
Qed.

Lemma no_arp_answer our_ip our_mac raw :
  parse_arp_request raw = Ok None -> forall reply, ~ arp_answer our_ip our_mac raw reply.
Proof using. intros Ea reply (_ & req & Hl & _). apply arp_request_iff in Hl. congruence. Qed.

(** What [inbound_dispatch] makes of a frame that carries no IPv4. *)
Lemma inbound_arp_spec d raw our_ip our_mac :
  bytes_ok raw -> ip_ok our_ip -> mac_ok our_mac ->
  EthernetFrame_parse raw = Err (NonIpv4EtherType 2054) ->
  exists reply, (req ← parse_arp_request raw;
      match req with
      | None => Ok (dropped d)
      | Some req =>
          if bytes_eqb (target_ip req) our_ip then
            reply ← build_arp_reply_frame our_mac our_ip (sender_mac req) (sender_ip req);
            Ok (mkInbound d (Some reply) None None)
          else Ok (dropped d)
      end) = Ok (E:=Empty_set) (mkInbound d reply None None) /\
    forall f, reply = Some f <-> arp_answer our_ip our_mac raw f.
Proof using.
  intros Hb Hip Hmac Ee. destruct (parse_arp_request_total raw) as [[req|] Ea]; rewrite Ea; cbn [mbind Res_bind].
  2: { exists None. split; [done |]. intros f. split; [done |]. intros Hf. by apply no_arp_answer in Hf. }
  destruct (bytes_eqb (target_ip req) our_ip) eqn:Et.
  - apply bytes_eqb_true in Et. pose proof (proj1 (arp_request_iff _ _) Ea) as Hl.
    destruct (arp_layout_fields raw req Hb Hl) as [Hm Hi].
    destruct (arp_reply_layout our_mac our_ip (sender_mac req) (sender_ip req) Hmac Hip Hm Hi) as (Er & _).
    rewrite Er. cbn [mbind Res_bind]. eexists. split; [reflexivity |]. intros f. split.
    + intros [= <-]. split; [exact Ee |]. by exists req.
    + intros Hf. by destruct (arp_answer_unique _ _ _ req f Ea Hf) as [_ ->].
  - exists None. split; [done |]. intros f. split; [done |]. intros Hf.
    destruct (arp_answer_unique _ _ _ req f Ea Hf) as [Ht _].
    unfold bytes_eqb in Et. by apply bool_decide_eq_false in Et.
Qed.

Lemma inbound_linux_spec d raw our_ip our_mac nanos :
  bytes_ok raw -> ip_ok our_ip -> mac_ok our_mac ->
  exists r, inbound_dispatch_linux raw d our_ip our_mac nanos = Ok r /\ dispatched d raw nanos r /\
    forall reply, in_reply r = Some reply <-> arp_answer our_ip our_mac raw reply.
Proof using.
  intros Hb Hip Hmac. unfold inbound_dispatch_linux, dispatched.
  destruct (EthernetFrame_parse raw) as [frame|e|] eqn:Ef.
  - rewrite dispatch_packet_segment. eexists. split; [reflexivity |].
    assert (Hn : forall reply, ~ arp_answer our_ip our_mac raw reply) by (intros reply [E _]; congruence).
    destruct (packet_segment (eth_payload frame)) as [[[src dst] seg]|];
      [destruct (dispatch d _ _ _ _ _ _) as [[d' hd] sp]|];
      (split; [done |]); intros reply; (split; [done |]); intros Hr; by apply Hn in Hr.
  - assert (Hdrop : (forall reply, ~ arp_answer our_ip our_mac raw reply) -> exists r,
      Ok (E:=Empty_set) (dropped d) = Ok r /\
      (in_dispatch r = d /\ in_handle r = None /\ in_spawned r = None) /\
      forall reply, in_reply r = Some reply <-> arp_answer our_ip our_mac raw reply).
    { intros Hn. exists (dropped d). split; [done |]. split; [done |]. intros reply. split; [done |].
      intros Hr. by apply Hn in Hr. }
    destruct e as [| |et| | | | | | | | |]; try (apply Hdrop; intros reply [E _]; congruence).
    destruct (Z.eqb_spec et 2054) as [->|]; [|apply Hdrop; intros reply [E _]; congruence].
    destruct (inbound_arp_spec d raw our_ip our_mac Hb Hip Hmac Ef) as (reply & E & Hr).
    eexists. split; [exact E |]. by split.
  - exfalso. revert Ef. rewrite parse_frame. cbv zeta. repeat case_match; discriminate.
Qed.

(** C37. Any frame at all is handled without a panic (no read outside the buffer): a
    frame whose Ethernet, IPv4 and TCP layers all parse reaches the dispatcher, as
    its segment and the addresses of its packet, and any other leaves it untouched;
    a frame is answered if and only if it is an ARP request for our address, with
    the ARP reply to its sender. *)
Theorem inbound_dispatch_total d raw our_ip our_mac nanos :
  bytes_ok raw -> ip_ok our_ip -> mac_ok our_mac ->
  exists r, inbound_dispatch_linux raw d our_ip our_mac nanos = Ok r /\ dispatched d raw nanos r /\
    forall reply, in_reply r = Some reply <-> arp_answer our_ip our_mac raw reply.
Proof using. exact (inbound_linux_spec d raw our_ip our_mac nanos). Qed.

(** The segment [seg] from [src] to [dst] is what the buffer [raw] holds behind an IPv4
    header at offset [o]: every field read at its place, both headers and the payload
    within the total length of the packet, and that within the buffer. *)
Record carries (raw : list Z) (o : Z) (src dst : list Z) (seg : TcpSegment) : Prop := {
  cr_ip_len : 20 <= Z.land (byte_of raw o) 15 * 4;
  cr_src : src = slice_at raw (o + 12) 4;
  cr_dst : dst = slice_at raw (o + 16) 4;
  cr_ends :
    let t := o + Z.land (byte_of raw o) 15 * 4 in
    let hl := data_offset (header seg) * 4 in
    data_offset (header seg) = Z.land (Z.shiftr (byte_of raw (t + 12)) 4) 15 /\ 20 <= hl /\
    payload seg = slice_at raw (t + hl) (len (payload seg)) /\
    t + hl + len (payload seg) = o + be16 raw (o + 2) /\ o + be16 raw (o + 2) <= len raw;
  cr_fields :
    let t := o + Z.land (byte_of raw o) 15 * 4 in
    src_port (header seg) = be16 raw t /\ dst_port (header seg) = be16 raw (t + 2) /\
    seq_num (header seg) = be32 raw (t + 4) /\ ack_num (header seg) = be32 raw (t + 8) /\
    flags (header seg) = TcpFlags_from_byte (byte_of raw (t + 13)) /\
    window (header seg) = be16 raw (t + 14) /\ urgent_ptr (header seg) = be16 raw (t + 18);
  cr_types : header_ok (header seg) /\ bytes_ok (payload seg) /\ ip_ok src /\ ip_ok dst }.

Lemma packet_carries raw o p seg :
  bytes_ok raw -> 0 <= o <= len raw ->
  Ipv4Packet_parse (drop (Z.to_nat o) raw) = Ok p ->
  TcpSegment_parse (ip_payload p) (ip_src (ip_header p)) (ip_dst (ip_header p)) = Ok seg ->
  carries raw o (ip_src (ip_header p)) (ip_dst (ip_header p)) seg.
Proof using.
  intros Hb Ho Ep Es. pose proof (bytes_ok_drop (Z.to_nat o) _ Hb) as Hbp.
  destruct (packet_typed _ p Hbp Ep) as (Hs & Hd & Hp & _).
  destruct (segment_typed _ _ _ _ Hp Es) as (Hh & Hpl & Hlen).
  assert (E0 : drop (Z.to_nat o) raw = slice_at raw o (len raw - o)).
  { unfold slice_at. rewrite take_ge; [done |]. rewrite length_drop. unfold len in *. lia. }
  rewrite E0 in Ep. destruct (Ipv4Packet_parse_places _ p Ep) as (Hi & H20 & Htl & _ & Esrc & Edst & Epl).
  destruct (TcpSegment_parse_places _ _ _ _ Es) as (Hoff & Hoff2 & F).
  assert (Hw : len (slice_at raw o (len raw - o)) = len raw - o) by (apply len_slice_at; lia).
  assert (H20' : 20 <= len raw - o) by lia.
  assert (Hby : forall i, 0 <= i < len raw - o -> byte_of (slice_at raw o (len raw - o)) i = byte_of raw (o + i))
    by (intros; apply byte_of_slice; lia).
  assert (Hhl : ip_ihl (ip_header p) = Z.land (byte_of raw o) 15) by (rewrite Hi, Hby by lia; by rewrite Z.add_0_r).
  rewrite Hhl in *. set (hl := Z.land (byte_of raw o) 15 * 4) in *.
  assert (Htot : be16 (slice_at raw o (len raw - o)) 2 = be16 raw (o + 2)) by (apply be16_slice; lia).
  rewrite Htot in *. set (tl := be16 raw (o + 2)) in *. rewrite slice_at_slice in Epl by lia.
  assert (Hpay : len (ip_payload p) = tl - hl) by (rewrite Epl; apply len_slice_at; lia).
  destruct F as (F1 & F2 & F3 & F4 & F5 & F6 & F7 & F8).
  rewrite Epl in Hoff, F1, F2, F3, F4, F5, F6, F7.
  assert (Hh20 : 20 <= tl - hl) by lia.
  rewrite byte_of_slice in Hoff, F5 by lia. rewrite be16_slice in F1, F2, F6, F7 by lia.
  rewrite be32_slice in F3, F4 by lia. rewrite Z.add_0_r in F1.
  split; [exact H20 | | | | | by split_and!].
  - rewrite Esrc. apply slice_at_slice; lia.
  - rewrite Edst. apply slice_at_slice; lia.
  - cbv zeta. fold hl. split; [exact Hoff |]. split; [lia |]. split; [|lia].
    rewrite F8, Epl, slice_at_slice at 1 by lia. f_equal. lia.
  - cbv zeta. fold hl. by split_and!.
Qed.

(** C36. What a connection task sends arrives, on both platforms: the frame or packet
    that [frame_outbound] makes of a connection's segment, received by the same stack
    on the peer's side, gives its dispatcher exactly the segment that was built, from
    and to the connection's addresses, with the hardware addresses of the frame on
    Linux and none on macOS. *)
Theorem frame_outbound_received c raw es ed d our_ip our_mac nanos :
  emits c raw -> ip_ok (local_ip (tcb c)) -> ip_ok (remote_ip (tcb c)) ->
  mac_ok es -> mac_ok ed ->
  exists seg, TcpSegment_parse raw (local_ip (tcb c)) (remote_ip (tcb c)) = Ok seg /\
    let received dst src := let '(d', handle, spawned) :=
        dispatch d (local_ip (tcb c)) (remote_ip (tcb c)) dst src seg nanos in
      Ok (mkInbound d' None spawned handle) in
    inbound_dispatch_linux (frame_outbound_linux (outbound c es ed raw)) d our_ip our_mac nanos =
      received ed es /\
    inbound_dispatch_macos (frame_outbound_macos (outbound c es ed raw)) d nanos =
      received (zeroed 6) (zeroed 6).
Proof using.
  intros He Hi1 Hi2 Hes Hed.
  destruct (packet_segment_build c raw He Hi1 Hi2) as (seg & Eseg & _ & _ & Hp).
  exists seg. split; [exact Hp |]. cbv zeta.
  unfold frame_outbound_linux, frame_outbound_macos, inbound_dispatch_linux, inbound_dispatch_macos, outbound.
  cbn [om_src_ip om_dst_ip om_tcp_bytes om_ether_src om_ether_dst].
  rewrite EthernetFrame_parse_build by assumption. cbn [eth_payload dst_mac src_mac].
  rewrite !dispatch_packet_segment, Eseg.
  split; by destruct (dispatch d _ _ _ _ _ _) as [[? ?] ?].
Qed.
End InboundFacts.

(** ** Concrete frames *)
Definition demo_arp_frame : list Z := demo_request.

Lemma inbound_dispatch_total_witness :
  exists r, inbound_dispatch_linux demo_arp_frame (AsyncDispatch_listen AsyncDispatch_new 80)
      [192; 168; 100; 2] [10; 177; 233; 0; 0; 1] 7 = Ok r /\
    in_dispatch r = AsyncDispatch_listen AsyncDispatch_new 80.
Proof.
  destruct (inbound_dispatch_total (AsyncDispatch_listen AsyncDispatch_new 80) demo_arp_frame
    [192; 168; 100; 2] [10; 177; 233; 0; 0; 1] 7) as (r & E & Hd & _).
  - apply bytes_ok_compute. vm_compute. reflexivity.
  - split; [reflexivity | bytes_tac].
  - split; [reflexivity | bytes_tac].
  - exists r. split; [exact E |]. vm_compute in Hd. apply Hd.
Defined.

Definition demo_syn_frame : list Z :=
  EthernetFrame_build [10; 177; 233; 0; 0; 1] [2; 0; 0; 0; 0; 1]
    (build_packet [10; 0; 0; 1] [192; 168; 1; 1] PROTO_TCP (SegmentBuilder_build
      (SegmentBuilder_flags F_SYN (SegmentBuilder_new [10; 0; 0; 1] [192; 168; 1; 1] 12345 80)))).

Lemma demo_syn_frame_bytes : bytes_ok demo_syn_frame.
Proof. apply bytes_ok_compute. vm_compute. reflexivity. Qed.


Definition demo_conn : Connection := Connection_new
  {| state := Established; local_ip := [192; 168; 100; 2]; local_port := 80;
     remote_ip := [10; 0; 0; 1]; remote_port := 12345;
     tcb_snd := mkSendSequence 7 7 65535 7;
     tcb_rcv := mkRecvSequence 500 65535 499; cwnd := 1460; ssthresh := 65535; dup_ack_count := 0 |}.

Lemma demo_conn_emits : emits demo_conn (build_ack demo_conn).
Proof.
  split; [exists (ctl_builder demo_conn F_ACK 7); split; [|by split_and!] | by vm_compute].
  split; cbn; try (split; [reflexivity | bytes_tac]); try (by vm_compute); apply Forall_nil_2.
Qed.

Lemma frame_outbound_received_witness :
  exists seg, TcpSegment_parse (build_ack demo_conn) [192; 168; 100; 2] [10; 0; 0; 1] = Ok seg /\
    inbound_dispatch_macos
      (frame_outbound_macos (outbound demo_conn [1; 1; 1; 1; 1; 1] [2; 2; 2; 2; 2; 2] (build_ack demo_conn)))
      AsyncDispatch_new 7 =
      (let '(d', handle, spawned) := dispatch AsyncDispatch_new [192; 168; 100; 2] [10; 0; 0; 1]
         (zeroed 6) (zeroed 6) seg 7 in
       Ok (mkInbound d' None spawned handle)).
Proof.
  destruct (frame_outbound_received demo_conn (build_ack demo_conn) [1; 1; 1; 1; 1; 1] [2; 2; 2; 2; 2; 2]
    AsyncDispatch_new [10; 0; 0; 1] [2; 2; 2; 2; 2; 2] 7 demo_conn_emits) as (seg & Hs & _ & Hm);
    [split; (reflexivity || bytes_tac).. |].
  exists seg. split; [exact Hs | exact Hm].
Defined.
