(* ===== verification/Http.v ===== *)
(** * The demonstration application (src/magnum-tcp/src/main.rs)

    [build_http_response] and the loop of [handle_connection]: what is answered to
    the bytes a connection delivers, chunk by chunk. A [&str] is the list of its
    UTF-8 bytes; the functions of [str] the code calls are the ones of the Rust
    standard library, on bytes. *)
From S2P Require Import Prelude.
From Stdlib Require Import Ascii.
From Stdlib Require String.
Import String.StringSyntax.

(** A string literal. *)
Definition lit (s : String.string) : list Z :=
  map (fun c => Z.of_nat (nat_of_ascii c)) (String.list_ascii_of_string s).
Arguments lit s%_string_scope.
Definition CRLF : list Z := [13; 10].

(** ** [str] *)
Definition in_range (lo hi b : Z) : bool := ((lo <=? b) && (b <=? hi))%bool.
Definition cont (b : Z) : bool := in_range 128 191 b.

(** Well-formed UTF-8 (Unicode, table 3-7), which is what [from_utf8] checks. *)
Fixpoint utf8_valid (s : list Z) : bool :=
  match s with
  | [] => true
  | b0 :: s1 =>
      if b0 <? 128 then utf8_valid s1
      else
        match s1 with
        | [] => false
        | b1 :: s2 =>
            if in_range 194 223 b0 then (cont b1 && utf8_valid s2)%bool
            else
              match s2 with
              | [] => false
              | b2 :: s3 =>
                  if in_range 224 239 b0 then
                    (in_range (if b0 =? 224 then 160 else 128) (if b0 =? 237 then 159 else 191) b1
                     && cont b2 && utf8_valid s3)%bool
                  else
                    match s3 with
                    | [] => false
                    | b3 :: s4 =>
                        (in_range 240 244 b0
                         && in_range (if b0 =? 240 then 144 else 128) (if b0 =? 244 then 143 else 191) b1
                         && cont b2 && cont b3 && utf8_valid s4)%bool
                    end
              end
        end
  end.

Definition from_utf8 (s : list Z) : option (list Z) := if utf8_valid s then Some s else None.

(** The first element of [lines()]: up to the first LF, without it and without a CR
    just before it; [""] when there is none. *)
Fixpoint first_line (s : list Z) : list Z :=
  match s with
  | [] => []
  | b :: s' =>
      if b =? 10 then []
      else if b =? 13 then
        match s' with
        | b' :: _ => if b' =? 10 then [] else b :: first_line s'
        | [] => [b]
        end
      else b :: first_line s'
  end.

(** The number of bytes of the White_Space character that the string starts with,
    0 when it starts with another one. *)
Definition ws_len (s : list Z) : nat :=
  match s with
  | b0 :: s1 =>
      if (in_range 9 13 b0 || (b0 =? 32))%bool then 1%nat
      else
        match s1 with
        | b1 :: s2 =>
            if ((b0 =? 194) && ((b1 =? 133) || (b1 =? 160)))%bool then 2%nat
            else
              match s2 with
              | b2 :: _ =>
                  if (((b0 =? 225) && (b1 =? 154) && (b2 =? 128))
                      || ((b0 =? 226) && (b1 =? 128)
                          && (in_range 128 138 b2 || (b2 =? 168) || (b2 =? 169) || (b2 =? 175)))
                      || ((b0 =? 226) && (b1 =? 129) && (b2 =? 159))
                      || ((b0 =? 227) && (b1 =? 128) && (b2 =? 128)))%bool then 3%nat
                  else 0%nat
              | [] => 0%nat
              end
        | [] => 0%nat
        end
  | [] => 0%nat
  end.

(** [split_whitespace()]: [cur] is the word being read, [skip] the bytes of a
    white-space character still to be passed over. *)
Fixpoint words (skip : nat) (cur s : list Z) : list (list Z) :=
  let flush := match cur with [] => [] | _ => [cur] end in
  match s with
  | [] => flush
  | b :: s' =>
      match skip with
      | S k => words k cur s'
      | O =>
          match ws_len s with
          | O => words 0 (cur ++ [b]) s'
          | S k => flush ++ words k [] s'
          end
      end
  end.
Definition split_whitespace (s : list Z) : list (list Z) := words 0 [] s.

(** [starts_with], and [find] of the blank line that ends a request's headers. *)
Fixpoint starts_with (s p : list Z) {struct p} : bool :=
  match p, s with
  | [], _ => true
  | x :: p', y :: s' => ((x =? y) && starts_with s' p')%bool
  | _ :: _, [] => false
  end.

Definition BLANK : list Z := CRLF ++ CRLF.

Fixpoint find_blank (s : list Z) : option Z :=
  if starts_with s BLANK then Some 0
  else match s with [] => None | _ :: s' => option_map (Z.add 1) (find_blank s') end.

(** The decimal digits of a number, as [format!("{}", n)] prints a usize or a u64;
    a u64 has at most 20. *)
Fixpoint digits (fuel : nat) (n : Z) : list Z :=
  match fuel with
  | O => []
  | S f => if n <? 10 then [48 + n] else digits f (n / 10) ++ [48 + n mod 10]
  end.
Definition display (n : Z) : list Z := digits 20 n.

(** ** [build_http_response] *)
Definition str_eqb (a b : list Z) : bool := bool_decide (a = b).

Definition lit_get : list Z := lit "GET".
Definition lit_post : list Z := lit "POST".
Definition lit_root : list Z := lit "/".
Definition lit_echo : list Z := lit "/echo".
Definition lit_time : list Z := lit "/time".

(** The method and the path of the first line; [secs] is the clock's. *)
Definition request_line (req : list Z) : list Z * list Z :=
  let parts := split_whitespace (first_line req) in
  (match parts with m :: _ => m | [] => lit_get end,
   match parts with _ :: p :: _ => p | _ => lit_root end).

Definition response_body (req method path : list Z) (secs : Z) : list Z :=
  if (str_eqb method lit_get && str_eqb path lit_root)%bool then lit "Hello from Magnum-TCP!" ++ CRLF
  else if (str_eqb method lit_get && str_eqb path lit_echo)%bool then req
  else if (str_eqb method lit_get && str_eqb path lit_time)%bool then
    lit "Unix timestamp: " ++ display secs ++ CRLF
  else if (str_eqb method lit_post && str_eqb path lit_root)%bool then
    let body_start := match find_blank req with Some i => i + 4 | None => len req end in
    lit "You posted: " ++ drop (Z.to_nat body_start) req ++ CRLF
  else lit "404 Not Found: " ++ method ++ lit " " ++ path ++ CRLF.

Definition response_status (method path : list Z) : list Z :=
  if (str_eqb path lit_root
      || (str_eqb method lit_get && str_eqb path lit_echo)
      || (str_eqb method lit_get && str_eqb path lit_time)
      || (str_eqb method lit_post && str_eqb path lit_root))%bool
  then lit "200 OK" else lit "404 Not Found".

Definition response_head (status : list Z) (body_len : Z) : list Z :=
  lit "HTTP/1.1 " ++ status ++ CRLF ++ lit "Content-Type: text/plain" ++ CRLF ++
  lit "Content-Length: " ++ display body_len ++ CRLF ++ lit "Connection: close".

Definition build_http_response (request : list Z) (secs : Z) : list Z :=
  let req := match from_utf8 request with Some s => s | None => [] end in
  let '(method, path) := request_line req in
  let body := response_body req method path secs in
  response_head (response_status method path) (len body) ++ BLANK ++ body.

(** ** [handle_connection] *)
Record AppState := mkAppState { request_buf : list Z; responded : bool }.

Definition app_start : AppState := mkAppState [] false.

Definition is_http (buf : list Z) : bool :=
  (starts_with buf (lit "GET ") || starts_with buf (lit "POST ") || starts_with buf (lit "HEAD ")
   || starts_with buf (lit "PUT ") || starts_with buf (lit "DELETE "))%bool.

Definition headers_complete (buf : list Z) : bool :=
  match find_blank buf with Some _ => true | None => false end.

(** One round of the [while let] loop: what is sent on [send_tx]. *)
Definition on_chunk (s : AppState) (chunk : list Z) (secs : Z) : AppState * option (list Z) :=
  let buf := request_buf s ++ chunk in
  if responded s then (mkAppState buf true, None)
  else if (is_http buf && headers_complete buf)%bool then
    (mkAppState buf true, Some (build_http_response buf secs))
  else if (negb (is_http buf) && negb (len buf =? 0))%bool then (mkAppState buf true, Some buf)
  else (mkAppState buf false, None).

(** The chunks of a connection, each with the clock at that moment. *)
Fixpoint handle_chunks (s : AppState) (chunks : list (list Z * Z)) : AppState * list (list Z) :=
  match chunks with
  | [] => (s, [])
  | (chunk, secs) :: rest =>
      let '(s1, out) := on_chunk s chunk secs in
      let '(s2, outs) := handle_chunks s1 rest in
      (s2, match out with Some r => r :: outs | None => outs end)
  end.

Definition demo_get : list Z := lit "GET /time HTTP/1.1" ++ CRLF ++ lit "Host: x" ++ BLANK.
Definition demo_put : list Z := lit "PUT / HTTP/1.1" ++ BLANK.

Example demo_get_response :
  build_http_response demo_get 1700000000 =
  lit "HTTP/1.1 200 OK" ++ CRLF ++ lit "Content-Type: text/plain" ++ CRLF ++
  lit "Content-Length: 28" ++ CRLF ++ lit "Connection: close" ++ BLANK ++
  lit "Unix timestamp: 1700000000" ++ CRLF.
Proof. vm_compute. reflexivity. Qed.

Example demo_put_response :
  take 15 (build_http_response demo_put 0) = lit "HTTP/1.1 200 OK" /\
  drop 84 (build_http_response demo_put 0) = lit "404 Not Found: PUT /" ++ CRLF.
Proof. vm_compute. split; reflexivity. Qed.

(** ** Decimal numbers *)
(** The number that the leading digits of a string denote. *)
Fixpoint read_number (acc : Z) (s : list Z) : Z :=
  match s with
  | b :: s' => if in_range 48 57 b then read_number (acc * 10 + (b - 48)) s' else acc
  | [] => acc
  end.

Lemma digits_are_digits fuel : forall n,
  0 <= n -> Forall (fun b => 48 <= b <= 57) (digits fuel n).
Proof.
  induction fuel as [|f IH]; intros n Hn; cbn [digits]; [constructor |].
  destruct (Z.ltb_spec n 10); [repeat constructor; lia |].
  apply Forall_app. split; [apply IH, Z.div_pos; lia |].
  pose proof (Z.mod_pos_bound n 10). repeat constructor; lia.
Qed.

Lemma read_number_app s t : forall acc,
  Forall (fun b => 48 <= b <= 57) s ->
  read_number acc (s ++ t) = read_number (read_number acc s) t.
Proof.
  induction s as [|b s IH]; intros acc Hs; [done |]. apply Forall_cons in Hs as [Hb Hs].
  cbn [app read_number]. unfold in_range.
  destruct (Z.leb_spec 48 b), (Z.leb_spec b 57); try lia. cbn [andb]. by apply IH.
Qed.

Lemma read_digits fuel : forall n,
  0 <= n < 10 ^ Z.of_nat fuel -> read_number 0 (digits fuel n) = n.
Proof.
  induction fuel as [|f IH]; intros n Hn; [cbn in *; lia |].
  cbn [digits]. destruct (Z.ltb_spec n 10).
  - cbn [read_number]. unfold in_range.
    destruct (Z.leb_spec 48 (48 + n)), (Z.leb_spec (48 + n) 57); try lia. cbn [andb]. lia.
  - rewrite Nat2Z.inj_succ, Z.pow_succ_r in Hn by lia.
    rewrite read_number_app by (apply digits_are_digits, Z.div_pos; lia).
    rewrite IH by (split; [apply Z.div_pos; lia | apply Z.div_lt_upper_bound; lia]).
    pose proof (Z.mod_pos_bound n 10). pose proof (Z.div_mod n 10).
    cbn [read_number]. unfold in_range.
    destruct (Z.leb_spec 48 (48 + n mod 10)), (Z.leb_spec (48 + n mod 10) 57); try lia.
    cbn [andb]. lia.
Qed.

Lemma read_display n t :
  0 <= n < U64 -> (match t with b :: _ => in_range 48 57 b = false | [] => True end) ->
  read_number 0 (display n ++ t) = n.
Proof.
  intros Hn Ht. rewrite read_number_app by (apply digits_are_digits; lia).
  unfold display. rewrite read_digits by (change (10 ^ Z.of_nat 20) with 100000000000000000000; unfold U64 in *; lia).
  destruct t as [|b t]; [done |]. cbn [read_number]. by rewrite Ht.
Qed.

(** ** Bytes in, bytes out *)
Lemma lit_bytes s : bytes_ok (lit s).
Proof.
  apply Forall_map, Forall_true. intros c. pose proof (Ascii.nat_ascii_bounded c). unfold is_u8. lia.
Qed.

Lemma display_bytes n : 0 <= n -> bytes_ok (display n).
Proof.
  intros Hn. eapply Forall_impl; [by apply digits_are_digits |]. intros b. unfold is_u8. lia.
Qed.

Lemma first_line_bytes s : bytes_ok s -> bytes_ok (first_line s).
Proof.
  induction 1 as [|b s Hb Hs IH]; [constructor |]. cbn [first_line].
  destruct (b =? 10); [constructor |]. destruct (b =? 13); [|by constructor].
  destruct s as [|b' s']; [by constructor |]. destruct (b' =? 10); [constructor | by constructor].
Qed.

Lemma words_bytes s : forall skip cur,
  bytes_ok cur -> bytes_ok s -> Forall bytes_ok (words skip cur s).
Proof.
  induction s as [|b s IH]; intros skip cur Hc Hs; cbn [words].
  { destruct cur; [constructor | by apply Forall_singleton]. }
  apply Forall_cons in Hs as [Hb Hs]. destruct skip as [|k]; [|by apply IH].
  destruct (ws_len (b :: s)) as [|k]; [apply IH; bytes_tac; assumption |].
  apply Forall_app. split; [|by apply IH; [constructor |]].
  destruct cur; [constructor | by apply Forall_singleton].
Qed.

Lemma request_line_bytes s :
  bytes_ok s -> bytes_ok (fst (request_line s)) /\ bytes_ok (snd (request_line s)).
Proof.
  intros Hs. pose proof (words_bytes (first_line s) 0 [] (Forall_nil_2 _) (first_line_bytes s Hs)) as Hw.
  unfold request_line, split_whitespace. 
  destruct (words 0 [] (first_line s)) as [|m [|p ps]]; rewrite ?Forall_cons in Hw;
    (split; [first [apply lit_bytes | apply Hw] | first [apply lit_bytes | apply Hw]]).
Qed.

Create HintDb magnum_http.
#[export] Hint Resolve lit_bytes display_bytes len_nonneg bytes_ok_app bytes_ok_drop : magnum_http.

Lemma build_http_response_bytes request secs :
  bytes_ok request -> 0 <= secs -> bytes_ok (build_http_response request secs).
Proof.
  intros Hr Hn. assert (Hcr : bytes_ok CRLF) by bytes_tac.
  unfold build_http_response. set (req := match from_utf8 request with Some s => s | None => [] end).
  assert (Hq : bytes_ok req)
    by (unfold req, from_utf8; destruct (utf8_valid request); [done | constructor]).
  destruct (request_line_bytes req Hq) as [Hm Hp]. destruct (request_line req) as [method path].
  cbn [fst snd] in *.
  assert (Hb : bytes_ok (response_body req method path secs)).
  { unfold response_body. repeat case_match; auto 7 with magnum_http. }
  assert (Hs : bytes_ok (response_status method path))
    by (unfold response_status; case_match; auto with magnum_http).
  unfold response_head, BLANK. auto 20 with magnum_http.
Qed.

Lemma on_chunk_bytes s chunk secs :
  bytes_ok (request_buf s) -> bytes_ok chunk -> 0 <= secs ->
  bytes_ok (request_buf (fst (on_chunk s chunk secs))) /\
  forall r, snd (on_chunk s chunk secs) = Some r -> bytes_ok r.
Proof.
  intros Hs Hc Hn. assert (Hb : bytes_ok (request_buf s ++ chunk)) by (by apply bytes_ok_app).
  unfold on_chunk. repeat case_match; cbn [fst snd request_buf]; (split; [done |]);
    intros r [= <-]; [by apply build_http_response_bytes | done].
Qed.

(** ** The blank line *)
(** No blank line starts within [l] when [t] follows. *)
Fixpoint blank_free (l t : list Z) : bool :=
  match l with
  | [] => true
  | b :: l' => (negb (starts_with (l ++ t) BLANK) && blank_free l' t)%bool
  end.

Lemma find_blank_skip l t :
  blank_free l t = true -> find_blank (l ++ t) = option_map (Z.add (len l)) (find_blank t).
Proof.
  induction l as [|b l IH]; intros H; [cbn [app]; by destruct (find_blank t) |].
  cbn [blank_free] in H. apply andb_true_iff in H as [H1 H2]. apply negb_true_iff in H1.
  change ((b :: l) ++ t) with (b :: (l ++ t)) in *.
  change (find_blank (b :: l ++ t)) with
    (if starts_with (b :: l ++ t) BLANK then Some 0 else option_map (Z.add 1) (find_blank (l ++ t))).
  rewrite H1, IH by done. destruct (find_blank t); [|done]. cbn [option_map]. rewrite len_cons. f_equal. lia.
Qed.

Lemma blank_free_no_cr l t : Forall (fun b => b <> 13) l -> blank_free l t = true.
Proof.
  induction 1 as [|b l Hb _ IH]; [done |]. cbn [blank_free app]. rewrite IH, andb_true_r.
  change BLANK with [13; 10; 13; 10]. cbn [starts_with].
  destruct (Z.eqb_spec 13 b); [by subst | done].
Qed.

Lemma blank_free_app l k t : blank_free l (k ++ t) = true -> blank_free k t = true ->
  blank_free (l ++ k) t = true.
Proof.
  induction l as [|b l IH]; intros H1 H2; [done |]. cbn [blank_free app] in *.
  apply andb_true_iff in H1 as [Hs H1]. rewrite <- app_assoc, IH by done. by rewrite Hs.
Qed.

Lemma find_blank_here t : find_blank (BLANK ++ t) = Some 0.
Proof. reflexivity. Qed.

(** ** What a client reads of a response *)
(** The head, up to the blank line, and the body after it. *)
Definition read_response (raw : list Z) : option (list Z * list Z) :=
  match find_blank raw with
  | Some i => Some (take (Z.to_nat i) raw, drop (Z.to_nat (i + 4)) raw)
  | None => None
  end.

(** What follows the first occurrence of [p]. *)
Fixpoint after (p s : list Z) : option (list Z) :=
  if starts_with s p then Some (drop (length p) s)
  else match s with [] => None | _ :: s' => after p s' end.

Definition content_length (head : list Z) : option Z :=
  option_map (read_number 0) (after (lit "Content-Length: ") head).

Lemma response_head_blank_free status n t :
  status = lit "200 OK" \/ status = lit "404 Not Found" -> 0 <= n ->
  blank_free (response_head status n) (BLANK ++ t) = true.
Proof.
  intros Hs Hn. unfold response_head.
  assert (Hd : forall u, blank_free (display n) u = true).
  { intros u. apply blank_free_no_cr. eapply Forall_impl; [apply digits_are_digits, Hn |].
    cbv beta. lia. }
  pose proof (digits_are_digits 20 n Hn) as Hds. fold (display n) in Hds.
  destruct Hs as [-> | ->];
    (rewrite !app_assoc; apply blank_free_app; [|reflexivity];
     rewrite <- !app_assoc; repeat (apply blank_free_app; [|]); try apply Hd; try reflexivity).
Qed.

Lemma content_length_head status n :
  status = lit "200 OK" \/ status = lit "404 Not Found" -> 0 <= n < U64 ->
  content_length (response_head status n) = Some n.
Proof.
  intros Hs Hn. unfold content_length.
  assert (E : after (lit "Content-Length: ") (response_head status n) =
    Some (display n ++ CRLF ++ lit "Connection: close")) by (by destruct Hs as [-> | ->]).
  rewrite E. cbn [option_map]. f_equal. by apply read_display.
Qed.

Lemma read_response_head status n body :
  status = lit "200 OK" \/ status = lit "404 Not Found" -> 0 <= n ->
  read_response (response_head status n ++ BLANK ++ body) = Some (response_head status n, body).
Proof.
  intros Hs Hn. unfold read_response.
  rewrite find_blank_skip by (by apply response_head_blank_free).
  rewrite find_blank_here. cbn [option_map]. set (h := response_head status n).
  rewrite Z.add_0_r. unfold len. rewrite Nat2Z.id, take_app_length. do 2 f_equal.
  rewrite app_assoc. replace (Z.to_nat (Z.of_nat (length h) + 4)) with (length (h ++ BLANK))
    by (rewrite length_app; cbn [length BLANK CRLF app]; lia).
  by rewrite drop_app_length.
Qed.

(** *** Lengths *)
Definition total (ws : list (list Z)) : Z := foldr (fun w n => len w + n) 0 ws.

Lemma total_cons w ws : total (w :: ws) = len w + total ws.
Proof. done. Qed.

Lemma total_nonneg ws : 0 <= total ws.
Proof.
  induction ws as [|w ws IH]; [done |]. rewrite total_cons. pose proof (len_nonneg w). lia.
Qed.

Lemma words_total s : forall skip cur, total (words skip cur s) <= len cur + len s.
Proof.
  induction s as [|b s IH]; intros skip cur; cbn [words].
  - destruct cur; [done |]. rewrite total_cons. change (total []) with 0. pose proof (len_nonneg (@nil Z)). lia.
  - rewrite len_cons. destruct skip as [|k].
    + destruct (ws_len (b :: s)) as [|k].
      * specialize (IH 0%nat (cur ++ [b])). rewrite len_app, len_cons, len_nil in IH. lia.
      * specialize (IH k []). rewrite len_nil in IH.
        pose proof (len_nonneg cur).
        destruct cur; cbn [app]; [rewrite len_nil; lia | rewrite total_cons; lia].
    + specialize (IH k cur). lia.
Qed.

Lemma first_line_len s : len (first_line s) <= len s.
Proof.
  induction s as [|b s IH]; [done |]. cbn [first_line].
  pose proof (len_nonneg s). destruct (b =? 10); [rewrite len_nil, len_cons; lia |].
  destruct (b =? 13); [destruct s as [|b' s']; [done |]; destruct (b' =? 10) |];
    rewrite ?len_nil, ?len_cons in *; lia.
Qed.

Lemma request_line_len req :
  len (fst (request_line req)) + len (snd (request_line req)) <= len req + 4.
Proof.
  unfold request_line, split_whitespace. pose proof (words_total (first_line req) 0 []) as H.
  pose proof (first_line_len req). rewrite len_nil in H.
  destruct (words 0 [] (first_line req)) as [|m [|p ws]]; cbn [fst snd].
  - change (len lit_get) with 3. change (len lit_root) with 1. pose proof (len_nonneg req). lia.
  - change (len lit_root) with 1. rewrite total_cons in H. pose proof (total_nonneg []). lia.
  - rewrite !total_cons in H. pose proof (total_nonneg ws). lia.
Qed.

Lemma len_display n : len (display n) <= 20.
Proof.
  unfold display. assert (H : forall f m, len (digits f m) <= Z.of_nat f).
  { induction f as [|f IH]; intros m; [done |]. cbn [digits].
    destruct (m <? 10); [rewrite len_cons, len_nil; lia |].
    rewrite len_app, len_cons, len_nil. specialize (IH (m / 10)). lia. }
  apply (H 20%nat).
Qed.

Lemma response_body_len req secs :
  let '(method, path) := request_line req in
  len (response_body req method path secs) <= len req + 60.
Proof.
  pose proof (request_line_len req) as H. destruct (request_line req) as [m p]. cbn [fst snd] in H.
  pose proof (len_nonneg req). pose proof (len_display secs).
  assert (L : forall l, len (lit l) = Z.of_nat (length (lit l))) by done.
  unfold response_body. repeat (destruct (_ && _)%bool; [|]); rewrite ?len_app;
    try (change (len CRLF) with 2).
  - change (len (lit "Hello from Magnum-TCP!")) with 22. lia.
  - lia.
  - change (len (lit "Unix timestamp: ")) with 16. lia.
  - change (len (lit "You posted: ")) with 12. unfold len. rewrite length_drop. lia.
  - change (len (lit "404 Not Found: ")) with 15. change (len (lit " ")) with 1. lia.
Qed.

Lemma response_status_cases m p :
  response_status m p = lit "200 OK" \/ response_status m p = lit "404 Not Found".
Proof. unfold response_status. destruct (_ || _)%bool; [by left | by right]. Qed.

(** C38. Whatever the request, valid UTF-8 or not, the response is a well-framed
    HTTP response: a status line, then headers up to one blank line, whose
    Content-Length is exactly the length of the body that follows. *)
Theorem http_response_framed request secs :
  len request < U32 ->
  let req := match from_utf8 request with Some s => s | None => [] end in
  let '(method, path) := request_line req in
  let body := response_body req method path secs in
  exists head, read_response (build_http_response request secs) = Some (head, body) /\
    content_length head = Some (len body) /\
    starts_with head (lit "HTTP/1.1 " ++ response_status method path ++ CRLF) = true.
Proof.
  intros Hl req. unfold build_http_response. fold req.
  assert (Hr : len req <= len request).
  { unfold req, from_utf8. destruct (utf8_valid request); [lia |]. apply len_nonneg. }
  pose proof (response_body_len req secs) as Hb.
  destruct (request_line req) as [m p]. cbv zeta. set (body := response_body req m p secs) in *.
  pose proof (len_nonneg body). pose proof (response_status_cases m p) as Hs.
  exists (response_head (response_status m p) (len body)).
  split; [by apply read_response_head |].
  split; [apply content_length_head; [done | unfold U32, U64 in *; lia] |].
  unfold response_head. by destruct Hs as [-> | ->].
Qed.

Lemma http_response_framed_witness :
  len demo_put < U32 /\
  exists head, read_response (build_http_response demo_put 7) =
      Some (head, lit "404 Not Found: PUT /" ++ CRLF) /\
    content_length head = Some 22 /\
    starts_with head (lit "HTTP/1.1 " ++ lit "200 OK" ++ CRLF) = true.
Proof. split; [reflexivity |]. exact (http_response_framed demo_put 7 eq_refl). Defined.

(** ** Routes *)
(** A method or a path: printable ASCII without a space. *)
Definition token (w : list Z) : Prop := w <> [] /\ Forall (fun b => 33 <= b <= 126) w.

(** A request: request line, end of line, the rest. *)
Definition request (method path rest : list Z) : list Z :=
  method ++ lit " " ++ path ++ lit " HTTP/1.1" ++ CRLF ++ rest.

Lemma utf8_ascii l t : Forall (fun b => b < 128) l -> utf8_valid (l ++ t) = utf8_valid t.
Proof.
  induction 1 as [|b l Hb _ IH]; [done |].
  change (utf8_valid ((b :: l) ++ t)) with
    (utf8_valid (b :: (l ++ t))). cbn [utf8_valid].
  destruct (Z.ltb_spec b 128); [exact IH | lia].
Qed.

Lemma first_line_app l t :
  Forall (fun b => b <> 10 /\ b <> 13) l -> first_line (l ++ CRLF ++ t) = l.
Proof.
  induction 1 as [|b l [H1 H2] _ IH]; [done |]. cbn [app first_line].
  destruct (Z.eqb_spec b 10); [done |]. destruct (Z.eqb_spec b 13); [done |]. by rewrite IH.
Qed.

Lemma ws_len_token b s : 33 <= b <= 126 -> ws_len (b :: s) = 0%nat.
Proof.
  intros Hb. unfold ws_len, in_range.
  replace ((9 <=? b) && (b <=? 13) || (b =? 32))%bool with false by lia.
  destruct s as [|b1 [|b2 s]]; [done | |]; replace (b =? 194) with false by lia; [done |].
  replace (b =? 225) with false by lia. replace (b =? 226) with false by lia.
  by replace (b =? 227) with false by lia.
Qed.

Lemma words_token w : forall cur t,
  Forall (fun b => 33 <= b <= 126) w -> words 0 cur (w ++ t) = words 0 (cur ++ w) t.
Proof.
  induction w as [|b w IH]; intros cur t Hw; [by rewrite app_nil_r |].
  apply Forall_cons in Hw as [Hb Hw]. cbn [app words]. rewrite ws_len_token by done.
  rewrite IH by done. by rewrite <- app_assoc.
Qed.

Lemma words_space w t : w <> [] -> words 0 w (lit " " ++ t) = w :: words 0 [] t.
Proof. intros Hw. change (lit " " ++ t) with (32 :: t). by destruct w. Qed.

Lemma token_not_break w : Forall (fun b => 33 <= b <= 126) w -> Forall (fun b => b <> 10 /\ b <> 13) w.
Proof. intros H. eapply Forall_impl; [exact H |]. cbv beta. lia. Qed.

Lemma request_line_request method path rest :
  token method -> token path -> request_line (request method path rest) = (method, path).
Proof.
  intros [Hm Fm] [Hp Fp]. unfold request_line, request.
  assert (E : first_line (method ++ lit " " ++ path ++ lit " HTTP/1.1" ++ CRLF ++ rest) =
              method ++ lit " " ++ path ++ lit " HTTP/1.1").
  { rewrite <- (first_line_app (method ++ lit " " ++ path ++ lit " HTTP/1.1") rest);
      [by rewrite <- !app_assoc |].
    apply Forall_app. split; [by apply token_not_break |]. apply Forall_app. split; [repeat constructor; done |].
    apply Forall_app. split; [by apply token_not_break | repeat constructor; done]. }
  rewrite E. unfold split_whitespace.
  rewrite words_token by done. cbn [app]. rewrite words_space by done.
  rewrite words_token by done. cbn [app].
  change (lit " HTTP/1.1") with (lit " " ++ lit "HTTP/1.1"). by rewrite words_space.
Qed.

(** The table of README.md: the body and whether the route exists. *)
Definition route (req method path rest : list Z) (secs : Z) : list Z * bool :=
  if (str_eqb method lit_get && str_eqb path lit_root)%bool then (lit "Hello from Magnum-TCP!" ++ CRLF, true)
  else if (str_eqb method lit_get && str_eqb path lit_echo)%bool then (req, true)
  else if (str_eqb method lit_get && str_eqb path lit_time)%bool then
    (lit "Unix timestamp: " ++ display secs ++ CRLF, true)
  else if (str_eqb method lit_post && str_eqb path lit_root)%bool then
    (lit "You posted: " ++ rest ++ CRLF, true)
  else (lit "404 Not Found: " ++ method ++ lit " " ++ path ++ CRLF, false).

(** The request with one header line [h] and the body [rest]. *)
Definition request_with (method path h rest : list Z) : list Z :=
  request method path (h ++ BLANK ++ rest).

Lemma token_not_cr w : Forall (fun b => 33 <= b <= 126) w -> Forall (fun b => b <> 13) w.
Proof. intros H. eapply Forall_impl; [exact H |]. cbv beta. lia. Qed.

Lemma find_blank_request method path h rest :
  token method -> token path -> h <> [] -> Forall (fun b => 32 <= b <= 126) h ->
  find_blank (request_with method path h rest) =
    Some (len (request method path h)).
Proof.
  intros [_ Fm] [_ Fp] Hne Fh. unfold request_with, request.
  assert (Hh : Forall (fun b => b <> 13) h) by (eapply Forall_impl; [exact Fh |]; cbv beta; lia).
  replace (method ++ lit " " ++ path ++ lit " HTTP/1.1" ++ CRLF ++ h ++ BLANK ++ rest)
    with ((method ++ lit " " ++ path ++ lit " HTTP/1.1" ++ CRLF ++ h) ++ BLANK ++ rest)
    by (by rewrite <- !app_assoc).
  rewrite find_blank_skip; [by rewrite find_blank_here; cbn [option_map]; rewrite Z.add_0_r |].
  repeat first [ apply blank_free_app
               | apply blank_free_no_cr; first [by apply token_not_cr | exact Hh | repeat constructor; done] ].
  destruct h as [|b h]; [done |]. apply Forall_cons in Fh as [Hb _].
  change (CRLF) with [13; 10]. cbn [blank_free app]. change BLANK with [13; 10; 13; 10].
  cbn [starts_with app]. rewrite !Z.eqb_refl. destruct (Z.eqb_spec 13 b); [lia |]. done.
Qed.

(** The routes of README.md: to a request with any method, path, header line
    and UTF-8 body, the response carries exactly the body of the table, and the
    status 200 exactly when the table has the route, or (which the table does not
    say) when the path is "/". *)
Theorem http_routes method path h rest secs :
  token method -> token path -> h <> [] -> Forall (fun b => 32 <= b <= 126) h ->
  utf8_valid rest = true ->
  let req := request_with method path h rest in
  let '(body, found) := route req method path rest secs in
  build_http_response req secs =
    response_head (if (found || str_eqb path lit_root)%bool then lit "200 OK" else lit "404 Not Found")
      (len body) ++ BLANK ++ body.
Proof.
  intros Hm Hp Hne Fh Hr req.
  assert (Hu : from_utf8 req = Some req).
  { unfold from_utf8. replace (utf8_valid req) with true; [done |]. symmetry.
    destruct Hm as [_ Fm], Hp as [_ Fp]. unfold req, request_with, request.
    repeat rewrite utf8_ascii; [exact Hr |..]; try (repeat constructor; done);
      (eapply Forall_impl; [eassumption |]; cbv beta; lia). }
  pose proof (request_line_request method path (h ++ BLANK ++ rest) Hm Hp) as HL.
  change (request method path (h ++ BLANK ++ rest)) with req in HL.
  unfold build_http_response. rewrite Hu, HL.
  assert (Hbody : response_body req method path secs = fst (route req method path rest secs)).
  { unfold response_body, route. repeat (destruct (_ && _)%bool; [try reflexivity |]); [|reflexivity].
    unfold req at 1. rewrite find_blank_request by done. cbn [fst]. do 2 f_equal.
    unfold req, request_with, request, len.
    replace (method ++ lit " " ++ path ++ lit " HTTP/1.1" ++ CRLF ++ h ++ BLANK ++ rest)
      with (((method ++ lit " " ++ path ++ lit " HTTP/1.1" ++ CRLF ++ h) ++ BLANK) ++ rest)
      by (by rewrite <- !app_assoc).
    rewrite drop_app_length'; [done |]. rewrite (length_app _ BLANK). change (length BLANK) with 4%nat. lia. }
  rewrite Hbody.
  assert (Hst : response_status method path =
    if (snd (route req method path rest secs) || str_eqb path lit_root)%bool
    then lit "200 OK" else lit "404 Not Found").
  { unfold response_status, route.
    destruct (str_eqb path lit_root), (str_eqb method lit_get), (str_eqb path lit_echo),
      (str_eqb path lit_time), (str_eqb method lit_post); reflexivity. }
  rewrite Hst. by destruct (route req method path rest secs).
Qed.

Lemma http_routes_witness :
  build_http_response (request_with lit_post lit_root (lit "Host: x") (lit "ping")) 0 =
  response_head (lit "200 OK") 18 ++ BLANK ++ lit "You posted: ping" ++ CRLF.
Proof.
  refine (http_routes lit_post lit_root (lit "Host: x") (lit "ping") 0 _ _ _ _ _);
    [split; [discriminate |] | split; [discriminate |] | discriminate | | reflexivity];
    repeat constructor; discriminate.
Defined.

(** ** Chunks *)
Lemma starts_with_app s t p : starts_with s p = true -> starts_with (s ++ t) p = true.
Proof.
  revert s. induction p as [|x p IH]; intros s H; [done |]. destruct s as [|y s]; [done |].
  cbn [app starts_with] in *. apply andb_true_iff in H as [-> H]. by apply IH.
Qed.

Lemma is_http_app s t : is_http s = true -> is_http (s ++ t) = true.
Proof.
  unfold is_http. intros H. repeat (apply orb_true_iff in H as [H|H]);
    apply (starts_with_app _ t) in H; rewrite H, ?orb_true_r; reflexivity.
Qed.

Lemma headers_complete_app s t : headers_complete s = true -> headers_complete (s ++ t) = true.
Proof.
  unfold headers_complete. induction s as [|b s IH]; intros H; [done |].
  cbn [app find_blank] in *. change (b :: s ++ t) with ((b :: s) ++ t).
  destruct (starts_with (b :: s) BLANK) eqn:E; [by rewrite (starts_with_app _ t BLANK E) |].
  destruct (find_blank s); [|done]. specialize (IH eq_refl).
  destruct (starts_with ((b :: s) ++ t) BLANK); [done |]. by destruct (find_blank (s ++ t)).
Qed.

(** The bytes of some chunks. *)
Definition bytes_of (chunks : list (list Z * Z)) : list Z := concat (map fst chunks).

Lemma bytes_of_cons c t rest : bytes_of ((c, t) :: rest) = c ++ bytes_of rest.
Proof. done. Qed.

Lemma handle_chunks_responded chunks : forall s, responded s = true -> snd (handle_chunks s chunks) = [].
Proof.
  induction chunks as [|[c t] rest IH]; intros s Hs; [done |]. cbn [handle_chunks].
  unfold on_chunk. rewrite Hs. specialize (IH (mkAppState (request_buf s ++ c) true) eq_refl).
  by destruct (handle_chunks _ rest).
Qed.

(** An HTTP request whose headers are not complete yet. *)
Lemma handle_chunks_pending chunks : forall buf,
  is_http buf = true -> headers_complete buf = false ->
  (headers_complete (buf ++ bytes_of chunks) = false /\
   snd (handle_chunks (mkAppState buf false) chunks) = []) \/
  exists pre c t suf, chunks = pre ++ (c, t) :: suf /\
    headers_complete (buf ++ bytes_of pre) = false /\
    headers_complete (buf ++ bytes_of pre ++ c) = true /\
    snd (handle_chunks (mkAppState buf false) chunks) =
      [build_http_response (buf ++ bytes_of pre ++ c) t].
Proof.
  induction chunks as [|[c t] rest IH]; intros buf Hh Hc; [left; by rewrite app_nil_r |].
  cbn [handle_chunks]. unfold on_chunk. cbn [responded request_buf].
  rewrite (is_http_app _ c Hh). cbn [andb negb].
  destruct (headers_complete (buf ++ c)) eqn:Ec.
  - right. exists [], c, t, rest. rewrite app_nil_r. split; [done |]. split; [done |].
    split; [exact Ec |].
    pose proof (handle_chunks_responded rest (mkAppState (buf ++ c) true) eq_refl) as Hr.
    destruct (handle_chunks _ rest) as [s2 outs]. cbn [snd] in *. by rewrite Hr.
  - rewrite bytes_of_cons, app_assoc.
    destruct (IH (buf ++ c) (is_http_app _ c Hh) Ec) as [[H1 H2]|(pre & c1 & t1 & suf & E & H1 & H2 & H3)];
      destruct (handle_chunks (mkAppState (buf ++ c) false) rest) as [s2 outs]; cbn [snd] in *.
    + by left.
    + right. exists ((c, t) :: pre), c1, t1, suf. rewrite bytes_of_cons, <- !app_assoc in *.
      by subst.
Qed.


