(* ===== verification/Chaos.v ===== *)
(** * The chaos middleware (src/magnum-tcp/src/chaos.rs)

    Packet loss, jitter and reordering on the outbound path, driven by a xorshift
    generator. An [Instant] is a number of nanoseconds. *)
From S2P Require Import Prelude Float64 Retransmit.
From Stdlib Require Import SpecFloat.

Record ChaosConfig := mkChaosConfig {
  drop_rate : f64;
  reorder_rate : f64;
  max_jitter_ms : Z }.

Definition ChaosConfig_packet_loss (rate : f64) : ChaosConfig :=
  {| drop_rate := f64_clamp rate f64_0 f64_1; reorder_rate := f64_0; max_jitter_ms := 0 |}.

Definition ChaosConfig_none : ChaosConfig :=
  {| drop_rate := f64_0; reorder_rate := f64_0; max_jitter_ms := 0 |}.

Record ChaosMiddleware := mkChaosMiddleware {
  config : ChaosConfig;
  pending : list (list Z * Z);
  rng : Z }.

Definition ChaosMiddleware_new (cfg : ChaosConfig) : ChaosMiddleware :=
  {| config := cfg; pending := []; rng := 1311768467463790320 |}.

Definition with_rng (c : ChaosMiddleware) (r : Z) : ChaosMiddleware :=
  {| config := config c; pending := pending c; rng := r |}.
Definition with_pending (c : ChaosMiddleware) (p : list (list Z * Z)) : ChaosMiddleware :=
  {| config := config c; pending := p; rng := rng c |}.

Definition next_u64 (c : ChaosMiddleware) : ChaosMiddleware * Z :=
  let x := rng c in
  let x := Z.lxor x (as_u64 (Z.shiftl x 13)) in
  let x := Z.lxor x (Z.shiftr x 7) in
  let x := Z.lxor x (as_u64 (Z.shiftl x 17)) in
  (with_rng c x, x).

Definition next_f64 (c : ChaosMiddleware) : ChaosMiddleware * f64 :=
  let '(c, x) := next_u64 c in
  (c, f64_div (f64_of_u64 (Z.shiftr x 11)) (f64_of_u64 (Z.shiftl 1 53))).

(** The [while] loop of [flush_ready], over the queue. *)
Fixpoint pop_ready (now : Z) (q : list (list Z * Z)) : list (list Z) * list (list Z * Z) :=
  match q with
  | (pkt, t) :: q' =>
      if t <=? now then let '(out, rest) := pop_ready now q' in (pkt :: out, rest) else ([], q)
  | [] => ([], [])
  end.

Definition flush_ready (c : ChaosMiddleware) (now : Z) : ChaosMiddleware * list (list Z) :=
  let '(out, rest) := pop_ready now (pending c) in (with_pending c rest, out).

(** [max_jitter_ms + 1] panics on overflow, as does [now + delay]. *)
Definition jitter (c : ChaosMiddleware) : Fallible (ChaosMiddleware * Z) :=
  if 0 <? max_jitter_ms (config c) then
    let '(c, x) := next_u64 c in
    if max_jitter_ms (config c) + 1 <? U64 then Ok (c, x mod (max_jitter_ms (config c) + 1)) else Panic
  else Ok (c, 0).

Definition instant_add (now d : Z) : Fallible Z :=
  if now + d <? DURATION_MAX then Ok (now + d) else Panic.

Definition intercept (c : ChaosMiddleware) (packet : list Z) (now : Z)
    : Fallible (ChaosMiddleware * list (list Z)) :=
  let '(c, roll) := next_f64 c in
  if f64_lt roll (drop_rate (config c)) then Ok (c, [])
  else
    '(c, delay_ms) ← jitter c;
    let '(c, roll) := next_f64 c in
    let reorder := f64_lt roll (reorder_rate (config c)) in
    if ((0 <? delay_ms) || reorder)%bool then
      release ← instant_add now (from_millis delay_ms);
      let c := with_pending c (pending c ++ [(packet, release)]) in
      Ok (flush_ready c now)
    else
      let '(c, out) := flush_ready c now in
      Ok (c, out ++ [packet]).

(** ** The generator *)
Lemma lxor_u64 a b : 0 <= a < U64 -> 0 <= b < U64 -> 0 <= Z.lxor a b < U64.
Proof.
  intros Ha Hb. assert (H0 : 0 <= Z.lxor a b) by (apply Z.lxor_nonneg; lia).
  split; [done |]. destruct (Z.eq_dec (Z.lxor a b) 0) as [->|]; [done |].
  change U64 with (2 ^ 64) in *. apply Z.log2_lt_pow2; [lia |].
  assert (Hl : forall x, 0 <= x < 2 ^ 64 -> Z.log2 x < 64).
  { intros x Hx. destruct (Z.eq_dec x 0) as [->|]; [done |]. apply Z.log2_lt_pow2; lia. }
  pose proof (Z.log2_lxor a b ltac:(lia) ltac:(lia)). pose proof (Hl a Ha). pose proof (Hl b Hb). lia.
Qed.

Lemma as_u64_range x : 0 <= as_u64 x < U64.
Proof. apply Z.mod_pos_bound. done. Qed.

Lemma shiftr_u64 x n : 0 <= x < U64 -> 0 <= n -> 0 <= Z.shiftr x n < U64.
Proof.
  intros Hx Hn. split; [apply Z.shiftr_nonneg; lia |].
  rewrite Z.shiftr_div_pow2 by done. pose proof (Z.pow_pos_nonneg 2 n ltac:(lia) Hn).
  apply Z.div_lt_upper_bound; nia.
Qed.

(** A left xorshift step maps only 0 to 0. *)
Lemma xorshift_left_nonzero x n :
  0 < x < U64 -> 0 < n -> Z.lxor x (as_u64 (Z.shiftl x n)) <> 0.
Proof.
  intros Hx Hn H. apply Z.lxor_eq in H. unfold as_u64 in H. rewrite Z.shiftl_mul_pow2 in H by lia.
  assert (Hd : (U64 | (2 ^ n - 1) * x)).
  { exists ((x * 2 ^ n) / U64). pose proof (Z.div_mod (x * 2 ^ n) U64 ltac:(done)). lia. }
  apply Z.gauss in Hd; [apply Z.divide_pos_le in Hd; lia |].
  change U64 with (2 ^ 64). apply Z.coprime_pow_l; [lia |].
  replace n with (Z.succ (n - 1)) by lia. rewrite Z.pow_succ_r by lia.
  replace (2 * 2 ^ (n - 1) - 1) with (-1 + 2 ^ (n - 1) * 2) by lia.
  unfold Z.coprime. by rewrite Z.gcd_add_mult_diag_r.
Qed.

Lemma xorshift_right_nonzero x n : 0 < x -> 0 < n -> Z.lxor x (Z.shiftr x n) <> 0.
Proof.
  intros Hx Hn H. apply Z.lxor_eq in H. rewrite Z.shiftr_div_pow2 in H by lia.
  assert (1 < 2 ^ n) by (apply Z.pow_gt_1; lia). pose proof (Z.div_lt x (2 ^ n) ltac:(lia) ltac:(lia)). lia.
Qed.

(** The generator never reaches the fixed point 0 of xorshift. *)
Lemma next_u64_range c :
  0 < rng c < U64 ->
  0 < rng (fst (next_u64 c)) < U64 /\ snd (next_u64 c) = rng (fst (next_u64 c)) /\
  config (fst (next_u64 c)) = config c /\ pending (fst (next_u64 c)) = pending c.
Proof.
  intros Hc. unfold next_u64. cbn [fst snd with_rng rng config pending]. split; [|done].
  set (x1 := Z.lxor (rng c) _). set (x2 := Z.lxor x1 _).
  assert (H1 : 0 < x1 < U64).
  { pose proof (xorshift_left_nonzero (rng c) 13 Hc eq_refl) as H. fold x1 in H.
    pose proof (lxor_u64 (rng c) (as_u64 (Z.shiftl (rng c) 13)) ltac:(lia) (as_u64_range _)).
    fold x1 in H0. lia. }
  assert (H2 : 0 < x2 < U64).
  { pose proof (xorshift_right_nonzero x1 7 ltac:(lia) eq_refl) as H. fold x2 in H.
    pose proof (lxor_u64 x1 (Z.shiftr x1 7) ltac:(lia) (shiftr_u64 x1 7 ltac:(lia) ltac:(lia))).
    fold x2 in H0. lia. }
  pose proof (xorshift_left_nonzero x2 17 H2 eq_refl).
  pose proof (lxor_u64 x2 (as_u64 (Z.shiftl x2 17)) ltac:(lia) (as_u64_range _)). lia.
Qed.

Lemma next_f64_unit c :
  0 < rng c < U64 ->
  0 < rng (fst (next_f64 c)) < U64 /\ config (fst (next_f64 c)) = config c /\
  pending (fst (next_f64 c)) = pending c /\
  f64_lt (snd (next_f64 c)) f64_0 = false /\ f64_lt (snd (next_f64 c)) f64_1 = true.
Proof.
  intros Hc. destruct (next_u64_range c Hc) as (H1 & H2 & H3 & H4). unfold next_f64.
  destruct (next_u64 c) as [c1 x]. cbn [fst snd] in *. subst x.
  split; [done |]. split; [done |]. split; [done |]. apply f64_unit_interval.
  split; [apply Z.shiftr_nonneg; lia |]. rewrite Z.shiftr_div_pow2 by lia.
  apply Z.div_lt_upper_bound; unfold U64 in *; lia.
Qed.

(** ** The queue *)
Lemma pop_ready_app now q :
  fst (pop_ready now q) ++ map fst (snd (pop_ready now q)) = map fst q.
Proof.
  induction q as [|[pkt t] q IH]; cbn [pop_ready map fst]; [done |].
  destruct (t <=? now); [|done]. destruct (pop_ready now q) as [out rest]. cbn in *. by rewrite IH.
Qed.

Lemma pop_ready_all now q :
  Forall (fun e => snd e <= now) q -> pop_ready now q = (map fst q, []).
Proof.
  induction 1 as [|[pkt t] q Ht _ IH]; [done |]. cbn [pop_ready map fst snd] in *.
  apply Z.leb_le in Ht. by rewrite Ht, IH.
Qed.

Lemma pop_ready_suffix now q P :
  Forall P q -> Forall P (snd (pop_ready now q)).
Proof.
  induction 1 as [|[pkt t] q Ht Hq IH]; [constructor |]. cbn [pop_ready].
  destruct (t <=? now); [|by constructor]. by destruct (pop_ready now q).
Qed.

(** The state between two packets: every held frame is due by [T]. *)
Definition chaos_ok (T : Z) (c : ChaosMiddleware) : Prop :=
  0 < rng c < U64 /\ 0 <= max_jitter_ms (config c) < U64 - 1 /\
  Forall (fun e => snd e <= T) (pending c).

Definition due (cfg : ChaosConfig) (now : Z) : Z := now + from_millis (max_jitter_ms cfg).

Lemma jitter_spec c :
  0 < rng c < U64 -> 0 <= max_jitter_ms (config c) < U64 - 1 ->
  exists c' d, jitter c = Ok (c', d) /\ 0 < rng c' < U64 /\ config c' = config c /\
    pending c' = pending c /\ 0 <= d <= max_jitter_ms (config c).
Proof.
  intros Hr Hj. unfold jitter. destruct (Z.ltb_spec 0 (max_jitter_ms (config c))).
  - destruct (next_u64_range c Hr) as (H1 & _ & H3 & H4).
    destruct (next_u64 c) as [c1 x]. cbn [fst] in *. rewrite H3.
    destruct (Z.ltb_spec (max_jitter_ms (config c) + 1) U64); [|lia].
    eexists _, _. split; [done |]. repeat (split; [done |]).
    pose proof (Z.mod_pos_bound x (max_jitter_ms (config c) + 1)). lia.
  - eexists _, _. split; [done |]. repeat (split; [done |]). lia.
Qed.

(** One packet: dropped, or delivered now, or held and due by [T]. *)
Definition intercepted (T : Z) (c : ChaosMiddleware) (packet : list Z)
    (c' : ChaosMiddleware) (outs : list (list Z)) : Prop :=
  chaos_ok T c' /\ config c' = config c /\
  ((pending c' = pending c /\ outs = [] /\ drop_rate (config c) <> f64_0) \/
   (outs ++ map fst (pending c') ≡ₚ map fst (pending c) ++ [packet] /\
    drop_rate (config c) <> f64_1 /\
    (max_jitter_ms (config c) = 0 -> pending c = [] -> pending c' = [] /\ outs = [packet]))).

Lemma intercept_spec T c packet now :
  chaos_ok T c -> 0 <= now -> due (config c) now <= T < DURATION_MAX ->
  exists c' outs, intercept c packet now = Ok (c', outs) /\ intercepted T c packet c' outs.
Proof.
  intros (Hr & Hj & Hp) Hn HT. unfold due, from_millis in *. unfold intercept.
  destruct (next_f64_unit c Hr) as (R1 & C1 & P1 & L0 & L1).
  destruct (next_f64 c) as [c1 roll]. cbn [fst snd] in *.
  destruct (f64_lt roll (drop_rate (config c1))) eqn:Hd; rewrite C1 in Hd.
  { eexists _, _. split; [done |]. split; [split; [done | rewrite C1, P1; done] |].
    split; [done |]. left. repeat (split; [done |]). congruence. }
  assert (Hd1 : drop_rate (config c) <> f64_1) by congruence.
  destruct (jitter_spec c1 R1) as (c2 & d & -> & R2 & C2 & P2 & D2); [by rewrite C1 |].
  cbn [mbind Res_bind].
  destruct (next_f64_unit c2 R2) as (R3 & C3 & P3 & _ & _).
  destruct (next_f64 c2) as [c3 roll2]. cbn [fst snd] in *.
  assert (HC : config c3 = config c) by congruence.
  assert (HP : pending c3 = pending c) by congruence.
  destruct (_ || _)%bool.
  - unfold instant_add. rewrite C1 in D2. unfold from_millis.
    destruct (Z.ltb_spec (now + d * 1000000) DURATION_MAX); [|lia]. cbn [mbind Res_bind].
    unfold flush_ready. cbn [pending with_pending]. rewrite HP.
    assert (Hq : Forall (fun e => snd e <= T) (pending c ++ [(packet, now + d * 1000000)])).
    { apply Forall_app_2; [done |]. repeat constructor. cbn. lia. }
    pose proof (pop_ready_app now (pending c ++ [(packet, now + d * 1000000)])) as Ha.
    pose proof (pop_ready_suffix now _ _ Hq) as Hs.
    destruct (pop_ready now _) as [out rest] eqn:Ep. cbn [fst snd] in *.
    eexists _, _. split; [done |]. split; [|split; [done |]].
    + split; [done |]. cbn. rewrite HC. done.
    + right. cbn [pending with_pending]. split; [rewrite Ha, map_app; done |]. split; [done |].
      intros J0 Hnil. assert (d = 0) as -> by lia. rewrite Hnil, Z.add_0_r in Ep.
      cbn [app pop_ready] in Ep. rewrite Z.leb_refl in Ep. by injection Ep as <- <-.
  - unfold flush_ready. rewrite HP.
    pose proof (pop_ready_app now (pending c)) as Ha.
    pose proof (pop_ready_suffix now _ _ Hp) as Hs.
    destruct (pop_ready now _) as [out rest] eqn:Ep. cbn [fst snd] in *.
    eexists _, _. split; [done |]. split; [|split; [done |]].
    + split; [done |]. cbn. rewrite HC. done.
    + right. cbn [pending with_pending]. split; [|split; [done |]].
      * rewrite <- Ha, <- !app_assoc. apply Permutation_app_head, Permutation_app_comm.
      * intros _ Hnil. rewrite Hnil in Ep. by injection Ep as <- <-.
Qed.

(** ** Runs: the frames the main loop sends, each with the time it is sent at *)
Fixpoint chaos_run (c : ChaosMiddleware) (sent : list (list Z * Z))
    : Fallible (ChaosMiddleware * list (list Z)) :=
  match sent with
  | [] => Ok (c, [])
  | (packet, now) :: rest =>
      '(c, out) ← intercept c packet now;
      '(c, outs) ← chaos_run c rest;
      Ok (c, out ++ outs)
  end.

Definition sent_ok (cfg : ChaosConfig) (T : Z) (sent : list (list Z * Z)) : Prop :=
  Forall (fun e => 0 <= snd e /\ due cfg (snd e) <= T) sent.

Lemma chaos_run_spec T : T < DURATION_MAX -> forall sent c,
  chaos_ok T c -> sent_ok (config c) T sent ->
  exists c' outs kept, chaos_run c sent = Ok (c', outs) /\ chaos_ok T c' /\
    config c' = config c /\ sublist kept (map fst sent) /\
    outs ++ map fst (pending c') ≡ₚ map fst (pending c) ++ kept /\
    (drop_rate (config c) = f64_0 -> kept = map fst sent) /\
    (drop_rate (config c) = f64_1 -> kept = []) /\
    (max_jitter_ms (config c) = 0 -> pending c = [] -> pending c' = [] /\ outs = kept).
Proof.
  intros HT sent. induction sent as [|[packet now] rest IH]; intros c Hc Hs.
  { exists c, [], []. rewrite app_nil_r. split; [done |]. split; [done |]. split; [done |].
    split; [constructor |]. split; [done |]. auto. }
  inversion Hs as [|? ? [Hn Hdue] Hrest]; subst. cbn [snd] in *.
  destruct (intercept_spec T c packet now) as (c1 & out & E1 & Ok1 & C1 & H1); [done | done | lia |].
  destruct (IH c1 Ok1) as (c2 & outs & kept & E2 & Ok2 & C2 & Sub & Perm & K0 & K1 & J0);
    [by rewrite C1 |]. rewrite C1 in *.
  cbn [chaos_run map fst]. rewrite E1. cbn [mbind Res_bind]. rewrite E2. cbn [mbind Res_bind].
  destruct H1 as [(Hp & -> & Hd)|(Hperm & Hd & Hj)].
  - exists c2, outs, kept. split; [done |]. split; [done |]. split; [done |].
    split; [by constructor |]. split; [by rewrite Hp in Perm |].
    split; [done |]. split; [done |]. by rewrite Hp in J0.
  - exists c2, (out ++ outs), (packet :: kept). split; [done |]. split; [done |]. split; [done |].
    split; [by constructor |]. split; [|split; [|split; [done |]]].
    + rewrite <- app_assoc, Perm, app_assoc, Hperm, <- app_assoc. done.
    + intros Z0. by rewrite K0.
    + intros Z0 Hnil. destruct (Hj Z0 Hnil) as [Hp1 ->]. by destruct (J0 Z0 Hp1) as [-> ->].
Qed.


