(* ===== verification/Pcap.v ===== *)
(** * The capture file (src/magnum-tcp/src/pcap.rs)

    The bytes handed to the [Write] instance, for one that accepts them all (the
    [Vec<u8>] of the tests): the global header, then one record per packet. PcapIo.v
    has the same methods for a writer that can fail. The reader below is the one the
    libpcap format prescribes, and [read_capture_all] says it gets the packets back. *)
From S2P Require Import Prelude.

Definition LINKTYPE_ETHERNET : Z := 1.
Definition LINKTYPE_IPV4 : Z := 228.
Definition PCAP_MAGIC_LE : Z := 2712847316.
Definition PCAP_VERSION_MAJOR : Z := 2.
Definition PCAP_VERSION_MINOR : Z := 4.
Definition PCAP_SNAPLEN : Z := 65535.

Definition u16_to_le (x : Z) : list Z := [x mod 256; x / 256 mod 256].
Definition u32_to_le (x : Z) : list Z :=
  [x mod 256; x / 256 mod 256; x / 65536 mod 256; x / 16777216 mod 256].

Record PcapWriter := mkPcapWriter { written_bytes : list Z }.

Definition write_all (w : PcapWriter) (bytes : list Z) : PcapWriter :=
  {| written_bytes := written_bytes w ++ bytes |}.

Definition PcapWriter_new (linktype : Z) : PcapWriter :=
  let w := mkPcapWriter [] in
  let w := write_all w (u32_to_le PCAP_MAGIC_LE) in
  let w := write_all w (u16_to_le PCAP_VERSION_MAJOR) in
  let w := write_all w (u16_to_le PCAP_VERSION_MINOR) in
  let w := write_all w (u32_to_le 0) in
  let w := write_all w (u32_to_le 0) in
  let w := write_all w (u32_to_le PCAP_SNAPLEN) in
  write_all w (u32_to_le linktype).

(** [secs] and [micros] are what the system clock gives since the epoch. *)
Definition write_packet (w : PcapWriter) (data : list Z) (secs micros : Z) : PcapWriter :=
  let ts_sec := as_u32 secs in
  let ts_usec := micros in
  let l := as_u32 (len data) in
  let w := write_all w (u32_to_le ts_sec) in
  let w := write_all w (u32_to_le ts_usec) in
  let w := write_all w (u32_to_le l) in
  let w := write_all w (u32_to_le l) in
  write_all w data.

(** ** A reader of the format *)
Definition u16_from_le (b0 b1 : Z) : Z := b0 + b1 * 256.
Definition u32_from_le (b0 b1 b2 b3 : Z) : Z := b0 + b1 * 256 + b2 * 65536 + b3 * 16777216.

Record PcapRecord := mkPcapRecord { ts_sec : Z; ts_usec : Z; frame : list Z }.

Definition read_record (bs : list Z) : option (PcapRecord * list Z) :=
  match bs with
  | s0 :: s1 :: s2 :: s3 :: u0 :: u1 :: u2 :: u3 ::
    i0 :: i1 :: i2 :: i3 :: o0 :: o1 :: o2 :: o3 :: rest =>
      let incl := u32_from_le i0 i1 i2 i3 in
      if ((incl =? u32_from_le o0 o1 o2 o3) && (incl <=? len rest))%bool then
        Some (mkPcapRecord (u32_from_le s0 s1 s2 s3) (u32_from_le u0 u1 u2 u3)
                (take (Z.to_nat incl) rest), drop (Z.to_nat incl) rest)
      else None
  | _ => None
  end.

(** A record takes 16 bytes at least: the length of the input is enough fuel. *)
Fixpoint read_records (fuel : nat) (bs : list Z) : option (list PcapRecord) :=
  match bs, fuel with
  | [], _ => Some []
  | _, O => None
  | _, S fuel =>
      '(r, rest) ← read_record bs;
      rs ← read_records fuel rest;
      Some (r :: rs)
  end.

Definition read_capture (bs : list Z) : option (Z * list PcapRecord) :=
  match bs with
  | m0 :: m1 :: m2 :: m3 :: v0 :: v1 :: w0 :: w1 :: _ :: _ :: _ :: _ ::
    _ :: _ :: _ :: _ :: n0 :: n1 :: n2 :: n3 :: l0 :: l1 :: l2 :: l3 :: rest =>
      if ((u32_from_le m0 m1 m2 m3 =? 2712847316) && (u16_from_le v0 v1 =? 2) &&
          (u16_from_le w0 w1 =? 4) && (u32_from_le n0 n1 n2 n3 =? 65535))%bool then
        rs ← read_records (length rest) rest;
        Some (u32_from_le l0 l1 l2 l3, rs)
      else None
  | _ => None
  end.

Lemma u32_le_roundtrip x :
  is_u32 x ->
  u32_from_le (x mod 256) (x / 256 mod 256) (x / 65536 mod 256) (x / 16777216 mod 256) = x.
Proof. unfold u32_from_le. intros. word_lia. Qed.

(** A packet as the capture gets it: its bytes and the clock. *)
Record Captured := mkCaptured { data : list Z; secs : Z; micros : Z }.

Definition captured_ok (p : Captured) : Prop :=
  len (data p) < U32 /\ 0 <= micros p < 1000000.

Definition record_of (p : Captured) : PcapRecord :=
  mkPcapRecord (as_u32 (secs p)) (micros p) (data p).

Definition capture (linktype : Z) (ps : list Captured) : PcapWriter :=
  fold_left (fun w p => write_packet w (data p) (secs p) (micros p)) ps (PcapWriter_new linktype).

Definition record_bytes (p : Captured) : list Z :=
  u32_to_le (as_u32 (secs p)) ++ u32_to_le (micros p) ++
  u32_to_le (as_u32 (len (data p))) ++ u32_to_le (as_u32 (len (data p))) ++ data p.

Lemma fold_write ps : forall w,
  written_bytes (fold_left (fun w p => write_packet w (data p) (secs p) (micros p)) ps w) =
  written_bytes w ++ concat (map record_bytes ps).
Proof.
  induction ps as [|p ps IH]; intros w; cbn [fold_left map concat]; [by rewrite app_nil_r |].
  rewrite IH. unfold write_packet, write_all, record_bytes. cbn [written_bytes].
  by rewrite <- !app_assoc.
Qed.

Lemma read_record_bytes p rest :
  captured_ok p -> read_record (record_bytes p ++ rest) = Some (record_of p, rest).
Proof.
  intros [Hl Hm]. pose proof (len_nonneg (data p)).
  unfold record_bytes, u32_to_le. cbn [app read_record].
  rewrite !u32_le_roundtrip; try (apply as_u32_range); [|unfold is_u32; lia].
  rewrite as_u32_id by (unfold is_u32, U32 in *; lia).
  rewrite Z.eqb_refl, len_app. pose proof (len_nonneg rest).
  destruct (Z.leb_spec (len (data p)) (len (data p) + len rest)); [|lia]. cbn [andb].
  unfold len. rewrite Nat2Z.id, take_app_length, drop_app_length. done.
Qed.

Lemma read_records_bytes ps : forall fuel,
  Forall captured_ok ps -> (length (concat (map record_bytes ps)) <= fuel)%nat ->
  read_records fuel (concat (map record_bytes ps)) = Some (map record_of ps).
Proof.
  induction ps as [|p ps IH]; intros fuel Hok Hf; [by destruct fuel |].
  inversion Hok; subst. cbn [map concat] in *. rewrite length_app in Hf.
  assert (Hlen : (1 <= length (record_bytes p))%nat) by (cbn; lia).
  destruct fuel as [|fuel]; [lia |].
  unfold read_records; fold read_records.
  destruct (record_bytes p ++ _) as [|b bs] eqn:E; [discriminate E |].
  rewrite <- E, read_record_bytes by done. cbn [mbind option_bind].
  rewrite IH by (done || lia). done.
Qed.

(** The reader gets back what was written. *)
Lemma read_capture_all linktype ps :
  is_u32 linktype -> Forall captured_ok ps ->
  read_capture (written_bytes (capture linktype ps)) = Some (linktype, map record_of ps).
Proof.
  intros Hl Hps. unfold capture. rewrite fold_write.
  unfold PcapWriter_new, write_all, u32_to_le, u16_to_le. cbn [written_bytes app].
  unfold read_capture.
  rewrite read_records_bytes by done. cbn [mbind option_bind].
  rewrite (u32_le_roundtrip linktype) by done. reflexivity.
Qed.

Example read_capture_demo :
  is_u32 LINKTYPE_ETHERNET /\
  read_capture (written_bytes (capture LINKTYPE_ETHERNET
    [mkCaptured [104; 105] 1700000000 999999; mkCaptured [] 4294967297 0])) =
  Some (1, [mkPcapRecord 1700000000 999999 [104; 105]; mkPcapRecord 1 0 []]).
Proof.
  split; [done |].
  apply (read_capture_all LINKTYPE_ETHERNET
    [mkCaptured [104; 105] 1700000000 999999; mkCaptured [] 4294967297 0]); [done |].
  repeat constructor; done.
Defined.
