(* ===== verification/PcapIo.v ===== *)
(** * The capture file on a writer that can fail (src/magnum-tcp/src/pcap.rs)

    [PcapWriter<W>] for any [W: Write], as in the code: a call that fails ends the
    method with its error ([?]), and the bytes the writer took before stay written.
    Pcap.v is the case of a writer that takes everything, which is what Host.v runs;
    here is what remains true of the others. *)
From S2P Require Import Prelude Pcap.

(** [std::io::Write] as documented: [write_all] either takes all the bytes or stops at
    an error, some prefix of them being written; [flush] only moves what was taken.
    [accepted] is what the writer has taken so far. *)
Class Write (E W : Type) := {
  writer_write_all : list Z -> W -> W * Res E unit;
  writer_flush : W -> W * Res E unit;
  accepted : W -> list Z;
  write_all_takes : forall bs w, exists k,
    accepted (fst (writer_write_all bs w)) = accepted w ++ take k bs /\
    (snd (writer_write_all bs w) = Ok tt -> (length bs <= k)%nat);
  write_all_returns : forall bs w, snd (writer_write_all bs w) <> Panic;
  flush_keeps : forall w, accepted (fst (writer_flush w)) = accepted w;
  flush_returns : forall w, snd (writer_flush w) <> Panic }.

(** Methods of [&mut self] that return [io::Result]: the writer survives the error. *)
Definition Io (E W A : Type) : Type := W -> W * Res E A.

#[export] Instance Io_ret {E W} : MRet (Io E W) := fun A a w => (w, Ok a).
#[export] Instance Io_bind {E W} : MBind (Io E W) := fun A B k m w =>
  match m w with
  | (w, Ok a) => k a w
  | (w, Err e) => (w, Err e)
  | (w, Panic) => (w, Panic)
  end.

Section Writer.
Context {E W : Type} `{Write E W}.

Definition io_new (linktype : Z) : Io E W unit :=
  writer_write_all (u32_to_le PCAP_MAGIC_LE);;
  writer_write_all (u16_to_le PCAP_VERSION_MAJOR);;
  writer_write_all (u16_to_le PCAP_VERSION_MINOR);;
  writer_write_all (u32_to_le 0);;
  writer_write_all (u32_to_le 0);;
  writer_write_all (u32_to_le PCAP_SNAPLEN);;
  writer_write_all (u32_to_le linktype).

Definition io_write_packet (data : list Z) (secs micros : Z) : Io E W unit :=
  let ts_sec := as_u32 secs in
  let ts_usec := micros in
  let l := as_u32 (len data) in
  writer_write_all (u32_to_le ts_sec);;
  writer_write_all (u32_to_le ts_usec);;
  writer_write_all (u32_to_le l);;
  writer_write_all (u32_to_le l);;
  writer_write_all data;;
  writer_flush.

(** [file] is the buffered file of [File::create(path)?]. *)
Definition create_file_writer (file : Res E W) (linktype : Z) : Res E W :=
  file ← file;
  match io_new linktype file with
  | (w, Ok _) => Ok w
  | (_, Err e) => Err e
  | (_, Panic) => Panic
  end.

(** ** What a method puts into the writer *)
(** All of [bs] when it succeeds, a prefix of [bs] when it does not. *)
Definition puts (bs : list Z) (m : Io E W unit) : Prop :=
  forall w, snd (m w) <> Panic /\ exists k,
    accepted (fst (m w)) = accepted w ++ take k bs /\ (snd (m w) = Ok tt -> (length bs <= k)%nat).

Lemma puts_write_all bs : puts bs (writer_write_all bs).
Proof. intros w. split; [apply write_all_returns | apply write_all_takes]. Qed.

Lemma puts_flush : puts [] writer_flush.
Proof.
  intros w. split; [apply flush_returns |]. exists O. rewrite flush_keeps, app_nil_r. by split.
Qed.

Lemma puts_seq bs bs' m m' : puts bs m -> puts bs' m' -> puts (bs ++ bs') (m;; m').
Proof.
  intros Hm Hm' w. unfold mbind, Io_bind. destruct (Hm w) as (Hp & k & Ha & Hk).
  destruct (m w) as [w1 [[]|e|]]; cbn [fst snd] in *; [| | done].
  - specialize (Hk eq_refl). rewrite take_ge in Ha by done. destruct (Hm' w1) as (Hp' & k' & Ha' & Hk').
    split; [done |]. exists (length bs + k')%nat. rewrite Ha', Ha, <- app_assoc, take_app_add.
    split; [done |]. intros E'. specialize (Hk' E'). rewrite length_app. lia.
  - split; [done |]. exists (Nat.min k (length bs)). split; [|done]. rewrite Ha. f_equal.
    rewrite take_app_le by lia. destruct (Nat.le_gt_cases k (length bs)); [by rewrite Nat.min_l by lia |].
    rewrite Nat.min_r by lia. by rewrite !take_ge by lia.
Qed.

(** The global header of a capture. *)
Definition header_bytes (linktype : Z) : list Z := written_bytes (PcapWriter_new linktype).

Lemma puts_new linktype : puts (header_bytes linktype) (io_new linktype).
Proof.
  unfold header_bytes, PcapWriter_new, write_all, io_new. cbn [written_bytes app].
  rewrite <- !app_assoc. repeat (apply puts_seq; [apply puts_write_all |]). apply puts_write_all.
Qed.

Lemma puts_write_packet p : puts (record_bytes p) (io_write_packet (data p) (secs p) (micros p)).
Proof.
  replace (record_bytes p) with (u32_to_le (as_u32 (secs p)) ++ u32_to_le (micros p) ++
    u32_to_le (as_u32 (len (data p))) ++ u32_to_le (as_u32 (len (data p))) ++ data p ++ [])
    by (unfold record_bytes; by rewrite app_nil_r).
  repeat (apply puts_seq; [apply puts_write_all |]). apply puts_flush.
Qed.

(** ** A whole capture *)
(** The packets in order; main.rs ignores what [write_packet] returns. The result says
    which calls succeeded. *)
Fixpoint io_packets (ps : list Captured) (w : W) : W * list (Res E unit) :=
  match ps with
  | [] => (w, [])
  | p :: ps =>
      let '(w, r) := io_write_packet (data p) (secs p) (micros p) w in
      let '(w, rs) := io_packets ps w in
      (w, r :: rs)
  end.

Lemma io_packets_succeed ps : forall w,
  Forall (fun r => r = Ok tt) (snd (io_packets ps w)) ->
  accepted (fst (io_packets ps w)) = accepted w ++ concat (map record_bytes ps).
Proof using.
  induction ps as [|p ps IH]; intros w; cbn [io_packets map concat]; [by rewrite app_nil_r |].
  destruct (puts_write_packet p w) as (_ & k & Ha & Hk).
  destruct (io_write_packet _ _ _ w) as [w1 r]. specialize (IH w1).
  destruct (io_packets ps w1) as [w2 rs]. cbn [fst snd] in *. intros [-> Hrs]%Forall_cons.
  by rewrite IH, Ha, take_ge, <- app_assoc by auto.
Qed.

(** Until the first call that fails, the file is a prefix of the whole capture. *)
Lemma io_packets_prefix ps : forall w n,
  Forall (fun r => r = Ok tt) (take n (snd (io_packets ps w))) ->
  accepted (fst (io_packets (take (S n) ps) w)) `prefix_of` accepted w ++ concat (map record_bytes ps).
Proof using.
  induction ps as [|p ps IH]; intros w n; [intros _; cbn; by exists []; rewrite app_nil_r |].
  cbn [take io_packets map concat].
  destruct (puts_write_packet p w) as (_ & k & Ha & Hk).
  destruct (io_write_packet _ _ _ w) as [w1 r]. specialize (IH w1). cbn [fst snd] in *.
  destruct n as [|n].
  - intros _. change (take 0 ps) with (@nil Captured). cbn [io_packets fst]. rewrite Ha. apply prefix_app.
    apply prefix_app_r, prefix_take.
  - specialize (IH n). destruct (io_packets ps w1) as [w2 rs]. cbn [snd fst] in *.
    change (take (S n) (r :: rs)) with (r :: take n rs). intros [-> Hrs]%Forall_cons. specialize (IH Hrs).
    destruct (io_packets (take (S n) ps) w1) as [w3 rs3]. cbn [fst] in *.
    rewrite Ha, take_ge, <- app_assoc in IH by auto. exact IH.
Qed.
End Writer.

(** ** A writer that takes everything *)
(** [Vec<u8>], and the file of the running program as long as the disk has room. *)
#[export] Instance vec_write : Write Empty_set (list Z).
Proof.
  refine {| writer_write_all bs w := (w ++ bs, Ok tt); writer_flush w := (w, Ok tt); accepted w := w |};
    try done. intros bs w. exists (length bs). by rewrite take_ge.
Defined.

(** On it the methods are the ones of Pcap.v. *)
Lemma vec_new linktype :
  create_file_writer (Ok []) linktype = Ok (written_bytes (PcapWriter_new linktype)).
Proof. reflexivity. Qed.

Lemma vec_write_packet d s us w :
  io_write_packet d s us w = (written_bytes (write_packet (mkPcapWriter w) d s us), Ok tt).
Proof. reflexivity. Qed.

(** The capture of a writer that has not failed is read back whole. *)
Lemma io_capture_read `{Write E W} (w0 w : W) linktype ps :
  accepted w0 = [] -> create_file_writer (Ok w0) linktype = Ok w ->
  Forall (fun r => r = Ok tt) (snd (io_packets ps w)) ->
  is_u32 linktype -> Forall captured_ok ps ->
  read_capture (accepted (fst (io_packets ps w))) = Some (linktype, map record_of ps).
Proof.
  intros H0 Hn Hps Hl Hok. rewrite io_packets_succeed by done.
  unfold create_file_writer in Hn. cbn [mbind Res_bind] in Hn.
  destruct (puts_new linktype w0) as (_ & k & Ha & Hk).
  destruct (io_new linktype w0) as [w1 [[]|e|]]; [|done..]. injection Hn as ->. cbn [fst snd] in *.
  rewrite Ha, H0, take_ge by auto. rewrite <- (read_capture_all linktype ps Hl Hok).
  unfold capture. by rewrite fold_write.
Qed.

(** ** A writer that fails once *)
(** One with room for [n] bytes, then an error, then room for everything: a disk that
    is full for a moment. *)
#[export] Instance moment_write : Write unit (list Z * option nat).
Proof.
  refine {| writer_write_all bs w :=
              match snd w with
              | Some n => if (length bs <=? n)%nat then ((fst w ++ bs, Some (n - length bs)%nat), Ok tt)
                          else ((fst w ++ take n bs, None), Err tt)
              | None => ((fst w ++ bs, None), Ok tt)
              end;
            writer_flush w := (w, Ok tt);
            accepted w := fst w |}; [| |done..].
  - intros bs [w [n|]]; cbn [fst snd]; [|exists (length bs); by rewrite take_ge].
    destruct (Nat.leb_spec (length bs) n); cbn [fst snd]; [exists (length bs); by rewrite take_ge | by exists n].
  - intros bs [w [n|]]; cbn [fst snd]; [by destruct (_ <=? _)%nat | done].
Defined.

Definition torn_packets : list Captured :=
  [mkCaptured [1; 2; 3] 100 0; mkCaptured [4; 5; 6] 101 0; mkCaptured [7; 8; 9] 102 0].

(** [write_packet] gives up in the middle of a record and the next call appends a new
    one behind it: from there on the framing of the file is lost, and the packets that
    follow the failure cannot be read although they were written. *)
Example write_packet_tears_record :
  match create_file_writer (Ok ([], Some 50%nat)) LINKTYPE_ETHERNET with
  | Ok w =>
      let '(w, rs) := io_packets torn_packets w in
      rs = [Ok tt; Err tt; Ok tt] /\ read_capture (accepted w) = None
  | _ => False
  end.
Proof. by vm_compute. Qed.
