(* ===== verification/Tun.v ===== *)
(** * The TUN device (src/magnum-tcp/src/tun.rs)

    The code is mostly system calls, so a method is a small program: a value of
    [Sys], which asks for calls and continues with their answers. The operating
    system is a function from the calls made so far, with their answers, to the next
    answer; nothing is assumed of it but what a theorem says. A negative return value
    is a failure and sets errno. A [File] that goes out of scope is closed where Rust
    drops it. Structures are laid out as on a little-endian machine with [repr(C)]. *)
From S2P Require Import Prelude Errors Pcap Http.
From Stdlib Require String.
Import String.StringSyntax.

(** [cfg(target_os = ..)] *)
Inductive Platform : Type := Linux | MacOS.

(** ** System calls *)
Inductive Syscall : Type :=
  | SysOpen (path : list Z)                       (* for reading and writing *)
  | SysCreate (path : list Z)                     (* for writing, created or truncated *)
  | SysSocket (domain type protocol : Z)
  | SysIoctl (fd request : Z) (arg : list Z)
  | SysConnect (fd : Z) (addr : list Z)
  | SysGetsockopt (fd level option len : Z)
  | SysFcntl (fd cmd arg : Z)
  | SysRead (fd n : Z)
  | SysWritev (fd : Z) (bufs : list (list Z))
  | SysClose (fd : Z).

(** What a call returns; what it leaves in its buffer, and in the length it was given
    (getsockopt); errno if it fails. *)
Record Answer := mkAnswer { a_ret : Z; a_data : list Z; a_len : Z; a_errno : Z }.

Definition History : Type := list (Syscall * Answer).
Definition Os : Type := History -> Syscall -> Answer.

Inductive Sys (A : Type) : Type :=
  | Done (a : A)
  | Call (s : Syscall) (k : Answer -> Sys A)
  | LastOsError (k : Z -> Sys A).
Arguments Done {A} a.
Arguments Call {A} s k.
Arguments LastOsError {A} k.

Fixpoint sys_bind {A B} (m : Sys A) (f : A -> Sys B) : Sys B :=
  match m with
  | Done a => f a
  | Call s k => Call s (fun ans => sys_bind (k ans) f)
  | LastOsError k => LastOsError (fun e => sys_bind (k e) f)
  end.

#[global] Instance Sys_ret : MRet Sys := fun A a => Done a.
#[global] Instance Sys_bind : MBind Sys := fun A B f m => sys_bind m f.

Definition call (s : Syscall) : Sys Answer := Call s Done.
Definition last_os_error : Sys Z := LastOsError Done.

(** errno after the calls of a history: that of the last one that failed. *)
Fixpoint errno (h : History) : Z :=
  match h with
  | [] => 0
  | (_, ans) :: h' => if a_ret ans <? 0 then a_errno ans else errno h'
  end.

(** Running a program; the most recent call is at the head of the history. *)
Fixpoint exec {A} (os : Os) (m : Sys A) (h : History) : A * History :=
  match m with
  | Done a => (a, h)
  | Call s k => let ans := os h s in exec os (k ans) ((s, ans) :: h)
  | LastOsError k => exec os (k (errno h)) h
  end.

(** [std::io::Result], with the raw error. *)
Abbreviation IoResult := (Res Z).

(** A method that can fail. *)
Abbreviation SysR A := (Sys (Res MagnumError A)).

Record Tun := mkTun { t_fd : Z; t_name : list Z }.

(** [drop] of the [File]. *)
Definition drop_file (fd : Z) : Sys unit := _ ← call (SysClose fd); Done tt.

(** [Err(MagnumError::Tun(std::io::Error::last_os_error()))] *)
Definition tun_error {A} : SysR A := e ← last_os_error; Done (Err (Errors.Tun e)).

(** [name.as_bytes()], cut to 15 bytes, in an array of 16. *)
Definition ifr_name (name : list Z) : list Z :=
  let len := Z.min (len name) 15 in
  take (Z.to_nat len) name ++ zeroed (16 - len).

(** ** [File] *)
(** [read]: the bytes go to the front of the buffer. *)
Definition file_read (fd : Z) (buf : list Z) : Sys (IoResult (Z * list Z)) :=
  ans ← call (SysRead fd (len buf));
  if a_ret ans <? 0 then e ← last_os_error; Done (Err e)
  else Done (Ok (a_ret ans, take (Z.to_nat (a_ret ans)) (a_data ans) ++ drop (Z.to_nat (a_ret ans)) buf)).

(** [write] of one buffer and [write_vectored] of several. *)
Definition file_write (fd : Z) (bufs : list (list Z)) : Sys (IoResult Z) :=
  ans ← call (SysWritev fd bufs);
  if a_ret ans <? 0 then e ← last_os_error; Done (Err e) else Done (Ok (a_ret ans)).

(** The [?] operator on an [io::Result]. *)
Definition io_error {A} (r : IoResult A) : Result A :=
  match r with Ok a => Ok a | Err e => Err (Errors.Tun e) | Panic => Panic end.

Definition F_GETFL : Z := 3.
Definition F_SETFL : Z := 4.

(** [set_nonblocking], which both platforms write alike; [o_nonblock] is
    [libc::O_NONBLOCK]. *)
Definition set_nonblocking (o_nonblock : Z) (t : Tun) : SysR unit :=
  flags ← call (SysFcntl (t_fd t) F_GETFL 0);
  if a_ret flags <? 0 then tun_error
  else
    ret ← call (SysFcntl (t_fd t) F_SETFL (Z.lor (a_ret flags) o_nonblock));
    if a_ret ret <? 0 then tun_error else Done (Ok tt).

(** ** Linux *)
Module Linux.
Definition TUNSETIFF : Z := 1074025674.
Definition IFF_TAP : Z := 2.
Definition IFF_NO_PI : Z := 4096.
Definition O_NONBLOCK : Z := 2048.
Definition AF_INET : Z := 2.
Definition SOCK_DGRAM : Z := 2.
Definition SIOCGIFHWADDR : Z := 35111.

(** [Ifreq::new], as the bytes that [ioctl] is given. *)
Definition Ifreq_new (name : list Z) (flags : Z) : list Z :=
  ifr_name name ++ u16_to_le flags ++ zeroed 22.

Definition open (name : list Z) : SysR Tun :=
  file ← call (SysOpen (lit "/dev/net/tun"));
  if a_ret file <? 0 then tun_error
  else
    let fd := a_ret file in
    ret ← call (SysIoctl fd TUNSETIFF (Ifreq_new name (Z.lor IFF_TAP IFF_NO_PI)));
    if a_ret ret <? 0 then
      e ← last_os_error; _ ← drop_file fd; Done (Err (Errors.Tun e))
    else Done (Ok (mkTun fd name)).

Definition recv (t : Tun) (buf : list Z) : SysR (Z * list Z) :=
  r ← file_read (t_fd t) buf; Done (io_error r).
Definition send (t : Tun) (buf : list Z) : SysR Z :=
  r ← file_write (t_fd t) [buf]; Done (io_error r).
Definition try_recv_nb (t : Tun) (buf : list Z) : Sys (IoResult (Z * list Z)) := file_read (t_fd t) buf.
Definition write_frame_nb (t : Tun) (buf : list Z) : Sys (IoResult Z) := file_write (t_fd t) [buf].

(** [IfreqHwAddr] is a name of 16 bytes and a [sockaddr], whose data starts at its
    third byte. *)
Definition mac_address (t : Tun) : Sys (option (list Z)) :=
  let req := ifr_name (t_name t) ++ zeroed 16 in
  fd ← call (SysSocket AF_INET SOCK_DGRAM 0);
  if a_ret fd <? 0 then Done None
  else
    ret ← call (SysIoctl (a_ret fd) SIOCGIFHWADDR req);
    _ ← call (SysClose (a_ret fd));
    if a_ret ret <? 0 then Done None
    else Done (Some (map (fun i => as_u8 (nth (18 + i) (a_data ret) 0)) (seq 0 6))).
End Linux.

(** ** macOS *)
Module MacOS.
Definition PF_SYSTEM : Z := 32.
Definition SOCK_DGRAM : Z := 2.
Definition SYSPROTO_CONTROL : Z := 2.
Definition AF_SYSTEM : Z := 32.
Definition AF_SYS_CONTROL : Z := 2.
Definition CTLIOCGINFO : Z := 3227799043.
Definition UTUN_OPT_IFNAME : Z := 2.
Definition IFNAMSIZ : Z := 16.
Definition MAX_KCTL_NAME : Z := 96.
Definition O_NONBLOCK : Z := 4.

(** [strip_prefix("utun")] *)
Definition strip_utun (name : list Z) : option (list Z) :=
  if starts_with name (lit "utun") then Some (drop 4 name) else None.

(** [parse::<u32>()] *)
Fixpoint u32_digits (acc : Z) (s : list Z) : option Z :=
  match s with
  | [] => Some acc
  | b :: s' =>
      if in_range 48 57 b then
        let v := acc * 10 + (b - 48) in
        if v <? U32 then u32_digits v s' else None
      else None
  end.

Definition parse_u32 (s : list Z) : option Z :=
  match s with
  | [] => None
  | b :: s' =>
      let digits := if b =? 43 then s' else s in
      match digits with [] => None | _ => u32_digits 0 digits end
  end.

(** [.map(|n| n + 1)] panics on overflow. *)
Definition unit_of (name : list Z) : Result Z :=
  match strip_utun name ≫= parse_u32 with
  | Some n => if n + 1 <? U32 then Ok (n + 1) else Panic
  | None => Ok 0
  end.

Definition CtlInfo_bytes (ctl_id : Z) : list Z :=
  let ctrl := lit "com.apple.net.utun_control" in
  u32_to_le ctl_id ++ ctrl ++ zeroed (MAX_KCTL_NAME - len ctrl).

Definition SockaddrCtl_bytes (sc_id sc_unit : Z) : list Z :=
  [32; AF_SYSTEM] ++ u16_to_le AF_SYS_CONTROL ++ u32_to_le sc_id ++ u32_to_le sc_unit ++ zeroed 20.

(** One step of [String::from_utf8_lossy]: whether the string starts with a character,
    and the number of bytes of it or of the maximal invalid piece. *)
Definition utf8_step (b0 : Z) (s1 : list Z) : bool * nat :=
  let cont_at i := match nth_error s1 i with Some b => cont b | None => false end in
  let in_at lo hi := match s1 with b :: _ => in_range lo hi b | [] => false end in
  if b0 <? 128 then (true, 1%nat)
  else if in_range 194 223 b0 then if cont_at 0%nat then (true, 2%nat) else (false, 1%nat)
  else if in_range 224 239 b0 then
    if in_at (if b0 =? 224 then 160 else 128) (if b0 =? 237 then 159 else 191)
    then if cont_at 1%nat then (true, 3%nat) else (false, 2%nat)
    else (false, 1%nat)
  else if in_range 240 244 b0 then
    if in_at (if b0 =? 240 then 144 else 128) (if b0 =? 244 then 143 else 191)
    then if cont_at 1%nat then if cont_at 2%nat then (true, 4%nat) else (false, 3%nat) else (false, 2%nat)
    else (false, 1%nat)
  else (false, 1%nat).

(** Every step takes a byte at least: the length is enough fuel. *)
Fixpoint utf8_lossy (fuel : nat) (s : list Z) : list Z :=
  match fuel, s with
  | S f, b0 :: s1 =>
      let '(ok, n) := utf8_step b0 s1 in
      (if ok then take n s else [239; 191; 189]) ++ utf8_lossy f (drop n s)
  | _, _ => []
  end.
Definition from_utf8_lossy (s : list Z) : list Z := utf8_lossy (length s) s.

(** [buf.iter().position(|&b| b == 0)] *)
Fixpoint position_zero (buf : list Z) : option nat :=
  match buf with
  | [] => None
  | b :: buf' => if b =? 0 then Some O else option_map S (position_zero buf')
  end.

(** The slice panics when the kernel reports a length beyond the buffer. *)
Definition query_ifname (fd : Z) : Sys (Result (option (list Z))) :=
  ok ← call (SysGetsockopt fd SYSPROTO_CONTROL UTUN_OPT_IFNAME IFNAMSIZ);
  if a_ret ok <? 0 then Done (Ok None)
  else
    let buf := a_data ok in
    let end_ := match position_zero buf with Some i => Z.of_nat i | None => a_len ok end in
    Done (if len buf <? end_ then Panic else Ok (Some (from_utf8_lossy (take (Z.to_nat end_) buf)))).

(** A panic before [File::from_raw_fd] leaves the raw descriptor open. *)
Definition open (name : list Z) : SysR Tun :=
  match unit_of name with
  | Panic => Done Panic
  | Err e => Done (Err e)
  | Ok unit =>
      sock ← call (SysSocket PF_SYSTEM SOCK_DGRAM SYSPROTO_CONTROL);
      if a_ret sock <? 0 then tun_error
      else
        let fd := a_ret sock in
        info ← call (SysIoctl fd CTLIOCGINFO (CtlInfo_bytes 0));
        if a_ret info <? 0 then _ ← call (SysClose fd); tun_error
        else
          let d := a_data info in
          let ctl_id := u32_from_le (nth 0 d 0) (nth 1 d 0) (nth 2 d 0) (nth 3 d 0) in
          conn ← call (SysConnect fd (SockaddrCtl_bytes ctl_id unit));
          if a_ret conn <? 0 then _ ← call (SysClose fd); tun_error
          else
            actual ← query_ifname fd;
            Done (match actual with
                  | Ok (Some actual_name) => Ok (mkTun fd actual_name)
                  | Ok None => Ok (mkTun fd name)
                  | Err e => Err e
                  | Panic => Panic
                  end)
  end.

(** [if n <= 4 { return Ok(0) } buf.copy_within(4..n, 0); Ok(n - 4)] *)
Definition strip_prefix (n : Z) (buf : list Z) : Z * list Z :=
  if n <=? 4 then (0, buf)
  else
    let packet := take (Z.to_nat (n - 4)) (drop 4 buf) in
    (n - 4, packet ++ drop (Z.to_nat (n - 4)) buf).

Definition UTUN_HDR : list Z := [0; 0; 0; 2].

Definition try_recv_nb (t : Tun) (buf : list Z) : Sys (IoResult (Z * list Z)) :=
  r ← file_read (t_fd t) buf;
  Done (match r with Ok (n, buf) => Ok (strip_prefix n buf) | Err e => Err e | Panic => Panic end).

Definition write_frame_nb (t : Tun) (buf : list Z) : Sys (IoResult Z) :=
  r ← file_write (t_fd t) [UTUN_HDR; buf];
  Done (match r with Ok written => Ok (Z.max 0 (written - 4)) | Err e => Err e | Panic => Panic end).

Definition recv (t : Tun) (buf : list Z) : SysR (Z * list Z) :=
  r ← file_read (t_fd t) buf;
  Done (match io_error r with Ok (n, buf) => Ok (strip_prefix n buf) | Err e => Err e | Panic => Panic end).

Definition send (t : Tun) (buf : list Z) : SysR Z :=
  r ← file_write (t_fd t) [UTUN_HDR; buf];
  Done (match io_error r with Ok written => Ok (Z.max 0 (written - 4)) | Err e => Err e | Panic => Panic end).

Definition mac_address (t : Tun) : Sys (option (list Z)) := Done None.
End MacOS.

(** ** Descriptors *)
Fixpoint open_fds (h : History) : list Z :=
  match h with
  | [] => []
  | (s, ans) :: h' =>
      match s with
      | SysOpen _ | SysCreate _ | SysSocket _ _ _ => if a_ret ans <? 0 then open_fds h' else a_ret ans :: open_fds h'
      | SysClose fd => List.filter (fun x => negb (x =? fd)) (open_fds h')
      | _ => open_fds h'
      end
  end.

(** What the manual pages promise: a new descriptor is not one that is open, and a
    call does not fill more of a buffer than it has. *)
Record os_ok (os : Os) : Prop := {
  os_open : forall h path, ~ In (a_ret (os h (SysOpen path))) (open_fds h);
  os_create : forall h path, ~ In (a_ret (os h (SysCreate path))) (open_fds h);
  os_socket : forall h d t p, ~ In (a_ret (os h (SysSocket d t p))) (open_fds h);
  os_getsockopt : forall h fd l o n, 0 <= n -> len (a_data (os h (SysGetsockopt fd l o n))) = n /\
    a_len (os h (SysGetsockopt fd l o n)) <= n }.

Lemma exec_bind {A B} os (m : Sys A) (f : A -> Sys B) : forall h,
  exec os (m ≫= f) h = let '(a, h') := exec os m h in exec os (f a) h'.
Proof.
  unfold mbind, Sys_bind. induction m as [a|s k IH|k IH]; intros h; cbn [sys_bind exec]; [done | apply IH | apply IH].
Qed.

Lemma filter_fresh fd l : ~ In fd l -> List.filter (fun x => negb (x =? fd)) (fd :: l) = l.
Proof.
  intros Hn. cbn [List.filter]. rewrite Z.eqb_refl. cbn [negb].
  induction l as [|x l IH]; [done |]. cbn [List.filter].
  destruct (Z.eqb_spec x fd) as [->|]; [by destruct Hn; left |]. cbn [negb]. f_equal.
  apply IH. intros Hi. apply Hn. by right.
Qed.

(** What a method that opens the device leaves open. *)
Definition opens_one (h h' : History) (r : Result Tun) : Prop :=
  match r with
  | Ok dev => open_fds h' = t_fd dev :: open_fds h /\ ~ In (t_fd dev) (open_fds h)
  | Err _ => open_fds h' = open_fds h
  | Panic => False
  end.

Ltac sys_step := cbn [exec mbind Sys_bind sys_bind call last_os_error tun_error drop_file open_fds];
  cbn beta.
Ltac sys_case :=
  match goal with |- context [a_ret ?x <? 0] => let E := fresh "E" in destruct (a_ret x <? 0) eqn:E end.

(** The descriptors after the calls of a branch. *)
Ltac fds_tac :=
  unfold opens_one; cbn [open_fds t_fd];
  repeat match goal with E : (a_ret _ <? 0) = _ |- _ => rewrite E; clear E end;
  rewrite ?filter_fresh by done; try done.

Lemma linux_open_one os name h :
  os_ok os -> let '(r, h') := exec os (Linux.open name) h in opens_one h h' r.
Proof.
  intros Hos. unfold Linux.open. sys_step. pose proof (os_open _ Hos h (lit "/dev/net/tun")) as Hn.
  sys_case; sys_step; [fds_tac |]. sys_case; sys_step; fds_tac.
Qed.

Lemma query_ifname_spec os fd h :
  os_ok os -> exists o h', exec os (MacOS.query_ifname fd) h = (Ok o, h') /\ open_fds h' = open_fds h.
Proof.
  intros Hos. unfold MacOS.query_ifname. sys_step.
  destruct (os_getsockopt _ Hos h fd MacOS.SYSPROTO_CONTROL MacOS.UTUN_OPT_IFNAME MacOS.IFNAMSIZ)
    as [Hd Hl]; [by vm_compute |].
  set (ans := os h _) in *. sys_case; sys_step; [by eexists _, _ |].
  assert (Hpos : forall l i, MacOS.position_zero l = Some i -> Z.of_nat i <= len l).
  { induction l as [|b l IH]; intros i; cbn [MacOS.position_zero]; [done |].
    destruct (b =? 0); [intros [= <-]; pose proof (len_nonneg (b :: l)); lia |].
    destruct (MacOS.position_zero l) as [j|]; [|done]. cbn [option_map]. intros [= <-].
    specialize (IH j eq_refl). rewrite len_cons. lia. }
  destruct (MacOS.position_zero (a_data ans)) as [i|] eqn:Ei.
  - destruct (Z.ltb_spec (len (a_data ans)) (Z.of_nat i)); [specialize (Hpos _ _ Ei); lia |]. by eexists _, _.
  - destruct (Z.ltb_spec (len (a_data ans)) (a_len ans)); [lia |]. by eexists _, _.
Qed.

Lemma macos_open_one os name unit h :
  os_ok os -> MacOS.unit_of name = Ok unit ->
  let '(r, h') := exec os (MacOS.open name) h in opens_one h h' r.
Proof.
  intros Hos Hu. unfold MacOS.open. rewrite Hu. sys_step.
  pose proof (os_socket _ Hos h MacOS.PF_SYSTEM MacOS.SOCK_DGRAM MacOS.SYSPROTO_CONTROL) as Hn.
  sys_case; sys_step; [fds_tac |]. sys_case; sys_step; [fds_tac |]. sys_case; sys_step; [fds_tac |].
  rewrite exec_bind.
  match goal with |- context [exec os (MacOS.query_ifname ?fd) ?h1] =>
    destruct (query_ifname_spec os fd h1 Hos) as (o & h' & -> & Ef) end.
  cbn [exec open_fds] in *. rewrite E in Ef. by destruct o; cbn [opens_one t_fd]; rewrite Ef.
Qed.

Lemma set_nonblocking_keeps os nb t h :
  let '(r, h') := exec os (set_nonblocking nb t) h in open_fds h' = open_fds h /\ r <> Panic.
Proof. unfold set_nonblocking. sys_step. sys_case; sys_step; [done |]. by sys_case; sys_step. Qed.

(** The socket of [mac_address] is closed on every path, and an address has six
    bytes. *)
Lemma linux_mac_address_spec os t h :
  os_ok os -> let '(m, h') := exec os (Linux.mac_address t) h in
  open_fds h' = open_fds h /\ forall a, m = Some a -> length a = 6%nat /\ bytes_ok a.
Proof.
  intros Hos. unfold Linux.mac_address. sys_step.
  pose proof (os_socket _ Hos h Linux.AF_INET Linux.SOCK_DGRAM 0) as Hn.
  sys_case; sys_step; [by fds_tac |].
  sys_case; sys_step; fds_tac; (split; [done |]); intros a [= <-]. split; [done |]. repeat constructor; apply Z.mod_pos_bound; reflexivity.
Qed.

(** ** Frames through the device *)
(** [tun::Tun] of the platform. *)
Definition tun_open (plat : Platform) : list Z -> SysR Tun :=
  match plat with Linux => Linux.open | MacOS => MacOS.open end.
Definition tun_set_nonblocking (plat : Platform) : Tun -> SysR unit :=
  match plat with
  | Linux => set_nonblocking Linux.O_NONBLOCK
  | MacOS => set_nonblocking MacOS.O_NONBLOCK
  end.
Definition tun_mac_address (plat : Platform) : Tun -> Sys (option (list Z)) :=
  match plat with Linux => Linux.mac_address | MacOS => MacOS.mac_address end.
Definition tun_write_frame_nb (plat : Platform) : Tun -> list Z -> Sys (IoResult Z) :=
  match plat with Linux => Linux.write_frame_nb | MacOS => MacOS.write_frame_nb end.
Definition tun_try_recv_nb (plat : Platform) : Tun -> list Z -> Sys (IoResult (Z * list Z)) :=
  match plat with Linux => Linux.try_recv_nb | MacOS => MacOS.try_recv_nb end.

(** What a packet is on the way to and from the kernel. *)
Definition on_device (plat : Platform) (packet : list Z) : list Z :=
  match plat with Linux => packet | MacOS => MacOS.UTUN_HDR ++ packet end.

Lemma strip_prefix_hdr packet buf :
  len (MacOS.UTUN_HDR ++ packet) <= len buf ->
  let wire := MacOS.UTUN_HDR ++ packet in
  exists buf', Ok (E:=Z) (MacOS.strip_prefix (len wire) (wire ++ drop (Z.to_nat (len wire)) buf)) =
      Ok (len packet, buf') /\ take (length packet) buf' = packet /\ len buf' = len buf.
Proof.
  intros Hl wire. assert (Hw : len wire = 4 + len packet) by (unfold wire; by rewrite len_app).
  pose proof (len_nonneg packet). unfold MacOS.strip_prefix.
  assert (Hlen : len (wire ++ drop (Z.to_nat (len wire)) buf) = len buf)
    by (fold wire in Hl; rewrite len_app, len_drop by lia; lia).
  destruct (Z.leb_spec (len wire) 4).
  - assert (packet = []) as -> by (apply len_zero_nil; lia). eexists. split; [reflexivity |]. by split.
  - set (rest := drop (Z.to_nat (len wire)) buf) in *.
    assert (Ep : take (Z.to_nat (len wire - 4)) (drop 4 (wire ++ rest)) = packet).
    { change (drop 4 (wire ++ rest)) with (packet ++ rest). rewrite take_app_le by (unfold len in *; lia).
      apply take_ge. unfold len in *. lia. }
    rewrite Ep, Hw. replace (4 + len packet - 4) with (len packet) by lia.
    eexists. split; [reflexivity |]. split; [apply take_app_length |].
    rewrite len_app, len_drop by lia. fold wire in Hl. lia.
Qed.

(** C15. A packet crosses the device unchanged, on both platforms: [write_frame_nb]
    makes one system call, which is given the packet in its device form (behind the
    four-byte utun header on macOS), and returns the length of the packet when the
    kernel takes it all; [try_recv_nb], when the kernel delivers such a form, returns
    the length of the packet with its bytes at the front of the buffer, whose length
    does not change. *)
Theorem device_roundtrip plat os t packet buf h h2 :
  let wire := on_device plat packet in
  let rd := os h2 (SysRead (t_fd t) (len buf)) in
  a_ret rd = len wire -> a_data rd = wire -> len wire <= len buf ->
  (exists bufs, concat bufs = wire /\ let wr := os h (SysWritev (t_fd t) bufs) in
    exec os (tun_write_frame_nb plat t packet) h =
      (if a_ret wr <? 0 then Err (errno ((SysWritev (t_fd t) bufs, wr) :: h))
       else Ok (match plat with Linux => a_ret wr | MacOS => Z.max 0 (a_ret wr - 4) end),
       (SysWritev (t_fd t) bufs, wr) :: h) /\
    (a_ret wr = len wire -> fst (exec os (tun_write_frame_nb plat t packet) h) = Ok (len packet))) /\
  exists buf', fst (exec os (tun_try_recv_nb plat t buf) h2) = Ok (len packet, buf') /\
    take (length packet) buf' = packet /\ len buf' = len buf.
Proof.
  intros wire rd Hr Hd Hl. pose proof (len_nonneg packet) as Hp. split.
  - exists (match plat with Linux => [packet] | MacOS => [MacOS.UTUN_HDR; packet] end). cbv zeta.
    assert (Hw : len wire = match plat with Linux => len packet | MacOS => 4 + len packet end)
      by (unfold wire, on_device; destruct plat; [done | by rewrite len_app]).
    split; [unfold wire, on_device; destruct plat; cbn [concat]; by rewrite ?app_nil_r |].
    unfold tun_write_frame_nb, MacOS.write_frame_nb, Linux.write_frame_nb, file_write. rewrite Hw.
    destruct plat; sys_step; (sys_case; sys_step;
      (split; [done | intros Hret; cbn [fst]; first [lia | f_equal; lia]])).
  - unfold tun_try_recv_nb, MacOS.try_recv_nb, Linux.try_recv_nb, file_read.
    assert (Hrd : exec os (call (SysRead (t_fd t) (len buf))) h2 = (rd, (SysRead (t_fd t) (len buf), rd) :: h2)) by done.
    assert (Hn : (a_ret rd <? 0) = false) by (rewrite Hr; pose proof (len_nonneg wire); lia).
    assert (Hw : take (Z.to_nat (len wire)) wire = wire) by (apply take_ge; unfold len; lia).
    destruct plat; rewrite ?exec_bind; sys_step; fold rd; rewrite Hn; sys_step; rewrite Hr, Hd, Hw; cbn [fst].
    + exists (wire ++ drop (Z.to_nat (len wire)) buf). split; [done |].
      split; [by apply take_app_length | rewrite len_app, len_drop by apply len_nonneg; lia].
    + apply strip_prefix_hdr. by unfold wire, on_device in Hl.
Qed.

(** ** A simulated system *)
(** A new descriptor is above the open ones; the calls listed fail, with errno 5; a read
    gives two bytes behind a utun header; every interface has the address 1..6. *)
Definition fresh_fd (h : History) : Z := foldr Z.max 2 (open_fds h) + 1.

Definition demo_os (fails : Syscall -> bool) : Os := fun h s =>
  if fails s then mkAnswer (-1) (match s with SysGetsockopt _ _ _ n => zeroed n | _ => [] end) 0 5
  else
    match s with
    | SysOpen _ | SysCreate _ | SysSocket _ _ _ => mkAnswer (fresh_fd h) [] 0 0
    | SysIoctl _ _ _ => mkAnswer 0 (zeroed 18 ++ [1; 2; 3; 4; 5; 6] ++ zeroed 76) 0 0
    | SysGetsockopt _ _ _ n => mkAnswer 0 (zeroed n) 0 0
    | SysRead _ _ => mkAnswer 6 [0; 0; 0; 2; 104; 105] 0 0
    | SysWritev _ bufs => mkAnswer (len (concat bufs)) [] 0 0
    | _ => mkAnswer 0 [] 0 0
    end.

Lemma below_fresh h x : In x (open_fds h) -> x < fresh_fd h.
Proof.
  unfold fresh_fd. induction (open_fds h) as [|y l IH]; [done |]. cbn [In foldr].
  intros [->|Hx]; [lia |]. specialize (IH Hx). lia.
Qed.

Lemma open_fds_nonneg h x : In x (open_fds h) -> 0 <= x.
Proof.
  induction h as [|[s ans] h IH]; [done |]. cbn [open_fds].
  destruct s; try exact IH;
    try (destruct (Z.ltb_spec (a_ret ans) 0); [exact IH | cbn [In]; intros [<-|Hx]; [lia | by apply IH]]).
  rewrite filter_In. intros [Hx _]. by apply IH.
Qed.

Lemma demo_os_ok fails : os_ok (demo_os fails).
Proof.
  split; intros *; unfold demo_os; destruct (fails _); cbn [a_ret a_data a_len];
    try (intros Hi; first [apply open_fds_nonneg in Hi; lia | apply below_fresh in Hi; lia]);
    intros Hn; by rewrite len_zeroed.
Qed.

Definition no_failure (s : Syscall) : bool := false.

Lemma device_roundtrip_witness :
  exists buf', fst (exec (demo_os no_failure) (tun_try_recv_nb MacOS (mkTun 3 []) (zeroed 8)) []) = Ok (2, buf') /\
    take 2 buf' = [104; 105].
Proof.
  destruct (device_roundtrip MacOS (demo_os no_failure) (mkTun 3 []) [104; 105] (zeroed 8) [] [])
    as (_ & buf' & E & Ht & _); [by vm_compute .. |].
  by exists buf'.
Defined.
