(* ===== verification/Host.v ===== *)
(** * The whole program at work (src/magnum-tcp/src/main.rs, [run])

    The event loop, the dispatcher with its channels, every connection task, every
    application task and the bounded channels between them, as one state. tokio
    decides who runs next: a [HostEvent] is one such choice, with the frame read and
    the clocks. A task that waits in a [send] holds its messages in [r_sending] and
    [r_forwarding] until the channel takes them, and only then goes round its loop
    again. *)
From S2P Require Import Prelude Errors Tcb Ipv4 Ethernet Arp Header SendBuffer RecvBuffer Float64 Retransmit Connection StateMachine Pcap Tun Task Dispatch Main Http Chaos.

(** The value of a call that has no [Err] case. *)
Definition lift {E A} (r : Fallible A) : Res E A :=
  match r with Ok a => Ok a | Err e => match e with end | Panic => Panic end.

Record Cli := mkCli {
  port : list Z;
  bind_ip : list Z;
  chaos : f64;
  chaos_reorder : f64;
  chaos_jitter_ms : Z }.

Section Host.
Context `{DefaultHasher} `{!Mpsc InboundMsg} `{!Mpsc OutboundMsg} (plat : Platform).

Definition inbound_dispatch (raw : list Z) (d : AsyncDispatch) (our_ip our_mac : list Z) (nanos : Z)
    : Fallible Inbound :=
  match plat with
  | Linux => inbound_dispatch_linux raw d our_ip our_mac nanos
  | MacOS => inbound_dispatch_macos raw d nanos
  end.

Definition frame_outbound (msg : OutboundMsg) : list Z :=
  match plat with
  | Linux => frame_outbound_linux msg
  | MacOS => frame_outbound_macos msg
  end.

(** ** State *)
(** A connection task and its application task, with the channels between the two.
    The receiving end of the inbox is [r_inbox]: [None] while the dispatcher's map
    has the sending end, so that the channel is the one in the map, and the channel
    itself once the dispatcher has dropped its end. [r_app_data], [r_app_send] and
    [r_close] are what is queued in the three channels between the tasks. [r_running]
    says that the connection task has not ended: it holds [app_data_tx], [app_send_rx]
    and [close_rx]; [r_app_live] that [handle_connection] has not returned: it holds
    [data_rx], [send_tx] and [close_tx]. *)
Record Running := mkRunning {
  r_key : FourTuple;
  r_task : TaskState;
  r_ether_src : list Z;
  r_ether_dst : list Z;
  r_inbox : option (Chan (M := InboundMsg));
  r_sending : list OutboundMsg;
  r_forwarding : list (list Z);
  r_flow : Flow;
  r_app : AppState;
  r_app_data : list (list Z);
  r_app_send : list (list Z);
  r_close : list unit;
  r_running : bool;
  r_app_live : bool }.

Definition start_task (handle : NewConnectionHandle) (sp : Spawned) : Running :=
  {| r_key := h_key handle; r_task := mkTaskState (sp_conn sp) false;
     r_ether_src := sp_ether_src sp; r_ether_dst := sp_ether_dst sp;
     r_inbox := None; r_sending := []; r_forwarding := []; r_flow := Continue;
     r_app := app_start; r_app_data := []; r_app_send := []; r_close := [];
     r_running := true; r_app_live := true |}.

(** [h_tasks] are the connection tasks that have not ended, each with its application;
    [h_apps] those that have, whose application may still be at work. *)
Record Host := mkHost {
  our_ip : list Z;
  our_mac : list Z;
  h_dispatch : AsyncDispatch;
  outbound_rx : Chan (M := OutboundMsg);
  pcap_writer : option PcapWriter;
  h_chaos : option ChaosMiddleware;
  h_tasks : list Running;
  h_apps : list Running }.

Definition OUTBOUND_CAPACITY : Z := 256.
Definition APP_CAPACITY : Z := 64.
Definition DEFAULT_MAC : list Z := [10; 177; 233; 0; 0; 1].

(** [run] up to its loop, the device being open: [mac] is what [mac_address] returns
    and [created] whether the capture file could be created. *)
Definition run_start (args : Cli) (mac : option (list Z)) (created : bool) : Result Host :=
  our_ip ← parse_ip (bind_ip args);
  let our_mac := match plat with Linux => default DEFAULT_MAC mac | MacOS => zeroed 6 end in
  let dispatch := fold_left AsyncDispatch_listen (port args) AsyncDispatch_new in
  let linktype := match plat with Linux => LINKTYPE_ETHERNET | MacOS => LINKTYPE_IPV4 end in
  let active := (f64_lt f64_0 (chaos args) || f64_lt f64_0 (chaos_reorder args)
                 || (0 <? chaos_jitter_ms args))%bool in
  Ok {| our_ip := our_ip; our_mac := our_mac; h_dispatch := dispatch;
        outbound_rx := mpsc_channel OUTBOUND_CAPACITY;
        pcap_writer := if created then Some (PcapWriter_new linktype) else None;
        h_chaos := if active
          then Some (ChaosMiddleware_new
                 (mkChaosConfig (chaos args) (chaos_reorder args) (chaos_jitter_ms args)))
          else None;
        h_tasks := []; h_apps := [] |}.

Definition with_dispatch (h : Host) (d : AsyncDispatch) (ts : list Running) : Host :=
  mkHost (our_ip h) (our_mac h) d (outbound_rx h) (pcap_writer h) (h_chaos h) ts (h_apps h).
Definition with_tasks (h : Host) (ts : list Running) : Host := with_dispatch h (h_dispatch h) ts.
Definition with_outbound (h : Host) (q : Chan (M := OutboundMsg)) : Host :=
  mkHost (our_ip h) (our_mac h) (h_dispatch h) q (pcap_writer h) (h_chaos h) (h_tasks h) (h_apps h).
Definition with_chaos (h : Host) (c : option ChaosMiddleware) : Host :=
  mkHost (our_ip h) (our_mac h) (h_dispatch h) (outbound_rx h) (pcap_writer h) c (h_tasks h) (h_apps h).
Definition with_apps (h : Host) (apps : list Running) : Host :=
  mkHost (our_ip h) (our_mac h) (h_dispatch h) (outbound_rx h) (pcap_writer h) (h_chaos h) (h_tasks h) apps.

(** What can be observed of a step. *)
Inductive Obs : Type :=
  | Read (raw : list Z) (secs micros : Z)        (* a frame from the device *)
  | Replied (frame : list Z)                     (* an ARP reply to the device *)
  | Sent (msg : OutboundMsg)                     (* a task's message into the channel *)
  | Framed (frame : list Z) (secs micros : Z)    (* a message out of it, framed *)
  | Wrote (frame : list Z).                      (* a frame to the device *)

(** [if let Some(ref mut pw) = pcap_writer { let _ = pw.write_packet(..); }] *)
Definition capture_packet (h : Host) (data : list Z) (secs micros : Z) : Host :=
  mkHost (our_ip h) (our_mac h) (h_dispatch h) (outbound_rx h)
    (option_map (fun pw => write_packet pw data secs micros) (pcap_writer h)) (h_chaos h) (h_tasks h)
    (h_apps h).

(** ** The loop of [run] *)
(** A task whose channel the dispatcher has just dropped keeps the receiving end. *)
Definition detach (d d' : AsyncDispatch) (t : Running) : Running :=
  match r_inbox t, channels d' !! r_key t with
  | None, None =>
      mkRunning (r_key t) (r_task t) (r_ether_src t) (r_ether_dst t) (channels d !! r_key t)
        (r_sending t) (r_forwarding t) (r_flow t) (r_app t) (r_app_data t) (r_app_send t)
        (r_close t) (r_running t) (r_app_live t)
  | _, _ => t
  end.

(** The readable branch: [try_recv_nb] returned the bytes [raw], at least one. *)
Definition on_readable (h : Host) (raw : list Z) (nanos secs micros : Z)
    : Result (Host * list Obs) :=
  let h := capture_packet h raw secs micros in
  r ← lift (inbound_dispatch raw (h_dispatch h) (our_ip h) (our_mac h) nanos);
  let tasks := map (detach (h_dispatch h) (in_dispatch r)) (h_tasks h) in
  let started := match in_handle r, in_spawned r with
                 | Some handle, Some sp => [start_task handle sp]
                 | _, _ => []
                 end in
  Ok (with_dispatch h (in_dispatch r) (tasks ++ started),
      Read raw secs micros :: match in_reply r with Some f => [Replied f] | None => [] end).

(** The branch of [outbound_rx]. *)
Definition on_outbound (h : Host) (now secs micros : Z) : Result (Host * list Obs) :=
  match try_recv (outbound_rx h) with
  | None => Ok (h, [])
  | Some (msg, q) =>
      let framed := frame_outbound msg in
      let h := capture_packet (with_outbound h q) framed secs micros in
      '(h, packets) ← match h_chaos h with
                      | Some c =>
                          '(c, packets) ← lift (intercept c framed now);
                          Ok (with_chaos h (Some c), packets)
                      | None => Ok (h, [framed])
                      end;
      Ok (h, Framed framed secs micros :: map Wrote packets)
  end.

(** ** The tasks *)
(** The task's end of its inbox, and what the next [recv] gives. *)
Definition inbox (d : AsyncDispatch) (t : Running) : option (Chan (M := InboundMsg)) :=
  match r_inbox t with Some ch => Some ch | None => channels d !! r_key t end.

Definition next_message (h : Host) (t : Running) : option (InboundMsg * Chan (M := InboundMsg)) :=
  ch ← inbox (h_dispatch h) t; try_recv ch.

(** What the channels report to the [select!]. A channel whose sender is gone gives
    its messages first and then [None]: that disables the branch of [app_send_rx],
    whose pattern is [Some(data)], and runs the one of [close_rx], whose pattern is
    [_]. *)
Definition poll_of (h : Host) (t : Running) (retransmit zwp : bool) : Poll :=
  {| p_inbound := match next_message h t with
                  | Some (m, _) => Some (Some m)
                  | None => if r_inbox t is Some _ then Some None else None
                  end;
     p_retransmit_tick := retransmit;
     p_zwp_tick := zwp;
     p_app_send := match r_app_send t with
                   | m :: _ => Some (Some m)
                   | [] => if r_app_live t then None else Some None
                   end;
     p_close := match r_close t with _ :: _ => true | [] => negb (r_app_live t) end |}.

Definition idle (t : Running) : bool :=
  match r_sending t, r_forwarding t, r_flow t with [], [], Continue => true | _, _, _ => false end.

(** The task after an iteration: the message received is out of the inbox, what was
    taken from the application is out of its channel. *)
Definition after_turn (t : Running) (p : Poll) (rest : option (Chan (M := InboundMsg)))
    (o : TaskOut) : Running :=
  {| r_key := r_key t; r_task := task_state o; r_ether_src := r_ether_src t;
     r_ether_dst := r_ether_dst t;
     r_inbox := match r_inbox t, rest with Some _, Some ch => Some ch | ib, _ => ib end;
     r_sending := sent_msgs o; r_forwarding := app_msgs o; r_flow := task_flow o;
     r_app := r_app t; r_app_data := r_app_data t;
     r_app_send := match select_biased p (close_initiated (r_task t)) with
                   | Some (BrAppSend _) => tail (r_app_send t)
                   | _ => r_app_send t
                   end;
     r_close := match select_biased p (close_initiated (r_task t)) with
                | Some BrClose => tail (r_close t)
                | _ => r_close t
                end;
     r_running := r_running t; r_app_live := r_app_live t |}.

Definition put_inbox (d : AsyncDispatch) (t : Running) (rest : option (Chan (M := InboundMsg)))
    : AsyncDispatch :=
  match r_inbox t, rest with
  | None, Some ch => mkAsyncDispatch (a_listeners d) (<[r_key t := ch]> (channels d))
  | _, _ => d
  end.

Definition task_turn (h : Host) (i : nat) (t : Running) (tm : Times) (retransmit zwp : bool)
    : Result (Host * list Obs) :=
  if negb (idle t) then Ok (h, [])
  else
    let p := poll_of h t retransmit zwp in
    let rest := option_map snd (next_message h t) in
    o ← task_step (r_ether_src t) (r_ether_dst t) tm (r_task t) p;
    Ok (with_dispatch h (put_inbox (h_dispatch h) t rest) (<[i := after_turn t p rest o]> (h_tasks h)), []).

Definition with_queues (t : Running) (sending : list OutboundMsg) (forwarding : list (list Z))
    (app : AppState) (app_data app_send : list (list Z)) : Running :=
  mkRunning (r_key t) (r_task t) (r_ether_src t) (r_ether_dst t) (r_inbox t) sending forwarding
    (r_flow t) app app_data app_send (r_close t) (r_running t) (r_app_live t).

(** [outbound_tx.send(..).await] gets a place in the channel. *)
Definition task_send (h : Host) (i : nat) (t : Running) : Result (Host * list Obs) :=
  match r_sending t with
  | [] => Ok (h, [])
  | m :: ms =>
      let '(q, sent) := try_send (outbound_rx h) m in
      if negb sent then Ok (h, [])
      else
        let t := with_queues t ms (r_forwarding t) (r_app t) (r_app_data t) (r_app_send t) in
        Ok (with_tasks (with_outbound h q) (<[i := t]> (h_tasks h)), [Sent m])
  end.

(** [app_data_tx.send(..).await] gets a place in the channel, or fails, which is
    ignored, when the application has dropped [data_rx]. *)
Definition task_forward (h : Host) (i : nat) (t : Running) : Result (Host * list Obs) :=
  match r_forwarding t with
  | [] => Ok (h, [])
  | m :: ms =>
      if negb (r_app_live t) then
        let t := with_queues t (r_sending t) ms (r_app t) (r_app_data t) (r_app_send t) in
        Ok (with_tasks h (<[i := t]> (h_tasks h)), [])
      else if APP_CAPACITY <=? len (r_app_data t) then Ok (h, [])
      else
        let t := with_queues t (r_sending t) ms (r_app t) (r_app_data t ++ [m]) (r_app_send t) in
        Ok (with_tasks h (<[i := t]> (h_tasks h)), [])
  end.

(** The connection task has ended. *)
Definition ended (t : Running) : Running :=
  mkRunning (r_key t) (r_task t) (r_ether_src t) (r_ether_dst t) (r_inbox t) (r_sending t)
    (r_forwarding t) (r_flow t) (r_app t) (r_app_data t) (r_app_send t) (r_close t) false (r_app_live t).

(** A loop that was left ends the task, which drops the receiving end of its inbox
    and the sending end of [app_data_tx]; its application goes on. *)
Definition task_exit (h : Host) (i : nat) (t : Running) : Result (Host * list Obs) :=
  match r_sending t, r_forwarding t, r_flow t with
  | [], [], Break =>
      let d := h_dispatch h in
      let d := match r_inbox t with
               | None => mkAsyncDispatch (a_listeners d) (alter drop_receiver (r_key t) (channels d))
               | Some _ => d
               end in
      Ok (with_apps (with_dispatch h d (delete i (h_tasks h))) (h_apps h ++ [ended t]), [])
  | _, _, _ => Ok (h, [])
  end.

(** ** The application *)
(** [handle_connection] has sent on [close_tx] and returned, which drops its ends. *)
Definition app_done (t : Running) : Running :=
  mkRunning (r_key t) (r_task t) (r_ether_src t) (r_ether_dst t) (r_inbox t) (r_sending t)
    (r_forwarding t) (r_flow t) (r_app t) (r_app_data t) (r_app_send t) (r_close t ++ [tt])
    (r_running t) false.

(** One round of [handle_connection]: [data_rx.recv()] gives a chunk, or it waits, or,
    once [app_data_tx] is dropped and nothing is left, it gives [None], which ends
    the loop and leads to [close_tx.send(())]. The application sends one response at
    most, so that the channel of [send_tx] always has room. *)
Definition app_round (t : Running) (secs : Z) : Running :=
  if negb (r_app_live t) then t
  else
    match r_app_data t with
    | chunk :: rest =>
        let '(app, response) := on_chunk (r_app t) chunk secs in
        with_queues t (r_sending t) (r_forwarding t) app rest
          (r_app_send t ++ match response with Some r => [r] | None => [] end)
    | [] => if r_running t then t else app_done t
    end.

Definition app_turn (h : Host) (i : nat) (t : Running) (secs : Z) : Result (Host * list Obs) :=
  Ok (with_tasks h (<[i := app_round t secs]> (h_tasks h)), []).

(** The application of a task that has ended: what it still puts into its channels, the
    close included, has no receiver and is never read. *)
Definition app_after (h : Host) (i : nat) (secs : Z) : Result (Host * list Obs) :=
  Ok (with_apps h (alter (fun t => app_round t secs) i (h_apps h)), []).

(** ** Steps and runs *)
Inductive HostEvent : Type :=
  | Readable (raw : list Z) (nanos secs micros : Z)
  | OutboundReady (now secs micros : Z)
  | TaskTurn (i : nat) (tm : Times) (retransmit zwp : bool)
  | TaskSend (i : nat)
  | TaskForward (i : nat)
  | TaskExit (i : nat)
  | AppTurn (i : nat) (secs : Z)
  | AppAfter (i : nat) (secs : Z).

Definition on_task (h : Host) (i : nat) (k : Running -> Result (Host * list Obs))
    : Result (Host * list Obs) :=
  match h_tasks h !! i with Some t => k t | None => Ok (h, []) end.

Definition host_step (h : Host) (ev : HostEvent) : Result (Host * list Obs) :=
  match ev with
  | Readable raw nanos secs micros => on_readable h raw nanos secs micros
  | OutboundReady now secs micros => on_outbound h now secs micros
  | TaskTurn i tm retransmit zwp => on_task h i (fun t => task_turn h i t tm retransmit zwp)
  | TaskSend i => on_task h i (task_send h i)
  | TaskForward i => on_task h i (task_forward h i)
  | TaskExit i => on_task h i (task_exit h i)
  | AppTurn i secs => on_task h i (fun t => app_turn h i t secs)
  | AppAfter i secs => app_after h i secs
  end.

Fixpoint host_run (h : Host) (evs : list HostEvent) : Result (Host * list Obs) :=
  match evs with
  | [] => Ok (h, [])
  | ev :: evs =>
      '(h, obs) ← host_step h ev;
      '(h, rest) ← host_run h evs;
      Ok (h, obs ++ rest)
  end.
End Host.
