(* ===== verification/HostInv.v ===== *)
(** * The whole program: its invariant

    [host_ok]: every connection task holds a connection that is a run of passive
    events over the segments of its four-tuple that have arrived, in their order;
    what waits to be sent comes from such connections. Every step keeps it, with
    any frames, any clocks and any scheduling. *)
From S2P Require Import Prelude Errors Tcb Ipv4 Ethernet Arp Header SendBuffer RecvBuffer Float64 Retransmit Connection StateMachine Pcap Tun Task Dispatch Main Http Chaos Host.

Section HostInv.
Context `{DefaultHasher} `{!Mpsc InboundMsg} `{!Mpsc OutboundMsg} (plat : Platform).

(** ** Frames *)
(** The addresses and the segment of a frame whose layers all parse. *)
Definition frame_segment (raw : list Z) : option (list Z * list Z * TcpSegment) :=
  match plat with
  | Linux => match EthernetFrame_parse raw with Ok f => packet_segment (eth_payload f) | _ => None end
  | MacOS => packet_segment raw
  end.

(** A frame that carries a segment from a port that is listened on, with the
    checksums of its layers. *)
Definition served (ports : gmap Z unit) (frame : list Z) : Prop :=
  exists src dst seg, frame_segment frame = Some (src, dst, seg) /\
    is_Some (ports !! src_port (header seg)).

Lemma frame_segment_typed raw src dst seg :
  bytes_ok raw -> frame_segment raw = Some (src, dst, seg) -> arrival_ok src dst seg.
Proof using.
  intros Hb E. assert (Hp : exists raw', bytes_ok raw' /\ packet_segment raw' = Some (src, dst, seg)).
  { unfold frame_segment in E. destruct plat; [|by exists raw].
    destruct (EthernetFrame_parse raw) as [f| |] eqn:Ef; [|done ..].
    destruct (frame_typed raw f Hb Ef) as (_ & _ & Hp & _). by exists (eth_payload f). }
  destruct Hp as (raw' & Hb' & E').
  destruct (packet_segment_typed raw' src dst seg Hb' E') as (Hs & Hd & [] & Hp & _). by split.
Qed.

(** What [inbound_dispatch] does with a frame. *)
Definition inbound_effect (d : AsyncDispatch) (raw oip omac : list Z) (nanos : Z) (r : Inbound) : Prop :=
  match frame_segment raw with
  | Some (src, dst, seg) =>
      in_reply r = None /\ exists es ed, mac_ok es /\ mac_ok ed /\
        dispatch d src dst es ed seg nanos = (in_dispatch r, in_handle r, in_spawned r)
  | None =>
      in_dispatch r = d /\ in_handle r = None /\ in_spawned r = None /\
      forall reply, in_reply r = Some reply -> arp_answer oip omac raw reply
  end.

Lemma zero_mac : mac_ok (zeroed 6).
Proof. split; [by vm_compute | apply zeroed_bytes]. Qed.

Lemma inbound_dispatch_effect d raw oip omac nanos :
  bytes_ok raw -> ip_ok oip -> mac_ok omac ->
  exists r, inbound_dispatch plat raw d oip omac nanos = Ok r /\ inbound_effect d raw oip omac nanos r.
Proof using.
  intros Hb Hip Hmac. unfold inbound_dispatch, inbound_dispatch_macos, inbound_effect, frame_segment.
  destruct plat.
  - destruct (inbound_linux_spec d raw oip omac nanos Hb Hip Hmac) as (r & E & Hd & Hr). exists r.
    split; [exact E |]. unfold dispatched in Hd.
    assert (Hr' : forall reply, in_reply r = Some reply -> arp_answer oip omac raw reply) by (intros; by apply Hr).
    destruct (EthernetFrame_parse raw) as [f| |] eqn:Ef; [|by destruct Hd as (? & ? & ?) ..].
    destruct (packet_segment (eth_payload f)) as [[[src dst] seg]|]; [|by destruct Hd as (? & ? & ?)].
    destruct (frame_typed raw f Hb Ef) as (Hdm & Hsm & _). split.
    + destruct (in_reply r) as [reply|] eqn:Erp; [|done]. destruct (Hr' reply eq_refl) as [Ee _]. congruence.
    + by exists (dst_mac f), (src_mac f).
  - rewrite dispatch_packet_segment. eexists. split; [reflexivity |].
    destruct (packet_segment raw) as [[[src dst] seg]|]; [|by split_and!].
    destruct (dispatch d src dst _ _ seg nanos) as [[d' hd] sp] eqn:Ed. split; [done |].
    exists (zeroed 6), (zeroed 6). split; [apply zero_mac |]. split; [apply zero_mac | exact Ed].
Qed.

(** ** Messages *)
Definition msg_ok (ports : gmap Z unit) (m : OutboundMsg) : Prop :=
  exists c es ed raw, m = outbound c es ed raw /\ emits c raw /\ conn_inv c /\
    mac_ok es /\ mac_ok ed /\ is_Some (ports !! local_port (tcb c)).

Lemma frame_served ports m : msg_ok ports m -> served ports (frame_outbound plat m).
Proof using.
  intros (c & es & ed & raw & -> & He & HI & Hes & Hed & Hp).
  destruct (packet_segment_build c raw He (ci_lip _ HI) (ci_rip _ HI)) as (seg & E & Es & _).
  exists (local_ip (tcb c)), (remote_ip (tcb c)), seg. rewrite Es. split; [|done].
  unfold frame_segment, frame_outbound, frame_outbound_linux, frame_outbound_macos, outbound.
  cbn [om_src_ip om_dst_ip om_tcp_bytes om_ether_src om_ether_dst].
  destruct plat; [|done]. by rewrite EthernetFrame_parse_build.
Qed.

(** ** Histories *)
(** The segments with the four-tuple [k] among the frames read. *)
Definition arrival (k : FourTuple) (o : Obs) : option TcpSegment :=
  match o with
  | Read raw _ _ =>
      match frame_segment raw with
      | Some (src, dst, seg) => if decide (key_of src dst seg = k) then Some seg else None
      | None => None
      end
  | _ => None
  end.

Definition arrivals (k : FourTuple) (log : list Obs) : list TcpSegment := omap (arrival k) log.

(** Frames are bytes. *)
Definition log_ok (log : list Obs) : Prop :=
  Forall (fun o => match o with Read raw _ _ => bytes_ok raw | _ => True end) log.

(** The segments in an inbox. *)
Definition waiting (ch : Chan (M := InboundMsg)) : list TcpSegment :=
  map (fun m => TcpSegmentOwned_as_seg (in_seg m)) (queued ch).

(** The events that a task runs when its application never asks for the close. *)
Definition passive (ev : Event) : Prop :=
  match ev with EvConnect | EvClose => False | _ => True end.

(** [c] is what became of a fresh connection in LISTEN; the segments it processed and
    then the ones that wait in its inbox are, in order, among those that arrived. *)
Definition history (log : list Obs) (k : FourTuple) (c : Connection) (ch : Chan (M := InboundMsg)) : Prop :=
  exists t0 evs outs, fresh_tcb t0 /\ state t0 = Listen /\ Forall event_ok evs /\ Forall passive evs /\
    conn_run (Connection_new t0) evs = Ok (c, outs) /\
    sublist (event_segments evs ++ waiting ch) (arrivals k log).

Lemma arrivals_app k l1 l2 : arrivals k (l1 ++ l2) = arrivals k l1 ++ arrivals k l2.
Proof using. apply omap_app. Qed.

Lemma arrivals_seg_ok k log : log_ok log -> Forall seg_ok (arrivals k log).
Proof using.
  induction 1 as [|o log Ho _ IH]; [constructor |].
  change (Forall seg_ok (omap (arrival k) (o :: log))). cbn [omap list_omap].
  destruct (arrival k o) as [seg|] eqn:E; [|exact IH]. constructor; [|exact IH].
  destruct o as [raw ? ?| | | |]; cbn [arrival] in E; try done.
  destruct (frame_segment raw) as [[[src dst] sg]|] eqn:Ef; [|done].
  case_decide; [|done]. injection E as ->. by apply (frame_segment_typed raw src dst).
Qed.

Lemma history_log log obs k c ch : history log k c ch -> history (log ++ obs) k c ch.
Proof using.
  intros (t0 & evs & outs & Hf & Hs & Hev & Hp & Er & Hsub). exists t0, evs, outs. split_and!; try done.
  rewrite arrivals_app. by apply sublist_inserts_r.
Qed.

(** The dispatcher appends a segment that has just arrived. *)
Lemma history_arrival log raw secs micros src dst seg c ch ch' :
  history log (key_of src dst seg) c ch -> frame_segment raw = Some (src, dst, seg) ->
  queued ch' = queued ch ++ [inbound_of seg] ->
  history (log ++ [Read raw secs micros]) (key_of src dst seg) c ch'.
Proof using.
  intros (t0 & evs & outs & Hf & Hs & Hev & Hp & Er & Hsub) Ef Hq. exists t0, evs, outs.
  split_and!; try done.
  rewrite arrivals_app. unfold waiting. rewrite Hq, map_app, app_assoc. apply sublist_app; [exact Hsub |].
  unfold arrivals. cbn [omap list_omap arrival]. rewrite Ef, decide_True by done. by destruct seg.
Qed.

(** The task runs the events of an iteration. *)
Lemma history_turn log k c ch ch' evs c' outs :
  history log k c ch -> Forall event_ok evs -> Forall passive evs ->
  conn_run c evs = Ok (c', outs) -> event_segments evs ++ waiting ch' = waiting ch ->
  history log k c' ch'.
Proof using.
  intros (t0 & evs0 & outs0 & Hf & Hs & Hev0 & Hp0 & Er0 & Hsub) Hev Hp Er Hw.
  exists t0, (evs0 ++ evs), (outs0 ++ outs). split_and!; try done.
  - by apply Forall_app.
  - by apply Forall_app.
  - by apply (conn_run_app _ _ _ c).
  - by rewrite event_segments_app, <- app_assoc, Hw.
Qed.

Lemma history_inv log k c ch : history log k c ch -> conn_inv c.
Proof using.
  intros (t0 & evs & outs & Hf & Hs & Hev & Hp & Er & _).
  pose proof (conn_run_ok evs _ (conn_inv_new t0 Hf (or_introl Hs)) Hev) as Hok.
  rewrite Er in Hok. apply Hok.
Qed.

Lemma history_waiting log k c ch : log_ok log -> history log k c ch -> Forall seg_ok (waiting ch).
Proof using.
  intros Hl (t0 & evs & outs & _ & _ & _ & _ & _ & Hsub).
  pose proof (arrivals_seg_ok k log Hl) as Hok. apply Forall_forall. intros seg Hin.
  rewrite Forall_forall in Hok. apply Hok.
  eapply elem_of_sublist; [|exact Hsub]. apply elem_of_app. by right.
Qed.

(** *** A connection whose application never closes *)
Definition passive_state (s : TcbState) : Prop :=
  s = Listen \/ s = SynReceived \/ s = Established \/ s = CloseWait \/ s = Closed.

Lemma passive_step c ev c' outs :
  conn_inv c -> event_ok ev -> passive ev -> conn_step c ev = Ok (c', outs) ->
  passive_state (st c) -> passive_state (st c').
Proof using.
  intros HI Hev Hp E Hst. destruct (step_in_diagram c ev c' outs HI Hev E) as [->|(k & Hk & Hsh)]; [done |].
  unfold passive_state in *.
  destruct Hk; try (by destruct ev); try tauto;
    destruct Hst as [Hs|[Hs|[Hs|[Hs|Hs]]]]; try discriminate Hs; tauto.
Qed.

Lemma passive_run evs : forall c c' outs,
  conn_inv c -> Forall event_ok evs -> Forall passive evs -> conn_run c evs = Ok (c', outs) ->
  passive_state (st c) -> passive_state (st c').
Proof using.
  induction evs as [|ev evs IH]; intros c c' outs HI Hev Hp; cbn [conn_run]; [by intros [= <- _] |].
  apply Forall_cons in Hev as [Hev Hevs]. apply Forall_cons in Hp as [Hp Hps].
  pose proof (conn_step_ok c ev HI Hev) as Hok.
  destruct (conn_step c ev) as [[c1 o1]| |] eqn:E; try done. cbn [mbind Res_bind].
  destruct (conn_run c1 evs) as [[c2 o2]| |] eqn:Er; cbn [mbind Res_bind]; try done. intros [= <- _] Hst.
  destruct Hok as (HI1 & _). apply (IH c1 c2 o2); try done. by apply (passive_step c ev c1 o1).
Qed.

Lemma history_state log k c ch : history log k c ch -> passive_state (st c).
Proof using.
  intros (t0 & evs & outs & Hf & Hs & Hev & Hp & Er & _).
  apply (passive_run evs (Connection_new t0) c outs); try done.
  - by apply conn_inv_new; [|left].
  - left. destruct t0. exact Hs.
Qed.

(** ** The invariant *)
Record running_ok (log : list Obs) (d : AsyncDispatch) (t : Running) : Prop := {
  ro_conn : conn_at (r_key t) (conn (r_task t));
  ro_port : is_Some (a_listeners d !! ft_local_port (r_key t));
  ro_es : mac_ok (r_ether_src t);
  ro_ed : mac_ok (r_ether_dst t);
  ro_live : r_flow t = Continue -> st (conn (r_task t)) <> Closed;
  ro_closing : close_initiated (r_task t) = false;
  ro_sending : Forall (msg_ok (a_listeners d)) (r_sending t);
  ro_forwarding : Forall bytes_ok (r_forwarding t);
  ro_app : bytes_ok (request_buf (r_app t));
  ro_app_data : Forall bytes_ok (r_app_data t);
  ro_app_send : Forall bytes_ok (r_app_send t);
  ro_close : r_close t = [];
  ro_running : r_running t = true;
  ro_app_live : r_app_live t = true;
  ro_history : exists ch, inbox d t = Some ch /\ history log (r_key t) (conn (r_task t)) ch }.

(** The application of a task that has ended asks for the close once, when it is
    through, and nobody hears it. *)
Definition app_over (t : Running) : Prop :=
  r_running t = false /\ r_close t = if r_app_live t then [] else [tt].

(** The keys of the tasks whose inbox the dispatcher still feeds. *)
Definition attached (ts : list Running) : list FourTuple :=
  omap (fun t => match r_inbox t with None => Some (r_key t) | Some _ => None end) ts.

Record host_ok (J T : Z) (log : list Obs) (h : Host) : Prop := {
  ho_ip : ip_ok (our_ip h);
  ho_mac : mac_ok (our_mac h);
  ho_log : log_ok log;
  ho_tasks : Forall (running_ok log (h_dispatch h)) (h_tasks h);
  ho_unique : NoDup (attached (h_tasks h));
  ho_apps : Forall app_over (h_apps h);
  ho_outbound : Forall (msg_ok (a_listeners (h_dispatch h))) (queued (outbound_rx h));
  ho_chaos : match h_chaos h with
             | None => True
             | Some c => chaos_ok T c /\ max_jitter_ms (config c) <= J /\
                 Forall (served (a_listeners (h_dispatch h))) (map fst (pending c))
             end }.

(** What may be observed: the device is given ARP replies for our address and
    segments from a port that is listened on. *)
Definition obs_ok (h : Host) (o : Obs) : Prop :=
  match o with
  | Wrote f => served (a_listeners (h_dispatch h)) f
  | Replied f => exists raw, bytes_ok raw /\ arp_answer (our_ip h) (our_mac h) raw f
  | Sent m => msg_ok (a_listeners (h_dispatch h)) m
  | Read raw _ _ => bytes_ok raw
  | Framed f _ _ => served (a_listeners (h_dispatch h)) f
  end.

(** What never changes. *)
Definition same_host (h h' : Host) : Prop :=
  a_listeners (h_dispatch h') = a_listeners (h_dispatch h) /\ our_ip h' = our_ip h /\ our_mac h' = our_mac h.

Definition step_fine (J T : Z) (log : list Obs) (h : Host) (r : Result (Host * list Obs)) : Prop :=
  exists h' obs, r = Ok (h', obs) /\ host_ok J T (log ++ obs) h' /\ Forall (obs_ok h) obs /\ same_host h h'.

Lemma step_nothing J T log h : host_ok J T log h -> step_fine J T log h (Ok (h, [])).
Proof using. intros Hh. exists h, []. rewrite app_nil_r. by split_and!. Qed.

Lemma running_log log obs d t : running_ok log d t -> running_ok (log ++ obs) d t.
Proof using.
  intros []. split; try done. destruct ro_history0 as (ch & E & Hh). exists ch.
  split; [done |]. by apply history_log.
Qed.

Lemma ho_tasks_log J T log obs h :
  host_ok J T log h -> Forall (running_ok (log ++ obs) (h_dispatch h)) (h_tasks h).
Proof using. intros Hh. eapply Forall_impl; [apply Hh |]. intros t. apply running_log. Qed.

(** ** A frame is read *)
Lemma attached_in log d ts k :
  Forall (running_ok log d) ts -> k ∈ attached ts -> is_Some (channels d !! k).
Proof using.
  intros Hts Hk. apply list_elem_of_omap in Hk as (t & Ht & E).
  rewrite Forall_forall in Hts. destruct (ro_history _ _ _ (Hts t Ht)) as (ch & Ei & _).
  unfold inbox in Ei. destruct (r_inbox t); [done |]. injection E as <-. by exists ch.
Qed.

Lemma attached_detach d d' ts : sublist (attached (map (detach d d') ts)) (attached ts).
Proof using.
  induction ts as [|t ts IH]; [constructor |].
  unfold attached in *. cbn [map omap list_omap]. set (l := map (detach d d') ts) in *. clearbody l.
  unfold detach. destruct (r_inbox t) eqn:Ei; [rewrite Ei; exact IH |].
  destruct (channels d' !! r_key t); [rewrite Ei; by apply sublist_skip |].
  cbn [r_inbox r_key]. destruct (channels d !! r_key t); [by apply sublist_cons | by apply sublist_skip].
Qed.

Lemma detach_other log d d' t :
  running_ok log d t -> channels d' !! r_key t = channels d !! r_key t -> detach d d' t = t.
Proof using.
  intros Ht E. destruct (ro_history _ _ _ Ht) as (ch & Ei & _). unfold inbox in Ei. unfold detach.
  destruct (r_inbox t); [done |]. by rewrite E, Ei.
Qed.

(** Only the inbox of a task and the listeners of the dispatcher matter. *)
Lemma running_dispatch log d d' t :
  running_ok log d t -> a_listeners d' = a_listeners d ->
  (exists ch, inbox d' t = Some ch /\ history log (r_key t) (conn (r_task t)) ch) -> running_ok log d' t.
Proof using. intros [] E Hch. split; rewrite ?E; done. Qed.

Lemma detach_ok log raw secs micros d src dst es ed seg nanos d' hd sp t :
  running_ok log d t -> frame_segment raw = Some (src, dst, seg) ->
  dispatch d src dst es ed seg nanos = (d', hd, sp) ->
  running_ok (log ++ [Read raw secs micros]) d' (detach d d' t).
Proof using.
  intros Ht Ef Ed. pose proof (dispatch_spec d src dst es ed seg nanos) as Hs. rewrite Ed in Hs.
  destruct Hs as (Hl & Hk & Hc). destruct (ro_history _ _ _ Ht) as (ch & Ei & Hh).
  pose proof (running_log log [Read raw secs micros] d t Ht) as Ht'.
  destruct (r_inbox t) as [ib|] eqn:Eb.
  { unfold detach. rewrite Eb. apply (running_dispatch _ d); [done | done |]. exists ch.
    split; [unfold inbox in *; by rewrite Eb in * | by apply history_log]. }
  unfold inbox in Ei. rewrite Eb in Ei.
  destruct (decide (r_key t = key_of src dst seg)) as [E|Hne].
  - unfold known in Hc. rewrite <- E, Ei in Hc. destruct Hc as (_ & _ & Hc).
    destruct (_ && _)%bool.
    + destruct Hc as (tx' & Etx & Hq & _). unfold detach. rewrite Eb, Etx.
      apply (running_dispatch _ d); [done | done |]. exists tx'.
      split; [unfold inbox; by rewrite Eb |]. rewrite E in *. by apply (history_arrival _ _ _ _ src dst seg _ ch).
    + unfold detach. rewrite Eb, Hc. destruct Ht'. split; cbn; rewrite ?Hl; try done.
      exists ch. split; [unfold inbox; cbn; by rewrite Ei | by apply history_log].
  - assert (Ek : channels d' !! r_key t = channels d !! r_key t) by by apply Hk.
    rewrite (detach_other log d d' t Ht Ek). apply (running_dispatch _ d); [done | done |]. exists ch.
    split; [unfold inbox; by rewrite Eb, Ek | by apply history_log].
Qed.

Lemma started_ok log d src dst es ed seg nanos d' hd sp :
  arrival_ok src dst seg -> mac_ok es -> mac_ok ed ->
  dispatch d src dst es ed seg nanos = (d', Some hd, Some sp) ->
  running_ok log d' (start_task hd sp) /\ h_key hd = key_of src dst seg /\
  channels d !! key_of src dst seg = None.
Proof using.
  intros Ha He Hd. unfold dispatch.
  destruct (channels d !! key_of src dst seg) as [tx|] eqn:Ek.
  { destruct (try_send tx _) as [tx' ok]. by destruct (negb ok). }
  destruct (opens (a_listeners d) seg) eqn:Eo; [|done]. intros [= <- <- <-]. split; [|done].
  unfold opens in Eo. apply andb_true_iff in Eo as [_ Hp%bool_decide_eq_true].
  split; cbn [start_task r_key r_task conn sp_conn h_key r_ether_src r_ether_dst sp_ether_src sp_ether_dst
    r_flow close_initiated r_sending r_forwarding r_app r_app_data r_app_send]; try done; try apply Forall_nil_2.
  - by apply new_conn_at.
  - exists (mpsc_channel INBOUND_CAPACITY). unfold inbox. cbn. split; [by rewrite lookup_insert_eq |].
    exists (new_for_listen dst (dst_port (header seg)) src (src_port (header seg)) nanos), [], [].
    split; [apply fresh_for_listen; apply Ha |]. split; [done |].
    split; [constructor |]. split; [constructor |]. split; [reflexivity |].
    unfold waiting. destruct (channel_fresh (M := InboundMsg) INBOUND_CAPACITY) as (-> & _). apply sublist_nil_l.
Qed.

Lemma attached_app ts ts' : attached (ts ++ ts') = attached ts ++ attached ts'.
Proof using. apply omap_app. Qed.

(** The dispatcher and the tasks change, the rest of the host stays. *)
Lemma host_ok_tasks J T log obs h d pw ts :
  host_ok J T log h -> log_ok obs -> a_listeners d = a_listeners (h_dispatch h) ->
  Forall (running_ok (log ++ obs) d) ts -> NoDup (attached ts) ->
  host_ok J T (log ++ obs) (mkHost (our_ip h) (our_mac h) d (outbound_rx h) pw (h_chaos h) ts (h_apps h)).
Proof using.
  intros [] Hl Hd Hts Hn. split; cbn; rewrite ?Hd; try done. by apply Forall_app.
Qed.

Lemma readable_tasks log raw secs micros h src dst seg es ed nanos d' hd sp :
  log_ok log -> bytes_ok raw -> Forall (running_ok log (h_dispatch h)) (h_tasks h) ->
  NoDup (attached (h_tasks h)) -> frame_segment raw = Some (src, dst, seg) -> mac_ok es -> mac_ok ed ->
  dispatch (h_dispatch h) src dst es ed seg nanos = (d', hd, sp) ->
  let ts := map (detach (h_dispatch h) d') (h_tasks h) ++
    match hd, sp with Some handle, Some sp => [start_task handle sp] | _, _ => [] end in
  Forall (running_ok (log ++ [Read raw secs micros]) d') ts /\ NoDup (attached ts).
Proof using.
  intros Hl Hb Hts Hn Ef He Hd Ed ts. pose proof (frame_segment_typed raw src dst seg Hb Ef) as Ha.
  assert (Hold : Forall (running_ok (log ++ [Read raw secs micros]) d')
    (map (detach (h_dispatch h) d') (h_tasks h))).
  { apply Forall_map. eapply Forall_impl; [exact Hts |]. intros t Ht. by eapply detach_ok. }
  assert (Hns : NoDup (attached (map (detach (h_dispatch h) d') (h_tasks h))))
    by (eapply sublist_NoDup; [exact Hn | apply attached_detach]).
  unfold ts. destruct hd as [hd|], sp as [sp|]; try (by rewrite app_nil_r).
  destruct (started_ok (log ++ [Read raw secs micros]) _ _ _ _ _ _ _ _ _ _ Ha He Hd Ed) as (Hst & Ek & Hnone).
  split; [apply Forall_app; split; [done | by apply Forall_singleton] |].
  rewrite attached_app. cbn [attached omap list_omap start_task r_inbox r_key].
  apply NoDup_app. split; [done |]. split; [|apply NoDup_singleton].
  intros k Hk Hin. apply list_elem_of_singleton in Hin as ->. rewrite Ek in Hk.
  pose proof (elem_of_sublist _ _ _ Hk (attached_detach _ _ _)) as Hk'.
  destruct (attached_in log (h_dispatch h) _ _ Hts Hk') as [ch Hch]. congruence.
Qed.

Lemma on_readable_fine J T log h raw nanos secs micros :
  host_ok J T log h -> bytes_ok raw ->
  step_fine J T log h (on_readable plat h raw nanos secs micros).
Proof using.
  intros Hh Hb. unfold on_readable. cbn [capture_packet h_dispatch our_ip our_mac h_tasks].
  destruct (inbound_dispatch_effect (h_dispatch h) raw (our_ip h) (our_mac h) nanos Hb
    (ho_ip _ _ _ _ Hh) (ho_mac _ _ _ _ Hh)) as (r & -> & He).
  cbn [lift mbind Res_bind]. eexists _, _. split; [reflexivity |].
  unfold with_dispatch, inbound_effect in *. cbn [our_ip our_mac outbound_rx pcap_writer h_chaos h_apps].
  destruct (frame_segment raw) as [[[src dst] seg]|] eqn:Ef.
  - destruct He as (-> & es & ed & Hes & Hed & Ed).
    destruct (readable_tasks log raw secs micros h src dst seg es ed nanos _ _ _ (ho_log _ _ _ _ Hh) Hb
      (ho_tasks _ _ _ _ Hh) (ho_unique _ _ _ _ Hh) Ef Hes Hed Ed) as [Hts Hn].
    pose proof (dispatch_spec (h_dispatch h) src dst es ed seg nanos) as Hs. rewrite Ed in Hs.
    destruct Hs as [Hli _].
    split; [apply (host_ok_tasks J T log _ h); [done | by apply Forall_singleton | done ..] |].
    split; [by apply Forall_singleton | by split_and!].
  - destruct He as (-> & -> & _ & Hr). rewrite app_nil_r.
    assert (Hid : map (detach (h_dispatch h) (h_dispatch h)) (h_tasks h) = h_tasks h).
    { rewrite <- (map_id (h_tasks h)) at 2. apply map_ext_Forall.
      eapply Forall_impl; [apply Hh |]. intros t Ht. by apply (detach_other log). }
    rewrite Hid. split.
    + apply (host_ok_tasks J T log _ h); [done | | done | by apply (ho_tasks_log J T) | apply Hh].
      constructor; [done |]. destruct (in_reply r); [by apply Forall_singleton | apply Forall_nil_2].
    + split; [|by split_and!]. constructor; [done |].
      destruct (in_reply r) as [f|]; constructor; [|constructor]. exists raw. by split; [|apply Hr].
Qed.

(** ** A message is framed and written *)
Lemma intercept_served J T ports c f now :
  chaos_ok T c -> max_jitter_ms (config c) <= J -> 0 <= now -> now + from_millis J <= T ->
  T < DURATION_MAX -> Forall (served ports) (map fst (pending c)) -> served ports f ->
  exists c' outs, intercept c f now = Ok (c', outs) /\ chaos_ok T c' /\
    max_jitter_ms (config c') <= J /\ Forall (served ports) (map fst (pending c')) /\
    Forall (served ports) outs.
Proof using.
  intros Hc HJ Hn HT HD Hp Hf.
  destruct (intercept_spec T c f now Hc Hn) as (c' & outs & E & Hc' & Ecfg & Hcase).
  { unfold due, from_millis in *. lia. }
  exists c', outs. split; [exact E |]. split; [done |]. rewrite Ecfg. split; [done |].
  destruct Hcase as [(-> & -> & _)|(Hperm & _)]; [by split; [|constructor] |].
  assert (Hall : Forall (served ports) (outs ++ map fst (pending c'))).
  { rewrite Hperm. apply Forall_app. split; [done | by apply Forall_singleton]. }
  by apply Forall_app in Hall as [? ?].
Qed.

Lemma recv_queued {M} `{!Mpsc M} (ch ch' : Chan (M := M)) m :
  try_recv ch = Some (m, ch') -> queued ch = m :: queued ch'.
Proof using.
  intros E. pose proof (try_recv_spec ch) as Hs.
  destruct (queued ch) as [|m0 q]; [congruence |]. destruct Hs as (ch1 & E1 & Eq & _). congruence.
Qed.

Lemma on_outbound_fine J T log h now secs micros :
  host_ok J T log h -> 0 <= now -> now + from_millis J <= T -> T < DURATION_MAX ->
  step_fine J T log h (on_outbound plat h now secs micros).
Proof using.
  intros Hh Hn HT HD. unfold on_outbound.
  destruct (try_recv (outbound_rx h)) as [[msg q]|] eqn:Er; [|by apply step_nothing].
  pose proof (recv_queued _ _ _ Er) as Hq. pose proof (ho_outbound _ _ _ _ Hh) as Ho.
  rewrite Hq in Ho. apply Forall_cons in Ho as [Hm Ho]. apply frame_served in Hm.
  set (f := frame_outbound plat msg) in *. cbn [capture_packet with_outbound h_chaos].
  pose proof (ho_chaos _ _ _ _ Hh) as Hch. destruct (h_chaos h) as [c|].
  - destruct Hch as (Hc & HJ & Hp).
    destruct (intercept_served J T _ c f now Hc HJ Hn HT HD Hp Hm) as (c' & outs & -> & Hc' & HJ' & Hp' & Hs).
    cbn [lift mbind Res_bind]. eexists _, _. split; [reflexivity |].
    split; [|split; [constructor; [done | by apply Forall_map] | by split_and!]].
    destruct Hh. split; cbn; try done; [|by apply (ho_tasks_log J T)].
    apply Forall_app. split; [done |]. constructor; [done |]. by apply Forall_map, Forall_true.
  - cbn [mbind Res_bind]. eexists _, _. split; [reflexivity |].
    split; [|split; [repeat (constructor; [done |]); constructor | by split_and!]].
    pose proof (ho_tasks_log J T log [Framed f secs micros; Wrote f] h Hh).
    destruct Hh. split; cbn; try done. apply Forall_app. split; [done |]. repeat constructor.
Qed.

(** ** A task moves *)
Lemma history_shrink log k c ch ch' :
  sublist (waiting ch') (waiting ch) -> history log k c ch -> history log k c ch'.
Proof using.
  intros Hs (t0 & evs & outs & ? & ? & ? & ? & ? & Hsub). exists t0, evs, outs. split_and!; try done.
  etrans; [|exact Hsub]. by apply sublist_app.
Qed.

(** The channel under [k] loses messages. *)
Lemma running_shrink log d k ch' t :
  running_ok log d t ->
  (forall ch, channels d !! k = Some ch -> sublist (waiting ch') (waiting ch)) ->
  running_ok log (mkAsyncDispatch (a_listeners d) (<[k := ch']> (channels d))) t.
Proof using.
  intros Ht Hs. apply (running_dispatch _ d); [done | done |].
  destruct (ro_history _ _ _ Ht) as (ch & Ei & Hh). unfold inbox in *. destruct (r_inbox t); [by exists ch |].
  cbn [channels]. destruct (decide (r_key t = k)) as [<-|Hne].
  - rewrite lookup_insert_eq. exists ch'. split; [done |]. apply (history_shrink _ _ _ ch); [by apply Hs | done].
  - rewrite lookup_insert_ne by done. by exists ch.
Qed.

Lemma attached_insert ts i t t' :
  ts !! i = Some t -> r_key t' = r_key t -> (r_inbox t' = None <-> r_inbox t = None) ->
  attached (<[i := t']> ts) = attached ts.
Proof using.
  unfold attached. revert i. induction ts as [|t0 ts IH]; intros i Hi Hk Hb; [done |].
  destruct i as [|i]; cbn in *.
  - injection Hi as ->. rewrite Hk. destruct Hb as [H1 H2].
    destruct (r_inbox t), (r_inbox t'); first [done | discriminate (H1 eq_refl) | discriminate (H2 eq_refl)].
  - pose proof (IH i Hi Hk Hb) as E. destruct (r_inbox t0); [exact E | by f_equal].
Qed.

Lemma attached_delete i ts : sublist (attached (delete i ts)) (attached ts).
Proof using.
  unfold attached. revert i. induction ts as [|t ts IH]; intros i; [done |].
  destruct i as [|i]; cbn.
  - destruct (r_inbox t); [done | by apply sublist_cons].
  - destruct (r_inbox t); [apply IH | by apply sublist_skip].
Qed.

(** The task's part of the state changes. *)
Lemma host_ok_task J T log h i t t' d :
  host_ok J T log h -> h_tasks h !! i = Some t -> a_listeners d = a_listeners (h_dispatch h) ->
  Forall (running_ok log d) (h_tasks h) -> running_ok log d t' -> r_key t' = r_key t ->
  (r_inbox t' = None <-> r_inbox t = None) ->
  host_ok J T log (with_dispatch h d (<[i := t']> (h_tasks h))).
Proof using.
  intros [] Hi Hd Hts Ht' Hk Hb. split; cbn; rewrite ?Hd; try done.
  - by apply Forall_insert.
  - by rewrite (attached_insert _ _ t).
Qed.

Lemma step_quiet J T log h h' :
  host_ok J T log h' -> same_host h h' -> step_fine J T log h (Ok (h', [])).
Proof using. intros Hh Hs. exists h', []. rewrite app_nil_r. by split_and!. Qed.

Lemma task_at J T log h i t :
  host_ok J T log h -> h_tasks h !! i = Some t -> running_ok log (h_dispatch h) t.
Proof using. intros Hh Hi. exact (proj1 (Forall_lookup _ _) (ho_tasks _ _ _ _ Hh) i t Hi). Qed.

(** *** What the channels report *)
Lemma next_message_spec h t m ch' :
  next_message h t = Some (m, ch') ->
  exists ch, inbox (h_dispatch h) t = Some ch /\ queued ch = m :: queued ch'.
Proof using.
  unfold next_message. destruct (inbox (h_dispatch h) t) as [ch|]; cbn [mbind option_bind]; [|done].
  intros E. exists ch. split; [done | by apply recv_queued].
Qed.

Lemma poll_of_ok log h t rt zw :
  log_ok log -> running_ok log (h_dispatch h) t -> poll_ok (poll_of h t rt zw).
Proof using.
  intros Hl Ht. destruct (ro_history _ _ _ Ht) as (ch0 & Ei0 & Hh). split; cbn [poll_of p_inbound p_app_send].
  - intros msg. destruct (next_message h t) as [[m ch']|] eqn:En; [|by destruct (r_inbox t)].
    intros [= <-]. destruct (next_message_spec h t m ch' En) as (ch & Ei & Hq).
    assert (ch0 = ch) as -> by congruence.
    pose proof (history_waiting log _ _ ch Hl Hh) as Hw. unfold waiting in Hw. rewrite Hq in Hw.
    by apply Forall_cons in Hw as [? _].
  - intros data. destruct (r_app_send t) as [|m q] eqn:Es; [by destruct (r_app_live t) |]. intros [= <-].
    pose proof (ro_app_send _ _ _ Ht) as Ha. rewrite Es in Ha. by apply Forall_cons in Ha as [? _].
Qed.

(** The close channel of a task that runs is silent. *)
Lemma poll_no_close log h t rt zw :
  running_ok log (h_dispatch h) t -> p_close (poll_of h t rt zw) = false.
Proof using. intros Ht. cbn [poll_of p_close]. by rewrite (ro_close _ _ _ Ht), (ro_app_live _ _ _ Ht). Qed.

Lemma inbound_segments_poll h t rt zw :
  inbound_segments (poll_of h t rt zw) =
    match next_message h t with Some (m, _) => [TcpSegmentOwned_as_seg (in_seg m)] | None => [] end.
Proof using.
  unfold inbound_segments. cbn [poll_of p_inbound].
  destruct (next_message h t) as [[m ch']|]; [done |]. by destruct (r_inbox t).
Qed.

(** *** One iteration *)
(** The inbox after an iteration. *)
Lemma turn_history log h t rt zw p o evs :
  running_ok log (h_dispatch h) t -> p = poll_of h t rt zw ->
  Forall event_ok evs -> Forall passive evs -> event_segments evs = inbound_segments p ->
  (exists outs, conn_run (conn (r_task t)) evs = Ok (conn (task_state o), outs)) ->
  let rest := option_map snd (next_message h t) in
  exists ch, inbox (put_inbox (h_dispatch h) t rest) (after_turn t p rest o) = Some ch /\
    history log (r_key t) (conn (task_state o)) ch.
Proof using.
  intros Ht -> Hev Hp Hseg (outs & Er) rest. destruct (ro_history _ _ _ Ht) as (ch0 & Ei0 & Hh).
  rewrite inbound_segments_poll in Hseg. unfold rest.
  destruct (next_message h t) as [[m ch']|] eqn:En; cbn [option_map snd].
  - destruct (next_message_spec h t m ch' En) as (ch & Ei & Hq). assert (ch0 = ch) as -> by congruence.
    exists ch'. split.
    + unfold inbox, put_inbox, after_turn in *. cbn [r_inbox r_key].
      destruct (r_inbox t); [done |]. cbn [channels]. by rewrite lookup_insert_eq.
    + apply (history_turn log _ _ ch ch' evs _ outs Hh Hev Hp Er). rewrite Hseg. unfold waiting. by rewrite Hq.
  - exists ch0. split.
    + unfold inbox, put_inbox, after_turn in *. cbn [r_inbox r_key]. by destruct (r_inbox t).
    + apply (history_turn log _ _ ch0 ch0 evs _ outs Hh Hev Hp Er). by rewrite Hseg.
Qed.

Lemma sent_ok ports c es ed evs c' msgs :
  conn_inv c -> mac_ok es -> mac_ok ed -> is_Some (ports !! local_port (tcb c)) -> Forall event_ok evs ->
  conn_run c evs = Ok (c', map om_tcp_bytes msgs) ->
  Forall (fun m => exists raw, m = outbound c es ed raw) msgs -> Forall (msg_ok ports) msgs.
Proof using.
  intros HI He Hd Hp Hev Er Hm. pose proof (conn_run_ok evs c HI Hev) as Hok. rewrite Er in Hok.
  destruct Hok as (_ & _ & Hem). apply Forall_forall. intros m Hin.
  rewrite Forall_forall in Hm. destruct (Hm m Hin) as [raw ->].
  rewrite Forall_forall in Hem. exists c, es, ed, raw. split_and!; try done.
  apply Hem. apply list_elem_of_fmap. by exists (outbound c es ed raw).
Qed.

Lemma conn_at_run k c evs c' outs :
  conn_at k c -> Forall event_ok evs -> conn_run c evs = Ok (c', outs) -> conn_at k c'.
Proof using.
  intros [HI E1 E2 E3 E4] Hev Er. pose proof (conn_run_ok evs c HI Hev) as Hok. rewrite Er in Hok.
  destruct Hok as (HI' & (F1 & F2 & F3 & F4) & _). split; congruence.
Qed.

Lemma asked_passive p evs : p_close p = false -> Forall (asked p) evs -> Forall passive evs.
Proof using.
  intros Hc Ha. eapply Forall_impl; [exact Ha |]. intros ev. destruct ev; cbn; try done. congruence.
Qed.

Lemma after_turn_ok log h t tm rt zw :
  log_ok log -> times_ok tm -> running_ok log (h_dispatch h) t -> r_flow t = Continue ->
  let p := poll_of h t rt zw in
  let rest := option_map snd (next_message h t) in
  exists o, task_step (r_ether_src t) (r_ether_dst t) tm (r_task t) p = Ok o /\
    running_ok log (put_inbox (h_dispatch h) t rest) (after_turn t p rest o).
Proof using.
  intros Hl Htm Ht Hf p rest. pose proof (poll_of_ok log h t rt zw Hl Ht) as Hp. fold p in Hp.
  pose proof (ca_inv _ _ (ro_conn _ _ _ Ht)) as HI.
  assert (Hnc : p_close p = false) by exact (poll_no_close log h t rt zw Ht).
  destruct (task_step_run (r_ether_src t) (r_ether_dst t) tm (r_task t) p Htm Hp HI (ro_live _ _ _ Ht Hf))
    as (o & evs & Eo & Hev & Hask & Hseg & Er & Hm & Hbr).
  destruct (task_step_app _ _ tm (r_task t) p o Htm Hp HI Eo) as [Happ Hcl].
  exists o. split; [exact Eo |].
  assert (Hli : a_listeners (put_inbox (h_dispatch h) t rest) = a_listeners (h_dispatch h))
    by (unfold put_inbox; by destruct (r_inbox t), rest).
  pose proof (turn_history log h t rt zw p o evs Ht eq_refl Hev (asked_passive p evs Hnc Hask) Hseg
    (ex_intro _ _ Er)) as Hhist. fold rest in Hhist.
  pose proof (ro_conn _ _ _ Ht) as Hc. pose proof (ro_port _ _ _ Ht) as Hpt.
  assert (Hsent : Forall (msg_ok (a_listeners (h_dispatch h))) (sent_msgs o)).
  { apply (sent_ok _ (conn (r_task t)) (r_ether_src t) (r_ether_dst t) evs (conn (task_state o)));
      try done; [apply Ht | apply Ht | by rewrite (ca_lport _ _ Hc)]. }
  pose proof (ro_app_send _ _ _ Ht) as Has.
  split; cbn [after_turn r_key r_task r_ether_src r_ether_dst r_flow r_sending r_forwarding r_app r_app_data
    r_app_send r_close r_running r_app_live]; rewrite ?Hli; try done; try apply Ht.
  - by apply (conn_at_run _ (conn (r_task t)) evs _ (map om_tcp_bytes (sent_msgs o))).
  - intros E1 E2. rewrite (proj2 Hbr (or_intror E2)) in E1. discriminate.
  - rewrite Hcl by done. apply Ht.
  - destruct (select_biased p _) as [[]|]; try done. destruct (r_app_send t); [done |].
    by apply Forall_cons in Has as [_ ?].
  - rewrite (ro_close _ _ _ Ht). by destruct (select_biased p _) as [[]|].
Qed.

Lemma put_inbox_ok log h t0 t :
  running_ok log (h_dispatch h) t ->
  running_ok log (put_inbox (h_dispatch h) t0 (option_map snd (next_message h t0))) t.
Proof using.
  intros Ht. destruct (next_message h t0) as [[m ch']|] eqn:En; cbn [option_map snd];
    [|unfold put_inbox; by destruct (r_inbox t0)].
  unfold put_inbox. destruct (r_inbox t0) eqn:Eb; [done |].
  destruct (next_message_spec h t0 m ch' En) as (ch & Ei & Hq). unfold inbox in Ei. rewrite Eb in Ei.
  apply running_shrink; [done |]. intros ch1 E1. assert (ch1 = ch) as -> by congruence.
  unfold waiting. rewrite Hq. by apply sublist_cons.
Qed.

Lemma task_turn_fine J T log h i t tm rt zw :
  host_ok J T log h -> h_tasks h !! i = Some t -> times_ok tm ->
  step_fine J T log h (task_turn h i t tm rt zw).
Proof using.
  intros Hh Hi Htm. unfold task_turn. destruct (idle t) eqn:Eidle; cbn [negb]; [|by apply step_nothing].
  assert (Hf : r_flow t = Continue)
    by (unfold idle in Eidle; by destruct (r_sending t), (r_forwarding t), (r_flow t)).
  pose proof (task_at J T log h i t Hh Hi) as Ht.
  destruct (after_turn_ok log h t tm rt zw (ho_log _ _ _ _ Hh) Htm Ht Hf) as (o & -> & Ht').
  cbn [mbind Res_bind].
  assert (Hli : forall rest, a_listeners (put_inbox (h_dispatch h) t rest) = a_listeners (h_dispatch h))
    by (intros rest; unfold put_inbox; by destruct (r_inbox t), rest).
  apply step_quiet; [|split_and!; [apply Hli | done | done]].
  apply (host_ok_task J T log h i t); [done | done | apply Hli | | exact Ht' | done |].
  - eapply Forall_impl; [apply Hh |]. intros t1. apply put_inbox_ok.
  - cbn [after_turn r_inbox]. destruct (r_inbox t); [|done]. by destruct (option_map snd _).
Qed.

(** *** The channels *)
Lemma with_queues_ok log d t sending forwarding app app_data app_send :
  running_ok log d t -> Forall (msg_ok (a_listeners d)) sending -> Forall bytes_ok forwarding ->
  bytes_ok (request_buf app) -> Forall bytes_ok app_data -> Forall bytes_ok app_send ->
  running_ok log d (with_queues t sending forwarding app app_data app_send).
Proof using. intros [] ? ? ? ? ?. by split. Qed.

Lemma host_ok_queues J T log h i t t' :
  host_ok J T log h -> h_tasks h !! i = Some t -> running_ok log (h_dispatch h) t' ->
  r_key t' = r_key t -> r_inbox t' = r_inbox t -> host_ok J T log (with_tasks h (<[i := t']> (h_tasks h))).
Proof using.
  intros Hh Hi Ht' Hk Hb. apply (host_ok_task J T log h i t); try done; [apply Hh | by rewrite Hb].
Qed.

Lemma try_send_queued {M} `{!Mpsc M} (ch ch' : Chan (M := M)) m ok :
  try_send ch m = (ch', ok) -> queued ch' = if ok then queued ch ++ [m] else queued ch.
Proof using.
  intros E. pose proof (try_send_accepts ch m) as Ha. pose proof (try_send_refuses ch m) as Hr.
  rewrite E in Ha, Hr. cbn [fst snd] in *.
  destruct (receiver_alive ch), (Z.lt_ge_cases (len (queued ch)) (capacity ch));
    first [destruct (Ha eq_refl ltac:(done)) as [-> ?]; done
          | destruct Hr as [-> ?]; [first [by left | by right] | done]].
Qed.

Lemma task_send_fine J T log h i t :
  host_ok J T log h -> h_tasks h !! i = Some t -> step_fine J T log h (task_send h i t).
Proof using.
  intros Hh Hi. pose proof (task_at J T log h i t Hh Hi) as Ht. unfold task_send.
  destruct (r_sending t) as [|m ms] eqn:Es; [by apply step_nothing |].
  destruct (try_send (outbound_rx h) m) as [q ok] eqn:Eq. destruct ok; cbn [negb]; [|by apply step_nothing].
  pose proof (try_send_queued _ _ _ _ Eq) as Hq. cbn iota in Hq.
  pose proof (ro_sending _ _ _ Ht) as Hs. rewrite Es in Hs. apply Forall_cons in Hs as [Hm Hms].
  eexists _, _. split; [reflexivity |]. split; [|split; [by apply Forall_singleton | by split_and!]].
  assert (Hh' : host_ok J T (log ++ [Sent m]) (with_outbound h q)).
  { pose proof (ho_tasks_log J T log [Sent m] h Hh). destruct Hh. split; cbn; try done.
    - apply Forall_app. split; [done | by apply Forall_singleton].
    - rewrite Hq. apply Forall_app. split; [done | by apply Forall_singleton]. }
  apply (host_ok_queues J T _ (with_outbound h q) i t); try done.
  by apply with_queues_ok; [apply running_log | ..]; try done; apply Ht.
Qed.

Lemma task_forward_fine J T log h i t :
  host_ok J T log h -> h_tasks h !! i = Some t -> step_fine J T log h (task_forward h i t).
Proof using.
  intros Hh Hi. pose proof (task_at J T log h i t Hh Hi) as Ht. unfold task_forward.
  destruct (r_forwarding t) as [|m ms] eqn:Ef; [by apply step_nothing |].
  rewrite (ro_app_live _ _ _ Ht). cbn [negb].
  destruct (APP_CAPACITY <=? len (r_app_data t)); [by apply step_nothing |].
  pose proof (ro_forwarding _ _ _ Ht) as Hf. rewrite Ef in Hf. apply Forall_cons in Hf as [Hm Hms].
  apply step_quiet; [|by split_and!]. apply (host_ok_queues J T log h i t); try done.
  apply with_queues_ok; try done; try apply Ht.
  apply Forall_app. split; [apply Ht | by apply Forall_singleton].
Qed.

(** A round of the application of a task that runs leaves the close channel alone. *)
Lemma app_round_ok log d t secs :
  running_ok log d t -> 0 <= secs -> running_ok log d (app_round t secs).
Proof using.
  intros Ht Hs. unfold app_round. rewrite (ro_app_live _ _ _ Ht), (ro_running _ _ _ Ht). cbn [negb].
  destruct (r_app_data t) as [|chunk rest] eqn:Ed; [done |].
  pose proof (ro_app_data _ _ _ Ht) as Hd. rewrite Ed in Hd. apply Forall_cons in Hd as [Hc Hrest].
  destruct (on_chunk_bytes (r_app t) chunk secs (ro_app _ _ _ Ht) Hc Hs) as [Hb Hr].
  destruct (on_chunk (r_app t) chunk secs) as [app response]. cbn [fst snd] in *.
  apply with_queues_ok; try done; try apply Ht.
  apply Forall_app. split; [apply Ht |]. destruct response; [apply Forall_singleton; by apply Hr | apply Forall_nil_2].
Qed.

Lemma app_round_same t secs : r_key (app_round t secs) = r_key t /\ r_inbox (app_round t secs) = r_inbox t.
Proof using.
  unfold app_round. destruct (r_app_live t); [cbn [negb] | done].
  destruct (r_app_data t); [by destruct (r_running t) | by destruct (on_chunk _ _ _)].
Qed.

Lemma app_turn_fine J T log h i t secs :
  host_ok J T log h -> h_tasks h !! i = Some t -> 0 <= secs -> step_fine J T log h (app_turn h i t secs).
Proof using.
  intros Hh Hi Hs. destruct (app_round_same t secs) as [Ek Eb].
  apply step_quiet; [|by split_and!]. apply (host_ok_queues J T log h i t); try done.
  apply app_round_ok; [by apply (task_at J T log h i) | done].
Qed.

(** *** The applications that outlive their task *)
Lemma app_round_over t secs : app_over t -> app_over (app_round t secs).
Proof using.
  intros [Hr Hc]. unfold app_over, app_round. rewrite Hr. destruct (r_app_live t) eqn:El; cbn [negb]; [|by rewrite El].
  destruct (r_app_data t); [cbn; by rewrite Hr, Hc |]. destruct (on_chunk _ _ _). cbn. by rewrite El.
Qed.

Lemma app_stopped secs n t :
  r_app_live t = false -> Nat.iter n (fun t => app_round t secs) t = t.
Proof using.
  intros El. induction n as [|n IH]; [done |]. rewrite Nat.iter_succ, IH. unfold app_round. by rewrite El.
Qed.

(** It reads what is left, then it asks. *)
Lemma app_rounds_over secs n : forall t,
  app_over t -> (length (r_app_data t) < n)%nat ->
  r_close (Nat.iter n (fun t => app_round t secs) t) = [tt].
Proof using.
  induction n as [|n IH]; intros t Ht Hn; [lia |]. rewrite Nat.iter_succ_r.
  destruct (r_app_live t) eqn:El.
  - destruct Ht as [Hr Hc]. rewrite El in Hc. unfold app_round at 2. rewrite El, Hr. cbn [negb].
    destruct (r_app_data t) as [|chunk rest] eqn:Ed; [rewrite app_stopped; [cbn; by rewrite Hc | done] |].
    destruct (on_chunk _ _ _). apply IH; [split; cbn; [done | by rewrite El] | cbn in *; lia].
  - destruct Ht as [_ Hc]. rewrite El in Hc. unfold app_round at 2. rewrite El. cbn [negb].
    by rewrite app_stopped.
Qed.

Lemma host_ok_apps J T log h apps :
  host_ok J T log h -> Forall app_over apps -> host_ok J T log (with_apps h apps).
Proof using. intros [] Ha. by split. Qed.

Lemma app_after_fine J T log h i secs :
  host_ok J T log h -> step_fine J T log h (app_after h i secs).
Proof using.
  intros Hh. apply step_quiet; [|by split_and!]. apply host_ok_apps; [done |].
  apply Forall_alter; [apply Hh |]. intros t Hi Ht. by apply app_round_over.
Qed.

Lemma task_exit_fine J T log h i t :
  host_ok J T log h -> h_tasks h !! i = Some t -> step_fine J T log h (task_exit h i t).
Proof using.
  intros Hh Hi. unfold task_exit.
  destruct (r_sending t); [|by apply step_nothing]. destruct (r_forwarding t); [|by apply step_nothing].
  destruct (r_flow t); [by apply step_nothing |].
  set (d := match r_inbox t with None => _ | Some _ => _ end).
  assert (Hli : a_listeners d = a_listeners (h_dispatch h)) by (unfold d; by destruct (r_inbox t)).
  assert (Hd : Forall (running_ok log d) (h_tasks h)).
  { eapply Forall_impl; [apply Hh |]. intros t1 Ht1. unfold d. destruct (r_inbox t); [done |].
    destruct (channels (h_dispatch h) !! r_key t) as [ch|] eqn:Ech.
    - rewrite (alter_alt_Some _ _ _ _ Ech). apply running_shrink; [done |]. intros ch1 E1.
      unfold waiting. rewrite (proj2 (drop_receiver_spec ch)). apply sublist_nil_l.
    - rewrite alter_alt, Ech. by destruct (h_dispatch h). }
  pose proof (task_at J T log h i t Hh Hi) as Ht.
  apply step_quiet; [|by split_and!].
  destruct Hh. split; cbn; rewrite ?Hli; try done.
  - by apply Forall_delete.
  - eapply sublist_NoDup; [exact ho_unique0 | apply attached_delete].
  - apply Forall_app. split; [done |]. apply Forall_singleton. split; [done |].
    cbn [ended r_close r_app_live]. by rewrite (ro_close _ _ _ Ht), (ro_app_live _ _ _ Ht).
Qed.
End HostInv.
