(* ===== verification/HostRun.v ===== *)
(** * The whole program: runs from the start (src/magnum-tcp/src/main.rs)

    From the command line on: [run_start], then any sequence of events. The theorems
    say what the host does with the device, with the connections and with the
    capture file, whatever arrives and however tokio schedules the tasks. *)
From S2P Require Import Prelude Errors Tcb Ipv4 Ethernet Header SendBuffer RecvBuffer Float64 Retransmit Connection Pcap Tun Task Dispatch Main Http Chaos Host HostInv.
From Stdlib Require String.
Import String.StringSyntax.

(** ** The environment *)
(** [STAGING_BUF] *)
Definition STAGING_BUF : Z := 3000.

(** The command line and the device are usable; the jitter of the chaos option
    leaves room for the [+ 1] that [jitter] adds. *)
Record start_ok (args : Cli) (mac : option (list Z)) : Prop := {
  so_ip : exists ip, parse_ip (bind_ip args) = Ok ip;
  so_mac : forall m, mac = Some m -> mac_ok m;
  so_jitter : 0 <= chaos_jitter_ms args < U64 - 1 }.

(** A read is at most the staging buffer; clocks are those of a host whose [Instant]s
    stay below [T]. *)
Definition host_event_ok (J T : Z) (ev : HostEvent) : Prop :=
  match ev with
  | Readable raw _ _ micros => bytes_ok raw /\ len raw <= STAGING_BUF /\ 0 <= micros < 1000000
  | OutboundReady now _ micros => 0 <= now /\ now + from_millis J <= T /\ 0 <= micros < 1000000
  | TaskTurn _ tm _ _ => times_ok tm
  | AppTurn _ secs => 0 <= secs
  | TaskSend _ | TaskForward _ | TaskExit _ | AppAfter _ _ => True
  end.

Section HostRun.
Context `{DefaultHasher} `{!Mpsc InboundMsg} `{!Mpsc OutboundMsg} (plat : Platform).

(** ** Steps and runs keep the invariant *)
Lemma on_task_fine J T log h i k :
  host_ok plat J T log h ->
  (forall t, h_tasks h !! i = Some t -> step_fine plat J T log h (k t)) ->
  step_fine plat J T log h (on_task h i k).
Proof using.
  intros Hh Hk. unfold on_task. destruct (h_tasks h !! i) as [t|]; [by apply Hk | by apply step_nothing].
Qed.

Lemma host_step_fine J T log h ev :
  host_ok plat J T log h -> T < DURATION_MAX -> host_event_ok J T ev ->
  step_fine plat J T log h (host_step plat h ev).
Proof using.
  intros Hh HT Hev. destruct ev; cbn [host_step host_event_ok] in *.
  - destruct Hev as [Hb _]. by apply on_readable_fine.
  - destruct Hev as (Hn & Hd & _). by apply on_outbound_fine.
  - apply on_task_fine; [done |]. intros t Ht. by apply task_turn_fine.
  - apply on_task_fine; [done |]. intros t Ht. by apply task_send_fine.
  - apply on_task_fine; [done |]. intros t Ht. by apply task_forward_fine.
  - apply on_task_fine; [done |]. intros t Ht. by apply task_exit_fine.
  - apply on_task_fine; [done |]. intros t Ht. by apply app_turn_fine.
  - by apply app_after_fine.
Qed.

Lemma obs_ok_same h h' o : same_host h h' -> obs_ok plat h' o -> obs_ok plat h o.
Proof using. intros (E1 & E2 & E3). destruct o; cbn [obs_ok]; by rewrite ?E1, ?E2, ?E3. Qed.

Lemma host_run_fine J T evs : T < DURATION_MAX -> forall log h,
  host_ok plat J T log h -> Forall (host_event_ok J T) evs ->
  step_fine plat J T log h (host_run plat h evs).
Proof using.
  intros HT. induction evs as [|ev evs IH]; intros log h Hh Hevs; cbn [host_run]; [by apply step_nothing |].
  apply Forall_cons in Hevs as [Hev Hevs].
  destruct (host_step_fine J T log h ev Hh HT Hev) as (h1 & o1 & -> & Hh1 & Ho1 & Hs1).
  cbn [mbind Res_bind].
  destruct (IH (log ++ o1) h1 Hh1 Hevs) as (h2 & o2 & -> & Hh2 & Ho2 & Hs2).
  cbn [mbind Res_bind]. eexists _, _. split; [reflexivity |]. rewrite app_assoc. split; [done |].
  split.
  - apply Forall_app. split; [done |]. eapply Forall_impl; [exact Ho2 |]. intros o. by apply obs_ok_same.
  - destruct Hs1 as (? & ? & ?), Hs2 as (? & ? & ?). split_and!; congruence.
Qed.

(** ** The start *)
Lemma listen_all ports : forall d p,
  is_Some (a_listeners (fold_left AsyncDispatch_listen ports d) !! p) <->
  In p ports \/ is_Some (a_listeners d !! p).
Proof using.
  induction ports as [|q ports IH]; intros d p; cbn [fold_left In]; [tauto |].
  rewrite IH. cbn [AsyncDispatch_listen a_listeners].
  destruct (decide (q = p)) as [->|Hne].
  - rewrite lookup_insert_eq. split; [tauto |]. intros _. right. by eexists.
  - rewrite lookup_insert_ne by done. tauto.
Qed.

Definition linktype : Z := match plat with Linux => LINKTYPE_ETHERNET | MacOS => LINKTYPE_IPV4 end.

Lemma run_start_ok args mac created T :
  start_ok args mac ->
  exists h, run_start plat args mac created = Ok h /\ host_ok plat (chaos_jitter_ms args) T [] h /\
    (forall p, is_Some (a_listeners (h_dispatch h) !! p) <-> In p (port args)) /\
    pcap_writer h = (if created then Some (PcapWriter_new linktype) else None) /\
    queued (outbound_rx h) = [] /\
    (chaos args = f64_0 -> chaos_reorder args = f64_0 -> chaos_jitter_ms args = 0 -> h_chaos h = None) /\
    parse_ip (bind_ip args) = Ok (our_ip h).
Proof using.
  intros [[ip Hip] Hmac Hj]. unfold run_start. rewrite Hip. cbn [mbind Res_bind].
  eexists. split; [reflexivity |]. split; [|split_and!].
  - split; cbn [our_ip our_mac h_dispatch outbound_rx h_chaos h_tasks h_apps]; try done; try apply NoDup_nil_2.
    + by apply parse_ip_ok in Hip.
    + destruct plat; [|apply zero_mac]. destruct mac as [m|]; [by apply Hmac |].
      split; [reflexivity | unfold DEFAULT_MAC; bytes_tac].
    + apply Forall_nil_2.
    + rewrite (proj1 (channel_fresh (M := OutboundMsg) OUTBOUND_CAPACITY)). apply Forall_nil_2.
    + destruct (_ || _)%bool; [|done]. split; [|split; [cbn; lia | apply Forall_nil_2]].
      split; [by vm_compute |]. split; [exact Hj | apply Forall_nil_2].
  - intros p. cbn [h_dispatch]. rewrite listen_all. cbn [AsyncDispatch_new a_listeners].
    rewrite lookup_empty. split; [intros [?|[? ?]]; done | auto].
  - done.
  - apply channel_fresh.
  - intros E1 E2 E3. cbn [h_chaos]. rewrite E1, E2, E3. reflexivity.
  - done.
Qed.

(** A run from the start returns, and what [P] says of the host follows from the
    invariant. *)
Definition runs (args : Cli) (mac : option (list Z)) (created : bool) (evs : list HostEvent)
    (P : Host -> Host -> list Obs -> Prop) : Prop :=
  exists h0 h obs, run_start plat args mac created = Ok h0 /\ host_run plat h0 evs = Ok (h, obs) /\ P h0 h obs.

Lemma runs_ok args mac created evs T :
  start_ok args mac -> T < DURATION_MAX -> Forall (host_event_ok (chaos_jitter_ms args) T) evs ->
  runs args mac created evs (fun h0 h obs =>
    host_ok plat (chaos_jitter_ms args) T obs h /\ Forall (obs_ok plat h0) obs /\ same_host h0 h /\
    (forall p, is_Some (a_listeners (h_dispatch h0) !! p) <-> In p (port args)) /\
    parse_ip (bind_ip args) = Ok (our_ip h0)).
Proof using.
  intros Hs HT Hevs. destruct (run_start_ok args mac created T Hs) as (h0 & E0 & Hh0 & Hp & _ & _ & _ & Hip).
  destruct (host_run_fine _ T evs HT [] h0 Hh0 Hevs) as (h & obs & E & Hh & Ho & Hsame).
  by exists h0, h, obs.
Qed.

(** ** What the device is given *)
Definition device_safe (args : Cli) (h0 : Host) (o : Obs) : Prop :=
  match o with
  | Wrote f => exists src dst seg, frame_segment plat f = Some (src, dst, seg) /\
      In (src_port (header seg)) (port args)
  | Replied f => exists raw, arp_answer (our_ip h0) (our_mac h0) raw f
  | _ => True
  end.

(** C3. Whatever frames arrive, whatever the clocks read and however tokio schedules
    the tasks, the program neither panics nor stops, and all that it writes to the
    device are ARP replies for its own address and frames whose IPv4 and TCP
    checksums are right and whose segment comes from a port it listens on; the chaos
    middleware included. *)
Theorem host_run_safe args mac created evs T :
  start_ok args mac -> T < DURATION_MAX -> Forall (host_event_ok (chaos_jitter_ms args) T) evs ->
  runs args mac created evs (fun h0 _ obs => Forall (device_safe args h0) obs).
Proof using.
  intros Hs HT Hevs. destruct (runs_ok args mac created evs T Hs HT Hevs)
    as (h0 & h & obs & E0 & E & _ & Ho & _ & Hp & _).
  exists h0, h, obs. split; [done |]. split; [done |].
  eapply Forall_impl; [exact Ho |]. intros o. destruct o; cbn [obs_ok device_safe]; try done.
  - intros (raw & _ & Ha). by exists raw.
  - intros (src & dst & seg & Ef & Hin). exists src, dst, seg. split; [done |]. by apply Hp.
Qed.

(** C4. Every connection of the running program is what the model of a single
    connection says: it started in LISTEN on a port of the command line, it went
    through a run of connection events, and the segments of that run are, in order
    and each at most once, among those that arrived for its four-tuple. No two
    tasks are fed by the same inbox. *)
Theorem host_connections_faithful args mac created evs T :
  start_ok args mac -> T < DURATION_MAX -> Forall (host_event_ok (chaos_jitter_ms args) T) evs ->
  runs args mac created evs (fun _ h obs =>
    NoDup (attached (h_tasks h)) /\
    Forall (fun t => In (ft_local_port (r_key t)) (port args) /\
      exists t0 es outs, fresh_tcb t0 /\ state t0 = Listen /\ Forall event_ok es /\
        conn_run (Connection_new t0) es = Ok (conn (r_task t), outs) /\
        sublist (event_segments es) (arrivals plat (r_key t) obs)) (h_tasks h)).
Proof using.
  intros Hs HT Hevs. destruct (runs_ok args mac created evs T Hs HT Hevs)
    as (h0 & h & obs & E0 & E & Hh & _ & (Hl & _) & Hp & _).
  exists h0, h, obs. split; [done |]. split; [done |]. split; [apply Hh |].
  eapply Forall_impl; [apply Hh |]. intros t Ht. split; [apply Hp; rewrite <- Hl; apply Ht |].
  destruct (ro_history _ _ _ _ Ht) as (ch & _ & t0 & es & outs & ? & ? & ? & _ & ? & Hsub).
  exists t0, es, outs. split_and!; try done.
  etrans; [|exact Hsub]. apply sublist_inserts_r. done.
Qed.

(** C13. The server never closes a connection. While a connection task runs, its
    application has not returned and has sent nothing on its close channel, so that
    the task is never in a state that follows a close of its own: a connection whose
    peer has sent its FIN stays in CLOSE_WAIT. The application asks for the close when
    its task has already ended: it reads what is left, a chunk a round, and then sends
    the one message, which nobody receives. *)
Theorem host_never_closes args mac created evs T :
  start_ok args mac -> T < DURATION_MAX -> Forall (host_event_ok (chaos_jitter_ms args) T) evs ->
  runs args mac created evs (fun _ h _ =>
    Forall (fun t => passive_state (st (conn (r_task t))) /\ close_initiated (r_task t) = false /\
      r_running t = true /\ r_app_live t = true /\ r_close t = []) (h_tasks h) /\
    Forall (fun t => r_running t = false /\ forall secs n, (length (r_app_data t) < n)%nat ->
      r_close (Nat.iter n (fun t => app_round t secs) t) = [tt]) (h_apps h)).
Proof using.
  intros Hs HT Hevs. destruct (runs_ok args mac created evs T Hs HT Hevs)
    as (h0 & h & obs & E0 & E & Hh & _).
  exists h0, h, obs. split; [done |]. split; [done |]. split.
  - eapply Forall_impl; [apply Hh |]. intros t Ht. split; [|split_and!; apply Ht].
    destruct (ro_history _ _ _ _ Ht) as (ch & _ & Hhist). by apply (history_state plat obs (r_key t) _ ch).
  - eapply Forall_impl; [apply Hh |]. intros t Ht. split; [apply Ht |]. intros secs n. by apply app_rounds_over.
Qed.

(** ** Messages leave in the order they were sent *)
Definition sent (obs : list Obs) : list OutboundMsg :=
  omap (fun o => match o with Sent m => Some m | _ => None end) obs.
Definition framed (obs : list Obs) : list (list Z) :=
  omap (fun o => match o with Framed f _ _ => Some f | _ => None end) obs.
Definition wrote (obs : list Obs) : list (list Z) :=
  omap (fun o => match o with Wrote f => Some f | _ => None end) obs.

(** What goes through the capture: every frame read and every frame made. *)
Definition captured (obs : list Obs) : list Captured :=
  omap (fun o => match o with
                 | Read f secs micros | Framed f secs micros => Some (mkCaptured f secs micros)
                 | _ => None
                 end) obs.

Definition captured_all (ps : list Captured) (w : PcapWriter) : PcapWriter :=
  fold_left (fun w p => write_packet w (data p) (secs p) (micros p)) ps w.

(** The channel is a queue, the capture gets every frame, and without the chaos
    middleware a frame is written as soon as it is made. *)
Record flows (h h' : Host) (obs : list Obs) : Prop := {
  fl_queue : map (frame_outbound plat) (queued (outbound_rx h)) ++ map (frame_outbound plat) (sent obs) =
    framed obs ++ map (frame_outbound plat) (queued (outbound_rx h'));
  fl_capture : pcap_writer h' = option_map (captured_all (captured obs)) (pcap_writer h);
  fl_wrote : h_chaos h = None -> h_chaos h' = None /\ wrote obs = framed obs }.

Lemma flows_refl h h' :
  outbound_rx h' = outbound_rx h -> pcap_writer h' = pcap_writer h -> h_chaos h' = h_chaos h -> flows h h' [].
Proof using.
  intros E1 E2 E3. split; rewrite ?E1, ?E2, ?E3; [by rewrite app_nil_r | by destruct (pcap_writer h) | done].
Qed.

Lemma flows_trans h h1 h2 o1 o2 : flows h h1 o1 -> flows h1 h2 o2 -> flows h h2 (o1 ++ o2).
Proof using.
  intros [Q1 C1 W1] [Q2 C2 W2]. split; unfold sent, framed, wrote, captured in *.
  - rewrite !omap_app, map_app, app_assoc, Q1, <- app_assoc, Q2, app_assoc. done.
  - rewrite C2, C1, omap_app. unfold captured_all. destruct (pcap_writer h); [|done].
    cbn [option_map]. by rewrite fold_left_app.
  - intros E. destruct (W1 E) as [E1 F1]. destruct (W2 E1) as [E2 F2]. split; [done |].
    by rewrite !omap_app, F1, F2.
Qed.

Lemma wrote_map packets : wrote (map Wrote packets) = packets /\ framed (map Wrote packets) = [] /\
  sent (map Wrote packets) = [] /\ captured (map Wrote packets) = [].
Proof using.
  induction packets as [|p ps (IH1 & IH2 & IH3 & IH4)]; [done |].
  unfold wrote, framed, sent, captured in *. cbn [map omap list_omap]. by rewrite IH1, IH2, IH3, IH4.
Qed.

Lemma on_readable_flows h raw nanos s m h' obs :
  on_readable plat h raw nanos s m = Ok (h', obs) -> flows h h' obs.
Proof using.
  unfold on_readable. destruct (inbound_dispatch _ _ _ _ _ _) as [r|[]|]; cbn [lift mbind Res_bind]; [|done].
  intros [= <- <-].
  split; destruct (in_reply r); cbn; rewrite ?app_nil_r; done.
Qed.

Lemma on_outbound_flows h now s m h' obs :
  on_outbound plat h now s m = Ok (h', obs) -> flows h h' obs.
Proof using.
  unfold on_outbound. destruct (try_recv (outbound_rx h)) as [[msg q]|] eqn:Er;
    [|intros [= <- <-]; by apply flows_refl].
  pose proof (recv_queued _ _ _ Er) as Hq. cbn [capture_packet with_outbound h_chaos].
  destruct (h_chaos h) as [c|] eqn:Ec.
  - destruct (intercept c _ now) as [[c' packets]|[]|]; cbn [lift mbind Res_bind]; [|done].
    intros [= <- <-]. destruct (wrote_map packets) as (_ & Ew2 & Ew3 & Ew4).
    split; unfold sent, framed, wrote, captured in *; cbn [omap list_omap]; rewrite ?Hq, ?Ew2, ?Ew3, ?Ew4, ?Ec, ?app_nil_r; done.
  - cbn [mbind Res_bind]. intros [= <- <-]. split; cbn; rewrite ?Hq, ?app_nil_r; done.
Qed.

Lemma task_send_flows h i t h' obs : task_send h i t = Ok (h', obs) -> flows h h' obs.
Proof using.
  unfold task_send. destruct (r_sending t) as [|m ms]; [intros [= <- <-]; by apply flows_refl |].
  destruct (try_send (outbound_rx h) m) as [q ok] eqn:Eq. pose proof (try_send_queued _ _ _ _ Eq) as Hq.
  destruct ok; cbn [negb]; intros [= <- <-]; [|by apply flows_refl]. cbn iota in Hq.
  split; cbn; rewrite ?Hq, ?map_app; try done. by destruct (pcap_writer h).
Qed.

Lemma host_step_flows h ev h' obs : host_step plat h ev = Ok (h', obs) -> flows h h' obs.
Proof using.
  destruct ev; cbn [host_step]; unfold on_task;
    [apply on_readable_flows | apply on_outbound_flows |
     destruct (h_tasks h !! i) as [t|]; [|intros [= <- <-]; by apply flows_refl] .. |
     intros [= <- <-]; by apply flows_refl].
  - unfold task_turn. destruct (negb (idle t)); [intros [= <- <-]; by apply flows_refl |].
    destruct (task_step _ _ _ _ _); cbn [mbind Res_bind]; try done. intros [= <- <-]. by apply flows_refl.
  - apply task_send_flows.
  - unfold task_forward. destruct (r_forwarding t); [intros [= <- <-]; by apply flows_refl |].
    destruct (negb (r_app_live t)), (APP_CAPACITY <=? len (r_app_data t)); intros [= <- <-]; by apply flows_refl.
  - unfold task_exit. destruct (r_sending t), (r_forwarding t), (r_flow t); intros [= <- <-]; by apply flows_refl.
  - intros [= <- <-]. by apply flows_refl.
Qed.

Lemma host_run_flows evs : forall h h' obs, host_run plat h evs = Ok (h', obs) -> flows h h' obs.
Proof using.
  induction evs as [|ev evs IH]; intros h h' obs; cbn [host_run]; [intros [= <- <-]; by apply flows_refl |].
  destruct (host_step plat h ev) as [[h1 o1]| |] eqn:E1; cbn [mbind Res_bind]; try done.
  destruct (host_run plat h1 evs) as [[h2 o2]| |] eqn:E2; cbn [mbind Res_bind]; try done.
  intros [= <- <-]. eapply flows_trans; [by eapply host_step_flows | by apply IH].
Qed.

(** C11. First in, first out: what the tasks have sent, framed, is exactly what the loop
    has framed followed by what the channel still holds, in that order; without the
    chaos options the loop has written exactly the frames it made, each once and in
    that order. *)
Theorem host_outbound_fifo args mac created evs T :
  start_ok args mac -> T < DURATION_MAX -> Forall (host_event_ok (chaos_jitter_ms args) T) evs ->
  runs args mac created evs (fun _ h obs =>
    map (frame_outbound plat) (sent obs) = framed obs ++ map (frame_outbound plat) (queued (outbound_rx h)) /\
    (chaos args = f64_0 -> chaos_reorder args = f64_0 -> chaos_jitter_ms args = 0 -> wrote obs = framed obs)).
Proof using.
  intros Hs HT Hevs. destruct (run_start_ok args mac created T Hs) as (h0 & E0 & Hh0 & _ & _ & Hq & Hch & _).
  destruct (host_run_fine _ T evs HT [] h0 Hh0 Hevs) as (h & obs & E & _).
  exists h0, h, obs. split; [done |]. split; [done |].
  destruct (host_run_flows evs h0 h obs E) as [Hfq _ Hw]. rewrite Hq in Hfq. split; [exact Hfq |].
  intros E1 E2 E3. apply Hw. by apply Hch.
Qed.

(** ** The capture file *)
Lemma len_frame_outbound ports m : msg_ok ports m -> len (frame_outbound plat m) <= 1514.
Proof using.
  intros (c & es & ed & raw & -> & He & HI & [Hes _] & [Hed _] & _). pose proof (em_len _ _ He) as Hl.
  destruct (ip_ok_destruct _ (ci_lip _ HI)) as (l0 & l1 & l2 & l3 & El & _).
  destruct (ip_ok_destruct _ (ci_rip _ HI)) as (r0 & r1 & r2 & r3 & Er & _).
  unfold frame_outbound, frame_outbound_linux, frame_outbound_macos, outbound, EthernetFrame_build.
  cbn [om_src_ip om_dst_ip om_tcp_bytes om_ether_src om_ether_dst]. rewrite El, Er, !build_packet_shape.
  unfold TCP_MIN_HEADER_LEN, MSS, len, u16_to_be in *. cbv zeta.
  destruct plat; rewrite ?length_app; cbn [length]; lia.
Qed.

Lemma host_step_captured J T log h ev h' obs :
  host_ok plat J T log h -> host_event_ok J T ev -> host_step plat h ev = Ok (h', obs) ->
  Forall captured_ok (captured obs).
Proof using.
  intros Hh Hev. destruct ev; cbn [host_step host_event_ok] in *; unfold on_task;
    [| | destruct (h_tasks h !! i) as [t|]; [|intros [= <- <-]; apply Forall_nil_2] .. |
     intros [= <- <-]; apply Forall_nil_2].
  - destruct Hev as (_ & Hl & Hm). unfold on_readable.
    destruct (inbound_dispatch _ _ _ _ _ _) as [r|[]|]; cbn [lift mbind Res_bind]; [|done]. intros [= <- <-].
    assert (captured_ok (mkCaptured raw secs micros)) by (split; cbn; unfold STAGING_BUF, U32 in *; lia).
    destruct (in_reply r); by apply Forall_singleton.
  - destruct Hev as (_ & _ & Hm). unfold on_outbound.
    destruct (try_recv (outbound_rx h)) as [[msg q]|] eqn:Er; [|intros [= <- <-]; apply Forall_nil_2].
    pose proof (ho_outbound _ _ _ _ _ Hh) as Ho. rewrite (recv_queued _ _ _ Er) in Ho.
    apply Forall_cons in Ho as [Hmsg _]. pose proof (len_frame_outbound _ _ Hmsg) as Hl.
    assert (Hc : captured_ok (mkCaptured (frame_outbound plat msg) secs micros)) by (split; cbn; unfold U32 in *; lia).
    cbn [capture_packet with_outbound h_chaos].
    destruct (h_chaos h); [destruct (intercept _ _ now) as [[c' packets]|[]|]|]; cbn [lift mbind Res_bind]; try done;
      intros [= <- <-].
    + destruct (wrote_map packets) as (_ & _ & _ & Ew). unfold captured in *. cbn [omap list_omap].
      rewrite Ew. by apply Forall_singleton.
    + by apply Forall_singleton.
  - unfold task_turn. destruct (negb (idle t)); [intros [= <- <-]; apply Forall_nil_2 |].
    destruct (task_step _ _ _ _ _); cbn [mbind Res_bind]; try done. intros [= <- <-]. apply Forall_nil_2.
  - unfold task_send. destruct (r_sending t) as [|m ms]; [intros [= <- <-]; apply Forall_nil_2 |].
    destruct (try_send _ m) as [q []]; intros [= <- <-]; apply Forall_nil_2.
  - unfold task_forward. destruct (r_forwarding t); [intros [= <- <-]; apply Forall_nil_2 |].
    destruct (negb (r_app_live t)), (APP_CAPACITY <=? len (r_app_data t)); intros [= <- <-]; apply Forall_nil_2.
  - unfold task_exit. destruct (r_sending t), (r_forwarding t), (r_flow t); intros [= <- <-]; apply Forall_nil_2.
  - intros [= <- <-]. apply Forall_nil_2.
Qed.

Lemma host_run_captured J T evs : T < DURATION_MAX -> forall log h h' obs,
  host_ok plat J T log h -> Forall (host_event_ok J T) evs -> host_run plat h evs = Ok (h', obs) ->
  Forall captured_ok (captured obs).
Proof using.
  intros HT. induction evs as [|ev evs IH]; intros log h h' obs Hh Hevs; cbn [host_run];
    [intros [= <- <-]; apply Forall_nil_2 |].
  apply Forall_cons in Hevs as [Hev Hevs].
  destruct (host_step_fine J T log h ev Hh HT Hev) as (h1 & o1 & E1 & Hh1 & _ & _). rewrite E1.
  cbn [mbind Res_bind]. destruct (host_run plat h1 evs) as [[h2 o2]| |] eqn:E2; cbn [mbind Res_bind]; try done.
  intros [= <- <-]. unfold captured. rewrite omap_app. apply Forall_app. split.
  - exact (host_step_captured J T log h ev h1 o1 Hh Hev E1).
  - exact (IH (log ++ o1) h1 h2 o2 Hh1 Hevs E2).
Qed.

End HostRun.

(** ** An HTTP request, frame by frame *)
Definition demo_cli : Cli := mkCli [80] (lit "192.168.100.2") f64_0 f64_0 0.

Definition demo_client (seq ack : Z) (fl : TcpFlags) (pl : list Z) : SegmentBuilder :=
  {| sb_src_ip := [192; 168; 100; 1]; sb_dst_ip := [192; 168; 100; 2]; sb_src_port := 40000;
     sb_dst_port := 80; sb_seq := seq; sb_ack_num := ack; sb_flags := fl; sb_window := 64240;
     sb_payload := pl |}.

Definition demo_frame (seq ack : Z) (fl : TcpFlags) (pl : list Z) : list Z :=
  EthernetFrame_build DEFAULT_MAC [2; 0; 0; 0; 0; 1]
    (build_packet [192; 168; 100; 1] [192; 168; 100; 2] PROTO_TCP
       (SegmentBuilder_build (demo_client seq ack fl pl))).

Definition demo_http : list Z := lit "GET / HTTP/1.1" ++ BLANK.

(** The SYN twice, the handshake, the request, the response; the hash of
    [count_hasher] makes the server's initial number 5. *)
Definition demo_host_events : list HostEvent :=
  [Readable (demo_frame 1000 0 F_SYN []) 5 1 0; Readable (demo_frame 1000 0 F_SYN []) 6 2 0;
   TaskTurn 0 demo_times false false; TaskSend 0; OutboundReady 0 2 0;
   Readable (demo_frame 1001 6 F_ACK []) 7 3 0; TaskTurn 0 demo_times false false;
   Readable (demo_frame 1001 6 F_PSH_ACK demo_http) 8 4 0; TaskTurn 0 demo_times false false;
   TaskSend 0; TaskForward 0; OutboundReady 0 4 0; AppTurn 0 1700000000;
   TaskTurn 0 demo_times false false; TaskSend 0; OutboundReady 0 5 0;
   Readable demo_arp_frame 9 6 0].

(** The client resets the connection; the task ends, then its application. *)
Definition demo_reset_events : list HostEvent :=
  [Readable (demo_frame (1001 + len demo_http) 0 F_RST []) 10 7 0; TaskTurn 0 demo_times false false;
   TaskExit 0; AppAfter 0 1700000001].

Definition demo_host_run : Errors.Result (Host * list Obs) :=
  h ← run_start Linux demo_cli None true; host_run Linux h demo_host_events.

(** The tasks and the applications after the reset, with what these have sent on
    their close channels. *)
Definition demo_after_reset (h : Host) : option (nat * list (list unit)) :=
  match host_run Linux h demo_reset_events with
  | Ok (h, _) => Some (length (h_tasks h), map r_close (h_apps h))
  | _ => None
  end.

Lemma demo_start_ok : start_ok demo_cli None.
Proof.
  split; [eexists; vm_compute; reflexivity | discriminate | by vm_compute].
Qed.

(** The frames written are the SYN-ACK, the acknowledgement of the request and the
    response of the web server; the ARP request is answered. A reset ends the task,
    and only then the application asks for the close. *)
Example demo_host_serves :
  match demo_host_run with
  | Ok (h, obs) =>
      map (fun f => match frame_segment Linux f with
                    | Some (_, _, seg) => (flags (header seg), payload seg)
                    | None => (TcpFlags_default, [])
                    end) (wrote obs) =
        [(F_SYN_ACK, []); (F_ACK, []); (F_PSH_ACK, build_http_response demo_http 1700000000)] /\
      length (omap (fun o => match o with Replied f => Some f | _ => None end) obs) = 1%nat /\
      map r_close (h_tasks h) = [[]] /\ demo_after_reset h = Some (0%nat, [[tt]])
  | _ => False
  end.
Proof. vm_compute. repeat split; reflexivity. Qed.

Lemma demo_reset_events_ok : Forall (host_event_ok 0 0) demo_reset_events.
Proof.
  unfold demo_reset_events. repeat (apply Forall_cons; split); try apply Forall_nil_2; cbn [host_event_ok];
    first [exact I | exact demo_times_ok | by vm_compute
          | split; [apply bytes_ok_compute; vm_compute; reflexivity | split; by vm_compute]].
Qed.

Lemma demo_host_events_ok : Forall (host_event_ok 0 0) demo_host_events.
Proof.
  unfold demo_host_events. repeat (apply Forall_cons; split); try apply Forall_nil_2; cbn [host_event_ok];
    first [exact I | exact demo_times_ok | by vm_compute
          | split; [apply bytes_ok_compute; vm_compute; reflexivity | split; by vm_compute]
          | repeat split; by vm_compute].
Qed.

Lemma host_run_safe_witness :
  runs Linux demo_cli None true demo_host_events (fun h0 _ obs => Forall (device_safe Linux demo_cli h0) obs).
Proof. exact (host_run_safe Linux demo_cli None true demo_host_events 0 demo_start_ok eq_refl demo_host_events_ok). Defined.

Lemma host_connections_faithful_witness :
  runs Linux demo_cli None true demo_host_events (fun _ h obs =>
    NoDup (attached (h_tasks h)) /\
    Forall (fun t => In (ft_local_port (r_key t)) [80] /\
      exists t0 es outs, fresh_tcb t0 /\ state t0 = Listen /\ Forall event_ok es /\
        conn_run (Connection_new t0) es = Ok (conn (r_task t), outs) /\
        sublist (event_segments es) (arrivals Linux (r_key t) obs)) (h_tasks h)).
Proof.
  exact (host_connections_faithful Linux demo_cli None true demo_host_events 0 demo_start_ok eq_refl demo_host_events_ok).
Defined.

Lemma host_never_closes_witness :
  runs Linux demo_cli None true (demo_host_events ++ demo_reset_events) (fun _ h _ =>
    Forall (fun t => passive_state (st (conn (r_task t))) /\ close_initiated (r_task t) = false /\
      r_running t = true /\ r_app_live t = true /\ r_close t = []) (h_tasks h) /\
    Forall (fun t => r_running t = false /\ forall secs n, (length (r_app_data t) < n)%nat ->
      r_close (Nat.iter n (fun t => app_round t secs) t) = [tt]) (h_apps h)).
Proof.
  exact (host_never_closes Linux demo_cli None true (demo_host_events ++ demo_reset_events) 0 demo_start_ok eq_refl
    (Forall_app_2 _ _ _ demo_host_events_ok demo_reset_events_ok)).
Defined.

Lemma host_outbound_fifo_witness :
  runs Linux demo_cli None true demo_host_events (fun _ h obs =>
    map (frame_outbound Linux) (sent obs) =
      framed obs ++ map (frame_outbound Linux) (queued (outbound_rx h)) /\ wrote obs = framed obs).
Proof.
  destruct (host_outbound_fifo Linux demo_cli None true demo_host_events 0 demo_start_ok eq_refl demo_host_events_ok)
    as (h0 & h & obs & E0 & E & Hq & Hw).
  exists h0, h, obs. split; [exact E0 |]. split; [exact E |]. split; [exact Hq | by apply Hw].
Defined.

