(* ===== verification/Startup.v ===== *)
(** * The start of the program (src/magnum-tcp/src/main.rs, [run] up to its loop)

    The bind address, the device and its address, the registration with tokio, the
    dispatcher, the capture file and the chaos options, with the early returns of the
    [?] operators and the drops they make. *)
From S2P Require Import Prelude Errors Tcb Ipv4 Ethernet SendBuffer RecvBuffer Float64 Retransmit Connection Pcap Tun Task Dispatch Main Http Chaos Host.
From Stdlib Require String.
Import String.StringSyntax.

Definition TUN_NAME (plat : Platform) : list Z :=
  match plat with Linux => lit "tap0" | MacOS => lit "utun5" end.

Section Startup.
Context `{DefaultHasher} `{!Mpsc InboundMsg} `{!Mpsc OutboundMsg} (plat : Platform).

(** [File::create("capture.pcap")], whose error is logged and dropped. The header that
    [PcapWriter::new] writes stays in the [BufWriter], which has room for it. *)
Definition create_capture : Sys (option Z) :=
  ans ← call (SysCreate (lit "capture.pcap"));
  Done (if a_ret ans <? 0 then None else Some (a_ret ans)).

(** [registered] is the error of [AsyncFd::new], if it fails. The result has the two
    files that the loop keeps open, the device and the capture. *)
Definition startup (args : Cli) (registered : option Z) : SysR (Tun * option Z * Host) :=
  match parse_ip (bind_ip args) with
  | Err e => Done (Err e)
  | Panic => Done Panic
  | Ok _ =>
      tun_device ← tun_open plat (TUN_NAME plat);
      match tun_device with
      | Err e => Done (Err e)
      | Panic => Done Panic
      | Ok dev =>
          nonblocking ← tun_set_nonblocking plat dev;
          match nonblocking with
          | Err e => _ ← drop_file (t_fd dev); Done (Err e)
          | Panic => Done Panic
          | Ok _ =>
              mac ← match plat with Linux => tun_mac_address plat dev | MacOS => Done None end;
              match registered with
              | Some e => _ ← drop_file (t_fd dev); Done (Err (Errors.Tun e))
              | None =>
                  file ← create_capture;
                  Done (h ← run_start plat args mac (bool_decide (is_Some file)); Ok (dev, file, h))
              end
          end
      end
  end.

(** What the start leaves behind. *)
Definition started (args : Cli) (h h' : History) (r : Result (Tun * option Z * Host)) : Prop :=
  match r with
  | Ok (dev, file, host) =>
      open_fds h' = option_list file ++ t_fd dev :: open_fds h /\
      ~ In (t_fd dev) (open_fds h) /\ (forall fd, file = Some fd -> ~ In fd (t_fd dev :: open_fds h)) /\
      (is_Some (pcap_writer host) <-> is_Some file) /\
      exists mac, run_start plat args mac (bool_decide (is_Some file)) = Ok host /\
        forall m, mac = Some m -> mac_ok m
  | Err _ => open_fds h' = open_fds h
  | Panic => False
  end.

Lemma parse_parts_no_panic s parts : parse_parts s parts <> Panic.
Proof using.
  induction parts as [|p ps IH]; [done |]. cbn [parse_parts]. destruct (parse_u8 p); [|done].
  by destruct (parse_parts s ps).
Qed.

Lemma parse_ip_no_panic s : parse_ip s <> Panic.
Proof using. unfold parse_ip. destruct (negb _); [done | apply parse_parts_no_panic]. Qed.

Lemma tun_open_one os h :
  os_ok os -> let '(r, h') := exec os (tun_open plat (TUN_NAME plat)) h in opens_one h h' r.
Proof using.
  intros Hos. unfold tun_open, TUN_NAME. destruct plat.
  - by apply linux_open_one.
  - apply (macos_open_one os _ 6 h Hos). reflexivity.
Qed.

Lemma create_capture_spec os h :
  os_ok os -> let '(file, h') := exec os create_capture h in
  open_fds h' = option_list file ++ open_fds h /\ forall fd, file = Some fd -> ~ In fd (open_fds h).
Proof using.
  intros Hos. unfold create_capture. cbn [exec mbind Sys_bind sys_bind call open_fds].
  pose proof (os_create os Hos h (lit "capture.pcap")) as Hf.
  destruct (a_ret _ <? 0); (split; [reflexivity |]); [done | by intros fd [= <-]].
Qed.

(** C14. The start of the program never leaks and never panics: whatever system calls
    fail, and whatever they return, it ends either with an error and every descriptor
    it opened closed again, or with exactly two new descriptors open, the device and
    the capture file, each different from all the others, or the device alone when the
    capture file could not be created, and the host in its initial state: it captures
    if and only if the file is open, and its hardware address, if the system gave one,
    is six bytes. *)
Theorem startup_sound os args registered h :
  os_ok os -> let '(r, h') := exec os (startup args registered) h in started args h h' r.
Proof using.
  intros Hos. unfold startup. pose proof (parse_ip_no_panic (bind_ip args)) as Hnp.
  destruct (parse_ip (bind_ip args)) as [ip|e|] eqn:Eip; try done. rewrite exec_bind.
  pose proof (tun_open_one os h Hos) as Ho. destruct (exec os (tun_open _ _) h) as [r h1].
  destruct r as [dev|e|]; cbn [opens_one] in Ho; [|done ..]. destruct Ho as [Ho Hfresh]. rewrite exec_bind.
  assert (Hnb : let '(r, h') := exec os (tun_set_nonblocking plat dev) h1 in open_fds h' = open_fds h1 /\ r <> Panic)
    by (unfold tun_set_nonblocking; destruct plat; apply set_nonblocking_keeps).
  destruct (exec os (tun_set_nonblocking plat dev) h1) as [r h2]. destruct Hnb as [Hnb Hp].
  destruct r as [u|e|]; [| |done].
  2: { cbn [exec mbind Sys_bind sys_bind call drop_file started open_fds].
       by rewrite Hnb, Ho, filter_fresh. }
  rewrite exec_bind.
  assert (Hmac : let '(m, h') := exec os (match plat with Linux => tun_mac_address plat dev | MacOS => Done None end) h2 in
    open_fds h' = open_fds h2 /\ forall a, m = Some a -> mac_ok a).
  { unfold tun_mac_address. destruct plat; [by apply linux_mac_address_spec | done]. }
  destruct (exec os (match plat with Linux => _ | MacOS => _ end) h2) as [m h3]. destruct Hmac as [Hm Hmac].
  destruct registered as [e|].
  { cbn [exec mbind Sys_bind sys_bind call drop_file started open_fds]. by rewrite Hm, Hnb, Ho, filter_fresh. }
  rewrite exec_bind. pose proof (create_capture_spec os h3 Hos) as Hf.
  destruct (exec os create_capture h3) as [file h4]. destruct Hf as [Hf Hff]. rewrite Hm, Hnb, Ho in Hf, Hff.
  cbn [exec]. unfold run_start. rewrite Eip. cbn [mbind Res_bind started].
  split; [exact Hf |]. split; [exact Hfresh |]. split; [exact Hff |]. split.
  - cbn [pcap_writer]. destruct file; cbn; split; intros [? ?]; (discriminate || by eexists).
  - exists m. by split; [unfold run_start; rewrite Eip |].
Qed.
End Startup.

(** ** Concrete starts *)
Definition demo_args : Cli := mkCli [80] (lit "192.168.100.2") f64_0 f64_0 0.

(** The second [fcntl] fails: the device is closed again. *)
Definition setfl_fails (s : Syscall) : bool :=
  match s with SysFcntl _ cmd _ => cmd =? F_SETFL | _ => false end.

(** The capture file cannot be created. *)
Definition create_fails (s : Syscall) : bool := match s with SysCreate _ => true | _ => false end.

Lemma startup_sound_witness :
  (let '(r, h') := exec (demo_os setfl_fails) (startup Linux demo_args None) [] in
   r = Err (Errors.Tun 5) /\ open_fds h' = []) /\
  (let '(r, h') := exec (demo_os no_failure) (startup Linux demo_args None) [] in
   open_fds h' = [4; 3]) /\
  (let '(r, h') := exec (demo_os create_fails) (startup Linux demo_args None) [] in
   open_fds h' = [3]).
Proof.
  pose proof (startup_sound Linux (demo_os setfl_fails) demo_args None [] (demo_os_ok _)) as H1.
  pose proof (startup_sound Linux (demo_os no_failure) demo_args None [] (demo_os_ok _)) as H2.
  pose proof (startup_sound Linux (demo_os create_fails) demo_args None [] (demo_os_ok _)) as H3.
  assert (E1 : fst (exec (demo_os setfl_fails) (startup Linux demo_args None) []) = Err (Errors.Tun 5))
    by (vm_compute; reflexivity).
  assert (E2 : match fst (exec (demo_os no_failure) (startup Linux demo_args None) []) with
               | Ok (dev, file, _) => (t_fd dev, file) | _ => (0, None) end = (3, Some 4)) by (vm_compute; reflexivity).
  assert (E3 : match fst (exec (demo_os create_fails) (startup Linux demo_args None) []) with
               | Ok (dev, file, _) => (t_fd dev, file) | _ => (0, Some 0) end = (3, None)) by (vm_compute; reflexivity).
  split; [|split].
  - destruct (exec (demo_os setfl_fails) _ _) as [r h']. cbn [fst] in E1. subst r. by split.
  - destruct (exec (demo_os no_failure) _ _) as [[[[dev file] host]|e|] h']; cbn [fst] in E2; [|discriminate ..].
    injection E2 as E4 ->. destruct H2 as [H2 _]. by rewrite E4 in H2.
  - destruct (exec (demo_os create_fails) _ _) as [[[[dev file] host]|e|] h']; cbn [fst] in E3; [|discriminate ..].
    injection E3 as E4 ->. destruct H3 as [H3 _]. by rewrite E4 in H3.
Defined.
