(* ===== verification/Checked.v ===== *)
(** * The operations with every place where they can panic

    The rings of send_buffer.rs and recv_buffer.rs, and the checksum and the builder of
    tcp/header.rs, as a debug build runs them: an index, a slice, an [unwrap], the range
    of a [copy_from_slice], a subtraction of usize and an addition of u32 or usize is an
    outcome that may be [Panic], and so is a loop that runs out of fuel. The
    files of the components have the same operations as total functions; here each is
    shown to return what those return ([.._returns]), from a well-formed buffer. Left
    out are the loop counters, which stay below the length of a slice. *)
From S2P Require Import Prelude Tcb Ipv4 Checksum Header Ring SendBuffer RecvBuffer Connection.

Section Checked.
Context {E : Type}.

(** ** usize and u32 *)
Definition usize_add (a b : Z) : Res E Z := if a + b <? U64 then Ok (a + b) else Panic.
Definition usize_sub (a b : Z) : Res E Z := if b <=? a then Ok (a - b) else Panic.
Definition u32_sub (a b : Z) : Res E Z := if b <=? a then Ok (a - b) else Panic.

Lemma usize_add_returns a b : a + b < U64 -> usize_add a b = Ok (a + b).
Proof using. intros. unfold usize_add. by destruct (Z.ltb_spec (a + b) U64); [|lia]. Qed.
Lemma usize_sub_returns a b : b <= a -> usize_sub a b = Ok (a - b).
Proof using. intros. unfold usize_sub. by destruct (Z.leb_spec b a); [|lia]. Qed.
Lemma u32_sub_returns a b : b <= a -> u32_sub a b = Ok (a - b).
Proof using. intros. unfold u32_sub. by destruct (Z.leb_spec b a); [|lia]. Qed.
Lemma u32_add_returns a b : a + b < U32 -> u32_add (E:=E) a b = Ok (a + b).
Proof using. intros. unfold u32_add. by destruct (Z.ltb_spec (a + b) U32); [|lia]. Qed.
Lemma slice_whole_rest (raw : list Z) a :
  0 <= a <= len raw -> slice (E:=E) raw a (len raw) = Ok (drop (Z.to_nat a) raw).
Proof using.
  intros. rewrite slice_ok by lia. f_equal. apply take_ge. rewrite length_drop. unfold len in *. lia.
Qed.

(** The first step of a chain returns. *)
Ltac step :=
  lazymatch goal with
  | |- mbind _ (usize_add ?a ?b) = _ => rewrite (usize_add_returns a b) by (unfold U64 in *; lia)
  | |- mbind _ (usize_sub ?a ?b) = _ => rewrite (usize_sub_returns a b) by lia
  | |- mbind _ (u32_sub ?a ?b) = _ => rewrite (u32_sub_returns a b) by lia
  | |- mbind _ (u32_add ?a ?b) = _ => rewrite (u32_add_returns a b) by (unfold U32 in *; lia)
  end; cbn [mbind Res_bind].

(** ** The rings *)
(** [for (i, &b) in data.iter().enumerate() { self.buf\[(tail + i) % N\] = b; }] *)
Fixpoint ring_store (N : Z) (buf : list Z) (tail i : Z) (data : list Z) : Res E (list Z) :=
  match data with
  | [] => Ok buf
  | b :: rest =>
      p ← usize_add tail i;
      buf ← set_at buf (Z.to_nat (p mod N)) b;
      ring_store N buf tail (i + 1) rest
  end.

(** [for i in 0..n { .. self.buf\[(start + i) % N\] .. }], the [k] last rounds. *)
Fixpoint ring_load (N : Z) (buf : list Z) (start i : Z) (k : nat) : Res E (list Z) :=
  match k with
  | O => Ok []
  | S k =>
      p ← usize_add start i;
      b ← byte_at buf (Z.to_nat (p mod N));
      rest ← ring_load N buf start (i + 1) k;
      Ok (b :: rest)
  end.

Lemma ring_store_returns N data : forall buf tail i,
  0 < N -> len buf = N -> 0 <= tail -> 0 <= i -> tail + i + len data <= U64 ->
  ring_store N buf tail i data = Ok (ring_write N buf (tail + i) data).
Proof using.
  induction data as [|b data IH]; intros buf tail i HN Hb Ht Hi Hu; [done |].
  rewrite len_cons in Hu. pose proof (len_nonneg data). cbn [ring_store ring_write]. step.
  pose proof (Z.mod_pos_bound (tail + i) N HN). unfold set_at.
  rewrite bool_decide_true by (unfold len in *; lia). cbn [mbind Res_bind].
  rewrite IH; try lia; [do 2 f_equal; lia |]. unfold len in *. by rewrite length_insert.
Qed.

Lemma ring_load_returns N buf k : forall start i,
  0 < N -> len buf = N -> 0 <= start -> 0 <= i -> start + i + Z.of_nat k <= U64 ->
  ring_load N buf start i k = Ok (ring_read N buf (start + i) (Z.of_nat k)).
Proof using.
  induction k as [|k IH]; intros start i HN Hb Hs Hi Hu; [done |]. cbn [ring_load]. step.
  pose proof (Z.mod_pos_bound (start + i) N HN). unfold byte_at.
  destruct (lookup_lt_is_Some_2 buf (Z.to_nat ((start + i) mod N))) as [b Eb]; [unfold len in *; lia |].
  rewrite Eb. cbn [unwrap mbind Res_bind]. rewrite IH by lia. cbn [mbind Res_bind]. f_equal.
  unfold ring_read. rewrite Nat2Z.inj_succ, (seqZ_cons 0 (Z.succ _)) by lia. cbn [map]. f_equal.
  - unfold ring_get. by rewrite Z.add_0_r, nth_lookup, Eb.
  - rewrite <- (fmap_add_seqZ 1 0). rewrite Z.pred_succ. change (@fmap list _) with @map.
    rewrite map_map. apply map_ext. intros a. f_equal. lia.
Qed.

(** The checks are there: behind the end of a slice, outside the ring, below zero. *)
Example checks_panic :
  slice (E:=E) [1; 2] 3 2 = Panic /\ ring_store 4 [0; 0; 0] 0 2 [7; 8] = Panic /\ usize_sub 3 4 = Panic.
Proof using. repeat split. Qed.

(** ** The send buffer *)
Definition SendBuffer_write_checked (sb : SendBuffer) (data : list Z) : Res E (SendBuffer * Z) :=
  space ← usize_sub SEND_BUF_SIZE (s_len sb);
  let n := Z.min (len data) space in
  t ← usize_add (s_head sb) (s_len sb);
  front ← slice data 0 n;
  buf ← ring_store SEND_BUF_SIZE (s_buf sb) (t mod SEND_BUF_SIZE) 0 front;
  l ← usize_add (s_len sb) n;
  Ok ({| s_buf := buf; s_head := s_head sb; s_len := l; s_una := s_una sb; s_nxt := s_nxt sb |}, n).

Definition SendBuffer_next_segment_checked (sb : SendBuffer) (max_len : Z)
    : Res E (option (Z * list Z)) :=
  let inflight := wrapping_sub (s_nxt sb) (s_una sb) in
  if s_len sb <=? inflight then Ok None
  else
    available ← usize_sub (s_len sb) inflight;
    let n := Z.min available max_len in
    if n =? 0 then Ok None
    else
      s ← usize_add (s_head sb) inflight;
      seg ← ring_load SEND_BUF_SIZE (s_buf sb) (s mod SEND_BUF_SIZE) 0 (Z.to_nat n);
      Ok (Some (s_nxt sb, seg)).

Definition SendBuffer_acknowledge_checked (sb : SendBuffer) (ack : Z) : Res E SendBuffer :=
  let newly_acked := wrapping_sub ack (s_una sb) in
  if ((newly_acked =? 0) || (s_len sb <? newly_acked))%bool then Ok sb
  else
    h ← usize_add (s_head sb) newly_acked;
    l ← usize_sub (s_len sb) newly_acked;
    Ok {| s_buf := s_buf sb; s_head := h mod SEND_BUF_SIZE; s_len := l; s_una := ack; s_nxt := s_nxt sb |}.

Lemma SendBuffer_write_returns sb data :
  send_wf sb -> SendBuffer_write_checked sb data = Ok (SendBuffer_write sb data).
Proof using.
  intros []. pose proof (len_nonneg data). unfold SendBuffer_write_checked, SendBuffer_write.
  pose proof (Z.mod_pos_bound (s_head sb + s_len sb) SEND_BUF_SIZE ltac:(done)).
  unfold SEND_BUF_SIZE in *. do 2 step.
  rewrite slice_ok by lia. cbn [mbind Res_bind]. rewrite Z.sub_0_r, drop_0.
  rewrite ring_store_returns; try lia; [|rewrite len_take by lia; unfold U64; lia].
  rewrite Z.add_0_r. cbn [mbind Res_bind]. by step.
Qed.

Lemma SendBuffer_next_segment_returns sb max_len :
  send_wf sb -> 0 <= max_len ->
  SendBuffer_next_segment_checked sb max_len = Ok (SendBuffer_next_segment sb max_len).
Proof using.
  intros [] Hm. unfold SendBuffer_next_segment_checked, SendBuffer_next_segment. cbv zeta.
  pose proof (as_u32_range (s_nxt sb - s_una sb)) as Hi. fold (wrapping_sub (s_nxt sb) (s_una sb)) in Hi.
  set (infl := wrapping_sub _ _) in *. unfold is_u32 in Hi.
  destruct (Z.leb_spec (s_len sb) infl); [done |]. step.
  destruct (Z.min (s_len sb - infl) max_len =? 0); [done |].
  pose proof (Z.mod_pos_bound (s_head sb + infl) SEND_BUF_SIZE ltac:(done)).
  unfold SEND_BUF_SIZE in *. step.
  rewrite ring_load_returns by (unfold U64; lia). cbn [mbind Res_bind].
  by rewrite Z.add_0_r, Z2Nat.id by lia.
Qed.

Lemma SendBuffer_acknowledge_returns sb ack :
  send_wf sb -> SendBuffer_acknowledge_checked sb ack = Ok (SendBuffer_acknowledge sb ack).
Proof using.
  intros []. unfold SendBuffer_acknowledge_checked, SendBuffer_acknowledge. cbv zeta.
  pose proof (as_u32_range (ack - s_una sb)) as Hi. fold (wrapping_sub ack (s_una sb)) in Hi.
  set (k := wrapping_sub _ _) in *. unfold is_u32 in Hi.
  destruct (k =? 0); [done |]. destruct (Z.ltb_spec (s_len sb) k); [done |]. cbn [orb].
  unfold SEND_BUF_SIZE in *. step. by step.
Qed.

(** ** The receive buffer *)
Definition RecvBuffer_commit_checked (rb : RecvBuffer) (data : list Z) : Res E RecvBuffer :=
  space ← usize_sub RECV_BUF_SIZE (r_len rb);
  let n := Z.min (len data) space in
  t ← usize_add (r_head rb) (r_len rb);
  front ← slice data 0 n;
  buf ← ring_store RECV_BUF_SIZE (r_buf rb) (t mod RECV_BUF_SIZE) 0 front;
  l ← usize_add (r_len rb) n;
  Ok {| r_buf := buf; r_head := r_head rb; r_len := l; r_nxt := wrapping_add (r_nxt rb) (as_u32 n);
        r_ooo := r_ooo rb |}.

(** The fuel is one more than the rounds, each of which removes an entry. *)
Fixpoint drain_loop_checked (fuel : nat) (rb : RecvBuffer) : Res E RecvBuffer :=
  match fuel with
  | O => Panic
  | S f =>
      match btree_first (r_ooo rb) with
      | None => Ok rb
      | Some key =>
          if negb (key =? r_nxt rb) then Ok rb
          else
            data ← unwrap (r_ooo rb !! key);
            rb ← RecvBuffer_commit_checked (with_ooo rb (delete key (r_ooo rb))) data;
            drain_loop_checked f rb
      end
  end.

Definition RecvBuffer_drain_ooo_checked (rb : RecvBuffer) : Res E RecvBuffer :=
  drain_loop_checked (S (size (r_ooo rb))) rb.

(** [trim] is [None] where the function returns early. *)
Definition RecvBuffer_insert_checked (rb : RecvBuffer) (seq : Z) (data : list Z) : Res E RecvBuffer :=
  if len data =? 0 then Ok rb
  else
    let trim :=
      if seq_lt seq (r_nxt rb) then
        let past := wrapping_sub (r_nxt rb) seq in
        if len data <=? past then None else Some past
      else Some 0 in
    match trim with
    | None => Ok rb
    | Some trim =>
        let effective_seq := wrapping_add seq (as_u32 trim) in
        effective_data ← slice data trim (len data);
        if effective_seq =? r_nxt rb then
          rb ← RecvBuffer_commit_checked rb effective_data;
          RecvBuffer_drain_ooo_checked rb
        else
          match r_ooo rb !! effective_seq with
          | Some _ => Ok rb
          | None => Ok (with_ooo rb (<[effective_seq := effective_data]> (r_ooo rb)))
          end
    end.

Definition RecvBuffer_read_checked (rb : RecvBuffer) (buf : list Z) : Res E (RecvBuffer * list Z * Z) :=
  let n := Z.min (len buf) (r_len rb) in
  front ← ring_load RECV_BUF_SIZE (r_buf rb) (r_head rb) 0 (Z.to_nat n);
  h ← usize_add (r_head rb) n;
  l ← usize_sub (r_len rb) n;
  Ok ({| r_buf := r_buf rb; r_head := h mod RECV_BUF_SIZE; r_len := l; r_nxt := r_nxt rb;
         r_ooo := r_ooo rb |}, front ++ drop (Z.to_nat n) buf, n).

Definition RecvBuffer_window_checked (rb : RecvBuffer) : Res E Z :=
  free ← usize_sub RECV_BUF_SIZE (r_len rb);
  Ok (as_u16 (Z.min free 65535)).

Lemma RecvBuffer_commit_returns rb data :
  recv_wf rb -> RecvBuffer_commit_checked rb data = Ok (RecvBuffer_commit rb data).
Proof using.
  intros []. pose proof (len_nonneg data). unfold RecvBuffer_commit_checked, RecvBuffer_commit.
  pose proof (Z.mod_pos_bound (r_head rb + r_len rb) RECV_BUF_SIZE ltac:(done)).
  unfold RECV_BUF_SIZE in *. do 2 step.
  rewrite slice_ok by lia. cbn [mbind Res_bind]. rewrite Z.sub_0_r, drop_0.
  rewrite ring_store_returns; try lia; [|rewrite len_take by lia; unfold U64; lia].
  rewrite Z.add_0_r. cbn [mbind Res_bind]. by step.
Qed.

Lemma drain_loop_returns f : forall g rb,
  recv_wf rb -> (size (r_ooo rb) < f)%nat -> (size (r_ooo rb) <= g)%nat ->
  drain_loop_checked f rb = Ok (drain_loop g rb).
Proof using.
  induction f as [|f IH]; intros g rb Hwf Hf Hg; [lia |]. cbn [drain_loop_checked].
  destruct (btree_first (r_ooo rb)) as [key|] eqn:Ek; [|by destruct g; cbn [drain_loop]; rewrite ?Ek].
  destruct (btree_first_Some _ _ Ek) as [[d Hd] _].
  assert (Hsz : size (delete key (r_ooo rb)) = pred (size (r_ooo rb))) by (apply map_size_delete_Some; by eexists).
  assert (size (r_ooo rb) <> 0)%nat by (rewrite map_size_non_empty_iff; by intros E0; rewrite E0, lookup_empty in Hd).
  destruct g as [|g]; [lia |]. cbn [drain_loop]. rewrite Ek.
  destruct (negb (key =? r_nxt rb)); [done |]. rewrite Hd. cbn [unwrap mbind Res_bind].
  assert (Hwf' : recv_wf (with_ooo rb (delete key (r_ooo rb)))) by (apply recv_wf_with_ooo; [done | apply map_Forall_delete, Hwf]).
  rewrite RecvBuffer_commit_returns by done. cbn [mbind Res_bind].
  apply IH; [by apply recv_wf_commit | cbn; lia ..].
Qed.

Lemma RecvBuffer_insert_returns rb seq data :
  recv_wf rb -> RecvBuffer_insert_checked rb seq data = Ok (RecvBuffer_insert rb seq data).
Proof using.
  intros Hwf. unfold RecvBuffer_insert_checked, RecvBuffer_insert. cbv zeta.
  destruct (Z.eqb_spec (len data) 0); [done |]. pose proof (len_nonneg data).
  pose proof (as_u32_range (r_nxt rb - seq)) as Hp. fold (wrapping_sub (r_nxt rb) seq) in Hp.
  assert (Hgo : forall trim, 0 <= trim <= len data ->
    (effective_data ← slice data trim (len data);
     if wrapping_add seq (as_u32 trim) =? r_nxt rb then
       rb ← RecvBuffer_commit_checked rb effective_data; RecvBuffer_drain_ooo_checked rb
     else match r_ooo rb !! wrapping_add seq (as_u32 trim) with
          | Some _ => Ok rb
          | None => Ok (with_ooo rb (<[wrapping_add seq (as_u32 trim) := effective_data]> (r_ooo rb)))
          end) =
    Ok (if wrapping_add seq (as_u32 trim) =? r_nxt rb
        then RecvBuffer_drain_ooo (RecvBuffer_commit rb (drop (Z.to_nat trim) data))
        else match r_ooo rb !! wrapping_add seq (as_u32 trim) with
             | Some _ => rb
             | None => with_ooo rb (<[wrapping_add seq (as_u32 trim) := drop (Z.to_nat trim) data]> (r_ooo rb))
             end)).
  { intros trim Ht. rewrite slice_whole_rest by done. cbn [mbind Res_bind].
    destruct (_ =? _); [|by destruct (r_ooo rb !! _)].
    rewrite RecvBuffer_commit_returns by done. cbn [mbind Res_bind].
    apply drain_loop_returns; [by apply recv_wf_commit | lia ..]. }
  destruct (seq_lt seq (r_nxt rb)); cbn [andb]; [|apply Hgo; lia].
  destruct (Z.leb_spec (len data) (wrapping_sub (r_nxt rb) seq)); [done |].
  apply Hgo. unfold is_u32 in Hp. lia.
Qed.

Lemma RecvBuffer_read_returns rb buf :
  recv_wf rb -> RecvBuffer_read_checked rb buf = Ok (RecvBuffer_read rb buf).
Proof using.
  intros []. pose proof (len_nonneg buf). unfold RecvBuffer_read_checked, RecvBuffer_read. cbv zeta.
  unfold RECV_BUF_SIZE in *.
  rewrite ring_load_returns by (unfold U64; lia). cbn [mbind Res_bind].
  step. step. by rewrite Z.add_0_r, Z2Nat.id by lia.
Qed.

Lemma RecvBuffer_window_returns rb :
  recv_wf rb -> RecvBuffer_window_checked rb = Ok (RecvBuffer_window rb).
Proof using. intros []. unfold RecvBuffer_window_checked. by step. Qed.

(** ** The checksum and the builder *)
(** [while i + 1 < data.len() { .. }] and the odd byte after it. *)
Fixpoint word_loop (fuel : nat) (data : list Z) (i : nat) (sum : Z) : Res E Z :=
  match fuel with
  | O => Panic
  | S f =>
      if bool_decide (i + 1 < length data)%nat then
        b0 ← byte_at data i;
        b1 ← byte_at data (i + 1);
        sum ← u32_add sum (u16_from_be b0 b1);
        word_loop f data (i + 2) sum
      else if bool_decide (i < length data)%nat then
        b ← byte_at data i;
        u32_add sum (Z.shiftl b 8)
      else Ok sum
  end.

Fixpoint carry_loop (fuel : nat) (sum : Z) : Res E Z :=
  match fuel with
  | O => Panic
  | S f =>
      if Z.shiftr sum 16 =? 0 then Ok sum
      else
        sum ← u32_add (Z.land sum 65535) (Z.shiftr sum 16);
        carry_loop f sum
  end.

Definition tcp_checksum_checked (tcp_segment src_ip dst_ip : list Z) : Res E Z :=
  let tcp_len := as_u32 (len tcp_segment) in
  sum ← u32_add 0 (u16_from_be (arr src_ip 0) (arr src_ip 1));
  sum ← u32_add sum (u16_from_be (arr src_ip 2) (arr src_ip 3));
  sum ← u32_add sum (u16_from_be (arr dst_ip 0) (arr dst_ip 1));
  sum ← u32_add sum (u16_from_be (arr dst_ip 2) (arr dst_ip 3));
  sum ← u32_add sum PROTO_TCP;
  sum ← u32_add sum tcp_len;
  sum ← word_loop (S (length tcp_segment)) tcp_segment 0 sum;
  sum ← carry_loop CARRY_FUEL sum;
  Ok (not_u16 (as_u16 sum)).

(** [copy_at] fails outside the buffer, which is where [copy_from_slice] or the range
    before it does: the ranges are constants of the length of the source, and the last
    one is as long as the payload. *)
Definition SegmentBuilder_build_checked (b : SegmentBuilder) : Res E (list Z) :=
  total ← usize_add TCP_MIN_HEADER_LEN (len (sb_payload b));
  let buf := zeroed total in
  buf ← copy_at buf 0 (u16_to_be (sb_src_port b));
  buf ← copy_at buf 2 (u16_to_be (sb_dst_port b));
  buf ← copy_at buf 4 (u32_to_be (sb_seq b));
  buf ← copy_at buf 8 (u32_to_be (sb_ack_num b));
  buf ← set_at buf 12 80;
  buf ← set_at buf 13 (TcpFlags_to_byte (sb_flags b));
  buf ← copy_at buf 14 (u16_to_be (sb_window b));
  tail ← slice buf TCP_MIN_HEADER_LEN (len buf);
  buf ← (if len tail =? len (sb_payload b) then copy_at buf TCP_MIN_HEADER_LEN (sb_payload b) else Panic);
  csum ← tcp_checksum_checked buf (sb_src_ip b) (sb_dst_ip b);
  copy_at buf 16 (u16_to_be csum).

Lemma word_loop_returns f data : bytes_ok data -> forall i sum,
  (i <= length data < f + i)%nat -> 0 <= sum -> sum + word_sum (drop i data) < U32 ->
  word_loop f data i sum = Ok (sum + word_sum (drop i data)).
Proof using.
  intros Hb. induction f as [|f IH]; intros i sum Hi Hs Hlt; [lia |]. cbn [word_loop].
  case_bool_decide as H1.
  - destruct (lookup_lt_is_Some_2 data i) as [b0 E0]; [lia |].
    destruct (lookup_lt_is_Some_2 data (S i)) as [b1 E1]; [lia |].
    rewrite (drop_S _ _ _ E0), (drop_S _ _ _ E1) in *. cbn [word_sum] in *.
    pose proof (word_sum_bounds _ (bytes_ok_drop (S (S i)) data Hb)).
    pose proof (len_nonneg (drop (S (S i)) data)).
    assert (0 <= word_sum (drop (S (S i)) data)) by (word_lia).
    assert (is_u16 (u16_from_be b0 b1)) by (apply u16_from_be_range; by eapply (Forall_lookup_1 _ data)).
    unfold is_u16 in *. unfold byte_at. replace (i + 1)%nat with (S i) by lia. rewrite E0, E1.
    cbn [unwrap mbind Res_bind]. step. replace (i + 2)%nat with (S (S i)) by lia.
    rewrite IH by lia. f_equal. lia.
  - case_bool_decide as H2.
    + destruct (lookup_lt_is_Some_2 data i) as [b E0]; [lia |]. rewrite (drop_S _ _ _ E0) in *.
      rewrite (drop_ge data (S i)) in * by lia. cbn [word_sum] in *.
      unfold byte_at. rewrite E0. cbn [unwrap mbind Res_bind].
      rewrite Z.shiftl_mul_pow2 by lia. change (2 ^ 8) with 256. by apply u32_add_returns.
    + rewrite drop_ge by lia. by rewrite Z.add_0_r.
Qed.

Lemma carry_loop_returns g : forall sum,
  0 <= sum < U32 -> fold_carry g sum < 65536 -> carry_loop (S g) sum = Ok (fold_carry g sum).
Proof using.
  induction g as [|g IH]; intros sum Hs Hd.
  - cbn [fold_carry] in *. cbn [carry_loop].
    destruct (Z.eqb_spec (Z.shiftr sum 16) 0) as [|Hne]; [done |]. rewrite shiftr16_zero in Hne; lia.
  - cbn [fold_carry] in *. change (carry_loop (S (S g)) sum) with
      (if Z.shiftr sum 16 =? 0 then Ok sum
       else s ← u32_add (E:=E) (Z.land sum 65535) (Z.shiftr sum 16); carry_loop (S g) s).
    destruct (Z.shiftr sum 16 =? 0); [done |].
    assert (0 <= Z.land sum 65535 + Z.shiftr sum 16 < U32) by (rewrite fold_step_eq; word_lia).
    rewrite u32_add_returns by lia. cbn [mbind Res_bind]. by apply IH.
Qed.

Lemma tcp_checksum_returns seg si di :
  ip_ok si -> ip_ok di -> bytes_ok seg -> len seg <= 65535 ->
  tcp_checksum_checked seg si di = Ok (tcp_checksum seg si di).
Proof using.
  intros Hs Hd Hb Hl. pose proof (len_nonneg seg). rewrite tcp_checksum_exact by done.
  pose proof (tcp_sum_bounds seg si di Hs Hd Hb Hl) as Hsum.
  pose proof (word_sum_bounds seg Hb) as Hw.
  assert (0 <= word_sum seg) by (unfold len in *; word_lia).
  unfold tcp_checksum_checked, pseudo_sum, PROTO_TCP in *. cbv zeta.
  pose proof (fun i => arr_byte si i Hs) as Hsi. pose proof (fun i => arr_byte di i Hd) as Hdi.
  pose proof (u16_from_be_range _ _ (Hsi 0%nat) (Hsi 1%nat)).
  pose proof (u16_from_be_range _ _ (Hsi 2%nat) (Hsi 3%nat)).
  pose proof (u16_from_be_range _ _ (Hdi 0%nat) (Hdi 1%nat)).
  pose proof (u16_from_be_range _ _ (Hdi 2%nat) (Hdi 3%nat)).
  unfold is_u16 in *. u32_exact. do 6 step. rewrite Z.add_0_l.
  rewrite word_loop_returns; [| done | lia | lia | rewrite drop_0; unfold U32; lia].
  cbn [mbind Res_bind]. rewrite drop_0.
  match goal with |- context [carry_loop _ ?x] => set (sum := x) in * end.
  assert (Hd2 : forall f, (2 <= f)%nat -> 0 <= fold_carry f sum < 65536)
    by (intros; apply fold_carry_done; [lia | unfold U32; lia]).
  change CARRY_FUEL with (S 3). rewrite carry_loop_returns by (first [apply Hd2; lia | unfold U32; lia]).
  cbn [mbind Res_bind]. f_equal.
  assert (E34 : fold_carry 3 sum = fold_carry 4 sum) by (rewrite !fold_carry_closed by (first [lia | unfold U32; lia]); done).
  rewrite E34. specialize (Hd2 4%nat ltac:(lia)). unfold not_u16, as_u16, U16. rewrite Z.mod_small by lia. lia.
Qed.

(** A buffer of [n] bytes stays one. *)
Definition filled (n : Z) (buf : list Z) : Prop := len buf = n /\ bytes_ok buf.

Lemma copy_returns n dst off src :
  filled n dst -> bytes_ok src -> 0 <= off -> off + len src <= n ->
  copy_at (E:=E) dst off src = Ok (blit dst off src) /\ filled n (blit dst off src).
Proof using.
  intros [Hl Hb] Hs Ho Hn. pose proof (len_nonneg src). unfold copy_at, blit.
  destruct (Z.leb_spec (off + len src) (len dst)); [|lia]. split; [done |]. split; [|auto with magnum].
  rewrite !len_app, len_take, len_drop by lia. lia.
Qed.

Lemma set_returns n dst i x :
  filled n dst -> is_u8 x -> Z.of_nat i < n ->
  set_at (E:=E) dst i x = Ok (<[i := x]> dst) /\ filled n (<[i := x]> dst).
Proof using.
  intros [Hl Hb] Hx Hi. unfold set_at. rewrite bool_decide_true by (unfold len in *; lia).
  split; [done |]. split; [unfold len in *; by rewrite length_insert | by apply Forall_insert].
Qed.

Lemma u16_to_be_bytes x : bytes_ok (u16_to_be x).
Proof using. unfold u16_to_be. bytes_tac. Qed.
Lemma u32_to_be_bytes x : bytes_ok (u32_to_be x).
Proof using. unfold u32_to_be. bytes_tac. Qed.

(** The next write of a chain, in a buffer that is [filled]. *)
Ltac copy_step Hf :=
  match goal with
  | |- (copy_at ?buf ?off ?src ≫= _) = _ =>
      let Eq := fresh "Eq" in
      destruct (copy_returns _ buf off src Hf) as [Eq Hf'];
      [first [apply u16_to_be_bytes | apply u32_to_be_bytes] | lia | change (len src) with (Z.of_nat (length src)); cbn [length u16_to_be u32_to_be]; lia |];
      rewrite Eq; clear Eq Hf; rename Hf' into Hf
  | |- (set_at ?buf ?i ?x ≫= _) = _ =>
      let Eq := fresh "Eq" in
      destruct (set_returns _ buf i x Hf) as [Eq Hf'];
      [first [apply flags_byte | unfold is_u8; lia] | lia |];
      rewrite Eq; clear Eq Hf; rename Hf' into Hf
  end; cbn [mbind Res_bind].

Lemma SegmentBuilder_build_returns b :
  ip_ok (sb_src_ip b) -> ip_ok (sb_dst_ip b) -> bytes_ok (sb_payload b) -> len (sb_payload b) <= 65515 ->
  SegmentBuilder_build_checked b = Ok (SegmentBuilder_build b).
Proof using.
  intros Hs Hd Hb Hl. pose proof (len_nonneg (sb_payload b)) as H0.
  unfold SegmentBuilder_build_checked, SegmentBuilder_build, TCP_MIN_HEADER_LEN. cbv zeta.
  rewrite usize_add_returns by (unfold U64; lia). cbn [mbind Res_bind].
  set (n := 20 + len (sb_payload b)) in *.
  assert (Hf : filled n (zeroed n)) by (split; [apply len_zeroed; lia | apply zeroed_bytes]).
  do 7 copy_step Hf.
  match goal with |- context [slice ?x _ _] => set (buf := x) in * end. clearbody buf.
  destruct Hf as [Hn Hby]. rewrite slice_whole_rest by lia. cbn [mbind Res_bind].
  rewrite len_drop by lia. replace (Z.max 0 (len buf - 20) =? len (sb_payload b)) with true by lia.
  destruct (copy_returns n buf 20 (sb_payload b)) as [Eq Hf']; [by split | done | lia | lia |].
  rewrite Eq. cbn [mbind Res_bind].
  rewrite tcp_checksum_returns; [| done | done | apply Hf' | destruct Hf' as [-> _]; lia].
  cbn [mbind Res_bind]. apply (copy_returns n); [done | apply u16_to_be_bytes | lia |].
  change (len (u16_to_be _)) with 2. lia.
Qed.
End Checked.
