(* ===== verification/NoPanic.v ===== *)
(** * A connection never panics (src/magnum-tcp/src/tcp/connection.rs)

    The methods of connection.rs on the operations of Checked, where every index, slice,
    [unwrap] and arithmetic operation can panic. The methods that only assign fields,
    and those of the retransmission queue, which already can panic, are those of
    Connection. In a connection that keeps its invariant each method returns what its
    counterpart in Connection returns, so that what the other files prove of the total
    functions is true of the code as it runs. *)
From S2P Require Import Prelude Errors Tcb Ipv4 Header Ring SendBuffer RecvBuffer Float64 Retransmit Connection Checked StateMachine.

(** ** Segments sent *)
Definition current_window_checked (c : Connection) : Result Z :=
  match recv_buf c with Some rb => RecvBuffer_window_checked rb | None => Ok 65535 end.

Definition build_data_checked (c : Connection) (fl : TcpFlags) (seq : Z) (pl : list Z) : Result (list Z) :=
  w ← current_window_checked c;
  SegmentBuilder_build_checked (SegmentBuilder_payload pl (SegmentBuilder_window w
    (SegmentBuilder_flags fl (SegmentBuilder_ack (rnxt c) (SegmentBuilder_seq seq (builder c)))))).
Definition build_ctl_checked (c : Connection) (fl : TcpFlags) (seq : Z) : Result (list Z) :=
  w ← current_window_checked c;
  SegmentBuilder_build_checked (SegmentBuilder_window w
    (SegmentBuilder_flags fl (SegmentBuilder_ack (rnxt c) (SegmentBuilder_seq seq (builder c))))).

Definition build_syn_checked (c : Connection) : Result (list Z) :=
  SegmentBuilder_build_checked (SegmentBuilder_flags F_SYN (SegmentBuilder_seq (iss c) (builder c))).
Definition build_syn_ack_checked (c : Connection) : Result (list Z) := build_ctl_checked c F_SYN_ACK (iss c).
Definition build_ack_checked (c : Connection) : Result (list Z) := build_ctl_checked c F_ACK (nxt c).
Definition build_fin_ack_checked (c : Connection) : Result (list Z) := build_ctl_checked c F_FIN_ACK (nxt c).
Definition build_rst_checked (c : Connection) (seq : Z) : Result (list Z) :=
  SegmentBuilder_build_checked (SegmentBuilder_flags F_RST (SegmentBuilder_seq seq (builder c))).

Definition fast_retransmit_segment_checked (c : Connection) : Result (option (list Z)) :=
  match first_unacked (retransmit_queue c) with
  | None => Ok None
  | Some (seq, pl) => raw ← build_data_checked c F_PSH_ACK seq pl; Ok (Some raw)
  end.

(** ** Handlers *)
(** [return Ok(Some(..))] *)
Definition answer (c : Connection) (raw : Result (list Z)) : Outcome := raw ← raw; Ok (c, Some raw).

Definition handle_listen_checked (c : Connection) (seg : TcpSegment) : Outcome :=
  let h := header seg in
  if flag_rst (flags h) then Ok (c, None)
  else if flag_ack (flags h) then answer c (build_rst_checked c (ack_num h))
  else if negb (flag_syn (flags h)) then Ok (c, None)
  else
    let c := set_recv_buf (Some (RecvBuffer_new (seq_num h))) c in
    let c := set_rcv_irs (seq_num h) c in
    let c := set_rcv_nxt (wrapping_add (seq_num h) 1) c in
    let c := set_rcv_wnd (window h) c in
    let c := set_snd_nxt (wrapping_add (iss c) 1) c in
    let c := set_state SynReceived c in
    answer c (build_syn_ack_checked c).

Definition handle_syn_sent_checked (c : Connection) (seg : TcpSegment) : Outcome :=
  let h := header seg in
  if flag_rst (flags h) then Ok (set_state Closed c, None)
  else if (flag_syn (flags h) && flag_ack (flags h))%bool then
    if negb (ack_acceptable (una c) (ack_num h) (nxt c))
    then answer c (build_rst_checked c (ack_num h))
    else
      let c := set_snd_una (ack_num h) c in
      let c := set_snd_wnd (window h) c in
      let c := set_rcv_irs (seq_num h) c in
      let c := set_rcv_nxt (wrapping_add (seq_num h) 1) c in
      let c := set_recv_buf (Some (RecvBuffer_new (seq_num h))) c in
      let c := set_state Established c in
      answer c (build_ack_checked c)
  else if flag_syn (flags h) then
    let c := set_rcv_irs (seq_num h) c in
    let c := set_rcv_nxt (wrapping_add (seq_num h) 1) c in
    let c := set_recv_buf (Some (RecvBuffer_new (seq_num h))) c in
    let c := set_snd_wnd (window h) c in
    let c := set_state SynReceived c in
    answer c (build_syn_ack_checked c)
  else Ok (c, None).

Definition handle_syn_received_checked (c : Connection) (seg : TcpSegment) : Outcome :=
  let h := header seg in
  if flag_rst (flags h) then Ok (set_state Listen c, None)
  else if (flag_syn (flags h) && negb (flag_ack (flags h)) && (seq_num h =? irs c))%bool
  then answer c (build_syn_ack_checked c)
  else if negb (flag_ack (flags h)) then Ok (c, None)
  else if negb (ack_acceptable (una c) (ack_num h) (nxt c))
  then answer c (build_rst_checked c (ack_num h))
  else
    let c := set_snd_una (ack_num h) c in
    sb ← SendBuffer_acknowledge_checked (send_buf c) (ack_num h);
    let c := set_send_buf sb c in
    let c := set_snd_wnd (window h) c in
    let c := set_state Established c in
    Ok (c, None).

Definition established_ack_checked (c : Connection) (clk : Clock) (seg : TcpSegment) : Outcome :=
  let h := header seg in
  let new_ack := ack_num h in
  if ack_acceptable (una c) new_ack (nxt c) then
    let bytes_acked := wrapping_sub new_ack (una c) in
    c ← grow_cwnd c bytes_acked;
    let c := set_snd_una new_ack c in
    sb ← SendBuffer_acknowledge_checked (send_buf c) new_ack;
    let c := set_send_buf sb c in
    rq ← acknowledge_and_sample_rtt (retransmit_queue c) new_ack (clock_ack clk);
    let c := set_retransmit_queue rq c in
    let c := set_snd_wnd (window h) c in
    let c := set_dup_ack_count 0 c in
    Ok (c, None)
  else if ((new_ack =? una c) && negb (una c =? nxt c))%bool then
    let c := set_dup_ack_count (saturating_add_u8 (dups c) 1) c in
    if dups c =? 3 then
      c ← enter_fast_recovery c;
      r ← fast_retransmit_segment_checked c;
      Ok (c, r)
    else if 3 <? dups c then Ok (set_cwnd (saturating_add_u32 (cw c) MSS) c, None)
    else Ok (c, None)
  else Ok (c, None).

Definition receive_payload_checked (c : Connection) (seg : TcpSegment) : Result Connection :=
  match recv_buf c with
  | None => Ok c
  | Some rb =>
      rb ← RecvBuffer_insert_checked rb (seq_num (header seg)) (payload seg);
      let c := set_recv_buf (Some rb) c in
      Ok (set_rcv_nxt (RecvBuffer_next_expected rb) c)
  end.

Definition established_data_checked (c : Connection) (seg : TcpSegment) : Outcome :=
  let h := header seg in
  let has_payload := negb (len (payload seg) =? 0) in
  c ← (if has_payload then receive_payload_checked c seg else Ok c);
  if (has_payload && negb (flag_fin (flags h)))%bool then answer c (build_ack_checked c)
  else if flag_fin (flags h) then
    let c := set_rcv_nxt (after_fin seg) c in
    let c := set_state CloseWait c in
    answer c (build_ack_checked c)
  else Ok (c, None).

Definition handle_established_checked (c : Connection) (clk : Clock) (seg : TcpSegment) : Outcome :=
  if flag_rst (flags (header seg)) then Ok (set_state Closed c, None)
  else
    '(c, early) ← (if flag_ack (flags (header seg)) then established_ack_checked c clk seg
                   else Ok (c, None));
    match early with
    | Some r => Ok (c, Some r)
    | None => established_data_checked c seg
    end.

Definition handle_fin_wait_1_checked (c : Connection) (clk : Clock) (seg : TcpSegment) : Outcome :=
  let h := header seg in
  let on_fin (c : Connection) : Outcome :=
    if flag_fin (flags h) then
      let c := set_rcv_nxt (after_fin seg) c in
      let c := set_state Closing c in
      answer c (build_ack_checked c)
    else Ok (c, None) in
  if flag_rst (flags h) then Ok (set_state Closed c, None)
  else if (flag_ack (flags h) && ack_acceptable (una c) (ack_num h) (nxt c))%bool then
    let fin_acked := seq_le (nxt c) (ack_num h) in
    let c := set_snd_una (ack_num h) c in
    sb ← SendBuffer_acknowledge_checked (send_buf c) (ack_num h);
    let c := set_send_buf sb c in
    rq ← acknowledge_and_sample_rtt (retransmit_queue c) (ack_num h) (clock_ack clk);
    let c := set_retransmit_queue rq c in
    let c := set_snd_wnd (window h) c in
    if (fin_acked && flag_fin (flags h))%bool then
      let c := set_rcv_nxt (after_fin seg) c in
      let c := set_state TimeWait c in
      let c := set_time_wait_start (Some (clock_tw clk)) c in
      answer c (build_ack_checked c)
    else if fin_acked then Ok (set_state FinWait2 c, None)
    else on_fin c
  else on_fin c.

Definition handle_fin_wait_2_checked (c : Connection) (clk : Clock) (seg : TcpSegment) : Outcome :=
  if flag_rst (flags (header seg)) then Ok (set_state Closed c, None)
  else if flag_fin (flags (header seg)) then
    let c := set_rcv_nxt (after_fin seg) c in
    let c := set_state TimeWait c in
    let c := set_time_wait_start (Some (clock_tw clk)) c in
    answer c (build_ack_checked c)
  else Ok (c, None).

Definition handle_time_wait_checked (c : Connection) (seg : TcpSegment) : Outcome :=
  if flag_fin (flags (header seg)) then answer c (build_ack_checked c) else Ok (c, None).

Definition process_segment_checked (c : Connection) (clk : Clock) (seg : TcpSegment) : Outcome :=
  match st c with
  | Listen => handle_listen_checked c seg
  | SynReceived => handle_syn_received_checked c seg
  | Established => handle_established_checked c clk seg
  | CloseWait => handle_close_wait c seg
  | FinWait1 => handle_fin_wait_1_checked c clk seg
  | FinWait2 => handle_fin_wait_2_checked c clk seg
  | Closing => handle_closing c clk seg
  | LastAck => handle_last_ack c seg
  | TimeWait => handle_time_wait_checked c seg
  | SynSent => handle_syn_sent_checked c seg
  | Closed => Ok (c, None)
  end.

(** ** The application's and the timers' side *)
Definition write_data_checked (c : Connection) (data : list Z) : Result (Connection * Z) :=
  '(sb, n) ← SendBuffer_write_checked (send_buf c) data; Ok (set_send_buf sb c, n).

Definition next_segment_to_send_checked (c : Connection) (max_payload now : Z) : Outcome :=
  let snd_wnd := as_u32 (wnd c) in
  let effective_window := Z.min (cw c) snd_wnd in
  let inflight := wrapping_sub (nxt c) (una c) in
  if effective_window <=? inflight then Ok (c, None)
  else
    window_avail ← u32_sub effective_window inflight;
    let max_len := Z.min max_payload window_avail in
    r ← SendBuffer_next_segment_checked (send_buf c) max_len;
    match r with
    | None => Ok (c, None)
    | Some (seq, pl) =>
        let n := len pl in
        let c := set_send_buf (SendBuffer_advance_nxt (send_buf c) n) c in
        let c := set_retransmit_queue
                   (RetransmitQueue_push (retransmit_queue c) seq pl now) c in
        let c := set_snd_nxt (s_nxt (send_buf c)) c in
        answer c (build_data_checked c F_PSH_ACK seq pl)
    end.

Definition read_received_checked (c : Connection) (buf : list Z) : Result (Connection * list Z * Z) :=
  match recv_buf c with
  | None => Ok (c, buf, 0)
  | Some rb =>
      '(rb', buf', n) ← RecvBuffer_read_checked rb buf; Ok (set_recv_buf (Some rb') c, buf', n)
  end.

(** [expired.into_iter().map(..).collect()] *)
Fixpoint build_all_checked (c : Connection) (expired : list (Z * list Z)) : Result (list (list Z)) :=
  match expired with
  | [] => Ok []
  | (seq, pl) :: rest =>
      raw ← build_data_checked c F_PSH_ACK seq pl;
      raws ← build_all_checked c rest;
      Ok (raw :: raws)
  end.

Definition take_retransmits_checked (c : Connection) (now : Z) : Result (Connection * list (list Z)) :=
  '(rq, expired) ← expired_segments (retransmit_queue c) now;
  let c := set_retransmit_queue rq c in
  let c :=
    match expired with
    | [] => c
    | _ =>
        let c := set_ssthresh (Z.max (cw c / 2) (2 * MSS)) c in
        set_cwnd MSS c
    end in
  raws ← build_all_checked c expired;
  Ok (c, raws).

Definition initiate_close_checked (c : Connection) : Outcome :=
  match st c with
  | Established =>
      fin ← build_fin_ack_checked c;
      let c := set_snd_nxt (wrapping_add (nxt c) 1) c in
      Ok (set_state FinWait1 c, Some fin)
  | CloseWait =>
      fin ← build_fin_ack_checked c;
      let c := set_snd_nxt (wrapping_add (nxt c) 1) c in
      Ok (set_state LastAck c, Some fin)
  | _ => Ok (c, None)
  end.

Definition connect_checked (c : Connection) : Outcome :=
  if negb (state_eqb (st c) Closed) then Ok (c, None)
  else
    syn ← build_syn_checked c;
    let c := set_snd_nxt (wrapping_add (iss c) 1) c in
    Ok (set_state SynSent c, Some syn).

Definition zero_window_probe_checked (c : Connection) : Outcome :=
  if (negb (state_eqb (st c) Established) || negb (wnd c =? 0))%bool then Ok (c, None)
  else
    r ← SendBuffer_next_segment_checked (send_buf c) 1;
    match r with
    | None => Ok (c, None)
    | Some (seq, pl) =>
        let c := set_send_buf (SendBuffer_advance_nxt (send_buf c) 1) c in
        let c := set_snd_nxt (s_nxt (send_buf c)) c in
        answer c (build_data_checked c F_ACK seq pl)
    end.

(** ** Events *)
Definition sends (o : Outcome) : Result (Connection * list (list Z)) :=
  '(c, r) ← o; Ok (c, opt_list r).

Definition conn_step_checked (c : Connection) (ev : Event) : Result (Connection * list (list Z)) :=
  match ev with
  | EvSegment clk seg => sends (process_segment_checked c clk seg)
  | EvWrite data => '(c, _) ← write_data_checked c data; Ok (c, [])
  | EvSend max_payload now => sends (next_segment_to_send_checked c max_payload now)
  | EvRead buf => '(c, _, _) ← read_received_checked c buf; Ok (c, [])
  | EvRetransmit now => take_retransmits_checked c now
  | EvClose => sends (initiate_close_checked c)
  | EvTick now => Ok (fst (tick_time_wait c now), [])
  | EvConnect => sends (connect_checked c)
  | EvProbe => sends (zero_window_probe_checked c)
  end.

Fixpoint conn_run_checked (c : Connection) (evs : list Event) : Result (Connection * list (list Z)) :=
  match evs with
  | [] => Ok (c, [])
  | ev :: rest =>
      '(c1, out) ← conn_step_checked c ev;
      '(c2, outs) ← conn_run_checked c1 rest;
      Ok (c2, out ++ outs)
  end.

(** ** Each method returns what its counterpart returns *)
(** What building a segment needs; no assignment of a handler touches it. *)
Definition sendable (c : Connection) : Prop :=
  ip_ok (local_ip (tcb c)) /\ ip_ok (remote_ip (tcb c)) /\
  match recv_buf c with Some rb => recv_wf rb | None => True end.

Lemma inv_sendable c : conn_inv c -> sendable c.
Proof. intros HI. split; [apply HI | split; apply HI]. Qed.

Lemma current_window_returns c : sendable c -> current_window_checked c = Ok (current_window c).
Proof.
  intros (_ & _ & Hr). unfold current_window_checked, current_window.
  destruct (recv_buf c); [by apply RecvBuffer_window_returns | done].
Qed.

Lemma build_data_returns c fl seq pl :
  sendable c -> bytes_ok pl -> len pl <= MSS ->
  build_data_checked c fl seq pl = Ok (SegmentBuilder_build (data_builder c fl seq pl)).
Proof.
  intros Hs Hb Hl. unfold build_data_checked. rewrite current_window_returns by done. cbn [mbind Res_bind].
  destruct Hs as (? & ? & _). apply SegmentBuilder_build_returns; try done. cbn. unfold MSS in *. lia.
Qed.

Lemma build_ctl_returns c fl seq :
  sendable c -> build_ctl_checked c fl seq = Ok (SegmentBuilder_build (ctl_builder c fl seq)).
Proof.
  intros Hs. unfold build_ctl_checked. rewrite current_window_returns by done. cbn [mbind Res_bind].
  destruct Hs as (? & ? & _). apply SegmentBuilder_build_returns; try done. apply Forall_nil_2.
Qed.

Lemma build_rst_returns c seq : sendable c -> build_rst_checked c seq = Ok (build_rst c seq).
Proof. intros (? & ? & _). apply SegmentBuilder_build_returns; try done. apply Forall_nil_2. Qed.

Lemma build_syn_returns c : sendable c -> build_syn_checked c = Ok (build_syn c).
Proof. intros (? & ? & _). apply SegmentBuilder_build_returns; try done. apply Forall_nil_2. Qed.

Lemma answer_data c fl seq pl :
  sendable c -> bytes_ok pl -> len pl <= MSS ->
  answer c (build_data_checked c fl seq pl) = Ok (c, Some (SegmentBuilder_build (data_builder c fl seq pl))).
Proof. intros. unfold answer. by rewrite build_data_returns. Qed.
Lemma answer_ack c : sendable c -> answer c (build_ack_checked c) = Ok (c, Some (build_ack c)).
Proof. intros. unfold answer, build_ack_checked. by rewrite build_ctl_returns. Qed.
Lemma answer_syn_ack c : sendable c -> answer c (build_syn_ack_checked c) = Ok (c, Some (build_syn_ack c)).
Proof. intros. unfold answer, build_syn_ack_checked. by rewrite build_ctl_returns. Qed.
Lemma answer_rst c seq : sendable c -> answer c (build_rst_checked c seq) = Ok (c, Some (build_rst c seq)).
Proof. intros. unfold answer. by rewrite build_rst_returns. Qed.

Lemma fast_retransmit_returns c :
  sendable c -> rtq_wf (retransmit_queue c) ->
  fast_retransmit_segment_checked c = Ok (fast_retransmit_segment c).
Proof.
  intros Hs [_ He _ _ _]. unfold fast_retransmit_segment_checked, fast_retransmit_segment, first_unacked.
  destruct (entries (retransmit_queue c)) as [|e l]; [done |]. apply Forall_cons in He as [[_ ? ? _] _].
  by rewrite build_data_returns.
Qed.

(** A branch that ends with a segment or with nothing, after assignments that start
    from a connection that is [sendable]. *)
Ltac sendable_tac HS :=
  first [exact HS | split; [exact (proj1 HS) | split; [exact (proj1 (proj2 HS)) | apply recv_wf_new]]].
Ltac branch HS :=
  cbv zeta;
  lazymatch goal with
  | |- answer _ (build_ack_checked _) = _ => apply answer_ack; sendable_tac HS
  | |- answer _ (build_syn_ack_checked _) = _ => apply answer_syn_ack; sendable_tac HS
  | |- answer _ (build_rst_checked _ _) = _ => apply answer_rst; sendable_tac HS
  | |- Ok _ = Ok _ => reflexivity
  end.

Section Handlers.
Context (c : Connection) (HI : conn_inv c) (clk : Clock) (Hclk : clock_ok clk)
        (seg : TcpSegment) (Hseg : seg_ok seg).
Let HS : sendable c := inv_sendable c HI.

Lemma handle_listen_returns : handle_listen_checked c seg = handle_listen c seg.
Proof using HI. unfold handle_listen_checked, handle_listen. flag_cases seg; branch HS. Qed.

Lemma handle_syn_sent_returns : handle_syn_sent_checked c seg = handle_syn_sent c seg.
Proof using HI.
  unfold handle_syn_sent_checked, handle_syn_sent.
  flag_cases seg; try destruct (ack_acceptable _ _ _); cbn [negb]; branch HS.
Qed.

Lemma handle_syn_received_returns : handle_syn_received_checked c seg = handle_syn_received c seg.
Proof using HI.
  unfold handle_syn_received_checked, handle_syn_received. cbv zeta.
  cbn [send_buf set_snd_una with_tcb]. rewrite SendBuffer_acknowledge_returns by apply HI. cbn [mbind Res_bind].
  flag_cases seg; try destruct (seq_num (header seg) =? irs c);
    try destruct (ack_acceptable _ _ _); cbn [negb andb]; branch HS.
Qed.

Lemma handle_fin_wait_2_returns : handle_fin_wait_2_checked c clk seg = handle_fin_wait_2 c clk seg.
Proof using HI. unfold handle_fin_wait_2_checked, handle_fin_wait_2. flag_cases seg; branch HS. Qed.

Lemma handle_time_wait_returns : handle_time_wait_checked c seg = handle_time_wait c seg.
Proof using HI. unfold handle_time_wait_checked, handle_time_wait. flag_cases seg; branch HS. Qed.

Lemma handle_fin_wait_1_returns : handle_fin_wait_1_checked c clk seg = handle_fin_wait_1 c clk seg.
Proof using HI Hclk.
  unfold handle_fin_wait_1_checked, handle_fin_wait_1. cbv zeta.
  cbn [send_buf set_snd_una with_tcb retransmit_queue set_send_buf].
  rewrite SendBuffer_acknowledge_returns by apply HI.
  cbn [mbind Res_bind send_buf set_snd_una with_tcb retransmit_queue set_send_buf].
  destruct (acknowledge_ok (E:=MagnumError) (retransmit_queue c) (ack_num (header seg))
    (clock_ack clk) (ci_rtq _ HI) (proj1 Hclk)) as (rq & Erq & _).
  rewrite !Erq. cbn [mbind Res_bind].
  flag_cases seg; try destruct (ack_acceptable _ _ _); cbn [negb andb];
    try destruct (seq_le _ _); cbn [negb andb]; branch HS.
Qed.

Lemma established_ack_returns : established_ack_checked c clk seg = established_ack c clk seg.
Proof using HI Hclk.
  destruct (ack_acceptable (una c) (ack_num (header seg)) (nxt c)) eqn:Ha.
  - pose proof (established_ack_new c HI clk Hclk seg Ha) as (w & rq & E & Eg & _ & _ & Erq & _). rewrite E.
    unfold established_ack_checked. rewrite Ha, Eg. cbn [mbind Res_bind send_buf set_snd_una set_cwnd with_tcb].
    rewrite SendBuffer_acknowledge_returns by apply HI.
    cbn [mbind Res_bind retransmit_queue set_send_buf set_snd_una set_cwnd with_tcb]. by rewrite Erq.
  - unfold established_ack_checked, established_ack. rewrite Ha. destruct (_ && _)%bool; [|done].
    pose proof (dup_inv c HI) as HI1. set (c1 := set_dup_ack_count _ c) in *.
    destruct (dups c1 =? 3); [|by destruct (3 <? dups c1)].
    destruct (enter_fast_recovery_ok c1 HI1) as (-> & _). cbn [mbind Res_bind].
    rewrite fast_retransmit_returns; [done | exact HS | apply HI].
Qed.

Lemma receive_payload_returns : receive_payload_checked c seg = Ok (receive_payload c seg).
Proof using HI.
  pose proof (ci_recv _ HI) as Hr. unfold receive_payload_checked, receive_payload.
  destruct (recv_buf c) as [rb|]; [|done]. by rewrite RecvBuffer_insert_returns.
Qed.

Lemma established_data_returns :
  is_Some (recv_buf c) -> established_data_checked c seg = established_data c seg.
Proof using HI Hseg.
  intros Hrb. unfold established_data_checked, established_data. cbv zeta.
  assert (E : (if negb (len (payload seg) =? 0) then receive_payload_checked c seg else Ok c) =
    Ok (if negb (len (payload seg) =? 0) then receive_payload c seg else c))
    by (destruct (negb _); [apply receive_payload_returns | done]).
  rewrite E. cbn [mbind Res_bind]. clear E.
  set (c1 := if negb _ then receive_payload c seg else c).
  assert (HS1 : sendable c1)
    by (apply inv_sendable; unfold c1; destruct (negb _); [by apply inv_receive_payload | done]).
  clearbody c1. destruct (_ && _)%bool; [branch HS1 |]. destruct (flag_fin _); branch HS1.
Qed.
End Handlers.

Lemma handle_established_returns c clk seg :
  conn_inv c -> clock_ok clk -> seg_ok seg -> is_Some (recv_buf c) ->
  handle_established_checked c clk seg = handle_established c clk seg.
Proof.
  intros HI Hclk Hseg Hrb. unfold handle_established_checked, handle_established.
  destruct (flag_rst _); [done |].
  destruct (flag_ack _); cbn [mbind Res_bind]; [|by apply established_data_returns].
  rewrite established_ack_returns by done.
  pose proof (established_ack_ok c HI clk Hclk seg Hseg Hrb) as H.
  destruct (established_ack c clk seg) as [[c1 [r|]]| |]; try done; cbn [mbind Res_bind].
  destruct H as (HI1 & _ & _ & _ & Hrb1). by apply established_data_returns.
Qed.

Lemma process_segment_returns c clk seg :
  conn_inv c -> clock_ok clk -> seg_ok seg ->
  process_segment_checked c clk seg = process_segment c clk seg.
Proof.
  intros HI Hclk Hseg. pose proof (ci_sync _ HI) as Hrb.
  unfold process_segment_checked, process_segment. destruct (st c); try done.
  - by apply handle_listen_returns.
  - by apply handle_syn_sent_returns.
  - by apply handle_syn_received_returns.
  - by apply handle_established_returns.
  - by apply handle_fin_wait_1_returns.
  - by apply handle_fin_wait_2_returns.
  - by apply handle_time_wait_returns.
Qed.

(** *** The application's and the timers' side *)
Lemma next_segment_to_send_returns c max_payload now :
  conn_inv c -> 0 <= max_payload <= MSS ->
  next_segment_to_send_checked c max_payload now = Ok (next_segment_to_send c max_payload now).
Proof.
  intros HI Hm. unfold next_segment_to_send_checked, next_segment_to_send.
  set (win := Z.min (cw c) _). set (infl := wrapping_sub _ _).
  destruct (Z.leb_spec win infl); [done |]. rewrite u32_sub_returns by lia. cbn [mbind Res_bind].
  rewrite SendBuffer_next_segment_returns by (try apply HI; lia). cbn [mbind Res_bind].
  destruct (SendBuffer_next_segment _ _) as [[seq pl]|] eqn:E; [|done].
  apply next_segment_bound in E as (_ & Hb & Hl & _); [|apply HI | lia | apply HI].
  apply answer_data; [exact (inv_sendable c HI) | done | lia].
Qed.

Lemma zero_window_probe_returns c :
  conn_inv c -> zero_window_probe_checked c = Ok (zero_window_probe c).
Proof.
  intros HI. unfold zero_window_probe_checked, zero_window_probe. destruct (_ || _)%bool; [done |].
  rewrite SendBuffer_next_segment_returns by (try apply HI; lia). cbn [mbind Res_bind].
  destruct (SendBuffer_next_segment _ _) as [[seq pl]|] eqn:E; [|done].
  apply next_segment_bound in E as (_ & Hb & Hl & _); [|apply HI | lia | apply HI].
  apply answer_data; [exact (inv_sendable c HI) | done | unfold MSS; lia].
Qed.

Lemma build_all_returns c out :
  sendable c -> Forall (fun '(_, pl) => bytes_ok pl /\ len pl <= MSS) out ->
  build_all_checked c out =
    Ok (map (fun '(seq, pl) => SegmentBuilder_build (data_builder c F_PSH_ACK seq pl)) out).
Proof.
  intros Hs. induction 1 as [|[seq pl] out [Hb Hl] _ IH]; cbn [build_all_checked map]; [done |].
  rewrite build_data_returns by done. cbn [mbind Res_bind]. by rewrite IH.
Qed.

Lemma take_retransmits_returns c now :
  conn_inv c -> instant_ok now -> take_retransmits_checked c now = take_retransmits c now.
Proof.
  intros HI Hn. unfold take_retransmits_checked, take_retransmits.
  destruct (expired_ok (E:=MagnumError) (retransmit_queue c) now (ci_rtq _ HI) Hn) as (rq & -> & _).
  cbn [mbind Res_bind]. pose proof (rqw_entries _ (ci_rtq _ HI)) as He.
  set (out := map _ (List.filter _ _)).
  assert (Ho : Forall (fun '(_, pl) => bytes_ok pl /\ len pl <= MSS) out).
  { unfold out. apply Forall_map, Forall_filter_list. eapply Forall_impl; [exact He |]. by intros e []. }
  rewrite build_all_returns; [done | | done]. destruct out; exact (inv_sendable c HI).
Qed.

Lemma read_received_returns c buf :
  conn_inv c -> read_received_checked c buf = Ok (read_received c buf).
Proof.
  intros HI. pose proof (ci_recv _ HI) as Hr. unfold read_received_checked, read_received.
  destruct (recv_buf c) as [rb|]; [|done]. rewrite RecvBuffer_read_returns by done. cbn [mbind Res_bind].
  by destruct (RecvBuffer_read rb buf) as [[rb' buf'] n].
Qed.

Lemma initiate_close_returns c : conn_inv c -> initiate_close_checked c = Ok (initiate_close c).
Proof.
  intros HI%inv_sendable. unfold initiate_close_checked, initiate_close, build_fin_ack_checked.
  destruct (st c); try done; by rewrite build_ctl_returns.
Qed.

Lemma connect_returns c : conn_inv c -> connect_checked c = Ok (connect c).
Proof.
  intros HI%inv_sendable. unfold connect_checked, connect. destruct (negb _); [done |].
  by rewrite build_syn_returns.
Qed.

(** ** Runs *)
Lemma conn_step_returns c ev : conn_inv c -> event_ok ev -> conn_step_checked c ev = conn_step c ev.
Proof.
  intros HI Hev. destruct ev as [clk seg|data|mp now|buf|now| |now| |]; cbn [conn_step_checked conn_step event_ok] in *.
  - destruct Hev. by rewrite process_segment_returns.
  - unfold write_data_checked, write_data. rewrite SendBuffer_write_returns by apply HI.
    by destruct (SendBuffer_write _ _).
  - destruct Hev. rewrite next_segment_to_send_returns by done. by destruct (next_segment_to_send c mp now).
  - rewrite read_received_returns by done. by destruct (read_received c buf) as [[? ?] ?].
  - by apply take_retransmits_returns.
  - rewrite initiate_close_returns by done. by destruct (initiate_close c).
  - done.
  - rewrite connect_returns by done. by destruct (connect c).
  - rewrite zero_window_probe_returns by done. by destruct (zero_window_probe c).
Qed.

Lemma conn_run_returns evs : forall c,
  conn_inv c -> Forall event_ok evs -> conn_run_checked c evs = conn_run c evs.
Proof.
  induction evs as [|ev evs IH]; intros c HI Hev; cbn [conn_run_checked conn_run]; [done |].
  apply Forall_cons in Hev as [Hev Hevs]. rewrite conn_step_returns by done.
  pose proof (conn_step_ok c ev HI Hev) as H1.
  destruct (conn_step c ev) as [[c1 out]| |]; cbn [mbind Res_bind]; try done.
  destruct H1 as (HI1 & _). by rewrite IH.
Qed.

(** C5. A connection never fails: from its construction, through any sequence of
    segments, application calls, timeouts and clock readings, no operation returns
    an error or panics: no index or slice of the rings, of the payload or of a segment
    being built is out of range, no subtraction of lengths underflows, no addition of
    the checksum or of the windows overflows, no [unwrap] meets [None], no division
    is by zero. The code so checked does what the total functions of Connection
    do, the invariant holds at the end, and every segment sent carries a correct checksum
    and the connection's own ports. *)
Theorem Connection_never_fails t evs :
  fresh_tcb t -> state t = Listen \/ state t = Closed -> Forall event_ok evs ->
  exists c outs, conn_run_checked (Connection_new t) evs = Ok (c, outs) /\
    conn_run (Connection_new t) evs = Ok (c, outs) /\
    conn_inv c /\ Forall (parses_at_peer t) outs.
Proof.
  intros Ht Hst Hev. pose proof (conn_inv_new t Ht Hst) as HI0.
  rewrite conn_run_returns by done. pose proof (conn_run_ok evs _ HI0 Hev) as H.
  destruct (conn_run _ evs) as [[c outs]| |]; try done. destruct H as (HI & _ & Ho).
  exists c, outs. split; [done |]. split; [done |]. split; [done |].
  eapply Forall_impl; [exact Ho |]. intros raw. exact (emits_parses (Connection_new t) raw).
Qed.

Lemma Connection_never_fails_witness :
  exists c outs, conn_run_checked (Connection_new demo_tcb) demo_events = Ok (c, outs) /\
    conn_run (Connection_new demo_tcb) demo_events = Ok (c, outs) /\
    conn_inv c /\ Forall (parses_at_peer demo_tcb) outs.
Proof.
  exact (Connection_never_fails demo_tcb demo_events demo_tcb_fresh (or_introl eq_refl) demo_events_ok).
Defined.
