(* ===== verification/UnitTests.v ===== *)
(** * The unit tests of the formats (the [mod tests] of tcp/tcb.rs, ipv4.rs,
    ethernet.rs, arp.rs, tcp/header.rs, pcap.rs and chaos.rs)

    A test of the repository is a computation that panics when an assertion fails, and
    so is its translation here, one definition per test or test helper. That the
    definitions of this library pass them is checked by evaluation: it ties the model
    to what the authors of the code expect of it. Only
    [ten_percent_drop_rate_is_approximate], ten thousand frames through a binary64
    division in software, is too long for the kernel and left unevaluated. *)
From S2P Require Import Prelude Errors Tcb Checksum Ipv4 Ethernet Arp Header Float64 Retransmit Chaos Pcap Http.
From Stdlib Require String.
Import String.StringSyntax.

(** ** The vocabulary of tests *)
(** [assert!], [assert_eq!] and the [unwrap] of a [Result]. *)
Definition assert (b : bool) : Fallible unit := if b then Ok tt else Panic.
Definition assert_eq {A} `{EqDecision A} (a b : A) : Fallible unit := assert (bool_decide (a = b)).
Definition unwrap_ok {E A} (r : Res E A) : Fallible A := match r with Ok a => Ok a | _ => Panic end.

(** [&a[from..to]] and [a[i] = b]. *)
Definition sub_slice (a : list Z) (from to : nat) : list Z := take (to - from) (drop from a).
Definition set_byte (a : list Z) (i : nat) (b : Z) : list Z := <[i := b]> a.

Definition passes (t : Fallible unit) : Prop := t = Ok tt.

Ltac run_tests := repeat (apply Forall_cons; split; [by vm_compute |]); apply Forall_nil_2.

(** ** tcp/tcb.rs *)
Definition seq_lt_normal : Fallible unit :=
  assert (seq_lt 0 1);; assert (seq_lt 100 200);;
  assert (negb (seq_lt 200 100));; assert (negb (seq_lt 5 5)).

Definition seq_lt_wraparound : Fallible unit :=
  let MAX := U32 - 1 in
  assert (seq_lt (MAX - 1) 1);; assert (seq_lt MAX 0);; assert (negb (seq_lt 1 (MAX - 1))).

Definition seq_le_includes_equal : Fallible unit :=
  assert (seq_le 5 5);; assert (seq_le 4 5);; assert (negb (seq_le 6 5)).

Definition ack_acceptable_valid_range : Fallible unit :=
  assert (ack_acceptable 100 150 200);; assert (ack_acceptable 100 101 200);;
  assert (ack_acceptable 100 200 200).

Definition ack_acceptable_rejects_out_of_range : Fallible unit :=
  assert (negb (ack_acceptable 100 100 200));; assert (negb (ack_acceptable 100 201 200));;
  assert (negb (ack_acceptable 100 50 200)).

(** ** ipv4.rs *)
Definition valid_ipv4_header (protocol payload_len : Z) : list Z :=
  let total_len := IPV4_MIN_HEADER_LEN + payload_len in
  let hdr := [69; 0; as_u8 (Z.shiftr total_len 8); as_u8 total_len; 0; 1; 64; 0; 64; protocol; 0; 0;
              192; 168; 1; 1; 10; 0; 0; 1] in
  let csum := checksum hdr in
  let hdr := set_byte hdr 10 (as_u8 (Z.shiftr csum 8)) in
  set_byte hdr 11 (as_u8 csum).

Definition parses_valid_header : Fallible unit :=
  let pkt := valid_ipv4_header PROTO_TCP 4 ++ [222; 173; 190; 239] in
  parsed ← unwrap_ok (Ipv4Packet_parse pkt);
  assert_eq (ip_protocol (ip_header parsed)) PROTO_TCP;;
  assert_eq (ip_src (ip_header parsed)) [192; 168; 1; 1];;
  assert_eq (ip_dst (ip_header parsed)) [10; 0; 0; 1];;
  assert_eq (ip_payload parsed) [222; 173; 190; 239].

Definition rejects_bad_checksum : Fallible unit :=
  let pkt := valid_ipv4_header PROTO_TCP 0 in
  let pkt := set_byte pkt 10 (Z.lxor (nth 10 pkt 0) 255) in
  assert (match Ipv4Packet_parse pkt with Err (Ipv4ChecksumMismatch _ _) => true | _ => false end).

Definition rejects_too_short : Fallible unit :=
  assert (match Ipv4Packet_parse (zeroed 10) with Err (Ipv4HeaderTooShort _ _) => true | _ => false end).

Definition rejects_small_ihl : Fallible unit :=
  let pkt := valid_ipv4_header PROTO_TCP 0 in
  let pkt := set_byte pkt 0 (Z.lor (Z.land (nth 0 pkt 0) 240) 3) in
  assert (match Ipv4Packet_parse pkt with Err (Ipv4IhlTooSmall 3) => true | _ => false end).

Definition checksum_of_valid_header_is_zero : Fallible unit :=
  assert_eq (checksum (valid_ipv4_header PROTO_ICMP 0)) 0.

Definition checksum_known_value : Fallible unit :=
  let data := [69; 0; 0; 60; 28; 70; 64; 0; 64; 6; 0; 0; 172; 16; 10; 99; 172; 16; 10; 12] in
  let csum := checksum data in
  let v := set_byte data 10 (as_u8 (Z.shiftr csum 8)) in
  assert_eq (checksum (set_byte v 11 (as_u8 csum))) 0.

(** ** ethernet.rs *)
Definition make_frame (ethertype : Z) (payload : list Z) : list Z :=
  zeroed 12 ++ [as_u8 (Z.shiftr ethertype 8); as_u8 ethertype] ++ payload.

Definition accepts_ipv4 : Fallible unit :=
  parsed ← unwrap_ok (EthernetFrame_parse (make_frame ETHERTYPE_IPV4 [222; 173]));
  assert_eq (ethertype parsed) ETHERTYPE_IPV4;;
  assert_eq (eth_payload parsed) [222; 173].

Definition drops_arp : Fallible unit :=
  assert (match EthernetFrame_parse (make_frame 2054 []) with
          | Err (NonIpv4EtherType 2054) => true | _ => false end).

Definition drops_ipv6 : Fallible unit :=
  assert (match EthernetFrame_parse (make_frame 34525 []) with
          | Err (NonIpv4EtherType 34525) => true | _ => false end).

Definition too_short : Fallible unit :=
  assert (match EthernetFrame_parse (zeroed 10) with
          | Err (EthernetFrameTooShort _ _) => true | _ => false end).

(** ** arp.rs *)
Definition make_arp_request_frame (sender_mac sender_ip target_ip : list Z) : list Z :=
  zeroed 12 ++ ETHERTYPE_ARP ++ HTYPE_ETHERNET ++ PTYPE_IPV4 ++ [HLEN_MAC; PLEN_IP] ++ OPER_REQUEST ++
  sender_mac ++ sender_ip ++ zeroed 6 ++ target_ip.

Definition parse_valid_arp_request : Fallible unit :=
  let mac := [170; 187; 204; 221; 238; 255] in
  let sender_ip := [10; 0; 0; 1] in
  let target_ip := [192; 168; 100; 2] in
  req ← parse_arp_request (make_arp_request_frame mac sender_ip target_ip);
  req ← unwrap req;
  assert_eq (sender_mac req) mac;; assert_eq (Arp.sender_ip req) sender_ip;;
  assert_eq (Arp.target_ip req) target_ip.

Definition reject_arp_reply_as_not_request : Fallible unit :=
  let frame := make_arp_request_frame (zeroed 6) (zeroed 4) (zeroed 4) in
  let frame := take 20 frame ++ OPER_REPLY ++ drop 22 frame in
  req ← parse_arp_request frame;
  assert (match req with None => true | Some _ => false end).

Definition arp_reply_frame_has_correct_fields : Fallible unit :=
  let our_mac := [10; 177; 233; 0; 0; 1] in
  let our_ip := [192; 168; 100; 2] in
  let req_mac := [170; 187; 204; 221; 238; 255] in
  let req_ip := [10; 0; 0; 1] in
  reply ← build_arp_reply_frame our_mac our_ip req_mac req_ip;
  assert_eq (len reply) ARP_FRAME_LEN;;
  assert_eq (sub_slice reply 0 6) req_mac;; assert_eq (sub_slice reply 6 12) our_mac;;
  assert_eq (sub_slice reply 12 14) ETHERTYPE_ARP;;
  let arp := drop 14 reply in
  assert_eq (sub_slice arp 6 8) OPER_REPLY;; assert_eq (sub_slice arp 8 14) our_mac;;
  assert_eq (sub_slice arp 14 18) our_ip;; assert_eq (sub_slice arp 18 24) req_mac;;
  assert_eq (sub_slice arp 24 28) req_ip.

(** ** tcp/header.rs *)
Definition CLIENT_IP : list Z := [10; 0; 0; 1].
Definition SERVER_IP : list Z := [192; 168; 100; 2].
Definition CLIENT_PORT : Z := 54321.
Definition SERVER_PORT : Z := 80.

(** [TcpFlags { syn: true, ..TcpFlags::default() }] and the other ones of the tests. *)
Definition SYN : TcpFlags := mkTcpFlags false false false false true false.
Definition ACK : TcpFlags := mkTcpFlags false true false false false false.
Definition SYN_ACK : TcpFlags := mkTcpFlags false true false false true false.
Definition PSH_ACK : TcpFlags := mkTcpFlags false true true false false false.
Definition FIN_ACK : TcpFlags := mkTcpFlags false true false false false true.
Definition RST : TcpFlags := mkTcpFlags false false false true false false.

Definition header_build_syn (seq : Z) : list Z :=
  SegmentBuilder_build (SegmentBuilder_flags SYN (SegmentBuilder_seq seq
    (SegmentBuilder_new CLIENT_IP SERVER_IP CLIENT_PORT SERVER_PORT))).

Definition flags_roundtrip : Fallible unit :=
  let original := SYN_ACK in
  let decoded := TcpFlags_from_byte (TcpFlags_to_byte original) in
  assert_eq (flag_ack decoded) (flag_ack original);;
  assert_eq (flag_syn decoded) (flag_syn original);;
  assert (negb (flag_rst decoded));; assert (negb (flag_fin decoded)).

Definition parse_valid_syn : Fallible unit :=
  seg ← unwrap_ok (TcpSegment_parse (header_build_syn 1000) CLIENT_IP SERVER_IP);
  assert_eq (src_port (header seg)) CLIENT_PORT;; assert_eq (dst_port (header seg)) SERVER_PORT;;
  assert_eq (seq_num (header seg)) 1000;;
  assert (flag_syn (flags (header seg)));; assert (negb (flag_ack (flags (header seg))));;
  assert_eq (payload seg) [].

Definition reject_bad_checksum : Fallible unit :=
  let raw := header_build_syn 500 in
  let raw := set_byte raw 16 (Z.lxor (nth 16 raw 0) 255) in
  assert (match TcpSegment_parse raw CLIENT_IP SERVER_IP with
          | Err (TcpChecksumMismatch _ _) => true | _ => false end).

Definition reject_too_short : Fallible unit :=
  assert (match TcpSegment_parse (zeroed 10) CLIENT_IP SERVER_IP with
          | Err (TcpHeaderTooShort _ _) => true | _ => false end).

Definition reject_small_data_offset : Fallible unit :=
  let raw := set_byte (header_build_syn 0) 12 48 in
  assert (match TcpSegment_parse raw CLIENT_IP SERVER_IP with
          | Err (TcpDataOffsetTooSmall 3) => true | _ => false end).

Definition syn_ack_has_valid_checksum : Fallible unit :=
  let syn_ack := SegmentBuilder_build (SegmentBuilder_flags SYN_ACK (SegmentBuilder_ack 1001
    (SegmentBuilder_seq 9999 (SegmentBuilder_new SERVER_IP CLIENT_IP SERVER_PORT CLIENT_PORT)))) in
  assert_eq (tcp_checksum syn_ack SERVER_IP CLIENT_IP) 0.

Definition checksum_verify_over_syn : Fallible unit :=
  assert_eq (tcp_checksum (header_build_syn 42) CLIENT_IP SERVER_IP) 0.

Definition owned_roundtrip_preserves_fields : Fallible unit :=
  seg ← unwrap_ok (TcpSegment_parse (header_build_syn 1234) CLIENT_IP SERVER_IP);
  let back := TcpSegmentOwned_as_seg (TcpSegmentOwned_from seg) in
  assert_eq (src_port (header back)) CLIENT_PORT;; assert_eq (dst_port (header back)) SERVER_PORT;;
  assert_eq (seq_num (header back)) 1234;;
  assert (flag_syn (flags (header back)));; assert_eq (payload back) [].

(** ** pcap.rs *)
(** What the system clock says is of no consequence to these tests. *)
Definition a_time : Z * Z := (1700000000, 250000).
Definition write_now (pw : PcapWriter) (data : list Z) : PcapWriter :=
  write_packet pw data (fst a_time) (snd a_time).

Definition u32_at (buf : list Z) (i : nat) : Z :=
  u32_from_le (nth i buf 0) (nth (i + 1) buf 0) (nth (i + 2) buf 0) (nth (i + 3) buf 0).

Definition global_header_magic_and_version : Fallible unit :=
  let buf := written_bytes (PcapWriter_new LINKTYPE_ETHERNET) in
  assert_eq (len buf) 24;;
  assert_eq (sub_slice buf 0 4) (u32_to_le PCAP_MAGIC_LE);;
  assert_eq (sub_slice buf 4 6) (u16_to_le 2);; assert_eq (sub_slice buf 6 8) (u16_to_le 4);;
  assert_eq (sub_slice buf 20 24) (u32_to_le LINKTYPE_ETHERNET).

Definition packet_record_length_and_payload : Fallible unit :=
  let data := lit "hello pcap" in
  let buf := written_bytes (write_now (PcapWriter_new LINKTYPE_ETHERNET) data) in
  let record := drop 24 buf in
  assert_eq (u32_at record 8) (as_u32 (len data));; assert_eq (u32_at record 12) (as_u32 (len data));;
  assert_eq (drop 16 record) data.

Definition two_packets_appended_sequentially : Fallible unit :=
  let pw := write_now (PcapWriter_new LINKTYPE_IPV4) (lit "first") in
  let buf := written_bytes (write_now pw (lit "second")) in
  let first_start := 24%nat in
  let first_len := u32_at buf (first_start + 8) in
  let second_start := (first_start + 16 + Z.to_nat first_len)%nat in
  let second_len := u32_at buf (second_start + 8) in
  assert_eq first_len 5;; assert_eq second_len 6;;
  assert_eq (sub_slice buf (first_start + 16) (first_start + 16 + Z.to_nat first_len)) (lit "first");;
  assert_eq (sub_slice buf (second_start + 16) (second_start + 16 + Z.to_nat second_len)) (lit "second").

Definition linktype_ipv4_in_header : Fallible unit :=
  assert_eq (u32_at (written_bytes (PcapWriter_new LINKTYPE_IPV4)) 20) LINKTYPE_IPV4.

(** ** chaos.rs *)
(** The loops of the tests: [n] frames, each given what the previous ones left, and
    the number of frames that came out; [check] looks at each result. *)
Fixpoint intercepts (n : nat) (chaos : ChaosMiddleware) (packet : list Z) (now : Z)
    (check : list (list Z) -> Fallible unit) : Fallible Z :=
  match n with
  | O => Ok 0
  | S n =>
      '(chaos, out) ← intercept chaos packet now;
      check out;;
      passed ← intercepts n chaos packet now check;
      Ok (len out + passed)
  end.

(** The literals 1.0, 0.1 and 0.0. *)
Definition rate_1 : f64 := f64_of_u64 1.
Definition rate_0_1 : f64 := f64_div (f64_of_u64 1) (f64_of_u64 10).

Definition zero_drop_rate_passes_all : Fallible unit :=
  intercepts 100 (ChaosMiddleware_new ChaosConfig_none) [1; 2; 3] 1000000000
    (fun out => assert_eq (len out) 1);;
  Ok tt.

Definition full_drop_rate_drops_all : Fallible unit :=
  intercepts 100 (ChaosMiddleware_new (mkChaosConfig rate_1 f64_0 0)) [1; 2; 3] 1000000000
    (fun out => assert_eq out []);;
  Ok tt.

Definition ten_percent_drop_rate_is_approximate : Fallible unit :=
  passed ← intercepts (Z.to_nat 10000) (ChaosMiddleware_new (ChaosConfig_packet_loss rate_0_1)) [1] 1000000000
    (fun _ => Ok tt);
  assert ((8700 <? passed) && (passed <? 9300)).

Definition reordered_packets_released_when_time_advances : Fallible unit :=
  let chaos := ChaosMiddleware_new (mkChaosConfig f64_0 rate_1 100) in
  let t0 := 1000000000 in
  '(chaos, _) ← intercept chaos [1] t0;
  '(chaos, _) ← intercept chaos [2] t0;
  let '(chaos, early) := flush_ready chaos t0 in
  assert_eq early [];;
  let '(_, late) := flush_ready chaos (t0 + from_millis 200) in
  assert_eq (len late) 2.

(** ** They pass *)
Example tcb_tests : Forall passes
  [seq_lt_normal; seq_lt_wraparound; seq_le_includes_equal; ack_acceptable_valid_range;
   ack_acceptable_rejects_out_of_range].
Proof. run_tests. Qed.

Example ipv4_tests : Forall passes
  [parses_valid_header; rejects_bad_checksum; rejects_too_short; rejects_small_ihl;
   checksum_of_valid_header_is_zero; checksum_known_value].
Proof. run_tests. Qed.

Example ethernet_tests : Forall passes [accepts_ipv4; drops_arp; drops_ipv6; too_short].
Proof. run_tests. Qed.

Example arp_tests : Forall passes
  [parse_valid_arp_request; reject_arp_reply_as_not_request; arp_reply_frame_has_correct_fields].
Proof. run_tests. Qed.

Example header_tests : Forall passes
  [flags_roundtrip; parse_valid_syn; reject_bad_checksum; reject_too_short; reject_small_data_offset;
   syn_ack_has_valid_checksum; checksum_verify_over_syn; owned_roundtrip_preserves_fields].
Proof. run_tests. Qed.

Example pcap_tests : Forall passes
  [global_header_magic_and_version; packet_record_length_and_payload;
   two_packets_appended_sequentially; linktype_ipv4_in_header].
Proof. run_tests. Qed.

Example chaos_tests : Forall passes
  [zero_drop_rate_passes_all; full_drop_rate_drops_all;
   reordered_packets_released_when_time_advances].
Proof. run_tests. Qed.
