(* ===== verification/BufferTests.v ===== *)
(** * The unit tests of the buffers (the [mod tests] of tcp/send_buffer.rs,
    tcp/recv_buffer.rs and tcp/retransmit.rs)

    One definition per test, as in UnitTests.v. A test that sleeps reads the clock
    again after the time it slept. The two tests that fill the send buffer are derived
    from its theory. The two large transfers of recv_buffer.rs are too long for the
    kernel to evaluate ([large_transfer_out_of_order] is written down,
    [large_transfer_in_order], which moves a megabyte, is not): the theorem
    [RecvBuffer_delivers_prefix] covers both. *)
From S2P Require Import Prelude Errors Tcb Ring SendBuffer RecvBuffer Float64 Retransmit Http UnitTests.
From Stdlib Require String.
Import String.StringSyntax.

(** ** tcp/send_buffer.rs *)
Definition write_and_read_single_segment : Fallible unit :=
  let sb := SendBuffer_new 0 in
  let '(sb, _) := SendBuffer_write sb (lit "hello") in
  '(seq, data) ← unwrap (SendBuffer_next_segment sb 1024);
  assert_eq seq 1;; assert_eq data (lit "hello").

Definition acknowledge_advances_una : Fallible unit :=
  let sb := SendBuffer_new 0 in
  let '(sb, _) := SendBuffer_write sb (lit "hello") in
  '(seq, data) ← unwrap (SendBuffer_next_segment sb 1024);
  let sb := SendBuffer_advance_nxt sb (len data) in
  let sb := SendBuffer_acknowledge sb (wrapping_add seq (as_u32 (len data))) in
  assert (match SendBuffer_next_segment sb 1024 with None => true | Some _ => false end);;
  assert (SendBuffer_is_empty sb).

Definition partial_acknowledge : Fallible unit :=
  let sb := SendBuffer_new 0 in
  let '(sb, _) := SendBuffer_write sb (lit "helloworld") in
  '(seq, data) ← unwrap (SendBuffer_next_segment sb 5);
  assert_eq data (lit "hello");;
  let sb := SendBuffer_advance_nxt sb 5 in
  let sb := SendBuffer_acknowledge sb (wrapping_add seq 5) in
  '(seq2, data2) ← unwrap (SendBuffer_next_segment sb 1024);
  assert_eq data2 (lit "world");;
  let sb := SendBuffer_advance_nxt sb 5 in
  let sb := SendBuffer_acknowledge sb (wrapping_add seq2 5) in
  assert (SendBuffer_is_empty sb).

Definition respects_max_len : Fallible unit :=
  let sb := SendBuffer_new 99 in
  let '(sb, _) := SendBuffer_write sb (lit "abcdefgh") in
  '(_, data) ← unwrap (SendBuffer_next_segment sb 4);
  assert_eq data (lit "abcd").

Definition write_respects_capacity : Fallible unit :=
  let sb := SendBuffer_new 0 in
  let big := zeroed (SEND_BUF_SIZE + 100) in
  let '(_, n) := SendBuffer_write sb big in
  assert_eq n SEND_BUF_SIZE.

(** [vec![b; n]] *)
Definition filled (b n : Z) : list Z := repeat b (Z.to_nat n).

Definition wraparound_write : Fallible unit :=
  let sb := SendBuffer_new 0 in
  let half := filled 97 (SEND_BUF_SIZE / 2) in
  let '(sb, _) := SendBuffer_write sb half in
  '(seq, data) ← unwrap (SendBuffer_next_segment sb (SEND_BUF_SIZE / 2));
  let sb := SendBuffer_advance_nxt sb (len data) in
  let sb := SendBuffer_acknowledge sb (wrapping_add seq (as_u32 (len data))) in
  let second := filled 98 (SEND_BUF_SIZE / 2 + 10) in
  let '(sb, written) := SendBuffer_write sb second in
  assert_eq written (SEND_BUF_SIZE / 2 + 10);;
  '(_, seg) ← unwrap (SendBuffer_next_segment sb SEND_BUF_SIZE);
  assert_eq (len seg) (SEND_BUF_SIZE / 2 + 10);;
  assert (forallb (fun b => b =? 98) seg).

Definition seq_starts_after_iss : Fallible unit :=
  let sb := SendBuffer_new 999 in
  let '(sb, _) := SendBuffer_write sb (lit "x") in
  '(seq, _) ← unwrap (SendBuffer_next_segment sb 1);
  assert_eq seq 1000;; assert_eq (s_una sb) 1000.

(** ** tcp/recv_buffer.rs *)
Definition in_order_insert_and_read : Fallible unit :=
  let rb := RecvBuffer_new 0 in
  let rb := RecvBuffer_insert rb 1 (lit "hello") in
  assert_eq (RecvBuffer_available rb) 5;;
  let '(rb, out, n) := RecvBuffer_read rb (zeroed 5) in
  assert_eq n 5;; assert_eq out (lit "hello");; assert (RecvBuffer_is_empty rb).

Definition out_of_order_reassembly : Fallible unit :=
  let rb := RecvBuffer_new 0 in
  let rb := RecvBuffer_insert rb 6 (lit "world") in
  assert_eq (RecvBuffer_available rb) 0;;
  let rb := RecvBuffer_insert rb 1 (lit "hello") in
  assert_eq (RecvBuffer_available rb) 10;;
  let '(rb, out, n) := RecvBuffer_read rb (zeroed 10) in
  assert_eq n 10;; assert_eq out (lit "helloworld").

Definition next_expected_advances : Fallible unit :=
  let rb := RecvBuffer_new 99 in
  assert_eq (RecvBuffer_next_expected rb) 100;;
  let rb := RecvBuffer_insert rb 100 (lit "abc") in
  assert_eq (RecvBuffer_next_expected rb) 103.

Definition window_shrinks_as_buffer_fills : Fallible unit :=
  let rb := RecvBuffer_new 0 in
  assert_eq (RecvBuffer_window rb) (U16 - 1);;
  let rb := RecvBuffer_insert rb 1 (zeroed 1000) in
  assert_eq (RecvBuffer_window rb) (RECV_BUF_SIZE - 1000).

Definition partial_read : Fallible unit :=
  let rb := RecvBuffer_new 0 in
  let rb := RecvBuffer_insert rb 1 (lit "helloworld") in
  let '(rb, out, n) := RecvBuffer_read rb (zeroed 5) in
  assert_eq n 5;; assert_eq out (lit "hello");; assert_eq (RecvBuffer_available rb) 5;;
  let '(rb, out2, n2) := RecvBuffer_read rb (zeroed 5) in
  assert_eq n2 5;; assert_eq out2 (lit "world").

(** [(0..255u8).cycle().take(n)], and [chunks(size)] numbered from [seq] on. *)
Definition cycle_take (n : Z) : list Z := map (fun i => i mod 255) (seqZ 0 n).

Fixpoint numbered_chunks (fuel size : nat) (seq : Z) (l : list Z) : list (Z * list Z) :=
  match fuel, l with
  | S f, _ :: _ =>
      let chunk := take size l in
      (seq, chunk) :: numbered_chunks f size (wrapping_add seq (as_u32 (len chunk))) (drop size l)
  | _, _ => []
  end.

(** [step_by(2)] *)
Fixpoint every_other {A} (l : list A) : list A :=
  match l with x :: _ :: l' => x :: every_other l' | l => l end.

Definition insert_all (rb : RecvBuffer) (chunks : list (Z * list Z)) : RecvBuffer :=
  fold_left (fun rb '(seq, data) => RecvBuffer_insert rb seq data) chunks rb.

Definition large_transfer_out_of_order : Fallible unit :=
  let payload := cycle_take 4096 in
  let chunks := numbered_chunks (length payload) 256 1 payload in
  let rb := RecvBuffer_new 0 in
  let rb := insert_all rb (every_other chunks) in
  let rb := insert_all rb (every_other (drop 1 chunks)) in
  let '(rb, out, n) := RecvBuffer_read rb (zeroed 4096) in
  assert_eq n 4096;; assert_eq out payload.

Definition duplicate_segment_ignored : Fallible unit :=
  let rb := RecvBuffer_new 0 in
  let rb := RecvBuffer_insert rb 1 (lit "hello") in
  let rb := RecvBuffer_insert rb 1 (lit "hello") in
  assert_eq (RecvBuffer_available rb) 5.

Definition partial_overlap_trimmed : Fallible unit :=
  let rb := RecvBuffer_new 0 in
  let rb := RecvBuffer_insert rb 1 (lit "hello") in
  let rb := RecvBuffer_insert rb 4 (lit "loworld") in
  assert_eq (RecvBuffer_available rb) 10;;
  let '(rb, out, _) := RecvBuffer_read rb (zeroed 10) in
  assert_eq out (lit "helloworld").

(** ** tcp/retransmit.rs *)
(** [Instant::now()] at the start of a test, and after a sleep. *)
Definition t0 : Z := from_secs 100.
Definition after_millis (ms : Z) : Z := t0 + from_millis ms.

Definition with_rto (rq : RetransmitQueue) (rto : Z) : RetransmitQueue :=
  mkRetransmitQueue (entries rq) rto (srtt rq) (rttvar rq).

Definition push_and_acknowledge_removes_entry : Fallible unit :=
  let rq := RetransmitQueue_push RetransmitQueue_new 1000 (lit "hello") t0 in
  assert_eq (RetransmitQueue_len rq) 1;;
  rq ← acknowledge_and_sample_rtt rq 1005 t0;
  assert (RetransmitQueue_is_empty rq).

Definition partial_ack_keeps_entry : Fallible unit :=
  let rq := RetransmitQueue_push RetransmitQueue_new 1000 (lit "hello world") t0 in
  rq ← acknowledge_and_sample_rtt rq 1005 t0;
  assert_eq (RetransmitQueue_len rq) 1;;
  rq ← acknowledge_and_sample_rtt rq 1011 t0;
  assert (RetransmitQueue_is_empty rq).

Definition first_unacked_returns_first_entry : Fallible unit :=
  let rq := RetransmitQueue_push RetransmitQueue_new 100 (lit "abc") t0 in
  let rq := RetransmitQueue_push rq 103 (lit "def") t0 in
  '(seq, data) ← unwrap (first_unacked rq);
  assert_eq seq 100;; assert_eq data (lit "abc").

Definition expired_segments_returns_timed_out_entries : Fallible unit :=
  let rq := with_rto RetransmitQueue_new 1 in
  let rq := RetransmitQueue_push rq 500 (lit "data") t0 in
  '(rq, expired) ← expired_segments rq (after_millis 1);
  assert_eq expired [(500, lit "data")].

Definition rto_doubles_on_retransmit : Fallible unit :=
  let rq := with_rto RetransmitQueue_new (from_millis 1) in
  let rq := RetransmitQueue_push rq 1 (lit "x") t0 in
  '(rq, _) ← expired_segments rq (after_millis 2);
  assert_eq (rto rq) (from_millis 2).

Definition multiple_entries_independently_acknowledged : Fallible unit :=
  let rq := RetransmitQueue_push RetransmitQueue_new 100 (lit "aaa") t0 in
  let rq := RetransmitQueue_push rq 103 (lit "bbb") t0 in
  let rq := RetransmitQueue_push rq 106 (lit "ccc") t0 in
  rq ← acknowledge_and_sample_rtt rq 103 t0;
  assert_eq (RetransmitQueue_len rq) 2;;
  rq ← acknowledge_and_sample_rtt rq 109 t0;
  assert (RetransmitQueue_is_empty rq).

(** ** The tests that fill the ring *)
(** They follow from the theory of the buffer, by the life of one that is [idle]: empty,
    with nothing in flight. *)
Record idle (sb : SendBuffer) : Prop := {
  idle_wf : send_wf sb;
  idle_len : s_len sb = 0;
  idle_nxt : s_nxt sb = s_una sb }.

Lemma idle_new iss : idle (SendBuffer_new iss).
Proof. split; [apply send_wf_new | done | done]. Qed.

Lemma idle_write sb data max_len :
  idle sb -> 0 < len data <= SEND_BUF_SIZE -> len data <= max_len ->
  exists sb', SendBuffer_write sb data = (sb', len data) /\ send_wf sb' /\
    s_len sb' = len data /\ s_una sb' = s_una sb /\ s_nxt sb' = s_una sb /\
    SendBuffer_next_segment sb' max_len = Some (s_una sb, data).
Proof.
  intros [Hw Hl Hn] Hd Hm. pose proof (send_wf_write sb data Hw) as Hw'.
  pose proof (s_contents_write sb data Hw) as (Hc & E & Hl').
  assert (H0 : s_contents sb = []) by (apply length_zero_iff_nil; pose proof (len_s_contents sb Hw); unfold len in *; lia).
  assert (Hu : s_una (fst (SendBuffer_write sb data)) = s_una sb) by reflexivity.
  assert (Hx : s_nxt (fst (SendBuffer_write sb data)) = s_una sb) by (rewrite <- Hn; reflexivity).
  destruct (SendBuffer_write sb data) as [sb' n]. cbn [fst snd] in *.
  replace (Z.min (len data) (SEND_BUF_SIZE - s_len sb)) with (len data) in * by lia.
  exists sb'. split_and!; try done; [by rewrite E | lia |].
  assert (Hi : s_inflight sb' = 0) by (unfold s_inflight; rewrite Hx, Hu; word_lia).
  rewrite next_segment_contents by (try done; lia). cbv zeta. rewrite Hi, Hl', Hl, Hx, Hc, H0.
  cbn [app Z.to_nat drop]. replace (Z.min (0 + len data - 0) max_len) with (len data) by lia.
  replace (0 <? len data) with true by lia.
  assert (Ht : take (Z.to_nat (len data)) data = data) by (apply take_ge; unfold len; lia).
  rewrite Ht. change (drop (Z.to_nat 0) data) with data. by rewrite Ht.
Qed.

Lemma idle_again sb n :
  send_wf sb -> s_len sb = n -> 0 < n -> s_nxt sb = s_una sb ->
  idle (SendBuffer_acknowledge (SendBuffer_advance_nxt sb n) (wrapping_add (s_una sb) (as_u32 n))).
Proof.
  intros Hw Hl Hn Hx. pose proof (sw_len _ Hw) as Hr. pose proof (sw_una _ Hw) as Hu.
  assert (Hk : wrapping_sub (wrapping_add (s_una sb) (as_u32 n)) (s_una sb) = n).
  { unfold SEND_BUF_SIZE in *. word_lia. }
  split.
  - apply send_wf_acknowledge; [by apply send_wf_advance | apply as_u32_range].
  - unfold SendBuffer_acknowledge. cbn [SendBuffer_advance_nxt s_una s_len]. rewrite Hk, Hl.
    replace (n =? 0) with false by lia. rewrite Z.ltb_irrefl. cbn [orb s_len]. lia.
  - unfold SendBuffer_acknowledge. cbn [SendBuffer_advance_nxt s_una s_len]. rewrite Hk, Hl.
    replace (n =? 0) with false by lia. rewrite Z.ltb_irrefl. cbn [orb s_nxt s_una SendBuffer_advance_nxt].
    by rewrite Hx.
Qed.

Lemma assert_eq_refl {A} `{EqDecision A} (a : A) : assert_eq a a = Ok tt.
Proof. unfold assert_eq. by rewrite bool_decide_true. Qed.

Lemma len_filled b n : 0 <= n -> len (filled b n) = n.
Proof. intros. unfold filled, len. rewrite repeat_length. lia. Qed.

Lemma write_respects_capacity_passes : passes write_respects_capacity.
Proof.
  unfold passes, write_respects_capacity. pose proof (len_zeroed (SEND_BUF_SIZE + 100) ltac:(done)) as Hl.
  destruct (s_contents_write (SendBuffer_new 0) (zeroed (SEND_BUF_SIZE + 100)) (send_wf_new 0)) as (_ & Hn & _).
  revert Hn. rewrite Hl. destruct (SendBuffer_write _ _) as [sb n]. cbn [snd]. intros ->.
  apply assert_eq_refl.
Qed.

Lemma wraparound_write_passes : passes wraparound_write.
Proof.
  unfold passes, wraparound_write.
  assert (Hb : forallb (fun b => b =? 98) (filled 98 (SEND_BUF_SIZE / 2 + 10)) = true)
    by (apply forallb_forall; intros b Hb; apply repeat_spec in Hb; lia).
  pose proof (len_filled 97 (SEND_BUF_SIZE / 2) ltac:(done)) as Hh.
  pose proof (len_filled 98 (SEND_BUF_SIZE / 2 + 10) ltac:(done)) as Hs.
  revert Hb Hh Hs. generalize (filled 97 (SEND_BUF_SIZE / 2)) (filled 98 (SEND_BUF_SIZE / 2 + 10)).
  change (SEND_BUF_SIZE / 2) with 32768. intros half second Hb Hh Hs.
  destruct (idle_write (SendBuffer_new 0) half 32768 (idle_new 0)) as (sb1 & -> & W1 & L1 & U1 & N1 & ->);
    [unfold SEND_BUF_SIZE; lia.. |]. cbn [unwrap mbind Res_bind]. rewrite <- U1 in *.
  pose proof (idle_again sb1 (len half) W1 L1 ltac:(lia) N1) as I2.
  destruct (idle_write _ second SEND_BUF_SIZE I2) as (sb3 & -> & _ & _ & _ & _ & ->);
    [unfold SEND_BUF_SIZE; lia.. |].
  rewrite Hs, assert_eq_refl. cbn [unwrap mbind Res_bind]. by rewrite Hs, assert_eq_refl, Hb.
Qed.

(** ** They pass *)
Example send_buffer_tests : Forall passes
  [write_and_read_single_segment; acknowledge_advances_una; partial_acknowledge; respects_max_len;
   write_respects_capacity; wraparound_write; seq_starts_after_iss].
Proof.
  do 4 (apply Forall_cons; split; [by vm_compute |]).
  apply Forall_cons; split; [exact write_respects_capacity_passes |].
  apply Forall_cons; split; [exact wraparound_write_passes |]. run_tests.
Qed.

Example recv_buffer_tests : Forall passes
  [in_order_insert_and_read; out_of_order_reassembly; next_expected_advances;
   window_shrinks_as_buffer_fills; partial_read; duplicate_segment_ignored; partial_overlap_trimmed].
Proof. run_tests. Qed.

Example retransmit_tests : Forall passes
  [push_and_acknowledge_removes_entry; partial_ack_keeps_entry; first_unacked_returns_first_entry;
   expired_segments_returns_timed_out_entries; rto_doubles_on_retransmit;
   multiple_entries_independently_acknowledged].
Proof. run_tests. Qed.
