(* ===== verification/ConnectionTests.v ===== *)
(** * The unit tests of the connection (the [mod tests] of tcp/connection.rs)

    One definition per test, as in UnitTests.v, for every hasher: the initial sequence
    number of the server is what the hasher makes of it, and the tests are evaluated
    for two of them, one at the very end of the sequence space. A test reads the clock
    once, and again after it slept. The two transfers of a megabyte are not written
    down: the theorems of Stream.v are about transfers of any size. *)
From S2P Require Import Prelude Errors Tcb Header SendBuffer RecvBuffer Float64 Retransmit Connection Http UnitTests BufferTests.
From Stdlib Require String.
Import String.StringSyntax.

Definition CLIENT_ISN : Z := 1000.

Definition parse_segment (raw : list Z) : Fallible TcpSegment :=
  unwrap_ok (TcpSegment_parse raw CLIENT_IP SERVER_IP).

Definition parse_response (raw : list Z) : Fallible TcpSegment :=
  unwrap_ok (TcpSegment_parse raw SERVER_IP CLIENT_IP).

(** [SegmentBuilder::new(CLIENT_IP, SERVER_IP, ..).seq(s).ack(a).flags(f).payload(d)] *)
Definition from_client (seq ack : Z) (fl : TcpFlags) (data : list Z) : list Z :=
  SegmentBuilder_build (SegmentBuilder_payload data (SegmentBuilder_flags fl (SegmentBuilder_ack ack
    (SegmentBuilder_seq seq (SegmentBuilder_new CLIENT_IP SERVER_IP CLIENT_PORT SERVER_PORT))))).

Definition client_syn : list Z := header_build_syn CLIENT_ISN.

Definition client_data_seg (seq server_isn : Z) (data : list Z) : list Z :=
  from_client seq (wrapping_add server_isn 1) PSH_ACK data.

Definition client_ack (ack_num : Z) : list Z := from_client (CLIENT_ISN + 1) ack_num ACK [].

Definition client_fin (seq ack_num : Z) : list Z := from_client seq ack_num FIN_ACK [].

(** [conn.process_segment(&parse_segment(&raw)).unwrap()] *)
Definition receives (conn : Connection) (raw : list Z) : Fallible (Connection * option (list Z)) :=
  seg ← parse_segment raw; unwrap_ok (process_segment conn (mkClock t0 t0) seg).

(** A call whose [Option] the test unwraps. *)
Definition expects {A} (r : Connection * option A) : Fallible (Connection * A) :=
  a ← unwrap (snd r); Ok (fst r, a).

Definition in_state (conn : Connection) (s : TcbState) : Fallible unit := assert_eq (state (tcb conn)) s.

Definition is_some {A} (o : option A) : bool := match o with Some _ => true | None => false end.
Definition is_none {A} (o : option A) : bool := negb (is_some o).

Section Tests.
Context `{DefaultHasher}.

Definition make_connection : Connection :=
  Connection_new (new_for_listen SERVER_IP SERVER_PORT CLIENT_IP CLIENT_PORT 0).

Definition make_client : Connection :=
  Connection_new (new_for_connect SERVER_IP SERVER_PORT CLIENT_IP CLIENT_PORT 0).

Definition establish_connection : Fallible (Connection * Z) :=
  '(conn, resp) ← receives make_connection client_syn;
  syn_ack_raw ← unwrap resp;
  syn_ack ← parse_response syn_ack_raw;
  let server_isn := seq_num (header syn_ack) in
  '(conn, _) ← receives conn (from_client (CLIENT_ISN + 1) (wrapping_add server_isn 1) ACK []);
  in_state conn Established;;
  Ok (conn, server_isn).

(** ** The handshake *)
Definition listen_transitions_to_syn_received_on_syn : Fallible unit :=
  '(conn, response) ← receives make_connection (header_build_syn 1000);
  assert (is_some response);;
  in_state conn SynReceived;;
  raw ← unwrap response;
  syn_ack ← parse_response raw;
  assert (flag_syn (flags (header syn_ack)));; assert (flag_ack (flags (header syn_ack)));;
  assert_eq (ack_num (header syn_ack)) 1001.

Definition syn_received_transitions_to_established_on_ack : Fallible unit :=
  '(conn, resp) ← receives make_connection (header_build_syn 1000);
  syn_ack_raw ← unwrap resp;
  syn_ack ← parse_response syn_ack_raw;
  '(conn, response) ← receives conn (from_client 1001 (wrapping_add (seq_num (header syn_ack)) 1) ACK []);
  assert (is_none response);;
  in_state conn Established.

Definition listen_drops_rst : Fallible unit :=
  '(conn, response) ← receives make_connection (from_client 0 0 RST []);
  assert (is_none response);;
  in_state conn Listen.

Definition listen_sends_rst_on_bare_ack : Fallible unit :=
  '(conn, response) ← receives make_connection (from_client 0 12345 ACK []);
  assert (is_some response);;
  raw ← unwrap response;
  rst ← parse_response raw;
  assert (flag_rst (flags (header rst))).

Definition syn_received_resets_to_listen_on_rst : Fallible unit :=
  '(conn, _) ← receives make_connection (header_build_syn 1000);
  in_state conn SynReceived;;
  '(conn, _) ← receives conn (from_client 1001 0 RST []);
  in_state conn Listen.

Definition established_transitions_to_close_wait_on_fin : Fallible unit :=
  '(conn, resp) ← receives make_connection (header_build_syn 1000);
  syn_ack_raw ← unwrap resp;
  syn_ack ← parse_response syn_ack_raw;
  let acked := wrapping_add (seq_num (header syn_ack)) 1 in
  '(conn, _) ← receives conn (from_client 1001 acked ACK []);
  '(conn, response) ← receives conn (from_client 1001 acked FIN_ACK []);
  assert (is_some response);;
  in_state conn CloseWait;;
  raw ← unwrap response;
  ack_resp ← parse_response raw;
  assert (flag_ack (flags (header ack_resp))).

(** ** Data transfer *)
Definition receives_data_in_established : Fallible unit :=
  '(conn, server_isn) ← establish_connection;
  '(conn, response) ← receives conn (client_data_seg (CLIENT_ISN + 1) server_isn (lit "hello world"));
  assert (is_some response);;
  raw ← unwrap response;
  ack ← parse_response raw;
  assert (flag_ack (flags (header ack)));;
  assert_eq (ack_num (header ack)) (CLIENT_ISN + 1 + 11);;
  assert_eq (received_available conn) 11;;
  let '(_, out, _) := read_received conn (zeroed 11) in
  assert_eq out (lit "hello world").

Definition sends_data_in_established : Fallible unit :=
  '(conn, server_isn) ← establish_connection;
  let '(conn, _) := write_data conn (lit "hello server") in
  '(conn, seg_raw) ← expects (next_segment_to_send conn 1400 t0);
  seg ← parse_response seg_raw;
  assert (flag_ack (flags (header seg)));; assert (flag_psh (flags (header seg)));;
  assert_eq (payload seg) (lit "hello server");;
  assert_eq (seq_num (header seg)) (wrapping_add server_isn 1);;
  let '(conn, more) := next_segment_to_send conn 1400 t0 in
  assert (is_none more);;
  '(conn, _) ← receives conn (client_ack (wrapping_add server_isn (1 + 12)));
  assert (SendBuffer_is_empty (send_buf conn)).

Definition out_of_order_data_reassembled : Fallible unit :=
  '(conn, server_isn) ← establish_connection;
  let seg2 := client_data_seg (CLIENT_ISN + 1 + 5) server_isn (lit "world") in
  let seg1 := client_data_seg (CLIENT_ISN + 1) server_isn (lit "hello") in
  '(conn, _) ← receives conn seg2;
  assert_eq (received_available conn) 0;;
  '(conn, resp) ← receives conn seg1;
  assert (is_some resp);;
  raw ← unwrap resp;
  ack ← parse_response raw;
  assert_eq (ack_num (header ack)) (CLIENT_ISN + 1 + 10);;
  assert_eq (received_available conn) 10;;
  let '(_, out, _) := read_received conn (zeroed 10) in
  assert_eq out (lit "helloworld").

(** ** Closing *)
Definition active_close_fin_wait_path : Fallible unit :=
  '(conn, server_isn) ← establish_connection;
  '(conn, fin_raw) ← expects (initiate_close conn);
  in_state conn FinWait1;;
  fin_seg ← parse_response fin_raw;
  assert (flag_fin (flags (header fin_seg)) && flag_ack (flags (header fin_seg)));;
  let fin_seq_acked := wrapping_add server_isn 2 in
  '(conn, _) ← receives conn (client_ack fin_seq_acked);
  in_state conn FinWait2;;
  '(conn, ack_resp) ← receives conn (client_fin (CLIENT_ISN + 1) fin_seq_acked);
  assert (is_some ack_resp);;
  in_state conn TimeWait;;
  raw ← unwrap ack_resp;
  ack_seg ← parse_response raw;
  assert (flag_ack (flags (header ack_seg)));;
  assert_eq (ack_num (header ack_seg)) (CLIENT_ISN + 2).

Definition passive_close_last_ack_to_closed : Fallible unit :=
  '(conn, server_isn) ← establish_connection;
  '(conn, _) ← receives conn (client_fin (CLIENT_ISN + 1) (wrapping_add server_isn 1));
  in_state conn CloseWait;;
  '(conn, fin_raw) ← expects (initiate_close conn);
  in_state conn LastAck;;
  fin_seg ← parse_response fin_raw;
  assert (flag_fin (flags (header fin_seg)) && flag_ack (flags (header fin_seg)));;
  '(conn, _) ← receives conn (client_ack (wrapping_add server_isn 2));
  in_state conn Closed.

Definition time_wait_transitions_to_closed_after_2msl : Fallible unit :=
  '(conn, server_isn) ← establish_connection;
  '(conn, _) ← expects (initiate_close conn);
  let fin_acked := wrapping_add server_isn 2 in
  '(conn, _) ← receives conn (client_ack fin_acked);
  in_state conn FinWait2;;
  '(conn, _) ← receives conn (client_fin (CLIENT_ISN + 1) fin_acked);
  in_state conn TimeWait;;
  let not_yet := t0 + from_secs 30 in
  let '(conn, closed) := tick_time_wait conn not_yet in
  assert (negb closed);;
  in_state conn TimeWait;;
  let past_2msl := t0 + from_secs 61 in
  let '(conn, closed) := tick_time_wait conn past_2msl in
  assert closed;;
  in_state conn Closed.

Definition simultaneous_close_via_closing_state : Fallible unit :=
  '(conn, server_isn) ← establish_connection;
  '(conn, our_fin_raw) ← expects (initiate_close conn);
  in_state conn FinWait1;;
  our_fin ← parse_response our_fin_raw;
  '(conn, ack_resp) ← receives conn (client_fin (CLIENT_ISN + 1) (wrapping_add server_isn 1));
  assert (is_some ack_resp);;
  in_state conn Closing;;
  let our_fin_acked := wrapping_add (seq_num (header our_fin)) 1 in
  '(conn, _) ← receives conn (client_ack our_fin_acked);
  in_state conn TimeWait.

Definition fin_plus_ack_in_fin_wait_1_goes_to_time_wait : Fallible unit :=
  '(conn, _server_isn) ← establish_connection;
  '(conn, our_fin_raw) ← expects (initiate_close conn);
  our_fin ← parse_response our_fin_raw;
  in_state conn FinWait1;;
  '(conn, resp) ←
    receives conn (from_client (CLIENT_ISN + 1) (wrapping_add (seq_num (header our_fin)) 1) FIN_ACK []);
  assert (is_some resp);;
  in_state conn TimeWait.

(** ** Congestion control *)
Definition write_and_send (conn : Connection) (data : list Z) : Fallible (Connection * list Z) :=
  let '(conn, _) := write_data conn data in expects (next_segment_to_send conn 1400 t0).

Definition slow_start_cwnd_grows_per_ack : Fallible unit :=
  '(conn, server_isn) ← establish_connection;
  let initial_cwnd := cwnd (tcb conn) in
  assert (cwnd (tcb conn) <? ssthresh (tcb conn));;
  '(conn, _) ← write_and_send conn (zeroed 1400);
  '(conn, _) ← receives conn (client_ack (wrapping_add server_isn (1 + 1400)));
  assert (initial_cwnd <? cwnd (tcb conn));;
  assert_eq (cwnd (tcb conn)) (initial_cwnd + Z.min 1400 MSS).

Definition congestion_avoidance_cwnd_grows_below_one_mss_per_ack : Fallible unit :=
  '(conn, server_isn) ← establish_connection;
  let conn := set_cwnd (2 * 1460) (set_ssthresh 1460 conn) in
  '(conn, _) ← write_and_send conn (zeroed 1400);
  let before := cwnd (tcb conn) in
  '(conn, _) ← receives conn (client_ack (wrapping_add server_isn (1 + 1400)));
  let growth := cwnd (tcb conn) - before in
  assert (0 <? growth);; assert (growth <? MSS).

(** [n] times the same segment. *)
Fixpoint receives_times (n : nat) (conn : Connection) (raw : list Z)
  : Fallible (Connection * list (option (list Z))) :=
  match n with
  | O => Ok (conn, [])
  | S n => '(conn, resp) ← receives conn raw;
           '(conn, resps) ← receives_times n conn raw;
           Ok (conn, resp :: resps)
  end.

Definition fast_retransmit_on_triple_dup_ack : Fallible unit :=
  '(conn, server_isn) ← establish_connection;
  '(conn, _) ← write_and_send conn (lit "segment data here");
  let dup_ack_raw := client_ack (wrapping_add server_isn 1) in
  '(conn, resps) ← receives_times 3 conn dup_ack_raw;
  assert (is_none (nth 0 resps None));; assert (is_none (nth 1 resps None));;
  raw ← unwrap (nth 2 resps None);
  retransmit ← parse_response raw;
  assert (flag_ack (flags (header retransmit)) && flag_psh (flags (header retransmit)));;
  assert_eq (payload retransmit) (lit "segment data here");;
  assert_eq (dup_ack_count (tcb conn)) 3;;
  assert (ssthresh (tcb conn) <? cwnd (tcb conn)).

Definition fast_recovery_cwnd_inflates_past_3_dup_acks : Fallible unit :=
  '(conn, server_isn) ← establish_connection;
  '(conn, _) ← write_and_send conn (zeroed 1400);
  let dup_ack_raw := client_ack (wrapping_add server_isn 1) in
  '(conn, _) ← receives_times 3 conn dup_ack_raw;
  let cwnd_after_3 := cwnd (tcb conn) in
  '(conn, _) ← receives conn dup_ack_raw;
  assert_eq (cwnd (tcb conn)) (cwnd_after_3 + MSS).

Definition dup_ack_count_resets_on_new_ack : Fallible unit :=
  '(conn, server_isn) ← establish_connection;
  '(conn, _) ← write_and_send conn (zeroed 1400);
  let dup := client_ack (wrapping_add server_isn 1) in
  '(conn, _) ← receives conn dup;
  '(conn, _) ← receives conn dup;
  assert_eq (dup_ack_count (tcb conn)) 2;;
  '(conn, _) ← receives conn (client_ack (wrapping_add server_isn (1 + 1400)));
  assert_eq (dup_ack_count (tcb conn)) 0.

(** ** Retransmission *)
(** [conn.retransmit_queue.rto = d] *)
Definition set_rto (d : Z) (conn : Connection) : Connection :=
  set_retransmit_queue (with_rto (retransmit_queue conn) d) conn.

Definition retransmit_on_rto_expiry : Fallible unit :=
  '(conn, server_isn) ← establish_connection;
  let conn := set_rto (from_millis 2) conn in
  '(conn, _) ← write_and_send conn (lit "retransmit me");
  '(conn, retransmits) ← unwrap_ok (take_retransmits conn (after_millis 3));
  assert_eq (len retransmits) 1;;
  raw ← unwrap (head retransmits);
  seg ← parse_response raw;
  assert_eq (payload seg) (lit "retransmit me");;
  assert_eq (seq_num (header seg)) (wrapping_add server_isn 1).

Definition rto_expiry_resets_cwnd_to_slow_start : Fallible unit :=
  '(conn, _) ← establish_connection;
  let conn := set_rto (from_millis 2) conn in
  let conn := set_ssthresh 65535 (set_cwnd (10 * MSS) conn) in
  '(conn, _) ← write_and_send conn (zeroed 1400);
  '(conn, _) ← unwrap_ok (take_retransmits conn (after_millis 3));
  assert_eq (cwnd (tcb conn)) MSS;;
  assert_eq (ssthresh (tcb conn)) (5 * MSS).

Definition retransmit_completes_transfer : Fallible unit :=
  '(conn, _server_isn) ← establish_connection;
  let conn := set_rto (from_millis 2) conn in
  '(conn, original) ← write_and_send conn (lit "hello retransmit world");
  original_seg ← parse_response original;
  assert (negb (SendBuffer_is_empty (send_buf conn)));;
  '(conn, retransmits) ← unwrap_ok (take_retransmits conn (after_millis 4));
  assert_eq (len retransmits) 1;;
  let new_ack := wrapping_add (seq_num (header original_seg)) (as_u32 (len (payload original_seg))) in
  '(conn, _) ← receives conn (client_ack new_ack);
  assert (SendBuffer_is_empty (send_buf conn));;
  assert (RetransmitQueue_is_empty (retransmit_queue conn)).

Definition time_wait_retransmits_ack_on_fin : Fallible unit :=
  '(conn, server_isn) ← establish_connection;
  '(conn, _) ← expects (initiate_close conn);
  let fin_acked := wrapping_add server_isn 2 in
  '(conn, _) ← receives conn (client_ack fin_acked);
  let client_fin_raw := client_fin (CLIENT_ISN + 1) fin_acked in
  '(conn, _) ← receives conn client_fin_raw;
  in_state conn TimeWait;;
  '(conn, resp) ← receives conn client_fin_raw;
  assert (is_some resp);;
  raw ← unwrap resp;
  ack_seg ← parse_response raw;
  assert (flag_ack (flags (header ack_seg))).

(** ** The active open *)
Definition connect_transitions_to_syn_sent : Fallible unit :=
  '(conn, syn_raw) ← expects (connect make_client);
  in_state conn SynSent;;
  syn ← parse_response syn_raw;
  assert (flag_syn (flags (header syn)));; assert (negb (flag_ack (flags (header syn))));;
  assert_eq (seq_num (header syn)) (snd_iss (tcb_snd (tcb conn))).

Definition syn_sent_transitions_to_established_on_syn_ack : Fallible unit :=
  '(conn, syn_raw) ← expects (connect make_client);
  our_syn ← parse_response syn_raw;
  let syn_ack := from_client CLIENT_ISN (wrapping_add (seq_num (header our_syn)) 1) SYN_ACK [] in
  '(conn, resp) ← receives conn syn_ack;
  assert (is_some resp);;
  in_state conn Established;;
  raw ← unwrap resp;
  ack ← parse_response raw;
  assert (flag_ack (flags (header ack)));;
  assert_eq (ack_num (header ack)) (CLIENT_ISN + 1).

Definition syn_sent_rst_closes_connection : Fallible unit :=
  '(conn, syn_raw) ← expects (connect make_client);
  our_syn ← parse_response syn_raw;
  '(conn, _) ← receives conn (from_client (wrapping_add (seq_num (header our_syn)) 1) 0 RST []);
  in_state conn Closed.

Definition syn_sent_simultaneous_open_goes_to_syn_received : Fallible unit :=
  '(conn, _) ← expects (connect make_client);
  '(conn, resp) ← receives conn client_syn;
  in_state conn SynReceived;;
  assert (is_some resp);;
  raw ← unwrap resp;
  syn_ack ← parse_response raw;
  assert (flag_syn (flags (header syn_ack)) && flag_ack (flags (header syn_ack))).

(** ** Window probes *)
Definition zero_window_probe_sends_one_byte_when_window_closed : Fallible unit :=
  '(conn, _) ← establish_connection;
  let '(conn, _) := write_data (set_snd_wnd 0 conn) (lit "blocked data") in
  '(conn, probe_raw) ← expects (zero_window_probe conn);
  probe ← parse_response probe_raw;
  assert_eq (len (payload probe)) 1;;
  assert_eq (payload probe) (take 1 (lit "blocked data")).

Definition zero_window_probe_returns_none_when_window_open : Fallible unit :=
  '(conn, _) ← establish_connection;
  let '(conn, _) := write_data conn (lit "data") in
  assert (is_none (snd (zero_window_probe conn))).

Definition next_segment_blocked_when_window_zero : Fallible unit :=
  '(conn, _) ← establish_connection;
  let '(conn, _) := write_data (set_snd_wnd 0 conn) (lit "blocked") in
  assert (is_none (snd (next_segment_to_send conn 1400 t0))).

(** ** The eleven states *)
(** [visited.push(conn.tcb.state); assert_eq!(conn.tcb.state, s)] *)
Definition visit (visited : list TcbState) (conn : Connection) (s : TcbState) : Fallible (list TcbState) :=
  in_state conn s;; Ok (visited ++ [state (tcb conn)]).

Definition all_11_tcp_states_exercised : Fallible unit :=
  let conn := make_connection in
  visited ← visit [] conn Listen;
  '(conn, resp) ← receives conn client_syn;
  syn_ack_raw ← unwrap resp;
  syn_ack ← parse_response syn_ack_raw;
  let server_isn := seq_num (header syn_ack) in
  visited ← visit visited conn SynReceived;
  '(conn, _) ← receives conn (from_client (CLIENT_ISN + 1) (wrapping_add server_isn 1) ACK []);
  visited ← visit visited conn Established;
  '(conn, _) ← receives conn (client_fin (CLIENT_ISN + 1) (wrapping_add server_isn 1));
  visited ← visit visited conn CloseWait;
  '(conn, _) ← expects (initiate_close conn);
  visited ← visit visited conn LastAck;
  '(conn, _) ← receives conn (client_ack (wrapping_add server_isn 2));
  visited ← visit visited conn Closed;
  '(conn2, server_isn2) ← establish_connection;
  '(conn2, _) ← expects (initiate_close conn2);
  visited ← visit visited conn2 FinWait1;
  '(conn2, _) ← receives conn2 (client_ack (wrapping_add server_isn2 2));
  visited ← visit visited conn2 FinWait2;
  '(conn2, _) ← receives conn2 (client_fin (CLIENT_ISN + 1) (wrapping_add server_isn2 2));
  visited ← visit visited conn2 TimeWait;
  let '(conn2, _) := tick_time_wait conn2 (t0 + from_secs 61) in
  in_state conn2 Closed;;
  '(conn3, server_isn3) ← establish_connection;
  '(conn3, _) ← expects (initiate_close conn3);
  '(conn3, _) ← receives conn3 (client_fin (CLIENT_ISN + 1) (wrapping_add server_isn3 1));
  visited ← visit visited conn3 Closing;
  let conn4 := Connection_new (new_for_connect SERVER_IP 12345 CLIENT_IP CLIENT_PORT 0) in
  '(conn4, _) ← expects (connect conn4);
  visited ← visit visited conn4 SynSent;
  assert (forallb (fun s => existsb (state_eqb s) visited)
    [Listen; SynReceived; Established; CloseWait; LastAck; FinWait1; FinWait2; TimeWait; Closing; SynSent]).

Definition connection_suite : list (Fallible unit) :=
  [listen_transitions_to_syn_received_on_syn; syn_received_transitions_to_established_on_ack;
   listen_drops_rst; listen_sends_rst_on_bare_ack; syn_received_resets_to_listen_on_rst;
   established_transitions_to_close_wait_on_fin; receives_data_in_established;
   sends_data_in_established; out_of_order_data_reassembled; active_close_fin_wait_path;
   passive_close_last_ack_to_closed; time_wait_transitions_to_closed_after_2msl;
   simultaneous_close_via_closing_state; fin_plus_ack_in_fin_wait_1_goes_to_time_wait;
   slow_start_cwnd_grows_per_ack; congestion_avoidance_cwnd_grows_below_one_mss_per_ack;
   fast_retransmit_on_triple_dup_ack; fast_recovery_cwnd_inflates_past_3_dup_acks;
   dup_ack_count_resets_on_new_ack; retransmit_on_rto_expiry; rto_expiry_resets_cwnd_to_slow_start;
   retransmit_completes_transfer; time_wait_retransmits_ack_on_fin; connect_transitions_to_syn_sent;
   syn_sent_transitions_to_established_on_syn_ack; syn_sent_rst_closes_connection;
   syn_sent_simultaneous_open_goes_to_syn_received;
   zero_window_probe_sends_one_byte_when_window_closed;
   zero_window_probe_returns_none_when_window_open; next_segment_blocked_when_window_zero;
   all_11_tcp_states_exercised].
End Tests.

(** ** They pass *)
(** A hasher that makes every initial sequence number [isn]. *)
Program Definition isn_hasher (isn : Z) : DefaultHasher := {| hasher_finish _ := isn mod U32 |}.
Next Obligation.
  intros. pose proof (Z.mod_pos_bound isn U32 eq_refl). unfold U64, U32 in *. lia.
Qed.

Example connection_tests : Forall passes (@connection_suite (isn_hasher 305419896)).
Proof. unfold connection_suite. run_tests. Qed.

(** The last sequence number: everything the server sends lies beyond the wrap. *)
Example connection_tests_wrap : Forall passes (@connection_suite (isn_hasher (-1))).
Proof. unfold connection_suite. run_tests. Qed.
