(* ===== verification/TaskTests.v ===== *)
(** * The unit tests of the connection task (the [mod tests] of tcp/task.rs)

    A test spawns [run_connection_task] and talks to it through channels. Here the task
    is driven through the [select!]s the test provokes: both intervals tick at once
    when the task starts, then one message at a time is ready, and what the task sent
    is what the test receives. [dummy_app_channels] is used by no test. *)
From S2P Require Import Prelude Errors Tcb Header Float64 Retransmit Connection Task Http UnitTests BufferTests ConnectionTests.
From Stdlib Require String.
Import String.StringSyntax.

Definition TASK_CLIENT_PORT : Z := 12345.
Definition ZERO_MAC : list Z := zeroed 6.

(** The segment that goes over the wire and is read back, owned. *)
Definition make_owned (seq ack : Z) (fl : TcpFlags) (data : list Z) : Fallible TcpSegmentOwned :=
  let raw := SegmentBuilder_build (SegmentBuilder_payload data (SegmentBuilder_flags fl
    (SegmentBuilder_ack ack (SegmentBuilder_seq seq
      (SegmentBuilder_new CLIENT_IP SERVER_IP TASK_CLIENT_PORT SERVER_PORT))))) in
  seg ← unwrap_ok (TcpSegment_parse raw CLIENT_IP SERVER_IP);
  Ok (TcpSegmentOwned_from seg).

Definition make_syn_owned : Fallible TcpSegmentOwned := make_owned 1000 0 SYN [].
Definition make_ack_owned (seq ack : Z) : Fallible TcpSegmentOwned := make_owned seq ack ACK [].
Definition make_data_owned (seq ack : Z) (data : list Z) : Fallible TcpSegmentOwned :=
  make_owned seq ack PSH_ACK data.

(** What is ready at a [select!]: a message, nothing but a timer, the end of the inbox,
    the application's data. *)
Definition ready_inbound (seg : TcpSegmentOwned) : Poll :=
  mkPoll (Some (Some (mkInboundMsg seg))) false false None false.
Definition ready_timers (retransmit zwp : bool) : Poll := mkPoll None retransmit zwp None false.
Definition inbox_closed : Poll := mkPoll (Some None) false false None false.
Definition ready_app (data : list Z) : Poll := mkPoll None false false (Some (Some data)) false.

Definition at_t0 : Times := mkTimes (mkClock t0 t0) (fun _ => t0) t0 t0.

(** The task through a sequence of [select!]s, until it leaves its loop. *)
Fixpoint drive (s : TaskState) (polls : list Poll) : Fallible TaskOut :=
  match polls with
  | [] => Ok (mkTaskOut s [] [] Continue)
  | p :: polls =>
      o ← unwrap_ok (task_step ZERO_MAC ZERO_MAC at_t0 s p);
      match task_flow o with
      | Break => Ok o
      | Continue =>
          o' ← drive (task_state o) polls;
          Ok (mkTaskOut (task_state o') (sent_msgs o ++ sent_msgs o') (app_msgs o ++ app_msgs o') (task_flow o'))
      end
  end.

Section Tests.
Context `{DefaultHasher}.

(** [tokio::spawn(run_connection_task(conn, ..))] *)
Definition spawned : Fallible TaskOut :=
  let conn := Connection_new (new_for_listen SERVER_IP SERVER_PORT CLIENT_IP TASK_CLIENT_PORT 0) in
  drive (mkTaskState conn false) [ready_timers true true; ready_timers false true].

Definition task_sends_syn_ack_on_syn : Fallible unit :=
  task ← spawned;
  syn ← make_syn_owned;
  task ← drive (task_state task) [ready_inbound syn];
  resp ← unwrap (head (sent_msgs task));
  assert_eq (om_src_ip resp) SERVER_IP;; assert_eq (om_dst_ip resp) CLIENT_IP;;
  parsed ← unwrap_ok (TcpSegment_parse (om_tcp_bytes resp) (om_src_ip resp) (om_dst_ip resp));
  assert (flag_syn (flags (header parsed)));; assert (flag_ack (flags (header parsed))).

Definition task_exits_when_inbound_channel_closed : Fallible unit :=
  task ← spawned;
  task ← drive (task_state task) [inbox_closed];
  assert (match task_flow task with Break => true | Continue => false end).

Definition retransmit_and_zwp_timers_run_without_panic : Fallible unit :=
  task ← spawned;
  drive (task_state task) [ready_timers true false; ready_timers true true; ready_timers false true];;
  Ok tt.

(** The handshake of the last two tests: the task, the server's number, and the number
    that the test computes with a plain [+ 1]. *)
Definition task_handshake : Fallible (TaskOut * Z) :=
  task ← spawned;
  syn ← make_syn_owned;
  task ← drive (task_state task) [ready_inbound syn];
  syn_ack ← unwrap (head (sent_msgs task));
  syn_ack_parsed ← unwrap_ok (TcpSegment_parse (om_tcp_bytes syn_ack) SERVER_IP CLIENT_IP);
  next ← u32_add (seq_num (header syn_ack_parsed)) 1;
  ack ← make_ack_owned 1001 next;
  task ← drive (task_state task) [ready_inbound ack];
  Ok (task, next).

Definition app_data_forwarded_on_data_segment : Fallible unit :=
  '(task, next) ← task_handshake;
  data ← make_data_owned 1001 next (lit "hello");
  task ← drive (task_state task) [ready_inbound data];
  _ack ← unwrap (head (sent_msgs task));
  received ← unwrap (head (app_msgs task));
  assert_eq received (lit "hello").

Definition app_send_triggers_data_segment : Fallible unit :=
  '(task, _) ← task_handshake;
  task ← drive (task_state task) [ready_app (lit "world")];
  data_seg ← unwrap (head (sent_msgs task));
  parsed ← unwrap_ok (TcpSegment_parse (om_tcp_bytes data_seg) SERVER_IP CLIENT_IP);
  assert_eq (payload parsed) (lit "world").

Definition task_suite : list (Fallible unit) :=
  [task_sends_syn_ack_on_syn; task_exits_when_inbound_channel_closed;
   retransmit_and_zwp_timers_run_without_panic; app_data_forwarded_on_data_segment;
   app_send_triggers_data_segment].
End Tests.

(** ** They pass *)
Example task_tests : Forall passes (@task_suite (isn_hasher 305419896)).
Proof. unfold task_suite. run_tests. Qed.

(** The plain [+ 1] of the last two tests panics when the hasher makes the last sequence
    number, where the task itself goes on. *)
Example task_tests_wrap :
  Forall passes (take 3 (@task_suite (isn_hasher (-1)))) /\
  Forall (fun t => t = Panic) (drop 3 (@task_suite (isn_hasher (-1)))).
Proof. split; unfold task_suite; cbn [take drop]; run_tests. Qed.
